(* ===== verification/_CoqProject ===== *)
-Q . S2P
Prelude.v
GoStd.v
StringFacts.v
GoTime.v
Base64.v
Hash.v
Models.v
Effects.v
Redis.v
Store.v
Sorting.v
Repos.v
AccountRepos.v
RbacRepos.v
AuditRepo.v
Libraries.v
Config.v
EmailRepos.v
EmailService.v
Frame.v
SenderSpec.v
Onward.v
JwtKeys.v
AuditTrail.v
Rbac.v
TenantService.v
Http.v
Scope.v
AuthService.v
DeviceFlow.v
Session.v
ClientService.v
Mfa.v
MfaService.v
Registration.v
UserService.v
HandlerSecurity.v
TokenEndpoint.v
Authorize.v
BrowserPages.v
Middleware.v
Idempotency.v
Management.v
RegistrationHandler.v
AccountPages.v
Routes.v
KeyFiles.v
Schema.v
Isolation.v
IsolationServices.v
Examples.v
AuthSpec.v
TokenSpec.v
DeviceSpec.v
Concurrency.v
SessionSpec.v
MfaSpec.v
UserSpec.v
RegistrationSpec.v
RbacSpec.v
AuthorizeSpec.v
TokenEndpointSpec.v
IdempotencySpec.v
Answers.v
TenantSpec.v
MailSpec.v
QueueSpec.v
EmailSpec.v
RateLimitSpec.v
RoutesSpec.v
KeyFilesSpec.v
IsolationSpec.v
SchemaSpec.v
AccountPagesSpec.v
ManagementSpec.v
