(* ===== verification/Prelude.v ===== *)
(** * ShieldGate: a verified model of the authorization server

    ShieldGate (src/, in Go) is a multi-tenant OAuth 2.0 / OpenID Connect
    authorization server: it logs users in, issues, refreshes, introspects and
    revokes tokens, and has a management API behind role-based access control.
    This library translates its core into executable definitions and proves
    what makes it correct. Names are those of the source; a module or a file
    corresponds to a Go file, a definition to a function.

    ** How the program hangs together

    cmd/auth-server/main.go builds the repositories (internal/repo/gorm), the
    services over them (internal/services), the handlers over those
    (internal/handlers), and one gin router with its middleware
    (internal/middleware). Rows and request types are in internal/models,
    signing keys in internal/jwtkeys, the second factor in internal/mfa. A
    request passes CORS, the rate limiter, tenant resolution, the request ID
    and request context; /v1 routes also pass authentication, idempotency and
    a permission check. Workers send queued email and delete expired rows.

    ** How code becomes definitions

    - Data: a struct is a record, fields keep their Go names behind a prefix
      per struct (us_Email). A Go string is a byte sequence ([string]), a
      uuid.UUID a number, time.Time and time.Duration are nanoseconds; int64
      arithmetic that can overflow is wrapped by [wrap64] (GoStd.v). A sentinel
      error is a constructor of [error], fmt.Errorf with %w is [EWrap].
    - Effects (Effects.v): a function that does input or output is a
      [prog A], a tree of atomic steps on a [World] - the tables, the number of
      steps taken, the token events, the client secret cache, the resolver
      cache and what the SMTP server got. [run] runs one alone and yields [Ok],
      [Err] or [Panic]; Concurrency.v interleaves several, a step at a time.
      Nothing is rolled back on an error, since the services run outside
      transactions; [Transaction] stands where a repository opens one.
      Programs are finite trees, so every run ends: no fuel is needed.
    - The environment ([Env]) says, for each step, what the clock returns,
      whether a statement fails, which bytes crypto/rand yields (or that it
      fails) and which UUID is drawn. No theorem assumes anything of it that
      it does not name ([clock_monotone], distinct UUIDs).
    - SQL (Store.v): a table is a list of rows, a repository method a sequence
      of statements; each is one step, checks primary keys and unique indexes
      of internal/database, fills in gorm's defaults and timestamps, and may
      fail. A statement with a condition (UPDATE ... WHERE used_at IS NULL) is
      atomic; a read followed by a write is not.
    - HTTP (Http.v): a gin handler is a function of the request and of the
      response so far; a middleware takes the rest of the chain as [next], and
      not calling it is c.Abort. Cookies, redirects, status, headers and the
      body are kept; a body is the value that is rendered.
    - Recursion is structural, on rows, strings, lists or the code's own loop
      bounds. Two functions take fuel: [Hash.blocks] cuts a message into
      blocks of 16 words and has as much fuel as there are words, and
      [GoStd.digits] prints numbers with twenty digits, which every 64-bit
      number fits in.

    ** Code outside src/

    Libraries are type classes of functions; what theorems rely on is in a
    separate class of laws, which the witnesses instantiate (Examples.v):
    google/uuid [UuidLib], golang-jwt [JwtLib], bcrypt [BcryptLib], HKDF and
    AES-GCM [AeadLib], net/url [RedirectLib] and [NetLib], encoding/json
    [JsonLib] and [PendingJson], gin's binding, rendering and route matching
    [JsonBind], [Rendering], [GinRouter], net/smtp [SmtpServer], mime
    [MimeLib], Go's map iteration order [MapOrder], go-redis [RedisLib], key files
    and the x509 parsers [KeyFileLib], viper
    [ViperLib], the Unicode case and space tables [UnicodeTables]. SHA-1,
    SHA-256, HMAC (Hash.v), base64, string functions (GoStd.v) and RFC 3339
    dates (GoTime.v) are written out and computed with.

    ** The files

    Foundations: Prelude (record update, notation, automation), GoStd,
    StringFacts, GoTime, Base64, Hash, Models (internal/models), Effects,
    Redis, Store, Sorting, Libraries, Config (config/config.go), Http, and the
    generic reasoning about programs: Frame ([keeps]: which tables an
    operation leaves alone), Onward ([onward]: steps only go forward), Schema
    ([steady]: each step keeps an invariant; primary keys and unique indexes)
    and Isolation ([iso]: whose rows an operation writes).

    Repositories: Repos, AccountRepos, RbacRepos, AuditRepo and EmailRepos
    (internal/repo/gorm).

    Services: AuthService, DeviceFlow, Scope, Session, ClientService,
    MfaService, Registration, UserService, Rbac, TenantService, AuditTrail,
    EmailService (internal/services and the resolver and recorder they use);
    JwtKeys (internal/jwtkeys, with its theorems), KeyFiles (its Load, and the
    start of main.go) and Mfa (internal/mfa).

    HTTP: HandlerSecurity, TokenEndpoint, Authorize, BrowserPages, Management,
    RegistrationHandler, AccountPages (internal/handlers), Middleware and
    Idempotency (internal/middleware), and Routes: setupRoutes, the middleware
    chain and the background rounds of main.go.

    ** What is proved

    - Tokens (AuthSpec, TokenSpec): a code or refresh token is exchanged only
      when stored, unused, unexpired and bound to the client (and PKCE,
      redirect URI, scope); a second use is refused and deletes the whole
      family, whatever was rotated since;
      revocation refines a pure function on tables; introspection discloses
      nothing on inactive tokens; validation checks signature, issuer,
      audience, tenant, expiry and revocation; token exchange never widens
      scope.
    - Concurrency: of any number of interleaved exchanges of one code only one
      gets it; and three interleavings in which the code goes wrong (see the
      lemmas on the device flow and on the replay race).
    - Devices, sessions (DeviceSpec, SessionSpec): who may redeem a device
      code, that a decision is final for the operations that follow it, one
      after another (a poll that overlaps it can undo it, see Concurrency),
      consent and session lifetimes.
    - Users, second factor (UserSpec, MfaSpec): authentication refines a
      decision table over the row; guessing a password ends with a lock after
      five failures, and the lock does not end by itself; reset and
      verification links are single use and bound to their user, and a reset
      changes nothing else but the email queue, with the sender the server
      wires (SenderSpec); codes are not accepted twice.
    - Endpoints (AuthorizeSpec, TokenEndpointSpec, AccountPagesSpec): a code is
      issued only for a sound request of an authenticated, consenting user;
      redirects go only to registered URIs; client authentication and its
      cache; the reset page answers the same whether or not the account
      exists, except while the tenant's template is inactive.
    - Authorization (RbacSpec, RoutesSpec): HasPermission is membership in
      active roles; every /v1 route refines an access matrix: it has an effect
      only for a validated token whose user has the permission.
    - Rate limiting (RateLimitSpec): given a redis client, the limiter holds
      every address to its budget; the server never gives it one, so it limits
      nothing (RoutesSpec.ServeHTTP_unlimited).
    - The whole server (Answers): every request is answered, with something
      written, and no error is left unhandled.
    - Tenant isolation (Isolation, IsolationServices, IsolationSpec): serving
      any request but a super admin's leaves every row of every other tenant as
      it was; the tenant of a /v1 request is that of its validated token. The
      proof follows the layers: statements, repositories and services that are
      given a tenant, handlers that take it from the request, the routes.
    - Keys (JwtKeys, KeyFilesSpec): a server that starts has a key set of the
      configured algorithm that fits what the token theorems assume of it, and
      no algorithm confusion is possible.
    - Well-formedness (Schema, SchemaSpec): however the steps of any requests
      and worker rounds interleave, primary keys and unique indexes identify
      rows in every table; this is what tenant isolation asks of a database.
    - Email (MailSpec, QueueSpec, EmailSpec): no header or markup injection,
      disjoint claims by concurrent workers, at most one delivery per attempt
      and the exact row it leaves, and that the queue drains in boundedly many
      rounds.
    - Registration, tenants, idempotency, audit (RegistrationSpec, TenantSpec,
      IdempotencySpec, ManagementSpec): validation equals a declarative policy,
      budgets of initial access tokens, host resolution and its bounded cache,
      exactly-once execution per key, and what a compliance report covers.

    Where the code falls short of what it means to do, a theorem states what
    it does; Concurrency.v, UserSpec.v, AuthorizeSpec.v, AccountPagesSpec.v,
    RoutesSpec.v, EmailSpec.v and ManagementSpec.v have such theorems, and say
    so.

    ** Not modelled

    Logs, metrics and traces (output only, left out of every definition); the
    HTTP and metrics listeners, timeouts of requests and contexts, and
    shutdown; gin.Recovery (a [Panic] outcome stands for its 500 answer); the
    timeout middleware, which no route uses; opening database and Redis
    connections, migrations, column sizes, the JSON encoding of array columns and foreign
    keys; types of internal/models no other package uses; HTML templates beyond the data they are given;
    the texts of validation errors that come from gin's validator. *)
From stdpp Require Export prelude strings list list_numbers numbers.
From Stdlib Require Export ZArith Lia.

#[export] Set Default Proof Using "Type".

Declare Scope go_scope.
Delimit Scope go_scope with go.
Open Scope go_scope.

(** Go's [==] on comparable values, as a boolean. *)
Notation "x ==? y" := (bool_decide (x = y)) (at level 70, no associativity) : go_scope.
Notation "x !=? y" := (negb (bool_decide (x = y))) (at level 70, no associativity) : go_scope.

(** ** Automation *)

(** Case analysis on every boolean test and match of the context. *)
Ltac bool_simp :=
  repeat match goal with
  | H : bool_decide _ = true |- _ => apply bool_decide_eq_true in H
  | H : bool_decide _ = false |- _ => apply bool_decide_eq_false in H
  | H : negb _ = true |- _ => apply negb_true_iff in H
  | H : negb _ = false |- _ => apply negb_false_iff in H
  | H : (_ && _)%bool = true |- _ => apply andb_true_iff in H as [? ?]
  | H : (_ || _)%bool = false |- _ => apply orb_false_iff in H as [? ?]
  | H : (_ <? _)%Z = true |- _ => apply Z.ltb_lt in H
  | H : (_ <? _)%Z = false |- _ => apply Z.ltb_ge in H
  | H : (_ <=? _)%Z = true |- _ => apply Z.leb_le in H
  | H : (_ <=? _)%Z = false |- _ => apply Z.leb_gt in H
  end.

Ltac split_match :=
  match goal with
  | |- context [match ?x with _ => _ end] => destruct x eqn:?
  end.

Ltac split_match_in H :=
  match type of H with
  | context [match ?x with _ => _ end] => destruct x eqn:?
  end.

(** ** Record update

    [r <| f := v |>] is Go's assignment to one field of a struct. [Eta R]
    rebuilds a record from its fields; the setter of a field is found by
    abstracting that field out of the rebuilt record. *)
Class Eta (R : Type) := eta : R -> R.
Class Upd {R T : Type} (proj : R -> T) := upd : (T -> T) -> R -> R.
Arguments upd {R T} proj {_} _ _ /.

Ltac derive_setter :=
  match goal with
  | |- @Upd ?R ?T ?proj =>
    let h := constr:(fun r : R => ltac:(
      let b := eval cbv beta delta [eta] in (@eta R _ r) in
      let b := eval hnf in b in
      match eval pattern (proj r) in b with ?g _ => exact g end)) in
    exact (fun f r => h r (f (proj r)))
  end.
#[export] Hint Extern 0 (Upd _) => derive_setter : typeclass_instances.

Notation "r <| f := v |>" := (upd f (fun _ => v) r)
  (at level 1, left associativity, format "r  <| f  :=  v |>") : go_scope.
