(* ===== verification/GoStd.v ===== *)
(** Go's standard library, as far as the modelled code uses it: strings,
    byte/integer conversions, int64 arithmetic, base64url and time. A Go
    string is a byte sequence, which is what [string] is here. *)
From S2P Require Import Prelude.
From Stdlib Require Import Ascii String.

Open Scope Z_scope.

(** ** Integers *)

Definition two63 : Z := 9223372036854775808.
Definition two64 : Z := 18446744073709551616.

(** int64 wrap-around: the value an int64 operation stores. *)
Definition wrap64 (z : Z) : Z := (z + two63) mod two64 - two63.

(** ** Bytes *)

Definition byte_val (c : ascii) : Z := Z.of_N (N_of_ascii c).
Definition byte_chr (z : Z) : ascii := ascii_of_N (Z.to_N (z mod 256)).

Fixpoint bytes_of (s : string) : list Z :=
  match s with
  | EmptyString => []
  | String c s' => byte_val c :: bytes_of s'
  end.

Fixpoint string_of (l : list Z) : string :=
  match l with
  | [] => EmptyString
  | z :: l' => String (byte_chr z) (string_of l')
  end.

(** The [size] low bytes of a number, big-endian. *)
Fixpoint be_bytes (size : nat) (z : Z) : list Z :=
  match size with
  | O => []
  | S size' => be_bytes size' (z / 256) ++ [z mod 256]
  end.
Definition be_val (l : list Z) : Z := foldl (fun z b => 256 * z + b) 0 l.

(** ** time *)

(** A time.Time is its nanoseconds since the Unix epoch; the zero time is
    January 1, year 1. A time.Duration is its nanoseconds. *)
Definition nanosecond : Z := 1.
Definition second : Z := 1000000000.
Definition minute : Z := 60 * second.
Definition hour : Z := 60 * minute.
Definition time_zero : Z := -62135596800 * second.

Definition time_unix (t : Z) : Z := t / second.
Definition time_is_zero (t : Z) : bool := t =? time_zero.
Definition time_before (t u : Z) : bool := t <? u.
Definition time_after (t u : Z) : bool := u <? t.
(** t.Sub(u) saturates at the int64 range. *)
Definition time_sub (t u : Z) : Z := Z.max (- two63) (Z.min (two63 - 1) (t - u)).
(** int64(d.Seconds()); d.Seconds() is a float64, exact to below a nanosecond
    for durations of up to 2^22 seconds. *)
Definition dur_seconds (d : Z) : Z := Z.quot d second.

(** ** strings *)

(** The white space of unicode.IsSpace in UTF-8. Its encodings start with
    an ASCII byte or a leading byte, so testing a prefix of the rest of the
    string finds exactly the space runes a UTF-8 decoder finds. *)
Definition space1 (c : ascii) : bool :=
  let b := byte_val c in ((9 <=? b) && (b <=? 13)) || (b =? 32).

Definition space2 (c d : ascii) : bool :=
  (byte_val c =? 0xc2) && ((byte_val d =? 0x85) || (byte_val d =? 0xa0)).

Definition space3 (c d e : ascii) : bool :=
  let b1 := byte_val c in let b2 := byte_val d in let b3 := byte_val e in
  ((b1 =? 0xe1) && (b2 =? 0x9a) && (b3 =? 0x80)) ||
  ((b1 =? 0xe2) && (b2 =? 0x80) &&
     (((0x80 <=? b3) && (b3 <=? 0x8a)) || (b3 =? 0xa8) || (b3 =? 0xa9) || (b3 =? 0xaf))) ||
  ((b1 =? 0xe2) && (b2 =? 0x81) && (b3 =? 0x9f)) ||
  ((b1 =? 0xe3) && (b2 =? 0x80) && (b3 =? 0x80)).

(** A string as chunks: a whole space rune ([true]) or one other byte. *)
Fixpoint chunks (s : string) : list (bool * string) :=
  match s with
  | EmptyString => []
  | String c s1 =>
    if space1 c then (true, String c EmptyString) :: chunks s1 else
    match s1 with
    | EmptyString => (false, String c EmptyString) :: chunks s1
    | String d s2 =>
      if space2 c d then (true, String c (String d EmptyString)) :: chunks s2 else
      match s2 with
      | EmptyString => (false, String c EmptyString) :: chunks s1
      | String e s3 =>
        if space3 c d e
        then (true, String c (String d (String e EmptyString))) :: chunks s3
        else (false, String c EmptyString) :: chunks s1
      end
    end
  end.

Definition flush (cur : string) : list string :=
  match cur with EmptyString => [] | _ => [cur] end.

Fixpoint group (cs : list (bool * string)) (cur : string) : list string :=
  match cs with
  | [] => flush cur
  | (true, _) :: cs' => flush cur ++ group cs' EmptyString
  | (false, b) :: cs' => group cs' (cur +:+ b)
  end.

(** strings.Fields *)
Definition Fields (s : string) : list string := group (chunks s) "".

(** strings.Join(l, " ") *)
Fixpoint strings_Join (l : list string) : string :=
  match l with
  | [] => ""
  | [x] => x
  | x :: l' => x +:+ " " +:+ strings_Join l'
  end.

Fixpoint drop_spaces (cs : list (bool * string)) : list (bool * string) :=
  match cs with
  | (true, _) :: cs' => drop_spaces cs'
  | _ => cs
  end.

Definition unchunk (cs : list (bool * string)) : string :=
  foldr (fun p s => p.2 +:+ s) "" cs.

(** strings.TrimSpace *)
Definition TrimSpace (s : string) : string :=
  unchunk (reverse (drop_spaces (reverse (drop_spaces (chunks s))))).

(** strings.ReplaceAll(s, old, "") for a one-byte [old]. *)
Fixpoint remove_byte (old : ascii) (s : string) : string :=
  match s with
  | EmptyString => EmptyString
  | String c s' => if c ==? old then remove_byte old s' else String c (remove_byte old s')
  end.

Definition is_lower (c : ascii) : bool := (97 <=? byte_val c) && (byte_val c <=? 122).
Definition is_ascii (c : ascii) : bool := byte_val c <? 128.
Definition upper_byte (c : ascii) : ascii :=
  if is_lower c then byte_chr (byte_val c - 32) else c.

Fixpoint string_forall (p : ascii -> bool) (s : string) : bool :=
  match s with
  | EmptyString => true
  | String c s' => p c && string_forall p s'
  end.

Fixpoint string_map (f : ascii -> ascii) (s : string) : string :=
  match s with
  | EmptyString => EmptyString
  | String c s' => String (f c) (string_map f s')
  end.

(** The table-driven part of package unicode, which only non-ASCII input
    reaches. *)
Class UnicodeTables := {
  unicode_to_upper : string -> string;
  unicode_to_lower : string -> string;
  unicode_equal_fold : string -> string -> bool
}.

(** strings.ToUpper: ASCII strings take the byte-wise path. *)
Definition ToUpper `{UnicodeTables} (s : string) : string :=
  if string_forall is_ascii s then string_map upper_byte s else unicode_to_upper s.

Definition is_upper (c : ascii) : bool := (65 <=? byte_val c) && (byte_val c <=? 90).
Definition lower_byte (c : ascii) : ascii :=
  if is_upper c then byte_chr (byte_val c + 32) else c.

(** strings.ToLower *)
Definition ToLower `{UnicodeTables} (s : string) : string :=
  if string_forall is_ascii s then string_map lower_byte s else unicode_to_lower s.

(** strings.EqualFold *)
Definition EqualFold `{UnicodeTables} (s t : string) : bool :=
  if string_forall is_ascii s && string_forall is_ascii t
  then string_map lower_byte s ==? string_map lower_byte t else unicode_equal_fold s t.

Definition has_prefix (p s : string) : bool := String.prefix p s.

(** s[:n] and s[n:]; [None] is the slice-out-of-range panic. *)
Definition slice_to (s : string) (n : nat) : option string :=
  if Nat.leb n (String.length s) then Some (substring 0 n s) else None.
Definition slice_from (s : string) (n : nat) : option string :=
  if Nat.leb n (String.length s) then Some (substring n (String.length s - n) s) else None.

(** strings.TrimPrefix *)
Definition TrimPrefix (p s : string) : string :=
  if has_prefix p s
  then substring (String.length p) (String.length s - String.length p) s else s.

(** strings.TrimSuffix *)
Definition TrimSuffix (q s : string) : string :=
  let n := (String.length s - String.length q)%nat in
  if Nat.leb (String.length q) (String.length s) && (substring n (String.length q) s ==? q)
  then substring 0 n s else s.

(** The position of the first and of the last occurrence of a byte. *)
Fixpoint index_byte (c : ascii) (s : string) : option nat :=
  match s with
  | EmptyString => None
  | String d s' => if c ==? d then Some O else option_map S (index_byte c s')
  end.
Fixpoint last_index_byte (c : ascii) (s : string) : option nat :=
  match s with
  | EmptyString => None
  | String d s' => match last_index_byte c s' with
                   | Some i => Some (S i)
                   | None => if c ==? d then Some O else None
                   end
  end.
Definition has_byte (c : ascii) (s : string) : bool :=
  match index_byte c s with Some _ => true | None => false end.
Definition tail_from (n : nat) (s : string) : string := substring n (String.length s - n) s.

(** strings.Cut at a one-byte separator: what is before and after its first
    occurrence; [None]: not found. *)
Fixpoint Cut (c : ascii) (s : string) : option (string * string) :=
  match s with
  | EmptyString => None
  | String d s' =>
    if c ==? d then Some (EmptyString, s')
    else option_map (fun r => (String d r.1, r.2)) (Cut c s')
  end.

(** strings.Split at a one-byte separator. *)
Fixpoint Split (c : ascii) (s : string) : list string :=
  match s with
  | EmptyString => [EmptyString]
  | String d s' =>
    if c ==? d then EmptyString :: Split c s'
    else match Split c s' with
         | x :: l => String d x :: l
         | [] => [String d EmptyString]
         end
  end.

(** strings.Contains *)
Fixpoint Contains (s sub : string) : bool :=
  has_prefix sub s || match s with EmptyString => false | String _ s' => Contains s' sub end.

Fixpoint string_concat_map (f : ascii -> string) (s : string) : string :=
  match s with
  | EmptyString => EmptyString
  | String c s' => f c +:+ string_concat_map f s'
  end.


(** ** base64.RawURLEncoding *)

Definition b64url_alphabet : string :=
  "ABCDEFGHIJKLMNOPQRSTUVWXYZabcdefghijklmnopqrstuvwxyz0123456789-_".

Definition char_at (alphabet : string) (z : Z) : ascii :=
  default zero (String.get (Z.to_nat z) alphabet).

Fixpoint b64_groups (alphabet : string) (l : list Z) : string :=
  let ch := char_at alphabet in
  match l with
  | [] => EmptyString
  | [a] =>
    String (ch (Z.shiftr a 2)) (String (ch (Z.shiftl (Z.land a 3) 4)) EmptyString)
  | [a; b] =>
    String (ch (Z.shiftr a 2))
      (String (ch (Z.lor (Z.shiftl (Z.land a 3) 4) (Z.shiftr b 4)))
        (String (ch (Z.shiftl (Z.land b 15) 2)) EmptyString))
  | a :: b :: c :: l' =>
    String (ch (Z.shiftr a 2))
      (String (ch (Z.lor (Z.shiftl (Z.land a 3) 4) (Z.shiftr b 4)))
        (String (ch (Z.lor (Z.shiftl (Z.land b 15) 2) (Z.shiftr c 6)))
          (String (ch (Z.land c 63)) (b64_groups alphabet l'))))
  end.

Definition base64_raw_url (s : string) : string := b64_groups b64url_alphabet (bytes_of s).

(** base64.RawStdEncoding *)
Definition b64std_alphabet : string :=
  "ABCDEFGHIJKLMNOPQRSTUVWXYZabcdefghijklmnopqrstuvwxyz0123456789+/".
Definition base64_raw_std (s : string) : string := b64_groups b64std_alphabet (bytes_of s).

Fixpoint index_in (alphabet : string) (c : ascii) : option Z :=
  match alphabet with
  | EmptyString => None
  | String c' rest => if c ==? c' then Some 0 else option_map Z.succ (index_in rest c)
  end.

(** DecodeString of an unpadded encoding: '\r' and '\n' are skipped, the low
    bits of the last digit are not checked. *)
Fixpoint b64_digits (alphabet : string) (s : string) : option (list Z) :=
  match s with
  | EmptyString => Some []
  | String c s' =>
    if (byte_val c =? 10) || (byte_val c =? 13) then b64_digits alphabet s'
    else match index_in alphabet c, b64_digits alphabet s' with
         | Some d, Some ds => Some (d :: ds)
         | _, _ => None
         end
  end.
Fixpoint b64_undigits (l : list Z) : option (list Z) :=
  match l with
  | [] => Some []
  | [_] => None
  | [a; b] => Some [Z.lor (Z.shiftl a 2) (Z.shiftr b 4)]
  | [a; b; c] =>
    Some [Z.lor (Z.shiftl a 2) (Z.shiftr b 4);
          Z.lor (Z.shiftl (Z.land b 15) 4) (Z.shiftr c 2)]
  | a :: b :: c :: d :: l' =>
    match b64_undigits l' with
    | None => None
    | Some bytes =>
      Some (Z.lor (Z.shiftl a 2) (Z.shiftr b 4)
            :: Z.lor (Z.shiftl (Z.land b 15) 4) (Z.shiftr c 2)
            :: Z.lor (Z.shiftl (Z.land c 3) 6) d :: bytes)
    end
  end.
Definition base64_raw_decode (alphabet s : string) : option string :=
  match b64_digits alphabet s with
  | None => None
  | Some ds => option_map string_of (b64_undigits ds)
  end.
Definition base64_raw_std_decode (s : string) : option string := base64_raw_decode b64std_alphabet s.
Definition base64_raw_url_decode (s : string) : option string := base64_raw_decode b64url_alphabet s.

(** DecodeString of a padded encoding: groups of four, the last of which may
    end in "=" or "==". *)
Definition no_newlines (s : string) : string :=
  string_concat_map (fun c => if (byte_val c =? 10) || (byte_val c =? 13) then EmptyString
                              else String c EmptyString) s.
Definition base64_padded_decode (alphabet s : string) : option string :=
  let s := no_newlines s in
  if negb (Nat.eqb (Nat.modulo (String.length s) 4) 0) then None
  else base64_raw_decode alphabet (TrimSuffix "=" (TrimSuffix "=" s)).

(** base32.StdEncoding without padding: five bits per digit. *)
Definition byte_bits (z : Z) : list bool := map (Z.testbit z) [7; 6; 5; 4; 3; 2; 1; 0].
Definition bits_val (l : list bool) : Z := foldl (fun z b => 2 * z + (if b : bool then 1 else 0)) 0 l.
Definition b32_alphabet : string := "ABCDEFGHIJKLMNOPQRSTUVWXYZ234567".
Fixpoint b32_digits (bits : list bool) : string :=
  match bits with
  | [] => EmptyString
  | b1 :: b2 :: b3 :: b4 :: b5 :: bits' =>
    String (char_at b32_alphabet (bits_val [b1; b2; b3; b4; b5])) (b32_digits bits')
  | _ => String (char_at b32_alphabet (bits_val (take 5 (app bits (repeat false 4))))) EmptyString
  end.
Definition base32_raw (s : string) : string := b32_digits (flat_map byte_bits (bytes_of s)).

(** ** UTF-8 *)

Definition between (lo hi z : Z) : bool := (lo <=? z) && (z <=? hi).
Definition cont (c : ascii) : bool := between 0x80 0xbf (byte_val c).

(** The number of bytes of the rune at the head of a string, or [None] when
    they are not UTF-8 (the decoder then skips one byte). *)
Definition rune_width (s : string) : option nat :=
  match s with
  | EmptyString => None
  | String c0 s1 =>
    let b0 := byte_val c0 in
    if b0 <? 0x80 then Some 1%nat else
    match s1 with
    | EmptyString => None
    | String c1 s2 =>
      let b1 := byte_val c1 in
      if between 0xc2 0xdf b0 then (if cont c1 then Some 2%nat else None) else
      match s2 with
      | EmptyString => None
      | String c2 s3 =>
        let ok1 := if b0 =? 0xe0 then between 0xa0 0xbf b1
                   else if b0 =? 0xed then between 0x80 0x9f b1 else cont c1 in
        if between 0xe0 0xef b0 then (if ok1 && cont c2 then Some 3%nat else None) else
        match s3 with
        | EmptyString => None
        | String c3 _ =>
          let ok1 := if b0 =? 0xf0 then between 0x90 0xbf b1
                     else if b0 =? 0xf4 then between 0x80 0x8f b1 else cont c1 in
          if between 0xf0 0xf4 b0 && ok1 && cont c2 && cont c3 then Some 4%nat else None
        end
      end
    end
  end.

(** strings.Map for a mapping that only changes ASCII runes ([None] drops the
    rune); bytes that are not UTF-8 become U+FFFD. [skip] bytes of the current
    rune are still to be copied. *)
Fixpoint map_runes (f : ascii -> option ascii) (skip : nat) (s : string) : string :=
  match s with
  | EmptyString => EmptyString
  | String c s' =>
    match skip with
    | S skip' => String c (map_runes f skip' s')
    | O =>
      match rune_width s with
      | Some 1%nat =>
        match f c with
        | Some c' => String c' (map_runes f 0 s')
        | None => map_runes f 0 s'
        end
      | Some w => String c (map_runes f (w - 1) s')
      | None => string_of [0xef; 0xbf; 0xbd] +:+ map_runes f 0 s'
      end
    end
  end.

(** ** net/url escaping *)

Definition is_digit (c : ascii) : bool := between 48 57 (byte_val c).
Definition is_alnum (c : ascii) : bool := is_digit c || is_lower c || is_upper c.
Definition in_set (set : string) (c : ascii) : bool :=
  match index_in set c with Some _ => true | None => false end.
Definition hex_upper : string := "0123456789ABCDEF".
Definition percent (c : ascii) : string :=
  String "%"%char (String (char_at hex_upper (byte_val c / 16))
                     (String (char_at hex_upper (byte_val c mod 16)) EmptyString)).

(** url.PathEscape and url.QueryEscape *)
Definition PathEscape (s : string) : string :=
  string_concat_map (fun c => if is_alnum c || in_set "-_.~$&+=:@" c
                              then String c EmptyString else percent c) s.
Definition QueryEscape (s : string) : string :=
  string_concat_map (fun c => if is_alnum c || in_set "-_.~" c then String c EmptyString
                              else if c ==? " "%char then "+" else percent c) s.

(** url.QueryUnescape; [None]: an invalid escape. *)
Definition unhex (c : ascii) : option Z :=
  let b := byte_val c in
  if between 48 57 b then Some (b - 48)
  else if between 97 102 b then Some (b - 87)
  else if between 65 70 b then Some (b - 55)
  else None.
Fixpoint QueryUnescape (s : string) : option string :=
  match s with
  | EmptyString => Some EmptyString
  | String "%"%char (String a (String b s')) =>
    match unhex a, unhex b, QueryUnescape s' with
    | Some x, Some y, Some r => Some (String (byte_chr (16 * x + y)) r)
    | _, _, _ => None
    end
  | String "%"%char _ => None
  | String "+"%char s' => option_map (String " "%char) (QueryUnescape s')
  | String c s' => option_map (String c) (QueryUnescape s')
  end.

(** ** strconv *)

(** The digits of a string as a number; [None]: another byte. *)
Fixpoint digits_val (acc : Z) (s : string) : option Z :=
  match s with
  | EmptyString => Some acc
  | String c s' => if is_digit c then digits_val (10 * acc + (byte_val c - 48)) s' else None
  end.
(** strconv.Atoi with 64-bit int: a sign and decimal digits, in range. *)
Definition Atoi (s : string) : option Z :=
  let '(neg, d) := match s with
                   | String "-"%char d => (true, d)
                   | String "+"%char d => (false, d)
                   | _ => (false, s)
                   end in
  match d with
  | EmptyString => None
  | _ =>
    match digits_val 0 d with
    | None => None
    | Some n => let z := if neg : bool then - n else n in
                if (- two63 <=? z) && (z <? two63) then Some z else None
    end
  end.

(** ** fmt *)

(** The [n] low decimal digits of a number. *)
Fixpoint decimal (n : nat) (z : Z) : string :=
  match n with
  | O => EmptyString
  | S n' => decimal n' (z / 10) +:+ String (byte_chr (48 + z mod 10)) EmptyString
  end.

(** The decimal digits of a natural number, least significant last. *)
Fixpoint digits (fuel : nat) (z : Z) : string :=
  match fuel with
  | O => EmptyString
  | S fuel' => (if z <? 10 then EmptyString else digits fuel' (z / 10))
               +:+ String (byte_chr (48 + z mod 10)) EmptyString
  end.
(** %d of an int: twenty digits hold every 64-bit number. *)
Definition format_int (z : Z) : string :=
  if z <? 0 then String "-"%char (digits 20 (- z)) else digits 20 z.

(** ** Replacing *)

(** strings.ReplaceAll for a non-empty [old]; [skip] bytes of the match
    being replaced are still to be dropped. *)
Fixpoint replace_from (old new : string) (skip : nat) (s : string) : string :=
  match s with
  | EmptyString => EmptyString
  | String c s' =>
    match skip with
    | S skip' => replace_from old new skip' s'
    | O => if has_prefix old s then new +:+ replace_from old new (String.length old - 1) s'
           else String c (replace_from old new 0 s')
    end
  end.
Definition ReplaceAll (s old new : string) : string := replace_from old new 0 s.

(** html.EscapeString *)
Definition escape_html_byte (c : ascii) : string :=
  let b := byte_val c in
  if b =? 38 then "&amp;" else if b =? 39 then "&#39;" else if b =? 60 then "&lt;"
  else if b =? 62 then "&gt;" else if b =? 34 then "&#34;" else String c EmptyString.
Definition EscapeString (s : string) : string := string_concat_map escape_html_byte s.
