(* ===== verification/StringFacts.v ===== *)
(** Lemmas on the string functions of GoStd.v: splitting at white space and
    joining again, and the lengths of encodings. *)
From S2P Require Import Prelude GoStd.
From Stdlib Require Import Ascii.

Open Scope Z_scope.
#[local] Arguments String.append !_ _ / : simpl nomatch.

(** ** White space *)

(** The width of the space rune a string starts with. *)
Definition space_width (s : string) : option nat :=
  match s with
  | EmptyString => None
  | String c s1 =>
    if space1 c then Some 1%nat else
    match s1 with
    | EmptyString => None
    | String d s2 =>
      if space2 c d then Some 2%nat else
      match s2 with
      | EmptyString => None
      | String e _ => if space3 c d e then Some 3%nat else None
      end
    end
  end.

(** No space rune anywhere. *)
Definition nospace (s : string) : Prop := Forall (fun p => p.1 = false) (chunks s).

Lemma chunks_cons c s :
  space_width (String c s) = None -> chunks (String c s) = (false, String c EmptyString) :: chunks s.
Proof.
  simpl. destruct (space1 c); [done|]. destruct s as [|d s2]; [done|].
  destruct (space2 c d); [done|]. destruct s2 as [|e s3]; [done|].
  by destruct (space3 c d e).
Qed.

(** A space rune: its chunk and what follows. *)
Lemma chunks_space s n :
  space_width s = Some n ->
  exists sp r, chunks s = (true, sp) :: chunks r /\ (String.length r < String.length s)%nat.
Proof.
  destruct s as [|c s1]; [done|]. simpl. destruct (space1 c).
  { intros _. exists (String c EmptyString), s1. split; [done|]. lia. }
  destruct s1 as [|d s2]; [done|]. simpl. destruct (space2 c d).
  { intros _. eexists _, s2. split; [done|]. lia. }
  destruct s2 as [|e s3]; [done|]. simpl. destruct (space3 c d e); [|done].
  intros _. eexists _, s3. split; [done|]. lia.
Qed.

(** Cutting the tail of a string off cannot make a space rune appear. *)
Lemma space_width_prefix s t :
  space_width (s +:+ t) = None -> space_width s = None.
Proof.
  destruct s as [|c s1]; [done|]. simpl. destruct (space1 c); [done|].
  destruct s1 as [|d s2]; [done|]. simpl. destruct (space2 c d); [done|].
  destruct s2 as [|e s3]; [done|]. simpl. by destruct (space3 c d e).
Qed.

(** The longest prefix without a space rune at the start of its suffixes. *)
Lemma chunks_span s :
  exists f r, s = f +:+ r /\ nospace f /\
    chunks s = chunks f ++ chunks r /\ (r = EmptyString \/ is_Some (space_width r)).
Proof.
  induction s as [|c s IH].
  { exists EmptyString, EmptyString. repeat split; [constructor|by left]. }
  destruct (space_width (String c s)) eqn:E.
  { exists EmptyString, (String c s). repeat split; [constructor|right; by eexists]. }
  destruct IH as (f & r & -> & Hf & Hc & Hr).
  exists (String c f), r.
  assert (space_width (String c f) = None) as Ef by exact (space_width_prefix (String c f) r E).
  repeat split; [| |done].
  - unfold nospace. rewrite chunks_cons by done. by constructor.
  - rewrite !chunks_cons by done. by rewrite Hc.
Qed.

(** Without spaces every chunk is one byte. *)
Lemma nospace_cons c s : nospace (String c s) -> space_width (String c s) = None /\ nospace s.
Proof.
  intros Hn. destruct (space_width (String c s)) eqn:E.
  - destruct (chunks_space _ _ E) as (sp & r & Hc & _). unfold nospace in Hn.
    rewrite Hc in Hn. inversion Hn; done.
  - split; [done|]. unfold nospace in *. rewrite chunks_cons in Hn by done. by inversion Hn.
Qed.

Lemma string_app_assoc (a b c : string) : (a +:+ b) +:+ c = a +:+ (b +:+ c).
Proof. induction a as [|x a IH]; [done|]. cbn. by f_equal. Qed.

Lemma string_length_app a b : String.length (a +:+ b) = (String.length a + String.length b)%nat.
Proof. induction a; simpl; auto. Qed.

Lemma string_app_empty (a : string) : a +:+ EmptyString = a.
Proof. induction a as [|x a IH]; [done|]. cbn. by f_equal. Qed.

Lemma string_app_nonempty (a : string) c s : a +:+ String c s <> EmptyString.
Proof. by destruct a. Qed.

Lemma group_nospace f cs cur : nospace f -> group (chunks f ++ cs) cur = group cs (cur +:+ f).
Proof.
  revert cur. induction f as [|c f IH]; intros cur Hf.
  { simpl. by rewrite string_app_empty. }
  destruct (nospace_cons _ _ Hf) as [E Hf']. rewrite chunks_cons by done. simpl.
  rewrite IH by done. by rewrite string_app_assoc.
Qed.

(** ** strings.Fields *)

Definition field (f : string) : Prop := f <> EmptyString /\ nospace f.

Definition is_field (f : string) : bool :=
  (f !=? EmptyString) && forallb (fun p => negb p.1) (chunks f).
Lemma is_field_spec f : is_field f = true -> field f.
Proof.
  unfold is_field. intros [? Hall]%andb_true_iff. bool_simp. split; [done|].
  apply Forall_forall. intros p Hp. rewrite forallb_forall in Hall.
  specialize (Hall p Hp). by destruct p as [[] ?].
Qed.
Lemma are_fields l : forallb is_field l = true -> Forall field l.
Proof.
  rewrite forallb_forall. intros Hl. apply Forall_forall. intros f Hf.
  by apply is_field_spec, Hl.
Qed.

Lemma Fields_fields s : Forall field (Fields s).
Proof.
  unfold Fields. induction s as [s IH] using (induction_ltof1 _ String.length).
  destruct (chunks_span s) as (f & r & Hs & Hf & Hc & Hr).
  rewrite Hc, group_nospace by done.
  assert (Forall field (flush f)) as Hflush.
  { destruct f; simpl; constructor; [done|constructor]. }
  destruct Hr as [-> | [n Hn]]; [exact Hflush|].
  destruct (chunks_space _ _ Hn) as (sp & r' & Hr' & Hlen). rewrite Hr'. simpl.
  apply Forall_app. split; [exact Hflush|]. apply IH. unfold ltof.
  rewrite Hs. clear -Hlen. induction f; simpl; lia.
Qed.

Lemma field_app_space f s : nospace f -> chunks (f +:+ String " " s) = chunks f ++ (true, " ") :: chunks s.
Proof.
  induction f as [|c f IH]; intros Hf; [done|].
  destruct (nospace_cons _ _ Hf) as [E Hf'].
  assert (space_width ((String c f) +:+ String " " s) = None) as E'.
  { revert E. simpl. destruct (space1 c); [done|]. destruct f as [|d f2].
    - intros _. simpl. unfold space2. rewrite andb_false_r. destruct s as [|e s']; [done|].
      unfold space3. by rewrite ?andb_false_r.
    - simpl. destruct (space2 c d); [done|]. destruct f2 as [|e f3]; simpl; [|done].
      intros _. unfold space3. by rewrite ?andb_false_r. }
  change ((String c f) +:+ String " " s) with (String c (f +:+ String " " s)) in *.
  rewrite !chunks_cons by done. by rewrite IH.
Qed.

Lemma Fields_Join l : Forall field l -> Fields (strings_Join l) = l.
Proof.
  unfold Fields. induction l as [|f l IH]; intros Hl; [done|].
  inversion Hl as [|? ? [Hne Hf] Hl']; subst. destruct l as [|g l].
  - simpl. rewrite <-(app_nil_r (chunks f)), group_nospace by done. by destruct f.
  - change (strings_Join (f :: g :: l)) with (f +:+ String " " (strings_Join (g :: l))).
    rewrite field_app_space by done. rewrite group_nospace by done.
    cbn [group]. rewrite (IH Hl'). by destruct f.
Qed.

Lemma Fields_Join_Fields s : Fields (strings_Join (Fields s)) = Fields s.
Proof. apply Fields_Join, Fields_fields. Qed.

(** Joining lists of words the way the source does, and splitting again. *)
Lemma elem_of_Fields_Join l x : Forall field l -> x ∈ Fields (strings_Join l) <-> x ∈ l.
Proof. intros. by rewrite Fields_Join. Qed.

(** A blank string has no fields. *)
Lemma chunks_nonempty s : Forall (fun p => p.2 <> EmptyString) (chunks s).
Proof.
  induction s as [s IH] using (induction_ltof1 _ String.length). unfold ltof in IH.
  destruct s as [|c s]; [constructor|].
  destruct (space_width (String c s)) eqn:E.
  - destruct (chunks_space _ _ E) as (sp & r & Hc & Hr). rewrite Hc.
    constructor; [|by apply IH]. revert Hc. simpl.
    repeat case_match; intros [= <- _]; done.
  - rewrite chunks_cons by done. constructor; [done|]. apply IH. simpl. lia.
Qed.

Lemma drop_spaces_nil cs : drop_spaces cs = [] -> Forall (fun p => p.1 = true) cs.
Proof. induction cs as [|[[] b] cs IH]; simpl; [done| |done]. intros E. constructor; auto. Qed.

Lemma drop_spaces_cons cs p cs' : drop_spaces cs = p :: cs' -> p.1 = false.
Proof. induction cs as [|[[] b] cs IH]; simpl; [done|done|]. by intros [= <- _]. Qed.

Lemma drop_spaces_incl cs : drop_spaces cs ⊆ cs.
Proof. induction cs as [|[[] b] cs IH]; simpl; set_solver. Qed.

Lemma unchunk_empty cs : Forall (fun p => p.2 <> EmptyString) cs -> unchunk cs = EmptyString -> cs = [].
Proof. intros Hne. destruct Hne as [|[b [|c s]] cs Hp _]; simpl in *; done. Qed.

Lemma group_spaces cs : Forall (fun p => p.1 = true) cs -> group cs EmptyString = [].
Proof. induction 1 as [|[b x] cs Hp _ IH]; simpl in *; [done|]. by subst. Qed.

Lemma TrimSpace_empty s : TrimSpace s = EmptyString -> Fields s = [].
Proof.
  unfold TrimSpace, Fields. intros E. apply unchunk_empty in E.
  2: { apply Forall_reverse, Forall_forall. intros p Hp%list_elem_of_In%drop_spaces_incl.
       rewrite elem_of_reverse in Hp. apply drop_spaces_incl in Hp.
       pose proof (chunks_nonempty s) as Hc. rewrite Forall_forall in Hc.
       by apply Hc, list_elem_of_In. }
  apply (f_equal reverse) in E. rewrite reverse_involutive in E. apply drop_spaces_nil in E.
  apply group_spaces.
  destruct (drop_spaces (chunks s)) as [|p cs] eqn:Ed; [by apply drop_spaces_nil|].
  apply drop_spaces_cons in Ed. rewrite Forall_reverse in E.
  apply Forall_inv in E. simpl in E. congruence.
Qed.

(** Trimming a string without spaces. *)
Lemma unchunk_nospace s : nospace s -> unchunk (chunks s) = s.
Proof.
  induction s as [|c s IH]; [done|]. intros [Hw Hs]%nospace_cons.
  rewrite chunks_cons by done. simpl. by rewrite IH.
Qed.

Lemma drop_spaces_none cs : Forall (fun p => p.1 = false) cs -> drop_spaces cs = cs.
Proof. by destruct 1 as [|[[] b] cs Hp _]. Qed.

Lemma TrimSpace_nospace s : nospace s -> TrimSpace s = s.
Proof.
  intros Hs. unfold TrimSpace. unfold nospace in Hs.
  rewrite (drop_spaces_none (chunks s)), (drop_spaces_none (reverse _)), reverse_involutive;
    [by apply unchunk_nospace|by rewrite Forall_reverse|done].
Qed.

(** Printable ASCII has no space rune. *)
Definition plain (c : ascii) : bool := is_ascii c && negb (space1 c).

Lemma plain_width c s : plain c = true -> space_width (String c s) = None.
Proof.
  unfold plain. intros [Ha Hs]%andb_true_iff. apply negb_true_iff in Hs. unfold is_ascii in Ha.
  assert (forall k, 128 <= k -> (byte_val c =? k) = false) as Hne by (intros; lia).
  simpl. rewrite Hs. destruct s as [|d s]; [done|]. unfold space2. rewrite Hne by lia.
  destruct s as [|e s]; [done|]. simpl. unfold space3. by rewrite !Hne by lia.
Qed.

Lemma plain_nospace s : string_forall plain s = true -> nospace s.
Proof.
  induction s as [|c s IH]; simpl; [constructor|]. intros [Hc Hs]%andb_true_iff.
  unfold nospace. rewrite chunks_cons by by apply plain_width. constructor; [done|by apply IH].
Qed.
