(* ===== verification/GoTime.v ===== *)
(** Go's time package, as far as the audit endpoints use it: time.Parse and
    Format with the layout time.RFC3339; and strconv.ParseBool. *)
From S2P Require Import Prelude GoStd.
From Stdlib Require Import Ascii String.

Open Scope Z_scope.

(** ** The calendar (time.Date and its inverse) *)

(** Days from 1970-01-01 of the day [d] of month [m] of year [y]
    (proleptic Gregorian; years run from March). *)
Definition days_from_civil (y m d : Z) : Z :=
  let y := if m <=? 2 then y - 1 else y in
  let era := y / 400 in
  let yoe := y mod 400 in
  let doy := (153 * (m + (if m <=? 2 then 9 else -3)) + 2) / 5 + d - 1 in
  let doe := yoe * 365 + yoe / 4 - yoe / 100 + doy in
  era * 146097 + doe - 719468.

Definition civil_from_days (z : Z) : Z * Z * Z :=
  let z := z + 719468 in
  let era := z / 146097 in
  let doe := z mod 146097 in
  let yoe := (doe - doe / 1460 + doe / 36524 - doe / 146096) / 365 in
  let doy := doe - (365 * yoe + yoe / 4 - yoe / 100) in
  let mp := (5 * doy + 2) / 153 in
  let d := doy - (153 * mp + 2) / 5 + 1 in
  let m := mp + (if mp <? 10 then 3 else -9) in
  (yoe + era * 400 + (if m <=? 2 then 1 else 0), m, d).

Definition is_leap (y : Z) : bool := (y mod 4 =? 0) && (negb (y mod 100 =? 0) || (y mod 400 =? 0)).
Definition daysIn (m y : Z) : Z :=
  if m =? 2 then (if is_leap y then 29 else 28)
  else if (m =? 4) || (m =? 6) || (m =? 9) || (m =? 11) then 30 else 31.

(** ** Parsing *)

Definition digit_val (c : ascii) : Z := byte_val c - 48.

(** getnum: two digits, or one when it need not be two. *)
Definition getnum (fixed : bool) (s : string) : option (Z * string) :=
  match s with
  | String a s1 =>
    if negb (is_digit a) then None else
    match s1 with
    | String b s2 => if is_digit b then Some (10 * digit_val a + digit_val b, s2)
                     else if fixed then None else Some (digit_val a, s1)
    | EmptyString => if fixed then None else Some (digit_val a, s1)
    end
  | EmptyString => None
  end.
Definition skip_byte (c : ascii) (s : string) : option string :=
  match s with String d s' => if c ==? d then Some s' else None | EmptyString => None end.
Definition in_range (lo hi : Z) (r : option (Z * string)) : option (Z * string) :=
  match r with Some (z, s) => if (lo <=? z) && (z <=? hi) then r else None | None => None end.

(** The year: four digits. *)
Definition getyear (s : string) : option (Z * string) :=
  match s with
  | String a (String b (String c (String d s'))) =>
    if is_digit a && is_digit b && is_digit c && is_digit d
    then Some (1000 * digit_val a + 100 * digit_val b + 10 * digit_val c + digit_val d, s') else None
  | _ => None
  end.

(** A fraction of a second after '.' or ',' and a digit; digits beyond the
    ninth are dropped. [scale] is the weight of the next digit. *)
Fixpoint fraction (scale acc : Z) (s : string) : Z * string :=
  match s with
  | String c s' => if is_digit c then fraction (scale / 10) (acc + digit_val c * scale) s' else (acc, s)
  | EmptyString => (acc, s)
  end.
Definition getfraction (s : string) : Z * string :=
  match s with
  | String c ((String d _) as s') =>
    if ((c ==? "."%char) || (c ==? ","%char)) && is_digit d then fraction 100000000 0 s' else (0, s)
  | _ => (0, s)
  end.

(** Z07:00: the offset in seconds. *)
Definition getzone (s : string) : option (Z * string) :=
  match s with
  | String "Z"%char s' => Some (0, s')
  | String sign s1 =>
    '(h, s2) ← in_range 0 24 (getnum true s1);
    s3 ← skip_byte ":" s2;
    '(m, s4) ← in_range 0 60 (getnum true s3);
    let offset := (h * 60 + m) * 60 in
    if sign ==? "+"%char then Some (offset, s4)
    else if sign ==? "-"%char then Some (- offset, s4) else None
  | EmptyString => None
  end.

(** time.Parse(time.RFC3339, s): the instant and the zone's offset. *)
Definition rfc3339_Parse (s : string) : option (Z * Z) :=
  '(y, s) ← getyear s; s ← skip_byte "-" s;
  '(m, s) ← in_range 1 12 (getnum true s); s ← skip_byte "-" s;
  '(d, s) ← getnum true s; s ← skip_byte "T" s;
  '(hh, s) ← in_range 0 23 (getnum false s); s ← skip_byte ":" s;
  '(mm, s) ← in_range 0 59 (getnum true s); s ← skip_byte ":" s;
  '(ss, s) ← in_range 0 59 (getnum true s);
  let '(ns, s) := getfraction s in
  '(offset, s) ← getzone s;
  if (s !=? "") || (d <? 1) || (daysIn m y <? d) then None
  else Some ((days_from_civil y m d * 86400 + hh * 3600 + mm * 60 + ss - offset) * second + ns, offset).

(** ** Formatting *)

(** appendInt: at least [width] digits. *)
Definition append_int (width : nat) (z : Z) : string :=
  let d := digits 20 (Z.abs z) in
  let padded := string_of (repeat 48 (width - String.length d)) +:+ d in
  if z <? 0 then String "-"%char padded else padded.

Definition zone_text (offset : Z) : string :=
  if offset =? 0 then "Z"
  else
  let zone := Z.abs (Z.quot offset 60) in
  (if Z.quot offset 60 <? 0 then "-" else "+") +:+ append_int 2 (zone / 60) +:+ ":" +:+ append_int 2 (zone mod 60).

(** t.Format(time.RFC3339) *)
Definition rfc3339_Format (t : Z * Z) : string :=
  let secs := t.1 / second + t.2 in
  let '(y, m, d) := civil_from_days (secs / 86400) in
  let sod := secs mod 86400 in
  append_int 4 y +:+ "-" +:+ append_int 2 m +:+ "-" +:+ append_int 2 d +:+ "T" +:+
  append_int 2 (sod / 3600) +:+ ":" +:+ append_int 2 (sod mod 3600 / 60) +:+ ":" +:+
  append_int 2 (sod mod 60) +:+ zone_text t.2.

(** strconv.ParseBool *)
Definition ParseBool (s : string) : option bool :=
  if bool_decide (s ∈ ["1"; "t"; "T"; "TRUE"; "true"; "True"]) then Some true
  else if bool_decide (s ∈ ["0"; "f"; "F"; "FALSE"; "false"; "False"]) then Some false
  else None.

Example rfc3339_example :
  rfc3339_Parse "2024-02-29T08:30:00.5+01:00" = Some (1709191800500000000, 3600) /\
  rfc3339_Format (1709191800500000000, 3600) = "2024-02-29T08:30:00+01:00" /\
  rfc3339_Parse "2023-02-29T08:30:00Z" = None.
Proof. vm_compute. auto. Qed.
