(* ===== verification/Base64.v ===== *)
(** The base64 encodings of GoStd.v: their length, and that they decode to what
    was encoded. *)
From S2P Require Import Prelude GoStd.
From Stdlib Require Import Ascii.

Open Scope Z_scope.

(** Three bytes at a time. *)
Lemma list_ind3 {A} (P : list A -> Prop) :
  P [] -> (forall a, P [a]) -> (forall a b, P [a; b]) ->
  (forall a b c l, P l -> P (a :: b :: c :: l)) -> forall l, P l.
Proof.
  intros H0 H1 H2 H3. assert (forall l, P l /\ (forall a, P (a :: l)) /\ (forall a b, P (a :: b :: l))) as H.
  { induction l as [|c l (IH0 & IH1 & IH2)]; [auto|]. split_and!; auto. }
  intros l. apply H.
Qed.

(** An encoding is at least as long as what it encodes. *)
Lemma b64_length a l : (length l <= String.length (b64_groups a l))%nat.
Proof. induction l using list_ind3; simpl in *; lia. Qed.

Lemma bytes_of_length s : length (bytes_of s) = String.length s.
Proof. induction s; simpl; auto. Qed.

Lemma string_of_length l : String.length (string_of l) = length l.
Proof. induction l; simpl; auto. Qed.

Lemma base64_raw_url_length s : (String.length s <= String.length (base64_raw_url s))%nat.
Proof. unfold base64_raw_url. rewrite <-bytes_of_length. apply b64_length. Qed.

(** ** Decoding *)

Definition is_byte (z : Z) : Prop := 0 <= z < 256.
Definition is_digit64 (z : Z) : Prop := 0 <= z < 64.

Lemma byte_val_byte c : is_byte (byte_val c).
Proof. destruct c as [[] [] [] [] [] [] [] []]; split; vm_compute; congruence. Qed.

Lemma bytes_of_bytes s : Forall is_byte (bytes_of s).
Proof. induction s as [|c s IH]; constructor; [apply byte_val_byte|done]. Qed.

(** The digits of an alphabet decode to themselves and are no line breaks. *)
Definition alphabet_ok (al : string) : bool :=
  forallb (fun n =>
    let d := Z.of_nat n in let c := char_at al d in
    bool_decide (index_in al c = Some d)
    && negb ((byte_val c =? 10) || (byte_val c =? 13))) (seq 0 64).

(** Facts about all bytes, by evaluation. *)
Lemma byte_facts (P : Z -> bool) :
  forallb (fun n => P (Z.of_nat n)) (seq 0 256) = true -> forall a, is_byte a -> P a = true.
Proof.
  intros Hall a Ha. unfold is_byte in Ha. rewrite forallb_forall in Hall.
  specialize (Hall (Z.to_nat a)). rewrite Z2Nat.id in Hall by lia. apply Hall, in_seq. lia.
Qed.

Definition high_digit (a : Z) : Z := Z.shiftr a 2.
Definition mid_digit (a b : Z) : Z := Z.lor (Z.shiftl (Z.land a 3) 4) (Z.shiftr b 4).
Definition low_digit (b c : Z) : Z := Z.lor (Z.shiftl (Z.land b 15) 2) (Z.shiftr c 6).

Definition in_range (d : Z) : bool := (0 <=? d) && (d <? 64).
Lemma in_range_digit d : in_range d = true -> is_digit64 d.
Proof. unfold in_range, is_digit64. lia. Qed.

(** The digits of two neighbouring bytes, and what they give back. *)
Definition pair_ok (a b : Z) : bool :=
  in_range (high_digit a) && in_range (mid_digit a b) && in_range (low_digit a b)
  && in_range (Z.land b 63)
  && (Z.lor (Z.shiftl (high_digit a) 2) (Z.shiftr (mid_digit a b) 4) =? a)
  && (Z.lor (Z.shiftl (Z.land (mid_digit a b) 15) 4) (Z.shiftr (low_digit b 0) 2) =? b)
  && (Z.lor (Z.shiftl (Z.land (low_digit a b) 3) 6) (Z.land b 63) =? b)
  && (Z.shiftr (low_digit b a) 2 =? Z.shiftr (low_digit b 0) 2).
Lemma pairs_ok a b : is_byte a -> is_byte b -> pair_ok a b = true.
Proof.
  intros Ha. revert b. apply byte_facts. revert a Ha.
  apply (byte_facts (fun a => forallb (fun n => pair_ok a (Z.of_nat n)) (seq 0 256))).
  vm_compute. reflexivity.
Qed.

Lemma pair_facts a b :
  is_byte a -> is_byte b ->
  is_digit64 (high_digit a) /\ is_digit64 (mid_digit a b) /\ is_digit64 (low_digit a b) /\
  is_digit64 (Z.land b 63) /\
  Z.lor (Z.shiftl (high_digit a) 2) (Z.shiftr (mid_digit a b) 4) = a /\
  Z.lor (Z.shiftl (Z.land (mid_digit a b) 15) 4) (Z.shiftr (low_digit b 0) 2) = b /\
  Z.lor (Z.shiftl (Z.land (low_digit a b) 3) 6) (Z.land b 63) = b /\
  Z.shiftr (low_digit b a) 2 = Z.shiftr (low_digit b 0) 2.
Proof.
  intros Ha Hb. pose proof (pairs_ok a b Ha Hb) as H. unfold pair_ok in H.
  rewrite !andb_true_iff, !Z.eqb_eq in H. destruct H as [[[[[[[H1 H2] H3] H4] H5] H6] H7] H8].
  split_and!; try done; by apply in_range_digit.
Qed.

Lemma byte_0 : is_byte 0.
Proof. done. Qed.

Section Alphabet.
Context (al : string) (Hal : alphabet_ok al = true).

Lemma digit_decodes d :
  is_digit64 d ->
  let c := char_at al d in
  index_in al c = Some d /\ (byte_val c =? 10) || (byte_val c =? 13) = false.
Proof using Hal.
  intros Hd. pose proof Hal as Hall. unfold alphabet_ok in Hall. rewrite forallb_forall in Hall. specialize (Hall (Z.to_nat d)).
  unfold is_digit64 in Hd. rewrite Z2Nat.id in Hall by lia.
  assert (In (Z.to_nat d) (seq 0 64)) as Hin by (apply in_seq; lia).
  specialize (Hall Hin). cbv zeta in Hall. by apply andb_true_iff in Hall as [?%bool_decide_eq_true ?%negb_true_iff].
Qed.

Lemma b64_digits_cons d s :
  is_digit64 d ->
  b64_digits al (String (char_at al d) s) =
  option_map (cons d) (b64_digits al s).
Proof using Hal. intros [Hi Hn]%digit_decodes. cbn [b64_digits]. rewrite Hn, Hi. by destruct (b64_digits _ s). Qed.

(** The digits of an encoding, and what they decode to. *)
Lemma b64_decode_groups l :
  Forall is_byte l ->
  exists ds, b64_digits al (b64_groups al l) = Some ds /\
             b64_undigits ds = Some l.
Proof using Hal.
  induction l as [|a|a b|a b c l IH] using list_ind3; intros Hl.
  - by exists [].
  - apply Forall_inv in Hl as Ha. destruct (pair_facts a 0 Ha byte_0) as (D1 & D2 & _ & _ & E & _).
    exists [high_digit a; mid_digit a 0]. split; [|simpl; by rewrite E].
    change (b64_groups al [a]) with
      (String (char_at al (high_digit a))
         (String (char_at al (Z.shiftl (Z.land a 3) 4)) EmptyString)).
    replace (Z.shiftl (Z.land a 3) 4) with (mid_digit a 0) by (unfold mid_digit; apply Z.lor_0_r).
    by rewrite !b64_digits_cons by done.
  - apply Forall_inv in Hl as Ha. apply Forall_inv_tail, Forall_inv in Hl as Hb.
    destruct (pair_facts a b Ha Hb) as (D1 & D2 & _ & _ & E1 & E2 & _).
    destruct (pair_facts b 0 Hb byte_0) as (_ & _ & D3 & _).
    exists [high_digit a; mid_digit a b; low_digit b 0]. split; [|simpl; by rewrite E1, E2].
    change (b64_groups al [a; b]) with
      (String (char_at al (high_digit a))
         (String (char_at al (mid_digit a b))
            (String (char_at al (Z.shiftl (Z.land b 15) 2)) EmptyString))).
    replace (Z.shiftl (Z.land b 15) 2) with (low_digit b 0) by (unfold low_digit; apply Z.lor_0_r).
    by rewrite !b64_digits_cons by done.
  - apply Forall_inv in Hl as Ha. pose proof (Forall_inv_tail Hl) as Hl1.
    apply Forall_inv in Hl1 as Hb. pose proof (Forall_inv_tail Hl1) as Hl2.
    apply Forall_inv in Hl2 as Hc. destruct (IH (Forall_inv_tail Hl2)) as (ds & Hds & Hun).
    destruct (pair_facts a b Ha Hb) as (D1 & D2 & _ & _ & E1 & E2 & _).
    destruct (pair_facts b c Hb Hc) as (_ & _ & D3 & D4 & _ & _ & E3 & _).
    destruct (pair_facts c b Hc Hb) as (_ & _ & _ & _ & _ & _ & _ & E4).
    exists (high_digit a :: mid_digit a b :: low_digit b c :: Z.land c 63 :: ds). split.
    + change (b64_groups al (a :: b :: c :: l)) with
        (String (char_at al (high_digit a))
           (String (char_at al (mid_digit a b))
              (String (char_at al (low_digit b c))
                 (String (char_at al (Z.land c 63)) (b64_groups al l))))).
      by rewrite !b64_digits_cons, Hds by done.
    + cbn [b64_undigits]. rewrite Hun, E1, E3, E4, E2. by destruct ds.
Qed.

End Alphabet.

Lemma byte_chr_val c : byte_chr (byte_val c) = c.
Proof. destruct c as [[] [] [] [] [] [] [] []]; reflexivity. Qed.

Lemma string_of_bytes_of s : string_of (bytes_of s) = s.
Proof. induction s as [|c s IH]; simpl; [done|]. by rewrite byte_chr_val, IH. Qed.

Lemma base64_raw_roundtrip al s :
  alphabet_ok al = true -> base64_raw_decode al (b64_groups al (bytes_of s)) = Some s.
Proof.
  intros Hal. unfold base64_raw_decode.
  destruct (b64_decode_groups al Hal (bytes_of s) (bytes_of_bytes s)) as (ds & -> & ->).
  simpl. by rewrite string_of_bytes_of.
Qed.

Lemma base64_std_roundtrip s : base64_raw_std_decode (base64_raw_std s) = Some s.
Proof. by apply base64_raw_roundtrip. Qed.

Lemma base64_url_roundtrip s : base64_raw_url_decode (base64_raw_url s) = Some s.
Proof. by apply base64_raw_roundtrip. Qed.
