(* ===== verification/Hash.v ===== *)
(** SHA-256, SHA-1 and HMAC (crypto/sha256, crypto/sha1, crypto/hmac),
    executable, over byte strings. *)
From S2P Require Import Prelude GoStd.

Open Scope Z_scope.

(** ** 32-bit words *)

Definition w32 (z : Z) : Z := Z.land z 0xffffffff.
Definition add32 (a b : Z) : Z := w32 (a + b).
Definition rotr (n x : Z) : Z := Z.lor (Z.shiftr x n) (w32 (Z.shiftl x (32 - n))).
Definition rotl (n x : Z) : Z := rotr (32 - n) x.
Definition not32 (x : Z) : Z := Z.lxor x 0xffffffff.

Definition be32 (a b c d : Z) : Z :=
  Z.lor (Z.shiftl a 24) (Z.lor (Z.shiftl b 16) (Z.lor (Z.shiftl c 8) d)).

Fixpoint words (l : list Z) : list Z :=
  match l with
  | a :: b :: c :: d :: l' => be32 a b c d :: words l'
  | _ => []
  end.

(** Message padding: 0x80, zeros, and the bit length in 64 bits. *)
Definition pad (l : list Z) : list Z :=
  let n := Z.of_nat (length l) in
  l ++ 0x80 :: repeat 0 (Z.to_nat ((55 - n) mod 64)) ++ be_bytes 8 (8 * n).

Fixpoint blocks (fuel : nat) (ws : list Z) : list (list Z) :=
  match fuel, ws with
  | S fuel', _ :: _ => take 16 ws :: blocks fuel' (drop 16 ws)
  | _, _ => []
  end.

(** Every block takes 16 words, so the number of words is fuel enough. *)
Definition message_blocks (s : string) : list (list Z) :=
  let ws := words (pad (bytes_of s)) in blocks (length ws) ws.

(** ** SHA-256 *)

(** The constants of FIPS 180-4: the first 32 bits of the fractional parts of
    the cube roots of the first 64 primes, and of the square roots of the
    first 8. *)
Definition is_prime (n : nat) : bool :=
  forallb (fun d => negb (Nat.eqb (n mod d) 0)) (seq 2 (n - 2)).
Definition primes : list nat := Eval vm_compute in List.filter is_prime (seq 2 310).

(** The integer cube root below 2^bits. *)
Fixpoint cube_root (bits : nat) (n r : Z) : Z :=
  match bits with
  | O => r
  | S bits' =>
    let r' := r + 2 ^ Z.of_nat bits' in
    cube_root bits' n (if r' * r' * r' <=? n then r' else r)
  end.
Definition sha256_k : list Z :=
  Eval vm_compute in map (fun p => w32 (cube_root 36 (Z.of_nat p * 2 ^ 96) 0)) primes.
Definition sha256_init : list Z :=
  Eval vm_compute in map (fun p => w32 (Z.sqrt (Z.of_nat p * 2 ^ 64))) (take 8 primes).

Definition sig0 (x : Z) : Z := Z.lxor (rotr 7 x) (Z.lxor (rotr 18 x) (Z.shiftr x 3)).
Definition sig1 (x : Z) : Z := Z.lxor (rotr 17 x) (Z.lxor (rotr 19 x) (Z.shiftr x 10)).
Definition ep0 (x : Z) : Z := Z.lxor (rotr 2 x) (Z.lxor (rotr 13 x) (rotr 22 x)).
Definition ep1 (x : Z) : Z := Z.lxor (rotr 6 x) (Z.lxor (rotr 11 x) (rotr 25 x)).
Definition ch (x y z : Z) : Z := Z.lxor (Z.land x y) (Z.land (not32 x) z).
Definition maj (x y z : Z) : Z := Z.lxor (Z.land x y) (Z.lxor (Z.land x z) (Z.land y z)).

(** One round on the working variables; [win] holds the next 16 words of
    the message schedule. *)
Fixpoint sha256_rounds (ks win st : list Z) : list Z :=
  match ks, win, st with
  | k :: ks', wt :: win', [a; b; c; d; e; f; g; h] =>
    let t1 := add32 (add32 (add32 h (ep1 e)) (add32 (ch e f g) k)) wt in
    let t2 := add32 (ep0 a) (maj a b c) in
    let next := add32 (add32 (sig1 (nth 13 win' 0)) (nth 8 win' 0)) (add32 (sig0 (nth 0 win' 0)) wt) in
    sha256_rounds ks' (win' ++ [next]) [add32 t1 t2; a; b; c; add32 d t1; e; f; g]
  | _, _, _ => st
  end.

Definition sha256_block (st blk : list Z) : list Z :=
  zip_with add32 st (sha256_rounds sha256_k blk st).

Definition sha256 (s : string) : string :=
  string_of (flat_map (be_bytes 4) (foldl sha256_block sha256_init (message_blocks s))).

(** ** SHA-1 *)

Definition sha1_init : list Z := [0x67452301; 0xefcdab89; 0x98badcfe; 0x10325476; 0xc3d2e1f0].

Definition sha1_f (t : nat) (b c d : Z) : Z :=
  if (t <? 20)%nat then ch b c d
  else if (t <? 40)%nat then Z.lxor b (Z.lxor c d)
  else if (t <? 60)%nat then maj b c d
  else Z.lxor b (Z.lxor c d).

Definition sha1_k (t : nat) : Z :=
  if (t <? 20)%nat then 0x5a827999
  else if (t <? 40)%nat then 0x6ed9eba1
  else if (t <? 60)%nat then 0x8f1bbcdc
  else 0xca62c1d6.

Fixpoint sha1_rounds (ts : list nat) (win st : list Z) : list Z :=
  match ts, win, st with
  | t :: ts', wt :: win', [a; b; c; d; e] =>
    let tmp := add32 (add32 (add32 (rotl 5 a) (sha1_f t b c d)) (add32 e (sha1_k t))) wt in
    let next := rotl 1 (Z.lxor (Z.lxor (nth 12 win' 0) (nth 7 win' 0)) (Z.lxor (nth 1 win' 0) wt)) in
    sha1_rounds ts' (win' ++ [next]) [tmp; a; rotl 30 b; c; d]
  | _, _, _ => st
  end.

Definition sha1_block (st blk : list Z) : list Z :=
  zip_with add32 st (sha1_rounds (seq 0 80) blk st).

Definition sha1 (s : string) : string :=
  string_of (flat_map (be_bytes 4) (foldl sha1_block sha1_init (message_blocks s))).

(** ** HMAC (64-byte blocks) *)

Definition hmac_pad (b : Z) (key : string) : string :=
  let k := bytes_of key in
  string_of (map (Z.lxor b) (k ++ repeat 0 (64 - length k))).

Definition hmac (hash : string -> string) (key msg : string) : string :=
  let key := if (64 <? Z.of_nat (String.length key)) then hash key else key in
  hash (hmac_pad 0x5c key +:+ hash (hmac_pad 0x36 key +:+ msg)).

(** ** Hexadecimal *)

Definition hex (s : string) : string :=
  String.concat "" (map (fun b =>
    String (char_at "0123456789abcdef" (Z.shiftr b 4))
      (String (char_at "0123456789abcdef" (Z.land b 15)) "")) (bytes_of s)).

(** Test vectors: FIPS 180-4 and RFC 2104/4231. *)
Example sha256_abc :
  hex (sha256 "abc") = "ba7816bf8f01cfea414140de5dae2223b00361a396177a9cb410ff61f20015ad".
Proof. vm_compute. reflexivity. Qed.

Example sha1_abc : hex (sha1 "abc") = "a9993e364706816aba3e25717850c26c9cd0d89d".
Proof. vm_compute. reflexivity. Qed.

Example hmac_sha256_jefe :
  hex (hmac sha256 "Jefe" "what do ya want for nothing?")
  = "5bdcc146bf60754e6a042426089575c75a003f089d2739839dec58b964ec3843".
Proof. vm_compute. reflexivity. Qed.

(** RFC 7636 appendix B. *)
Example pkce_rfc7636 :
  base64_raw_url (sha256 "dBjftJeZ4CVP-mB92K27uhbUJU1p1r_wW1gFWFOEjXk")
  = "E9Melhoa2OwvFrEMTJguCHaoeK1t8URWbuGJSstw-cM".
Proof. vm_compute. reflexivity. Qed.
