(* ===== verification/Models.v ===== *)
(** The data of internal/models/models.go: sentinel errors, the database
    rows, the request/response structs and their methods. Fields keep their
    Go names behind a two-letter prefix per struct. A pointer to a time or a
    UUID is an [option]; a string-typed enum stays a string, as in the code. *)
From S2P Require Import Prelude GoStd.

Open Scope Z_scope.

(** A uuid.UUID is its 128-bit value; [uuid_Nil] is the zero UUID. *)
Abbreviation uuid := N (only parsing).
Definition uuid_Nil : uuid := 0%N.

(** A gorm JSON column, never inspected by the modelled code. *)
Abbreviation JSON := string (only parsing).

(** ** Errors *)

(** The package-level error values; each is a distinct pointer in Go. *)
Inductive sentinel : Set :=
| ErrResourceNotFound | ErrResourceConflict | ErrDuplicateResource | ErrBusinessRuleViolation
| ErrTenantNotFound | ErrUserNotFound | ErrClientNotFound | ErrAuthCodeNotFound
| ErrAccessTokenNotFound | ErrRefreshTokenNotFound | ErrInvalidCredentials | ErrInvalidClient
| ErrInvalidGrant | ErrInvalidScope | ErrInsufficientScope | ErrSessionNotFound
| ErrExpiredToken | ErrRevokedToken | ErrInvalidToken | ErrInsufficientPermissions
| ErrTenantMismatch
| ErrRoleNotFound | ErrPermissionNotFound | ErrPermissionDenied
| ErrUserLocked | ErrUserSuspended | ErrUserPending | ErrEmailNotVerified
| ErrInvalidVerificationCode | ErrVerificationExpired | ErrEmailAlreadyVerified
| ErrMFANotEnabled | ErrMFAAlreadyEnabled | ErrMFANotEnrolling | ErrInvalidMFACode
| ErrMFALocked | ErrInitialAccessTokenNotFound | ErrPKCEVerificationFailed
| ErrAuthCodeAlreadyUsed | ErrUnauthorizedClient
| ErrDeviceCodeNotFound | ErrAuthorizationPending | ErrSlowDown | ErrExpiredDeviceCode
| ErrDeviceAccessDenied.

(** A Go error: a sentinel, a message of its own, fmt.Errorf with %w around
    another error, a models.RegistrationError, or an error value of code
    outside the repository (database driver, random source, bcrypt, jwt). *)
Inductive error : Set :=
| ESentinel (s : sentinel)
| EMessage (msg : string)
| EWrap (msg : string) (e : error)
| ERegistration (Code Description : string)
| EExternal (source : string).
Coercion ESentinel : sentinel >-> error.

#[export] Instance sentinel_eq_dec : EqDecision sentinel.
Proof. solve_decision. Defined.
#[export] Instance error_eq_dec : EqDecision error.
Proof. solve_decision. Defined.

(** errors.Is: [e] or an error it wraps is [target]. *)
Fixpoint errors_Is (e target : error) : bool :=
  (e ==? target) || match e with EWrap _ e' => errors_Is e' target | _ => false end.

(** The text of a sentinel, and err.Error(); an outside error is known by
    the text it carries. *)
Definition sentinel_text (s : sentinel) : string :=
  match s with
  | ErrResourceNotFound => "resource not found"
  | ErrResourceConflict => "resource conflict"
  | ErrDuplicateResource => "duplicate resource"
  | ErrBusinessRuleViolation => "business rule violation"
  | ErrTenantNotFound => "tenant not found"
  | ErrUserNotFound => "user not found"
  | ErrClientNotFound => "client not found"
  | ErrAuthCodeNotFound => "authorization code not found"
  | ErrAccessTokenNotFound => "access token not found"
  | ErrRefreshTokenNotFound => "refresh token not found"
  | ErrInvalidCredentials => "invalid credentials"
  | ErrInvalidClient => "invalid client"
  | ErrInvalidGrant => "invalid grant"
  | ErrInvalidScope => "invalid scope"
  | ErrInsufficientScope => "insufficient scope"
  | ErrSessionNotFound => "session not found"
  | ErrExpiredToken => "token expired"
  | ErrRevokedToken => "token revoked"
  | ErrInvalidToken => "invalid token"
  | ErrInsufficientPermissions => "insufficient permissions"
  | ErrTenantMismatch => "tenant mismatch"
  | ErrRoleNotFound => "role not found"
  | ErrPermissionNotFound => "permission not found"
  | ErrPermissionDenied => "permission denied"
  | ErrUserLocked => "user account is locked"
  | ErrUserSuspended => "user account is suspended"
  | ErrUserPending => "user account is pending verification"
  | ErrEmailNotVerified => "email not verified"
  | ErrInvalidVerificationCode => "invalid verification code"
  | ErrVerificationExpired => "verification code expired"
  | ErrEmailAlreadyVerified => "email already verified"
  | ErrMFANotEnabled => "multi-factor authentication is not enabled"
  | ErrMFAAlreadyEnabled => "multi-factor authentication is already enabled"
  | ErrMFANotEnrolling => "no pending multi-factor enrollment"
  | ErrInvalidMFACode => "invalid verification code"
  | ErrMFALocked => "too many failed verification attempts"
  | ErrInitialAccessTokenNotFound => "initial access token not found"
  | ErrPKCEVerificationFailed => "pkce verification failed"
  | ErrAuthCodeAlreadyUsed => "authorization code already used"
  | ErrUnauthorizedClient => "client is not authorized for this grant type"
  | ErrDeviceCodeNotFound => "device code not found"
  | ErrAuthorizationPending => "authorization pending"
  | ErrSlowDown => "polling too frequently"
  | ErrExpiredDeviceCode => "device code expired"
  | ErrDeviceAccessDenied => "access denied by user"
  end.
Fixpoint error_text (e : error) : string :=
  match e with
  | ESentinel s => sentinel_text s
  | EMessage msg => msg
  | EWrap msg e => msg +:+ ": " +:+ error_text e
  | ERegistration code description => code +:+ ": " +:+ description
  | EExternal text => text
  end.

(** ** Constants *)

Abbreviation UserStatus := string (only parsing).
Definition UserStatusActive : UserStatus := "active".
Definition UserStatusSuspended : UserStatus := "suspended".
Definition UserStatusPending : UserStatus := "pending".
Definition UserStatusLocked : UserStatus := "locked".

Abbreviation DeviceCodeStatus := string (only parsing).
Definition DeviceCodePending : DeviceCodeStatus := "pending".
Definition DeviceCodeApproved : DeviceCodeStatus := "approved".
Definition DeviceCodeDenied : DeviceCodeStatus := "denied".

Definition GrantTypeAuthorizationCode : string := "authorization_code".
Definition GrantTypeRefreshToken : string := "refresh_token".
Definition GrantTypeClientCredentials : string := "client_credentials".
Definition GrantTypeDeviceCode : string := "urn:ietf:params:oauth:grant-type:device_code".
Definition GrantTypeTokenExchange : string := "urn:ietf:params:oauth:grant-type:token-exchange".
Definition TokenTypeAccessToken : string := "urn:ietf:params:oauth:token-type:access_token".

Definition MFAMethodTOTP : string := "totp".
Definition MFAMethodRecoveryCode : string := "recovery_code".

Definition TokenEndpointAuthNone : string := "none".
Definition TokenEndpointAuthClientSecretBasic : string := "client_secret_basic".
Definition TokenEndpointAuthClientSecretPost : string := "client_secret_post".

Definition TokenEventIssued : string := "issued".
Definition TokenEventRevoked : string := "revoked".
Definition TokenEventReuseDetected : string := "reuse_detected".
Definition CredentialAuthorizationCode : string := "authorization_code".
Definition CredentialRefreshToken : string := "refresh_token".

(** models.AuditAction, a string type. *)
Abbreviation AuditAction := string (only parsing).
Definition AuditActionUserLogin : AuditAction := "user.login".
Definition AuditActionUserLoginFailed : AuditAction := "user.login.failed".
Definition AuditActionUserLogout : AuditAction := "user.logout".
Definition AuditActionUserCreated : AuditAction := "user.created".
Definition AuditActionUserUpdated : AuditAction := "user.updated".
Definition AuditActionUserDeleted : AuditAction := "user.deleted".
Definition AuditActionUserLocked : AuditAction := "user.locked".
Definition AuditActionUserUnlocked : AuditAction := "user.unlocked".
Definition AuditActionUserSuspended : AuditAction := "user.suspended".
Definition AuditActionPasswordChanged : AuditAction := "user.password.changed".
Definition AuditActionEmailVerified : AuditAction := "user.email.verified".
Definition AuditActionTokenGenerated : AuditAction := "token.generated".
Definition AuditActionTokenRevoked : AuditAction := "token.revoked".
Definition AuditActionClientCreated : AuditAction := "client.created".
Definition AuditActionClientUpdated : AuditAction := "client.updated".
Definition AuditActionClientDeleted : AuditAction := "client.deleted".
Definition AuditActionRoleCreated : AuditAction := "role.created".
Definition AuditActionRoleUpdated : AuditAction := "role.updated".
Definition AuditActionRoleDeleted : AuditAction := "role.deleted".
Definition AuditActionRoleAssigned : AuditAction := "role.assigned".
Definition AuditActionRoleRevoked : AuditAction := "role.revoked".
Definition AuditActionPermissionGranted : AuditAction := "permission.granted".
Definition AuditActionPermissionRevoked : AuditAction := "permission.revoked".
Definition AuditActionTokenReuseDetected : AuditAction := "token.reuse_detected".
Definition AuditActionMFAEnabled : AuditAction := "user.mfa.enabled".
Definition AuditActionMFADisabled : AuditAction := "user.mfa.disabled".
Definition AuditActionMFAReset : AuditAction := "user.mfa.reset".
Definition AuditActionMFAFailed : AuditAction := "user.mfa.failed".
Definition AuditActionConsentGranted : AuditAction := "user.consent.granted".
Definition AuditActionConsentDenied : AuditAction := "user.consent.denied".
Definition AuditActionDeviceApproved : AuditAction := "device.approved".
Definition AuditActionDeviceDenied : AuditAction := "device.denied".
Definition AuditActionPasswordResetRequested : AuditAction := "user.password.reset_requested".
Definition AuditActionPasswordReset : AuditAction := "user.password.reset".

(** Error codes of the JSON API. *)
Definition ErrorCodeResourceNotFound : string := "RESOURCE_NOT_FOUND".
Definition ErrorCodeInvalidRequest : string := "INVALID_REQUEST".
Definition ErrorCodeValidationFailed : string := "VALIDATION_FAILED".
Definition ErrorCodeUnauthorized : string := "UNAUTHORIZED".
Definition ErrorCodeTokenExpired : string := "TOKEN_EXPIRED".
Definition ErrorCodeForbidden : string := "FORBIDDEN".
Definition ErrorCodeInsufficientPermissions : string := "INSUFFICIENT_PERMISSIONS".
Definition ErrorCodeResourceConflict : string := "RESOURCE_CONFLICT".
Definition ErrorCodeDuplicateResource : string := "DUPLICATE_RESOURCE".
Definition ErrorCodeBusinessRuleViolation : string := "BUSINESS_RULE_VIOLATION".
Definition ErrorCodeRateLimitExceeded : string := "RATE_LIMIT_EXCEEDED".
Definition ErrorCodeInternalError : string := "INTERNAL_ERROR".
Definition ErrorCodeRoleNotFound : string := "ROLE_NOT_FOUND".
Definition ErrorCodePermissionNotFound : string := "PERMISSION_NOT_FOUND".
Definition ErrorCodePermissionDenied : string := "PERMISSION_DENIED".
Definition ErrorCodeUserLocked : string := "USER_LOCKED".
Definition ErrorCodeUserSuspended : string := "USER_SUSPENDED".
Definition ErrorCodeUserPending : string := "USER_PENDING".
Definition ErrorCodeEmailNotVerified : string := "EMAIL_NOT_VERIFIED".
Definition ErrorCodeInvalidVerificationCode : string := "INVALID_VERIFICATION_CODE".
Definition ErrorCodeVerificationExpired : string := "VERIFICATION_EXPIRED".

(** ** Database rows *)

(** models.Tenant *)
Record Tenant := MkTenant {
  tn_ID : uuid;
  tn_Name : string;
  tn_Domain : string;
  tn_IsActive : bool;
  tn_CreatedAt : Z;
  tn_UpdatedAt : Z;
  tn_DeletedAt : option Z
}.
#[export] Instance eta_Tenant : Eta Tenant := fun r =>
  MkTenant (tn_ID r) (tn_Name r) (tn_Domain r) (tn_IsActive r) (tn_CreatedAt r)
    (tn_UpdatedAt r) (tn_DeletedAt r).

(** models.User (Roles, an association gorm never loads here, is left out) *)
Record User := MkUser {
  us_ID : uuid;
  us_TenantID : uuid;
  us_Username : string;
  us_Email : string;
  us_PasswordHash : string;
  us_Status : UserStatus;
  us_EmailVerified : bool;
  us_EmailVerificationCode : string;
  us_EmailVerificationExpiresAt : option Z;
  us_PhoneNumber : string;
  us_PhoneVerified : bool;
  us_FirstName : string;
  us_LastName : string;
  us_Avatar : string;
  us_Locale : string;
  us_Timezone : string;
  us_LastLoginAt : option Z;
  us_LastLoginIP : string;
  us_FailedLoginAttempts : Z;
  us_LockedAt : option Z;
  us_LockedUntil : option Z;
  us_PasswordResetToken : string;
  us_PasswordResetExpiresAt : option Z;
  us_Metadata : JSON;
  us_CreatedAt : Z;
  us_UpdatedAt : Z;
  us_DeletedAt : option Z
}.
#[export] Instance eta_User : Eta User := fun r =>
  MkUser (us_ID r) (us_TenantID r) (us_Username r) (us_Email r) (us_PasswordHash r)
    (us_Status r) (us_EmailVerified r) (us_EmailVerificationCode r)
    (us_EmailVerificationExpiresAt r) (us_PhoneNumber r)
    (us_PhoneVerified r) (us_FirstName r) (us_LastName r) (us_Avatar r)
    (us_Locale r) (us_Timezone r) (us_LastLoginAt r) (us_LastLoginIP r)
    (us_FailedLoginAttempts r) (us_LockedAt r) (us_LockedUntil r)
    (us_PasswordResetToken r) (us_PasswordResetExpiresAt r) (us_Metadata r)
    (us_CreatedAt r) (us_UpdatedAt r) (us_DeletedAt r).

(** models.Client *)
Record Client := MkClient {
  cl_ID : uuid;
  cl_TenantID : uuid;
  cl_ClientID : string;
  cl_ClientSecret : string;
  cl_PlainClientSecret : string;
  cl_Name : string;
  cl_RedirectURIs : list string;
  cl_PostLogoutRedirectURIs : list string;
  cl_GrantTypes : list string;
  cl_Scopes : list string;
  cl_IsPublic : bool;
  cl_TokenEndpointAuthMethod : string;
  cl_DynamicallyRegistered : bool;
  cl_RegistrationAccessToken : string;
  cl_CreatedAt : Z;
  cl_UpdatedAt : Z;
  cl_DeletedAt : option Z
}.
#[export] Instance eta_Client : Eta Client := fun r =>
  MkClient (cl_ID r) (cl_TenantID r) (cl_ClientID r) (cl_ClientSecret r)
    (cl_PlainClientSecret r) (cl_Name r) (cl_RedirectURIs r)
    (cl_PostLogoutRedirectURIs r) (cl_GrantTypes r) (cl_Scopes r)
    (cl_IsPublic r) (cl_TokenEndpointAuthMethod r)
    (cl_DynamicallyRegistered r) (cl_RegistrationAccessToken r)
    (cl_CreatedAt r) (cl_UpdatedAt r) (cl_DeletedAt r).

(** models.AuthorizationCode *)
Record AuthorizationCode := MkAuthorizationCode {
  ac_ID : uuid;
  ac_TenantID : uuid;
  ac_Code : string;
  ac_ClientID : uuid;
  ac_UserID : uuid;
  ac_RedirectURI : string;
  ac_Scope : string;
  ac_CodeChallenge : string;
  ac_CodeChallengeMethod : string;
  ac_Nonce : string;
  ac_AuthTime : option Z;
  ac_AMR : list string;
  ac_UsedAt : option Z;
  ac_ExpiresAt : Z;
  ac_CreatedAt : Z
}.
#[export] Instance eta_AuthorizationCode : Eta AuthorizationCode := fun r =>
  MkAuthorizationCode (ac_ID r) (ac_TenantID r) (ac_Code r) (ac_ClientID r) (ac_UserID r)
    (ac_RedirectURI r) (ac_Scope r) (ac_CodeChallenge r)
    (ac_CodeChallengeMethod r) (ac_Nonce r) (ac_AuthTime r) (ac_AMR r)
    (ac_UsedAt r) (ac_ExpiresAt r) (ac_CreatedAt r).

(** models.Session *)
Record Session := MkSession {
  ss_ID : uuid;
  ss_TenantID : uuid;
  ss_UserID : uuid;
  ss_TokenHash : string;
  ss_AuthTime : Z;
  ss_AMR : list string;
  ss_IPAddress : string;
  ss_UserAgent : string;
  ss_ExpiresAt : Z;
  ss_CreatedAt : Z
}.
#[export] Instance eta_Session : Eta Session := fun r =>
  MkSession (ss_ID r) (ss_TenantID r) (ss_UserID r) (ss_TokenHash r) (ss_AuthTime r)
    (ss_AMR r) (ss_IPAddress r) (ss_UserAgent r) (ss_ExpiresAt r)
    (ss_CreatedAt r).

(** models.Consent *)
Record Consent := MkConsent {
  cs_ID : uuid;
  cs_TenantID : uuid;
  cs_UserID : uuid;
  cs_ClientID : uuid;
  cs_Scope : string;
  cs_CreatedAt : Z;
  cs_UpdatedAt : Z
}.
#[export] Instance eta_Consent : Eta Consent := fun r =>
  MkConsent (cs_ID r) (cs_TenantID r) (cs_UserID r) (cs_ClientID r) (cs_Scope r)
    (cs_CreatedAt r) (cs_UpdatedAt r).

(** models.AccessToken; Token is the hash of the issued token *)
Record AccessToken := MkAccessToken {
  at_ID : uuid;
  at_TenantID : uuid;
  at_Token : string;
  at_ClientID : uuid;
  at_UserID : uuid;
  at_FamilyID : uuid;
  at_Scope : string;
  at_ExpiresAt : Z;
  at_CreatedAt : Z
}.
#[export] Instance eta_AccessToken : Eta AccessToken := fun r =>
  MkAccessToken (at_ID r) (at_TenantID r) (at_Token r) (at_ClientID r) (at_UserID r)
    (at_FamilyID r) (at_Scope r) (at_ExpiresAt r) (at_CreatedAt r).

(** models.RefreshToken *)
Record RefreshToken := MkRefreshToken {
  rt_ID : uuid;
  rt_TenantID : uuid;
  rt_Token : string;
  rt_ClientID : uuid;
  rt_UserID : uuid;
  rt_FamilyID : uuid;
  rt_Scope : string;
  rt_AuthTime : option Z;
  rt_AMR : list string;
  rt_RevokedAt : option Z;
  rt_ExpiresAt : Z;
  rt_CreatedAt : Z
}.
#[export] Instance eta_RefreshToken : Eta RefreshToken := fun r =>
  MkRefreshToken (rt_ID r) (rt_TenantID r) (rt_Token r) (rt_ClientID r) (rt_UserID r)
    (rt_FamilyID r) (rt_Scope r) (rt_AuthTime r) (rt_AMR r) (rt_RevokedAt r)
    (rt_ExpiresAt r) (rt_CreatedAt r).

(** models.DeviceCode *)
Record DeviceCode := MkDeviceCode {
  dc_ID : uuid;
  dc_TenantID : uuid;
  dc_DeviceCode : string;
  dc_UserCode : string;
  dc_ClientID : uuid;
  dc_UserID : option uuid;
  dc_Scope : string;
  dc_Status : DeviceCodeStatus;
  dc_Interval : Z;
  dc_LastPolledAt : option Z;
  dc_AuthTime : option Z;
  dc_AMR : list string;
  dc_ExpiresAt : Z;
  dc_CreatedAt : Z
}.
#[export] Instance eta_DeviceCode : Eta DeviceCode := fun r =>
  MkDeviceCode (dc_ID r) (dc_TenantID r) (dc_DeviceCode r) (dc_UserCode r) (dc_ClientID r)
    (dc_UserID r) (dc_Scope r) (dc_Status r) (dc_Interval r)
    (dc_LastPolledAt r) (dc_AuthTime r) (dc_AMR r) (dc_ExpiresAt r)
    (dc_CreatedAt r).

(** models.UserMFA *)
Record UserMFA := MkUserMFA {
  mf_UserID : uuid;
  mf_TenantID : uuid;
  mf_TOTPSecret : string;
  mf_ConfirmedAt : option Z;
  mf_LastUsedStep : Z;
  mf_FailedAttempts : Z;
  mf_LockedUntil : option Z;
  mf_CreatedAt : Z;
  mf_UpdatedAt : Z
}.
#[export] Instance eta_UserMFA : Eta UserMFA := fun r =>
  MkUserMFA (mf_UserID r) (mf_TenantID r) (mf_TOTPSecret r) (mf_ConfirmedAt r)
    (mf_LastUsedStep r) (mf_FailedAttempts r) (mf_LockedUntil r)
    (mf_CreatedAt r) (mf_UpdatedAt r).

(** models.MFARecoveryCode *)
Record MFARecoveryCode := MkMFARecoveryCode {
  rc_ID : uuid;
  rc_TenantID : uuid;
  rc_UserID : uuid;
  rc_CodeHash : string;
  rc_UsedAt : option Z;
  rc_CreatedAt : Z
}.
#[export] Instance eta_MFARecoveryCode : Eta MFARecoveryCode := fun r =>
  MkMFARecoveryCode (rc_ID r) (rc_TenantID r) (rc_UserID r) (rc_CodeHash r) (rc_UsedAt r)
    (rc_CreatedAt r).

(** models.InitialAccessToken *)
Record InitialAccessToken := MkInitialAccessToken {
  ia_ID : uuid;
  ia_TenantID : uuid;
  ia_TokenHash : string;
  ia_Description : string;
  ia_Scopes : list string;
  ia_MaxUses : Z;
  ia_Uses : Z;
  ia_CreatedBy : option uuid;
  ia_ExpiresAt : Z;
  ia_RevokedAt : option Z;
  ia_CreatedAt : Z
}.
#[export] Instance eta_InitialAccessToken : Eta InitialAccessToken := fun r =>
  MkInitialAccessToken (ia_ID r) (ia_TenantID r) (ia_TokenHash r) (ia_Description r) (ia_Scopes r)
    (ia_MaxUses r) (ia_Uses r) (ia_CreatedBy r) (ia_ExpiresAt r)
    (ia_RevokedAt r) (ia_CreatedAt r).

(** models.EmailVerification *)
Record EmailVerification := MkEmailVerification {
  ev_ID : uuid;
  ev_TenantID : uuid;
  ev_UserID : uuid;
  ev_Email : string;
  ev_CodeHash : string;
  ev_ExpiresAt : Z;
  ev_VerifiedAt : option Z;
  ev_CreatedAt : Z
}.
#[export] Instance eta_EmailVerification : Eta EmailVerification := fun r =>
  MkEmailVerification (ev_ID r) (ev_TenantID r) (ev_UserID r) (ev_Email r) (ev_CodeHash r)
    (ev_ExpiresAt r) (ev_VerifiedAt r) (ev_CreatedAt r).

(** models.PasswordReset *)
Record PasswordReset := MkPasswordReset {
  pr_ID : uuid;
  pr_TenantID : uuid;
  pr_UserID : uuid;
  pr_TokenHash : string;
  pr_ExpiresAt : Z;
  pr_UsedAt : option Z;
  pr_CreatedAt : Z
}.
#[export] Instance eta_PasswordReset : Eta PasswordReset := fun r =>
  MkPasswordReset (pr_ID r) (pr_TenantID r) (pr_UserID r) (pr_TokenHash r) (pr_ExpiresAt r)
    (pr_UsedAt r) (pr_CreatedAt r).

(** models.Role (without the associations) *)
Record Role := MkRole {
  ro_ID : uuid;
  ro_TenantID : uuid;
  ro_Name : string;
  ro_DisplayName : string;
  ro_Description : string;
  ro_IsSystem : bool;
  ro_IsActive : bool;
  ro_CreatedAt : Z;
  ro_UpdatedAt : Z;
  ro_DeletedAt : option Z
}.
#[export] Instance eta_Role : Eta Role := fun r =>
  MkRole (ro_ID r) (ro_TenantID r) (ro_Name r) (ro_DisplayName r) (ro_Description r)
    (ro_IsSystem r) (ro_IsActive r) (ro_CreatedAt r) (ro_UpdatedAt r)
    (ro_DeletedAt r).

(** models.Permission (without the associations) *)
Record Permission := MkPermission {
  pm_ID : uuid;
  pm_Name : string;
  pm_DisplayName : string;
  pm_Description : string;
  pm_Resource : string;
  pm_Action : string;
  pm_IsSystem : bool;
  pm_CreatedAt : Z;
  pm_UpdatedAt : Z;
  pm_DeletedAt : option Z
}.
#[export] Instance eta_Permission : Eta Permission := fun r =>
  MkPermission (pm_ID r) (pm_Name r) (pm_DisplayName r) (pm_Description r) (pm_Resource r)
    (pm_Action r) (pm_IsSystem r) (pm_CreatedAt r) (pm_UpdatedAt r)
    (pm_DeletedAt r).

(** models.UserRole (without the associations) *)
Record UserRole := MkUserRole {
  ur_ID : uuid;
  ur_TenantID : uuid;
  ur_UserID : uuid;
  ur_RoleID : uuid;
  ur_GrantedBy : uuid;
  ur_GrantedAt : Z;
  ur_ExpiresAt : option Z
}.
#[export] Instance eta_UserRole : Eta UserRole := fun r =>
  MkUserRole (ur_ID r) (ur_TenantID r) (ur_UserID r) (ur_RoleID r) (ur_GrantedBy r)
    (ur_GrantedAt r) (ur_ExpiresAt r).

(** models.RolePermission (without the associations) *)
Record RolePermission := MkRolePermission {
  rp_ID : uuid;
  rp_RoleID : uuid;
  rp_PermissionID : uuid;
  rp_GrantedBy : uuid;
  rp_GrantedAt : Z
}.
#[export] Instance eta_RolePermission : Eta RolePermission := fun r =>
  MkRolePermission (rp_ID r) (rp_RoleID r) (rp_PermissionID r) (rp_GrantedBy r)
    (rp_GrantedAt r).

(** models.IdempotencyKey *)
Record IdempotencyKey := MkIdempotencyKey {
  ik_ID : uuid;
  ik_TenantID : uuid;
  ik_Principal : string;
  ik_Key : string;
  ik_Method : string;
  ik_Path : string;
  ik_RequestHash : string;
  ik_StatusCode : Z;
  ik_ResponseContentType : string;
  ik_ResponseBody : string;
  ik_CreatedAt : Z;
  ik_ExpiresAt : Z
}.
#[export] Instance eta_IdempotencyKey : Eta IdempotencyKey := fun r =>
  MkIdempotencyKey (ik_ID r) (ik_TenantID r) (ik_Principal r) (ik_Key r) (ik_Method r)
    (ik_Path r) (ik_RequestHash r) (ik_StatusCode r) (ik_ResponseContentType r)
    (ik_ResponseBody r) (ik_CreatedAt r) (ik_ExpiresAt r).

(** The values of an audit entry's metadata map (map[string]interface{}),
    listed by key. *)
Inductive MetaValue : Set :=
| MetaString (s : string)
| MetaStrings (l : list string)
| MetaBool (b : bool)
| MetaNumber (n : Z)
| MetaTime (t : option Z).
Abbreviation Metadata := (list (string * MetaValue)) (only parsing).

(** models.AuditLog (without the associations) *)
Record AuditLog := MkAuditLog {
  al_ID : uuid;
  al_TenantID : uuid;
  al_UserID : option uuid;
  al_ClientID : option uuid;
  al_Action : AuditAction;
  al_Resource : string;
  al_ResourceID : option uuid;
  al_IPAddress : string;
  al_UserAgent : string;
  al_RequestID : string;
  al_Success : bool;
  al_ErrorCode : string;
  al_ErrorMessage : string;
  al_Metadata : Metadata;
  al_CreatedAt : Z
}.
#[export] Instance eta_AuditLog : Eta AuditLog := fun r =>
  MkAuditLog (al_ID r) (al_TenantID r) (al_UserID r) (al_ClientID r) (al_Action r)
    (al_Resource r) (al_ResourceID r) (al_IPAddress r) (al_UserAgent r)
    (al_RequestID r) (al_Success r) (al_ErrorCode r) (al_ErrorMessage r)
    (al_Metadata r) (al_CreatedAt r).

(** models.EmailTemplate *)
Record EmailTemplate := MkEmailTemplate {
  et_ID : uuid;
  et_TenantID : uuid;
  et_Name : string;
  et_Subject : string;
  et_BodyHTML : string;
  et_BodyText : string;
  et_Variables : list string;
  et_IsActive : bool;
  et_CreatedAt : Z;
  et_UpdatedAt : Z;
  et_DeletedAt : option Z
}.
#[export] Instance eta_EmailTemplate : Eta EmailTemplate := fun r =>
  MkEmailTemplate (et_ID r) (et_TenantID r) (et_Name r) (et_Subject r) (et_BodyHTML r)
    (et_BodyText r) (et_Variables r) (et_IsActive r) (et_CreatedAt r)
    (et_UpdatedAt r) (et_DeletedAt r).

(** models.EmailQueue (without the association) *)
Record EmailQueue := MkEmailQueue {
  eq_ID : uuid;
  eq_TenantID : uuid;
  eq_UserID : option uuid;
  eq_ToEmail : string;
  eq_ToName : string;
  eq_FromEmail : string;
  eq_FromName : string;
  eq_Subject : string;
  eq_BodyHTML : string;
  eq_BodyText : string;
  eq_Status : string;
  eq_Priority : Z;
  eq_Attempts : Z;
  eq_MaxAttempts : Z;
  eq_LastError : string;
  eq_ScheduledAt : Z;
  eq_SentAt : option Z;
  eq_CreatedAt : Z;
  eq_UpdatedAt : Z
}.
#[export] Instance eta_EmailQueue : Eta EmailQueue := fun r =>
  MkEmailQueue (eq_ID r) (eq_TenantID r) (eq_UserID r) (eq_ToEmail r) (eq_ToName r)
    (eq_FromEmail r) (eq_FromName r) (eq_Subject r) (eq_BodyHTML r)
    (eq_BodyText r) (eq_Status r) (eq_Priority r) (eq_Attempts r)
    (eq_MaxAttempts r) (eq_LastError r) (eq_ScheduledAt r) (eq_SentAt r)
    (eq_CreatedAt r) (eq_UpdatedAt r).

(** ** Requests, responses and claims *)

(** models.TokenResponse *)
Record TokenResponse := MkTokenResponse {
  tr_AccessToken : string;
  tr_TokenType : string;
  tr_ExpiresIn : Z;
  tr_RefreshToken : string;
  tr_IDToken : string;
  tr_Scope : string
}.
#[export] Instance eta_TokenResponse : Eta TokenResponse := fun r =>
  MkTokenResponse (tr_AccessToken r) (tr_TokenType r) (tr_ExpiresIn r) (tr_RefreshToken r)
    (tr_IDToken r) (tr_Scope r).

(** models.TokenExchangeResponse *)
Record TokenExchangeResponse := MkTokenExchangeResponse {
  te_AccessToken : string;
  te_IssuedTokenType : string;
  te_TokenType : string;
  te_ExpiresIn : Z;
  te_Scope : string
}.
#[export] Instance eta_TokenExchangeResponse : Eta TokenExchangeResponse := fun r =>
  MkTokenExchangeResponse (te_AccessToken r) (te_IssuedTokenType r) (te_TokenType r) (te_ExpiresIn r)
    (te_Scope r).

(** models.DeviceAuthorizationResponse *)
Record DeviceAuthorizationResponse := MkDeviceAuthorizationResponse {
  da_DeviceCode : string;
  da_UserCode : string;
  da_VerificationURI : string;
  da_VerificationURIComplete : string;
  da_ExpiresIn : Z;
  da_Interval : Z
}.
#[export] Instance eta_DeviceAuthorizationResponse : Eta DeviceAuthorizationResponse := fun r =>
  MkDeviceAuthorizationResponse (da_DeviceCode r) (da_UserCode r) (da_VerificationURI r)
    (da_VerificationURIComplete r) (da_ExpiresIn r) (da_Interval r).

(** models.IntrospectionResponse *)
Record IntrospectionResponse := MkIntrospectionResponse {
  ir_Active : bool;
  ir_Scope : string;
  ir_ClientID : string;
  ir_TokenType : string;
  ir_Sub : string;
  ir_UserID : string;
  ir_Exp : Z;
  ir_Iat : Z;
  ir_Iss : string
}.
#[export] Instance eta_IntrospectionResponse : Eta IntrospectionResponse := fun r =>
  MkIntrospectionResponse (ir_Active r) (ir_Scope r) (ir_ClientID r) (ir_TokenType r) (ir_Sub r)
    (ir_UserID r) (ir_Exp r) (ir_Iat r) (ir_Iss r).

(** models.UserInfo *)
Record UserInfo := MkUserInfo {
  ui_Sub : string;
  ui_Name : string;
  ui_GivenName : string;
  ui_FamilyName : string;
  ui_PreferredUsername : string;
  ui_Picture : string;
  ui_Locale : string;
  ui_Zoneinfo : string;
  ui_UpdatedAt : Z;
  ui_Email : string;
  ui_EmailVerified : option bool;
  ui_PhoneNumber : string;
  ui_PhoneNumberVerified : option bool
}.
#[export] Instance eta_UserInfo : Eta UserInfo := fun r =>
  MkUserInfo (ui_Sub r) (ui_Name r) (ui_GivenName r) (ui_FamilyName r)
    (ui_PreferredUsername r) (ui_Picture r) (ui_Locale r) (ui_Zoneinfo r)
    (ui_UpdatedAt r) (ui_Email r) (ui_EmailVerified r) (ui_PhoneNumber r)
    (ui_PhoneNumberVerified r).

(** models.IDTokenParams *)
Record IDTokenParams := MkIDTokenParams {
  ip_ClientID : string;
  ip_Scope : string;
  ip_Nonce : string;
  ip_AuthTime : option Z;
  ip_AMR : list string;
  ip_AccessToken : string
}.
#[export] Instance eta_IDTokenParams : Eta IDTokenParams := fun r =>
  MkIDTokenParams (ip_ClientID r) (ip_Scope r) (ip_Nonce r) (ip_AuthTime r) (ip_AMR r)
    (ip_AccessToken r).

(** models.IDTokenClaims; the embedded UserInfo is the first field *)
Record IDTokenClaims := MkIDTokenClaims {
  ic_UserInfo : UserInfo;
  ic_Iss : string;
  ic_Aud : string;
  ic_Exp : Z;
  ic_Iat : Z;
  ic_AuthTime : Z;
  ic_AMR : list string;
  ic_Nonce : string;
  ic_AtHash : string;
  ic_TenantID : string
}.
#[export] Instance eta_IDTokenClaims : Eta IDTokenClaims := fun r =>
  MkIDTokenClaims (ic_UserInfo r) (ic_Iss r) (ic_Aud r) (ic_Exp r) (ic_Iat r) (ic_AuthTime r)
    (ic_AMR r) (ic_Nonce r) (ic_AtHash r) (ic_TenantID r).

(** models.JWTClaims; Act is the sub of models.ActorClaim *)
Record JWTClaims := MkJWTClaims {
  jc_Jti : string;
  jc_Sub : string;
  jc_Aud : string;
  jc_Iss : string;
  jc_Exp : Z;
  jc_Iat : Z;
  jc_TenantID : string;
  jc_Scope : string;
  jc_ClientID : string;
  jc_UserID : string;
  jc_Email : string;
  jc_Name : string;
  jc_Act : option string
}.
#[export] Instance eta_JWTClaims : Eta JWTClaims := fun r =>
  MkJWTClaims (jc_Jti r) (jc_Sub r) (jc_Aud r) (jc_Iss r) (jc_Exp r) (jc_Iat r)
    (jc_TenantID r) (jc_Scope r) (jc_ClientID r) (jc_UserID r) (jc_Email r)
    (jc_Name r) (jc_Act r).

(** models.CreateUserRequest and UpdateUserRequest *)
Record CreateUserRequest := MkCreateUserRequest {
  cu_Username : string; cu_Email : string; cu_Password : string
}.
Record UpdateUserRequest := MkUpdateUserRequest {
  uu_Username : string; uu_Email : string; uu_Password : string
}.

(** models.MFAStatus *)
Record MFAStatus := MkMFAStatus {
  ms_Enabled : bool;
  ms_Methods : list string;
  ms_EnabledAt : option Z;
  ms_RecoveryCodesRemaining : Z
}.

(** models.TOTPEnrollment *)
Record TOTPEnrollment := MkTOTPEnrollment {
  te_Secret : string;
  te_OTPAuthURI : string
}.

(** models.CreateClientRequest *)
Record CreateClientRequest := MkCreateClientRequest {
  cr_Name : string;
  cr_RedirectURIs : list string;
  cr_PostLogoutRedirectURIs : list string;
  cr_GrantTypes : list string;
  cr_Scopes : list string;
  cr_IsPublic : bool
}.

(** models.UpdateClientRequest; a nil slice or pointer is [None] where the
    code tells it from an empty one *)
Record UpdateClientRequest := MkUpdateClientRequest {
  uc_Name : string;
  uc_RedirectURIs : list string;
  uc_PostLogoutRedirectURIs : option (list string);
  uc_GrantTypes : list string;
  uc_Scopes : list string;
  uc_IsPublic : option bool
}.

(** models.CreateInitialAccessTokenRequest *)
Record CreateInitialAccessTokenRequest := MkCreateInitialAccessTokenRequest {
  ci_Description : string;
  ci_Scopes : list string;
  ci_ExpiresIn : Z;
  ci_MaxUses : Z
}.

(** models.ClientMetadata *)
Record ClientMetadata := MkClientMetadata {
  cm_ClientID : string;
  cm_RedirectURIs : list string;
  cm_PostLogoutRedirectURIs : list string;
  cm_TokenEndpointAuthMethod : string;
  cm_GrantTypes : list string;
  cm_ResponseTypes : list string;
  cm_ClientName : string;
  cm_Scope : string
}.

(** models.ClientRegistrationResponse; the embedded ClientMetadata first *)
Record ClientRegistrationResponse := MkClientRegistrationResponse {
  cp_ClientMetadata : ClientMetadata;
  cp_ClientID : string;
  cp_ClientSecret : string;
  cp_ClientIDIssuedAt : Z;
  cp_ClientSecretExpiresAt : option Z;
  cp_RegistrationAccessToken : string;
  cp_RegistrationClientURI : string
}.
#[export] Instance eta_ClientRegistrationResponse : Eta ClientRegistrationResponse := fun r =>
  MkClientRegistrationResponse (cp_ClientMetadata r) (cp_ClientID r) (cp_ClientSecret r)
    (cp_ClientIDIssuedAt r) (cp_ClientSecretExpiresAt r) (cp_RegistrationAccessToken r)
    (cp_RegistrationClientURI r).

(** models.CreateRoleRequest *)
Record CreateRoleRequest := MkCreateRoleRequest {
  crr_Name : string;
  crr_DisplayName : string;
  crr_Description : string;
  crr_Permissions : list string
}.

(** models.UpdateRoleRequest; a nil Permissions slice is [None] *)
Record UpdateRoleRequest := MkUpdateRoleRequest {
  urr_DisplayName : string;
  urr_Description : string;
  urr_IsActive : option bool;
  urr_Permissions : option (list string)
}.

(** models.CreatePermissionRequest *)
Record CreatePermissionRequest := MkCreatePermissionRequest {
  cpr_Name : string;
  cpr_DisplayName : string;
  cpr_Description : string;
  cpr_Resource : string;
  cpr_Action : string
}.

(** models.UpdatePermissionRequest *)
Record UpdatePermissionRequest := MkUpdatePermissionRequest {
  upr_DisplayName : string;
  upr_Description : string;
  upr_Resource : string;
  upr_Action : string
}.

(** models.CreateTenantRequest *)
Record CreateTenantRequest := MkCreateTenantRequest {
  ctr_Name : string;
  ctr_Domain : string
}.

(** models.UpdateTenantRequest *)
Record UpdateTenantRequest := MkUpdateTenantRequest {
  utr_Name : string;
  utr_Domain : string;
  utr_IsActive : option bool
}.

(** models.AssignRoleRequest *)
Record AssignRoleRequest := MkAssignRoleRequest {
  asr_UserID : uuid;
  asr_ExpiresAt : option Z
}.

(** models.ChangePasswordRequest *)
Record ChangePasswordRequest := MkChangePasswordRequest {
  cw_OldPassword : string;
  cw_NewPassword : string
}.

(** models.MFACodeRequest *)
Record MFACodeRequest := MkMFACodeRequest {
  mc_Code : string
}.

(** models.AuditLogQuery *)
Record AuditLogQuery := MkAuditLogQuery {
  aq_TenantID : uuid;
  aq_UserID : option uuid;
  aq_ClientID : option uuid;
  aq_Action : option AuditAction;
  aq_Resource : string;
  aq_ResourceID : option uuid;
  aq_IPAddress : string;
  aq_Success : option bool;
  aq_StartDate : option Z;
  aq_EndDate : option Z;
  aq_Limit : Z;
  aq_Offset : Z
}.
#[export] Instance eta_AuditLogQuery : Eta AuditLogQuery := fun r =>
  MkAuditLogQuery (aq_TenantID r) (aq_UserID r) (aq_ClientID r) (aq_Action r) (aq_Resource r)
    (aq_ResourceID r) (aq_IPAddress r) (aq_Success r) (aq_StartDate r)
    (aq_EndDate r) (aq_Limit r) (aq_Offset r).

(** models.OpenIDConfiguration *)
Record OpenIDConfiguration := MkOpenIDConfiguration {
  oc_Issuer : string;
  oc_AuthorizationEndpoint : string;
  oc_TokenEndpoint : string;
  oc_UserInfoEndpoint : string;
  oc_JwksURI : string;
  oc_RevocationEndpoint : string;
  oc_IntrospectionEndpoint : string;
  oc_DeviceAuthorizationEndpoint : string;
  oc_RegistrationEndpoint : string;
  oc_EndSessionEndpoint : string;
  oc_ScopesSupported : list string;
  oc_ResponseTypesSupported : list string;
  oc_ResponseModesSupported : list string;
  oc_GrantTypesSupported : list string;
  oc_SubjectTypesSupported : list string;
  oc_IDTokenSigningAlgValuesSupported : list string;
  oc_TokenEndpointAuthMethodsSupported : list string;
  oc_RevocationEndpointAuthMethodsSupported : list string;
  oc_IntrospectionEndpointAuthMethodsSupported : list string;
  oc_CodeChallengeMethodsSupported : list string;
  oc_PromptValuesSupported : list string;
  oc_ClaimsSupported : list string;
  oc_ClaimsParameterSupported : bool;
  oc_RequestParameterSupported : bool;
  oc_RequestURIParameterSupported : bool;
  oc_AuthorizationResponseIssParameterSupported : bool
}.

(** models.AuthorizeRequest *)
Record AuthorizeRequest := MkAuthorizeRequest {
  ar_ResponseType : string;
  ar_ClientID : string;
  ar_RedirectURI : string;
  ar_Scope : string;
  ar_State : string;
  ar_CodeChallenge : string;
  ar_CodeChallengeMethod : string;
  ar_Nonce : string;
  ar_Prompt : string;
  ar_MaxAge : string;
  ar_Request : string;
  ar_RequestURI : string
}.
#[export] Instance eta_AuthorizeRequest : Eta AuthorizeRequest := fun r =>
  MkAuthorizeRequest (ar_ResponseType r) (ar_ClientID r) (ar_RedirectURI r) (ar_Scope r)
    (ar_State r) (ar_CodeChallenge r) (ar_CodeChallengeMethod r)
    (ar_Nonce r) (ar_Prompt r) (ar_MaxAge r) (ar_Request r)
    (ar_RequestURI r).

(** models.TokenEvent *)
Record TokenEvent := MkTokenEvent {
  tv_Type : string;
  tv_TenantID : uuid;
  tv_ClientID : uuid;
  tv_UserID : option uuid;
  tv_GrantType : string;
  tv_Scope : string;
  tv_FamilyID : uuid;
  tv_Credential : string;
  tv_Actor : string
}.
#[export] Instance eta_TokenEvent : Eta TokenEvent := fun r =>
  MkTokenEvent (tv_Type r) (tv_TenantID r) (tv_ClientID r) (tv_UserID r) (tv_GrantType r)
    (tv_Scope r) (tv_FamilyID r) (tv_Credential r) (tv_Actor r).

(** ** Methods

    Methods that call time.Now() take the time they read as [now]. *)

Definition is_some {A} (o : option A) : bool := match o with Some _ => true | None => false end.

Definition AuthorizationCode_IsExpired (now : Z) (ac : AuthorizationCode) : bool :=
  negb (time_before now (ac_ExpiresAt ac)).
Definition AuthorizationCode_IsUsed (ac : AuthorizationCode) : bool := is_some (ac_UsedAt ac).
Definition AccessToken_IsExpired (now : Z) (t : AccessToken) : bool :=
  negb (time_before now (at_ExpiresAt t)).
Definition RefreshToken_IsExpired (now : Z) (t : RefreshToken) : bool :=
  negb (time_before now (rt_ExpiresAt t)).
Definition RefreshToken_IsRevoked (t : RefreshToken) : bool := is_some (rt_RevokedAt t).
Definition Session_IsExpired (now : Z) (s : Session) : bool :=
  negb (time_before now (ss_ExpiresAt s)).
Definition DeviceCode_IsExpired (now : Z) (dc : DeviceCode) : bool :=
  negb (time_before now (dc_ExpiresAt dc)).
Definition EmailVerification_IsExpired (now : Z) (v : EmailVerification) : bool :=
  negb (time_before now (ev_ExpiresAt v)).
Definition PasswordReset_IsExpired (now : Z) (r : PasswordReset) : bool :=
  negb (time_before now (pr_ExpiresAt r)).
Definition PasswordReset_IsUsed (r : PasswordReset) : bool := is_some (pr_UsedAt r).
Definition UserRole_IsExpired (now : Z) (ur : UserRole) : bool :=
  match ur_ExpiresAt ur with Some e => time_after now e | None => false end.
Definition UserMFA_Enabled (m : UserMFA) : bool := is_some (mf_ConfirmedAt m).

Definition InProgress (k : IdempotencyKey) : bool := ik_StatusCode k =? 0.

Definition AuthorizeRequest_Validate (r : AuthorizeRequest) : option error :=
  if ar_ResponseType r !=? "code"
  then Some (EMessage ("unsupported response_type: " +:+ ar_ResponseType r)) else None.

Definition contains (l : list string) (v : string) : bool := existsb (fun x => x ==? v) l.
Definition HasRedirectURI (c : Client) (uri : string) : bool := contains (cl_RedirectURIs c) uri.
Definition HasGrantType (c : Client) (g : string) : bool := contains (cl_GrantTypes c) g.
Definition HasScope (c : Client) (s : string) : bool := contains (cl_Scopes c) s.

Definition IsLocked (now : Z) (u : User) : bool :=
  (us_Status u ==? UserStatusLocked) ||
  match us_LockedUntil u with Some t => time_before now t | None => false end.
Definition IsSuspended (u : User) : bool := us_Status u ==? UserStatusSuspended.
Definition IsPending (u : User) : bool := us_Status u ==? UserStatusPending.
Definition IsActive (now : Z) (u : User) : bool :=
  (us_Status u ==? UserStatusActive) && negb (IsLocked now u) && negb (IsSuspended u).

Definition GetFullName (u : User) : string :=
  if (us_FirstName u !=? "") && (us_LastName u !=? "") then us_FirstName u +:+ " " +:+ us_LastName u
  else if us_FirstName u !=? "" then us_FirstName u
  else if us_LastName u !=? "" then us_LastName u
  else us_Username u.

(** ** Pagination *)

Record PageInfo := MkPageInfo {
  pi_Limit : Z; pi_Offset : Z; pi_TotalCount : Z; pi_HasMore : bool
}.
Record PaginatedResponse (A : Type) := MkPaginatedResponse {
  pg_Items : list A; pg_Page : PageInfo
}.
Arguments MkPaginatedResponse {_}. Arguments pg_Items {_}. Arguments pg_Page {_}.

(** [limit], [offset] and the total are 64-bit; the sum wraps. *)
Definition NewPaginatedResponse {A} (items : list A) (limit offset totalCount : Z)
    : PaginatedResponse A :=
  let hasMore := wrap64 (offset + limit) <? totalCount in
  MkPaginatedResponse items (MkPageInfo limit offset totalCount hasMore).

Lemma contains_elem_of l v : contains l v = true <-> v ∈ l.
Proof.
  unfold contains. rewrite existsb_exists. setoid_rewrite bool_decide_eq_true.
  rewrite list_elem_of_In. split; [intros (x & ? & ->); done | eauto].
Qed.

Lemma errors_Is_refl e : errors_Is e e = true.
Proof. destruct e; simpl; by rewrite bool_decide_eq_true_2. Qed.

Lemma errors_Is_wrap m e t : errors_Is e t = true -> errors_Is (EWrap m e) t = true.
Proof. intros H. simpl. by rewrite H, orb_true_r. Qed.
