(* ===== verification/Effects.v ===== *)
(** The effects of the modelled code: a database, a clock, a random source,
    token events, the in-memory caches and outgoing mail, and programs over
    them. A program is a tree of atomic steps, so the same definition can be
    run alone ([run]) or interleaved with others (file Concurrency.v). A Go
    error return is [Err], a panic is [Panic]; neither undoes earlier steps. *)
From S2P Require Import Prelude GoStd Models.
From stdpp Require Import gmap.

Open Scope Z_scope.

(** ** State *)

(** The tables of internal/database/database.go that the services use. *)
Record DB : Set := MkDB {
  db_tenants : list Tenant;
  db_users : list User;
  db_clients : list Client;
  db_authCodes : list AuthorizationCode;
  db_accessTokens : list AccessToken;
  db_refreshTokens : list RefreshToken;
  db_deviceCodes : list DeviceCode;
  db_sessions : list Session;
  db_consents : list Consent;
  db_mfa : list UserMFA;
  db_recoveryCodes : list MFARecoveryCode;
  db_initialAccess : list InitialAccessToken;
  db_emailVerifications : list EmailVerification;
  db_passwordResets : list PasswordReset;
  db_roles : list Role;
  db_permissions : list Permission;
  db_userRoles : list UserRole;
  db_rolePermissions : list RolePermission;
  db_idempotency : list IdempotencyKey;
  db_auditLogs : list AuditLog;
  db_emailTemplates : list EmailTemplate;
  db_emailQueue : list EmailQueue
}.
#[export] Instance eta_DB : Eta DB := fun r =>
  MkDB (db_tenants r) (db_users r) (db_clients r) (db_authCodes r) (db_accessTokens r)
    (db_refreshTokens r) (db_deviceCodes r) (db_sessions r) (db_consents r) (db_mfa r)
    (db_recoveryCodes r) (db_initialAccess r) (db_emailVerifications r) (db_passwordResets r)
    (db_roles r) (db_permissions r) (db_userRoles r) (db_rolePermissions r)
    (db_idempotency r) (db_auditLogs r) (db_emailTemplates r) (db_emailQueue r).

Definition empty_db : DB :=
  MkDB [] [] [] [] [] [] [] [] [] [] [] [] [] [] [] [] [] [] [] [] [] [].

(** [w_step] counts the steps taken so far and indexes the environment.
    [w_secrets] maps (client row ID, stored hash) to (mac, expiry);
    [w_domains] maps a host name to (tenant ID, found, expiry) and
    [w_outbox] lists the messages handed to the SMTP server. *)
Record World : Set := MkWorld {
  w_db : DB;
  w_step : nat;
  w_events : list TokenEvent;
  w_secrets : gmap (uuid * string) (string * Z);
  w_domains : gmap string (uuid * bool * Z);
  w_outbox : list (string * string * string)
}.
#[export] Instance eta_World : Eta World := fun w =>
  MkWorld (w_db w) (w_step w) (w_events w) (w_secrets w) (w_domains w) (w_outbox w).

(** What the outside answers at each step: the time time.Now() returns,
    whether a statement sent to the database fails, the bytes crypto/rand
    yields ([None]: it failed) and the UUID uuid.New() returns. Nothing is
    assumed of it here; theorems state what they need. *)
Class Env := {
  env_now : nat -> Z;
  env_fault : nat -> bool;
  env_rand : nat -> option (nat -> Z);
  env_uuid : nat -> uuid
}.

(** ** Programs *)

Inductive outcome (A : Type) : Type :=
| Ok (a : A)
| Err (e : error)
| Panic.
Arguments Ok {_}. Arguments Err {_}. Arguments Panic {_}.

Inductive prog (A : Type) : Type :=
| Done (o : outcome A)
| Step {X : Set} (act : World -> World * X) (k : X -> prog A).
Arguments Done {_}. Arguments Step {_ _}.

Fixpoint prog_bind {A B} (f : A -> prog B) (p : prog A) : prog B :=
  match p with
  | Done (Ok a) => f a
  | Done (Err e) => Done (Err e)
  | Done Panic => Done Panic
  | Step act k => Step act (fun x => prog_bind f (k x))
  end.
#[export] Instance prog_mret : MRet prog := fun _ a => Done (Ok a).
#[export] Instance prog_mbind : MBind prog := @prog_bind.

Definition throw {A} (e : error) : prog A := Done (Err e).
Definition panic {A} : prog A := Done Panic.

(** The error of [p] as a value: [x, err := p]. *)
Fixpoint attempt {A} (p : prog A) : prog (A + error) :=
  match p with
  | Done (Ok a) => Done (Ok (inl a))
  | Done (Err e) => Done (Ok (inr e))
  | Done Panic => Done Panic
  | Step act k => Step act (fun x => attempt (k x))
  end.

(** [if err := p; err != nil { return nil, f err }] *)
Definition map_err {A} (f : error -> error) (p : prog A) : prog A :=
  r ← attempt p; match r with inl a => mret a | inr e => throw (f e) end.
Definition wrap {A} (msg : string) (p : prog A) : prog A := map_err (EWrap msg) p.
Definition or_err {A} (e : error) (p : prog A) : prog A := map_err (fun _ => e) p.

(** A call whose results are discarded, or whose error is only logged. *)
Definition ignore {A} (p : prog A) : prog unit := attempt p ;; mret tt.

Definition from_opt {A} (e : error) (o : option A) : prog A :=
  match o with Some a => mret a | None => throw e end.

(** A slice expression: out of range panics. *)
Definition or_panic {A} (o : option A) : prog A :=
  match o with Some a => mret a | None => panic end.

(** ** Primitive steps *)

Definition tick (w : World) : World := w <| w_step := S (w_step w) |>.

Section Steps.
Context `{Env}.

Definition Now : prog Z := Step (fun w => (tick w, env_now (w_step w))) mret.

Definition NewUUID : prog uuid := Step (fun w => (tick w, env_uuid (w_step w))) mret.

(** rand.Read of [n] bytes. *)
Definition RandRead (n : nat) : prog string :=
  Step (fun w => (tick w, option_map (fun f => string_of (map f (seq 0 n))) (env_rand (w_step w))))
       (from_opt (EExternal "crypto/rand")).

(** crypto/rand.Int: some integer of [0, max). *)
Definition RandInt (max : Z) : prog Z :=
  Step (fun w => (tick w, option_map (fun f => f O mod max) (env_rand (w_step w))))
       (from_opt (EExternal "crypto/rand")).

Definition EmitEvent (ev : TokenEvent) : prog unit :=
  Step (fun w => (tick w <| w_events := w_events w ++ [ev] |>, tt)) mret.

(** A critical section on the client secret cache. *)
Definition WithSecrets {X : Set}
    (f : gmap (uuid * string) (string * Z) -> gmap (uuid * string) (string * Z) * X) : prog X :=
  Step (fun w => let r := f (w_secrets w) in (tick w <| w_secrets := r.1 |>, r.2)) mret.

(** A critical section on the tenant resolver's cache. *)
Definition WithDomains {X : Set}
    (f : gmap string (uuid * bool * Z) -> gmap string (uuid * bool * Z) * X) : prog X :=
  Step (fun w => let r := f (w_domains w) in (tick w <| w_domains := r.1 |>, r.2)) mret.

(** One SQL statement: atomic; when it fails, nothing has changed. It is
    given the time gorm stamps rows with. *)
Definition Stmt {X : Set} (f : Z -> DB -> DB * X) : prog X :=
  Step (fun w => if env_fault (w_step w) then (tick w, None)
                 else let r := f (env_now (w_step w)) (w_db w) in
                      (tick w <| w_db := r.1 |>, Some r.2))
       (from_opt (EExternal "database")).
End Steps.

(** ** Running alone *)

Fixpoint run {A} (p : prog A) (w : World) : World * outcome A :=
  match p with
  | Done o => (w, o)
  | Step act k => let r := act w in run (k r.2) r.1
  end.

(** A database transaction: on an error its writes are rolled back. It is
    one step, that is, serializable. *)
Definition Transaction {A : Set} (p : prog A) : prog A :=
  Step (fun w => let r := run p w in
                 match r.2 with
                 | Ok _ => r
                 | _ => (r.1 <| w_db := w_db w |>, r.2)
                 end) Done.

(** What [p] ends with, started in [w]. *)
Definition wp {A} (p : prog A) (Q : outcome A -> World -> Prop) (w : World) : Prop :=
  Q (run p w).2 (run p w).1.

(** The continuation of [bind]: errors and panics skip the rest. *)
Definition kont {A B} (f : A -> prog B) (Q : outcome B -> World -> Prop)
    (o : outcome A) (w : World) : Prop :=
  match o with Ok a => wp (f a) Q w | Err e => Q (Err e) w | Panic => Q Panic w end.

Lemma wp_mono {A} (p : prog A) (P Q : outcome A -> World -> Prop) w :
  wp p P w -> (forall o w', P o w' -> Q o w') -> wp p Q w.
Proof. unfold wp. auto. Qed.

Lemma wp_ret {A} (a : A) Q w : wp (mret a) Q w <-> Q (Ok a) w.
Proof. done. Qed.

Lemma wp_throw {A} e (Q : outcome A -> World -> Prop) w : wp (throw e) Q w <-> Q (Err e) w.
Proof. done. Qed.

Lemma wp_bind {A B} (p : prog A) (f : A -> prog B) Q w :
  wp (p ≫= f) Q w <-> wp p (kont f Q) w.
Proof.
  unfold wp, kont, mbind, prog_mbind. revert w.
  induction p as [[a|e|]|X act k IH]; intros w; simpl; done.
Qed.

Lemma wp_attempt {A} (p : prog A) Q w :
  wp (attempt p) Q w <->
  wp p (fun o w' => match o with
                    | Ok a => Q (Ok (inl a)) w'
                    | Err e => Q (Ok (inr e)) w'
                    | Panic => Q Panic w'
                    end) w.
Proof.
  unfold wp. revert w. induction p as [[a|e|]|X act k IH]; intros w; simpl; done.
Qed.

Lemma wp_map_err {A} f (p : prog A) Q w :
  wp (map_err f p) Q w <->
  wp p (fun o w' => match o with
                    | Ok a => Q (Ok a) w'
                    | Err e => Q (Err (f e)) w'
                    | Panic => Q Panic w'
                    end) w.
Proof.
  unfold map_err. rewrite wp_bind, wp_attempt. unfold wp, kont.
  destruct (run p w) as [w' [a|e|]]; reflexivity.
Qed.

Lemma wp_wrap {A} msg (p : prog A) Q w :
  wp (wrap msg p) Q w <->
  wp p (fun o w' => match o with
                    | Ok a => Q (Ok a) w'
                    | Err e => Q (Err (EWrap msg e)) w'
                    | Panic => Q Panic w'
                    end) w.
Proof. apply wp_map_err. Qed.

Lemma wp_or_err {A} e (p : prog A) Q w :
  wp (or_err e p) Q w <->
  wp p (fun o w' => match o with
                    | Ok a => Q (Ok a) w'
                    | Err _ => Q (Err e) w'
                    | Panic => Q Panic w'
                    end) w.
Proof. apply wp_map_err. Qed.

Lemma wp_ignore {A} (p : prog A) Q w :
  wp (ignore p) Q w <->
  wp p (fun o w' => match o with Panic => Q Panic w' | _ => Q (Ok tt) w' end) w.
Proof.
  unfold ignore. rewrite wp_bind, wp_attempt. unfold wp, kont.
  destruct (run p w) as [w' [a|e|]]; reflexivity.
Qed.

Lemma wp_from_opt {A} e (o : option A) Q w :
  wp (from_opt e o) Q w <-> match o with Some a => Q (Ok a) w | None => Q (Err e) w end.
Proof. by destruct o. Qed.

Lemma wp_transaction {A : Set} (p : prog A) Q w :
  wp (Transaction p) Q w <->
  wp p (fun o w' => match o with
                    | Ok _ => Q o w'
                    | _ => Q o (w' <| w_db := w_db w |>)
                    end) w.
Proof. unfold wp, Transaction. simpl. destruct (run p w) as [w' [a|e|]]; reflexivity. Qed.

Section StepLemmas.
Context `{Env}.

Lemma wp_Now Q w : wp Now Q w <-> Q (Ok (env_now (w_step w))) (tick w).
Proof. done. Qed.

Lemma wp_NewUUID Q w : wp NewUUID Q w <-> Q (Ok (env_uuid (w_step w))) (tick w).
Proof. done. Qed.

Lemma wp_RandRead n Q w :
  wp (RandRead n) Q w <->
  match env_rand (w_step w) with
  | Some f => Q (Ok (string_of (map f (seq 0 n)))) (tick w)
  | None => Q (Err (EExternal "crypto/rand")) (tick w)
  end.
Proof. unfold wp, RandRead. simpl. by destruct (env_rand (w_step w)). Qed.

Lemma wp_RandInt max Q w :
  wp (RandInt max) Q w <->
  match env_rand (w_step w) with
  | Some f => Q (Ok (f O mod max)) (tick w)
  | None => Q (Err (EExternal "crypto/rand")) (tick w)
  end.
Proof. unfold wp, RandInt. simpl. by destruct (env_rand (w_step w)). Qed.

Lemma wp_EmitEvent ev Q w :
  wp (EmitEvent ev) Q w <-> Q (Ok tt) (tick w <| w_events := w_events w ++ [ev] |>).
Proof. done. Qed.

Lemma wp_WithSecrets {X : Set}
    (f : gmap (uuid * string) (string * Z) -> gmap (uuid * string) (string * Z) * X) Q w :
  wp (WithSecrets f) Q w <->
  Q (Ok (f (w_secrets w)).2) (tick w <| w_secrets := (f (w_secrets w)).1 |>).
Proof. done. Qed.

Lemma wp_WithDomains {X : Set}
    (f : gmap string (uuid * bool * Z) -> gmap string (uuid * bool * Z) * X) Q w :
  wp (WithDomains f) Q w <->
  Q (Ok (f (w_domains w)).2) (tick w <| w_domains := (f (w_domains w)).1 |>).
Proof. done. Qed.

Lemma wp_Stmt {X : Set} (f : Z -> DB -> DB * X) Q w :
  wp (Stmt f) Q w <->
  if env_fault (w_step w) then Q (Err (EExternal "database")) (tick w)
  else let r := f (env_now (w_step w)) (w_db w) in Q (Ok r.2) (tick w <| w_db := r.1 |>).
Proof. unfold wp, Stmt. simpl. by destruct (env_fault (w_step w)). Qed.
End StepLemmas.

(** The rewriting rules that execute a program inside [wp]. *)
Create Rewrite HintDb wp.
#[export] Hint Rewrite @wp_ret @wp_throw @wp_bind @wp_attempt @wp_map_err @wp_wrap @wp_or_err
  @wp_ignore @wp_from_opt @wp_transaction @wp_Now @wp_NewUUID @wp_RandRead @wp_RandInt
  @wp_EmitEvent @wp_WithSecrets @wp_WithDomains
  @wp_Stmt : wp.

(** ** Inverting a run

    [run p w = (w', Ok a)] taken apart along the path that returns [a]. *)
Section RunOk.
Context {A B : Type}.
Implicit Types (p : prog A) (w : World).

Lemma ok_ret (a b : A) w w' : run (mret a) w = (w', Ok b) <-> w' = w /\ b = a.
Proof. simpl. split; [by intros [= <- <-] | by intros [-> ->]]. Qed.

Lemma ok_throw e w w' (a : A) : run (throw e) w = (w', Ok a) <-> False.
Proof. done. Qed.

(** A guard clause that was passed. *)
Lemma ok_guard (b : bool) e p w w' a :
  run (if b then throw e else p) w = (w', Ok a) <-> b = false /\ run p w = (w', Ok a).
Proof. destruct b; [rewrite ok_throw|]; naive_solver. Qed.
Lemma ok_panic w w' (a : A) : run panic w = (w', Ok a) <-> False.
Proof. done. Qed.

Lemma run_ret (a : A) w : run (mret a) w = (w, Ok a).
Proof. done. Qed.

Lemma run_throw e w : run (throw (A := A) e) w = (w, Err e).
Proof. done. Qed.

Lemma run_bind p (f : A -> prog B) w :
  run (p ≫= f) w =
  match run p w with
  | (w1, Ok a) => run (f a) w1
  | (w1, Err e) => (w1, Err e)
  | (w1, Panic) => (w1, Panic)
  end.
Proof.
  unfold mbind, prog_mbind. revert w.
  induction p as [[a|e|]|X act k IH]; intros w; simpl; done.
Qed.

Lemma run_attempt p w :
  run (attempt p) w =
  match run p w with
  | (w1, Ok a) => (w1, Ok (inl a))
  | (w1, Err e) => (w1, Ok (inr e))
  | (w1, Panic) => (w1, Panic)
  end.
Proof. revert w. induction p as [[a|e|]|X act k IH]; intros w; simpl; done. Qed.

Lemma ok_bind p (f : A -> prog B) w w' b :
  run (p ≫= f) w = (w', Ok b) <->
  exists a w1, run p w = (w1, Ok a) /\ run (f a) w1 = (w', Ok b).
Proof.
  rewrite run_bind. destruct (run p w) as [w1 [a|e|]].
  - split; [by eauto | by intros (? & ? & [= <- <-] & ?)].
  - split; [done | intros (? & ? & E & ?); discriminate E].
  - split; [done | intros (? & ? & E & ?); discriminate E].
Qed.

Lemma ok_attempt p w w' r :
  run (attempt p) w = (w', Ok r) <->
  run p w = (w', match r with inl a => Ok a | inr e => Err e end).
Proof.
  rewrite run_attempt.
  destruct (run p w) as [w1 [a|e|]], r as [a'|e']; split; intros H; inversion H; by subst.
Qed.
End RunOk.

Section RunOk2.
Context {A : Type}.
Implicit Types (p : prog A) (w : World).

Lemma run_map_err f p w :
  run (map_err f p) w =
  match run p w with
  | (w1, Err e) => (w1, Err (f e))
  | r => r
  end.
Proof.
  unfold map_err. rewrite run_bind, run_attempt. by destruct (run p w) as [w1 [a|e|]].
Qed.

Lemma ok_map_err f p w w' a : run (map_err f p) w = (w', Ok a) <-> run p w = (w', Ok a).
Proof.
  rewrite run_map_err. destruct (run p w) as [w1 [b|e|]]; split; intros [=]; by subst.
Qed.
Lemma ok_wrap msg p w w' a : run (wrap msg p) w = (w', Ok a) <-> run p w = (w', Ok a).
Proof. apply ok_map_err. Qed.
Lemma ok_or_err e p w w' a : run (or_err e p) w = (w', Ok a) <-> run p w = (w', Ok a).
Proof. apply ok_map_err. Qed.

Lemma run_ignore p w :
  run (ignore p) w = match run p w with (w1, Panic) => (w1, Panic) | (w1, _) => (w1, Ok tt) end.
Proof. unfold ignore. rewrite run_bind, run_attempt. by destruct (run p w) as [w1 [a|e|]]. Qed.

Lemma ok_ignore p w w' u :
  run (ignore p) w = (w', Ok u) <-> exists o, run p w = (w', o) /\ o <> Panic.
Proof.
  rewrite run_ignore. destruct u, (run p w) as [w1 [a|e|]]; split;
    first [by intros (? & [= <- <-] & ?) | intros [= <-]; by eauto | done].
Qed.

Lemma ok_from_opt e (o : option A) w w' a :
  run (from_opt e o) w = (w', Ok a) <-> w' = w /\ o = Some a.
Proof. destruct o; simpl; naive_solver. Qed.

Lemma ok_or_panic (o : option A) w w' a :
  run (or_panic o) w = (w', Ok a) <-> w' = w /\ o = Some a.
Proof. destruct o; simpl; naive_solver. Qed.
End RunOk2.

Lemma run_transaction {A : Set} (p : prog A) w :
  run (Transaction p) w =
  match run p w with
  | (w', Ok a) => (w', Ok a)
  | (w', o) => (w' <| w_db := w_db w |>, o)
  end.
Proof. unfold Transaction. simpl. by destruct (run p w) as [w' [a|e|]]. Qed.

Lemma ok_transaction {A : Set} (p : prog A) w w' a :
  run (Transaction p) w = (w', Ok a) <-> run p w = (w', Ok a).
Proof. rewrite run_transaction. destruct (run p w) as [w1 [b|e|]]; naive_solver. Qed.

Section RunOkSteps.
Context `{Env}.

Lemma run_Now w : run Now w = (tick w, Ok (env_now (w_step w))).
Proof. done. Qed.

Lemma ok_Now w w' t : run Now w = (w', Ok t) <-> w' = tick w /\ t = env_now (w_step w).
Proof. simpl. split; [by intros [= <- <-] | by intros [-> ->]]. Qed.

Lemma run_NewUUID w : run NewUUID w = (tick w, Ok (env_uuid (w_step w))).
Proof. done. Qed.

Lemma ok_NewUUID w w' u : run NewUUID w = (w', Ok u) <-> w' = tick w /\ u = env_uuid (w_step w).
Proof. simpl. split; [by intros [= <- <-] | by intros [-> ->]]. Qed.

Lemma ok_RandRead n w w' s :
  run (RandRead n) w = (w', Ok s) <->
  w' = tick w /\ exists f, env_rand (w_step w) = Some f /\ s = string_of (map f (seq 0 n)).
Proof.
  simpl. destruct (env_rand (w_step w)) as [f|]; simpl; split; try done.
  - intros [= <- <-]. eauto.
  - by intros (-> & g & [= <-] & ->).
  - by intros (-> & g & [=] & _).
Qed.

Lemma ok_RandInt m w w' z :
  run (RandInt m) w = (w', Ok z) <->
  w' = tick w /\ exists f, env_rand (w_step w) = Some f /\ z = f O mod m.
Proof.
  simpl. destruct (env_rand (w_step w)) as [f|]; simpl; split; try done.
  - intros [= <- <-]. eauto.
  - by intros (-> & g & [= <-] & ->).
  - by intros (-> & g & [=] & _).
Qed.

Lemma ok_EmitEvent ev w w' u :
  run (EmitEvent ev) w = (w', Ok u) <-> w' = tick w <| w_events := w_events w ++ [ev] |>.
Proof. destruct u. simpl. split; [by intros [= <-] | by intros ->]. Qed.

Lemma ok_WithSecrets {X : Set}
    (f : gmap (uuid * string) (string * Z) -> gmap (uuid * string) (string * Z) * X) w w' x :
  run (WithSecrets f) w = (w', Ok x) <->
  w' = tick w <| w_secrets := (f (w_secrets w)).1 |> /\ x = (f (w_secrets w)).2.
Proof. simpl. split; [by intros [= <- <-] | by intros [-> ->]]. Qed.

Lemma ok_WithDomains {X : Set}
    (f : gmap string (uuid * bool * Z) -> gmap string (uuid * bool * Z) * X) w w' x :
  run (WithDomains f) w = (w', Ok x) <->
  w' = tick w <| w_domains := (f (w_domains w)).1 |> /\ x = (f (w_domains w)).2.
Proof. simpl. split; [by intros [= <- <-] | by intros [-> ->]]. Qed.

Lemma run_Stmt {X : Set} (f : Z -> DB -> DB * X) w :
  run (Stmt f) w =
  if env_fault (w_step w) then (tick w, Err (EExternal "database"))
  else (tick w <| w_db := (f (env_now (w_step w)) (w_db w)).1 |>,
        Ok (f (env_now (w_step w)) (w_db w)).2).
Proof. simpl. by destruct (env_fault (w_step w)). Qed.

Lemma ok_Stmt {X : Set} (f : Z -> DB -> DB * X) w w' x :
  run (Stmt f) w = (w', Ok x) <->
  env_fault (w_step w) = false /\
  w' = tick w <| w_db := (f (env_now (w_step w)) (w_db w)).1 |> /\
  x = (f (env_now (w_step w)) (w_db w)).2.
Proof.
  rewrite run_Stmt. destruct (env_fault (w_step w)); split; try (intros [= <- <-]; done); try done.
  - by intros (? & _).
  - by intros (_ & -> & ->).
Qed.
End RunOkSteps.

Create Rewrite HintDb ok.
#[export] Hint Rewrite @ok_ret @ok_throw @ok_panic @ok_bind @ok_attempt @ok_wrap @ok_or_err
  @ok_map_err @ok_ignore @ok_from_opt @ok_or_panic @ok_Now @ok_NewUUID @ok_RandRead @ok_RandInt
  @ok_EmitEvent @ok_WithSecrets @ok_WithDomains @ok_Stmt @ok_transaction : ok.

#[global] Arguments run : simpl never.

(** Take a successful run apart: follow binds, discard branches that end in
    an error, remember the tests that were passed. *)
Ltac step_ok :=
  match goal with
  | H : False |- _ => destruct H
  | H : _ /\ _ |- _ => destruct H
  | H : exists _, _ |- _ => destruct H
  | H : run (mbind _ _) _ = (_, Ok _) |- _ => apply ok_bind in H
  | H : run (mret _) _ = (_, Ok _) |- _ => apply ok_ret in H
  | H : run (let _ := _ in _) _ = (_, Ok _) |- _ => cbv zeta in H
  | H : run (match ?b with _ => _ end) _ = (_, Ok _) |- _ => destruct b eqn:?
  | H : run _ _ = (_, Ok _) |- _ => progress (autorewrite with ok in H)
  end.

(** ** Panics *)

Definition safe {A} (p : prog A) : Prop := forall w, (run p w).2 <> Panic.

Section Safe.
Context {A : Type}.
Implicit Types p : prog A.

Lemma safe_ret (a : A) : safe (mret a).
Proof. done. Qed.
Lemma safe_throw e : safe (throw (A := A) e).
Proof. done. Qed.
Lemma safe_from_opt e (o : option A) : safe (from_opt e o).
Proof. by destruct o. Qed.
Lemma safe_bind {B} (q : prog B) (f : B -> prog A) :
  safe q -> (forall b, safe (f b)) -> safe (q ≫= f).
Proof.
  intros Hq Hf w. rewrite run_bind. specialize (Hq w).
  destruct (run q w) as [w' [b|e|]]; [apply Hf|done|done].
Qed.
Lemma safe_attempt p : safe p -> safe (attempt p).
Proof. intros Hp w. rewrite run_attempt. specialize (Hp w). by destruct (run p w) as [w' [b|e|]]. Qed.
Lemma safe_map_err f p : safe p -> safe (map_err f p).
Proof. intros Hp w. rewrite run_map_err. specialize (Hp w). by destruct (run p w) as [w' [b|e|]]. Qed.
Lemma safe_wrap msg p : safe p -> safe (wrap msg p).
Proof. apply safe_map_err. Qed.
Lemma safe_or_err e p : safe p -> safe (or_err e p).
Proof. apply safe_map_err. Qed.
Lemma safe_ignore p : safe p -> safe (ignore p).
Proof. intros Hp w. rewrite run_ignore. specialize (Hp w). by destruct (run p w) as [w' [b|e|]]. Qed.
End Safe.

Lemma run_ignore_safe {A} (p : prog A) w : safe p -> run (ignore p) w = ((run p w).1, Ok tt).
Proof. intros Hp. rewrite run_ignore. specialize (Hp w). by destruct (run p w) as [w' [b|e|]]. Qed.

Lemma safe_transaction {A : Set} (p : prog A) : safe p -> safe (Transaction p).
Proof.
  intros Hp w. specialize (Hp w). unfold Transaction, run. fold (@run A p w).
  cbv zeta. destruct (run p w) as [w' [b|e|]]; simpl in *; [done|done|done].
Qed.

Section SafeSteps.
Context `{Env}.
Lemma safe_Now : safe Now.
Proof. done. Qed.
Lemma safe_NewUUID : safe NewUUID.
Proof. done. Qed.
Lemma safe_RandRead n : safe (RandRead n).
Proof. intros w. unfold RandRead, run. by destruct (env_rand (w_step w)). Qed.
Lemma safe_RandInt n : safe (RandInt n).
Proof. intros w. unfold RandInt, run. by destruct (env_rand (w_step w)). Qed.
Lemma safe_EmitEvent ev : safe (EmitEvent ev).
Proof. done. Qed.
Lemma safe_WithSecrets {X : Set}
    (f : gmap (uuid * string) (string * Z) -> gmap (uuid * string) (string * Z) * X) :
  safe (WithSecrets f).
Proof. done. Qed.
Lemma safe_WithDomains {X : Set}
    (f : gmap string (uuid * bool * Z) -> gmap string (uuid * bool * Z) * X) :
  safe (WithDomains f).
Proof. done. Qed.
Lemma safe_Stmt {X : Set} (f : Z -> DB -> DB * X) : safe (Stmt f).
Proof. intros w. rewrite run_Stmt. by destruct (env_fault _). Qed.
End SafeSteps.

Create HintDb safe.
#[export] Hint Resolve @safe_ret @safe_throw @safe_from_opt @safe_attempt @safe_map_err @safe_wrap
  @safe_or_err @safe_ignore @safe_transaction @safe_Now @safe_NewUUID @safe_RandRead @safe_RandInt
  @safe_EmitEvent @safe_WithSecrets @safe_WithDomains @safe_Stmt : safe.

(** ** Guarantees of every atomic step

    [guar R Q p]: whatever the other programs do between them, each step of
    [p] relates the world before and after it by [R], and the outcome of [p]
    satisfies [Q]. *)
Fixpoint guar {A} (R : World -> World -> Prop) (Q : outcome A -> Prop) (p : prog A) : Prop :=
  match p with
  | Done o => Q o
  | Step act k => forall w, R w (act w).1 /\ guar R Q (k (act w).2)
  end.

Section Guar.
Context (R : World -> World -> Prop).

Lemma guar_mono {A} (p : prog A) (P Q : outcome A -> Prop) :
  guar R P p -> (forall o, P o -> Q o) -> guar R Q p.
Proof.
  intros Hp HPQ. induction p as [o|X act k IH]; simpl in *; [auto|].
  intros w. destruct (Hp w). auto.
Qed.

Lemma guar_bind {A B} (p : prog A) (f : A -> prog B) (P : outcome A -> Prop) Q :
  guar R P p ->
  (forall o, P o -> match o with
                    | Ok a => guar R Q (f a) | Err e => Q (Err e) | Panic => Q Panic
                    end) ->
  guar R Q (p ≫= f).
Proof.
  intros Hp Hf. unfold mbind, prog_mbind.
  induction p as [o|X act k IH]; simpl in *.
  - specialize (Hf o Hp). by destruct o.
  - intros w. destruct (Hp w). auto.
Qed.

Lemma guar_attempt {A} (p : prog A) (Q : outcome (A + error) -> Prop) :
  guar R (fun o => match o with
                   | Ok a => Q (Ok (inl a)) | Err e => Q (Ok (inr e)) | Panic => Q Panic
                   end) p ->
  guar R Q (attempt p).
Proof.
  induction p as [[a|e|]|X act k IH]; simpl; auto.
  intros Hp w. destruct (Hp w). auto.
Qed.

Lemma guar_run {A} (p : prog A) Q w `{!PreOrder R} :
  guar R Q p -> R w (run p w).1 /\ Q (run p w).2.
Proof.
  revert w. induction p as [o|X act k IH]; intros w Hp; simpl in *; [done|].
  destruct (Hp w) as [HR Hk]. destruct (IH _ (act w).1 Hk) as [HR' ?].
  split; [by etrans|done].
Qed.
End Guar.
