(* ===== verification/Redis.v ===== *)
(** internal/database/redis.go: the wrapper around the go-redis client, as
    far as the program calls it or keys are built in it. *)
From S2P Require Import Prelude GoStd Models Effects.

Open Scope Z_scope.

(** The commands of a connected client: GET ([None]: redis.Nil), SET, DEL,
    PING, and a pipeline of INCR and EXPIRE. *)
Class RedisLib := {
  redis_Get : string -> prog (option string);
  redis_Set : string -> string -> Z -> prog unit;
  redis_Del : list string -> prog unit;
  redis_IncrExpire : string -> Z -> prog unit;
  redis_Ping : prog unit
}.

Module RedisClient.
Section Methods.
Context `{RedisLib}.

Definition Set_ (key value : string) (expiration : Z) : prog unit := redis_Set key value expiration.
(** A missing key reads as "". *)
Definition Get (key : string) : prog string :=
  result ← redis_Get key; mret (default "" result).
Definition Del (keys : list string) : prog unit := redis_Del keys.
Definition Ping : prog unit := redis_Ping.

Definition token_key (tokenType token : string) : string := "token:" +:+ tokenType +:+ ":" +:+ token.
Definition SetToken (tokenType token data : string) (expiration : Z) : prog unit :=
  Set_ (token_key tokenType token) data expiration.
Definition GetToken (tokenType token : string) : prog string := Get (token_key tokenType token).
Definition DeleteToken (tokenType token : string) : prog unit := Del [token_key tokenType token].

Definition session_key (sessionID : string) : string := "session:" +:+ sessionID.
Definition SetUserSession (sessionID userID : string) (expiration : Z) : prog unit :=
  Set_ (session_key sessionID) userID expiration.
Definition GetUserSession (sessionID : string) : prog string := Get (session_key sessionID).
Definition DeleteUserSession (sessionID : string) : prog unit := Del [session_key sessionID].

Definition rate_limit_key (identifier : string) : string := "rate_limit:" +:+ identifier.
(** The limit itself is not stored. *)
Definition SetRateLimit (identifier : string) (limit window : Z) : prog unit :=
  redis_IncrExpire (rate_limit_key identifier) window.
Definition GetRateLimit (identifier : string) : prog Z :=
  result ← redis_Get (rate_limit_key identifier);
  match result with
  | None => mret 0
  | Some s => from_opt (EExternal "strconv") (Atoi s)
  end.
End Methods.
End RedisClient.
