(* ===== verification/Store.v ===== *)
(** Tables and the SQL statements the repositories issue. The statements are
    those written in internal/repo/gorm (Where/First/Find/Count/Create/
    Updates/Save/Delete chains); what each of them does to a table is the
    standard meaning of the SQL gorm sends for it. *)
From S2P Require Import Prelude GoStd Models Effects.

Open Scope Z_scope.

(** Where a row type is stored. *)
Class Table (R : Set) := {
  rows : DB -> list R;
  set_rows : list R -> DB -> DB;
  rows_set_rows : forall l db, rows (set_rows l db) = l;
  set_rows_rows : forall db, set_rows (rows db) db = db
}.

(** What gorm and the schema know of a row type: its primary key; whether a
    unique index rejects two rows side by side; soft deletion ([row_live]:
    deleted_at IS NULL, [row_delete]: [None] when DELETE removes the row);
    the timestamps and column defaults filled in on INSERT; and the update
    time set on UPDATE. *)
Class Row (R : Set) := {
  row_id : R -> uuid;
  row_conflict : R -> R -> bool;
  row_live : R -> bool;
  row_delete : Z -> R -> option R;
  row_stamp : Z -> R -> R;
  row_touch : Z -> R -> R
}.

Section Tables.
Context {R : Set} `{Row R}.

(** SELECT ... WHERE p, in table order. *)
Definition select_where (p : R -> bool) (l : list R) : list R :=
  filter (fun r => Is_true (p r && row_live r)) l.

(** ORDER BY id LIMIT 1, as gorm's First does. *)
Fixpoint min_by_id (l : list R) : option R :=
  match l with
  | [] => None
  | r :: l' =>
    match min_by_id l' with
    | Some r' => if (row_id r <=? row_id r')%N then Some r else Some r'
    | None => Some r
    end
  end.
Definition first_where (p : R -> bool) (l : list R) : option R := min_by_id (select_where p l).

(** ORDER BY: a stable insertion sort. *)
Fixpoint insert_sorted (le : R -> R -> bool) (r : R) (l : list R) : list R :=
  match l with
  | [] => [r]
  | r' :: l' => if le r r' then r :: l else r' :: insert_sorted le r l'
  end.
Definition sort_rows (le : R -> R -> bool) (l : list R) : list R := foldr (insert_sorted le) [] l.

(** A duplicate primary key or a unique index rejects the row. *)
Definition clashes (r r' : R) : bool := (row_id r ==? row_id r') || row_conflict r r'.

(** INSERT; [None]: rejected. *)
Definition insert_row (now : Z) (r : R) (l : list R) : option (list R) :=
  let r := row_stamp now r in
  if existsb (clashes r) l then None else Some (l ++ [r]).

(** UPDATE ... WHERE p: the new table and the updated rows. *)
Definition update_where (p : R -> bool) (f : R -> R) (l : list R) : list R * list R :=
  (map (fun r => if p r && row_live r then f r else r) l, map f (select_where p l)).

(** DELETE ... WHERE p (an UPDATE of deleted_at for soft-deleted rows). *)
Definition delete_where (p : R -> bool) (now : Z) (l : list R) : list R :=
  omap (fun r => if p r && row_live r then row_delete now r else Some r) l.

(** gorm's Save: write every column of the row with this primary key, or
    insert it when there is none; [None]: a unique index rejects it. *)
Definition save_row (now : Z) (r : R) (l : list R) : option (list R) :=
  let r := row_touch now r in
  if existsb (fun r' => (row_id r !=? row_id r') && row_conflict r r') l then None
  else if existsb (fun r' => row_id r ==? row_id r') l
  then Some (map (fun r' => if row_id r ==? row_id r' then r else r') l)
  else Some (l ++ [r]).

Lemma elem_of_select_where p r (l : list R) :
  r ∈ select_where p l <-> r ∈ l /\ p r = true /\ row_live r = true.
Proof.
  unfold select_where. rewrite list_elem_of_filter, Is_true_true, andb_true_iff. tauto.
Qed.

Lemma min_by_id_elem (l : list R) r : min_by_id l = Some r -> r ∈ l.
Proof.
  revert r. induction l as [|x l IH]; intros r; simpl; [done|].
  destruct (min_by_id l) as [y|] eqn:E.
  - specialize (IH y eq_refl). case_match; intros [= <-]; set_solver.
  - intros [= <-]. set_solver.
Qed.

Lemma min_by_id_None (l : list R) : min_by_id l = None <-> l = [].
Proof. destruct l; simpl; [done|]. split; [|done]. repeat case_match; done. Qed.

Lemma first_where_Some p (l : list R) r :
  first_where p l = Some r -> r ∈ l /\ p r = true /\ row_live r = true.
Proof. intros Hr%min_by_id_elem. by apply elem_of_select_where. Qed.

Lemma first_where_None p (l : list R) :
  first_where p l = None <-> forall r, r ∈ l -> row_live r = true -> p r = false.
Proof.
  unfold first_where. rewrite min_by_id_None. split.
  - intros E r Hr Hl. destruct (p r) eqn:Hp; [|done].
    assert (Hs : r ∈ select_where p l) by (by apply elem_of_select_where).
    rewrite E in Hs. set_solver.
  - intros Hn. destruct (select_where p l) as [|r l'] eqn:E; [done|].
    assert (r ∈ select_where p l) as (? & Hp & ?)%elem_of_select_where by (rewrite E; left).
    rewrite Hn in Hp; done.
Qed.

Lemma elem_of_update_where p f (l : list R) x :
  x ∈ (update_where p f l).1 <->
  exists r, r ∈ l /\ x = if p r && row_live r then f r else r.
Proof. simpl. rewrite list_elem_of_fmap. split; intros (r & ? & ?); eauto. Qed.

Lemma update_where_nil p f (l : list R) :
  (update_where p f l).2 = [] ->
  (forall r, r ∈ l -> p r && row_live r = false) /\ (update_where p f l).1 = l.
Proof.
  intros E. assert (forall r, r ∈ l -> p r && row_live r = false) as Hn.
  { intros r Hr. destruct (p r && row_live r) eqn:Hp; [|done]. apply andb_true_iff in Hp.
    assert (f r ∈ (update_where p f l).2); [|rewrite E in *; set_solver].
    apply list_elem_of_fmap_2, elem_of_select_where. tauto. }
  split; [done|]. simpl. rewrite <-(list_fmap_id l) at 2. apply list_fmap_ext. intros i r Hr.
  by rewrite Hn by (by eapply list_elem_of_lookup_2).
Qed.

Lemma update_where_cons p f (l : list R) x l' :
  (update_where p f l).2 = x :: l' ->
  exists r, r ∈ l /\ p r = true /\ row_live r = true /\ x = f r.
Proof.
  intros E. assert (x ∈ (update_where p f l).2) as Hx by (rewrite E; left).
  simpl in Hx. apply list_elem_of_fmap in Hx as (r & -> & Hr).
  apply elem_of_select_where in Hr as (? & ? & ?). eauto.
Qed.

(** Tables without soft deletion. *)
Lemma update_where_hard p f (l : list R) :
  (forall r, row_live r = true) ->
  (update_where p f l).1 = map (fun r => if p r then f r else r) l.
Proof. intros Hl. simpl. apply map_ext. intros r. by rewrite Hl, andb_true_r. Qed.

Lemma delete_where_hard p now (l : list R) :
  (forall r, row_live r = true) -> (forall r, row_delete now r = None) ->
  delete_where p now l = filter (fun r => negb (p r)) l.
Proof.
  intros Hl Hd. unfold delete_where. induction l as [|r l IH]; [done|].
  rewrite filter_cons, <-IH.
  change (r :: l) with ([r] ++ l). rewrite omap_app. simpl. rewrite Hl, andb_true_r.
  by destruct (p r); simpl; rewrite ?Hd.
Qed.

Lemma elem_of_delete_where p now (l : list R) x :
  x ∈ delete_where p now l <->
  exists r, r ∈ l /\ (if p r && row_live r then row_delete now r else Some r) = Some x.
Proof. unfold delete_where. rewrite list_elem_of_omap. done. Qed.

(** Save of a row that exists replaces it. *)
Lemma save_row_existing now r x (l l' : list R) :
  save_row now r l = Some l' -> x ∈ l -> row_id (row_touch now r) = row_id x ->
  l' = map (fun r' => if row_id (row_touch now r) ==? row_id r' then row_touch now r else r') l.
Proof.
  unfold save_row. destruct (existsb (fun r' => _ && _) l); [done|]. intros E Hx Hid.
  assert (existsb (fun r' => row_id (row_touch now r) ==? row_id r') l = true) as Hex.
  { apply existsb_exists. exists x. rewrite <-list_elem_of_In. split; [done|].
    by apply bool_decide_eq_true. }
  rewrite Hex in E. by injection E as <-.
Qed.

Lemma insert_row_Some now r (l l' : list R) :
  insert_row now r l = Some l' ->
  l' = l ++ [row_stamp now r] /\ forall x, x ∈ l -> clashes (row_stamp now r) x = false.
Proof.
  unfold insert_row. destruct (existsb _ l) eqn:E; [done|]. intros [= <-]. split; [done|].
  intros x Hx. destruct (clashes _ x) eqn:Hc; [|done].
  assert (existsb (clashes (row_stamp now r)) l = true); [|congruence].
  apply existsb_exists. exists x. by rewrite <-list_elem_of_In.
Qed.
End Tables.

(** ** Statements as programs *)

Section Statements.
Context `{Env} {R : Set} `{Table R} `{!Row R}.

Definition First (p : R -> bool) : prog (option R) :=
  Stmt (fun _ db => (db, first_where p (rows db))).

Definition Find (p : R -> bool) : prog (list R) :=
  Stmt (fun _ db => (db, select_where p (rows db))).

Definition Count (p : R -> bool) : prog Z :=
  Stmt (fun _ db => (db, Z.of_nat (length (select_where p (rows db))))).

(** A write that a unique index may reject. *)
Definition write {X : Set} (f : Z -> list R -> option (list R * X)) : prog X :=
  r ← Stmt (fun now db => match f now (rows db) with
                          | Some (l, x) => (set_rows l db, Some x)
                          | None => (db, None)
                          end);
  from_opt (EExternal "duplicate key") r.

(** Create and Save return the struct as gorm leaves it. *)
Definition Insert (r : R) : prog R :=
  write (fun now l => match insert_row now r l with
                      | Some l' => Some (l', row_stamp now r) | None => None end).
Definition Save (r : R) : prog R :=
  write (fun now l => match save_row now r l with
                      | Some l' => Some (l', row_touch now r) | None => None end).

(** Updates: the rows it changed (RETURNING, RowsAffected). *)
Definition UpdateWhere (p : R -> bool) (f : R -> R) : prog (list R) :=
  Stmt (fun now db =>
          let r := update_where p (fun x => row_touch now (f x)) (rows db) in
          (set_rows r.1 db, r.2)).

(** The same for an update that names updated_at itself, and for raw SQL. *)
Definition UpdateRaw (p : R -> bool) (f : R -> R) : prog (list R) :=
  Stmt (fun _ db => let r := update_where p f (rows db) in (set_rows r.1 db, r.2)).

(** A batch INSERT: all rows or none. *)
Definition insert_rows (now : Z) (l : list R) (table : list R) : option (list R) :=
  foldl (fun acc r => match acc with Some t => insert_row now r t | None => None end)
    (Some table) l.
Definition InsertAll (l : list R) : prog unit :=
  write (fun now table => match insert_rows now l table with
                          | Some t => Some (t, tt) | None => None end).

(** A lookup by First that maps gorm.ErrRecordNotFound to [notFound]. *)
Definition get_by (msg : string) (notFound : error) (p : R -> bool) : prog R :=
  o ← wrap msg (First p); from_opt notFound o.

(** SELECT ... ORDER BY ... LIMIT limit OFFSET offset. gorm writes a LIMIT
    clause for a limit >= 0 and an OFFSET clause for an offset > 0. Rows the
    ORDER BY does not separate stay in table order. *)
Definition FindPage (p : R -> bool) (le : R -> R -> bool) (limit offset : Z) : prog (list R) :=
  Stmt (fun _ db =>
          let l := drop (Z.to_nat offset) (sort_rows le (select_where p (rows db))) in
          (db, if limit <? 0 then l else take (Z.to_nat limit) l)).

Definition DeleteWhere (p : R -> bool) : prog unit :=
  Stmt (fun now db => (set_rows (delete_where p now (rows db)) db, tt)).
End Statements.

(** ** What a successful statement did *)
Section StatementLemmas.
Context `{Env} {R : Set} `{Table R} `{!Row R}.
Implicit Types (w : World).

(** The world after a statement that leaves table [l] for [R]. *)
Definition wrote (l : list R) (w : World) : World :=
  tick w <| w_db := set_rows l (w_db w) |>.
Definition stmt_ok (w : World) : Prop := env_fault (w_step w) = false.
Definition stmt_now (w : World) : Z := env_now (w_step w).

Lemma world_eta w : (w <| w_db := w_db w |>) = w.
Proof. by destruct w. Qed.

Lemma ok_First p w w' o :
  run (First p) w = (w', Ok o) <->
  stmt_ok w /\ w' = tick w /\ o = first_where p (rows (w_db w)).
Proof. unfold First. rewrite ok_Stmt. destruct w. reflexivity. Qed.

Lemma ok_get_by msg nf p w w' (r : R) :
  run (get_by msg nf p) w = (w', Ok r) <->
  stmt_ok w /\ w' = tick w /\ first_where p (rows (w_db w)) = Some r.
Proof.
  unfold get_by. rewrite ok_bind. setoid_rewrite ok_wrap. setoid_rewrite ok_First.
  setoid_rewrite ok_from_opt. naive_solver.
Qed.

Lemma run_get_by msg nf p w :
  run (get_by msg nf p) w =
  (tick w, if env_fault (w_step w) then Err (EWrap msg (EExternal "database"))
           else match first_where p (rows (w_db w)) with Some r => Ok r | None => Err nf end).
Proof.
  unfold get_by, wrap. rewrite run_bind, run_map_err. unfold First. rewrite run_Stmt.
  destruct (env_fault (w_step w)); [done|]. cbv beta iota. simpl fst. simpl snd.
  destruct w. by destruct (first_where _ _).
Qed.

(** A lookup answers when a row matches and the statement does not fail. *)
Lemma get_by_found msg nf p w (r : R) :
  stmt_ok w -> r ∈ rows (w_db w) -> p r = true -> row_live r = true ->
  exists r', run (get_by msg nf p) w = (tick w, Ok r').
Proof.
  intros Hw Hr Hp Hl. rewrite run_get_by, Hw.
  destruct (first_where p (rows (w_db w))) as [r'|] eqn:E; [by eauto|].
  rewrite first_where_None in E. by rewrite (E r Hr Hl) in Hp.
Qed.

Lemma ok_Find p w w' l :
  run (Find p) w = (w', Ok l) <->
  stmt_ok w /\ w' = tick w /\ l = select_where p (rows (w_db w)).
Proof. unfold Find. rewrite ok_Stmt. destruct w. reflexivity. Qed.

Lemma ok_Count (p : R -> bool) w w' n :
  run (Count p) w = (w', Ok n) <->
  stmt_ok w /\ w' = tick w /\ n = Z.of_nat (length (select_where p (rows (w_db w)))).
Proof. unfold Count. rewrite ok_Stmt. destruct w. reflexivity. Qed.

Lemma ok_write {X : Set} (f : Z -> list R -> option (list R * X)) w w' x :
  run (write f) w = (w', Ok x) <->
  stmt_ok w /\ exists l, f (stmt_now w) (rows (w_db w)) = Some (l, x) /\ w' = wrote l w.
Proof.
  unfold write, wrote, stmt_ok, stmt_now.
  rewrite ok_bind. setoid_rewrite ok_Stmt. setoid_rewrite ok_from_opt.
  destruct (f _ _) as [[l y]|] eqn:E; simpl; naive_solver.
Qed.

(** A write leaves the database alone or replaces the rows of its table. *)
Lemma run_write {X : Set} (f : Z -> list R -> option (list R * X)) w :
  run (write f) w =
  if env_fault (w_step w) then (tick w, Err (EExternal "database"))
  else match f (stmt_now w) (rows (w_db w)) with
       | Some (l, x) => (wrote l w, Ok x)
       | None => (tick w, Err (EExternal "duplicate key"))
       end.
Proof.
  unfold write. rewrite run_bind, run_Stmt. destruct (env_fault _); [done|]. cbv beta iota zeta.
  unfold wrote, stmt_now. destruct (f _ _) as [[l x]|]; [done|]. simpl. by destruct w.
Qed.

Lemma run_Insert_any (r : R) w w' o :
  run (Insert r) w = (w', o) ->
  (w_db w' = w_db w \/ exists l, w_db w' = set_rows l (w_db w)) /\ o <> Panic.
Proof.
  unfold Insert. rewrite run_write.
  destruct (env_fault _); [intros [= <- <-]; split; [by left|done]|].
  destruct (insert_row _ _ _) as [l|]; intros [= <- <-]; split; try done; [|by left].
  right. by exists l.
Qed.

Lemma ok_Insert (r r' : R) w w' :
  run (Insert r) w = (w', Ok r') <->
  stmt_ok w /\ r' = row_stamp (stmt_now w) r /\
  (existsb (clashes r') (rows (w_db w)) = false) /\ w' = wrote (rows (w_db w) ++ [r']) w.
Proof.
  unfold Insert. rewrite ok_write. unfold insert_row. split.
  - intros (? & l & E & ->). destruct (existsb _ _) eqn:Ei; [done|]. injection E as <- <-. done.
  - intros (? & -> & E & ->). split; [done|]. eexists. by rewrite E.
Qed.

Lemma ok_Save (r r' : R) w w' :
  run (Save r) w = (w', Ok r') <->
  stmt_ok w /\ r' = row_touch (stmt_now w) r /\
  exists l, save_row (stmt_now w) r (rows (w_db w)) = Some l /\ w' = wrote l w.
Proof.
  unfold Save. rewrite ok_write. destruct (save_row _ _ _); naive_solver.
Qed.

Lemma ok_UpdateWhere p f w w' l :
  run (UpdateWhere p f) w = (w', Ok l) <->
  stmt_ok w /\
  l = (update_where p (fun x => row_touch (stmt_now w) (f x)) (rows (w_db w))).2 /\
  w' = wrote (update_where p (fun x => row_touch (stmt_now w) (f x)) (rows (w_db w))).1 w.
Proof. unfold UpdateWhere, wrote, stmt_ok, stmt_now. rewrite ok_Stmt. simpl. naive_solver. Qed.

Lemma ok_UpdateRaw p f w w' l :
  run (UpdateRaw p f) w = (w', Ok l) <->
  stmt_ok w /\ l = (update_where p f (rows (w_db w))).2 /\
  w' = wrote (update_where p f (rows (w_db w))).1 w.
Proof. unfold UpdateRaw, wrote, stmt_ok. rewrite ok_Stmt. simpl. naive_solver. Qed.

(** An UPDATE on a table without soft deletion. *)
Lemma UpdateRaw_ok p f w w' l :
  (forall r, row_live r = true) -> run (UpdateRaw p f) w = (w', Ok l) ->
  stmt_ok w /\ w_step w' = S (w_step w) /\
  w_db w' = set_rows (map (fun r => if p r then f r else r) (rows (w_db w))) (w_db w) /\
  (forall x, x ∈ l -> exists r, r ∈ rows (w_db w) /\ p r = true /\ x = f r) /\
  ((forall r, r ∈ rows (w_db w) -> p r = false) -> l = [] /\ w_db w' = w_db w).
Proof.
  intros Hl (Hw & -> & ->)%ok_UpdateRaw. split; [done|]. split; [done|].
  rewrite <-(update_where_hard p f (rows (w_db w)) Hl).
  split; [done|]. split.
  - simpl. intros x (r & -> & (? & ? & _)%elem_of_select_where)%list_elem_of_fmap. eauto.
  - intros Hn. destruct (update_where p f (rows (w_db w))).2 as [|x l'] eqn:E.
    + split; [done|]. apply update_where_nil in E as [_ E].
      rewrite E. apply set_rows_rows.
    + apply update_where_cons in E as (r & Hr & Hp & _). by rewrite Hn in Hp.
Qed.

Lemma ok_DeleteWhere p w w' u :
  run (DeleteWhere p) w = (w', Ok u) <->
  stmt_ok w /\ w' = wrote (delete_where p (stmt_now w) (rows (w_db w))) w.
Proof.
  unfold DeleteWhere, wrote, stmt_ok, stmt_now. rewrite ok_Stmt. destruct u. simpl. naive_solver.
Qed.

(** A DELETE either fails and changes nothing, or does it. *)
Lemma run_DeleteWhere p w :
  run (DeleteWhere p) w =
  if env_fault (w_step w) then (tick w, Err (EExternal "database"))
  else (wrote (delete_where p (stmt_now w) (rows (w_db w))) w, Ok tt).
Proof. unfold DeleteWhere. rewrite run_Stmt. by destruct (env_fault _). Qed.
End StatementLemmas.

Section StatementSafety.
Context `{Env} {R : Set} `{Table R} `{!Row R}.
Lemma safe_write {X : Set} (f : Z -> list R -> option (list R * X)) : safe (write f).
Proof. apply safe_bind; auto with safe. Qed.
Lemma safe_Insert (r : R) : safe (Insert r).
Proof. apply safe_write. Qed.
Lemma safe_Save (r : R) : safe (Save r).
Proof. apply safe_write. Qed.
Lemma safe_get_by msg nf (p : R -> bool) : safe (get_by msg nf p).
Proof. apply safe_bind; [apply safe_wrap, safe_Stmt | auto with safe]. Qed.
End StatementSafety.
#[export] Hint Resolve @safe_write @safe_Insert @safe_Save @safe_get_by : safe.

(** The parts of the world after a step. *)
Lemma tick_parts w w' :
  w' = tick w ->
  w_db w' = w_db w /\ w_step w' = S (w_step w) /\ w_events w' = w_events w /\
  w_secrets w' = w_secrets w.
Proof. by intros ->. Qed.

Lemma wrote_parts {R : Set} `{Table R} (l : list R) w w' :
  w' = wrote l w ->
  w_db w' = set_rows l (w_db w) /\ w_step w' = S (w_step w) /\ w_events w' = w_events w /\
  w_secrets w' = w_secrets w.
Proof. by intros ->. Qed.

Lemma existsb_false {A} (f : A -> bool) l : existsb f l = false -> forall x, x ∈ l -> f x = false.
Proof.
  intros E x Hx. destruct (f x) eqn:Hf; [|done]. assert (existsb f l = true); [|congruence].
  apply existsb_exists. exists x. split; [by apply list_elem_of_In|done].
Qed.

#[export] Hint Rewrite @ok_First @ok_get_by @ok_Find @ok_Count @ok_Insert @ok_Save
  @ok_UpdateWhere @ok_UpdateRaw @ok_DeleteWhere : ok.

#[export] Hint Extern 1 (safe (First _)) => apply safe_Stmt : safe.
#[export] Hint Extern 1 (safe (Find _)) => apply safe_Stmt : safe.
#[export] Hint Extern 1 (safe (Count _)) => apply safe_Stmt : safe.
#[export] Hint Extern 1 (safe (UpdateWhere _ _)) => apply safe_Stmt : safe.
#[export] Hint Extern 1 (safe (UpdateRaw _ _)) => apply safe_Stmt : safe.
#[export] Hint Extern 1 (safe (DeleteWhere _)) => apply safe_Stmt : safe.
#[export] Hint Extern 1 (safe (FindPage _ _ _ _)) => apply safe_Stmt : safe.

(** ** The schema

    The conflicts are the unique indexes of internal/database/database.go;
    those on soft-deleted tables are partial (WHERE deleted_at IS NULL). *)

Definition is_none {A} (o : option A) : bool := negb (is_some o).
Definition stamp (now t : Z) : Z := if time_is_zero t then now else t.
Definition or_default (s d : string) : string := if s ==? "" then d else s.

(** Tables without soft deletion and without updated_at. *)
Definition hard {R} : R -> bool := fun _ => true.
Definition gone {R} : Z -> R -> option R := fun _ _ => None.
Definition untouched {R} : Z -> R -> R := fun _ r => r.

(* is_active has the default true, which gorm also writes for false *)
#[export] Instance table_Tenant : Table Tenant :=
  {| rows := db_tenants; set_rows l db := db <| db_tenants := l |>; rows_set_rows _ _ := eq_refl;
     set_rows_rows := ltac:(by intros []) |}.
#[export] Instance row_Tenant : Row Tenant := {|
  row_id := tn_ID;
  row_conflict a b := is_none (tn_DeletedAt a) && is_none (tn_DeletedAt b) && (tn_Domain a ==? tn_Domain b);
  row_live r := is_none (tn_DeletedAt r);
  row_delete now r := Some (r <| tn_DeletedAt := Some now |>);
  row_stamp now r := r <| tn_CreatedAt := stamp now (tn_CreatedAt r) |> <| tn_UpdatedAt := stamp now (tn_UpdatedAt r) |>
                       <| tn_IsActive := true |>;
  row_touch now r := r <| tn_UpdatedAt := now |>
|}.

#[export] Instance table_User : Table User :=
  {| rows := db_users; set_rows l db := db <| db_users := l |>; rows_set_rows _ _ := eq_refl;
     set_rows_rows := ltac:(by intros []) |}.
#[export] Instance row_User : Row User := {|
  row_id := us_ID;
  row_conflict a b := is_none (us_DeletedAt a) && is_none (us_DeletedAt b) && (us_TenantID a ==? us_TenantID b)
                      && ((us_Username a ==? us_Username b) || (us_Email a ==? us_Email b));
  row_live r := is_none (us_DeletedAt r);
  row_delete now r := Some (r <| us_DeletedAt := Some now |>);
  row_stamp now r := r <| us_CreatedAt := stamp now (us_CreatedAt r) |> <| us_UpdatedAt := stamp now (us_UpdatedAt r) |>
                       <| us_Status := or_default (us_Status r) UserStatusPending |>
                       <| us_Locale := or_default (us_Locale r) "en" |>
                       <| us_Timezone := or_default (us_Timezone r) "UTC" |>;
  row_touch now r := r <| us_UpdatedAt := now |>
|}.

#[export] Instance table_Client : Table Client :=
  {| rows := db_clients; set_rows l db := db <| db_clients := l |>; rows_set_rows _ _ := eq_refl;
     set_rows_rows := ltac:(by intros []) |}.
#[export] Instance row_Client : Row Client := {|
  row_id := cl_ID;
  row_conflict a b := is_none (cl_DeletedAt a) && is_none (cl_DeletedAt b) && (cl_TenantID a ==? cl_TenantID b)
                      && (cl_ClientID a ==? cl_ClientID b);
  row_live r := is_none (cl_DeletedAt r);
  row_delete now r := Some (r <| cl_DeletedAt := Some now |>);
  (* PlainClientSecret is not a column (gorm:"-") *)
  row_stamp now r := r <| cl_CreatedAt := stamp now (cl_CreatedAt r) |> <| cl_UpdatedAt := stamp now (cl_UpdatedAt r) |>
                       <| cl_TokenEndpointAuthMethod := or_default (cl_TokenEndpointAuthMethod r) TokenEndpointAuthClientSecretBasic |>
                       <| cl_PlainClientSecret := "" |>;
  row_touch now r := r <| cl_UpdatedAt := now |> <| cl_PlainClientSecret := "" |>
|}.

#[export] Instance table_AuthorizationCode : Table AuthorizationCode :=
  {| rows := db_authCodes; set_rows l db := db <| db_authCodes := l |>; rows_set_rows _ _ := eq_refl;
     set_rows_rows := ltac:(by intros []) |}.
#[export] Instance row_AuthorizationCode : Row AuthorizationCode := {|
  row_id := ac_ID;
  row_conflict a b := ac_Code a ==? ac_Code b;
  row_live := hard; row_delete := gone;
  row_stamp now r := r <| ac_CreatedAt := stamp now (ac_CreatedAt r) |>;
  row_touch := untouched
|}.

#[export] Instance table_AccessToken : Table AccessToken :=
  {| rows := db_accessTokens; set_rows l db := db <| db_accessTokens := l |>; rows_set_rows _ _ := eq_refl;
     set_rows_rows := ltac:(by intros []) |}.
#[export] Instance row_AccessToken : Row AccessToken := {|
  row_id := at_ID;
  row_conflict a b := at_Token a ==? at_Token b;
  row_live := hard; row_delete := gone;
  row_stamp now r := r <| at_CreatedAt := stamp now (at_CreatedAt r) |>;
  row_touch := untouched
|}.

#[export] Instance table_RefreshToken : Table RefreshToken :=
  {| rows := db_refreshTokens; set_rows l db := db <| db_refreshTokens := l |>; rows_set_rows _ _ := eq_refl;
     set_rows_rows := ltac:(by intros []) |}.
#[export] Instance row_RefreshToken : Row RefreshToken := {|
  row_id := rt_ID;
  row_conflict a b := rt_Token a ==? rt_Token b;
  row_live := hard; row_delete := gone;
  row_stamp now r := r <| rt_CreatedAt := stamp now (rt_CreatedAt r) |>;
  row_touch := untouched
|}.

#[export] Instance table_DeviceCode : Table DeviceCode :=
  {| rows := db_deviceCodes; set_rows l db := db <| db_deviceCodes := l |>; rows_set_rows _ _ := eq_refl;
     set_rows_rows := ltac:(by intros []) |}.
#[export] Instance row_DeviceCode : Row DeviceCode := {|
  row_id := dc_ID;
  row_conflict a b := (dc_DeviceCode a ==? dc_DeviceCode b) || (dc_UserCode a ==? dc_UserCode b);
  row_live := hard; row_delete := gone;
  row_stamp now r := r <| dc_CreatedAt := stamp now (dc_CreatedAt r) |>
                       <| dc_Status := or_default (dc_Status r) DeviceCodePending |>
                       <| dc_Interval := if dc_Interval r =? 0 then 5 else dc_Interval r |>;
  row_touch := untouched
|}.

#[export] Instance table_Session : Table Session :=
  {| rows := db_sessions; set_rows l db := db <| db_sessions := l |>; rows_set_rows _ _ := eq_refl;
     set_rows_rows := ltac:(by intros []) |}.
#[export] Instance row_Session : Row Session := {|
  row_id := ss_ID;
  row_conflict a b := ss_TokenHash a ==? ss_TokenHash b;
  row_live := hard; row_delete := gone;
  row_stamp now r := r <| ss_CreatedAt := stamp now (ss_CreatedAt r) |>;
  row_touch := untouched
|}.

#[export] Instance table_Consent : Table Consent :=
  {| rows := db_consents; set_rows l db := db <| db_consents := l |>; rows_set_rows _ _ := eq_refl;
     set_rows_rows := ltac:(by intros []) |}.
#[export] Instance row_Consent : Row Consent := {|
  row_id := cs_ID;
  row_conflict a b := (cs_TenantID a ==? cs_TenantID b) && (cs_UserID a ==? cs_UserID b)
                      && (cs_ClientID a ==? cs_ClientID b);
  row_live := hard; row_delete := gone;
  row_stamp now r := r <| cs_CreatedAt := stamp now (cs_CreatedAt r) |> <| cs_UpdatedAt := stamp now (cs_UpdatedAt r) |>;
  row_touch now r := r <| cs_UpdatedAt := now |>
|}.

#[export] Instance table_UserMFA : Table UserMFA :=
  {| rows := db_mfa; set_rows l db := db <| db_mfa := l |>; rows_set_rows _ _ := eq_refl;
     set_rows_rows := ltac:(by intros []) |}.
#[export] Instance row_UserMFA : Row UserMFA := {|
  row_id := mf_UserID;
  row_conflict a b := false;
  row_live := hard; row_delete := gone;
  row_stamp now r := r <| mf_CreatedAt := stamp now (mf_CreatedAt r) |> <| mf_UpdatedAt := stamp now (mf_UpdatedAt r) |>;
  row_touch now r := r <| mf_UpdatedAt := now |>
|}.

#[export] Instance table_MFARecoveryCode : Table MFARecoveryCode :=
  {| rows := db_recoveryCodes; set_rows l db := db <| db_recoveryCodes := l |>; rows_set_rows _ _ := eq_refl;
     set_rows_rows := ltac:(by intros []) |}.
#[export] Instance row_MFARecoveryCode : Row MFARecoveryCode := {|
  row_id := rc_ID;
  row_conflict a b := (rc_TenantID a ==? rc_TenantID b) && (rc_UserID a ==? rc_UserID b)
                      && (rc_CodeHash a ==? rc_CodeHash b);
  row_live := hard; row_delete := gone;
  row_stamp now r := r <| rc_CreatedAt := stamp now (rc_CreatedAt r) |>;
  row_touch := untouched
|}.

#[export] Instance table_InitialAccessToken : Table InitialAccessToken :=
  {| rows := db_initialAccess; set_rows l db := db <| db_initialAccess := l |>; rows_set_rows _ _ := eq_refl;
     set_rows_rows := ltac:(by intros []) |}.
#[export] Instance row_InitialAccessToken : Row InitialAccessToken := {|
  row_id := ia_ID;
  row_conflict a b := ia_TokenHash a ==? ia_TokenHash b;
  row_live := hard; row_delete := gone;
  row_stamp now r := r <| ia_CreatedAt := stamp now (ia_CreatedAt r) |>;
  row_touch := untouched
|}.

#[export] Instance table_EmailVerification : Table EmailVerification :=
  {| rows := db_emailVerifications; set_rows l db := db <| db_emailVerifications := l |>; rows_set_rows _ _ := eq_refl;
     set_rows_rows := ltac:(by intros []) |}.
#[export] Instance row_EmailVerification : Row EmailVerification := {|
  row_id := ev_ID;
  row_conflict a b := ev_CodeHash a ==? ev_CodeHash b;
  row_live := hard; row_delete := gone;
  row_stamp now r := r <| ev_CreatedAt := stamp now (ev_CreatedAt r) |>;
  row_touch := untouched
|}.

#[export] Instance table_PasswordReset : Table PasswordReset :=
  {| rows := db_passwordResets; set_rows l db := db <| db_passwordResets := l |>; rows_set_rows _ _ := eq_refl;
     set_rows_rows := ltac:(by intros []) |}.
#[export] Instance row_PasswordReset : Row PasswordReset := {|
  row_id := pr_ID;
  row_conflict a b := pr_TokenHash a ==? pr_TokenHash b;
  row_live := hard; row_delete := gone;
  row_stamp now r := r <| pr_CreatedAt := stamp now (pr_CreatedAt r) |>;
  row_touch := untouched
|}.

(* is_active has the default true, which gorm also writes for false *)
#[export] Instance table_Role : Table Role :=
  {| rows := db_roles; set_rows l db := db <| db_roles := l |>; rows_set_rows _ _ := eq_refl;
     set_rows_rows := ltac:(by intros []) |}.
#[export] Instance row_Role : Row Role := {|
  row_id := ro_ID;
  row_conflict a b := is_none (ro_DeletedAt a) && is_none (ro_DeletedAt b) && (ro_TenantID a ==? ro_TenantID b)
                      && (ro_Name a ==? ro_Name b);
  row_live r := is_none (ro_DeletedAt r);
  row_delete now r := Some (r <| ro_DeletedAt := Some now |>);
  row_stamp now r := r <| ro_CreatedAt := stamp now (ro_CreatedAt r) |> <| ro_UpdatedAt := stamp now (ro_UpdatedAt r) |> <| ro_IsActive := true |>;
  row_touch now r := r <| ro_UpdatedAt := now |>
|}.

#[export] Instance table_Permission : Table Permission :=
  {| rows := db_permissions; set_rows l db := db <| db_permissions := l |>; rows_set_rows _ _ := eq_refl;
     set_rows_rows := ltac:(by intros []) |}.
#[export] Instance row_Permission : Row Permission := {|
  row_id := pm_ID;
  row_conflict a b := is_none (pm_DeletedAt a) && is_none (pm_DeletedAt b) && (pm_Name a ==? pm_Name b);
  row_live r := is_none (pm_DeletedAt r);
  row_delete now r := Some (r <| pm_DeletedAt := Some now |>);
  row_stamp now r := r <| pm_CreatedAt := stamp now (pm_CreatedAt r) |> <| pm_UpdatedAt := stamp now (pm_UpdatedAt r) |>;
  row_touch now r := r <| pm_UpdatedAt := now |>
|}.

#[export] Instance table_UserRole : Table UserRole :=
  {| rows := db_userRoles; set_rows l db := db <| db_userRoles := l |>; rows_set_rows _ _ := eq_refl;
     set_rows_rows := ltac:(by intros []) |}.
#[export] Instance row_UserRole : Row UserRole := {|
  row_id := ur_ID;
  row_conflict a b := (ur_TenantID a ==? ur_TenantID b) && (ur_UserID a ==? ur_UserID b)
                      && (ur_RoleID a ==? ur_RoleID b);
  row_live := hard; row_delete := gone;
  row_stamp now r := r <| ur_GrantedAt := stamp now (ur_GrantedAt r) |>;
  row_touch := untouched
|}.

#[export] Instance table_RolePermission : Table RolePermission :=
  {| rows := db_rolePermissions; set_rows l db := db <| db_rolePermissions := l |>; rows_set_rows _ _ := eq_refl;
     set_rows_rows := ltac:(by intros []) |}.
#[export] Instance row_RolePermission : Row RolePermission := {|
  row_id := rp_ID;
  row_conflict a b := (rp_RoleID a ==? rp_RoleID b) && (rp_PermissionID a ==? rp_PermissionID b);
  row_live := hard; row_delete := gone;
  row_stamp now r := r <| rp_GrantedAt := stamp now (rp_GrantedAt r) |>;
  row_touch := untouched
|}.

#[export] Instance table_IdempotencyKey : Table IdempotencyKey :=
  {| rows := db_idempotency; set_rows l db := db <| db_idempotency := l |>; rows_set_rows _ _ := eq_refl;
     set_rows_rows := ltac:(by intros []) |}.
#[export] Instance row_IdempotencyKey : Row IdempotencyKey := {|
  row_id := ik_ID;
  row_conflict a b := (ik_TenantID a ==? ik_TenantID b) && (ik_Principal a ==? ik_Principal b)
                      && (ik_Key a ==? ik_Key b);
  row_live := hard; row_delete := gone;
  row_stamp now r := r <| ik_CreatedAt := stamp now (ik_CreatedAt r) |>;
  row_touch := untouched
|}.

#[export] Instance table_AuditLog : Table AuditLog :=
  {| rows := db_auditLogs; set_rows l db := db <| db_auditLogs := l |>; rows_set_rows _ _ := eq_refl;
     set_rows_rows := ltac:(by intros []) |}.
#[export] Instance row_AuditLog : Row AuditLog := {|
  row_id := al_ID;
  row_conflict a b := false;
  row_live := hard; row_delete := gone;
  row_stamp now r := r <| al_CreatedAt := stamp now (al_CreatedAt r) |>;
  row_touch := untouched
|}.

(* is_active has the default true, which gorm also writes for false *)
#[export] Instance table_EmailTemplate : Table EmailTemplate :=
  {| rows := db_emailTemplates; set_rows l db := db <| db_emailTemplates := l |>; rows_set_rows _ _ := eq_refl;
     set_rows_rows := ltac:(by intros []) |}.
#[export] Instance row_EmailTemplate : Row EmailTemplate := {|
  row_id := et_ID;
  row_conflict a b := is_none (et_DeletedAt a) && is_none (et_DeletedAt b) && (et_TenantID a ==? et_TenantID b)
                      && (et_Name a ==? et_Name b);
  row_live r := is_none (et_DeletedAt r);
  row_delete now r := Some (r <| et_DeletedAt := Some now |>);
  row_stamp now r := r <| et_CreatedAt := stamp now (et_CreatedAt r) |> <| et_UpdatedAt := stamp now (et_UpdatedAt r) |>
                       <| et_IsActive := true |>;
  row_touch now r := r <| et_UpdatedAt := now |>
|}.

#[export] Instance table_EmailQueue : Table EmailQueue :=
  {| rows := db_emailQueue; set_rows l db := db <| db_emailQueue := l |>; rows_set_rows _ _ := eq_refl;
     set_rows_rows := ltac:(by intros []) |}.
#[export] Instance row_EmailQueue : Row EmailQueue := {|
  row_id := eq_ID;
  row_conflict a b := false;
  row_live := hard; row_delete := gone;
  row_stamp now r := r <| eq_CreatedAt := stamp now (eq_CreatedAt r) |> <| eq_UpdatedAt := stamp now (eq_UpdatedAt r) |>
                       <| eq_Status := or_default (eq_Status r) "pending" |>
                       <| eq_Priority := if eq_Priority r =? 0 then 5 else eq_Priority r |>
                       <| eq_MaxAttempts := if eq_MaxAttempts r =? 0 then 3 else eq_MaxAttempts r |>;
  row_touch now r := r <| eq_UpdatedAt := now |>
|}.
