(* ===== verification/Sorting.v ===== *)
(** The sort behind ORDER BY. *)
From S2P Require Import Prelude Store.
From stdpp Require Import sorting.

Lemma insert_sorted_perm {R : Set} le (r : R) l : insert_sorted le r l ≡ₚ r :: l.
Proof.
  induction l as [|x l IH]; simpl; [done|]. destruct (le r x); [done|]. rewrite IH. by constructor.
Qed.
Lemma sort_rows_perm {R : Set} le (l : list R) : sort_rows le l ≡ₚ l.
Proof. induction l as [|x l IH]; simpl; [done|]. by rewrite insert_sorted_perm, IH. Qed.

Lemma insert_sorted_sorted {R : Set} (le : R -> R -> bool) r l :
  (forall a b, le a b = false -> le b a = true) ->
  (forall a b c, le a b = true -> le b c = true -> le a c = true) ->
  StronglySorted (fun a b => le a b = true) l ->
  StronglySorted (fun a b => le a b = true) (insert_sorted le r l).
Proof.
  intros Htot Htr. induction 1 as [|x l Hs IH Hf]; simpl; [repeat constructor|].
  destruct (le r x) eqn:E; constructor; [by constructor| |exact IH|].
  - constructor; [done|]. eapply Forall_impl; [exact Hf|]. intros y. by apply Htr.
  - rewrite insert_sorted_perm. constructor; [by apply Htot|done].
Qed.
Lemma sort_rows_sorted {R : Set} (le : R -> R -> bool) l :
  (forall a b, le a b = false -> le b a = true) ->
  (forall a b c, le a b = true -> le b c = true -> le a c = true) ->
  StronglySorted (fun a b => le a b = true) (sort_rows le l).
Proof.
  intros Htot Htr. induction l as [|x l IH]; simpl; [constructor|]. by apply insert_sorted_sorted.
Qed.
