(* ===== verification/Repos.v ===== *)
(** The gorm repositories of internal/repo/gorm, one Module per repository
    and one Definition per method. A lookup that finds no row returns the
    repository's sentinel; other database errors are wrapped in the message
    the method gives. *)
From S2P Require Import Prelude GoStd Models Effects Store.

Open Scope Z_scope.

(** RowsAffected *)
Definition RowsAffected {R : Set} (updated : list R) : Z := Z.of_nat (length updated).

(** tenant.go *)
Module TenantRepo.
Section Methods.
Context `{Env}.

Definition Create (t : Tenant) : prog Tenant := wrap "failed to create tenant" (Insert t).
Definition GetByID (id : uuid) : prog Tenant :=
  get_by "failed to get tenant by ID" ErrTenantNotFound (fun t => tn_ID t ==? id).
Definition GetByDomain (domain : string) : prog Tenant :=
  get_by "failed to get tenant by domain" ErrTenantNotFound (fun t => tn_Domain t ==? domain).
Definition Update (t : Tenant) : prog Tenant := wrap "failed to update tenant" (Save t).
Definition Delete (id : uuid) : prog unit :=
  wrap "failed to delete tenant" (DeleteWhere (fun t => tn_ID t ==? id)).
Definition List (limit offset : Z) : prog (list Tenant * Z) :=
  total ← wrap "failed to count tenants" (Count (fun _ : Tenant => true));
  l ← wrap "failed to list tenants"
        (FindPage (fun _ => true) (fun a b => tn_CreatedAt b <=? tn_CreatedAt a) limit offset);
  mret (l, total).
End Methods.
End TenantRepo.

(** user.go *)
Module UserRepo.
Section Methods.
Context `{Env}.

Definition Create (u : User) : prog User := wrap "failed to create user" (Insert u).
Definition GetByID (tenantID userID : uuid) : prog User :=
  get_by "failed to get user by ID" ErrUserNotFound
    (fun u => (us_TenantID u ==? tenantID) && (us_ID u ==? userID)).
Definition GetByEmail (tenantID : uuid) (email : string) : prog User :=
  get_by "failed to get user by email" ErrUserNotFound
    (fun u => (us_TenantID u ==? tenantID) && (us_Email u ==? email)).
Definition GetByUsername (tenantID : uuid) (username : string) : prog User :=
  get_by "failed to get user by username" ErrUserNotFound
    (fun u => (us_TenantID u ==? tenantID) && (us_Username u ==? username)).
Definition Update (u : User) : prog User := wrap "failed to update user" (Save u).
Definition Delete (tenantID userID : uuid) : prog unit :=
  wrap "failed to delete user"
    (DeleteWhere (fun u => (us_TenantID u ==? tenantID) && (us_ID u ==? userID))).
Definition List (tenantID : uuid) (limit offset : Z) : prog (list User * Z) :=
  total ← wrap "failed to count users" (Count (fun u => us_TenantID u ==? tenantID));
  l ← wrap "failed to list users"
        (FindPage (fun u => us_TenantID u ==? tenantID)
           (fun a b => us_CreatedAt b <=? us_CreatedAt a) limit offset);
  mret (l, total).
End Methods.
End UserRepo.

(** client.go *)
Module ClientRepo.
Section Methods.
Context `{Env}.

Definition Create (c : Client) : prog Client := wrap "failed to create client" (Insert c).
Definition GetByID (tenantID clientID : uuid) : prog Client :=
  get_by "failed to get client by ID" ErrClientNotFound
    (fun c => (cl_TenantID c ==? tenantID) && (cl_ID c ==? clientID)).
Definition GetByClientID (tenantID : uuid) (clientID : string) : prog Client :=
  get_by "failed to get client by client_id" ErrClientNotFound
    (fun c => (cl_TenantID c ==? tenantID) && (cl_ClientID c ==? clientID)).
Definition Update (c : Client) : prog Client := wrap "failed to update client" (Save c).
Definition Delete (tenantID clientID : uuid) : prog unit :=
  wrap "failed to delete client"
    (DeleteWhere (fun c => (cl_TenantID c ==? tenantID) && (cl_ID c ==? clientID))).
Definition List (tenantID : uuid) (limit offset : Z) : prog (list Client * Z) :=
  total ← wrap "failed to count clients" (Count (fun c => cl_TenantID c ==? tenantID));
  l ← wrap "failed to list clients"
        (FindPage (fun c => cl_TenantID c ==? tenantID)
           (fun a b => cl_CreatedAt b <=? cl_CreatedAt a) limit offset);
  mret (l, total).
End Methods.
End ClientRepo.

(** auth_code.go *)
Module AuthCodeRepo.
Section Methods.
Context `{Env}.

Definition Create (c : AuthorizationCode) : prog AuthorizationCode :=
  wrap "failed to create authorization code" (Insert c).
Definition GetByCode (tenantID : uuid) (code : string) : prog AuthorizationCode :=
  get_by "failed to get authorization code" ErrAuthCodeNotFound
    (fun c => (ac_TenantID c ==? tenantID) && (ac_Code c ==? code)).

(** One UPDATE ... WHERE used_at IS NULL RETURNING: the row it claimed, or
    the row together with ErrAuthCodeAlreadyUsed. *)
Definition Consume (tenantID : uuid) (code : string)
    : prog (AuthorizationCode * option error) :=
  now ← Now;
  updated ← wrap "failed to consume authorization code"
    (UpdateWhere (fun c => (ac_TenantID c ==? tenantID) && (ac_Code c ==? code)
                           && is_none (ac_UsedAt c))
                 (fun c => c <| ac_UsedAt := Some now |>));
  match updated with
  | authCode :: _ => mret (authCode, None)
  | [] =>
    existing ← or_err ErrAuthCodeNotFound (GetByCode tenantID code);
    mret (existing, Some (ErrAuthCodeAlreadyUsed : error))
  end.

Definition Delete (tenantID : uuid) (code : string) : prog unit :=
  wrap "failed to delete authorization code"
    (DeleteWhere (fun c => (ac_TenantID c ==? tenantID) && (ac_Code c ==? code))).
Definition DeleteExpired : prog unit :=
  now ← Now;
  wrap "failed to delete expired authorization codes"
    (DeleteWhere (fun c => time_before (ac_ExpiresAt c) now)).
End Methods.
End AuthCodeRepo.

(** access_token.go *)
Module AccessTokenRepo.
Section Methods.
Context `{Env}.

Definition Create (t : AccessToken) : prog AccessToken :=
  wrap "failed to create access token" (Insert t).
Definition GetByToken (tenantID : uuid) (token : string) : prog AccessToken :=
  get_by "failed to get access token" ErrAccessTokenNotFound
    (fun t => (at_TenantID t ==? tenantID) && (at_Token t ==? token)).
Definition Delete (tenantID : uuid) (token : string) : prog unit :=
  wrap "failed to delete access token"
    (DeleteWhere (fun t => (at_TenantID t ==? tenantID) && (at_Token t ==? token))).
Definition DeleteExpired : prog unit :=
  now ← Now;
  wrap "failed to delete expired access tokens"
    (DeleteWhere (fun t => time_before (at_ExpiresAt t) now)).
Definition DeleteByFamilyID (tenantID familyID : uuid) : prog unit :=
  wrap "failed to delete access tokens by family ID"
    (DeleteWhere (fun t => (at_TenantID t ==? tenantID) && (at_FamilyID t ==? familyID))).
Definition DeleteByUserID (tenantID userID : uuid) : prog unit :=
  wrap "failed to delete access tokens by user ID"
    (DeleteWhere (fun t => (at_TenantID t ==? tenantID) && (at_UserID t ==? userID))).
Definition DeleteByClientID (tenantID clientID : uuid) : prog unit :=
  wrap "failed to delete access tokens by client ID"
    (DeleteWhere (fun t => (at_TenantID t ==? tenantID) && (at_ClientID t ==? clientID))).
End Methods.
End AccessTokenRepo.

(** refresh_token.go *)
Module RefreshTokenRepo.
Section Methods.
Context `{Env}.

Definition Create (t : RefreshToken) : prog RefreshToken :=
  wrap "failed to create refresh token" (Insert t).
Definition GetByToken (tenantID : uuid) (token : string) : prog RefreshToken :=
  get_by "failed to get refresh token" ErrRefreshTokenNotFound
    (fun t => (rt_TenantID t ==? tenantID) && (rt_Token t ==? token)).
Definition Revoke (tenantID : uuid) (token : string) : prog bool :=
  now ← Now;
  updated ← wrap "failed to revoke refresh token"
    (UpdateWhere (fun t => (rt_TenantID t ==? tenantID) && (rt_Token t ==? token)
                           && is_none (rt_RevokedAt t))
                 (fun t => t <| rt_RevokedAt := Some now |>));
  mret (RowsAffected updated =? 1).
Definition DeleteByFamilyID (tenantID familyID : uuid) : prog unit :=
  wrap "failed to delete refresh tokens by family ID"
    (DeleteWhere (fun t => (rt_TenantID t ==? tenantID) && (rt_FamilyID t ==? familyID))).
Definition Delete (tenantID : uuid) (token : string) : prog unit :=
  wrap "failed to delete refresh token"
    (DeleteWhere (fun t => (rt_TenantID t ==? tenantID) && (rt_Token t ==? token))).
Definition DeleteExpired : prog unit :=
  now ← Now;
  wrap "failed to delete expired refresh tokens"
    (DeleteWhere (fun t => time_before (rt_ExpiresAt t) now)).
Definition DeleteByUserID (tenantID userID : uuid) : prog unit :=
  wrap "failed to delete refresh tokens by user ID"
    (DeleteWhere (fun t => (rt_TenantID t ==? tenantID) && (rt_UserID t ==? userID))).
Definition DeleteByClientID (tenantID clientID : uuid) : prog unit :=
  wrap "failed to delete refresh tokens by client ID"
    (DeleteWhere (fun t => (rt_TenantID t ==? tenantID) && (rt_ClientID t ==? clientID))).
End Methods.
End RefreshTokenRepo.

(** device_code.go *)
Module DeviceCodeRepo.
Section Methods.
Context `{Env}.

Definition Create (c : DeviceCode) : prog DeviceCode :=
  wrap "failed to create device code" (Insert c).
Definition GetByDeviceCode (tenantID : uuid) (deviceCode : string) : prog DeviceCode :=
  get_by "failed to get device code" ErrDeviceCodeNotFound
    (fun c => (dc_TenantID c ==? tenantID) && (dc_DeviceCode c ==? deviceCode)).
Definition GetByUserCode (tenantID : uuid) (userCode : string) : prog DeviceCode :=
  get_by "failed to get device code by user code" ErrDeviceCodeNotFound
    (fun c => (dc_TenantID c ==? tenantID) && (dc_UserCode c ==? userCode)).
Definition Update (c : DeviceCode) : prog DeviceCode := wrap "failed to update device code" (Save c).
Definition Delete (tenantID : uuid) (deviceCode : string) : prog unit :=
  wrap "failed to delete device code"
    (DeleteWhere (fun c => (dc_TenantID c ==? tenantID) && (dc_DeviceCode c ==? deviceCode))).
Definition DeleteExpired : prog unit :=
  now ← Now;
  wrap "failed to delete expired device codes"
    (DeleteWhere (fun c => time_before (dc_ExpiresAt c) now)).
End Methods.
End DeviceCodeRepo.

(** session.go *)
Module SessionRepo.
Section Methods.
Context `{Env}.

Definition Create (s : Session) : prog Session := wrap "failed to create session" (Insert s).
Definition GetByTokenHash (tenantID : uuid) (tokenHash : string) : prog Session :=
  get_by "failed to get session" ErrSessionNotFound
    (fun s => (ss_TenantID s ==? tenantID) && (ss_TokenHash s ==? tokenHash)).
Definition DeleteByTokenHash (tenantID : uuid) (tokenHash : string) : prog unit :=
  wrap "failed to delete session"
    (DeleteWhere (fun s => (ss_TenantID s ==? tenantID) && (ss_TokenHash s ==? tokenHash))).
Definition DeleteByUserID (tenantID userID : uuid) : prog unit :=
  wrap "failed to delete user sessions"
    (DeleteWhere (fun s => (ss_TenantID s ==? tenantID) && (ss_UserID s ==? userID))).
Definition DeleteExpired : prog unit :=
  now ← Now;
  wrap "failed to delete expired sessions"
    (DeleteWhere (fun s => time_before (ss_ExpiresAt s) now)).
End Methods.
End SessionRepo.

Module ConsentRepo.
Section Methods.
Context `{Env}.

Definition Get (tenantID userID clientID : uuid) : prog Consent :=
  get_by "failed to get consent" ErrResourceNotFound
    (fun c => (cs_TenantID c ==? tenantID) && (cs_UserID c ==? userID)
              && (cs_ClientID c ==? clientID)).

(** INSERT ... ON CONFLICT (tenant_id, user_id, client_id) DO UPDATE SET
    scope, updated_at. *)
Definition upsert (now : Z) (c : Consent) (l : list Consent) : option (list Consent) :=
  let c := row_stamp now c in
  if existsb (row_conflict c) l then
    Some (map (fun c' => if row_conflict c c'
                         then c' <| cs_Scope := cs_Scope c |> <| cs_UpdatedAt := cs_UpdatedAt c |>
                         else c') l)
  else insert_row now c l.
Definition Upsert (c : Consent) : prog unit :=
  wrap "failed to save consent" (write (fun now l => match upsert now c l with Some l' => Some (l', tt) | None => None end)).

Definition Delete (tenantID userID clientID : uuid) : prog unit :=
  wrap "failed to delete consent"
    (DeleteWhere (fun c => (cs_TenantID c ==? tenantID) && (cs_UserID c ==? userID)
                           && (cs_ClientID c ==? clientID))).
End Methods.
End ConsentRepo.

(** The repository methods unfold when a run is taken apart. *)
Create HintDb repos.
#[export] Hint Unfold
  TenantRepo.Create TenantRepo.GetByID TenantRepo.GetByDomain TenantRepo.Update
  TenantRepo.Delete TenantRepo.List UserRepo.Create UserRepo.GetByID UserRepo.GetByEmail
  UserRepo.GetByUsername UserRepo.Update UserRepo.Delete UserRepo.List ClientRepo.Create
  ClientRepo.GetByID ClientRepo.GetByClientID ClientRepo.Update ClientRepo.Delete
  ClientRepo.List AuthCodeRepo.Create AuthCodeRepo.GetByCode AuthCodeRepo.Consume
  AuthCodeRepo.Delete AuthCodeRepo.DeleteExpired AccessTokenRepo.Create
  AccessTokenRepo.GetByToken AccessTokenRepo.Delete AccessTokenRepo.DeleteExpired
  AccessTokenRepo.DeleteByFamilyID AccessTokenRepo.DeleteByUserID
  AccessTokenRepo.DeleteByClientID RefreshTokenRepo.Create RefreshTokenRepo.GetByToken
  RefreshTokenRepo.Revoke RefreshTokenRepo.DeleteByFamilyID RefreshTokenRepo.Delete
  RefreshTokenRepo.DeleteExpired RefreshTokenRepo.DeleteByUserID
  RefreshTokenRepo.DeleteByClientID DeviceCodeRepo.Create DeviceCodeRepo.GetByDeviceCode
  DeviceCodeRepo.GetByUserCode DeviceCodeRepo.Update DeviceCodeRepo.Delete
  DeviceCodeRepo.DeleteExpired SessionRepo.Create SessionRepo.GetByTokenHash
  SessionRepo.DeleteByTokenHash SessionRepo.DeleteByUserID SessionRepo.DeleteExpired
  ConsentRepo.Get ConsentRepo.Upsert ConsentRepo.Delete : repos.

(** Equations between results, and the parts of the worlds passed through. *)
Ltac tidy :=
  repeat match goal with
  | H : ?x = ?y |- _ => is_var x; is_var y; subst x
  | H : (_, _) = (_, _) |- _ => injection H as ? ?
  | H : Some _ = Some _ |- _ => injection H as ?
  | H : Some _ = None |- _ => discriminate H
  | H : None = Some _ |- _ => discriminate H
  | H : inl _ = inl _ |- _ => injection H as ?
  | H : inl _ = inr _ |- _ => discriminate H
  | H : inr _ = inl _ |- _ => discriminate H
  | H : _ :: _ = [] |- _ => discriminate H
  | H : [] = _ :: _ |- _ => discriminate H
  | H : true = false |- _ => discriminate H
  | H : false = true |- _ => discriminate H
  | H : ?x = ?x |- _ => clear H
  | H : _ = tick _ |- _ => apply tick_parts in H as (? & ? & ? & ?)
  | H : _ = wrote _ _ |- _ => apply wrote_parts in H as (? & ? & ? & ?)
  | H : _ /\ _ |- _ => destruct H
  end.

(** No panic on any path. *)
Ltac go_safe :=
  repeat first
    [ solve [auto with safe]
    | apply safe_bind; [|intros ?]
    | match goal with
      | |- safe (match ?b with _ => _ end) => destruct b
      | |- safe (let _ := _ in _) => cbv zeta
      | |- safe (_ (match ?b with _ => _ end)) => destruct b
      | |- safe (attempt _) => apply safe_attempt
      | |- safe (wrap _ _) => apply safe_wrap
      | |- safe (or_err _ _) => apply safe_or_err
      | |- safe (ignore _) => apply safe_ignore
      | |- safe _ => progress (autounfold with repos)
      end ].

Ltac go_ok :=
  repeat first
    [ step_ok
    | match goal with
      | H : run _ _ = (_, Ok _) |- _ => progress (autounfold with repos in H)
      end ];
  bool_simp; tidy.

(** Express every table in terms of the world the run started from. *)
Ltac reduce_dbs H :=
  cbn [rows set_rows table_Tenant table_User table_Client table_AuthorizationCode
       table_AccessToken table_RefreshToken table_DeviceCode table_Session table_Consent
       table_UserMFA table_MFARecoveryCode table_InitialAccessToken table_EmailVerification
       table_PasswordReset table_Role table_Permission table_UserRole table_RolePermission
       table_IdempotencyKey table_AuditLog table_EmailTemplate table_EmailQueue
       db_tenants db_users db_clients db_authCodes db_accessTokens db_refreshTokens db_deviceCodes
       db_sessions db_consents db_mfa db_recoveryCodes db_initialAccess db_emailVerifications
       db_passwordResets db_roles db_permissions db_userRoles db_rolePermissions db_idempotency
       db_auditLogs db_emailTemplates db_emailQueue upd] in H.
Ltac use_dbs :=
  repeat match goal with
  | H : w_db ?w = _ |- _ => is_var w; rewrite H in *; clear H
  end;
  repeat match goal with
  | H : context [rows] |- _ => progress (reduce_dbs H)
  | H : context [set_rows] |- _ => progress (reduce_dbs H)
  end.
