(* ===== verification/AccountRepos.v ===== *)
(** The gorm repositories behind MFA, dynamic registration, email
    verification, password reset and Idempotency-Key handling
    (internal/repo/gorm/{mfa,initial_access_token,email,idempotency}.go). *)
From S2P Require Import Prelude GoStd Models Effects Store Repos.

Open Scope Z_scope.

(** mfa.go *)
Module MFARepo.
Section Methods.
Context `{Env}.

Definition of_user (tenantID userID : uuid) (m : UserMFA) : bool :=
  (mf_TenantID m ==? tenantID) && (mf_UserID m ==? userID).
Definition code_of_user (tenantID userID : uuid) (c : MFARecoveryCode) : bool :=
  (rc_TenantID c ==? tenantID) && (rc_UserID c ==? userID).

Definition Get (tenantID userID : uuid) : prog UserMFA :=
  get_by "failed to get MFA settings" ErrMFANotEnabled (of_user tenantID userID).

(** INSERT ... ON CONFLICT (user_id) DO UPDATE ... WHERE confirmed_at IS
    NULL AND tenant_id = ?; the result is RowsAffected. *)
Definition save_pending (m : UserMFA) (l : list UserMFA) : list UserMFA * Z :=
  if existsb (fun m' => mf_UserID m' ==? mf_UserID m) l then
    let replaceable m' := (mf_UserID m' ==? mf_UserID m) && is_none (mf_ConfirmedAt m')
                          && (mf_TenantID m' ==? mf_TenantID m) in
    (map (fun m' => if replaceable m' then
                      m' <| mf_TOTPSecret := mf_TOTPSecret m |> <| mf_LastUsedStep := mf_LastUsedStep m |>
                         <| mf_FailedAttempts := mf_FailedAttempts m |> <| mf_LockedUntil := mf_LockedUntil m |>
                         <| mf_CreatedAt := mf_CreatedAt m |> <| mf_UpdatedAt := mf_UpdatedAt m |>
                    else m') l,
     Z.of_nat (length (filter (fun m' => Is_true (replaceable m')) l)))
  else (l ++ [m], 1).
Definition SavePending (m : UserMFA) : prog unit :=
  now ← Now;
  let m := m <| mf_ConfirmedAt := None |> <| mf_CreatedAt := now |> <| mf_UpdatedAt := now |> in
  affected ← wrap "failed to save MFA enrollment"
    (Stmt (fun _ db => let r := save_pending m (rows db) in (set_rows r.1 db, r.2)));
  if affected =? 0 then throw ErrMFAAlreadyEnabled else mret tt.

Fixpoint new_codes (tenantID userID : uuid) (now : Z) (hashes : list string)
    : prog (list MFARecoveryCode) :=
  match hashes with
  | [] => mret []
  | hash :: hashes' =>
    id ← NewUUID;
    codes ← new_codes tenantID userID now hashes';
    mret (MkMFARecoveryCode id tenantID userID hash None now :: codes)
  end.
Definition replaceRecoveryCodes (tenantID userID : uuid) (codeHashes : list string) : prog unit :=
  wrap "failed to delete recovery codes" (DeleteWhere (code_of_user tenantID userID)) ;;
  match codeHashes with
  | [] => mret tt
  | _ =>
    now ← Now;
    codes ← new_codes tenantID userID now codeHashes;
    wrap "failed to store recovery codes" (InsertAll codes)
  end.

Definition Confirm (tenantID userID : uuid) (step : Z) (recoveryCodeHashes : list string) : prog unit :=
  Transaction (
    confirmedAt ← Now;
    updatedAt ← Now;
    updated ← wrap "failed to confirm MFA enrollment"
      (UpdateRaw (fun m => of_user tenantID userID m && is_none (mf_ConfirmedAt m))
         (fun m => m <| mf_ConfirmedAt := Some confirmedAt |> <| mf_LastUsedStep := step |>
                     <| mf_FailedAttempts := 0 |> <| mf_LockedUntil := None |>
                     <| mf_UpdatedAt := updatedAt |>));
    if RowsAffected updated =? 0 then throw ErrMFANotEnrolling
    else replaceRecoveryCodes tenantID userID recoveryCodeHashes).

Definition UseStep (tenantID userID : uuid) (step : Z) : prog bool :=
  now ← Now;
  updated ← wrap "failed to record TOTP use"
    (UpdateRaw (fun m => of_user tenantID userID m && is_some (mf_ConfirmedAt m)
                         && (mf_LastUsedStep m <? step))
       (fun m => m <| mf_LastUsedStep := step |> <| mf_FailedAttempts := 0 |>
                   <| mf_LockedUntil := None |> <| mf_UpdatedAt := now |>));
  mret (RowsAffected updated =? 1).

Definition UseRecoveryCode (tenantID userID : uuid) (codeHash : string) : prog bool :=
  Transaction (
    now ← Now;
    updated ← wrap "failed to use recovery code"
      (UpdateRaw (fun c => code_of_user tenantID userID c && (rc_CodeHash c ==? codeHash)
                           && is_none (rc_UsedAt c))
         (fun c => c <| rc_UsedAt := Some now |>));
    if RowsAffected updated =? 0 then mret false
    else
      now ← Now;
      UpdateRaw (of_user tenantID userID)
        (fun m => m <| mf_FailedAttempts := 0 |> <| mf_LockedUntil := None |>
                    <| mf_UpdatedAt := now |>) ;;
      mret true).

Definition RecordFailure (tenantID userID : uuid) (maxFailures lockUntil : Z) : prog unit :=
  now ← Now;
  wrap "failed to record MFA failure"
    (UpdateRaw (of_user tenantID userID)
       (fun m => m <| mf_FailedAttempts := mf_FailedAttempts m + 1 |>
                   <| mf_LockedUntil := if maxFailures <=? mf_FailedAttempts m + 1
                                        then Some lockUntil else mf_LockedUntil m |>
                   <| mf_UpdatedAt := now |>)) ;;
  mret tt.

Definition ReplaceRecoveryCodes (tenantID userID : uuid) (codeHashes : list string) : prog unit :=
  Transaction (replaceRecoveryCodes tenantID userID codeHashes).

Definition CountUnusedRecoveryCodes (tenantID userID : uuid) : prog Z :=
  wrap "failed to count recovery codes"
    (Count (fun c => code_of_user tenantID userID c && is_none (rc_UsedAt c))).

Definition Delete (tenantID userID : uuid) : prog unit :=
  Transaction (
    wrap "failed to delete recovery codes" (DeleteWhere (code_of_user tenantID userID)) ;;
    wrap "failed to delete MFA settings" (DeleteWhere (of_user tenantID userID))).
End Methods.
End MFARepo.

(** initial_access_token.go *)
Module InitialAccessTokenRepo.
Section Methods.
Context `{Env}.

Definition Create (t : InitialAccessToken) : prog InitialAccessToken :=
  wrap "failed to create initial access token" (Insert t).
Definition GetByHash (tenantID : uuid) (tokenHash : string) : prog InitialAccessToken :=
  get_by "failed to get initial access token" ErrInitialAccessTokenNotFound
    (fun t => (ia_TenantID t ==? tenantID) && (ia_TokenHash t ==? tokenHash)).

Definition Consume (tenantID : uuid) (tokenHash : string) : prog InitialAccessToken :=
  now ← Now;
  tokens ← wrap "failed to use initial access token"
    (UpdateRaw (fun t => (ia_TenantID t ==? tenantID) && (ia_TokenHash t ==? tokenHash)
                         && is_none (ia_RevokedAt t) && time_after (ia_ExpiresAt t) now
                         && (ia_Uses t <? ia_MaxUses t))
       (fun t => t <| ia_Uses := ia_Uses t + 1 |>));
  match tokens with
  | [] => throw ErrInitialAccessTokenNotFound
  | t :: _ => mret t
  end.

Definition List (tenantID : uuid) : prog (list InitialAccessToken) :=
  wrap "failed to list initial access tokens"
    (FindPage (fun t => ia_TenantID t ==? tenantID)
       (fun a b => ia_CreatedAt b <=? ia_CreatedAt a) 100 0).

Definition Revoke (tenantID id : uuid) : prog unit :=
  now ← Now;
  updated ← wrap "failed to revoke initial access token"
    (UpdateWhere (fun t => (ia_TenantID t ==? tenantID) && (ia_ID t ==? id)
                           && is_none (ia_RevokedAt t))
       (fun t => t <| ia_RevokedAt := Some now |>));
  if RowsAffected updated =? 0 then throw ErrInitialAccessTokenNotFound else mret tt.
End Methods.
End InitialAccessTokenRepo.

(** email.go: verification codes and password resets *)
Module EmailVerificationRepo.
Section Methods.
Context `{Env}.

Definition Create (v : EmailVerification) : prog EmailVerification :=
  wrap "failed to create email verification" (Insert v).
Definition GetByCodeHash (tenantID : uuid) (codeHash : string) : prog EmailVerification :=
  get_by "failed to get email verification" ErrInvalidVerificationCode
    (fun v => (ev_TenantID v ==? tenantID) && (ev_CodeHash v ==? codeHash)).
Definition MarkVerified (id : uuid) : prog bool :=
  now ← Now;
  updated ← wrap "failed to mark email verified"
    (UpdateWhere (fun v => (ev_ID v ==? id) && is_none (ev_VerifiedAt v))
       (fun v => v <| ev_VerifiedAt := Some now |>));
  mret (RowsAffected updated =? 1).
Definition DeletePendingByUserID (tenantID userID : uuid) : prog unit :=
  wrap "failed to delete pending email verifications"
    (DeleteWhere (fun v => (ev_TenantID v ==? tenantID) && (ev_UserID v ==? userID)
                           && is_none (ev_VerifiedAt v))).
Definition DeleteExpired : prog unit :=
  now ← Now;
  wrap "failed to delete expired email verifications"
    (DeleteWhere (fun v => time_before (ev_ExpiresAt v) now)).
End Methods.
End EmailVerificationRepo.

Module PasswordResetRepo.
Section Methods.
Context `{Env}.

Definition Create (r : PasswordReset) : prog PasswordReset :=
  wrap "failed to create password reset" (Insert r).
Definition GetByTokenHash (tenantID : uuid) (tokenHash : string) : prog PasswordReset :=
  get_by "failed to get password reset" ErrInvalidVerificationCode
    (fun r => (pr_TenantID r ==? tenantID) && (pr_TokenHash r ==? tokenHash)).
Definition MarkUsed (id : uuid) : prog bool :=
  now ← Now;
  updated ← wrap "failed to mark password reset used"
    (UpdateWhere (fun r => (pr_ID r ==? id) && is_none (pr_UsedAt r))
       (fun r => r <| pr_UsedAt := Some now |>));
  mret (RowsAffected updated =? 1).
Definition CountSince (tenantID userID : uuid) (since : Z) : prog Z :=
  wrap "failed to count password resets"
    (Count (fun r => (pr_TenantID r ==? tenantID) && (pr_UserID r ==? userID)
                     && time_after (pr_CreatedAt r) since)).
Definition RevokeUnusedByUserID (tenantID userID : uuid) : prog unit :=
  now ← Now;
  wrap "failed to revoke unused password resets"
    (UpdateWhere (fun r => (pr_TenantID r ==? tenantID) && (pr_UserID r ==? userID)
                           && is_none (pr_UsedAt r))
       (fun r => r <| pr_UsedAt := Some now |>)) ;;
  mret tt.
Definition DeleteExpired : prog unit :=
  now ← Now;
  now' ← Now;
  wrap "failed to delete expired password resets"
    (DeleteWhere (fun r => time_before (pr_ExpiresAt r) now
                           && time_before (pr_CreatedAt r) (now' - 24 * hour))).
End Methods.
End PasswordResetRepo.

(** idempotency.go *)
Module IdempotencyRepo.
Section Methods.
Context `{Env}.

(** The ON CONFLICT ... WHERE clause: a record that may be taken over. *)
Definition dead (now staleBefore : Z) (k : IdempotencyKey) : bool :=
  time_before (ik_ExpiresAt k) now
  || ((ik_StatusCode k =? 0) && time_before (ik_CreatedAt k) staleBefore).

(** The INSERT, or the UPDATE of the record taken over, which sets its ID
    too; [None]: the primary key or another unique index rejects the row. *)
Definition begin_insert (now staleBefore : Z) (r : IdempotencyKey) (l : list IdempotencyKey)
    : option (list IdempotencyKey * Z) :=
  if existsb (row_conflict r) l then
    let taken k := row_conflict r k && dead now staleBefore k in
    if existsb taken l && existsb (fun k => (ik_ID k ==? ik_ID r) && negb (taken k)) l then None
    else Some (map (fun k => if taken k then r else k) l,
               Z.of_nat (length (filter (fun k => Is_true (taken k)) l)))
  else match insert_row now r l with Some l' => Some (l', 1) | None => None end.

(** (acquired, existing record); [record] with the creation time it got. *)
Definition Begin (record : IdempotencyKey) (staleBefore : Z)
    : prog (bool * option IdempotencyKey) :=
  now ← Now;
  let record := record <| ik_CreatedAt := now |> in
  affected ← wrap "failed to store idempotency key"
    (o ← Stmt (fun _ db => match begin_insert now staleBefore record (rows db) with
                           | Some (l, n) => (set_rows l db, Some n)
                           | None => (db, None)
                           end);
     from_opt (EExternal "duplicate key") o);
  if affected =? 1 then mret (true, None)
  else
    existing ← get_by "failed to get idempotency key" ErrResourceConflict
      (fun k => (ik_TenantID k ==? ik_TenantID record)
                && (ik_Principal k ==? ik_Principal record) && (ik_Key k ==? ik_Key record));
    mret (false, Some existing).

Definition Complete (id : uuid) (statusCode : Z) (contentType body : string) : prog unit :=
  wrap "failed to complete idempotency key"
    (UpdateWhere (fun k => ik_ID k ==? id)
       (fun k => k <| ik_StatusCode := statusCode |> <| ik_ResponseContentType := contentType |>
                   <| ik_ResponseBody := body |>)) ;;
  mret tt.
Definition Delete (id : uuid) : prog unit :=
  wrap "failed to delete idempotency key" (DeleteWhere (fun k => ik_ID k ==? id)).
Definition DeleteExpired : prog unit :=
  now ← Now;
  wrap "failed to delete expired idempotency keys"
    (DeleteWhere (fun k => time_before (ik_ExpiresAt k) now)).
End Methods.
End IdempotencyRepo.

#[export] Hint Unfold
  MFARepo.Get MFARepo.SavePending MFARepo.replaceRecoveryCodes MFARepo.Confirm MFARepo.UseStep
  MFARepo.UseRecoveryCode MFARepo.RecordFailure MFARepo.ReplaceRecoveryCodes
  MFARepo.CountUnusedRecoveryCodes MFARepo.Delete InitialAccessTokenRepo.Create
  InitialAccessTokenRepo.GetByHash InitialAccessTokenRepo.Consume InitialAccessTokenRepo.List
  InitialAccessTokenRepo.Revoke EmailVerificationRepo.Create EmailVerificationRepo.GetByCodeHash
  EmailVerificationRepo.MarkVerified EmailVerificationRepo.DeletePendingByUserID
  EmailVerificationRepo.DeleteExpired PasswordResetRepo.Create PasswordResetRepo.GetByTokenHash
  PasswordResetRepo.MarkUsed PasswordResetRepo.CountSince PasswordResetRepo.RevokeUnusedByUserID
  PasswordResetRepo.DeleteExpired IdempotencyRepo.Begin IdempotencyRepo.Complete
  IdempotencyRepo.Delete IdempotencyRepo.DeleteExpired : repos.
