(* ===== verification/RbacRepos.v ===== *)
(** The gorm repositories of internal/repo/gorm/rbac.go: roles, permissions
    and their assignments. Associations are not loaded except by
    [RoleRepo.GetWithPermissions], which returns them beside the role. *)
From S2P Require Import Prelude GoStd Models Effects Store Repos.

Open Scope Z_scope.

Module RoleRepo.
Section Methods.
Context `{Env}.

Definition Create (r : Role) : prog Role := wrap "failed to create role" (Insert r).
Definition GetByID (tenantID roleID : uuid) : prog Role :=
  get_by "failed to get role by ID" ErrRoleNotFound
    (fun r => (ro_TenantID r ==? tenantID) && (ro_ID r ==? roleID)).
Definition GetByName (tenantID : uuid) (name : string) : prog Role :=
  get_by "failed to get role by name" ErrRoleNotFound
    (fun r => (ro_TenantID r ==? tenantID) && (ro_Name r ==? name)).
Definition Update (r : Role) : prog Role := wrap "failed to update role" (Save r).
Definition Delete (tenantID roleID : uuid) : prog unit :=
  wrap "failed to delete role"
    (DeleteWhere (fun r => (ro_TenantID r ==? tenantID) && (ro_ID r ==? roleID))).
Definition List (tenantID : uuid) (limit offset : Z) : prog (list Role * Z) :=
  total ← wrap "failed to count roles" (Count (fun r => ro_TenantID r ==? tenantID));
  l ← wrap "failed to list roles"
        (FindPage (fun r => ro_TenantID r ==? tenantID)
           (fun a b => ro_CreatedAt b <=? ro_CreatedAt a) limit offset);
  mret (l, total).

(** Preload("Permissions.Permission"): the role's grants, each with its
    permission ([None]: soft-deleted), read by two further statements. *)
Definition GetWithPermissions (tenantID roleID : uuid)
    : prog (Role * list (RolePermission * option Permission)) :=
  role ← get_by "failed to get role with permissions" ErrRoleNotFound
    (fun r => (ro_TenantID r ==? tenantID) && (ro_ID r ==? roleID));
  grants ← wrap "failed to get role with permissions" (Find (fun g => rp_RoleID g ==? roleID));
  perms ← wrap "failed to get role with permissions"
    (Find (fun p => existsb (fun g => rp_PermissionID g ==? pm_ID p) grants));
  mret (role, map (fun g => (g, List.find (fun p => pm_ID p ==? rp_PermissionID g) perms)) grants).
End Methods.
End RoleRepo.

Module PermissionRepo.
Section Methods.
Context `{Env}.

Definition Create (p : Permission) : prog Permission := wrap "failed to create permission" (Insert p).
Definition GetByID (id : uuid) : prog Permission :=
  get_by "failed to get permission by ID" ErrPermissionNotFound (fun p => pm_ID p ==? id).
Definition GetByName (name : string) : prog Permission :=
  get_by "failed to get permission by name" ErrPermissionNotFound (fun p => pm_Name p ==? name).
Definition Update (p : Permission) : prog Permission := wrap "failed to update permission" (Save p).
Definition Delete (id : uuid) : prog unit :=
  wrap "failed to delete permission" (DeleteWhere (fun p => pm_ID p ==? id)).
Definition by_resource_action (a b : Permission) : bool :=
  String.ltb (pm_Resource a) (pm_Resource b)
  || ((pm_Resource a ==? pm_Resource b) && String.leb (pm_Action a) (pm_Action b)).
Definition List (limit offset : Z) : prog (list Permission * Z) :=
  total ← wrap "failed to count permissions" (Count (fun _ : Permission => true));
  l ← wrap "failed to list permissions"
        (FindPage (fun _ => true) by_resource_action limit offset);
  mret (l, total).
Definition GetByResource (resource : string) : prog (list Permission) :=
  wrap "failed to get permissions by resource"
    (FindPage (fun p => pm_Resource p ==? resource)
       (fun a b => String.leb (pm_Action a) (pm_Action b)) (-1) 0).
End Methods.
End PermissionRepo.

Module UserRoleRepo.
Section Methods.
Context `{Env}.

Definition Create (ur : UserRole) : prog UserRole := wrap "failed to create user role" (Insert ur).
Definition GetByID (tenantID userRoleID : uuid) : prog UserRole :=
  get_by "failed to get user role by ID" ErrRoleNotFound
    (fun x => (ur_TenantID x ==? tenantID) && (ur_ID x ==? userRoleID)).
Definition GetByUserAndRole (tenantID userID roleID : uuid) : prog UserRole :=
  get_by "failed to get user role" ErrRoleNotFound
    (fun x => (ur_TenantID x ==? tenantID) && (ur_UserID x ==? userID) && (ur_RoleID x ==? roleID)).
Definition Delete (tenantID userID roleID : uuid) : prog unit :=
  wrap "failed to delete user role"
    (DeleteWhere (fun x => (ur_TenantID x ==? tenantID) && (ur_UserID x ==? userID)
                           && (ur_RoleID x ==? roleID))).
Definition GetUserRoles (tenantID userID : uuid) : prog (list UserRole) :=
  wrap "failed to get user roles"
    (Find (fun x => (ur_TenantID x ==? tenantID) && (ur_UserID x ==? userID))).
Definition GetRoleUsers (tenantID roleID : uuid) : prog (list UserRole) :=
  wrap "failed to get role users"
    (Find (fun x => (ur_TenantID x ==? tenantID) && (ur_RoleID x ==? roleID))).
Definition DeleteExpired : prog unit :=
  now ← Now;
  wrap "failed to delete expired user roles"
    (DeleteWhere (fun x => match ur_ExpiresAt x with
                           | Some e => time_before e now | None => false end)).
End Methods.
End UserRoleRepo.

Module RolePermissionRepo.
Section Methods.
Context `{Env}.

Definition Create (g : RolePermission) : prog RolePermission :=
  wrap "failed to create role permission" (Insert g).
Definition GetByID (id : uuid) : prog RolePermission :=
  get_by "failed to get role permission by ID" ErrPermissionNotFound (fun g => rp_ID g ==? id).
Definition GetByRoleAndPermission (roleID permissionID : uuid) : prog RolePermission :=
  get_by "failed to get role permission" ErrPermissionNotFound
    (fun g => (rp_RoleID g ==? roleID) && (rp_PermissionID g ==? permissionID)).
Definition Delete (roleID permissionID : uuid) : prog unit :=
  wrap "failed to delete role permission"
    (DeleteWhere (fun g => (rp_RoleID g ==? roleID) && (rp_PermissionID g ==? permissionID))).
Definition GetRolePermissions (roleID : uuid) : prog (list RolePermission) :=
  wrap "failed to get role permissions" (Find (fun g => rp_RoleID g ==? roleID)).
Definition GetPermissionRoles (permissionID : uuid) : prog (list RolePermission) :=
  wrap "failed to get permission roles" (Find (fun g => rp_PermissionID g ==? permissionID)).
End Methods.
End RolePermissionRepo.

#[export] Hint Unfold
  RoleRepo.Create RoleRepo.GetByID RoleRepo.GetByName RoleRepo.Update RoleRepo.Delete
  RoleRepo.List RoleRepo.GetWithPermissions PermissionRepo.Create PermissionRepo.GetByID
  PermissionRepo.GetByName PermissionRepo.Update PermissionRepo.Delete PermissionRepo.List
  PermissionRepo.GetByResource UserRoleRepo.Create UserRoleRepo.GetByID
  UserRoleRepo.GetByUserAndRole UserRoleRepo.Delete UserRoleRepo.GetUserRoles
  UserRoleRepo.GetRoleUsers UserRoleRepo.DeleteExpired RolePermissionRepo.Create
  RolePermissionRepo.GetByID RolePermissionRepo.GetByRoleAndPermission RolePermissionRepo.Delete
  RolePermissionRepo.GetRolePermissions RolePermissionRepo.GetPermissionRoles : repos.
