(* ===== verification/AuditRepo.v ===== *)
(** The gorm repository of internal/repo/gorm/audit_log.go. *)
From S2P Require Import Prelude GoStd Models Effects Store Repos.

Open Scope Z_scope.

Module AuditLogRepo.
Section Methods.
Context `{Env}.

Definition Create (l : AuditLog) : prog AuditLog := wrap "failed to create audit log" (Insert l).

Definition GetByID (tenantID auditID : uuid) : prog AuditLog :=
  get_by "failed to get audit log by ID" ErrResourceNotFound
    (fun l => (al_TenantID l ==? tenantID) && (al_ID l ==? auditID)).

(** A filter that applies when its field is given. *)
Definition given {A} (o : option A) (p : A -> bool) : bool :=
  match o with Some a => p a | None => true end.
Definition given_string (s : string) (p : string -> bool) : bool :=
  if s !=? "" then p s else true.

(** applyFilters: a NULL column matches no equality. *)
Definition applyFilters (q : AuditLogQuery) (l : AuditLog) : bool :=
  (al_TenantID l ==? aq_TenantID q)
  && given (aq_UserID q) (fun u => al_UserID l ==? Some u)
  && given (aq_ClientID q) (fun c => al_ClientID l ==? Some c)
  && given (aq_Action q) (fun a => al_Action l ==? a)
  && given_string (aq_Resource q) (fun r => al_Resource l ==? r)
  && given (aq_ResourceID q) (fun r => al_ResourceID l ==? Some r)
  && given_string (aq_IPAddress q) (fun ip => al_IPAddress l ==? ip)
  && given (aq_Success q) (fun b => al_Success l ==? b)
  && given (aq_StartDate q) (fun t => t <=? al_CreatedAt l)
  && given (aq_EndDate q) (fun t => al_CreatedAt l <=? t).

Definition Query (q : AuditLogQuery) : prog (list AuditLog * Z) :=
  total ← wrap "failed to count audit logs" (Count (applyFilters q));
  l ← wrap "failed to query audit logs"
        (FindPage (applyFilters q) (fun a b => al_CreatedAt b <=? al_CreatedAt a)
           (aq_Limit q) (aq_Offset q));
  mret (l, total).

(** An AuditLogQuery with the given tenant and page and no filter. *)
Definition query (tenantID : uuid) (limit offset : Z) : AuditLogQuery :=
  MkAuditLogQuery tenantID None None None "" None "" None None None limit offset.

Definition GetUserActivity (tenantID userID : uuid) (limit offset : Z)
    : prog (list AuditLog * Z) :=
  Query ((query tenantID limit offset) <| aq_UserID := Some userID |>).

Definition GetResourceActivity (tenantID : uuid) (resource : string) (resourceID : uuid)
    (limit offset : Z) : prog (list AuditLog * Z) :=
  Query ((query tenantID limit offset) <| aq_Resource := resource |>
           <| aq_ResourceID := Some resourceID |>).

Definition DeleteOldLogs (olderThan : Z) : prog unit :=
  wrap "failed to delete old audit logs"
    (DeleteWhere (fun l => time_before (al_CreatedAt l) olderThan)).
End Methods.
End AuditLogRepo.

#[export] Hint Unfold
  AuditLogRepo.Create AuditLogRepo.GetByID AuditLogRepo.Query AuditLogRepo.GetUserActivity
  AuditLogRepo.GetResourceActivity AuditLogRepo.DeleteOldLogs : repos.
