(* ===== verification/Libraries.v ===== *)
(** The code outside src/ that the modelled services call, as parameters:
    google/uuid, golang-jwt, bcrypt and HKDF/AES-GCM. Each library is a class
    of functions; what a theorem relies on is a separate class of laws, which
    state what the library documents. The configuration record and the
    standard library's key types are here too. *)
From S2P Require Import Prelude GoStd Models Effects.

Open Scope Z_scope.

(** ** google/uuid *)

Class UuidLib := {
  uuid_String : uuid -> string;
  uuid_Parse : string -> option uuid
}.
(** Parse reads back what String writes. *)
Class UuidLaws `{UuidLib} := uuid_Parse_String : forall u, uuid_Parse (uuid_String u) = Some u.

Lemma uuid_String_inj `{UuidLaws} u v : uuid_String u = uuid_String v -> u = v.
Proof. intros E. apply (f_equal uuid_Parse) in E. rewrite !uuid_Parse_String in E. congruence. Qed.

(** ** golang-jwt *)

(** Go's key types: a byte slice or an RSA/ECDSA key. A private key carries
    its public half. *)
Inductive keyMaterial : Set :=
| Bytes (b : string)
| RSAPublic (N E : Z)
| RSAPrivate (N E D : Z)
| ECPublic (curve : string) (bitSize X Y : Z)
| ECPrivate (curve : string) (bitSize X Y D : Z).

#[export] Instance keyMaterial_eq_dec : EqDecision keyMaterial.
Proof. solve_decision. Defined.

(** jwt.Token: the headers the code reads ("" when absent or not a string),
    the algorithm of its Method and Valid. *)
Record Token := MkToken {
  tk_typ : string;
  tk_kid : string;
  tk_Alg : string;
  tk_Valid : bool
}.

(** The two claims types of internal/models that implement jwt.Claims. *)
Inductive Claims : Set := AccessClaims (c : JWTClaims) | IDClaims (c : IDTokenClaims).
Inductive ClaimsType : Set := JWTClaimsType | IDTokenClaimsType.
Definition claims_type (c : Claims) : ClaimsType :=
  match c with AccessClaims _ => JWTClaimsType | IDClaims _ => IDTokenClaimsType end.

(** The jwt.Claims methods of models.JWTClaims and models.IDTokenClaims. *)
Definition GetExpirationTime (c : Claims) : option Z :=
  match c with
  | AccessClaims c => if jc_Exp c =? 0 then None else Some (jc_Exp c * second)
  | IDClaims c => Some (ic_Exp c * second)
  end.
Definition GetIssuer (c : Claims) : string :=
  match c with AccessClaims c => jc_Iss c | IDClaims c => ic_Iss c end.
Definition GetAudience (c : Claims) : list string :=
  match c with AccessClaims c => [jc_Aud c] | IDClaims c => [ic_Aud c] end.

(** The parser options the code passes. *)
Record ParserOptions := MkParserOptions {
  po_ValidMethods : list string;
  po_Issuer : option string;
  po_Audience : option string;
  po_ExpirationRequired : bool;
  po_WithoutClaimsValidation : bool
}.

Class JwtLib := {
  (** SignedString, given the random bytes it may draw *)
  jwt_SignedString : option (nat -> Z) -> Token -> Claims -> keyMaterial -> string + error;
  (** ParseWithClaims, at the time it reads *)
  jwt_ParseWithClaims : Z -> ClaimsType -> ParserOptions -> (Token -> keyMaterial + error) ->
                        string -> (Token * Claims) + error;
  (** the signature check of the algorithm *)
  jwt_verify : string -> keyMaterial -> string -> bool
}.

(** What a successful ParseWithClaims has checked. *)
Record parsed_ok `{JwtLib} (now : Z) (ty : ClaimsType) (o : ParserOptions)
    (keyfunc : Token -> keyMaterial + error) (s : string) (t : Token) (c : Claims) : Prop := {
  parsed_method : tk_Alg t ∈ po_ValidMethods o;
  parsed_valid : tk_Valid t = true;
  (* keyfunc sees the token before it is marked valid *)
  parsed_signature : exists k, keyfunc (MkToken (tk_typ t) (tk_kid t) (tk_Alg t) false) = inl k
                     /\ jwt_verify (tk_Alg t) k s = true;
  parsed_type : claims_type c = ty;
  parsed_issuer : forall i, po_Issuer o = Some i -> po_WithoutClaimsValidation o = false ->
                  GetIssuer c = i;
  parsed_audience : forall a, po_Audience o = Some a -> po_WithoutClaimsValidation o = false ->
                    a ∈ GetAudience c;
  parsed_expiry : po_ExpirationRequired o = true -> po_WithoutClaimsValidation o = false ->
                  exists e, GetExpirationTime c = Some e /\ now < e
}.
Class JwtLaws `{JwtLib} :=
  jwt_parse_sound : forall now ty o keyfunc s t c,
    jwt_ParseWithClaims now ty o keyfunc s = inl (t, c) ->
    parsed_ok now ty o keyfunc s t c.

(** ** golang.org/x/crypto/bcrypt *)

Class BcryptLib := {
  bcrypt_Generate : option (nat -> Z) -> Z -> string -> string + error;
  bcrypt_Compare : string -> string -> bool
}.

(** ** hkdf (x/crypto) and AES-256-GCM *)

Class AeadLib := {
  (** the 32 bytes hkdf.New(sha256.New, secret, nil, info) yields *)
  hkdf_sha256 : string -> string -> string;
  aead_NonceSize : nat;
  aead_Seal : string -> string -> string -> string -> string;       (* key nonce plaintext aad *)
  aead_Open : string -> string -> string -> string -> option string (* key nonce sealed aad *)
}.
Class AeadLaws `{AeadLib} := {
  aead_Open_Seal : forall key nonce plain aad,
    aead_Open key nonce (aead_Seal key nonce plain aad) aad = Some plain;
  (** decryption checks the tag, which the other inputs determine *)
  aead_Seal_Open : forall key nonce sealed aad plain,
    aead_Open key nonce sealed aad = Some plain -> sealed = aead_Seal key nonce plain aad
}.

(** ** config.Config *)

Record Config := MkConfig {
  cfg_DatabaseURL : string;
  cfg_RedisURL : string;
  cfg_ServerURL : string;
  cfg_Port : string;
  cfg_GinMode : string;
  cfg_JWTSecret : string;
  cfg_JWTSigningAlg : string;
  cfg_JWTSigningKeyFile : string;
  cfg_MFAEncryptionKey : string;
  cfg_JWTVerificationKeyFiles : string;
  cfg_MetricsAddr : string;
  cfg_BcryptCost : Z;
  cfg_AccessTokenDuration : Z;
  cfg_RefreshTokenDuration : Z;
  cfg_IDTokenDuration : Z;
  cfg_SessionDuration : Z;
  cfg_AuthorizationCodeDuration : Z;
  cfg_DeviceCodeDuration : Z;
  cfg_DeviceCodePollInterval : Z;
  cfg_CORSAllowedOrigins : string;
  cfg_CORSAllowedMethods : string;
  cfg_CORSAllowedHeaders : string;
  cfg_RateLimitRequestsPerMinute : Z;
  cfg_RBACSuperAdminUserIDs : string;
  cfg_LogLevel : string;
  cfg_LogFormat : string;
  cfg_SMTPHost : string;
  cfg_SMTPPort : Z;
  cfg_SMTPUser : string;
  cfg_SMTPPassword : string;
  cfg_SMTPFrom : string;
  cfg_SMTPFromName : string;
  cfg_SMTPUseTLS : bool
}.
#[export] Instance eta_Config : Eta Config := fun r =>
  MkConfig (cfg_DatabaseURL r) (cfg_RedisURL r) (cfg_ServerURL r) (cfg_Port r) (cfg_GinMode r)
    (cfg_JWTSecret r) (cfg_JWTSigningAlg r) (cfg_JWTSigningKeyFile r) (cfg_MFAEncryptionKey r)
    (cfg_JWTVerificationKeyFiles r) (cfg_MetricsAddr r) (cfg_BcryptCost r)
    (cfg_AccessTokenDuration r) (cfg_RefreshTokenDuration r) (cfg_IDTokenDuration r)
    (cfg_SessionDuration r) (cfg_AuthorizationCodeDuration r) (cfg_DeviceCodeDuration r)
    (cfg_DeviceCodePollInterval r) (cfg_CORSAllowedOrigins r) (cfg_CORSAllowedMethods r)
    (cfg_CORSAllowedHeaders r) (cfg_RateLimitRequestsPerMinute r) (cfg_RBACSuperAdminUserIDs r)
    (cfg_LogLevel r) (cfg_LogFormat r) (cfg_SMTPHost r) (cfg_SMTPPort r) (cfg_SMTPUser r)
    (cfg_SMTPPassword r) (cfg_SMTPFrom r) (cfg_SMTPFromName r) (cfg_SMTPUseTLS r).

(** The random bytes a library draws. *)
Definition WithRandom `{Env} {A : Set} (f : option (nat -> Z) -> A) : prog A :=
  Step (fun w => (tick w, f (env_rand (w_step w)))) mret.

Lemma wp_WithRandom `{Env} {A : Set} (f : option (nat -> Z) -> A) Q w :
  wp (WithRandom f) Q w <-> Q (Ok (f (env_rand (w_step w)))) (tick w).
Proof. done. Qed.
#[export] Hint Rewrite @wp_WithRandom : wp.

(** [x, err := call]: a library's error is returned. *)
Definition from_sum {A} (r : A + error) : prog A :=
  match r with inl a => mret a | inr e => throw e end.

Lemma ok_WithRandom `{Env} {A : Set} (f : option (nat -> Z) -> A) w w' a :
  run (WithRandom f) w = (w', Ok a) <-> w' = tick w /\ a = f (env_rand (w_step w)).
Proof. unfold WithRandom, run. simpl. split; [by intros [= <- <-] | by intros [-> ->]]. Qed.

Lemma ok_from_sum {A} (r : A + error) w w' a :
  run (from_sum r) w = (w', Ok a) <-> w' = w /\ r = inl a.
Proof. destruct r; unfold run; simpl; naive_solver. Qed.
#[export] Hint Rewrite @ok_WithRandom @ok_from_sum : ok.
