(* ===== verification/EmailRepos.v ===== *)
(** The gorm repositories of email templates and of the outgoing queue
    (internal/repo/gorm/email.go). The claim of due emails is one statement,
    as in the code, so it is atomic whatever other workers do. *)
From S2P Require Import Prelude GoStd Models Effects Store Repos.
From stdpp Require Import gmap.

Open Scope Z_scope.

Definition emailStatusPending : string := "pending".
Definition emailStatusSending : string := "sending".
Definition emailStatusFailed : string := "failed".
Definition staleSendingAfter : Z := 10 * minute.

Module EmailTemplateRepo.
Section Methods.
Context `{Env}.

Definition named (tenantID : uuid) (name : string) (t : EmailTemplate) : bool :=
  (et_TenantID t ==? tenantID) && (et_Name t ==? name).

Definition Create (t : EmailTemplate) : prog EmailTemplate :=
  wrap "failed to create email template" (Store.Insert t).
Definition GetByName (tenantID : uuid) (name : string) : prog EmailTemplate :=
  get_by "failed to get email template" ErrResourceNotFound (named tenantID name).
Definition Update (t : EmailTemplate) : prog EmailTemplate :=
  wrap "failed to update email template" (Save t).
Definition Delete (tenantID : uuid) (name : string) : prog unit :=
  wrap "failed to delete email template" (DeleteWhere (named tenantID name)).
Definition List (tenantID : uuid) (limit offset : Z) : prog (list EmailTemplate * Z) :=
  total ← wrap "failed to count email templates" (Count (fun t => et_TenantID t ==? tenantID));
  l ← wrap "failed to list email templates"
        (FindPage (fun t => et_TenantID t ==? tenantID)
           (fun a b => String.leb (et_Name a) (et_Name b)) limit offset);
  mret (l, total).
End Methods.
End EmailTemplateRepo.

Module EmailQueueRepo.
(** The rows GetPendingEmails may claim at [now]. *)
Definition due (now : Z) (e : EmailQueue) : bool :=
  ((eq_Status e ==? emailStatusPending) && (eq_ScheduledAt e <=? now))
  || ((eq_Status e ==? emailStatusSending) && (eq_UpdatedAt e <? now - staleSendingAfter)).
(** ORDER BY priority, scheduled_at *)
Definition by_priority (a b : EmailQueue) : bool :=
  (eq_Priority a <? eq_Priority b)
  || ((eq_Priority a =? eq_Priority b) && (eq_ScheduledAt a <=? eq_ScheduledAt b)).
(** SELECT id ... LIMIT: the IDs of the inner query. *)
Definition selected (now limit : Z) (l : list EmailQueue) : list uuid :=
  map eq_ID (take (Z.to_nat limit) (sort_rows by_priority (select_where (due now) l))).
Definition claim (now : Z) (e : EmailQueue) : EmailQueue :=
  e <| eq_Status := emailStatusSending |> <| eq_UpdatedAt := now |>.
(** The UPDATE: the table it leaves and the rows it returns. *)
Definition claim_due (now limit : Z) (l : list EmailQueue) : list EmailQueue * list EmailQueue :=
  update_where (fun e => existsb (fun id => id ==? eq_ID e) (selected now limit l)) (claim now) l.

Section Methods.
Context `{Env}.

Definition Create (e : EmailQueue) : prog EmailQueue := wrap "failed to queue email" (Store.Insert e).
Definition GetByID (tenantID emailID : uuid) : prog EmailQueue :=
  get_by "failed to get email" ErrResourceNotFound
    (fun e => (eq_TenantID e ==? tenantID) && (eq_ID e ==? emailID)).
Definition GetPendingEmails (limit : Z) : prog (list EmailQueue) :=
  now ← Now;
  wrap "failed to claim pending emails"
    (Stmt (fun _ db => let r := claim_due now limit (rows db) in (set_rows r.1 db, r.2))).
Definition Update (e : EmailQueue) : prog EmailQueue := wrap "failed to update email" (Save e).
Definition Delete (tenantID emailID : uuid) : prog unit :=
  wrap "failed to delete email"
    (DeleteWhere (fun e => (eq_TenantID e ==? tenantID) && (eq_ID e ==? emailID))).

(** SELECT status, COUNT of the rows ... GROUP BY status *)
Definition group_by_status (l : list EmailQueue) : list (string * Z) :=
  map (fun st => (st, Z.of_nat (length (filter (fun e => eq_Status e = st) l))))
    (remove_dups (map eq_Status l)).
Definition GetQueueStatus (tenantID : uuid) : prog (gmap string Z) :=
  found ← wrap "failed to get email queue status"
    (Stmt (fun _ db => (db, group_by_status
                              (select_where (fun e => eq_TenantID e ==? tenantID) (rows db)))));
  mret (foldl (fun status row => <[row.1 := row.2]> status) ∅ found).
Definition GetFailedEmails (tenantID : uuid) (maxAttempts : Z) : prog (list EmailQueue) :=
  wrap "failed to get failed emails"
    (Find (fun e => (eq_TenantID e ==? tenantID) && (eq_Status e ==? emailStatusFailed)
                    && (eq_Attempts e <? maxAttempts))).
End Methods.
End EmailQueueRepo.

#[export] Hint Unfold
  EmailTemplateRepo.Create EmailTemplateRepo.GetByName EmailTemplateRepo.Update
  EmailTemplateRepo.Delete EmailTemplateRepo.List EmailQueueRepo.Create EmailQueueRepo.GetByID
  EmailQueueRepo.GetPendingEmails EmailQueueRepo.Update EmailQueueRepo.Delete
  EmailQueueRepo.GetQueueStatus EmailQueueRepo.GetFailedEmails : repos.
