(* ===== verification/EmailService.v ===== *)
(** internal/services/email_service_impl.go and email_templates_default.go:
    templates, the outgoing queue and its worker, SMTP delivery and the MIME
    message. Log lines and metrics are left out. *)
From S2P Require Import Prelude GoStd Models Effects Store Repos EmailRepos Libraries.
From stdpp Require Import gmap.
From Stdlib Require Import Ascii String.

Open Scope Z_scope.

(** ** What the service calls *)

(** The order in which `range` visits a map, per step: Go leaves it open. A
    map is given as the list of its entries. *)
Class MapOrder := map_range : nat -> list (string * string) -> list (string * string).
Class MapOrderLaws `{MapOrder} := map_range_perm : forall n m, map_range n m ≡ₚ m.

(** One exchange with the SMTP server through crypto/tls and net/smtp. *)
Inductive smtpCommand : Set :=
| TLSDial (addr serverName : string)
| NewClient (host : string)
| SmtpDial (addr : string)
| StartTLS (serverName : string)
| SmtpAuth (user password host : string)
| Mail (from : string)
| Rcpt (to : string)
| Data
| Write (body : string)
| CloseData
| SmtpQuit.

(** The outcome of an exchange at a step, and whether the server offers
    STARTTLS. *)
Class SmtpServer := {
  smtp_answer : nat -> smtpCommand -> option error;
  smtp_STARTTLS : nat -> bool
}.

(** mime.QEncoding.Encode of the charset utf-8. *)
Class MimeLib := QEncode : string -> string.

(** ** Templates *)

Definition dquote : string := String (ascii_of_N 34) EmptyString.
Definition newline : string := String (ascii_of_N 10) EmptyString.
Definition CRLF : string := String (ascii_of_N 13) (String (ascii_of_N 10) EmptyString).

(** An entry of defaultEmailTemplates; the fields it leaves out are zero. *)
Definition default_template (name subject text body : string) (variables : list string)
    : EmailTemplate :=
  MkEmailTemplate uuid_Nil uuid_Nil name subject body text variables true time_zero time_zero None.
Definition paragraph (s : string) : string := "<p>" +:+ s +:+ "</p>".
Definition link (href text : string) : string :=
  "<a href=" +:+ dquote +:+ href +:+ dquote +:+ ">" +:+ text +:+ "</a>".
Definition blank_line : string := newline +:+ newline.

Definition defaultEmailTemplates (name : string) : option EmailTemplate :=
  if name ==? "email_verification" then
    let expires := "The link expires in {{expires_hours}} hours. If you did not create an account, ignore this email." in
    Some (default_template "email_verification" "Verify your email address"
      ("Hi {{user_name}}," +:+ blank_line +:+
       "Confirm your email address by opening this link:" +:+ blank_line +:+
       "{{verification_link}}" +:+ blank_line +:+ expires +:+ newline)
      (paragraph "Hi {{user_name}}," +:+
       paragraph "Confirm your email address by opening this link:" +:+
       paragraph (link "{{verification_link}}" "Verify email address") +:+ paragraph expires)
      ["user_name"; "verification_link"; "expires_hours"])
  else if name ==? "password_reset" then
    let asked := "Someone asked to reset the password for your account. To choose a new password, open this link:" in
    let expires := "The link expires in {{expires_minutes}} minutes and works once. If you did not ask for this, ignore this email; your password is unchanged." in
    Some (default_template "password_reset" "Reset your password"
      ("Hi {{user_name}}," +:+ blank_line +:+ asked +:+ blank_line +:+
       "{{reset_link}}" +:+ blank_line +:+ expires +:+ newline)
      (paragraph "Hi {{user_name}}," +:+ paragraph asked +:+
       paragraph (link "{{reset_link}}" "Reset password") +:+ paragraph expires)
      ["user_name"; "reset_link"; "expires_minutes"])
  else if name ==? "password_changed" then
    let changed := "The password for your account was just changed." in
    let notYou := "If this was not you, reset your password immediately and contact your administrator." in
    Some (default_template "password_changed" "Your password was changed"
      ("Hi {{user_name}}," +:+ blank_line +:+ changed +:+ " " +:+ notYou +:+ newline)
      (paragraph "Hi {{user_name}}," +:+ paragraph changed +:+ paragraph notYou)
      ["user_name"])
  else None.

Definition placeholder (key : string) : string := "{{" +:+ key +:+ "}}".

(** processTemplate, given the order in which it visits the variables. *)
Definition processTemplate (template : string) (variables : list (string * string))
    (escape : option (string -> string)) : string :=
  foldl (fun result kv =>
           let value := match escape with Some f => f kv.2 | None => kv.2 end in
           ReplaceAll result (placeholder kv.1) value) template variables.

(** CR and LF become spaces. *)
Definition sanitizeHeader (value : string) : string :=
  string_map (fun c => if (byte_val c =? 13) || (byte_val c =? 10) then " "%char else c) value.

(** ** The MIME message *)

Definition header_line (name value : string) : string := name +:+ ": " +:+ value +:+ CRLF.
Definition mime_part (boundary contentType body : string) : string :=
  if body ==? "" then ""
  else "--" +:+ boundary +:+ CRLF +:+
       header_line "Content-Type" (contentType +:+ "; charset=" +:+ dquote +:+ "utf-8" +:+ dquote) +:+
       CRLF +:+ body +:+ CRLF.
Definition mime_message `{MimeLib} (boundary from to subject bodyHTML bodyText : string) : string :=
  header_line "From" (sanitizeHeader from) +:+
  header_line "To" (sanitizeHeader to) +:+
  header_line "Subject" (QEncode (sanitizeHeader subject)) +:+
  header_line "MIME-Version" "1.0" +:+
  header_line "Content-Type" ("multipart/alternative; boundary=" +:+ dquote +:+ boundary +:+ dquote) +:+
  CRLF +:+
  mime_part boundary "text/plain" bodyText +:+
  mime_part boundary "text/html" bodyHTML +:+
  "--" +:+ boundary +:+ "--" +:+ CRLF.

(** models.SendEmailRequest *)
Record SendEmailRequest := MkSendEmailRequest {
  se_ToEmail : string;
  se_ToName : string;
  se_Template : string;
  se_Variables : list (string * string);
  se_Priority : Z
}.

Section Service.
Context `{Env} `{MapOrder} `{SmtpServer} `{MimeLib} (cfg : Config).

Definition buildMIMEMessage (from to subject bodyHTML bodyText : string) : prog string :=
  now ← Now;
  mret (mime_message ("ShieldGate_" +:+ format_int now) from to subject bodyHTML bodyText).

(** ** SMTP *)

Definition smtp (c : smtpCommand) : prog unit :=
  Step (fun w => (tick w, smtp_answer (w_step w) c))
       (fun e => match e with Some e => throw e | None => mret tt end).
Definition Extension_STARTTLS : prog bool :=
  Step (fun w => (tick w, smtp_STARTTLS (w_step w))) mret.
(** w.Close(): the final dot. The server has the message when it accepts it. *)
Definition close_data (from to body : string) (written : bool) : prog unit :=
  Step (fun w =>
          let answer := smtp_answer (w_step w) CloseData in
          (match answer with
           | None => if written then tick w <| w_outbox := w_outbox w ++ [(from, to, body)] |>
                     else tick w
           | Some _ => tick w
           end, answer))
       (fun e => match e with Some e => throw e | None => mret tt end).

(** [defer cleanup] around [p], the result of cleanup being discarded. *)
Definition deferring {A} (cleanup : prog unit) (p : prog A) : prog A :=
  r ← attempt p; ignore cleanup ;; from_sum r.

(** w.Write(body), with w.Close() deferred. *)
Definition write_body (from to body : string) : prog unit :=
  r ← attempt (smtp (Write body));
  ignore (close_data from to body (match r with inl _ => true | inr _ => false end)) ;;
  from_sum r.

Definition smtp_auth (host : string) : prog unit :=
  if cfg_SMTPUser cfg !=? "" then
    wrap "SMTP auth failed" (smtp (SmtpAuth (cfg_SMTPUser cfg) (cfg_SMTPPassword cfg) host))
  else mret tt.

(** From authentication to the end of the message, on a connected client. *)
Definition smtp_session (host toEmail body : string) : prog unit :=
  smtp_auth host ;;
  wrap "SMTP MAIL FROM failed" (smtp (Mail (cfg_SMTPFrom cfg))) ;;
  wrap "SMTP RCPT TO failed" (smtp (Rcpt toEmail)) ;;
  wrap "SMTP DATA failed" (smtp Data) ;;
  write_body (cfg_SMTPFrom cfg) toEmail body.

Definition address (name email : string) : string := name +:+ " <" +:+ email +:+ ">".

Definition sendViaSMTP (email : EmailQueue) : prog unit :=
  let host := cfg_SMTPHost cfg in
  if host ==? "" then mret tt
  else
  let addr := host +:+ ":" +:+ format_int (cfg_SMTPPort cfg) in
  let from := address (cfg_SMTPFromName cfg) (cfg_SMTPFrom cfg) in
  let to := if eq_ToName email !=? "" then address (eq_ToName email) (eq_ToEmail email)
            else eq_ToEmail email in
  body ← buildMIMEMessage from to (eq_Subject email) (eq_BodyHTML email) (eq_BodyText email);
  if cfg_SMTPUseTLS cfg then
    wrap "TLS dial failed" (smtp (TLSDial addr host)) ;;
    wrap "SMTP client creation failed" (smtp (NewClient host)) ;;
    deferring (smtp SmtpQuit) (smtp_session host (eq_ToEmail email) body)
  else
    wrap "SMTP dial failed" (smtp (SmtpDial addr)) ;;
    deferring (smtp SmtpQuit) (
      offered ← Extension_STARTTLS;
      (if offered : bool then wrap "STARTTLS failed" (smtp (StartTLS host)) else mret tt) ;;
      smtp_session host (eq_ToEmail email) body).

(** ** Templates of a tenant *)

Definition CreateTemplate (tenantID : uuid) (template : EmailTemplate) : prog EmailTemplate :=
  id ← NewUUID;
  createdAt ← Now;
  updatedAt ← Now;
  wrap "failed to create email template"
    (EmailTemplateRepo.Create (template <| et_ID := id |> <| et_TenantID := tenantID |>
                                 <| et_CreatedAt := createdAt |> <| et_UpdatedAt := updatedAt |>)).

Definition GetTemplate (tenantID : uuid) (name : string) : prog EmailTemplate :=
  wrap "failed to get email template" (EmailTemplateRepo.GetByName tenantID name).

Definition UpdateTemplate (tenantID : uuid) (name : string) (template : EmailTemplate) : prog unit :=
  existing ← wrap "failed to get existing template" (EmailTemplateRepo.GetByName tenantID name);
  now ← Now;
  wrap "failed to update email template"
    (EmailTemplateRepo.Update
       (existing <| et_Subject := et_Subject template |> <| et_BodyHTML := et_BodyHTML template |>
          <| et_BodyText := et_BodyText template |> <| et_Variables := et_Variables template |>
          <| et_IsActive := et_IsActive template |> <| et_UpdatedAt := now |>)) ;;
  mret tt.

Definition DeleteTemplate (tenantID : uuid) (name : string) : prog unit :=
  wrap "failed to delete email template" (EmailTemplateRepo.Delete tenantID name).

Definition ListTemplates (tenantID : uuid) (limit offset : Z)
    : prog (PaginatedResponse EmailTemplate) :=
  page ← wrap "failed to list email templates" (EmailTemplateRepo.List tenantID limit offset);
  mret (NewPaginatedResponse page.1 limit offset page.2).

(** ** The queue *)

(** processTemplate on a map: the variables come in some order. *)
Definition render (template : string) (variables : list (string * string))
    (escape : option (string -> string)) : prog string :=
  order ← Step (fun w => (tick w, map_range (w_step w) variables)) mret;
  mret (processTemplate template order escape).

(** The template an email is rendered from. *)
Definition find_template (tenantID : uuid) (name : string) : prog EmailTemplate :=
  template ← attempt (EmailTemplateRepo.GetByName tenantID name);
  match template with
  | inl template => mret template
  | inr err =>
    match (if errors_Is err ErrResourceNotFound then defaultEmailTemplates name else None) with
    | Some fallback => mret fallback
    | None => throw (EWrap "failed to get email template" err)
    end
  end.

Definition SendEmail (tenantID : uuid) (req : SendEmailRequest) : prog unit :=
  template ← find_template tenantID (se_Template req);
  if negb (et_IsActive template) then throw (EMessage "email template is not active")
  else
  subject ← render (et_Subject template) (se_Variables req) None;
  bodyHTML ← render (et_BodyHTML template) (se_Variables req) (Some EscapeString);
  bodyText ← render (et_BodyText template) (se_Variables req) None;
  id ← NewUUID;
  scheduledAt ← Now;
  createdAt ← Now;
  updatedAt ← Now;
  wrap "failed to queue email" (EmailQueueRepo.Create {|
    eq_ID := id; eq_TenantID := tenantID; eq_UserID := None; eq_ToEmail := se_ToEmail req;
    eq_ToName := se_ToName req; eq_FromEmail := cfg_SMTPFrom cfg;
    eq_FromName := cfg_SMTPFromName cfg; eq_Subject := sanitizeHeader subject;
    eq_BodyHTML := bodyHTML; eq_BodyText := bodyText; eq_Status := "pending";
    eq_Priority := if se_Priority req <=? 0 then 5 else se_Priority req;
    eq_Attempts := 0; eq_MaxAttempts := 3; eq_LastError := ""; eq_ScheduledAt := scheduledAt;
    eq_SentAt := None; eq_CreatedAt := createdAt; eq_UpdatedAt := updatedAt |}) ;;
  mret tt.

Definition SendTemplateEmail (tenantID : uuid) (toEmail toName templateName : string)
    (variables : list (string * string)) (priority : Z) : prog unit :=
  SendEmail tenantID (MkSendEmailRequest toEmail toName templateName variables priority).

(** time.Minute << n: a negative count panics. *)
Definition backoff (n : Z) : option Z :=
  if n <? 0 then None else Some (wrap64 (Z.shiftl minute n)).

Definition processEmail (email : EmailQueue) : prog unit :=
  updatedAt ← Now;
  let email := email <| eq_Attempts := wrap64 (eq_Attempts email + 1) |>
                     <| eq_UpdatedAt := updatedAt |> in
  sent ← attempt (sendViaSMTP email);
  match sent with
  | inr err =>
    let email := email <| eq_LastError := error_text err |> in
    email ←
      (if eq_Attempts email <? eq_MaxAttempts email then
         now ← Now;
         delay ← or_panic (backoff (eq_Attempts email - 1));
         mret (email <| eq_Status := "pending" |> <| eq_ScheduledAt := now + delay |>)
       else mret (email <| eq_Status := "failed" |>));
    ignore (EmailQueueRepo.Update email) ;;
    throw (EWrap "SMTP send failed" err)
  | inl _ =>
    now ← Now;
    wrap "failed to update email status"
      (EmailQueueRepo.Update (email <| eq_Status := "sent" |> <| eq_SentAt := Some now |>
                                <| eq_BodyHTML := "" |> <| eq_BodyText := "" |>)) ;;
    mret tt
  end.

Fixpoint process_all (emails : list EmailQueue) : prog unit :=
  match emails with
  | [] => mret tt
  | email :: emails => ignore (processEmail email) ;; process_all emails
  end.
Definition ProcessQueue : prog unit :=
  emails ← wrap "failed to get pending emails" (EmailQueueRepo.GetPendingEmails 100);
  process_all emails.

Definition GetQueueStatus (tenantID : uuid) : prog (gmap string Z) :=
  wrap "failed to get queue status" (EmailQueueRepo.GetQueueStatus tenantID).

Fixpoint reset_all (emails : list EmailQueue) : prog unit :=
  match emails with
  | [] => mret tt
  | email :: emails =>
    scheduledAt ← Now;
    updatedAt ← Now;
    ignore (EmailQueueRepo.Update
              (email <| eq_Status := "pending" |> <| eq_ScheduledAt := scheduledAt |>
                     <| eq_LastError := "" |> <| eq_UpdatedAt := updatedAt |>)) ;;
    reset_all emails
  end.
Definition RetryFailedEmails (tenantID : uuid) (maxAttempts : Z) : prog unit :=
  failedEmails ← wrap "failed to get failed emails"
    (EmailQueueRepo.GetFailedEmails tenantID maxAttempts);
  reset_all failedEmails.
End Service.
