(* ===== verification/Frame.v ===== *)
(** What an operation leaves alone. [keeps f p]: whatever the outcome, [p]
    ends with the same [f] of the database (one of its tables, usually). *)
From S2P Require Import Prelude GoStd Models Effects Store Repos AccountRepos RbacRepos AuditRepo Libraries.

Open Scope Z_scope.

(** [f] does not look at the table of [R]. *)
Class Ignores {X : Type} (f : DB -> X) (R : Set) `{Table R} : Prop :=
  ignores : forall l db, f (set_rows l db) = f db.
#[export] Hint Mode Ignores - - + - : typeclass_instances.
#[export] Hint Extern 1 (Ignores _ _) => (intros ? ?; reflexivity) : typeclass_instances.

Section Keeps.
Context {X : Type} (f : DB -> X).

Definition keeps {A} (p : prog A) : Prop :=
  forall w w' o, run p w = (w', o) -> f (w_db w') = f (w_db w).

Lemma keeps_done {A} (o : outcome A) : keeps (Done o).
Proof. by intros w w' o' [= <- _]. Qed.
Lemma keeps_step {A} {Y : Set} (act : World -> World * Y) (k : Y -> prog A) :
  (forall w, f (w_db (act w).1) = f (w_db w)) -> (forall y, keeps (k y)) -> keeps (Step act k).
Proof.
  intros Ha Hk w w' o E. rewrite <-(Ha w). unfold run in E; fold (@run A) in E.
  destruct (act w) as [w1 y]. exact (Hk y _ _ _ E).
Qed.

Section Programs.
Context {A : Type}.
Implicit Types p : prog A.

Lemma keeps_ret (a : A) : keeps (mret a).
Proof. apply keeps_done. Qed.
Lemma keeps_throw e : keeps (throw (A := A) e).
Proof. apply keeps_done. Qed.
Lemma keeps_panic : keeps (panic : prog A).
Proof. apply keeps_done. Qed.
Lemma keeps_from_opt e (o : option A) : keeps (from_opt e o).
Proof. by destruct o; apply keeps_done. Qed.
Lemma keeps_or_panic (o : option A) : keeps (or_panic o).
Proof. by destruct o; apply keeps_done. Qed.
Lemma keeps_from_sum (r : A + error) : keeps (from_sum r).
Proof. destruct r; apply keeps_done. Qed.
Lemma keeps_bind {B} (q : prog B) (g : B -> prog A) :
  keeps q -> (forall b, keeps (g b)) -> keeps (q ≫= g).
Proof.
  intros Hq Hg w w' o. rewrite run_bind. destruct (run q w) as [w1 [b|e|]] eqn:E;
    apply Hq in E; [|by intros [= <- <-]..].
  intros E'%Hg. congruence.
Qed.
Lemma keeps_attempt p : keeps p -> keeps (attempt p).
Proof.
  intros Hp w w' o. rewrite run_attempt. destruct (run p w) as [w1 [b|e|]] eqn:E;
    apply Hp in E; by intros [= <- <-].
Qed.
Lemma keeps_map_err g p : keeps p -> keeps (map_err g p).
Proof.
  intros Hp w w' o. rewrite run_map_err. destruct (run p w) as [w1 [b|e|]] eqn:E;
    apply Hp in E; by intros [= <- <-].
Qed.
Lemma keeps_wrap msg p : keeps p -> keeps (wrap msg p).
Proof. apply keeps_map_err. Qed.
Lemma keeps_or_err e p : keeps p -> keeps (or_err e p).
Proof. apply keeps_map_err. Qed.
Lemma keeps_ignore p : keeps p -> keeps (ignore p).
Proof.
  intros Hp w w' o. rewrite run_ignore. destruct (run p w) as [w1 [b|e|]] eqn:E;
    apply Hp in E; by intros [= <- <-].
Qed.
Lemma keeps_transaction {B : Set} (p : prog B) : keeps p -> keeps (Transaction p).
Proof.
  intros Hp w w' o. rewrite run_transaction. destruct (run p w) as [w1 [b|e|]] eqn:E;
    apply Hp in E; by intros [= <- <-].
Qed.
End Programs.

(** An operation keeps what it keeps in every successful run of a prefix. *)
Lemma keeps_ok {A} (p : prog A) w w' o : keeps p -> run p w = (w', o) -> f (w_db w') = f (w_db w).
Proof. intros Hp E. exact (Hp _ _ _ E). Qed.

Section Steps.
Context `{Env}.
Lemma keeps_Now : keeps Now.
Proof. by intros w w' o [= <- _]. Qed.
Lemma keeps_NewUUID : keeps NewUUID.
Proof. by intros w w' o [= <- _]. Qed.
Lemma keeps_RandRead n : keeps (RandRead n).
Proof. apply keeps_step; [done|]. intros []; apply keeps_done. Qed.
Lemma keeps_RandInt n : keeps (RandInt n).
Proof. apply keeps_step; [done|]. intros []; apply keeps_done. Qed.
Lemma keeps_WithRandom {Y : Set} (g : option (nat -> Z) -> Y) : keeps (WithRandom g).
Proof. apply keeps_step; [done|]. intros; apply keeps_done. Qed.
Lemma keeps_EmitEvent ev : keeps (EmitEvent ev).
Proof. by intros w w' o [= <- _]. Qed.

Context {R : Set} `{Table R} `{!Row R}.
Implicit Types p : R -> bool.

Lemma keeps_First p : keeps (First p).
Proof. intros w w' o. unfold First. rewrite run_Stmt. by destruct (env_fault _); intros [= <- _]. Qed.
Lemma keeps_Find p : keeps (Find p).
Proof. intros w w' o. unfold Find. rewrite run_Stmt. by destruct (env_fault _); intros [= <- _]. Qed.
Lemma keeps_Count p : keeps (Count p).
Proof. intros w w' o. unfold Count. rewrite run_Stmt. by destruct (env_fault _); intros [= <- _]. Qed.
Lemma keeps_get_by msg nf p : keeps (get_by msg nf p).
Proof. apply keeps_bind; [apply keeps_wrap, keeps_First|intros; apply keeps_from_opt]. Qed.

End Steps.

(** Writes to another table. *)
Section Writes.
Context `{Env} {R : Set} `{Table R} `{!Row R} `{!Ignores f R}.
Implicit Types p : R -> bool.

Lemma keeps_write {Y : Set} (g : Z -> list R -> option (list R * Y)) : keeps (write g).
Proof using Type*.
  intros w w' o. rewrite run_write. destruct (env_fault _); [by intros [= <- _]|].
  destruct (g _ _) as [[l y]|]; intros [= <- _]; [apply ignores|done].
Qed.
Lemma keeps_Insert (r : R) : keeps (Insert r).
Proof using Type*. by apply keeps_write. Qed.
Lemma keeps_Save (r : R) : keeps (Save r).
Proof using Type*. by apply keeps_write. Qed.
Lemma keeps_UpdateWhere p g : keeps (UpdateWhere p g).
Proof using Type*.
  intros w w' o. unfold UpdateWhere. rewrite run_Stmt.
  destruct (env_fault _); intros [= <- _]; [done|apply ignores].
Qed.
Lemma keeps_UpdateRaw p g : keeps (UpdateRaw p g).
Proof using Type*.
  intros w w' o. unfold UpdateRaw. rewrite run_Stmt.
  destruct (env_fault _); intros [= <- _]; [done|apply ignores].
Qed.
Lemma keeps_DeleteWhere p : keeps (DeleteWhere p).
Proof using Type*.
  intros w w' o. unfold DeleteWhere. rewrite run_Stmt.
  destruct (env_fault _); intros [= <- _]; [done|apply ignores].
Qed.
End Writes.
End Keeps.

Create HintDb keeps.
#[export] Hint Resolve keeps_ret keeps_throw keeps_panic keeps_from_opt keeps_or_panic
  keeps_from_sum keeps_Now keeps_NewUUID keeps_RandRead keeps_RandInt keeps_WithRandom keeps_EmitEvent
  keeps_First keeps_Find keeps_Count keeps_get_by : keeps.

(** Follow the program to its steps. *)
Ltac keeps_step :=
  match goal with
  | |- keeps _ (mbind _ _) => refine (keeps_bind _ _ _ _ _); [|intros ?]
  | |- keeps _ (attempt _) => apply keeps_attempt
  | |- keeps _ (wrap _ _) => apply keeps_wrap
  | |- keeps _ (or_err _ _) => apply keeps_or_err
  | |- keeps _ (map_err _ _) => apply keeps_map_err
  | |- keeps _ (Transaction _) => apply keeps_transaction
  | |- keeps _ (ignore _) => apply keeps_ignore
  | |- keeps _ (let _ := _ in _) => cbv zeta
  | |- keeps _ (match ?b with _ => _ end) => destruct b
  | |- keeps _ (write _) => apply keeps_write; apply _
  | |- keeps _ (Insert _) => apply keeps_Insert; apply _
  | |- keeps _ (Save _) => apply keeps_Save; apply _
  | |- keeps _ (UpdateWhere _ _) => apply keeps_UpdateWhere; apply _
  | |- keeps _ (UpdateRaw _ _) => apply keeps_UpdateRaw; apply _
  | |- keeps _ (DeleteWhere _) => apply keeps_DeleteWhere; apply _
  | |- keeps _ _ => solve [eauto with keeps]
  end.
Ltac keeps := repeat keeps_step.
