(* ===== verification/SenderSpec.v ===== *)
(** What the sender of account emails does that the server wires
    (Routes.emailService, EmailService.SendTemplateEmail): it queues one row
    or none, and touches nothing but the email queue. *)
From S2P Require Import Prelude GoStd Models Effects Store Repos Libraries Config EmailRepos.
From S2P Require Import EmailService Frame.

Open Scope Z_scope.

Section Sender.
Context `{Env} `{MapOrder} (cfg : Config).

(** A row waiting to be sent for the first time. *)
Definition queued_for (t : uuid) (toEmail toName : string) (e : EmailQueue) : Prop :=
  eq_TenantID e = t /\ eq_ToEmail e = toEmail /\ eq_ToName e = toName /\
  eq_Status e = "pending" /\ eq_Attempts e = 0 /\ eq_SentAt e = None.
(** [w'] has the queue of [w] with one more row, or the same queue. *)
Definition one_queued (t : uuid) (toEmail toName : string) (w w' : World) : Prop :=
  exists e, queued_for t toEmail toName e /\
    w_db w' = (w_db w) <| db_emailQueue := db_emailQueue (w_db w) ++ [e] |>.
Definition none_queued (w w' : World) : Prop := w_db w' = w_db w.

(** The template an email of the tenant is rendered from is active: the
    stored one when there is one, the built-in one otherwise. *)
Definition template_active (t : uuid) (name : string) (db : DB) : bool :=
  match first_where (EmailTemplateRepo.named t name) (db_emailTemplates db) with
  | Some template => et_IsActive template
  | None => true
  end.

(** No queued email has an identifier that is yet to be drawn. *)
Definition queue_fresh (w : World) : Prop :=
  forall e n, e ∈ db_emailQueue (w_db w) -> (w_step w <= n)%nat -> eq_ID e <> env_uuid n.

Lemma run_render template variables escape w :
  run (render template variables escape) w =
  (tick w, Ok (processTemplate template (map_range (w_step w) variables) escape)).
Proof. done. Qed.

Lemma keeps_render {X} (f : DB -> X) template variables escape :
  keeps f (render template variables escape).
Proof. by intros w w' o [= <- _]. Qed.
Lemma keeps_find_template {X} (f : DB -> X) t name : keeps f (find_template t name).
Proof. unfold find_template, EmailTemplateRepo.GetByName. keeps. Qed.

(** Queueing a row: it is appended, or the statement fails. *)
Lemma run_queue e w w' o :
  run (EmailQueueRepo.Create e) w = (w', o) ->
  w_db w' = w_db w \/
  exists now, w_db w' = (w_db w) <| db_emailQueue := db_emailQueue (w_db w) ++ [row_stamp now e] |>.
Proof.
  unfold EmailQueueRepo.Create, wrap, Store.Insert. rewrite run_map_err, run_write.
  destruct (env_fault _); [intros [= <- _]; by left|].
  destruct (insert_row _ _ _) as [l|] eqn:E; intros [= <- _]; [|by left].
  apply insert_row_Some in E as [-> _]. right. by eexists.
Qed.

(** Whatever the outcome, at most one row is queued. *)
Lemma SendTemplateEmail_effect t toEmail toName name variables priority w w' o :
  run (SendTemplateEmail cfg t toEmail toName name variables priority) w = (w', o) ->
  none_queued w w' \/ one_queued t toEmail toName w w'.
Proof.
  unfold SendTemplateEmail, SendEmail, none_queued, one_queued. rewrite run_bind.
  destruct (run (find_template _ _) w) as [w1 [template|e|]] eqn:E;
    apply (keeps_find_template (fun db => db)) in E; [|intros [= <- _]; by left..].
  destruct (negb _); [intros [= <- _]; by left|].
  do 3 (rewrite run_bind, run_render; cbv beta iota). rewrite run_bind, run_NewUUID. cbv beta iota.
  do 3 (rewrite run_bind, run_Now; cbv beta iota). rewrite run_bind. unfold wrap. rewrite run_map_err.
  match goal with |- context [run (EmailQueueRepo.Create ?r) ?w2] =>
    destruct (run (EmailQueueRepo.Create r) w2) as [w3 o3] eqn:E3 end.
  intros Hrun. assert (w_db w' = w_db w3) as -> by (by destruct o3; injection Hrun as <- _).
  apply run_queue in E3. change (w_db (tick _)) with (w_db w1) in E3.
  rewrite E in E3. destruct E3 as [->|[now ->]]; [by left|right].
  eexists. split; [|reflexivity]. by repeat split.
Qed.

(** A row whose identifier no stored row has is queued. *)
Lemma run_queue_new e w :
  env_fault (w_step w) = false -> (forall x, x ∈ db_emailQueue (w_db w) -> eq_ID x <> eq_ID e) ->
  exists w' e', run (EmailQueueRepo.Create e) w = (w', Ok e') /\
    w_db w' = (w_db w) <| db_emailQueue := db_emailQueue (w_db w) ++ [row_stamp (stmt_now w) e] |>.
Proof.
  intros Hw Hn. unfold EmailQueueRepo.Create, wrap, Store.Insert.
  rewrite run_map_err, run_write, Hw. unfold insert_row.
  replace (existsb _ _) with false; [by eexists _, _|].
  symmetry. apply Bool.not_true_iff_false. intros (x & Hx%list_elem_of_In & Hc)%existsb_exists.
  unfold clashes in Hc. simpl in Hc. rewrite orb_false_r in Hc. bool_simp.
  apply (Hn x Hx). congruence.
Qed.

Lemma run_find_template t name w :
  env_fault (w_step w) = false -> is_Some (defaultEmailTemplates name) ->
  exists template, run (find_template t name) w = (tick w, Ok template) /\
                   et_IsActive template = template_active t name (w_db w).
Proof.
  intros Hw [d Hd]. unfold find_template, template_active, EmailTemplateRepo.GetByName.
  rewrite run_bind, run_attempt, run_get_by, Hw. cbn [rows table_EmailTemplate].
  destruct (first_where (R := EmailTemplate) _ _) as [own|]; cbv beta iota; [by eexists|].
  change (errors_Is ErrResourceNotFound ErrResourceNotFound) with true. cbv iota. rewrite Hd.
  exists d. split; [done|]. unfold defaultEmailTemplates in Hd.
  do 3 (destruct (bool_decide _); [apply (inj Some) in Hd as <-; reflexivity|]). discriminate.
Qed.

(** With a database that answers, a built-in email is queued unless the
    tenant's own template of that name is inactive. *)
Lemma run_SendTemplateEmail t toEmail toName name variables priority w :
  (forall n, (w_step w <= n)%nat -> env_fault n = false) -> queue_fresh w ->
  is_Some (defaultEmailTemplates name) ->
  exists w' o, run (SendTemplateEmail cfg t toEmail toName name variables priority) w = (w', o) /\
    if template_active t name (w_db w) then o = Ok tt /\ one_queued t toEmail toName w w'
    else (exists e, o = Err e) /\ none_queued w w'.
Proof.
  intros Hw Hf Hd. unfold SendTemplateEmail, SendEmail, none_queued, one_queued. rewrite run_bind.
  destruct (run_find_template t name w) as (template & E & Hact); [by apply Hw|done|].
  cbn [se_Template]. rewrite E, Hact. cbv beta iota.
  destruct (template_active t name (w_db w)); cbn [negb]; [|by eauto 10].
  do 3 (rewrite run_bind, run_render; cbv beta iota). rewrite run_bind, run_NewUUID. cbv beta iota.
  do 3 (rewrite run_bind, run_Now; cbv beta iota). rewrite run_bind. unfold wrap. rewrite run_map_err.
  match goal with |- context [run (EmailQueueRepo.Create ?r) ?w2] =>
    destruct (run_queue_new r w2) as (w3 & e' & E3 & Hdb);
      [apply Hw; simpl; lia|intros x Hx; apply (Hf x); [exact Hx|simpl; lia]|] end.
  rewrite E3. cbv beta iota. eexists _, _. split; [done|]. split; [done|].
  eexists. split; [|exact Hdb]. by repeat split.
Qed.
End Sender.
