(* ===== verification/Onward.v ===== *)
(** Programs take steps and never take them back: [onward p] bounds the steps
    counted when [p] ends by those counted when it starts. *)
From S2P Require Import Prelude GoStd Models Effects Store Repos AccountRepos RbacRepos AuditRepo Libraries.

Open Scope Z_scope.

Definition onward {A} (p : prog A) : Prop :=
  forall w w' o, run p w = (w', o) -> (w_step w <= w_step w')%nat.

Lemma onward_done {A} (o : outcome A) : onward (Done o).
Proof. by intros w w' o' [= <- _]. Qed.
Lemma onward_step {A} {Y : Set} (act : World -> World * Y) (k : Y -> prog A) :
  (forall w, (w_step w <= w_step (act w).1)%nat) -> (forall y, onward (k y)) -> onward (Step act k).
Proof.
  intros Ha Hk w w' o E. specialize (Ha w). unfold run in E; fold (@run A) in E.
  destruct (act w) as [w1 y]. pose proof (Hk y _ _ _ E). simpl in *. lia.
Qed.
Lemma onward_bind {A B} (p : prog A) (f : A -> prog B) :
  onward p -> (forall a, onward (f a)) -> onward (p ≫= f).
Proof.
  intros Hp Hf w w' o. rewrite run_bind. destruct (run p w) as [w1 [b|e|]] eqn:E;
    apply Hp in E; [|by intros [= <- <-]..].
  intros E'%Hf. lia.
Qed.

Section Programs.
Context {A : Type}.
Implicit Types p : prog A.
Lemma onward_ret (a : A) : onward (mret a).
Proof. apply onward_done. Qed.
Lemma onward_throw e : onward (throw (A := A) e).
Proof. apply onward_done. Qed.
Lemma onward_from_opt e (o : option A) : onward (from_opt e o).
Proof. destruct o; apply onward_done. Qed.
Lemma onward_from_sum (r : A + error) : onward (from_sum r).
Proof. destruct r; apply onward_done. Qed.
Lemma onward_attempt p : onward p -> onward (attempt p).
Proof.
  intros Hp w w' o. rewrite run_attempt. destruct (run p w) as [w1 [b|e|]] eqn:E;
    apply Hp in E; by intros [= <- <-].
Qed.
Lemma onward_map_err g p : onward p -> onward (map_err g p).
Proof.
  intros Hp w w' o. rewrite run_map_err. destruct (run p w) as [w1 [b|e|]] eqn:E;
    apply Hp in E; by intros [= <- <-].
Qed.
Lemma onward_ignore p : onward p -> onward (ignore p).
Proof.
  intros Hp w w' o. rewrite run_ignore. destruct (run p w) as [w1 [b|e|]] eqn:E;
    apply Hp in E; by intros [= <- <-].
Qed.
End Programs.

Section Steps.
Context `{Env}.
Lemma onward_Now : onward Now.
Proof. apply onward_step; [simpl; lia|]. intros; apply onward_done. Qed.
Lemma onward_NewUUID : onward NewUUID.
Proof. apply onward_step; [simpl; lia|]. intros; apply onward_done. Qed.
Lemma onward_RandRead n : onward (RandRead n).
Proof. apply onward_step; [simpl; lia|]. intros; apply onward_from_opt. Qed.
Lemma onward_RandInt n : onward (RandInt n).
Proof. apply onward_step; [simpl; lia|]. intros; apply onward_from_opt. Qed.
Lemma onward_WithRandom {X : Set} (g : option (nat -> Z) -> X) : onward (WithRandom g).
Proof. apply onward_step; [simpl; lia|]. intros; apply onward_done. Qed.
Lemma onward_EmitEvent ev : onward (EmitEvent ev).
Proof. apply onward_step; [simpl; lia|]. intros; apply onward_done. Qed.
Lemma onward_Stmt {X : Set} (f : Z -> DB -> DB * X) : onward (Stmt f).
Proof.
  apply onward_step; [|intros; apply onward_from_opt].
  intros w. destruct (env_fault _); simpl; lia.
Qed.
Lemma onward_WithDomains {X : Set} f : onward (WithDomains (X := X) f).
Proof. apply onward_step; [simpl; lia|]. intros; apply onward_done. Qed.
Lemma onward_write {R : Set} `{Table R} `{!Row R} {Y : Set} (g : Z -> list R -> option (list R * Y)) :
  onward (write g).
Proof.
  intros w w' o. rewrite run_write. destruct (env_fault _); [intros [= <- _]; simpl; lia|].
  destruct (g _ _) as [[l y]|]; intros [= <- _]; simpl; lia.
Qed.
Lemma onward_get_by {R : Set} `{Table R} `{!Row R} msg nf (p : R -> bool) : onward (get_by msg nf p).
Proof. apply onward_bind; [apply onward_map_err, onward_Stmt|intros; apply onward_from_opt]. Qed.
End Steps.

Create HintDb onward.
#[export] Hint Resolve onward_ret onward_throw onward_from_opt onward_from_sum onward_Now
  onward_NewUUID onward_RandRead onward_RandInt onward_WithRandom onward_EmitEvent
  onward_Stmt onward_WithDomains onward_get_by onward_write : onward.

Ltac onward_step :=
  match goal with
  | |- onward (mbind _ _) => refine (onward_bind _ _ _ _); [|intros ?]
  | |- onward (attempt _) => apply onward_attempt
  | |- onward (wrap _ _) => apply onward_map_err
  | |- onward (or_err _ _) => apply onward_map_err
  | |- onward (map_err _ _) => apply onward_map_err
  | |- onward (ignore _) => apply onward_ignore
  | |- onward (let _ := _ in _) => cbv zeta
  | |- onward (match ?b with _ => _ end) => destruct b
  | |- onward (Insert _) => apply onward_write
  | |- onward (Save _) => apply onward_write
  | |- onward (UpdateWhere _ _) => apply onward_Stmt
  | |- onward (UpdateRaw _ _) => apply onward_Stmt
  | |- onward (DeleteWhere _) => apply onward_Stmt
  | |- onward (First _) => apply onward_Stmt
  | |- onward (Find _) => apply onward_Stmt
  | |- onward (Count _) => apply onward_Stmt
  | |- onward _ => solve [eauto with onward]
  end.
Ltac onward := repeat onward_step.
