(* ===== verification/JwtKeys.v ===== *)
(** Package internal/jwtkeys: the set of keys that sign and verify JWTs, the
    keyfunc that selects a key, and the published JWK set. Where keys come
    from (ParsePEM, LoadFile, Generate, Load) is in KeyFiles.v. *)
From S2P Require Import Prelude GoStd Hash Models Effects Libraries.
From stdpp Require Import gmap.

Open Scope Z_scope.

Definition AlgRS256 : string := "RS256".
Definition AlgES256 : string := "ES256".
Definition AlgHS256 : string := "HS256".
Definition TypeAccessToken : string := "at+jwt".
Definition minRSABits : Z := 2048.

(** Key: [ky_signKey] is [None] for a public-only key. *)
Record Key := MkKey {
  ky_ID : string;
  ky_Alg : string;
  ky_signKey : option keyMaterial;
  ky_verifyKey : keyMaterial
}.
#[export] Instance Key_eq_dec : EqDecision Key.
Proof. solve_decision. Defined.

Definition CanSign (k : Key) : bool := is_some (ky_signKey k).

Record KeySet := MkKeySet {
  ks_active : Key;
  ks_keys : list Key;
  ks_byID : gmap string Key;
  ks_algs : list string
}.

(** The loop of NewKeySet. [first] tells the active key, which the code
    compares by pointer and puts first. *)
Fixpoint add_keys (first : bool) (l : list Key) (ks : KeySet) : KeySet + error :=
  match l with
  | [] => inl ks
  | k :: l' =>
    if (ky_Alg k ==? AlgHS256) && negb first then
      inr (EMessage "HS256 secrets cannot be verification keys")
    else if is_some (ks_byID ks !! ky_ID k) then inr (EMessage "duplicate key id")
    else
      add_keys false l' {|
        ks_active := ks_active ks;
        ks_byID := <[ky_ID k := k]> (ks_byID ks);
        ks_keys := ks_keys ks ++ [k];
        ks_algs := if contains (ks_algs ks) (ky_Alg k) then ks_algs ks
                   else ks_algs ks ++ [ky_Alg k]
      |}
  end.

Definition NewKeySet (active : option Key) (verification : list Key) : KeySet + error :=
  match active with
  | Some k =>
    if negb (CanSign k) then inr (EMessage "active key must be able to sign")
    else add_keys true (k :: verification) (MkKeySet k [] ∅ [])
  | None => inr (EMessage "active key must be able to sign")
  end.

(** NewHMAC; a nil KeySet is [None]. *)
Definition NewHMAC (secret : string) : option KeySet :=
  let key := MkKey "" AlgHS256 (Some (Bytes secret)) (Bytes secret) in
  match NewKeySet (Some key) [] with inl ks => Some ks | inr _ => None end.

Definition Algorithm (ks : KeySet) : string := ky_Alg (ks_active ks).
Definition ActiveKeyID (ks : KeySet) : string := ky_ID (ks_active ks).

Definition TokenHash (token : string) : string :=
  let sum := sha256 token in
  base64_raw_url (String.substring 0 (String.length sum / 2) sum).

Definition keyfunc (ks : KeySet) (token : Token) : keyMaterial + error :=
  let check k :=
    if tk_Alg token !=? ky_Alg k then inr (EMessage "token alg does not match key alg")
    else inl (ky_verifyKey k) in
  if tk_kid token ==? "" then
    if ky_Alg (ks_active ks) !=? AlgHS256 then inr (EMessage "token has no kid")
    else check (ks_active ks)
  else match ks_byID ks !! tk_kid token with
       | None => inr (EMessage "unknown kid")
       | Some k => check k
       end.

Section Tokens.
Context `{Env} `{JwtLib} `{UnicodeTables}.

(** SignTyped; the kid header is set unless the active key has no ID. *)
Definition SignTyped (ks : KeySet) (claims : Claims) (typ : string) : prog string :=
  let token := MkToken typ (ky_ID (ks_active ks)) (ky_Alg (ks_active ks)) false in
  match ky_signKey (ks_active ks) with
  | Some k => r ← WithRandom (fun rnd => jwt_SignedString rnd token claims k); from_sum r
  | None => throw (EExternal "jwt") (* SignedString(nil) *)
  end.
Definition Sign (ks : KeySet) (claims : Claims) : prog string := SignTyped ks claims "JWT".

(** Parse; [opts] holds the extra options. *)
Definition Parse (ks : KeySet) (ty : ClaimsType) (opts : ParserOptions) (tokenString : string)
    : prog ((Token * Claims) + error) :=
  now ← Now;
  mret (jwt_ParseWithClaims now ty
          (MkParserOptions (ks_algs ks) (po_Issuer opts) (po_Audience opts)
             (po_ExpirationRequired opts) (po_WithoutClaimsValidation opts))
          (keyfunc ks) tokenString).

Definition HasType (token : Token) (typ : string) : bool :=
  TrimPrefix "application/" (ToLower (tk_typ token)) ==? ToLower typ.
End Tokens.

(** ** The published key set *)

Record JWK := MkJWK {
  jwk_Kty : string; jwk_Use : string; jwk_Alg : string; jwk_Kid : string;
  jwk_N : string; jwk_E : string; jwk_Crv : string; jwk_X : string; jwk_Y : string
}.

(** big.Int.Bytes: no leading zeros; FillBytes: [size] bytes, panicking
    ([None]) when the number does not fit. *)
Definition byte_len (z : Z) : nat := Z.to_nat ((Z.log2 z + 8) / 8).
Definition int_Bytes (z : Z) : string := if z =? 0 then "" else string_of (be_bytes (byte_len z) z).
Definition int_FillBytes (size : Z) (z : Z) : option string :=
  if z <? 2 ^ (8 * size) then Some (string_of (be_bytes (Z.to_nat size) z)) else None.
Definition BitLen (z : Z) : Z := if z =? 0 then 0 else Z.log2 z + 1.

(** publicJWK: [None] is the panic of FillBytes, [Some None] no JWK. *)
Definition publicJWK (k : Key) : option (option JWK) :=
  match ky_verifyKey k with
  | RSAPublic N E =>
    Some (Some (MkJWK "RSA" "sig" (ky_Alg k) (ky_ID k)
                  (base64_raw_url (int_Bytes N)) (base64_raw_url (int_Bytes E)) "" "" ""))
  | ECPublic curve bitSize X Y =>
    let size := (bitSize + 7) / 8 in
    match int_FillBytes size X, int_FillBytes size Y with
    | Some x, Some y =>
      Some (Some (MkJWK "EC" "sig" (ky_Alg k) (ky_ID k) "" "" curve
                    (base64_raw_url x) (base64_raw_url y)))
    | _, _ => None
    end
  | _ => Some None
  end.

Fixpoint jwks_of (keys : list Key) : option (list JWK) :=
  match keys with
  | [] => Some []
  | k :: keys' =>
    match publicJWK k, jwks_of keys' with
    | Some (Some jwk), Some set => Some (jwk :: set)
    | Some None, Some set => Some set
    | _, _ => None
    end
  end.
Definition JWKS (ks : KeySet) : option (list JWK) := jwks_of (ks_keys ks).

(** thumbprint: the members as encoding/json writes them. The values are
    base64url or curve names, which need no escaping. *)
Definition quoted (name value : string) : string :=
  let q := String (byte_chr 34) EmptyString in q +:+ name +:+ q +:+ ":" +:+ q +:+ value +:+ q.
Definition thumbprint (jwk : JWK) : string :=
  let data :=
    if jwk_Kty jwk ==? "RSA" then
      "{" +:+ quoted "e" (jwk_E jwk) +:+ "," +:+ quoted "kty" (jwk_Kty jwk) +:+ "," +:+
      quoted "n" (jwk_N jwk) +:+ "}"
    else if jwk_Kty jwk ==? "EC" then
      "{" +:+ quoted "crv" (jwk_Crv jwk) +:+ "," +:+ quoted "kty" (jwk_Kty jwk) +:+ "," +:+
      quoted "x" (jwk_X jwk) +:+ "," +:+ quoted "y" (jwk_Y jwk) +:+ "}"
    else "null" in
  base64_raw_url (sha256 data).

(** newKey *)
Definition newKey (k : keyMaterial) : option (Key + error) :=
  let halves :=
    match k with
    | RSAPrivate N E _ => Some (Some k, RSAPublic N E)
    | RSAPublic _ _ => Some (None, k)
    | ECPrivate c b X Y _ => Some (Some k, ECPublic c b X Y)
    | ECPublic _ _ _ _ => Some (None, k)
    | Bytes _ => None
    end in
  match halves with
  | None => Some (inr (EMessage "unsupported key type"))
  | Some (signKey, verifyKey) =>
    let alg :=
      match verifyKey with
      | RSAPublic N _ =>
        if BitLen N <? minRSABits then inr (EMessage "RSA key is too small") else inl AlgRS256
      | ECPublic curve _ _ _ =>
        if curve !=? "P-256" then inr (EMessage "EC key must use curve P-256 for ES256")
        else inl AlgES256
      | _ => inl ""
      end in
    match alg with
    | inr e => Some (inr e)
    | inl alg =>
      let key := MkKey "" alg signKey verifyKey in
      match publicJWK key with
      | None => None
      | Some jwk =>
        let jwk := default (MkJWK "" "" "" "" "" "" "" "" "") jwk in
        Some (inl (MkKey (thumbprint jwk) alg signKey verifyKey))
      end
    end
  end.

(** ** Key sets *)

(** What NewKeySet establishes. *)
Record keyset_ok (ks : KeySet) : Prop := {
  ks_ok_active : exists others, ks_keys ks = ks_active ks :: others;
  ks_ok_sign : CanSign (ks_active ks) = true;
  ks_ok_byID : forall id k, ks_byID ks !! id = Some k <-> k ∈ ks_keys ks /\ ky_ID k = id;
  ks_ok_ids : NoDup (ky_ID <$> ks_keys ks);
  ks_ok_algs : forall a, a ∈ ks_algs ks <-> a ∈ ky_Alg <$> ks_keys ks;
  ks_ok_hmac : forall k, k ∈ ks_keys ks -> ky_Alg k = AlgHS256 -> k = ks_active ks
}.

(** The invariant of the loop, over the keys added so far. *)
Record added_ok (ks : KeySet) : Prop := {
  add_byID : forall id k, ks_byID ks !! id = Some k <-> k ∈ ks_keys ks /\ ky_ID k = id;
  add_ids : NoDup (ky_ID <$> ks_keys ks);
  add_algs : forall a, a ∈ ks_algs ks <-> a ∈ ky_Alg <$> ks_keys ks
}.

Lemma add_key_ok ks k :
  added_ok ks -> ks_byID ks !! ky_ID k = None ->
  added_ok (MkKeySet (ks_active ks) (ks_keys ks ++ [k]) (<[ky_ID k := k]> (ks_byID ks))
              (if contains (ks_algs ks) (ky_Alg k) then ks_algs ks else ks_algs ks ++ [ky_Alg k])).
Proof.
  intros [Hid Hnd Halg] Hnew.
  assert (Hfresh : forall k', k' ∈ ks_keys ks -> ky_ID k' <> ky_ID k).
  { intros k' Hk' E. assert (Hin : ks_byID ks !! ky_ID k = Some k') by (by apply Hid). congruence. }
  split; simpl.
  - intros id k'. rewrite lookup_insert_Some, Hid. rewrite elem_of_app, list_elem_of_singleton. split.
    + intros [[<- <-]|[Hne [Hin <-]]]; auto.
    + intros [[Hin| ->] <-]; [|auto]. right. split; [|done]. intros E. by destruct (Hfresh k').
  - rewrite fmap_app. apply NoDup_app. split; [done|]. split; [|apply NoDup_singleton].
    intros x (k' & Hx & Hk')%list_elem_of_fmap Hx'%list_elem_of_singleton.
    destruct (Hfresh k' Hk'). congruence.
  - intros a. rewrite fmap_app, elem_of_app. simpl. rewrite list_elem_of_singleton.
    destruct (contains (ks_algs ks) (ky_Alg k)) eqn:Ec.
    + apply contains_elem_of in Ec. rewrite Halg. split; [auto|]. intros [?| ->]; [done|].
      by apply Halg.
    + rewrite elem_of_app, list_elem_of_singleton, Halg. done.
Qed.

Lemma add_keys_ok l ks ks' :
  added_ok ks -> add_keys false l ks = inl ks' ->
  added_ok ks' /\ ks_active ks' = ks_active ks /\ ks_keys ks' = ks_keys ks ++ l /\
  Forall (fun k => ky_Alg k <> AlgHS256) l.
Proof.
  revert ks. induction l as [|k l IH]; intros ks Hks; simpl.
  { intros [= <-]. by rewrite app_nil_r. }
  destruct (ky_Alg k ==? AlgHS256) eqn:Eh; simpl; [done|].
  destruct (ks_byID ks !! ky_ID k) eqn:Ei; simpl; [done|].
  intros E. apply IH in E as (? & ? & Hk & ?); [|by apply add_key_ok].
  simpl in *. bool_simp. rewrite Hk, <-app_assoc. auto.
Qed.

Lemma newkeyset_ok active verification ks :
  NewKeySet active verification = inl ks ->
  keyset_ok ks /\ active = Some (ks_active ks) /\ ks_keys ks = ks_active ks :: verification.
Proof.
  unfold NewKeySet. destruct active as [k|]; [|done].
  destruct (CanSign k) eqn:Es; simpl; [|done]. rewrite andb_false_r. simpl.
  rewrite lookup_empty. simpl. intros E.
  apply add_keys_ok in E as (Hok & Ha & Hk & Hh); simpl in *.
  - destruct Hok as [Hid Hnd Halg]. split; [|by rewrite Ha]. split; rewrite ?Ha; eauto.
    intros k' Hk' Hs. rewrite Hk in Hk'. apply elem_of_cons in Hk' as [->|Hin]; [done|].
    rewrite Forall_forall in Hh. by destruct (Hh k').
  - assert (H0 : added_ok (MkKeySet k [] ∅ [])).
    { split; simpl; [|constructor|set_solver]. intros id k'. rewrite lookup_empty. set_solver. }
    by apply (add_key_ok _ k) in H0.
Qed.

(** A key set NewKeySet accepts holds the active key first and the
    verification keys in order, indexed by pairwise distinct IDs; its
    algorithm list is that of its keys; and the only symmetric key it may
    hold is the active one. *)
Theorem NewKeySet_spec active verification ks :
  NewKeySet active verification = inl ks ->
  keyset_ok ks /\ active = Some (ks_active ks) /\ ks_keys ks = ks_active ks :: verification.
Proof.
  apply newkeyset_ok.
Qed.

(** ** Selecting and publishing keys *)

(** The keys the package makes: NewHMAC's, and newKey's. *)
Definition made (k : Key) : Prop :=
  (exists secret, k = MkKey "" AlgHS256 (Some (Bytes secret)) (Bytes secret)) \/
  exists m, newKey m = Some (inl k).

(** Which material verifies which algorithm. *)
Definition fits (alg : string) (m : keyMaterial) : Prop :=
  match m with
  | Bytes _ => alg = AlgHS256
  | RSAPublic N _ => alg = AlgRS256 /\ minRSABits <= BitLen N
  | ECPublic curve _ _ _ => alg = AlgES256 /\ curve = "P-256"
  | _ => False
  end.

Definition public_half (m : keyMaterial) : keyMaterial :=
  match m with
  | RSAPrivate N E _ => RSAPublic N E
  | ECPrivate c b X Y _ => ECPublic c b X Y
  | _ => m
  end.

Definition asymmetric (k : Key) : bool :=
  match ky_verifyKey k with RSAPublic _ _ | ECPublic _ _ _ _ => true | _ => false end.

Lemma publicJWK_some k o :
  publicJWK k = Some o ->
  if asymmetric k then exists j, o = Some j /\ jwk_Kid j = ky_ID k /\ jwk_Alg j = ky_Alg k
  else o = None.
Proof.
  unfold publicJWK, asymmetric. destruct (ky_verifyKey k); try congruence.
  - intros [= <-]. eauto.
  - repeat case_match; try done. intros [= <-]. eauto.
Qed.

(** newKey names a key by its public half alone. *)
Lemma newKey_ok m k :
  newKey m = Some (inl k) ->
  ky_verifyKey k = public_half m /\ fits (ky_Alg k) (public_half m) /\
  exists j, publicJWK (MkKey "" (ky_Alg k) None (public_half m)) = Some (Some j) /\
            ky_ID k = thumbprint j.
Proof.
  unfold newKey. destruct m; simpl; try done.
  all: repeat (case_match; simplify_eq/=; try done); bool_simp.
  all: intros [= <-]; cbn -[publicJWK]; split_and!; try done;
    try (eexists; split; reflexivity).
  all: match goal with H : publicJWK _ = Some _ |- _ =>
         destruct (publicJWK_some _ _ H) as (j & -> & _); by eauto end.
Qed.

Lemma made_publishes k : made k -> exists o, publicJWK k = Some o.
Proof.
  intros [[secret ->]|[m Hm]]; [by eexists|]. apply newKey_ok in Hm as (Hv & _ & j & Hj & _).
  unfold publicJWK in *. rewrite Hv. simpl in Hj. destruct (public_half m); eauto.
  repeat case_match; eauto; done.
Qed.

Lemma made_fits k : made k -> fits (ky_Alg k) (ky_verifyKey k).
Proof. intros [[secret ->]|[m Hm]]; [done|]. by apply newKey_ok in Hm as (-> & ? & _). Qed.

Lemma keyfunc_ok ks token m :
  keyset_ok ks -> keyfunc ks token = inl m ->
  exists k, k ∈ ks_keys ks /\ ky_verifyKey k = m /\ ky_Alg k = tk_Alg token /\
            (tk_kid token = "" -> k = ks_active ks /\ tk_Alg token = AlgHS256) /\
            (tk_kid token <> "" -> ky_ID k = tk_kid token).
Proof.
  intros Hok Hkf.
  unfold keyfunc in Hkf. destruct (tk_kid token ==? "") eqn:Ekid; bool_simp.
  - destruct (ky_Alg (ks_active ks) !=? AlgHS256) eqn:Eh; [done|].
    destruct (tk_Alg token !=? _) eqn:Ea; [done|]. bool_simp. simplify_eq.
    exists (ks_active ks). destruct (ks_ok_active _ Hok) as [others ->].
    split_and!; try done; [by left|]. intros _. split; congruence.
  - destruct (ks_byID ks !! tk_kid token) as [k|] eqn:Ei; [|done].
    apply (ks_ok_byID _ Hok) in Ei as [Hin Hid].
    destruct (tk_Alg token !=? _) eqn:Ea; [done|]. bool_simp. simplify_eq.
    by exists k; split_and!.
Qed.

(** The key a token is verified with is one of the set, fits the
    algorithm the token claims (no RSA or EC public key is ever used as an
    HMAC secret, nor the reverse, and a weak RSA key never verifies) and is
    the one the kid names; a token without kid is only accepted by a set
    whose active key is an HMAC secret. *)
Theorem keyfunc_sound ks token m :
  keyset_ok ks -> (forall k, k ∈ ks_keys ks -> made k) -> keyfunc ks token = inl m ->
  fits (tk_Alg token) m /\
  exists k, k ∈ ks_keys ks /\ ky_verifyKey k = m /\ ky_Alg k = tk_Alg token /\
            (tk_kid token = "" -> k = ks_active ks /\ tk_Alg token = AlgHS256) /\
            (tk_kid token <> "" -> ky_ID k = tk_kid token).
Proof.
  intros Hok Hmade Hkf%keyfunc_ok; [|done]. split; [|done].
  destruct Hkf as (k & Hin & <- & <- & _). by apply made_fits, Hmade.
Qed.

(** A private key and its public half get the same key ID, so that
    tokens signed with the one verify against the other. *)
Theorem newKey_public_half m k :
  newKey m = Some (inl k) ->
  exists k', newKey (public_half m) = Some (inl k') /\
    ky_ID k' = ky_ID k /\ ky_Alg k' = ky_Alg k /\ ky_verifyKey k' = ky_verifyKey k /\
    CanSign k' = false.
Proof.
  unfold newKey. destruct m; simpl; try done.
  all: repeat (case_match; simplify_eq/=; try done); intros [= <-]; cbn -[publicJWK];
    repeat match goal with H : publicJWK ?k = Some _ |- context [publicJWK ?k'] =>
      change (publicJWK k') with (publicJWK k); rewrite H end.
  all: try (eexists; split; [reflexivity|]; split_and!; done).
  all: match goal with H : publicJWK ?k = Some _, H' : publicJWK ?k' = _ |- _ =>
    change (publicJWK k') with (publicJWK k) in H'; rewrite H in H'; simplify_eq end.
  eexists; split; [reflexivity|]; split_and!; done.
Qed.

(** The published key set of a set made by NewKeySet lists exactly its
    asymmetric keys, in order, each under its ID and algorithm and with
    pairwise distinct IDs; publishing never panics. An HMAC secret is never
    published. *)
Theorem JWKS_spec active verification ks :
  NewKeySet active verification = inl ks -> (forall k, k ∈ ks_keys ks -> made k) ->
  exists l, JWKS ks = Some l /\
    (jwk_Kid <$> l) = (ky_ID <$> filter asymmetric (ks_keys ks)) /\
    (jwk_Alg <$> l) = (ky_Alg <$> filter asymmetric (ks_keys ks)) /\
    NoDup (jwk_Kid <$> l).
Proof.
  intros E Hmade. apply newkeyset_ok in E as [[_ _ _ Hnd _ _] _].
  unfold JWKS. revert Hmade Hnd. induction (ks_keys ks) as [|k l IH]; intros Hmade Hnd.
  { exists []. split_and!; by try constructor. }
  apply NoDup_cons in Hnd as [Hk Hnd].
  destruct IH as (l' & Hl' & Hkid & Halg & Hnd'); [set_solver|done|].
  destruct (made_publishes k) as [o Ho]; [set_solver|].
  pose proof (publicJWK_some _ _ Ho) as Hs. simpl. rewrite Ho, Hl', filter_cons.
  destruct (asymmetric k); simpl in Hs; [|subst; by exists l'].
  destruct Hs as (j & -> & Hj & Hja). exists (j :: l').
  cbn [Is_true decide_rel decide]. rewrite !fmap_cons, Hj, Hja, Hkid, Halg.
  split_and!; try done. apply NoDup_cons. split; [|by rewrite <-Hkid].
  intros (k' & Hk' & Hin)%list_elem_of_fmap. apply Hk. rewrite Hk'. apply list_elem_of_fmap_2.
  apply list_elem_of_filter in Hin. tauto.
Qed.

(** ** Witnesses *)

(** A 2048-bit RSA key that signs, and an EC key that only verifies. *)
Definition key_of (m : keyMaterial) : Key :=
  match newKey m with Some (inl k) => k | _ => MkKey "" "" None m end.
Definition rsa_private : keyMaterial := RSAPrivate (2 ^ 2047 + 1) 65537 5.
Definition ec_public : keyMaterial := ECPublic "P-256" 256 (2 ^ 255 + 7) 9.
Definition example_set : KeySet :=
  match NewKeySet (Some (key_of rsa_private)) [key_of ec_public] with
  | inl ks => ks | inr _ => MkKeySet (key_of rsa_private) [] ∅ []
  end.

Lemma example_set_eq : NewKeySet (Some (key_of rsa_private)) [key_of ec_public] = inl example_set.
Proof. vm_compute. reflexivity. Qed.

Lemma example_set_made k : k ∈ ks_keys example_set -> made k.
Proof.
  destruct (newkeyset_ok _ _ _ example_set_eq) as (_ & Ha & ->).
  apply (inj Some) in Ha. rewrite <-Ha, elem_of_cons, list_elem_of_singleton.
  intros [->| ->]; right; [exists rsa_private|exists ec_public]; vm_compute; reflexivity.
Qed.

Lemma NewKeySet_spec_witness :
  keyset_ok example_set /\ ks_keys example_set = [key_of rsa_private; key_of ec_public].
Proof.
  destruct (NewKeySet_spec _ _ _ example_set_eq) as (Hok & Ha & Hk).
  split; [exact Hok|]. apply (inj Some) in Ha. rewrite Hk, <-Ha. reflexivity.
Defined.

Lemma keyfunc_sound_witness :
  let token := MkToken TypeAccessToken (ky_ID (key_of ec_public)) AlgES256 false in
  keyfunc example_set token = inl ec_public /\ fits (tk_Alg token) ec_public.
Proof.
  intros token. assert (E : keyfunc example_set token = inl ec_public) by (vm_compute; reflexivity).
  split; [exact E|].
  apply (keyfunc_sound example_set token ec_public); [|exact example_set_made|exact E].
  by destruct (newkeyset_ok _ _ _ example_set_eq).
Defined.

Lemma newKey_public_half_witness :
  exists k', newKey (public_half rsa_private) = Some (inl k') /\
             ky_ID k' = ky_ID (key_of rsa_private) /\ CanSign k' = false.
Proof.
  assert (E : newKey rsa_private = Some (inl (key_of rsa_private))) by (vm_compute; reflexivity).
  destruct (newKey_public_half _ _ E) as (k' & Hk & Hid & _ & _ & Hs). eauto.
Defined.

Lemma JWKS_spec_witness :
  exists l, JWKS example_set = Some l /\ length l = 2%nat /\ NoDup (jwk_Kid <$> l).
Proof.
  destruct (JWKS_spec _ _ _ example_set_eq example_set_made) as (l & Hl & _ & _ & Hnd).
  exists l. split; [exact Hl|]. split; [|exact Hnd].
  assert (E : (length <$> JWKS example_set) = Some 2%nat) by (vm_compute; reflexivity).
  rewrite Hl in E. by injection E.
Defined.
