(* ===== verification/AuditTrail.v ===== *)
(** internal/services/audit_service_impl.go and
    internal/observability/recorder.go: writing and querying the audit log.
    Log lines and metrics are left out. *)
From S2P Require Import Prelude GoStd Models Effects Store Repos AuditRepo Libraries.
From stdpp Require Import gmap.

Open Scope Z_scope.

(** observability.RequestInfo *)
Record RequestInfo := MkRequestInfo {
  rq_RequestID : string;
  rq_IPAddress : string;
  rq_UserAgent : string
}.

(** What the modelled code reads from a context.Context: the request info,
    if any, and the trace ID of the span ("" without one). *)
Record Ctx := MkCtx {
  ctx_RequestInfo : option RequestInfo;
  ctx_TraceID : string
}.
Definition RequestInfoFrom (ctx : Ctx) : option RequestInfo := ctx_RequestInfo ctx.
Definition TraceID (ctx : Ctx) : string := ctx_TraceID ctx.

(** An AuditLog with no field set. *)
Definition audit_zero : AuditLog :=
  MkAuditLog uuid_Nil uuid_Nil None None "" "" None "" "" "" false "" "" [] time_zero.

Section AuditService.
Context `{Env} `{UuidLib}.

Definition attribute (ctx : Ctx) (entry : AuditLog) : AuditLog :=
  match RequestInfoFrom ctx with
  | None => entry
  | Some info =>
    entry <| al_RequestID := or_default (al_RequestID entry) (rq_RequestID info) |>
          <| al_IPAddress := or_default (al_IPAddress entry) (rq_IPAddress info) |>
          <| al_UserAgent := or_default (al_UserAgent entry) (rq_UserAgent info) |>
  end.

Definition Log (ctx : Ctx) (entry : AuditLog) : prog unit :=
  entry ← (if time_is_zero (al_CreatedAt entry)
           then now ← Now; mret (entry <| al_CreatedAt := now |>) else mret entry);
  entry ← (if al_ID entry ==? uuid_Nil
           then id ← NewUUID; mret (entry <| al_ID := id |>) else mret entry);
  wrap "failed to create audit log" (AuditLogRepo.Create (attribute ctx entry)) ;;
  mret tt.

Definition LogUserAction (ctx : Ctx) (tenantID userID : uuid) (action : AuditAction)
    (resource : string) (resourceID : option uuid) (success : bool) (metadata : Metadata)
    : prog unit :=
  Log ctx (audit_zero <| al_TenantID := tenantID |> <| al_UserID := Some userID |>
             <| al_Action := action |> <| al_Resource := resource |>
             <| al_ResourceID := resourceID |> <| al_Success := success |>
             <| al_Metadata := metadata |>).

Definition LogClientAction (ctx : Ctx) (tenantID clientID : uuid) (action : AuditAction)
    (resource : string) (resourceID : option uuid) (success : bool) (metadata : Metadata)
    : prog unit :=
  Log ctx (audit_zero <| al_TenantID := tenantID |> <| al_ClientID := Some clientID |>
             <| al_Action := action |> <| al_Resource := resource |>
             <| al_ResourceID := resourceID |> <| al_Success := success |>
             <| al_Metadata := metadata |>).

Definition LogSystemAction (ctx : Ctx) (tenantID : uuid) (action : AuditAction)
    (resource : string) (resourceID : option uuid) (success : bool) (metadata : Metadata)
    : prog unit :=
  Log ctx (audit_zero <| al_TenantID := tenantID |> <| al_Action := action |>
             <| al_Resource := resource |> <| al_ResourceID := resourceID |>
             <| al_Success := success |> <| al_Metadata := metadata |>).

(** The page size used for a requested one. *)
Definition clamp_limit (limit : Z) : Z :=
  let limit := if limit <=? 0 then 20 else limit in
  if 100 <? limit then 100 else limit.

Definition Query (query : AuditLogQuery) : prog (PaginatedResponse AuditLog) :=
  let query := query <| aq_Limit := clamp_limit (aq_Limit query) |> in
  '(logs, total) ← wrap "failed to query audit logs" (AuditLogRepo.Query query);
  mret (NewPaginatedResponse logs (aq_Limit query) (aq_Offset query) total).

Definition GetByID (tenantID auditID : uuid) : prog AuditLog :=
  map_err (fun err => if err ==? (ErrResourceNotFound : error) then err
                      else EWrap "failed to get audit log" err)
    (AuditLogRepo.GetByID tenantID auditID).

Definition GetUserActivity (tenantID userID : uuid) (limit offset : Z)
    : prog (PaginatedResponse AuditLog) :=
  let limit := clamp_limit limit in
  '(logs, total) ← wrap "failed to get user activity"
                     (AuditLogRepo.GetUserActivity tenantID userID limit offset);
  mret (NewPaginatedResponse logs limit offset total).

Definition GetResourceActivity (tenantID : uuid) (resource : string) (resourceID : uuid)
    (limit offset : Z) : prog (PaginatedResponse AuditLog) :=
  let limit := clamp_limit limit in
  '(logs, total) ← wrap "failed to get resource activity"
                     (AuditLogRepo.GetResourceActivity tenantID resource resourceID limit offset);
  mret (NewPaginatedResponse logs limit offset total).

Definition CleanupOldLogs (olderThan : Z) : prog unit :=
  now ← Now;
  wrap "failed to cleanup old audit logs" (AuditLogRepo.DeleteOldLogs (now + wrap64 (- olderThan))).

Definition GetSecurityEvents (tenantID : uuid) (limit offset : Z)
    : prog (PaginatedResponse AuditLog) :=
  Query ((AuditLogRepo.query tenantID limit offset) <| aq_Success := Some false |>).

(** The report of GetComplianceReport, as a record of its entries. *)
Record ComplianceReport := MkComplianceReport {
  rep_period : Z * Z;
  rep_total_events : Z;
  rep_successful_events : Z;
  rep_failed_events : Z;
  rep_user_actions : Z;
  rep_client_actions : Z;
  rep_system_actions : Z;
  rep_actions : gmap string Z;
  rep_resources : gmap string Z;
  rep_users : gmap string Z
}.
#[local] Instance eta_ComplianceReport : Eta ComplianceReport := fun r =>
  MkComplianceReport (rep_period r) (rep_total_events r) (rep_successful_events r)
    (rep_failed_events r) (rep_user_actions r) (rep_client_actions r) (rep_system_actions r)
    (rep_actions r) (rep_resources r) (rep_users r).

(** m[k]++ *)
Definition count_key (k : string) (m : gmap string Z) : gmap string Z :=
  <[k := default 0 (m !! k) + 1]> m.

Definition count_log (report : ComplianceReport) (log : AuditLog) : ComplianceReport :=
  let report :=
    if al_Success log
    then report <| rep_successful_events := rep_successful_events report + 1 |>
    else report <| rep_failed_events := rep_failed_events report + 1 |> in
  let report :=
    match al_UserID log, al_ClientID log with
    | Some userID, _ =>
      report <| rep_user_actions := rep_user_actions report + 1 |>
             <| rep_users := count_key (uuid_String userID) (rep_users report) |>
    | None, Some _ => report <| rep_client_actions := rep_client_actions report + 1 |>
    | None, None => report <| rep_system_actions := rep_system_actions report + 1 |>
    end in
  report <| rep_actions := count_key (al_Action log) (rep_actions report) |>
         <| rep_resources := count_key (al_Resource log) (rep_resources report) |>.

Definition GetComplianceReport (tenantID : uuid) (startDate endDate : Z)
    : prog ComplianceReport :=
  '(logs, total) ← wrap "failed to get audit logs for compliance report"
    (AuditLogRepo.Query ((AuditLogRepo.query tenantID 1000 0)
       <| aq_StartDate := Some startDate |> <| aq_EndDate := Some endDate |>));
  mret (foldl count_log (MkComplianceReport (startDate, endDate) total 0 0 0 0 0 ∅ ∅ ∅) logs).

(** ** observability.Recorder

    [r_audit] tells whether the recorder has an audit log; a nil recorder
    is one without. *)
Record Recorder := MkRecorder { r_audit : bool }.

(** observability.Event, without the labels of the counter. *)
Record Event := MkEvent {
  e_Action : AuditAction;
  e_TenantID : uuid;
  e_UserID : option uuid;
  e_ClientID : option uuid;
  e_Resource : string;
  e_Success : bool;
  e_ErrorCode : string;
  e_Metadata : Metadata
}.

Definition write (r : Recorder) (ctx : Ctx) (entry : AuditLog) : prog unit :=
  if negb (r_audit r) then mret tt
  else
    let entry := match RequestInfoFrom ctx with
                 | Some info => entry <| al_RequestID := rq_RequestID info |>
                                      <| al_IPAddress := rq_IPAddress info |>
                                      <| al_UserAgent := rq_UserAgent info |>
                 | None => entry
                 end in
    let entry := if TraceID ctx !=? ""
                 then entry <| al_Metadata := al_Metadata entry
                                              ++ [("trace_id", MetaString (TraceID ctx))] |>
                 else entry in
    ignore (Log ctx entry).

Definition Record_ (r : Recorder) (ctx : Ctx) (ev : Event) : prog unit :=
  if e_Action ev ==? "" then mret tt
  else
    write r ctx (audit_zero <| al_TenantID := e_TenantID ev |> <| al_UserID := e_UserID ev |>
      <| al_ClientID := e_ClientID ev |> <| al_Action := e_Action ev |>
      <| al_Resource := or_default (e_Resource ev) "user" |> <| al_ResourceID := e_UserID ev |>
      <| al_Success := e_Success ev |> <| al_ErrorCode := e_ErrorCode ev |>
      <| al_Metadata := e_Metadata ev |>).

(** The audit entry of a token event; [None]: none is written. *)
Definition token_entry (ev : TokenEvent) : option AuditLog :=
  let entry := audit_zero <| al_TenantID := tv_TenantID ev |> <| al_UserID := tv_UserID ev |>
    <| al_ClientID := Some (tv_ClientID ev) |> <| al_Resource := "token" |>
    <| al_Success := true |>
    <| al_ResourceID := if tv_FamilyID ev !=? uuid_Nil then Some (tv_FamilyID ev) else None |> in
  if tv_Type ev ==? TokenEventIssued then
    Some (entry <| al_Action := AuditActionTokenGenerated |>
      <| al_Metadata := [("grant_type", MetaString (tv_GrantType ev));
                         ("scope", MetaString (tv_Scope ev))]
                        ++ (if tv_Actor ev !=? "" then [("actor", MetaString (tv_Actor ev))] else []) |>)
  else if tv_Type ev ==? TokenEventRevoked then
    Some (entry <| al_Action := AuditActionTokenRevoked |>)
  else if tv_Type ev ==? TokenEventReuseDetected then
    Some (entry <| al_Action := AuditActionTokenReuseDetected |> <| al_Success := false |>
      <| al_ErrorCode := "token_reuse" |>
      <| al_Metadata := [("credential", MetaString (tv_Credential ev))] |>)
  else None.

Definition TokenEvent_ (r : Recorder) (ctx : Ctx) (ev : TokenEvent) : prog unit :=
  match token_entry ev with Some entry => write r ctx entry | None => mret tt end.
End AuditService.
