(* ===== verification/Rbac.v ===== *)
(** internal/services/role_service_impl.go and permission_service_impl.go:
    roles, permissions and their assignment to users. Log lines are left
    out; a call whose error is only logged is [ignore]d. *)
From S2P Require Import Prelude GoStd Models Effects Store Repos RbacRepos AuditTrail.
From stdpp Require Import gmap.

Open Scope Z_scope.

(** [_, err := p] where [p] must fail with [notFound]: a found resource is a
    duplicate, any other failure is reported. *)
Definition must_be_absent {A} (notFound : sentinel) (msg : string) (p : prog A) : prog unit :=
  r ← attempt p;
  match r with
  | inl _ => throw ErrDuplicateResource
  | inr err => if err !=? (notFound : error) then throw (EWrap msg err) else mret tt
  end.

(** [if err == notFound { return nil, err }; return nil, fmt.Errorf(...)] *)
Definition or_wrapped {A} (notFound : sentinel) (msg : string) (p : prog A) : prog A :=
  map_err (fun err => if err ==? (notFound : error) then err else EWrap msg err) p.

Definition PermissionActionManage : string := "manage".

Module RoleService.
(** RoleServiceImpl; [rs_audit] tells whether there is an audit service. *)
Record RoleServiceImpl := MkRoleService { rs_audit : bool }.

Section Methods.
Context `{Env} (s : RoleServiceImpl) (ctx : Ctx).

Definition audit_system (tenantID : uuid) (action : AuditAction) (resource : string)
    (resourceID : uuid) (metadata : Metadata) : prog unit :=
  if rs_audit s
  then ignore (LogSystemAction ctx tenantID action resource (Some resourceID) true metadata)
  else mret tt.
Definition audit_user (tenantID userID : uuid) (action : AuditAction) (resource : string)
    (resourceID : uuid) (metadata : Metadata) : prog unit :=
  if rs_audit s
  then ignore (LogUserAction ctx tenantID userID action resource (Some resourceID) true metadata)
  else mret tt.

(** Grant the named permissions to a role; unknown names are skipped. *)
Fixpoint add_permissions (tenantID roleID : uuid) (names : list string) : prog unit :=
  match names with
  | [] => mret tt
  | permissionName :: names =>
    permission ← attempt (PermissionRepo.GetByName permissionName);
    match permission with
    | inr _ => add_permissions tenantID roleID names
    | inl permission =>
      id ← NewUUID;
      now ← Now;
      ignore (RolePermissionRepo.Create
                (MkRolePermission id roleID (pm_ID permission) tenantID now)) ;;
      add_permissions tenantID roleID names
    end
  end.

(** Take a role's grants away one by one. *)
Fixpoint remove_grants (roleID : uuid) (grants : list RolePermission) : prog unit :=
  match grants with
  | [] => mret tt
  | rp :: grants =>
    ignore (RolePermissionRepo.Delete roleID (rp_PermissionID rp)) ;; remove_grants roleID grants
  end.
Definition clear_permissions (roleID : uuid) : prog unit :=
  grants ← attempt (RolePermissionRepo.GetRolePermissions roleID);
  match grants with inr _ => mret tt | inl grants => remove_grants roleID grants end.

Definition Create (tenantID : uuid) (req : CreateRoleRequest) : prog Role :=
  must_be_absent ErrRoleNotFound "failed to check existing role"
    (RoleRepo.GetByName tenantID (crr_Name req)) ;;
  id ← NewUUID;
  createdAt ← Now;
  updatedAt ← Now;
  role ← wrap "failed to create role" (RoleRepo.Create
    (MkRole id tenantID (crr_Name req) (crr_DisplayName req) (crr_Description req) false true
       createdAt updatedAt None));
  add_permissions tenantID (ro_ID role) (crr_Permissions req) ;;
  audit_system tenantID AuditActionRoleCreated "role" (ro_ID role)
    [("role_name", MetaString (ro_Name role)); ("display_name", MetaString (ro_DisplayName role));
     ("permissions", MetaStrings (crr_Permissions req))] ;;
  mret role.

Definition GetByID (tenantID roleID : uuid) : prog Role :=
  or_wrapped ErrRoleNotFound "failed to get role" (RoleRepo.GetByID tenantID roleID).
Definition GetByName (tenantID : uuid) (name : string) : prog Role :=
  or_wrapped ErrRoleNotFound "failed to get role" (RoleRepo.GetByName tenantID name).

Definition Update (tenantID roleID : uuid) (req : UpdateRoleRequest) : prog Role :=
  role ← wrap "failed to get role" (RoleRepo.GetByID tenantID roleID);
  if ro_IsSystem role then throw ErrBusinessRuleViolation
  else
  let role := if urr_DisplayName req !=? "" then role <| ro_DisplayName := urr_DisplayName req |>
              else role in
  let role := if urr_Description req !=? "" then role <| ro_Description := urr_Description req |>
              else role in
  let role := match urr_IsActive req with Some b => role <| ro_IsActive := b |> | None => role end in
  now ← Now;
  role ← wrap "failed to update role" (RoleRepo.Update (role <| ro_UpdatedAt := now |>));
  match urr_Permissions req with
  | Some names => clear_permissions roleID ;; add_permissions tenantID roleID names
  | None => mret tt
  end ;;
  audit_system tenantID AuditActionRoleUpdated "role" roleID
    [("role_name", MetaString (ro_Name role)); ("display_name", MetaString (ro_DisplayName role));
     ("is_active", MetaBool (ro_IsActive role))] ;;
  mret role.

Definition Delete (tenantID roleID : uuid) : prog unit :=
  role ← wrap "failed to get role" (RoleRepo.GetByID tenantID roleID);
  if ro_IsSystem role then throw ErrBusinessRuleViolation
  else
  userRoles ← wrap "failed to check role assignments" (UserRoleRepo.GetRoleUsers tenantID roleID);
  if Nat.ltb 0 (length userRoles) then throw ErrBusinessRuleViolation
  else
  clear_permissions roleID ;;
  wrap "failed to delete role" (RoleRepo.Delete tenantID roleID) ;;
  audit_system tenantID AuditActionRoleDeleted "role" roleID
    [("role_name", MetaString (ro_Name role))].

Definition List (tenantID : uuid) (limit offset : Z) : prog (PaginatedResponse Role) :=
  '(roles, totalCount) ← wrap "failed to list roles" (RoleRepo.List tenantID limit offset);
  mret (NewPaginatedResponse roles limit offset totalCount).

Definition AddPermission (tenantID roleID permissionID grantedBy : uuid) : prog unit :=
  role ← wrap "failed to get role" (RoleRepo.GetByID tenantID roleID);
  permission ← wrap "failed to get permission" (PermissionRepo.GetByID permissionID);
  must_be_absent ErrPermissionNotFound "failed to check existing permission"
    (RolePermissionRepo.GetByRoleAndPermission roleID permissionID) ;;
  id ← NewUUID;
  now ← Now;
  wrap "failed to add permission to role"
    (RolePermissionRepo.Create (MkRolePermission id roleID permissionID grantedBy now)) ;;
  audit_user tenantID grantedBy AuditActionPermissionGranted "role" roleID
    [("role_name", MetaString (ro_Name role)); ("permission_name", MetaString (pm_Name permission))].

Definition RemovePermission (tenantID roleID permissionID : uuid) : prog unit :=
  role ← wrap "failed to get role" (RoleRepo.GetByID tenantID roleID);
  permission ← wrap "failed to get permission" (PermissionRepo.GetByID permissionID);
  wrap "failed to remove permission from role" (RolePermissionRepo.Delete roleID permissionID) ;;
  audit_system tenantID AuditActionPermissionRevoked "role" roleID
    [("role_name", MetaString (ro_Name role)); ("permission_name", MetaString (pm_Name permission))].

Fixpoint load_permissions (grants : list RolePermission) : prog (list Permission) :=
  match grants with
  | [] => mret []
  | rp :: grants =>
    permission ← attempt (PermissionRepo.GetByID (rp_PermissionID rp));
    rest ← load_permissions grants;
    mret (match permission with inl p => p :: rest | inr _ => rest end)
  end.

Definition GetPermissions (tenantID roleID : uuid) : prog (list Permission) :=
  wrap "failed to get role" (RoleRepo.GetByID tenantID roleID) ;;
  grants ← wrap "failed to get role permissions" (RolePermissionRepo.GetRolePermissions roleID);
  load_permissions grants.

Definition AssignToUser (tenantID roleID userID grantedBy : uuid) (expiresAt : option Z)
    : prog unit :=
  role ← wrap "failed to get role" (RoleRepo.GetByID tenantID roleID);
  must_be_absent ErrRoleNotFound "failed to check existing user role"
    (UserRoleRepo.GetByUserAndRole tenantID userID roleID) ;;
  id ← NewUUID;
  now ← Now;
  wrap "failed to assign role to user"
    (UserRoleRepo.Create (MkUserRole id tenantID userID roleID grantedBy now expiresAt)) ;;
  audit_user tenantID grantedBy AuditActionRoleAssigned "user" userID
    [("role_name", MetaString (ro_Name role)); ("expires_at", MetaTime expiresAt)].

Definition RevokeFromUser (tenantID roleID userID : uuid) : prog unit :=
  role ← wrap "failed to get role" (RoleRepo.GetByID tenantID roleID);
  wrap "failed to revoke role from user" (UserRoleRepo.Delete tenantID userID roleID) ;;
  audit_system tenantID AuditActionRoleRevoked "user" userID
    [("role_name", MetaString (ro_Name role))].

Fixpoint load_roles (tenantID : uuid) (userRoles : list UserRole) : prog (list Role) :=
  match userRoles with
  | [] => mret []
  | ur :: userRoles =>
    now ← Now;
    if UserRole_IsExpired now ur then load_roles tenantID userRoles
    else
      role ← attempt (RoleRepo.GetByID tenantID (ur_RoleID ur));
      match role with
      | inr _ => load_roles tenantID userRoles
      | inl role =>
        if negb (ro_IsActive role) then load_roles tenantID userRoles
        else rest ← load_roles tenantID userRoles; mret (role :: rest)
      end
  end.

Definition GetUserRoles (tenantID userID : uuid) : prog (list Role) :=
  userRoles ← wrap "failed to get user roles" (UserRoleRepo.GetUserRoles tenantID userID);
  load_roles tenantID userRoles.
End Methods.
End RoleService.

Module PermissionService.
Section Methods.
Context `{Env}.

Definition Create (req : CreatePermissionRequest) : prog Permission :=
  must_be_absent ErrPermissionNotFound "failed to check existing permission"
    (PermissionRepo.GetByName (cpr_Name req)) ;;
  id ← NewUUID;
  createdAt ← Now;
  updatedAt ← Now;
  wrap "failed to create permission" (PermissionRepo.Create
    (MkPermission id (cpr_Name req) (cpr_DisplayName req) (cpr_Description req)
       (cpr_Resource req) (cpr_Action req) false createdAt updatedAt None)).

Definition GetByID (permissionID : uuid) : prog Permission :=
  or_wrapped ErrPermissionNotFound "failed to get permission" (PermissionRepo.GetByID permissionID).
Definition GetByName (name : string) : prog Permission :=
  or_wrapped ErrPermissionNotFound "failed to get permission" (PermissionRepo.GetByName name).

Definition Update (permissionID : uuid) (req : UpdatePermissionRequest) : prog Permission :=
  p ← or_wrapped ErrPermissionNotFound "failed to get permission"
        (PermissionRepo.GetByID permissionID);
  if pm_IsSystem p then throw ErrBusinessRuleViolation
  else
  let p := if upr_DisplayName req !=? "" then p <| pm_DisplayName := upr_DisplayName req |> else p in
  let p := if upr_Description req !=? "" then p <| pm_Description := upr_Description req |> else p in
  let p := if upr_Resource req !=? "" then p <| pm_Resource := upr_Resource req |> else p in
  let p := if upr_Action req !=? "" then p <| pm_Action := upr_Action req |> else p in
  now ← Now;
  wrap "failed to update permission" (PermissionRepo.Update (p <| pm_UpdatedAt := now |>)).

Fixpoint detach (permissionID : uuid) (grants : list RolePermission) : prog unit :=
  match grants with
  | [] => mret tt
  | rp :: grants =>
    wrap "failed to detach permission from role"
      (RolePermissionRepo.Delete (rp_RoleID rp) permissionID) ;;
    detach permissionID grants
  end.

Definition Delete (permissionID : uuid) : prog unit :=
  p ← or_wrapped ErrPermissionNotFound "failed to get permission"
        (PermissionRepo.GetByID permissionID);
  if pm_IsSystem p then throw ErrBusinessRuleViolation
  else
  grants ← wrap "failed to get permission roles"
             (RolePermissionRepo.GetPermissionRoles permissionID);
  detach permissionID grants ;;
  wrap "failed to delete permission" (PermissionRepo.Delete permissionID).

Definition List (limit offset : Z) : prog (PaginatedResponse Permission) :=
  '(permissions, totalCount) ← wrap "failed to list permissions" (PermissionRepo.List limit offset);
  mret (NewPaginatedResponse permissions limit offset totalCount).

(** The inner loop of GetUserPermissions: [seen] and [permissions] are its
    state, [permissions] in reverse. *)
Fixpoint collect_grants (seen : gset uuid) (permissions : list Permission)
    (grants : list RolePermission) : prog (gset uuid * list Permission) :=
  match grants with
  | [] => mret (seen, permissions)
  | rp :: grants =>
    if bool_decide (rp_PermissionID rp ∈ seen) then collect_grants seen permissions grants
    else
      permission ← attempt (PermissionRepo.GetByID (rp_PermissionID rp));
      match permission with
      | inr err =>
        if err ==? (ErrPermissionNotFound : error) then collect_grants seen permissions grants
        else throw (EWrap "failed to get permission" err)
      | inl permission =>
        collect_grants ({[rp_PermissionID rp]} ∪ seen) (permission :: permissions) grants
      end
  end.

(** The outer loop. *)
Fixpoint collect_roles (tenantID : uuid) (seen : gset uuid) (permissions : list Permission)
    (userRoles : list UserRole) : prog (list Permission) :=
  match userRoles with
  | [] => mret (reverse permissions)
  | ur :: userRoles =>
    now ← Now;
    if UserRole_IsExpired now ur then collect_roles tenantID seen permissions userRoles
    else
      role ← attempt (RoleRepo.GetByID tenantID (ur_RoleID ur));
      match role with
      | inr err =>
        if err ==? (ErrRoleNotFound : error) then collect_roles tenantID seen permissions userRoles
        else throw (EWrap "failed to get role" err)
      | inl role =>
        if negb (ro_IsActive role) then collect_roles tenantID seen permissions userRoles
        else
          grants ← wrap "failed to get role permissions"
                     (RolePermissionRepo.GetRolePermissions (ro_ID role));
          '(seen, permissions) ← collect_grants seen permissions grants;
          collect_roles tenantID seen permissions userRoles
      end
  end.

Definition GetUserPermissions (tenantID userID : uuid) : prog (list Permission) :=
  userRoles ← wrap "failed to get user roles" (UserRoleRepo.GetUserRoles tenantID userID);
  collect_roles tenantID ∅ [] userRoles.

(** The test of HasPermission on one permission. *)
Definition grants_action (resource action : string) (p : Permission) : bool :=
  (pm_Resource p ==? resource)
  && ((pm_Action p ==? action) || (pm_Action p ==? PermissionActionManage)).

Definition HasPermission (tenantID userID : uuid) (resource action : string) : prog bool :=
  permissions ← GetUserPermissions tenantID userID;
  mret (existsb (grants_action resource action) permissions).
End Methods.
End PermissionService.
