(* ===== verification/TenantService.v ===== *)
(** internal/services/tenant_service.go and the tenant resolution of
    internal/middleware/tenant_resolver.go. Log lines are left out. *)
From S2P Require Import Prelude GoStd Models Effects Store Repos.
From stdpp Require Import gmap.
From Stdlib Require Import Ascii String.

Open Scope Z_scope.

Module TenantService.
Section Methods.
Context `{Env}.

Definition domain_taken (domain : string) : error :=
  EMessage ("tenant with domain " +:+ domain +:+ " already exists").

Definition Create (req : CreateTenantRequest) : prog Tenant :=
  if ctr_Name req ==? "" then throw (EMessage "tenant name is required")
  else if ctr_Domain req ==? "" then throw (EMessage "tenant domain is required")
  else
  existing ← attempt (TenantRepo.GetByDomain (ctr_Domain req));
  match existing with
  | inl _ => throw (domain_taken (ctr_Domain req))
  | inr _ =>
    id ← NewUUID;
    wrap "failed to create tenant" (TenantRepo.Create
      (MkTenant id (ctr_Name req) (ctr_Domain req) true time_zero time_zero None))
  end.

Definition GetByID (id : uuid) : prog Tenant := TenantRepo.GetByID id.
Definition GetByDomain (domain : string) : prog Tenant := TenantRepo.GetByDomain domain.

Definition Update (id : uuid) (req : UpdateTenantRequest) : prog Tenant :=
  tenant ← TenantRepo.GetByID id;
  let tenant := if utr_Name req !=? "" then tenant <| tn_Name := utr_Name req |> else tenant in
  tenant ←
    (if utr_Domain req !=? "" then
       existing ← attempt (TenantRepo.GetByDomain (utr_Domain req));
       let set_domain := mret (tenant <| tn_Domain := utr_Domain req |>) in
       match existing with
       | inl existing =>
         if tn_ID existing !=? id then throw (domain_taken (utr_Domain req)) else set_domain
       | inr _ => set_domain
       end
     else mret tenant);
  let tenant := match utr_IsActive req with
                | Some b => tenant <| tn_IsActive := b |> | None => tenant end in
  wrap "failed to update tenant" (TenantRepo.Update tenant).

Definition Delete (id : uuid) : prog unit :=
  TenantRepo.GetByID id ;;
  wrap "failed to delete tenant" (TenantRepo.Delete id).

Definition List (limit offset : Z) : prog (PaginatedResponse Tenant) :=
  let limit := if (limit <=? 0) || (100 <? limit) then 20 else limit in
  let offset := if offset <? 0 then 0 else offset in
  '(tenants, total) ← wrap "failed to list tenants" (TenantRepo.List limit offset);
  mret (NewPaginatedResponse tenants limit offset total).
End Methods.
End TenantService.

(** ** DomainTenantResolver *)

Definition maxCachedDomains : Z := 10000.

Definition colon : ascii := ":"%char.
Definition open_bracket : ascii := "["%char.
Definition close_bracket : ascii := "]"%char.

(** net.SplitHostPort: the host; [None]: an error. *)
Definition SplitHostPort (hostport : string) : option string :=
  match last_index_byte colon hostport with
  | None => None
  | Some i =>
    '(host, j, k) ←
      (if has_prefix "[" hostport then
         match index_byte close_bracket hostport with
         | None => None
         | Some e => if Nat.eqb (S e) i then Some (substring 1 (e - 1) hostport, 1%nat, S e)
                     else None
         end
       else
         let host := substring 0 i hostport in
         if has_byte colon host then None else Some (host, O, O));
    if has_byte open_bracket (tail_from j hostport) then None
    else if has_byte close_bracket (tail_from k hostport) then None
    else Some host
  end.

(** strings.TrimSuffix(s, ".") *)
Fixpoint trim_dot (s : string) : string :=
  match s with
  | EmptyString => EmptyString
  | String c EmptyString => if c ==? "."%char then EmptyString else s
  | String c s' => String c (trim_dot s')
  end.

(** domainEntry *)
Abbreviation domainEntry := (uuid * bool * Z)%type (only parsing).

Section Resolver.
Context `{Env} `{UnicodeTables} (ttl : Z).

Definition normalizeHost (host : string) : string :=
  let host := default host (SplitHostPort host) in
  trim_dot (ToLower (TrimSpace host)).

(** The insertion into the bounded cache. *)
Definition cache_entry (domain : string) (entry : domainEntry) (entries : gmap string domainEntry)
    : gmap string domainEntry :=
  <[domain := entry]> (if maxCachedDomains <=? Z.of_nat (size entries) then ∅ else entries).

(** What Resolve returns of an entry; [None]: no active tenant. *)
Definition entry_tenant (tenantID : uuid) (found : bool) : option uuid :=
  if found then Some tenantID else None.

(** Look the tenant up and remember the answer. *)
Definition lookup_domain (domain : string) : prog (option uuid) :=
  let remember (tenantID : uuid) (found : bool) :=
    now ← Now;
    WithDomains (fun entries => (cache_entry domain (tenantID, found, now + ttl) entries, tt)) ;;
    mret (entry_tenant tenantID found) in
  r ← attempt (TenantRepo.GetByDomain domain);
  match r with
  | inl tenant => remember (tn_ID tenant) (tn_IsActive tenant)
  | inr err => if errors_Is err ErrTenantNotFound then remember uuid_Nil false else mret None
  end.

Definition Resolve (host : string) : prog (option uuid) :=
  let domain := normalizeHost host in
  if domain ==? "" then mret None
  else
  entry ← WithDomains (fun entries => (entries, entries !! domain));
  match entry with
  | Some (tenantID, found, expires) =>
    now ← Now;
    if time_before now expires then mret (entry_tenant tenantID found) else lookup_domain domain
  | None => lookup_domain domain
  end.
End Resolver.

Example split_host : map SplitHostPort ["a.b:80"; "[::1]:80"; "::1"; "a.b"; "[a]b:1"; "a]:1"]
  = [Some "a.b"; Some "::1"; None; None; None; None].
Proof. reflexivity. Qed.
