(* ===== verification/Http.v ===== *)
(** HTTP requests and responses as the gin handlers of internal/handlers and
    internal/middleware read and write them. *)
From S2P Require Import Prelude GoStd Models Effects Libraries JwtKeys AuditTrail.

Open Scope Z_scope.

(** A request as gin presents it: parsed forms, the cookies by name, headers
    under the names the code uses, path
    parameters, the credentials of Request.BasicAuth, the body ([None]:
    reading it fails), and the values the middleware has stored under the
    keys of the gin context ([q_Redis]: whether the value under "redis" is a
    *database.RedisClient, if there is one; [q_Keys]: the string values) *)
Record Request := MkRequest {
  q_Method : string;
  q_Path : string;
  q_RequestURI : string;
  q_Host : string;
  q_Query : list (string * string);
  q_PostForm : list (string * string);
  q_Header : list (string * string);
  q_Cookies : list (string * string);
  q_Params : list (string * string);
  q_BasicAuth : option (string * string);
  q_Body : option string;
  q_ClientIP : string;
  q_UserAgent : string;
  q_Ctx : Ctx;
  q_RequestID : string;
  q_TenantID : option uuid;
  q_UserID : option uuid;
  q_ClientID : option string;
  q_Redis : option bool;
  q_Keys : list (string * string)
}.
#[export] Instance eta_Request : Eta Request := fun r =>
  MkRequest (q_Method r) (q_Path r) (q_RequestURI r) (q_Host r) (q_Query r)
    (q_PostForm r) (q_Header r) (q_Cookies r) (q_Params r) (q_BasicAuth r)
    (q_Body r) (q_ClientIP r) (q_UserAgent r) (q_Ctx r) (q_RequestID r)
    (q_TenantID r) (q_UserID r) (q_ClientID r) (q_Redis r) (q_Keys r).

(** The first value of a form field or query parameter, "" without one. *)
Fixpoint get_field (l : list (string * string)) (key : string) : string :=
  match l with
  | [] => ""
  | (k, v) :: l' => if k ==? key then v else get_field l' key
  end.
Fixpoint get_cookie (l : list (string * string)) (name : string) : option string :=
  match l with
  | [] => None
  | (k, v) :: l' => if k ==? name then Some v else get_cookie l' name
  end.

Definition Query (c : Request) (key : string) : string := get_field (q_Query c) key.
Definition PostForm (c : Request) (key : string) : string := get_field (q_PostForm c) key.
Definition GetHeader (c : Request) (key : string) : string := get_field (q_Header c) key.
Definition Param (c : Request) (key : string) : string := get_field (q_Params c) key.
(** c.Cookie, with "" for a missing cookie, as the callers that ignore its
    error use it. *)
Definition Cookie (c : Request) (name : string) : string := default "" (get_cookie (q_Cookies c) name).

(** ** Responses *)

(** The values of a gin.H passed to a template. *)
#[warnings="-register-all"]
Inductive HVal : Type :=
| HString (s : string)
| HBool (b : bool)
| HMap (l : list (string * HVal)).
Abbreviation gin_H := (list (string * HVal)) (only parsing).

(** What encoding/json emits of a struct: the fields tagged "-" are left
    out, that is, empty here. *)
Definition json_User (u : User) : User :=
  u <| us_PasswordHash := "" |> <| us_EmailVerificationCode := "" |>
    <| us_EmailVerificationExpiresAt := None |> <| us_PasswordResetToken := "" |>
    <| us_PasswordResetExpiresAt := None |> <| us_DeletedAt := None |>.
Definition json_Client (c : Client) : Client :=
  c <| cl_ClientSecret := "" |> <| cl_RegistrationAccessToken := "" |> <| cl_DeletedAt := None |>.
Definition json_InitialAccessToken (t : InitialAccessToken) : InitialAccessToken :=
  t <| ia_TokenHash := "" |>.
Definition json_items {A} (f : A -> A) (p : PaginatedResponse A) : PaginatedResponse A :=
  MkPaginatedResponse (map f (pg_Items p)) (pg_Page p).

(** The data of a management API response. *)
Inductive ApiData : Type :=
| DNone
| DMessage (message : string)
| DRole (r : Role)
| DRolePage (p : PaginatedResponse Role)
| DRoles (l : list Role)
| DPermission (p : Permission)
| DPermissionPage (p : PaginatedResponse Permission)
| DPermissions (l : list Permission)
| DTenant (t : Tenant)
| DTenantPage (p : PaginatedResponse Tenant)
| DUser (u : User)
| DUserPage (p : PaginatedResponse User)
| DClient (c : Client)
| DClientPage (p : PaginatedResponse Client)
| DMFAStatus (s : MFAStatus)
| DTOTPEnrollment (e : TOTPEnrollment)
| DRecoveryCodes (codes : list string)
| DAuditLog (l : AuditLog)
| DAuditLogPage (p : PaginatedResponse AuditLog)
| DComplianceReport (period : string * string) (r : ComplianceReport)
| DInitialAccessToken (t : InitialAccessToken) (token : string)
| DInitialAccessTokens (l : list InitialAccessToken).

(** What is sent as JSON. [PApi] is middleware.APIResponse without an error;
    the details of an error (texts for the developer of the client) are left
    out. *)
Inductive Payload : Type :=
| PApi (success : bool) (data : ApiData) (requestID : string)
| PRegistration (r : ClientRegistrationResponse)
| PError (error error_description : string)
| PErrorCode (error : string)
| PInactive
| PToken (r : TokenResponse)
| PTokenExchange (r : TokenExchangeResponse)
| PDevice (r : DeviceAuthorizationResponse)
| PIntrospection (r : IntrospectionResponse)
| PUserInfo (r : UserInfo)
| PDiscovery (r : OpenIDConfiguration)
| PJWKS (keys : list JWK)
| PApiError (code message requestID : string)
| PRateLimit (error error_description : string) (retry_after : Z)
| PHealth (status db redis : string) (timestamp : Z) (version environment : string).

Inductive Body : Type :=
| NoBody
| JSON (p : Payload)
| HTML (template : string) (data : gin_H)
| Data (contentType body : string).

(** A cookie as c.SetCookie sets it after c.SetSameSite(Lax); the Go code
    sets no other domain and always HttpOnly. *)
Record SetCookie := MkSetCookie {
  ck_Name : string;
  ck_Value : string;
  ck_MaxAge : Z;
  ck_Path : string;
  ck_Secure : bool
}.

(** The response under construction. A handler takes the one the middleware
    has prepared and returns it completed. *)
Record Response := MkResponse {
  rs_Status : Z;
  rs_Header : list (string * string);
  rs_Cookies : list SetCookie;
  rs_Body : Body;
  rs_Aborted : bool
}.
#[export] Instance eta_Response : Eta Response := fun r =>
  MkResponse (rs_Status r) (rs_Header r) (rs_Cookies r) (rs_Body r) (rs_Aborted r).

Definition blank : Response := MkResponse 200 [] [] NoBody false.

(** c.Header replaces the values a header had. *)
Definition Header (w : Response) (key value : string) : Response :=
  w <| rs_Header := (key, value) :: List.filter (fun p => p.1 !=? key) (rs_Header w) |>.
Definition add_cookie (w : Response) (c : SetCookie) : Response :=
  w <| rs_Cookies := rs_Cookies w ++ [c] |>.
Definition c_JSON (w : Response) (status : Z) (p : Payload) : Response :=
  w <| rs_Status := status |> <| rs_Body := JSON p |>.
Definition c_HTML (w : Response) (status : Z) (template : string) (data : gin_H) : Response :=
  w <| rs_Status := status |> <| rs_Body := HTML template data |>.
Definition c_Data (w : Response) (status : Z) (contentType body : string) : Response :=
  w <| rs_Status := status |> <| rs_Body := Data contentType body |>.
Definition Abort (w : Response) : Response := w <| rs_Aborted := true |>.
(** c.Redirect *)
Definition Redirect (w : Response) (status : Z) (location : string) : Response :=
  (Header w "Location" location) <| rs_Status := status |>.
Definition Location (w : Response) : string := get_field (rs_Header w) "Location".

(** c.JSON of a gin.H with "error" and "error_description". *)
Definition oauth_error (w : Response) (status : Z) (error description : string) : Response :=
  c_JSON w status (PError error description).

Definition StatusOK : Z := 200.
Definition StatusCreated : Z := 201.
Definition StatusAccepted : Z := 202.
Definition StatusNoContent : Z := 204.
Definition StatusFound : Z := 302.
Definition StatusBadRequest : Z := 400.
Definition StatusUnauthorized : Z := 401.
Definition StatusForbidden : Z := 403.
Definition StatusNotFound : Z := 404.
Definition StatusConflict : Z := 409.
Definition StatusRequestEntityTooLarge : Z := 413.
Definition StatusUnsupportedMediaType : Z := 415.
Definition StatusUnprocessableEntity : Z := 422.
Definition StatusTooManyRequests : Z := 429.
Definition StatusInternalServerError : Z := 500.
Definition StatusServiceUnavailable : Z := 503.

(** RespondWithSuccess of internal/middleware/response.go; gin writes no body
    with 204. *)
Definition RespondWithSuccess (c : Request) (w : Response) (status : Z) (data : ApiData) : Response :=
  if status =? StatusNoContent then w <| rs_Status := status |>
  else c_JSON w status (PApi true data (q_RequestID c)).

(** RespondWithError *)
Definition RespondWithError (c : Request) (w : Response) (status : Z) (code message : string)
    : Response := c_JSON w status (PApiError code message (q_RequestID c)).

(** ** The gin context keys *)

Definition GetTenantID (c : Request) : option uuid := q_TenantID c.
Definition GetRequestID (c : Request) : string := q_RequestID c.
Definition GetUserID (c : Request) : option uuid := q_UserID c.
Definition GetClientID (c : Request) : option string :=
  match q_ClientID c with
  | Some id => if id !=? "" then Some id else None
  | None => None
  end.

(** ** net/url

    [url_SetQuery u params] is url.Parse(u).String(), for a non-empty
    [params] after Query().Set of each and re-encoding; [None] when Parse
    fails. *)
Class RedirectLib := { url_SetQuery : string -> list (string * string) -> option string }.

(** A value in double quotes. *)
Definition in_quotes (s : string) : string :=
  let q := String (byte_chr 34) EmptyString in q +:+ s +:+ q.
