(* ===== verification/Scope.v ===== *)
(** internal/services/scope.go and oidc_claims.go: OAuth scope strings, and
    the user claims a scope releases. *)
From S2P Require Import Prelude GoStd StringFacts Models Effects Libraries.
From stdpp Require Import gmap.

Open Scope Z_scope.

Definition ScopeOpenID : string := "openid".
Definition ScopeProfile : string := "profile".
Definition ScopeEmail : string := "email".
Definition ScopePhone : string := "phone".

Definition ParseScope (scope : string) : list string := Fields scope.

Fixpoint scan_scopes (l : list string) (target : string) : bool :=
  match l with
  | [] => false
  | s :: l' => if s ==? target then true else scan_scopes l' target
  end.
Definition ScopeContains (scope target : string) : bool := scan_scopes (ParseScope scope) target.

(** The two loops of ScopeIsSubset over the set [allowedSet]. *)
Fixpoint collect (l : list string) (set : gset string) : gset string :=
  match l with
  | [] => set
  | s :: l' => collect l' ({[s]} ∪ set)
  end.
Fixpoint all_in (l : list string) (set : gset string) : bool :=
  match l with
  | [] => true
  | s :: l' => if negb (bool_decide (s ∈ set)) then false else all_in l' set
  end.
Definition ScopeIsSubset (requested allowed : string) : bool :=
  let allowedSet := collect (ParseScope allowed) ∅ in
  all_in (ParseScope requested) allowedSet.

Definition ValidateScopeForClient (client : Client) (requested : string) : string + error :=
  let registered := strings_Join (cl_Scopes client) in
  if TrimSpace requested ==? "" then inl registered
  else if negb (ScopeIsSubset requested registered) then inr (ErrInvalidScope : error)
  else inl (strings_Join (ParseScope requested)).

(** authContext *)
Record authContext := MkAuthContext {
  au_grantType : string;
  au_authTime : option Z;
  au_amr : list string;
  au_nonce : string
}.

Definition userClaimsForScope `{UuidLib} (user : User) (scope : string) : UserInfo :=
  let claims := MkUserInfo (uuid_String (us_ID user)) "" "" "" "" "" "" "" 0 "" None "" None in
  let claims :=
    if ScopeContains scope ScopeProfile then
      let claims := claims <| ui_Name := TrimSpace (us_FirstName user +:+ " " +:+ us_LastName user) |> in
      let claims := if ui_Name claims ==? "" then claims <| ui_Name := us_Username user |> else claims in
      let claims := claims <| ui_GivenName := us_FirstName user |>
                           <| ui_FamilyName := us_LastName user |>
                           <| ui_PreferredUsername := us_Username user |>
                           <| ui_Picture := us_Avatar user |>
                           <| ui_Locale := us_Locale user |>
                           <| ui_Zoneinfo := us_Timezone user |> in
      if negb (time_is_zero (us_UpdatedAt user))
      then claims <| ui_UpdatedAt := time_unix (us_UpdatedAt user) |> else claims
    else claims in
  let claims :=
    if ScopeContains scope ScopeEmail then
      claims <| ui_Email := us_Email user |> <| ui_EmailVerified := Some (us_EmailVerified user) |>
    else claims in
  if ScopeContains scope ScopePhone && (us_PhoneNumber user !=? "") then
    claims <| ui_PhoneNumber := us_PhoneNumber user |>
           <| ui_PhoneNumberVerified := Some (us_PhoneVerified user) |>
  else claims.

(** ** The scopes of a string as a set *)

Lemma scan_scopes_elem l t : scan_scopes l t = true <-> t ∈ l.
Proof.
  induction l as [|s l IH]; simpl; [set_solver|].
  rewrite elem_of_cons, <-IH. case_bool_decide; naive_solver.
Qed.

Lemma ScopeContains_elem scope t : ScopeContains scope t = true <-> t ∈ ParseScope scope.
Proof. apply scan_scopes_elem. Qed.

Lemma elem_of_collect l X s : s ∈ collect l X <-> s ∈ l \/ s ∈ X.
Proof. revert X. induction l as [|x l IH]; intros X; simpl; [set_solver|]. rewrite IH. set_solver. Qed.

Lemma all_in_spec l X : all_in l X = true <-> forall s, s ∈ l -> s ∈ X.
Proof.
  induction l as [|x l IH]; simpl; [set_solver|].
  case_bool_decide; simpl; [rewrite IH|]; set_solver.
Qed.

Lemma ScopeIsSubset_elem r a :
  ScopeIsSubset r a = true <-> forall s, s ∈ ParseScope r -> s ∈ ParseScope a.
Proof.
  unfold ScopeIsSubset. rewrite all_in_spec. setoid_rewrite elem_of_collect. set_solver.
Qed.

Lemma ScopeIsSubset_trans a b c :
  ScopeIsSubset a b = true -> ScopeIsSubset b c = true -> ScopeIsSubset a c = true.
Proof. rewrite !ScopeIsSubset_elem. auto. Qed.

(** Splitting what was granted gives back the requested scopes. *)
Lemma ParseScope_Join_ParseScope s : ParseScope (strings_Join (ParseScope s)) = ParseScope s.
Proof. apply Fields_Join_Fields. Qed.

(** The scopes a client may be granted: its registered scopes, when each is
    one scope token. *)
Lemma ParseScope_registered client :
  Forall field (cl_Scopes client) -> ParseScope (strings_Join (cl_Scopes client)) = cl_Scopes client.
Proof. apply Fields_Join. Qed.

Lemma all_in_false l X : all_in l X = false -> exists s, s ∈ l /\ s ∉ X.
Proof.
  induction l as [|x l IH]; simpl; [done|]. case_bool_decide; simpl.
  - intros (s & ? & ?)%IH. exists s. set_solver.
  - intros _. exists x. set_solver.
Qed.

Lemma ScopeIsSubset_false r a :
  ScopeIsSubset r a = false -> exists s, s ∈ ParseScope r /\ s ∉ ParseScope a.
Proof.
  intros (s & Hs & Ha)%all_in_false. exists s. split; [done|].
  rewrite elem_of_collect in Ha. set_solver.
Qed.

Lemma ValidateScopeForClient_bound client sc g :
  ValidateScopeForClient client sc = inl g ->
  forall x, x ∈ ParseScope sc -> x ∈ ParseScope (strings_Join (cl_Scopes client)).
Proof.
  unfold ValidateScopeForClient. destruct (TrimSpace sc ==? "") eqn:E.
  - bool_simp. intros _ x. unfold ParseScope at 1. rewrite TrimSpace_empty by done. set_solver.
  - destruct (ScopeIsSubset _ _) eqn:Es; [|done]. intros _. by apply ScopeIsSubset_elem.
Qed.

(** Scope validation grants exactly what was asked for, in the requested
    order, or the whole registered set when nothing was asked for; everything
    it grants is registered, and it fails, with ErrInvalidScope, only on a
    request that names an unregistered scope. *)
Theorem ValidateScopeForClient_spec (client : Client) (requested : string)
    (Hreg : Forall field (cl_Scopes client)) :
  match ValidateScopeForClient client requested with
  | inl granted =>
    ParseScope granted =
      (if TrimSpace requested ==? "" then cl_Scopes client else ParseScope requested)
    /\ forall x, ScopeContains granted x = true -> HasScope client x = true
  | inr e =>
    e = ErrInvalidScope /\
    exists x, ScopeContains requested x = true /\ HasScope client x = false
  end.
Proof.
  unfold ValidateScopeForClient, HasScope. destruct (TrimSpace requested ==? "").
  { rewrite ParseScope_registered by done. split; [done|]. intros x.
    rewrite ScopeContains_elem, ParseScope_registered, contains_elem_of by done. done. }
  destruct (ScopeIsSubset _ _) eqn:E; simpl.
  - rewrite ParseScope_Join_ParseScope. split; [done|]. intros x.
    rewrite ScopeContains_elem, ParseScope_Join_ParseScope, contains_elem_of.
    rewrite ScopeIsSubset_elem in E. rewrite <-(ParseScope_registered client) by done. apply E.
  - split; [done|]. destruct (ScopeIsSubset_false _ _ E) as (x & Hx & Hn). exists x.
    rewrite ScopeContains_elem. split; [done|]. apply not_true_iff_false.
    rewrite contains_elem_of. by rewrite ParseScope_registered in Hn.
Qed.

(** A client registered for three scopes. *)
Definition example_client (scopes : list string) : Client := {|
  cl_ID := 7; cl_TenantID := 1; cl_ClientID := "client_app"; cl_ClientSecret := "";
  cl_PlainClientSecret := ""; cl_Name := "app"; cl_RedirectURIs := ["https://app/cb"];
  cl_PostLogoutRedirectURIs := []; cl_GrantTypes := [GrantTypeAuthorizationCode];
  cl_Scopes := scopes; cl_IsPublic := true; cl_TokenEndpointAuthMethod := TokenEndpointAuthNone;
  cl_DynamicallyRegistered := false; cl_RegistrationAccessToken := ""; cl_CreatedAt := 0;
  cl_UpdatedAt := 0; cl_DeletedAt := None |}.

Lemma ValidateScopeForClient_spec_witness :
  let c := example_client ["openid"; "read"; "write"] in
  ValidateScopeForClient c " write  read " = inl "write read" /\
  ValidateScopeForClient c "read admin" = inr (ErrInvalidScope : error) /\
  exists x, ScopeContains "read admin" x = true /\ HasScope c x = false.
Proof.
  split; [vm_compute; reflexivity|]. split; [vm_compute; reflexivity|].
  pose proof (ValidateScopeForClient_spec (example_client ["openid"; "read"; "write"]) "read admin") as W.
  assert (ValidateScopeForClient (example_client ["openid"; "read"; "write"]) "read admin"
          = inr (ErrInvalidScope : error)) as E by (vm_compute; reflexivity).
  rewrite E in W. apply W. by apply are_fields.
Defined.
