(* ===== verification/AuthService.v ===== *)
(** internal/services/auth_service_impl.go: issuing, refreshing, revoking,
    introspecting and validating tokens. Log lines are left out, except for
    the slice expression in one of them, which could panic. *)
From S2P Require Import Prelude GoStd Hash Models Effects Store Repos AccountRepos.
From S2P Require Import Libraries JwtKeys Scope.

Open Scope Z_scope.

(** authServiceImpl; [as_events] tells whether a sink is configured. *)
Record authServiceImpl := MkAuthService {
  as_config : Config;
  as_keys : KeySet;
  as_events : bool
}.

(** crypto/subtle.ConstantTimeCompare(a, b) == 1 *)
Definition ConstantTimeCompare (a b : string) : bool := a ==? b.

Definition hashToken (token : string) : string := base64_raw_url (sha256 token).

Definition userRef (userID : uuid) : option uuid :=
  if userID ==? uuid_Nil then None else Some userID.

Definition ValidatePKCE (codeVerifier codeChallenge method : string) : bool :=
  if method !=? "S256" then false
  else let computed := base64_raw_url (sha256 codeVerifier) in
       ConstantTimeCompare computed codeChallenge.

Section Service.
Context `{Env} `{UuidLib} `{JwtLib} `{UnicodeTables} (s : authServiceImpl).

Definition emit (ev : TokenEvent) : prog unit :=
  if as_events s then EmitEvent ev else mret tt.

(** A TokenEvent with the given fields set and the others zero. *)
Definition token_event (ty : string) (tenantID clientID : uuid) : TokenEvent :=
  MkTokenEvent ty tenantID clientID None "" "" uuid_Nil "" "".

Definition randomToken (length : nat) : prog string :=
  bytes ← RandRead length;
  mret (base64_raw_url bytes).
Definition generateRandomString (length : nat) : prog string := randomToken length.

Definition accessTokenAudience : string := cfg_ServerURL (as_config s).

Definition generateJWT (tenantID : uuid) (client : Client) (userID : uuid)
    (scope : string) (duration : Z) : prog string :=
  now ← Now;
  jti ← NewUUID;
  let claims := {|
    jc_Jti := uuid_String jti; jc_Sub := cl_ClientID client; jc_Aud := accessTokenAudience;
    jc_Iss := cfg_ServerURL (as_config s);
    jc_Exp := time_unix (now + duration); jc_Iat := time_unix now;
    jc_TenantID := uuid_String tenantID; jc_Scope := scope; jc_ClientID := cl_ClientID client;
    jc_UserID := ""; jc_Email := ""; jc_Name := ""; jc_Act := None |} in
  let claims := if userID !=? uuid_Nil
                then claims <| jc_Sub := uuid_String userID |> <| jc_UserID := uuid_String userID |>
                else claims in
  SignTyped (as_keys s) (AccessClaims claims) TypeAccessToken.

Definition GenerateIDToken (user : User) (params : IDTokenParams) : prog string :=
  now ← Now;
  let claims := {|
    ic_UserInfo := userClaimsForScope user (ip_Scope params);
    ic_Iss := cfg_ServerURL (as_config s); ic_Aud := ip_ClientID params;
    ic_Exp := time_unix (now + cfg_IDTokenDuration (as_config s)); ic_Iat := time_unix now;
    ic_AuthTime := 0; ic_AMR := []; ic_Nonce := ip_Nonce params; ic_AtHash := "";
    ic_TenantID := uuid_String (us_TenantID user) |} in
  let claims := match ip_AuthTime params with
                | Some t => if negb (time_is_zero t) then claims <| ic_AuthTime := time_unix t |> else claims
                | None => claims
                end in
  let claims := match ip_AMR params with [] => claims | amr => claims <| ic_AMR := amr |> end in
  let claims := if ip_AccessToken params !=? ""
                then claims <| ic_AtHash := TokenHash (ip_AccessToken params) |> else claims in
  Sign (as_keys s) (IDClaims claims).

Definition GenerateAuthorizationCode (tenantID clientID userID : uuid)
    (redirectURI scope codeChallenge codeChallengeMethod nonce : string) (authTime : Z)
    (amr : list string) : prog AuthorizationCode :=
  code ← wrap "failed to generate authorization code" (generateRandomString 32);
  id ← NewUUID;
  now ← Now;
  let authCode := {|
    ac_ID := id; ac_TenantID := tenantID; ac_Code := code; ac_ClientID := clientID;
    ac_UserID := userID; ac_RedirectURI := redirectURI; ac_Scope := scope;
    ac_CodeChallenge := codeChallenge; ac_CodeChallengeMethod := codeChallengeMethod;
    ac_Nonce := nonce; ac_AuthTime := Some authTime; ac_AMR := amr; ac_UsedAt := None;
    ac_ExpiresAt := now + cfg_AuthorizationCodeDuration (as_config s);
    ac_CreatedAt := time_zero |} in
  authCode ← wrap "failed to store authorization code" (AuthCodeRepo.Create authCode);
  or_panic (slice_to code 8) ;; (* the log line's code[:8] *)
  mret authCode.

Definition revokeTokenFamily (tenantID familyID : uuid) : prog unit :=
  ignore (RefreshTokenRepo.DeleteByFamilyID tenantID familyID) ;;
  ignore (AccessTokenRepo.DeleteByFamilyID tenantID familyID).

Definition issueTokens (tenantID : uuid) (client : Client) (userID : uuid) (scope : string)
    (familyID : uuid) (includeRefreshToken includeIDToken : bool) (auth : authContext)
    : prog TokenResponse :=
  let clientID := cl_ID client in
  let duration := cfg_AccessTokenDuration (as_config s) in
  accessToken ← wrap "failed to generate access token"
    (generateJWT tenantID client userID scope duration);
  id ← NewUUID;
  now ← Now;
  wrap "failed to store access token" (AccessTokenRepo.Create {|
    at_ID := id; at_TenantID := tenantID; at_Token := hashToken accessToken;
    at_ClientID := clientID; at_UserID := userID; at_FamilyID := familyID; at_Scope := scope;
    at_ExpiresAt := now + duration; at_CreatedAt := time_zero |}) ;;
  let response := MkTokenResponse accessToken "Bearer" (dur_seconds duration) "" "" scope in
  response ←
    (if includeRefreshToken then
       refreshTokenStr ← wrap "failed to generate refresh token" (generateRandomString 64);
       id ← NewUUID;
       now ← Now;
       wrap "failed to store refresh token" (RefreshTokenRepo.Create {|
         rt_ID := id; rt_TenantID := tenantID; rt_Token := hashToken refreshTokenStr;
         rt_ClientID := clientID; rt_UserID := userID; rt_FamilyID := familyID;
         rt_Scope := scope; rt_AuthTime := au_authTime auth; rt_AMR := au_amr auth;
         rt_RevokedAt := None; rt_ExpiresAt := now + cfg_RefreshTokenDuration (as_config s);
         rt_CreatedAt := time_zero |}) ;;
       mret (response <| tr_RefreshToken := refreshTokenStr |>)
     else mret response);
  response ←
    (if includeIDToken && ScopeContains scope ScopeOpenID then
       user ← wrap "failed to load user for ID token" (UserRepo.GetByID tenantID userID);
       idToken ← wrap "failed to generate ID token" (GenerateIDToken user {|
         ip_ClientID := cl_ClientID client; ip_Scope := scope; ip_Nonce := au_nonce auth;
         ip_AuthTime := au_authTime auth; ip_AMR := au_amr auth; ip_AccessToken := accessToken |});
       mret (response <| tr_IDToken := idToken |>)
     else mret response);
  emit ((token_event TokenEventIssued tenantID clientID)
          <| tv_UserID := userRef userID |> <| tv_GrantType := au_grantType auth |>
          <| tv_Scope := scope |> <| tv_FamilyID := familyID |>) ;;
  mret response.

Definition ExchangeAuthorizationCode (tenantID : uuid)
    (code clientID clientSecret redirectURI codeVerifier : string) : prog TokenResponse :=
  consumed ← attempt (AuthCodeRepo.Consume tenantID code);
  match consumed with
  | inr _ => throw ErrInvalidGrant
  | inl (authCode, Some err) =>
    (if err ==? (ErrAuthCodeAlreadyUsed : error) then
       revokeTokenFamily tenantID (ac_ID authCode) ;;
       emit ((token_event TokenEventReuseDetected tenantID (ac_ClientID authCode))
               <| tv_UserID := userRef (ac_UserID authCode) |>
               <| tv_FamilyID := ac_ID authCode |>
               <| tv_Credential := CredentialAuthorizationCode |>)
     else mret tt) ;;
    throw ErrInvalidGrant
  | inl (authCode, None) =>
    now ← Now;
    if AuthorizationCode_IsExpired now authCode then
      ignore (AuthCodeRepo.Delete tenantID code) ;; throw ErrInvalidGrant
    else if uuid_String (ac_ClientID authCode) !=? clientID then throw ErrInvalidGrant
    else if ac_RedirectURI authCode !=? redirectURI then throw ErrInvalidGrant
    else if (ac_CodeChallenge authCode !=? "") && (codeVerifier ==? "") then
      throw ErrPKCEVerificationFailed
    else if (ac_CodeChallenge authCode !=? "")
            && negb (ValidatePKCE codeVerifier (ac_CodeChallenge authCode)
                       (ac_CodeChallengeMethod authCode)) then
      throw ErrPKCEVerificationFailed
    else
      client ← or_err ErrInvalidGrant (ClientRepo.GetByID tenantID (ac_ClientID authCode));
      let auth := MkAuthContext GrantTypeAuthorizationCode (ac_AuthTime authCode)
                    (ac_AMR authCode) (ac_Nonce authCode) in
      issueTokens tenantID client (ac_UserID authCode) (ac_Scope authCode) (ac_ID authCode)
        true true auth
  end.

Definition GenerateTokens (tenantID clientID userID : uuid) (scope : string)
    (includeIDToken : bool) : prog TokenResponse :=
  client ← wrap "failed to load client" (ClientRepo.GetByID tenantID clientID);
  family ← NewUUID;
  issueTokens tenantID client userID scope family true includeIDToken
    (MkAuthContext "" None [] "").

Definition GenerateClientCredentialsTokens (tenantID : uuid) (client : Client) (scope : string)
    : prog TokenResponse :=
  let duration := cfg_AccessTokenDuration (as_config s) in
  accessToken ← wrap "failed to generate access token"
    (generateJWT tenantID client uuid_Nil scope duration);
  id ← NewUUID;
  family ← NewUUID;
  now ← Now;
  wrap "failed to store access token" (AccessTokenRepo.Create {|
    at_ID := id; at_TenantID := tenantID; at_Token := hashToken accessToken;
    at_ClientID := cl_ID client; at_UserID := uuid_Nil; at_FamilyID := family; at_Scope := scope;
    at_ExpiresAt := now + duration; at_CreatedAt := time_zero |}) ;;
  emit ((token_event TokenEventIssued tenantID (cl_ID client))
          <| tv_GrantType := GrantTypeClientCredentials |> <| tv_Scope := scope |>
          <| tv_FamilyID := family |>) ;;
  mret (MkTokenResponse accessToken "Bearer" (dur_seconds duration) "" "" scope).

Definition refreshTokenReused (tenantID : uuid) (token : RefreshToken) : prog unit :=
  revokeTokenFamily tenantID (rt_FamilyID token) ;;
  emit ((token_event TokenEventReuseDetected tenantID (rt_ClientID token))
          <| tv_UserID := userRef (rt_UserID token) |> <| tv_FamilyID := rt_FamilyID token |>
          <| tv_Credential := CredentialRefreshToken |>).

Definition RefreshTokens (tenantID : uuid) (refreshToken clientID requestedScope : string)
    : prog TokenResponse :=
  token ← or_err ErrInvalidGrant (RefreshTokenRepo.GetByToken tenantID (hashToken refreshToken));
  if RefreshToken_IsRevoked token then
    refreshTokenReused tenantID token ;; throw ErrInvalidGrant
  else
  now ← Now;
  if RefreshToken_IsExpired now token then
    ignore (RefreshTokenRepo.Delete tenantID (hashToken refreshToken)) ;; throw ErrInvalidGrant
  else if uuid_String (rt_ClientID token) !=? clientID then throw ErrInvalidGrant
  else if (requestedScope !=? "") && negb (ScopeIsSubset requestedScope (rt_Scope token)) then
    throw ErrInvalidScope
  else
  let scope := if requestedScope !=? "" then requestedScope else rt_Scope token in
  client ← or_err ErrInvalidGrant (ClientRepo.GetByID tenantID (rt_ClientID token));
  claimed ← wrap "failed to rotate refresh token"
    (RefreshTokenRepo.Revoke tenantID (rt_Token token));
  if negb claimed then
    refreshTokenReused tenantID token ;; throw ErrInvalidGrant
  else
  tokenResponse ← issueTokens tenantID client (rt_UserID token) scope (rt_FamilyID token) true true
    (MkAuthContext GrantTypeRefreshToken (rt_AuthTime token) (rt_AMR token) "");
  still ← attempt (RefreshTokenRepo.GetByToken tenantID (rt_Token token));
  match still with
  | inr err =>
    if negb (errors_Is err ErrRefreshTokenNotFound) then
      throw (EWrap "failed to confirm refresh token rotation" err)
    else
      revokeTokenFamily tenantID (rt_FamilyID token) ;; throw ErrInvalidGrant
  | inl _ => mret tokenResponse
  end.

Definition RevokeToken (tenantID : uuid) (token tokenTypeHint : string)
    (requestingClientID : uuid) : prog unit :=
  let tokenHash := hashToken token in
  found ←
    (if (tokenTypeHint ==? "refresh_token") || (tokenTypeHint ==? "")
     then attempt (RefreshTokenRepo.GetByToken tenantID tokenHash)
     else mret (inr (ErrRefreshTokenNotFound : error)));
  match found with
  | inl refreshToken =>
    if rt_ClientID refreshToken !=? requestingClientID then mret tt
    else
      revokeTokenFamily tenantID (rt_FamilyID refreshToken) ;;
      emit ((token_event TokenEventRevoked tenantID (rt_ClientID refreshToken))
              <| tv_UserID := userRef (rt_UserID refreshToken) |>
              <| tv_FamilyID := rt_FamilyID refreshToken |>)
  | inr _ =>
    found ←
      (if (tokenTypeHint ==? "access_token") || (tokenTypeHint ==? "")
       then attempt (AccessTokenRepo.GetByToken tenantID tokenHash)
       else mret (inr (ErrAccessTokenNotFound : error)));
    match found with
    | inl accessToken =>
      if at_ClientID accessToken !=? requestingClientID then mret tt
      else
        deleted ← attempt (AccessTokenRepo.Delete tenantID tokenHash);
        match deleted with
        | inr _ => mret tt
        | inl _ =>
          emit ((token_event TokenEventRevoked tenantID (at_ClientID accessToken))
                  <| tv_UserID := userRef (at_UserID accessToken) |>
                  <| tv_FamilyID := at_FamilyID accessToken |>)
        end
    | inr _ => mret tt
    end
  end.

Definition inactive : IntrospectionResponse :=
  MkIntrospectionResponse false "" "" "" "" "" 0 0 "".

Definition IntrospectToken (tenantID : uuid) (token : string) : prog IntrospectionResponse :=
  found ← attempt (AccessTokenRepo.GetByToken tenantID (hashToken token));
  match found with
  | inr _ => mret inactive
  | inl accessToken =>
    now ← Now;
    if AccessToken_IsExpired now accessToken then mret inactive
    else
    client ← attempt (ClientRepo.GetByID tenantID (at_ClientID accessToken));
    match client with
    | inr _ => mret inactive
    | inl client =>
      let response := {|
        ir_Active := true; ir_Scope := at_Scope accessToken; ir_ClientID := cl_ClientID client;
        ir_TokenType := "Bearer"; ir_Sub := ""; ir_UserID := "";
        ir_Exp := time_unix (at_ExpiresAt accessToken);
        ir_Iat := time_unix (at_CreatedAt accessToken);
        ir_Iss := cfg_ServerURL (as_config s) |} in
      mret (if at_UserID accessToken !=? uuid_Nil
            then response <| ir_Sub := uuid_String (at_UserID accessToken) |>
                          <| ir_UserID := uuid_String (at_UserID accessToken) |>
            else response)
    end
  end.

Definition ValidateAccessToken (tenantID : uuid) (tokenString : string) : prog JWTClaims :=
  r ← Parse (as_keys s) JWTClaimsType
        (MkParserOptions [] (Some (cfg_ServerURL (as_config s))) (Some accessTokenAudience) true false)
        tokenString;
  '(token, claims) ← from_sum r;
  match claims with
  | AccessClaims claims =>
    if negb (tk_Valid token) then throw (EMessage "invalid token")
    else if negb (HasType token TypeAccessToken) then throw ErrInvalidToken
    else if jc_TenantID claims !=? uuid_String tenantID then throw ErrTenantMismatch
    else
      or_err ErrRevokedToken (AccessTokenRepo.GetByToken tenantID (hashToken tokenString)) ;;
      mret claims
  | IDClaims _ => throw (EMessage "invalid token")
  end.

Definition GetUserInfo (tenantID : uuid) (accessToken : string) : prog UserInfo :=
  claims ← ValidateAccessToken tenantID accessToken;
  if negb (ScopeContains (jc_Scope claims) ScopeOpenID) then throw ErrInsufficientScope
  else
    userID ← from_opt ErrInvalidToken (uuid_Parse (jc_UserID claims));
    user ← UserRepo.GetByID tenantID userID;
    mret (userClaimsForScope user (jc_Scope claims)).

Definition ParseIDTokenHint (idToken : string) : prog IDTokenClaims :=
  r ← Parse (as_keys s) IDTokenClaimsType (MkParserOptions [] None None false true) idToken;
  match r with
  | inr _ => throw ErrInvalidToken
  | inl (token, claims) =>
    if HasType token TypeAccessToken then throw ErrInvalidToken
    else match claims with
         | IDClaims claims =>
           if ic_Iss claims !=? cfg_ServerURL (as_config s) then throw ErrInvalidToken
           else mret claims
         | AccessClaims _ => throw ErrInvalidToken (* the library filled in [claims] *)
         end
  end.

Definition GetDiscoveryDocument : prog OpenIDConfiguration :=
  let base := cfg_ServerURL (as_config s) in
  let clientAuthMethods := ["client_secret_basic"; "client_secret_post"] in
  mret {|
    oc_Issuer := base;
    oc_AuthorizationEndpoint := base +:+ "/oauth/authorize";
    oc_TokenEndpoint := base +:+ "/oauth/token";
    oc_UserInfoEndpoint := base +:+ "/userinfo";
    oc_JwksURI := base +:+ "/.well-known/jwks.json";
    oc_RevocationEndpoint := base +:+ "/oauth/revoke";
    oc_IntrospectionEndpoint := base +:+ "/oauth/introspect";
    oc_DeviceAuthorizationEndpoint := base +:+ "/oauth/device_authorization";
    oc_RegistrationEndpoint := base +:+ "/oauth/register";
    oc_EndSessionEndpoint := base +:+ "/oauth/logout";
    oc_ScopesSupported := [ScopeOpenID; ScopeProfile; ScopeEmail; ScopePhone; "read"; "write"];
    oc_ResponseTypesSupported := ["code"];
    oc_ResponseModesSupported := ["query"];
    oc_GrantTypesSupported := ["authorization_code"; "refresh_token"; "client_credentials";
                               GrantTypeDeviceCode; GrantTypeTokenExchange];
    oc_SubjectTypesSupported := ["public"];
    oc_IDTokenSigningAlgValuesSupported := [Algorithm (as_keys s)];
    oc_TokenEndpointAuthMethodsSupported := clientAuthMethods ++ ["none"];
    oc_RevocationEndpointAuthMethodsSupported := clientAuthMethods;
    oc_IntrospectionEndpointAuthMethodsSupported := clientAuthMethods;
    oc_CodeChallengeMethodsSupported := ["S256"];
    oc_PromptValuesSupported := ["none"; "login"; "consent"; "select_account"];
    oc_ClaimsSupported :=
      ["sub"; "iss"; "aud"; "exp"; "iat"; "auth_time"; "amr"; "nonce"; "at_hash"; "tenant_id";
       "name"; "given_name"; "family_name"; "preferred_username"; "picture"; "locale"; "zoneinfo";
       "updated_at"; "email"; "email_verified"; "phone_number"; "phone_number_verified"];
    oc_ClaimsParameterSupported := false;
    oc_RequestParameterSupported := false;
    oc_RequestURIParameterSupported := false;
    oc_AuthorizationResponseIssParameterSupported := true |}.

Definition GetJWKS : prog (list JWK) := or_panic (JWKS (as_keys s)).

Definition CleanupExpiredTokens : prog unit :=
  ignore AuthCodeRepo.DeleteExpired ;;
  ignore AccessTokenRepo.DeleteExpired ;;
  ignore RefreshTokenRepo.DeleteExpired ;;
  ignore DeviceCodeRepo.DeleteExpired ;;
  ignore EmailVerificationRepo.DeleteExpired ;;
  ignore PasswordResetRepo.DeleteExpired.
End Service.
