(* ===== verification/DeviceFlow.v ===== *)
(** internal/services/device_token_exchange.go: the device authorization
    grant (RFC 8628) and token exchange (RFC 8693). *)
From S2P Require Import Prelude GoStd Models Effects Store Repos.
From S2P Require Import Libraries JwtKeys Scope AuthService.
From Stdlib Require Import Ascii.

Open Scope Z_scope.

Definition userCodeCharset : string := "BCDFGHJKLMNPQRSTVWXZ".
Definition userCodeLength : nat := 8.

Definition NormalizeUserCode `{UnicodeTables} (code : string) : string :=
  let code := ToUpper (TrimSpace code) in
  let code := remove_byte "-"%char code in
  remove_byte " "%char code.

Definition FormatUserCode (code : string) : string :=
  if bool_decide (String.length code = userCodeLength)
  then String.substring 0 4 code +:+ "-" +:+ String.substring 4 (String.length code - 4) code
  else code.

Section Service.
Context `{Env} `{UuidLib} `{JwtLib} `{UnicodeTables} (s : authServiceImpl).

(** The loop of generateUserCode over the remaining [n] bytes. *)
Fixpoint user_code_loop (n : nat) : prog string :=
  match n with
  | O => mret ""
  | S n' =>
    i ← RandInt (Z.of_nat (String.length userCodeCharset));
    rest ← user_code_loop n';
    mret (String (char_at userCodeCharset i) rest)
  end.
Definition generateUserCode : prog string := user_code_loop userCodeLength.

Definition CreateDeviceAuthorization (tenantID : uuid) (client : Client) (scope : string)
    : prog DeviceAuthorizationResponse :=
  deviceCode ← generateRandomString 48;
  userCode ← generateUserCode;
  let interval := if cfg_DeviceCodePollInterval (as_config s) <=? 0 then 5
                  else cfg_DeviceCodePollInterval (as_config s) in
  let duration := if cfg_DeviceCodeDuration (as_config s) <=? 0 then 10 * minute
                  else cfg_DeviceCodeDuration (as_config s) in
  id ← NewUUID;
  now ← Now;
  DeviceCodeRepo.Create {|
    dc_ID := id; dc_TenantID := tenantID; dc_DeviceCode := hashToken deviceCode;
    dc_UserCode := userCode; dc_ClientID := cl_ID client; dc_UserID := None; dc_Scope := scope;
    dc_Status := DeviceCodePending; dc_Interval := interval; dc_LastPolledAt := None;
    dc_AuthTime := None; dc_AMR := []; dc_ExpiresAt := now + duration;
    dc_CreatedAt := time_zero |} ;;
  let verificationURI := cfg_ServerURL (as_config s) +:+ "/oauth/device" in
  let displayCode := FormatUserCode userCode in
  mret (MkDeviceAuthorizationResponse deviceCode displayCode verificationURI
          (verificationURI +:+ "?user_code=" +:+ displayCode) (dur_seconds duration) interval).

Definition resolveDeviceCode (tenantID : uuid) (userCode : string)
    (decide : DeviceCode -> prog DeviceCode) : prog unit :=
  dc ← or_err ErrDeviceCodeNotFound
         (DeviceCodeRepo.GetByUserCode tenantID (NormalizeUserCode userCode));
  now ← Now;
  if DeviceCode_IsExpired now dc then throw ErrExpiredDeviceCode
  else if dc_Status dc !=? DeviceCodePending then throw ErrDeviceCodeNotFound
  else dc ← decide dc; DeviceCodeRepo.Update dc ;; mret tt.

Definition ApproveDeviceCode (tenantID : uuid) (userCode : string) (userID : uuid)
    (amr : list string) : prog unit :=
  resolveDeviceCode tenantID userCode (fun dc =>
    now ← Now;
    mret (dc <| dc_Status := DeviceCodeApproved |> <| dc_UserID := Some userID |>
             <| dc_AuthTime := Some now |> <| dc_AMR := amr |>)).

Definition DenyDeviceCode (tenantID : uuid) (userCode : string) : prog unit :=
  resolveDeviceCode tenantID userCode (fun dc => mret (dc <| dc_Status := DeviceCodeDenied |>)).

Definition ExchangeDeviceCode (tenantID : uuid) (client : Client) (deviceCode : string)
    : prog TokenResponse :=
  dc ← or_err ErrInvalidGrant (DeviceCodeRepo.GetByDeviceCode tenantID (hashToken deviceCode));
  if dc_ClientID dc !=? cl_ID client then throw ErrInvalidGrant
  else
  now ← Now;
  if DeviceCode_IsExpired now dc then
    ignore (DeviceCodeRepo.Delete tenantID (dc_DeviceCode dc)) ;; throw ErrExpiredDeviceCode
  else
  now ← Now;
  let tooFast := match dc_LastPolledAt dc with
                 | Some t => time_sub now t <? wrap64 (dc_Interval dc * second)
                 | None => false
                 end in
  let dc := dc <| dc_LastPolledAt := Some now |> in
  ignore (DeviceCodeRepo.Update dc) ;;
  if tooFast : bool then throw ErrSlowDown
  else if dc_Status dc ==? DeviceCodePending then throw ErrAuthorizationPending
  else if dc_Status dc ==? DeviceCodeDenied then
    ignore (DeviceCodeRepo.Delete tenantID (dc_DeviceCode dc)) ;; throw ErrDeviceAccessDenied
  else if dc_Status dc ==? DeviceCodeApproved then
    match dc_UserID dc with
    | None => throw ErrInvalidGrant
    | Some userID =>
      or_err ErrInvalidGrant (DeviceCodeRepo.Delete tenantID (dc_DeviceCode dc)) ;;
      issueTokens s tenantID client userID (dc_Scope dc) (dc_ID dc) true true
        (MkAuthContext GrantTypeDeviceCode (dc_AuthTime dc) (dc_AMR dc) "")
    end
  else throw ErrInvalidGrant.

Definition ExchangeToken (tenantID : uuid) (client : Client)
    (subjectToken subjectTokenType requestedScope : string) : prog TokenExchangeResponse :=
  if subjectTokenType !=? TokenTypeAccessToken then throw ErrInvalidGrant
  else
  subjectClaims ← or_err ErrInvalidGrant (ValidateAccessToken s tenantID subjectToken);
  if (requestedScope !=? "") && negb (ScopeIsSubset requestedScope (jc_Scope subjectClaims))
  then throw ErrInvalidScope
  else
  let scope := if requestedScope !=? "" then strings_Join (ParseScope requestedScope)
               else jc_Scope subjectClaims in
  or_err ErrInvalidScope (from_sum (ValidateScopeForClient client scope)) ;;
  now ← Now;
  jti ← NewUUID;
  let duration := cfg_AccessTokenDuration (as_config s) in
  let claims := {|
    jc_Jti := uuid_String jti; jc_Sub := jc_Sub subjectClaims; jc_Aud := accessTokenAudience s;
    jc_Iss := cfg_ServerURL (as_config s); jc_Exp := time_unix (now + duration);
    jc_Iat := time_unix now; jc_TenantID := uuid_String tenantID; jc_Scope := scope;
    jc_ClientID := cl_ClientID client; jc_UserID := jc_UserID subjectClaims; jc_Email := "";
    jc_Name := ""; jc_Act := Some (cl_ClientID client) |} in
  accessToken ← SignTyped (as_keys s) (AccessClaims claims) TypeAccessToken;
  let userID := if jc_UserID subjectClaims !=? ""
                then default uuid_Nil (uuid_Parse (jc_UserID subjectClaims)) else uuid_Nil in
  id ← NewUUID;
  family ← NewUUID;
  AccessTokenRepo.Create {|
    at_ID := id; at_TenantID := tenantID; at_Token := hashToken accessToken;
    at_ClientID := cl_ID client; at_UserID := userID; at_FamilyID := family; at_Scope := scope;
    at_ExpiresAt := now + duration; at_CreatedAt := time_zero |} ;;
  emit s ((token_event TokenEventIssued tenantID (cl_ID client))
            <| tv_UserID := userRef userID |> <| tv_GrantType := GrantTypeTokenExchange |>
            <| tv_Scope := scope |> <| tv_FamilyID := family |>
            <| tv_Actor := cl_ClientID client |>) ;;
  mret (MkTokenExchangeResponse accessToken TokenTypeAccessToken "Bearer"
          (dur_seconds duration) scope).
End Service.
