(* ===== verification/Session.v ===== *)
(** internal/services/session_service_impl.go: SSO sessions and remembered
    consent. *)
From S2P Require Import Prelude GoStd Hash Models Effects Store Repos.
From S2P Require Import Libraries Scope AuthService.
From stdpp Require Import gmap.

Open Scope Z_scope.

(** sessionTokenBytes *)
Definition sessionTokenBytes : nat := 32.

(** The inner loop of unionScopes: (seen, out). *)
Fixpoint union_loop (l : list string) (acc : gset string * list string)
    : gset string * list string :=
  match l with
  | [] => acc
  | s :: l' =>
    union_loop l' (if bool_decide (s ∈ acc.1) then acc else ({[s]} ∪ acc.1, acc.2 ++ [s]))
  end.
Definition unionScopes (a b : list string) : list string :=
  (union_loop b (union_loop a (∅, []))).2.

Section Service.
(** [duration]: the absolute session lifetime. *)
Context `{Env} (duration : Z).

Definition CreateSession (tenantID userID : uuid) (amr : list string)
    (ipAddress userAgent : string) : prog (string * Session) :=
  token ← wrap "failed to generate session token" (randomToken sessionTokenBytes);
  now ← Now;
  id ← NewUUID;
  let session := {|
    ss_ID := id; ss_TenantID := tenantID; ss_UserID := userID; ss_TokenHash := hashToken token;
    ss_AuthTime := now; ss_AMR := amr; ss_IPAddress := ipAddress; ss_UserAgent := userAgent;
    ss_ExpiresAt := now + duration; ss_CreatedAt := time_zero |} in
  session ← wrap "failed to store session" (SessionRepo.Create session);
  mret (token, session).

Definition GetSession (tenantID : uuid) (token : string) : prog Session :=
  if token ==? "" then throw ErrSessionNotFound
  else
  session ← SessionRepo.GetByTokenHash tenantID (hashToken token);
  now ← Now;
  if Session_IsExpired now session then
    ignore (SessionRepo.DeleteByTokenHash tenantID (ss_TokenHash session)) ;;
    throw ErrSessionNotFound
  else mret session.

Definition EndSession (tenantID : uuid) (token : string) : prog unit :=
  if token ==? "" then mret tt
  else SessionRepo.DeleteByTokenHash tenantID (hashToken token).

Definition CleanupExpiredSessions : prog unit := SessionRepo.DeleteExpired.

Definition HasConsent (tenantID userID clientID : uuid) (scope : string) : prog bool :=
  consent ← attempt (ConsentRepo.Get tenantID userID clientID);
  match consent with
  | inr err => if errors_Is err ErrResourceNotFound then mret false else throw err
  | inl consent => mret (ScopeIsSubset scope (cs_Scope consent))
  end.

Definition GrantConsent (tenantID userID clientID : uuid) (scope : string) : prog unit :=
  existing ← attempt (ConsentRepo.Get tenantID userID clientID);
  granted ←
    match existing with
    | inl existing => mret (unionScopes (ParseScope (cs_Scope existing)) (ParseScope scope))
    | inr err =>
      if negb (errors_Is err ErrResourceNotFound) then throw err else mret (ParseScope scope)
    end;
  id ← NewUUID;
  now ← Now;
  ConsentRepo.Upsert {|
    cs_ID := id; cs_TenantID := tenantID; cs_UserID := userID; cs_ClientID := clientID;
    cs_Scope := strings_Join granted; cs_CreatedAt := time_zero; cs_UpdatedAt := now |}.
End Service.

Lemma elem_of_union_loop l acc s :
  (forall x, x ∈ acc.1 <-> x ∈ acc.2) ->
  s ∈ (union_loop l acc).2 <-> s ∈ l \/ s ∈ acc.2.
Proof.
  revert acc. induction l as [|x l IH]; intros [X out] Hacc; simpl in *; [set_solver|].
  rewrite IH; case_bool_decide; simpl; set_solver.
Qed.

Lemma union_loop_seen l acc x :
  (forall x, x ∈ acc.1 <-> x ∈ acc.2) ->
  x ∈ (union_loop l acc).1 <-> x ∈ (union_loop l acc).2.
Proof.
  revert acc. induction l as [|y l IH]; intros [X out] Hacc; simpl in *; [apply Hacc|].
  apply IH. case_bool_decide; simpl; set_solver.
Qed.

Lemma elem_of_unionScopes a b s : s ∈ unionScopes a b <-> s ∈ a \/ s ∈ b.
Proof.
  unfold unionScopes.
  rewrite elem_of_union_loop by (intros x; apply union_loop_seen; set_solver).
  rewrite elem_of_union_loop; set_solver.
Qed.
