(* ===== verification/ClientService.v ===== *)
(** internal/services/client_service_impl.go and client_secret_cache.go:
    managing OAuth clients and authenticating them. *)
From S2P Require Import Prelude GoStd Hash Models Effects Store Repos.
From S2P Require Import Libraries AuthService.
From stdpp Require Import gmap.

Open Scope Z_scope.

(** ** The client secret cache *)

Definition clientSecretCacheTTL : Z := 10 * minute.
Definition maxCachedClientSecrets : Z := 10000.

(** The fixed part of a clientSecretCache; its entries are in the world. *)
Record clientSecretCache := MkClientSecretCache { cc_key : string; cc_ttl : Z }.

Definition mac (c : clientSecretCache) (secret : string) : string := hmac sha256 (cc_key c) secret.

Section Cache.
Context `{Env}.

(** A failing random source leaves a nil cache. *)
Definition newClientSecretCache (ttl : Z) : prog (option clientSecretCache) :=
  key ← attempt (RandRead 32);
  match key with
  | inr _ => mret None
  | inl key => mret (Some (MkClientSecretCache key ttl))
  end.

Definition verified (c : option clientSecretCache) (clientID : uuid) (storedHash secret : string)
    : prog bool :=
  match c with
  | None => mret false
  | Some c =>
    entry ← WithSecrets (fun m => (m, m !! (clientID, storedHash)));
    match entry with
    | None => mret false
    | Some (entry_mac, expires) =>
      now ← Now;
      if negb (time_before now expires) then mret false
      else mret (ConstantTimeCompare entry_mac (mac c secret))
    end
  end.

(** The locked part of remember. *)
Definition remember_entry (k : uuid * string) (entry : string * Z)
    (m : gmap (uuid * string) (string * Z)) : gmap (uuid * string) (string * Z) :=
  let m := if maxCachedClientSecrets <=? Z.of_nat (size m) then ∅ else m in
  <[k := entry]> m.

Definition remember (c : option clientSecretCache) (clientID : uuid) (storedHash secret : string)
    : prog unit :=
  match c with
  | None => mret tt
  | Some c =>
    now ← Now;
    WithSecrets (fun m =>
      (remember_entry (clientID, storedHash) (mac c secret, now + cc_ttl c) m, tt))
  end.
End Cache.

(** ** The service *)

(** bcrypt.DefaultCost *)
Definition DefaultCost : Z := 10.

Section Service.
Context `{Env} `{UuidLib} `{BcryptLib}.

Definition tokenEndpointAuthMethodFor (isPublic : bool) : string :=
  if isPublic then TokenEndpointAuthNone else TokenEndpointAuthClientSecretBasic.

Definition generateClientID : prog string :=
  id ← NewUUID;
  p ← or_panic (slice_to (uuid_String id) 16);
  mret ("client_" +:+ p).

Definition generateClientSecret : prog string :=
  bytes ← RandRead 32;
  mret ("secret_" +:+ base64_raw_url bytes).

Definition hashClientSecret (secret : string) : prog string :=
  r ← WithRandom (fun rnd => bcrypt_Generate rnd DefaultCost secret);
  from_sum r.

(** [secrets]: the service's cache, nil when it could not be made. *)
Context (secrets : option clientSecretCache).

Definition Create (tenantID : uuid) (req : CreateClientRequest) : prog Client :=
  if cr_Name req ==? "" then throw (EMessage "client name is required")
  else if Nat.eqb (length (cr_RedirectURIs req)) 0 then
    throw (EMessage "at least one redirect URI is required")
  else if Nat.eqb (length (cr_GrantTypes req)) 0 then
    throw (EMessage "at least one grant type is required")
  else
  clientID ← generateClientID;
  '(plainSecret, secretHash) ←
    (if negb (cr_IsPublic req) then
       plainSecret ← wrap "failed to generate client secret" generateClientSecret;
       secretHash ← wrap "failed to hash client secret" (hashClientSecret plainSecret);
       mret (plainSecret, secretHash)
     else mret ("", ""));
  id ← NewUUID;
  let client := {|
    cl_ID := id; cl_TenantID := tenantID; cl_ClientID := clientID; cl_ClientSecret := secretHash;
    cl_PlainClientSecret := ""; cl_Name := cr_Name req; cl_RedirectURIs := cr_RedirectURIs req;
    cl_PostLogoutRedirectURIs := cr_PostLogoutRedirectURIs req;
    cl_GrantTypes := cr_GrantTypes req; cl_Scopes := cr_Scopes req;
    cl_IsPublic := cr_IsPublic req;
    cl_TokenEndpointAuthMethod := tokenEndpointAuthMethodFor (cr_IsPublic req);
    cl_DynamicallyRegistered := false; cl_RegistrationAccessToken := "";
    cl_CreatedAt := time_zero; cl_UpdatedAt := time_zero; cl_DeletedAt := None |} in
  client ← wrap "failed to create client" (ClientRepo.Create client);
  mret (client <| cl_PlainClientSecret := plainSecret |>).

Definition GetByID (tenantID clientID : uuid) : prog Client := ClientRepo.GetByID tenantID clientID.
Definition GetByClientID (tenantID : uuid) (clientID : string) : prog Client :=
  ClientRepo.GetByClientID tenantID clientID.

Definition Update (tenantID clientID : uuid) (req : UpdateClientRequest) : prog Client :=
  client ← ClientRepo.GetByID tenantID clientID;
  let client := if uc_Name req !=? "" then client <| cl_Name := uc_Name req |> else client in
  let client := if Nat.ltb 0 (length (uc_RedirectURIs req))
                then client <| cl_RedirectURIs := uc_RedirectURIs req |> else client in
  let client := match uc_PostLogoutRedirectURIs req with
                | Some uris => client <| cl_PostLogoutRedirectURIs := uris |>
                | None => client
                end in
  let client := if Nat.ltb 0 (length (uc_GrantTypes req))
                then client <| cl_GrantTypes := uc_GrantTypes req |> else client in
  let client := if Nat.ltb 0 (length (uc_Scopes req))
                then client <| cl_Scopes := uc_Scopes req |> else client in
  '(client, plainSecret) ←
    match uc_IsPublic req with
    | None => mret (client, "")
    | Some isPublic =>
      let client := client <| cl_IsPublic := isPublic |>
                           <| cl_TokenEndpointAuthMethod := tokenEndpointAuthMethodFor isPublic |> in
      '(client, plainSecret) ←
        (if negb isPublic && (cl_ClientSecret client ==? "") then
           plainSecret ← wrap "failed to generate client secret" generateClientSecret;
           hash ← wrap "failed to hash client secret" (hashClientSecret plainSecret);
           mret (client <| cl_ClientSecret := hash |>, plainSecret)
         else mret (client, ""));
      mret (if isPublic : bool then client <| cl_ClientSecret := "" |> else client, plainSecret)
    end;
  client ← wrap "failed to update client" (ClientRepo.Update client);
  mret (client <| cl_PlainClientSecret := plainSecret |>).

Definition Delete (tenantID clientID : uuid) : prog unit :=
  ClientRepo.GetByID tenantID clientID ;;
  wrap "failed to delete client" (ClientRepo.Delete tenantID clientID) ;;
  wrap "failed to revoke client access tokens" (AccessTokenRepo.DeleteByClientID tenantID clientID) ;;
  wrap "failed to revoke client refresh tokens" (RefreshTokenRepo.DeleteByClientID tenantID clientID).

Definition List (tenantID : uuid) (limit offset : Z) : prog (PaginatedResponse Client) :=
  let limit := if (limit <=? 0) || (100 <? limit) then 20 else limit in
  let offset := if offset <? 0 then 0 else offset in
  '(clients, total) ← wrap "failed to list clients" (ClientRepo.List tenantID limit offset);
  mret (NewPaginatedResponse clients limit offset total).

Definition ValidateClient (tenantID : uuid) (clientID clientSecret : string) : prog Client :=
  client ← or_err ErrInvalidClient (ClientRepo.GetByClientID tenantID clientID);
  if cl_IsPublic client then
    if clientSecret !=? "" then throw ErrInvalidClient else mret client
  else if (clientSecret ==? "") || (cl_ClientSecret client ==? "") then throw ErrInvalidClient
  else
  cached ← verified secrets (cl_ID client) (cl_ClientSecret client) clientSecret;
  if cached : bool then mret client
  else if negb (bcrypt_Compare (cl_ClientSecret client) clientSecret) then throw ErrInvalidClient
  else
    remember secrets (cl_ID client) (cl_ClientSecret client) clientSecret ;;
    mret client.

Fixpoint allowed_uri (l : list string) (redirectURI : string) : bool :=
  match l with
  | [] => false
  | allowedURI :: l' => if allowedURI ==? redirectURI then true else allowed_uri l' redirectURI
  end.
Definition ValidateRedirectURI (client : Client) (redirectURI : string) : prog unit :=
  if allowed_uri (cl_RedirectURIs client) redirectURI then mret tt
  else throw (EMessage "redirect URI not allowed").
End Service.
