(* ===== verification/Mfa.v ===== *)
(** Package internal/mfa: time-based one-time passwords (RFC 6238), recovery
    codes, and the keys that protect both at rest. ParseKey, which decodes a
    configured key, is not modelled. *)
From S2P Require Import Prelude GoStd Hash Models Effects Libraries.
From Stdlib Require Import Ascii.

Open Scope Z_scope.

(** ** totp.go *)

Definition Digits : nat := 6.
Definition Period : Z := 30 * second.
Definition Skew : Z := 1.
Definition secretBytes : nat := 20.

Definition NewSecret `{Env} : prog string := RandRead secretBytes.
Definition EncodeSecret (secret : string) : string := base32_raw secret.

(** Step: int64 division truncates toward zero. *)
Definition totp_Step (t : Z) : Z := Z.quot (time_unix t) (Period / second).

Definition Code (secret : string) (step : Z) : string :=
  let counter := string_of (be_bytes 8 step) in
  let sum := bytes_of (hmac sha1 secret counter) in
  let offset := Z.land (List.last sum 0) 0x0f in
  let value := Z.land (be_val (take 4 (drop (Z.to_nat offset) sum))) 0x7fffffff in
  decimal Digits (value mod 1000000).

(** The loop of Verify: [n] more steps from [step]. *)
Fixpoint verify_loop (secret code : string) (n : nat) (step : Z) (acc : Z * bool) : Z * bool :=
  match n with
  | O => acc
  | S n' =>
    verify_loop secret code n' (step + 1)
      (if (Code secret step ==? code) && negb acc.2 then (step, true) else acc)
  end.

Definition Verify (secret code : string) (now : Z) : Z * bool :=
  let code := TrimSpace code in
  if bool_decide (String.length code ≠ Digits) then (0, false)
  else
    let current := totp_Step now in
    verify_loop secret code (Z.to_nat (2 * Skew + 1)) (current - Skew) (0, false).

(** KeyURI: url.Values.Encode writes the keys in alphabetical order. *)
Definition KeyURI (issuer account secret : string) : string :=
  let label := PathEscape issuer +:+ ":" +:+ PathEscape account in
  "otpauth://totp/" +:+ label +:+ "?" +:+ "algorithm=SHA1&digits=6&issuer=" +:+
  QueryEscape issuer +:+ "&period=30&secret=" +:+ QueryEscape (EncodeSecret secret).

(** ** recovery.go *)

Definition RecoveryCodeCount : nat := 10.
Definition recoveryCodeChars : nat := 10.
Definition recoveryAlphabet : string := "23456789ABCDEFGHJKMNPQRSTUVWXYZ".

Definition recovery_char (b : Z) : ascii :=
  char_at recoveryAlphabet (b mod Z.of_nat (String.length recoveryAlphabet)).
Fixpoint recovery_chars (j : nat) (raw : list Z) : string :=
  match raw with
  | [] => ""
  | b :: raw' =>
    (if Nat.eqb j (recoveryCodeChars / 2) then "-" else "") +:+
    String (recovery_char b) (recovery_chars (S j) raw')
  end.

Fixpoint new_codes `{Env} (n : nat) : prog (list string) :=
  match n with
  | O => mret []
  | S n' =>
    raw ← RandRead recoveryCodeChars;
    codes ← new_codes n';
    mret (recovery_chars 0 (bytes_of raw) :: codes)
  end.
Definition NewRecoveryCodes `{Env} : prog (list string) := new_codes RecoveryCodeCount.

Definition normalize_rune (r : ascii) : option ascii :=
  if (r ==? "-"%char) || (r ==? " "%char) then None
  else if is_lower r then Some (upper_byte r) else Some r.
Definition NormalizeRecoveryCode (code : string) : string :=
  map_runes normalize_rune 0 (TrimSpace code).

(** A rune outside '0'..'9' has a byte outside it. *)
Definition LooksLikeTOTP (input : string) : bool :=
  let input := TrimSpace input in
  if bool_decide (String.length input ≠ Digits) then false
  else string_forall is_digit input.

(** ** keys.go *)

Definition KeySize : nat := 32.

(** Keys: the AEAD is known by its key. *)
Record Keys := MkKeys { mk_aead : string; mk_hmacKey : string }.

Definition ErrDecrypt : error := EMessage "mfa: cannot decrypt secret".

Section Keys.
Context `{Env} `{AeadLib}.

Definition DeriveKey (secret : string) : string := hkdf_sha256 secret "shieldgate mfa master key".

(** The encodings ParseKey tries, in order. *)
Definition key_decoders : list (string -> option string) :=
  [base64_padded_decode b64std_alphabet; base64_raw_decode b64std_alphabet;
   base64_padded_decode b64url_alphabet; base64_raw_decode b64url_alphabet].
Fixpoint parse_key (decoders : list (string -> option string)) (encoded : string) : string + error :=
  match decoders with
  | [] => inr (EMessage "mfa: key is not valid base64")
  | decode :: decoders =>
    match decode encoded with
    | None => parse_key decoders encoded
    | Some key =>
      if bool_decide (String.length key ≠ KeySize)
      then inr (EMessage ("mfa: key must be 32 bytes, got "
                          +:+ format_int (Z.of_nat (String.length key))))
      else inl key
    end
  end.
Definition ParseKey (encoded : string) : string + error := parse_key key_decoders encoded.

Definition NewKeys (master : string) : Keys + error :=
  if bool_decide (String.length master ≠ KeySize) then inr (EMessage "mfa: key must be 32 bytes")
  else inl (MkKeys (hkdf_sha256 master "totp secret encryption")
                   (hkdf_sha256 master "recovery code hmac")).

Definition Seal (k : Keys) (secret aad : string) : prog string :=
  nonce ← RandRead aead_NonceSize;
  let sealed := nonce +:+ aead_Seal (mk_aead k) nonce secret aad in
  mret (base64_raw_std sealed).

Definition Open (k : Keys) (sealed aad : string) : string + error :=
  match base64_raw_std_decode sealed with
  | None => inr ErrDecrypt
  | Some raw =>
    match slice_to raw aead_NonceSize, slice_from raw aead_NonceSize with
    | Some nonce, Some ciphertext =>
      match aead_Open (mk_aead k) nonce ciphertext aad with
      | Some secret => inl secret
      | None => inr ErrDecrypt
      end
    | _, _ => inr ErrDecrypt
    end
  end.

Definition HashRecoveryCode (k : Keys) (code : string) : string :=
  hex (hmac sha256 (mk_hmacKey k) (NormalizeRecoveryCode code)).
End Keys.

(** RFC 6238, appendix B: the 8-digit SHA-1 codes end in these 6 digits. *)
Example totp_rfc6238_59 : Code "12345678901234567890" (totp_Step (59 * second)) = "287082".
Proof. vm_compute. reflexivity. Qed.
Example totp_rfc6238_20000000000 :
  Code "12345678901234567890" (totp_Step (20000000000 * second)) = "353130".
Proof. vm_compute. reflexivity. Qed.
