(* ===== verification/MfaService.v ===== *)
(** internal/services/mfa_service_impl.go: enrolling, verifying and disabling
    the second factor. The clock [s.now] is time.Now. *)
From S2P Require Import Prelude GoStd Models Effects Store Repos AccountRepos.
From S2P Require Import Libraries Mfa.

Open Scope Z_scope.

Definition MaxMFAFailures : Z := 5.
Definition MFALockoutDuration : Z := 15 * minute.
Definition mfaEnrollmentWindow : Z := 15 * minute.
Definition defaultMFAIssuer : string := "ShieldGate".

Definition AMRPassword : string := "pwd".
Definition AMROTP : string := "otp".
Definition AMRMFA : string := "mfa".

Definition AMRForSecondFactor (method : string) : list string :=
  if method ==? MFAMethodTOTP then [AMRPassword; AMROTP; AMRMFA] else [AMRPassword; AMRMFA].

Section Service.
Context `{Env} `{UuidLib} `{AeadLib} (keys : Keys).

Definition secretAAD (tenantID userID : uuid) : string :=
  uuid_String tenantID +:+ "|" +:+ uuid_String userID.

Definition Status (tenantID userID : uuid) : prog MFAStatus :=
  settings ← attempt (MFARepo.Get tenantID userID);
  match settings with
  | inr err =>
    if errors_Is err ErrMFANotEnabled then mret (MkMFAStatus false [] None 0) else throw err
  | inl settings =>
    if negb (UserMFA_Enabled settings) then mret (MkMFAStatus false [] None 0)
    else
      remaining ← MFARepo.CountUnusedRecoveryCodes tenantID userID;
      mret (MkMFAStatus true [MFAMethodTOTP] (mf_ConfirmedAt settings) remaining)
  end.

Definition IsEnabled (tenantID userID : uuid) : prog bool :=
  settings ← attempt (MFARepo.Get tenantID userID);
  match settings with
  | inr err => if errors_Is err ErrMFANotEnabled then mret false else throw err
  | inl settings => mret (UserMFA_Enabled settings)
  end.

Definition BeginTOTPEnrollment (tenantID userID : uuid) : prog TOTPEnrollment :=
  user ← UserRepo.GetByID tenantID userID;
  secret ← wrap "failed to generate TOTP secret" NewSecret;
  sealed ← wrap "failed to encrypt TOTP secret" (Seal keys secret (secretAAD tenantID userID));
  MFARepo.SavePending (MkUserMFA userID tenantID sealed None 0 0 None time_zero time_zero) ;;
  tenant ← attempt (TenantRepo.GetByID tenantID);
  let issuer := match tenant with
                | inl t => if tn_Name t !=? "" then tn_Name t else defaultMFAIssuer
                | inr _ => defaultMFAIssuer
                end in
  mret (MkTOTPEnrollment (EncodeSecret secret) (KeyURI issuer (us_Email user) secret)).

Definition newRecoveryCodes : prog (list string * list string) :=
  codes ← wrap "failed to generate recovery codes" NewRecoveryCodes;
  mret (codes, map (HashRecoveryCode keys) codes).

Definition endSessions (tenantID userID : uuid) : prog unit :=
  wrap "failed to end user sessions" (SessionRepo.DeleteByUserID tenantID userID).

Definition ConfirmTOTPEnrollment (tenantID userID : uuid) (code : string) : prog (list string) :=
  r ← attempt (MFARepo.Get tenantID userID);
  settings ← match r with
             | inl settings => mret settings
             | inr err => throw (if errors_Is err ErrMFANotEnabled
                                 then (ErrMFANotEnrolling : error) else err)
             end;
  if UserMFA_Enabled settings then throw ErrMFAAlreadyEnabled
  else
  now ← Now;
  if mfaEnrollmentWindow <? time_sub now (mf_UpdatedAt settings) then throw ErrMFANotEnrolling
  else
  secret ← from_sum (Open keys (mf_TOTPSecret settings) (secretAAD tenantID userID));
  now ← Now;
  let '(step, ok) := Verify secret code now in
  if negb ok then throw ErrInvalidMFACode
  else
  '(codes, hashes) ← newRecoveryCodes;
  MFARepo.Confirm tenantID userID step hashes ;;
  endSessions tenantID userID ;;
  mret codes.

(** check: (method, ok). *)
Definition check (settings : UserMFA) (code : string) (now : Z) : prog (string * bool) :=
  if LooksLikeTOTP code then
    secret ← from_sum (Open keys (mf_TOTPSecret settings)
                         (secretAAD (mf_TenantID settings) (mf_UserID settings)));
    let '(step, ok) := Verify secret code now in
    if negb ok then mret ("", false)
    else
      fresh ← MFARepo.UseStep (mf_TenantID settings) (mf_UserID settings) step;
      mret (MFAMethodTOTP, fresh)
  else
    used ← MFARepo.UseRecoveryCode (mf_TenantID settings) (mf_UserID settings)
             (HashRecoveryCode keys code);
    mret (MFAMethodRecoveryCode, used).

Definition mfa_Verify (tenantID userID : uuid) (code : string) : prog string :=
  settings ← MFARepo.Get tenantID userID;
  if negb (UserMFA_Enabled settings) then throw ErrMFANotEnabled
  else
  now ← Now;
  if match mf_LockedUntil settings with Some t => time_before now t | None => false end
  then throw ErrMFALocked
  else
  '(method, ok) ← check settings code now;
  if ok : bool then mret method
  else
    MFARepo.RecordFailure tenantID userID MaxMFAFailures (now + MFALockoutDuration) ;;
    if MaxMFAFailures <=? mf_FailedAttempts settings + 1 then throw ErrMFALocked
    else throw ErrInvalidMFACode.

Definition RegenerateRecoveryCodes (tenantID userID : uuid) : prog (list string) :=
  enabled ← IsEnabled tenantID userID;
  if negb enabled then throw ErrMFANotEnabled
  else
    '(codes, hashes) ← newRecoveryCodes;
    MFARepo.ReplaceRecoveryCodes tenantID userID hashes ;;
    mret codes.

Definition Disable (tenantID userID : uuid) : prog unit :=
  MFARepo.Get tenantID userID ;;
  MFARepo.Delete tenantID userID ;;
  endSessions tenantID userID.
End Service.
