(* ===== verification/Registration.v ===== *)
(** internal/services/client_metadata.go and registration_service_impl.go:
    dynamic client registration (RFC 7591, RFC 7592). *)
From S2P Require Import Prelude GoStd Models Effects Store Repos AccountRepos.
From S2P Require Import Libraries Scope AuthService ClientService.
From stdpp Require Import gmap.
From Stdlib Require Import Ascii.

Open Scope Z_scope.

(** ** net/url and net, as the validation uses them *)

Record URL := MkURL { u_Scheme : string; u_Host : string; u_User : bool; u_Hostname : string }.
Class NetLib := {
  url_Parse : string -> option URL;
  (** ParseIP(host) is an IP address and IsLoopback *)
  ip_loopback : string -> bool
}.

Definition maxRegisteredURIs : nat := 10.
Definition maxRegisteredURILen : nat := 2000.
Definition maxClientNameLength : nat := 255.
Definition defaultDynamicClient : string := "Dynamically registered client".
Definition responseTypeCode : string := "code".
Definition maxRegisteredScopes : nat := 50.
Definition maxRegisteredScopeLen : nat := 128.

(** The keys of the map dynamicGrantTypes. *)
Definition dynamicGrantTypes : list string :=
  [GrantTypeAuthorizationCode; GrantTypeRefreshToken; GrantTypeClientCredentials;
   GrantTypeDeviceCode].

Record registeredMetadata := MkRegisteredMetadata {
  md_name : string;
  md_redirectURIs : list string;
  md_postLogoutRedirectURIs : list string;
  md_grantTypes : list string;
  md_authMethod : string;
  md_scopes : list string
}.
#[export] Instance eta_registeredMetadata : Eta registeredMetadata := fun r =>
  MkRegisteredMetadata (md_name r) (md_redirectURIs r) (md_postLogoutRedirectURIs r)
    (md_grantTypes r) (md_authMethod r) (md_scopes r).

Definition isPublic (m : registeredMetadata) : bool := md_authMethod m ==? TokenEndpointAuthNone.

Definition invalidMetadata (description : string) : error :=
  ERegistration "invalid_client_metadata" description.
Definition invalidRedirect (description : string) : error :=
  ERegistration "invalid_redirect_uri" description.

(** The loop of dedupe: (seen, out). *)
Fixpoint dedupe_loop (values : list string) (acc : gset string * list string)
    : gset string * list string :=
  match values with
  | [] => acc
  | v :: values' =>
    let v := TrimSpace v in
    dedupe_loop values'
      (if (v !=? "") && negb (bool_decide (v ∈ acc.1)) then ({[v]} ∪ acc.1, acc.2 ++ [v]) else acc)
  end.
Definition dedupe (values : list string) : list string := (dedupe_loop values (∅, [])).2.

Definition scope_byte (c : ascii) : bool :=
  let r := byte_val c in
  negb ((r <? 0x21) || (0x7e <? r) || (r =? 34) || (r =? 92)).
Definition validScopeToken (s : string) : bool :=
  if (s ==? "") || Nat.ltb maxRegisteredScopeLen (String.length s) then false
  else string_forall scope_byte s.

Section Validation.
Context `{UnicodeTables} `{NetLib}.

Definition isLoopback (host : string) : bool :=
  if host ==? "localhost" then true else ip_loopback host.

(** The loop body of validateRegisteredURIs. *)
Definition check_uri (raw field : string) : option error :=
  if Nat.ltb maxRegisteredURILen (String.length raw) || in_set raw "#"%char then
    Some (invalidRedirect (field +:+ " must not be too long or contain a fragment"))
  else match url_Parse raw with
  | None => Some (invalidRedirect (field +:+ " must be absolute URIs"))
  | Some u =>
    if u_Scheme u ==? "" then Some (invalidRedirect (field +:+ " must be absolute URIs"))
    else
    let scheme := ToLower (u_Scheme u) in
    if scheme ==? "https" then
      if (u_Host u ==? "") || u_User u then
        Some (invalidRedirect (field +:+ " must have a host and no user information"))
      else None
    else if scheme ==? "http" then
      if negb (isLoopback (u_Hostname u)) || u_User u then
        Some (invalidRedirect ("http " +:+ field +:+ " are allowed only for loopback addresses"))
      else None
    else if negb (in_set (u_Scheme u) "."%char) then
      Some (invalidRedirect (field +:+ " must use https, loopback http or a reverse-domain scheme"))
    else None
  end.
Fixpoint check_uris (uris : list string) (field : string) : option error :=
  match uris with
  | [] => None
  | raw :: uris' => match check_uri raw field with
                    | Some e => Some e
                    | None => check_uris uris' field
                    end
  end.
Definition validateRegisteredURIs (uris : list string) (field : string) : list string + error :=
  let uris := dedupe uris in
  if Nat.ltb maxRegisteredURIs (length uris) then inr (invalidRedirect ("too many " +:+ field))
  else match check_uris uris field with Some e => inr e | None => inl uris end.

(** strings.IndexFunc(s, unicode.IsControl) >= 0: the C0 and C1 controls. *)
Fixpoint has_control (skip : nat) (s : string) : bool :=
  match s with
  | EmptyString => false
  | String c s' =>
    match skip with
    | S skip' => has_control skip' s'
    | O =>
      match rune_width s with
      | Some 1%nat => (byte_val c <? 0x20) || (byte_val c =? 0x7f) || has_control 0 s'
      | Some w =>
        ((byte_val c =? 0xc2) && match s' with
                                 | String d _ => byte_val d <? 0xa0
                                 | EmptyString => false
                                 end) || has_control (w - 1) s'
      | None => has_control 0 s'
      end
    end
  end.

Definition validateClientMetadata (meta : ClientMetadata) : registeredMetadata + error :=
  let grantTypes := dedupe (cm_GrantTypes meta) in
  let grantTypes := if Nat.eqb (length grantTypes) 0 then [GrantTypeAuthorizationCode] else grantTypes in
  let has g := contains grantTypes g in
  match find (fun g => negb (contains dynamicGrantTypes g)) grantTypes with
  | Some g => inr (invalidMetadata ("grant_type " +:+ g +:+ " cannot be registered"))
  | None =>
  if has GrantTypeRefreshToken && negb (has GrantTypeAuthorizationCode)
     && negb (has GrantTypeDeviceCode) then
    inr (invalidMetadata "refresh_token requires the authorization_code or device_code grant")
  else
  let responseTypes := dedupe (cm_ResponseTypes meta) in
  if negb (Nat.eqb (length responseTypes) 0
           || (has GrantTypeAuthorizationCode && (responseTypes ==? [responseTypeCode]))) then
    inr (invalidMetadata (if negb (has GrantTypeAuthorizationCode)
                          then "response_types require the authorization_code grant"
                          else "only the code response type is supported"))
  else
  let authMethod := if cm_TokenEndpointAuthMethod meta ==? "" then TokenEndpointAuthClientSecretBasic
                    else cm_TokenEndpointAuthMethod meta in
  if negb (contains [TokenEndpointAuthNone; TokenEndpointAuthClientSecretBasic;
                     TokenEndpointAuthClientSecretPost] authMethod) then
    inr (invalidMetadata "unsupported token_endpoint_auth_method")
  else if (authMethod ==? TokenEndpointAuthNone) && has GrantTypeClientCredentials then
    inr (invalidMetadata "client_credentials requires an authenticated client")
  else
  match validateRegisteredURIs (cm_RedirectURIs meta) "redirect_uris" with
  | inr e => inr e
  | inl redirectURIs =>
  if has GrantTypeAuthorizationCode && Nat.eqb (length redirectURIs) 0 then
    inr (invalidRedirect "redirect_uris is required for the authorization_code grant")
  else
  match validateRegisteredURIs (cm_PostLogoutRedirectURIs meta) "post_logout_redirect_uris" with
  | inr e => inr e
  | inl postLogout =>
  let name := TrimSpace (cm_ClientName meta) in
  let name := if name ==? "" then defaultDynamicClient else name in
  if Nat.ltb maxClientNameLength (String.length name) || has_control 0 name then
    inr (invalidMetadata "client_name is too long or contains control characters")
  else
  let scopes := ParseScope (cm_Scope meta) in
  if Nat.ltb maxRegisteredScopes (length scopes) then inr (invalidMetadata "too many scopes")
  else match find (fun s => negb (validScopeToken s)) scopes with
  | Some s => inr (invalidMetadata ("invalid scope " +:+ s))
  | None => inl (MkRegisteredMetadata name redirectURIs postLogout grantTypes authMethod scopes)
  end end end end.
End Validation.

(** ** The service *)

Definition defaultInitialAccessTokenTTL : Z := 24 * hour.
Definition maxInitialAccessTokenTTL : Z := 30 * 24 * hour.
Definition maxInitialAccessTokenUses : Z := 1000.
Definition registrationTokenBytes : nat := 32.

(** time.Duration(n) * time.Second, in 64 bits. *)
Definition seconds (n : Z) : Z := wrap64 (n * second).

Section Service.
Context `{Env} `{UuidLib} `{BcryptLib} `{UnicodeTables} `{NetLib}.

(** [baseURL] has no trailing slash. *)
Context (baseURL : string).

Definition CreateInitialAccessToken (tenantID : uuid) (createdBy : option uuid)
    (req : CreateInitialAccessTokenRequest) : prog (InitialAccessToken * string) :=
  let scopes := dedupe (ci_Scopes req) in
  if Nat.eqb (length scopes) 0 then throw (invalidMetadata "scopes must not be empty")
  else match find (fun s => negb (validScopeToken s)) scopes with
  | Some scope => throw (invalidMetadata ("invalid scope " +:+ scope))
  | None =>
  let ttl := if ci_ExpiresIn req =? 0 then defaultInitialAccessTokenTTL
             else seconds (ci_ExpiresIn req) in
  if (ttl <=? 0) || (maxInitialAccessTokenTTL <? ttl) then
    throw (invalidMetadata "expires_in must be between 1 second and 30 days")
  else
  let maxUses := if ci_MaxUses req =? 0 then 1 else ci_MaxUses req in
  if (maxUses <? 0) || (maxInitialAccessTokenUses <? maxUses) then
    throw (invalidMetadata "max_uses must be between 1 and 1000")
  else
  token ← wrap "failed to generate initial access token" (randomToken registrationTokenBytes);
  id ← NewUUID;
  expires ← Now;
  created ← Now;
  record ← InitialAccessTokenRepo.Create {|
    ia_ID := id; ia_TenantID := tenantID; ia_TokenHash := hashToken token;
    ia_Description := ci_Description req; ia_Scopes := scopes; ia_MaxUses := maxUses;
    ia_Uses := 0; ia_CreatedBy := createdBy; ia_ExpiresAt := expires + ttl;
    ia_RevokedAt := None; ia_CreatedAt := created |};
  mret (record, token)
  end.

Definition ListInitialAccessTokens (tenantID : uuid) : prog (list InitialAccessToken) :=
  InitialAccessTokenRepo.List tenantID.
Definition RevokeInitialAccessToken (tenantID id : uuid) : prog unit :=
  InitialAccessTokenRepo.Revoke tenantID id.

Definition response (client : Client) : ClientRegistrationResponse :=
  let responseTypes := if HasGrantType client GrantTypeAuthorizationCode
                       then [responseTypeCode] else [] in
  {| cp_ClientMetadata := MkClientMetadata "" (cl_RedirectURIs client)
       (cl_PostLogoutRedirectURIs client) (cl_TokenEndpointAuthMethod client)
       (cl_GrantTypes client) responseTypes (cl_Name client) (strings_Join (cl_Scopes client));
     cp_ClientID := cl_ClientID client; cp_ClientSecret := "";
     cp_ClientIDIssuedAt := time_unix (cl_CreatedAt client); cp_ClientSecretExpiresAt := None;
     cp_RegistrationAccessToken := "";
     cp_RegistrationClientURI :=
       baseURL +:+ "/oauth/register/" +:+ PathEscape (cl_ClientID client) |}.

Definition Register (tenantID : uuid) (initialAccessToken : string) (meta : ClientMetadata)
    : prog ClientRegistrationResponse :=
  if initialAccessToken ==? "" then throw ErrInvalidToken
  else
  let iatHash := hashToken initialAccessToken in
  iat ← map_err (fun err => if errors_Is err ErrInitialAccessTokenNotFound
                            then (ErrInvalidToken : error) else err)
          (InitialAccessTokenRepo.GetByHash tenantID iatHash);
  md ← from_sum (validateClientMetadata meta);
  let md := if Nat.eqb (length (md_scopes md)) 0 then md <| md_scopes := ia_Scopes iat |> else md in
  if negb (ScopeIsSubset (strings_Join (md_scopes md)) (strings_Join (ia_Scopes iat))) then
    throw (invalidMetadata "scope exceeds what this initial access token allows")
  else
  map_err (fun err => if errors_Is err ErrInitialAccessTokenNotFound
                      then (ErrInvalidToken : error) else err)
    (InitialAccessTokenRepo.Consume tenantID iatHash) ;;
  registrationToken ← wrap "failed to generate registration access token"
    (randomToken registrationTokenBytes);
  '(plainSecret, secretHash) ←
    (if negb (isPublic md) then
       plainSecret ← wrap "failed to generate client secret" generateClientSecret;
       secretHash ← wrap "failed to hash client secret" (hashClientSecret plainSecret);
       mret (plainSecret, secretHash)
     else mret ("", ""));
  id ← NewUUID;
  clientID ← generateClientID;
  now ← Now;
  client ← wrap "failed to create client" (ClientRepo.Create {|
    cl_ID := id; cl_TenantID := tenantID; cl_ClientID := clientID; cl_ClientSecret := secretHash;
    cl_PlainClientSecret := ""; cl_Name := md_name md; cl_RedirectURIs := md_redirectURIs md;
    cl_PostLogoutRedirectURIs := md_postLogoutRedirectURIs md;
    cl_GrantTypes := md_grantTypes md; cl_Scopes := md_scopes md; cl_IsPublic := isPublic md;
    cl_TokenEndpointAuthMethod := md_authMethod md; cl_DynamicallyRegistered := true;
    cl_RegistrationAccessToken := hashToken registrationToken;
    cl_CreatedAt := now; cl_UpdatedAt := time_zero; cl_DeletedAt := None |});
  let resp := (response client) <| cp_ClientSecret := plainSecret |> in
  let resp := if plainSecret !=? "" then resp <| cp_ClientSecretExpiresAt := Some 0 |> else resp in
  mret (resp <| cp_RegistrationAccessToken := registrationToken |>).

Definition authorize (tenantID : uuid) (clientID registrationToken : string) : prog Client :=
  if registrationToken ==? "" then throw ErrInvalidToken
  else
  client ← map_err (fun err => if errors_Is err ErrClientNotFound
                               then (ErrInvalidToken : error) else err)
             (ClientRepo.GetByClientID tenantID clientID);
  if negb (cl_DynamicallyRegistered client) || (cl_RegistrationAccessToken client ==? "")
     || negb (ConstantTimeCompare (cl_RegistrationAccessToken client) (hashToken registrationToken))
  then throw ErrInvalidToken
  else mret client.

Definition Read (tenantID : uuid) (clientID registrationToken : string)
    : prog ClientRegistrationResponse :=
  client ← authorize tenantID clientID registrationToken;
  mret (response client).

Definition Update (tenantID : uuid) (clientID registrationToken : string) (meta : ClientMetadata)
    : prog ClientRegistrationResponse :=
  client ← authorize tenantID clientID registrationToken;
  if cm_ClientID meta !=? clientID then
    throw (invalidMetadata "client_id must match the client being updated")
  else
  md ← from_sum (validateClientMetadata meta);
  if negb (Bool.eqb (isPublic md) (cl_IsPublic client)) then
    throw (invalidMetadata "token_endpoint_auth_method cannot switch between public and confidential")
  else
  let md := if Nat.eqb (length (md_scopes md)) 0 then md <| md_scopes := cl_Scopes client |> else md in
  if negb (ScopeIsSubset (strings_Join (md_scopes md)) (strings_Join (cl_Scopes client))) then
    throw (invalidMetadata "scope can only be narrowed")
  else
  now ← Now;
  let client := client <| cl_Name := md_name md |> <| cl_RedirectURIs := md_redirectURIs md |>
    <| cl_PostLogoutRedirectURIs := md_postLogoutRedirectURIs md |>
    <| cl_GrantTypes := md_grantTypes md |> <| cl_Scopes := md_scopes md |>
    <| cl_TokenEndpointAuthMethod := md_authMethod md |> <| cl_UpdatedAt := now |> in
  client ← wrap "failed to update client" (ClientRepo.Update client);
  mret (response client).

Definition Delete (tenantID : uuid) (clientID registrationToken : string) : prog unit :=
  client ← authorize tenantID clientID registrationToken;
  ClientService.Delete tenantID (cl_ID client).
End Service.
