(* ===== verification/UserService.v ===== *)
(** internal/services/user_service_impl.go: accounts, authentication with
    lockout, email verification and password reset. *)
From S2P Require Import Prelude GoStd Models Effects Store Repos AccountRepos.
From S2P Require Import Libraries AuthService.

Open Scope Z_scope.

Definition MaxLoginAttempts : Z := 5.
Definition LockoutDuration : Z := 30 * minute.
Definition EmailVerificationDuration : Z := 24 * hour.
Definition PasswordResetDuration : Z := hour.
Definition MaxPasswordResetsPerHour : Z := 3.
Definition MinPasswordLength : nat := 8.
Definition emailLinkTokenBytes : nat := 32.

Definition ErrPasswordTooShort : error := EMessage "password must be at least 8 characters".
Definition errAccountEmailsUnavailable : error := EMessage "account emails are not configured".

(** The interface TemplateEmailSender: tenant, address, name, template,
    variables and priority of an email to queue. *)
Class TemplateEmailSender :=
  SendTemplateEmail : uuid -> string -> string -> string -> list (string * string) -> Z -> prog unit.

Definition displayName (user : User) : string :=
  if GetFullName user !=? "" then GetFullName user
  else if us_Username user !=? "" then us_Username user
  else us_Email user.

Section Service.
Context `{Env} `{BcryptLib} `{UnicodeTables}.
(** [emails]: the sender, [None] when account emails are not configured;
    [baseURL] has no trailing slash. *)
Context (emails : option TemplateEmailSender) (baseURL : string).

Definition hash_password (password : string) : prog string :=
  r ← WithRandom (fun rnd => bcrypt_Generate rnd 10 password);
  wrap "failed to hash password" (from_sum r).

Definition endSessions (tenantID userID : uuid) : prog unit :=
  wrap "failed to end user sessions" (SessionRepo.DeleteByUserID tenantID userID).

Definition revokeUserCredentials (tenantID userID : uuid) : prog unit :=
  endSessions tenantID userID ;;
  wrap "failed to revoke access tokens" (AccessTokenRepo.DeleteByUserID tenantID userID) ;;
  wrap "failed to revoke refresh tokens" (RefreshTokenRepo.DeleteByUserID tenantID userID).

Definition notifyPasswordChanged (user : User) : prog unit :=
  match emails with
  | None => mret tt
  | Some send =>
    ignore (send (us_TenantID user) (us_Email user) (GetFullName user) "password_changed"
              [("user_name", displayName user)] 1)
  end.

Definition Create (tenantID : uuid) (req : CreateUserRequest) : prog User :=
  if cu_Username req ==? "" then throw (EMessage "username is required")
  else if cu_Email req ==? "" then throw (EMessage "email is required")
  else if cu_Password req ==? "" then throw (EMessage "password is required")
  else
  taken ← attempt (UserRepo.GetByUsername tenantID (cu_Username req));
  match taken with
  | inl _ => throw (EMessage "username already exists")
  | inr _ =>
  taken ← attempt (UserRepo.GetByEmail tenantID (cu_Email req));
  match taken with
  | inl _ => throw (EMessage "email already exists")
  | inr _ =>
  hashedPassword ← hash_password (cu_Password req);
  id ← NewUUID;
  wrap "failed to create user" (UserRepo.Create {|
    us_ID := id; us_TenantID := tenantID; us_Username := cu_Username req;
    us_Email := cu_Email req; us_PasswordHash := hashedPassword; us_Status := "";
    us_EmailVerified := false; us_EmailVerificationCode := "";
    us_EmailVerificationExpiresAt := None; us_PhoneNumber := ""; us_PhoneVerified := false;
    us_FirstName := ""; us_LastName := ""; us_Avatar := ""; us_Locale := ""; us_Timezone := "";
    us_LastLoginAt := None; us_LastLoginIP := ""; us_FailedLoginAttempts := 0;
    us_LockedAt := None; us_LockedUntil := None; us_PasswordResetToken := "";
    us_PasswordResetExpiresAt := None; us_Metadata := ""; us_CreatedAt := time_zero;
    us_UpdatedAt := time_zero; us_DeletedAt := None |})
  end end.

Definition GetByID (tenantID userID : uuid) : prog User := UserRepo.GetByID tenantID userID.
Definition GetByEmail (tenantID : uuid) (email : string) : prog User :=
  UserRepo.GetByEmail tenantID email.
Definition GetByUsername (tenantID : uuid) (username : string) : prog User :=
  UserRepo.GetByUsername tenantID username.

(** The lookup that must not find a row. *)
Definition must_be_free (p : prog User) (msg : string) : prog unit :=
  taken ← attempt p;
  match taken with inl _ => throw (EMessage msg) | inr _ => mret tt end.

Definition Update (tenantID userID : uuid) (req : UpdateUserRequest) : prog User :=
  user ← UserRepo.GetByID tenantID userID;
  user ←
    (if (uu_Username req !=? "") && (uu_Username req !=? us_Username user) then
       must_be_free (UserRepo.GetByUsername tenantID (uu_Username req)) "username already exists" ;;
       mret (user <| us_Username := uu_Username req |>)
     else mret user);
  user ←
    (if (uu_Email req !=? "") && (uu_Email req !=? us_Email user) then
       must_be_free (UserRepo.GetByEmail tenantID (uu_Email req)) "email already exists" ;;
       mret (user <| us_Email := uu_Email req |>)
     else mret user);
  user ←
    (if uu_Password req !=? "" then
       hashedPassword ← hash_password (uu_Password req);
       mret (user <| us_PasswordHash := hashedPassword |>)
     else mret user);
  user ← wrap "failed to update user" (UserRepo.Update user);
  (if uu_Password req !=? "" then endSessions tenantID userID else mret tt) ;;
  mret user.

Definition Delete (tenantID userID : uuid) : prog unit :=
  UserRepo.GetByID tenantID userID ;;
  wrap "failed to delete user" (UserRepo.Delete tenantID userID) ;;
  endSessions tenantID userID.

Definition List (tenantID : uuid) (limit offset : Z) : prog (PaginatedResponse User) :=
  let limit := if (limit <=? 0) || (100 <? limit) then 20 else limit in
  let offset := if offset <? 0 then 0 else offset in
  '(users, total) ← wrap "failed to list users" (UserRepo.List tenantID limit offset);
  mret (NewPaginatedResponse users limit offset total).

Definition RecordLoginAttempt (tenantID : uuid) (email ipAddress : string) (success : bool)
    : prog unit :=
  found ← attempt (UserRepo.GetByEmail tenantID email);
  match found with
  | inr _ => mret tt
  | inl user =>
    now ← Now;
    if success then
      let user := user <| us_FailedLoginAttempts := 0 |> <| us_LastLoginAt := Some now |>
        <| us_LastLoginIP := ipAddress |> <| us_LockedAt := None |> <| us_LockedUntil := None |> in
      let user := if us_Status user ==? UserStatusLocked
                  then user <| us_Status := UserStatusActive |> else user in
      UserRepo.Update (user <| us_UpdatedAt := now |>) ;; mret tt
    else
      let user := user <| us_FailedLoginAttempts := us_FailedLoginAttempts user + 1 |>
                       <| us_UpdatedAt := now |> in
      let user :=
        if MaxLoginAttempts <=? us_FailedLoginAttempts user then
          user <| us_Status := UserStatusLocked |> <| us_LockedAt := Some now |>
               <| us_LockedUntil := Some (now + LockoutDuration) |>
        else user in
      UserRepo.Update user ;; mret tt
  end.

Definition Authenticate (tenantID : uuid) (email password : string) : prog User :=
  user ← or_err ErrInvalidCredentials (UserRepo.GetByEmail tenantID email);
  now ← Now;
  if IsLocked now user then throw ErrUserLocked
  else if negb (bcrypt_Compare (us_PasswordHash user) password) then
    ignore (RecordLoginAttempt tenantID email "" false) ;; throw ErrInvalidCredentials
  else
    ignore (RecordLoginAttempt tenantID email "" true) ;; mret user.

Definition UpdateStatus (tenantID userID : uuid) (status : UserStatus) : prog unit :=
  user ← UserRepo.GetByID tenantID userID;
  now ← Now;
  UserRepo.Update (user <| us_Status := status |> <| us_UpdatedAt := now |>) ;;
  if (status ==? UserStatusSuspended) || (status ==? UserStatusLocked)
  then endSessions tenantID userID else mret tt.

Definition LockUser (tenantID userID : uuid) (reason : string) (lockedUntil : option Z) : prog unit :=
  user ← UserRepo.GetByID tenantID userID;
  now ← Now;
  UserRepo.Update (user <| us_Status := UserStatusLocked |> <| us_LockedAt := Some now |>
                     <| us_LockedUntil := lockedUntil |> <| us_UpdatedAt := now |>) ;;
  endSessions tenantID userID.

Definition UnlockUser (tenantID userID : uuid) : prog unit :=
  user ← UserRepo.GetByID tenantID userID;
  now ← Now;
  UserRepo.Update (user <| us_Status := UserStatusActive |> <| us_FailedLoginAttempts := 0 |>
                     <| us_LockedAt := None |> <| us_LockedUntil := None |>
                     <| us_UpdatedAt := now |>) ;;
  mret tt.

Definition SuspendUser (tenantID userID : uuid) (reason : string) : prog unit :=
  UpdateStatus tenantID userID UserStatusSuspended.
Definition ActivateUser (tenantID userID : uuid) : prog unit :=
  UpdateStatus tenantID userID UserStatusActive.

Definition SendVerificationEmail (tenantID userID : uuid) : prog unit :=
  match emails with
  | None => throw errAccountEmailsUnavailable
  | Some send =>
    user ← UserRepo.GetByID tenantID userID;
    if us_EmailVerified user then throw ErrEmailAlreadyVerified
    else
    code ← wrap "failed to generate verification code" (randomToken emailLinkTokenBytes);
    EmailVerificationRepo.DeletePendingByUserID tenantID userID ;;
    id ← NewUUID;
    now ← Now;
    EmailVerificationRepo.Create {|
      ev_ID := id; ev_TenantID := tenantID; ev_UserID := userID; ev_Email := us_Email user;
      ev_CodeHash := hashToken code; ev_ExpiresAt := now + EmailVerificationDuration;
      ev_VerifiedAt := None; ev_CreatedAt := time_zero |} ;;
    let link := baseURL +:+ "/account/verify-email?code=" +:+ QueryEscape code in
    wrap "failed to send verification email"
      (send tenantID (us_Email user) (GetFullName user) "email_verification"
         [("user_name", displayName user); ("verification_link", link); ("expires_hours", "24")] 1)
  end.

Definition VerifyEmail (tenantID : uuid) (code : string) : prog User :=
  if code ==? "" then throw ErrInvalidVerificationCode
  else
  verification ← EmailVerificationRepo.GetByCodeHash tenantID (hashToken code);
  if is_some (ev_VerifiedAt verification) then throw ErrInvalidVerificationCode
  else
  now ← Now;
  if EmailVerification_IsExpired now verification then throw ErrVerificationExpired
  else
  user ← UserRepo.GetByID tenantID (ev_UserID verification);
  if negb (EqualFold (us_Email user) (ev_Email verification)) then throw ErrInvalidVerificationCode
  else
  claimed ← EmailVerificationRepo.MarkVerified (ev_ID verification);
  if negb claimed then throw ErrInvalidVerificationCode
  else
  now ← Now;
  let user := user <| us_EmailVerified := true |> in
  let user := if us_Status user ==? UserStatusPending
              then user <| us_Status := UserStatusActive |> else user in
  wrap "failed to update user" (UserRepo.Update (user <| us_UpdatedAt := now |>)).

Definition RequestPasswordReset (tenantID : uuid) (email : string) : prog unit :=
  match emails with
  | None => throw errAccountEmailsUnavailable
  | Some send =>
    found ← attempt (UserRepo.GetByEmail tenantID email);
    match found with
    | inr err => if errors_Is err ErrUserNotFound then mret tt else throw err
    | inl user =>
      if IsSuspended user then mret tt
      else
      now ← Now;
      recent ← PasswordResetRepo.CountSince tenantID (us_ID user) (now - hour);
      if MaxPasswordResetsPerHour <=? recent then mret tt
      else
      token ← wrap "failed to generate reset token" (randomToken emailLinkTokenBytes);
      PasswordResetRepo.RevokeUnusedByUserID tenantID (us_ID user) ;;
      id ← NewUUID;
      now ← Now;
      PasswordResetRepo.Create {|
        pr_ID := id; pr_TenantID := tenantID; pr_UserID := us_ID user;
        pr_TokenHash := hashToken token; pr_ExpiresAt := now + PasswordResetDuration;
        pr_UsedAt := None; pr_CreatedAt := time_zero |} ;;
      let link := baseURL +:+ "/account/reset-password?token=" +:+ QueryEscape token in
      wrap "failed to send password reset email"
        (send tenantID (us_Email user) (GetFullName user) "password_reset"
           [("user_name", displayName user); ("reset_link", link); ("expires_minutes", "60")] 1)
    end
  end.

Definition ResetPassword (tenantID : uuid) (token newPassword : string) : prog User :=
  if Nat.ltb (String.length newPassword) MinPasswordLength then throw ErrPasswordTooShort
  else if token ==? "" then throw ErrInvalidVerificationCode
  else
  reset ← PasswordResetRepo.GetByTokenHash tenantID (hashToken token);
  if PasswordReset_IsUsed reset then throw ErrInvalidVerificationCode
  else
  now ← Now;
  if PasswordReset_IsExpired now reset then throw ErrVerificationExpired
  else
  user ← UserRepo.GetByID tenantID (pr_UserID reset);
  if IsSuspended user then throw ErrUserSuspended
  else
  hashedPassword ← hash_password newPassword;
  claimed ← PasswordResetRepo.MarkUsed (pr_ID reset);
  if negb claimed then throw ErrInvalidVerificationCode
  else
  now ← Now;
  let user := user <| us_PasswordHash := hashedPassword |> <| us_FailedLoginAttempts := 0 |> in
  let user :=
    if (us_Status user ==? UserStatusLocked) && is_some (us_LockedUntil user) then
      user <| us_Status := UserStatusActive |> <| us_LockedAt := None |> <| us_LockedUntil := None |>
    else user in
  user ← wrap "failed to update user password" (UserRepo.Update (user <| us_UpdatedAt := now |>));
  revokeUserCredentials tenantID (us_ID user) ;;
  ignore (PasswordResetRepo.RevokeUnusedByUserID tenantID (us_ID user)) ;;
  notifyPasswordChanged user ;;
  mret user.

Definition GetLoginHistory (tenantID userID : uuid) (limit offset : Z)
    : prog (PaginatedResponse unit) :=
  mret (NewPaginatedResponse [] limit offset 0).

Definition ChangePassword (tenantID userID : uuid) (oldPassword newPassword : string) : prog unit :=
  user ← UserRepo.GetByID tenantID userID;
  if negb (bcrypt_Compare (us_PasswordHash user) oldPassword) then throw ErrInvalidCredentials
  else
  hashedPassword ← hash_password newPassword;
  user ← wrap "failed to change password"
    (UserRepo.Update (user <| us_PasswordHash := hashedPassword |>));
  endSessions tenantID userID ;;
  notifyPasswordChanged user.
End Service.
