(* ===== verification/HandlerSecurity.v ===== *)
(** internal/handlers/oauth_security.go and the pending token of
    oauth_mfa.go: client credentials of a request, double-submit CSRF tokens
    and the signed token between the password and the second factor. *)
From S2P Require Import Prelude GoStd StringFacts Base64 Hash Models Effects Libraries Http.
From Stdlib Require Import Ascii.

Open Scope Z_scope.

Definition csrfCookieName : string := "sg_csrf".
Definition maxNonceLength : nat := 512.

(** Client ID and secret; [None]: no client_id at all. *)
Definition clientCredentialsFromRequest (c : Request) : option (string * string) :=
  let '(clientID, clientSecret) :=
    match q_BasicAuth c with
    | Some (user, pass) => (default user (QueryUnescape user), default pass (QueryUnescape pass))
    | None => (PostForm c "client_id", PostForm c "client_secret")
    end in
  if clientID !=? "" then Some (clientID, clientSecret) else None.

Definition dot : ascii := "."%char.

Definition signCSRFValue (secret value : string) : string :=
  base64_raw_url (hmac sha256 secret value).

Definition newCSRFToken `{Env} (secret : string) : prog string :=
  nonce ← RandRead 32;
  let value := base64_raw_url nonce in
  mret (value +:+ "." +:+ signCSRFValue secret value).

Definition validateCSRFToken (secret formToken cookieToken : string) : bool :=
  if (formToken ==? "") || (cookieToken ==? "") then false
  else if formToken !=? cookieToken then false (* hmac.Equal *)
  else match Cut dot formToken with
       | None => false (* SplitN gave fewer than two parts *)
       | Some (value, sig) => sig ==? signCSRFValue secret value
       end.

(** ** The pending token *)

Definition mfaPurposeLogin : string := "login".
Definition mfaPurposeDevice : string := "device".
Definition mfaPendingTTL : Z := 5 * minute.
Definition errMFAPendingInvalid : error := EMessage "invalid MFA pending token".

Record mfaPending := MkMfaPending {
  mp_TenantID : string;
  mp_UserID : string;
  mp_Purpose : string;
  mp_Expires : Z
}.

(** encoding/json on mfaPending. *)
Class PendingJson := {
  pending_Marshal : mfaPending -> string;
  pending_Unmarshal : string -> option mfaPending
}.
(** Marshalling keeps the fields, whose strings are ASCII. *)
Class PendingJsonLaws `{PendingJson} :=
  pending_roundtrip : forall p, pending_Unmarshal (pending_Marshal p) = Some p.

Section Pending.
Context `{Env} `{UuidLib} `{PendingJson}.

Definition sign_pending (secret payload : string) : string :=
  signCSRFValue secret ("mfa-pending:" +:+ payload).

Definition newMFAPendingToken (secret : string) (p : mfaPending) : string :=
  let payload := base64_raw_url (pending_Marshal p) in
  payload +:+ "." +:+ sign_pending secret payload.

Definition parseMFAPendingToken (secret token : string) (tenantID : uuid) (purpose : string)
    : prog uuid :=
  match Cut dot token with
  | None => throw errMFAPendingInvalid
  | Some (payload, sig) =>
    if sig !=? sign_pending secret payload then throw errMFAPendingInvalid
    else
    match base64_raw_url_decode payload with
    | None => throw errMFAPendingInvalid
    | Some raw =>
      match pending_Unmarshal raw with
      | None => throw errMFAPendingInvalid
      | Some p =>
        now ← Now;
        if (mp_TenantID p !=? uuid_String tenantID) || (mp_Purpose p !=? purpose)
           || (mp_Expires p <? time_unix now) then throw errMFAPendingInvalid
        else from_opt errMFAPendingInvalid (uuid_Parse (mp_UserID p))
      end
    end
  end.
End Pending.

(** ** Facts *)

(** No byte of a base64 encoding is a dot. *)
Fixpoint no_byte (c : ascii) (s : string) : Prop :=
  match s with EmptyString => True | String d s' => c <> d /\ no_byte c s' end.

Lemma Cut_first c a b : no_byte c a -> Cut c (a +:+ String c b) = Some (a, b).
Proof.
  induction a as [|d a IH]; simpl; intros Ha.
  - by rewrite bool_decide_eq_true_2.
  - destruct Ha as [Hd Ha]. rewrite bool_decide_eq_false_2 by done. by rewrite IH.
Qed.

Lemma Cut_Some c s a b : Cut c s = Some (a, b) -> s = a +:+ String c b.
Proof.
  revert a b. induction s as [|d s IH]; intros a b; simpl; [done|].
  case_bool_decide as Hd; [by intros [= <- <-]; subst|].
  destruct (Cut c s) as [[a' b']|]; [|done]. intros [= <- <-]. simpl. by rewrite (IH a' b').
Qed.

Lemma get_forall p n s d : string_forall p s = true -> String.get n s = Some d -> p d = true.
Proof.
  revert n. induction s as [|e s IH]; intros [|n]; simpl; try done;
    intros [He Hs]%andb_true_iff; [by intros [= <-]|by apply IH].
Qed.

Lemma digit_no_dot z : dot <> char_at b64url_alphabet z.
Proof.
  unfold char_at. destruct (String.get (Z.to_nat z) b64url_alphabet) as [d|] eqn:E; [|done].
  apply (get_forall (fun c => negb (dot ==? c))) in E; [|vm_compute; reflexivity].
  by apply negb_true_iff, bool_decide_eq_false in E.
Qed.

Lemma base64_no_dot s : no_byte dot (base64_raw_url s).
Proof.
  unfold base64_raw_url. generalize (bytes_of s). intros l.
  induction l as [|a|a b|a b c l IH] using list_ind3; cbn [b64_groups no_byte];
    repeat split; try apply digit_no_dot; done.
Qed.

(** A token "value.signature" splits where it was joined. *)
Lemma Cut_signed payload sig :
  Cut dot (base64_raw_url payload +:+ "." +:+ sig) = Some (base64_raw_url payload, sig).
Proof. apply Cut_first, base64_no_dot. Qed.

(** A minted token passes, when the browser sends it back twice. *)
Lemma newCSRFToken_valid `{Env} secret w w' token :
  run (newCSRFToken secret) w = (w', Ok token) -> validateCSRFToken secret token token = true.
Proof.
  unfold newCSRFToken. rewrite ok_bind. intros (nonce & w1 & _ & E%ok_ret). destruct E as [-> ->].
  unfold validateCSRFToken.
  assert (Hne : base64_raw_url nonce +:+ "." +:+ signCSRFValue secret (base64_raw_url nonce) <> "").
  { apply string_app_nonempty. }
  rewrite (bool_decide_eq_false_2 _ Hne). simpl orb. cbv iota.
  rewrite bool_decide_eq_true_2 by done. rewrite Cut_signed. by apply bool_decide_eq_true_2.
Qed.

(** Exactly the cookie's value, signed with the server's secret, passes. *)
Lemma validateCSRFToken_sound (secret form cookie : string) :
  validateCSRFToken secret form cookie = true <->
  form = cookie /\ exists value, Cut dot form = Some (value, signCSRFValue secret value).
Proof.
  unfold validateCSRFToken. split.
  - destruct (_ || _); [done|]. destruct (form !=? cookie) eqn:E; [done|]. bool_simp.
    destruct (Cut dot form) as [[value sig]|] eqn:Ec; [|done].
    intros ->%bool_decide_eq_true. split; [done|]. eauto.
  - intros (-> & value & Ec).
    assert (cookie <> "") as Hne by (intros ->; done).
    rewrite (bool_decide_eq_false_2 _ Hne). simpl orb. cbv iota.
    rewrite bool_decide_eq_true_2 by done. simpl. rewrite Ec. by apply bool_decide_eq_true_2.
Qed.

Section PendingFacts.
Context `{Env} `{UuidLib} `{PendingJson}.

(** What an accepted pending token attests. *)
Lemma parseMFAPendingToken_ok secret token t purpose w w' u :
  run (parseMFAPendingToken secret token t purpose) w = (w', Ok u) ->
  w_db w' = w_db w /\ w' = tick w /\
  exists payload raw p,
    Cut dot token = Some (payload, sign_pending secret payload) /\
    base64_raw_url_decode payload = Some raw /\ pending_Unmarshal raw = Some p /\
    mp_TenantID p = uuid_String t /\ mp_Purpose p = purpose /\
    time_unix (env_now (w_step w)) <= mp_Expires p /\ uuid_Parse (mp_UserID p) = Some u.
Proof.
  unfold parseMFAPendingToken. destruct (Cut dot token) as [[payload sig]|]; [|done].
  destruct (sig !=? sign_pending secret payload) eqn:Es; [done|]. bool_simp. subst sig.
  destruct (base64_raw_url_decode payload) as [raw|] eqn:Er; [|done].
  destruct (pending_Unmarshal raw) as [p|] eqn:Ep; [|done].
  rewrite ok_bind. intros (now & w1 & [-> ->]%ok_Now & E).
  destruct (_ || _ || _) eqn:Ec; [done|]. bool_simp.
  apply ok_from_opt in E as [-> E]. split; [done|]. split; [done|].
  exists payload, raw, p. split_and!; try done.
Qed.

(** The token the password step hands out is accepted for its user, tenant
    and flow until it expires. *)
Lemma newMFAPendingToken_accepted `{!PendingJsonLaws} `{!UuidLaws} secret t u purpose expires w :
  time_unix (env_now (w_step w)) <= expires ->
  run (parseMFAPendingToken secret
         (newMFAPendingToken secret (MkMfaPending (uuid_String t) (uuid_String u) purpose expires))
         t purpose) w = (tick w, Ok u).
Proof.
  intros Hexp. unfold parseMFAPendingToken, newMFAPendingToken. cbv zeta. rewrite Cut_signed.
  rewrite bool_decide_eq_true_2 by done. cbn [negb].
  rewrite base64_url_roundtrip, pending_roundtrip. rewrite run_bind, run_Now. cbn [fst snd].
  cbn [mp_TenantID mp_Purpose mp_Expires mp_UserID].
  rewrite !bool_decide_eq_true_2 by done. cbn [negb orb].
  destruct (Z.ltb_spec expires (time_unix (env_now (w_step w)))); [lia|].
  by rewrite uuid_Parse_String.
Qed.
End PendingFacts.
