(* ===== verification/TokenEndpoint.v ===== *)
(** internal/handlers/oauth_handler.go and the device-facing part of
    oauth_device_handler.go: the token, introspection, revocation, userinfo,
    discovery, key and device authorization endpoints. Log lines and metrics
    are left out. *)
From S2P Require Import Prelude GoStd Models Effects Store Libraries JwtKeys AuditTrail Http.
From S2P Require Import Scope AuthService DeviceFlow Mfa ClientService HandlerSecurity.

Open Scope Z_scope.

(** OAuthHandler. The services it holds are those of this library; [oh_mfa]
    and [oh_secrets] are the keys of the second factor service, if there is
    one, and the client secret cache, if it could be made. *)
Record OAuthHandler := MkOAuthHandler {
  oh_cfg : Config;
  oh_authService : authServiceImpl;
  oh_mfaService : option Keys;
  oh_events : Recorder;
  oh_secrets : option clientSecretCache
}.

(** registration_handler.go: responses with credentials are not cached. *)
Definition noStore (w : Response) : Response :=
  Header (Header w "Cache-Control" "no-store") "Pragma" "no-cache".

Section Handler.
Context `{Env} `{UuidLib} `{JwtLib} `{UnicodeTables} `{BcryptLib}.
Context (h : OAuthHandler) (c : Request).

(** On failure the 401 response, otherwise what [k] does with the client. *)
Definition authenticateClient (w : Response) (tenantID : uuid) (k : Client -> prog Response)
    : prog Response :=
  let refuse (description : string) : prog Response :=
    mret (oauth_error (Header w "WWW-Authenticate" ("Basic realm=" +:+ in_quotes "oauth"))
            StatusUnauthorized "invalid_client" description) in
  match clientCredentialsFromRequest c with
  | None => refuse "Client authentication required"
  | Some (clientID, clientSecret) =>
    client ← attempt (ValidateClient (oh_secrets h) tenantID clientID clientSecret);
    match client with
    | inr _ => refuse "Client authentication failed"
    | inl client => k client
    end
  end.

(** [HasGrantType], with the refusal its callers share. *)
Definition require_grant (w : Response) (client : Client) (grant name : string)
    (k : prog Response) : prog Response :=
  if negb (HasGrantType client grant) then
    mret (oauth_error w StatusBadRequest "unauthorized_client"
            ("Client is not authorized for the " +:+ name +:+ " grant"))
  else k.

Definition handleAuthorizationCodeGrant (w : Response) (tenantID : uuid) : prog Response :=
  let code := PostForm c "code" in
  let redirectURI := PostForm c "redirect_uri" in
  let codeVerifier := PostForm c "code_verifier" in
  authenticateClient w tenantID (fun client =>
  require_grant w client "authorization_code" "authorization_code" (
  tokenResponse ← attempt (ExchangeAuthorizationCode (oh_authService h) tenantID code
                             (uuid_String (cl_ID client)) "" redirectURI codeVerifier);
  mret match tokenResponse with
       | inr err =>
         oauth_error w StatusBadRequest "invalid_grant"
           (if err ==? (ErrPKCEVerificationFailed : error) then "PKCE verification failed"
            else "Authorization code is invalid or expired")
       | inl tokenResponse => c_JSON w StatusOK (PToken tokenResponse)
       end)).

Definition handleRefreshTokenGrant (w : Response) (tenantID : uuid) : prog Response :=
  let refreshToken := PostForm c "refresh_token" in
  let requestedScope := PostForm c "scope" in
  authenticateClient w tenantID (fun client =>
  require_grant w client "refresh_token" "refresh_token" (
  tokenResponse ← attempt (RefreshTokens (oh_authService h) tenantID refreshToken
                             (uuid_String (cl_ID client)) requestedScope);
  mret match tokenResponse with
       | inr err =>
         if err ==? (ErrInvalidScope : error) then
           oauth_error w StatusBadRequest "invalid_scope"
             "Requested scope exceeds the originally granted scope"
         else oauth_error w StatusBadRequest "invalid_grant" "Refresh token is invalid or expired"
       | inl tokenResponse => c_JSON w StatusOK (PToken tokenResponse)
       end)).

Definition handleClientCredentialsGrant (w : Response) (tenantID : uuid) : prog Response :=
  let scope := PostForm c "scope" in
  authenticateClient w tenantID (fun client =>
  if cl_IsPublic client then
    mret (oauth_error w StatusUnauthorized "invalid_client"
            "Public clients cannot use the client_credentials grant")
  else
  require_grant w client "client_credentials" "client_credentials" (
  match ValidateScopeForClient client scope with
  | inr _ => mret (oauth_error w StatusBadRequest "invalid_scope"
                     "Requested scope is not allowed for this client")
  | inl grantedScope =>
    tokenResponse ← attempt (GenerateClientCredentialsTokens (oh_authService h) tenantID client
                               grantedScope);
    mret match tokenResponse with
         | inr _ => oauth_error w StatusInternalServerError "server_error"
                      "Failed to generate tokens"
         | inl tokenResponse => c_JSON w StatusOK (PToken tokenResponse)
         end
  end)).

(** The polling errors a device acts on. *)
Definition device_error (w : Response) (err : error) : Response :=
  let code := c_JSON w StatusBadRequest in
  if err ==? (ErrAuthorizationPending : error) then code (PErrorCode "authorization_pending")
  else if err ==? (ErrSlowDown : error) then code (PErrorCode "slow_down")
  else if err ==? (ErrExpiredDeviceCode : error) then code (PErrorCode "expired_token")
  else if err ==? (ErrDeviceAccessDenied : error) then code (PErrorCode "access_denied")
  else oauth_error w StatusBadRequest "invalid_grant" "Device code is invalid".

Definition handleDeviceCodeGrant (w : Response) (tenantID : uuid) : prog Response :=
  let deviceCode := PostForm c "device_code" in
  if deviceCode ==? "" then
    mret (oauth_error w StatusBadRequest "invalid_request" "device_code is required")
  else
  authenticateClient w tenantID (fun client =>
  require_grant w client GrantTypeDeviceCode "device_code" (
  tokenResponse ← attempt (ExchangeDeviceCode (oh_authService h) tenantID client deviceCode);
  mret match tokenResponse with
       | inr err => device_error w err
       | inl tokenResponse => c_JSON w StatusOK (PToken tokenResponse)
       end)).

Definition handleTokenExchangeGrant (w : Response) (tenantID : uuid) : prog Response :=
  authenticateClient w tenantID (fun client =>
  if cl_IsPublic client then
    mret (oauth_error w StatusUnauthorized "invalid_client"
            "Token exchange requires a confidential client")
  else
  require_grant w client GrantTypeTokenExchange "token-exchange" (
  let subjectToken := PostForm c "subject_token" in
  let subjectTokenType := PostForm c "subject_token_type" in
  let requestedTokenType := PostForm c "requested_token_type" in
  let requestedScope := PostForm c "scope" in
  if (subjectToken ==? "") || (subjectTokenType ==? "") then
    mret (oauth_error w StatusBadRequest "invalid_request"
            "subject_token and subject_token_type are required")
  else if (requestedTokenType !=? "") && (requestedTokenType !=? TokenTypeAccessToken) then
    mret (oauth_error w StatusBadRequest "invalid_request"
            "Only access tokens can be issued by this server")
  else
  response ← attempt (ExchangeToken (oh_authService h) tenantID client subjectToken
                        subjectTokenType requestedScope);
  mret match response with
       | inr err =>
         if err ==? (ErrInvalidScope : error) then
           oauth_error w StatusBadRequest "invalid_scope"
             "Requested scope exceeds the subject token or client registration"
         else oauth_error w StatusBadRequest "invalid_grant" "Subject token is invalid or expired"
       | inl response => c_JSON w StatusOK (PTokenExchange response)
       end)).

(** POST /oauth/token, behind [noStore]. *)
Definition HandleToken (w : Response) : prog Response :=
  let w := noStore w in
  match GetTenantID c with
  | None => mret (oauth_error w StatusBadRequest "invalid_request"
                    "Tenant context required — provide X-Tenant-ID header")
  | Some tenantID =>
    let grantType := PostForm c "grant_type" in
    if grantType ==? "authorization_code" then handleAuthorizationCodeGrant w tenantID
    else if grantType ==? "refresh_token" then handleRefreshTokenGrant w tenantID
    else if grantType ==? "client_credentials" then handleClientCredentialsGrant w tenantID
    else if grantType ==? GrantTypeDeviceCode then handleDeviceCodeGrant w tenantID
    else if grantType ==? GrantTypeTokenExchange then handleTokenExchangeGrant w tenantID
    else mret (oauth_error w StatusBadRequest "unsupported_grant_type" "Grant type not supported")
  end.

(** POST /oauth/device_authorization, behind [noStore]. *)
Definition HandleDeviceAuthorization (w : Response) : prog Response :=
  let w := noStore w in
  match GetTenantID c with
  | None => mret (oauth_error w StatusBadRequest "invalid_request"
                    "Tenant context required — provide X-Tenant-ID header")
  | Some tenantID =>
    authenticateClient w tenantID (fun client =>
    require_grant w client GrantTypeDeviceCode "device_code" (
    match ValidateScopeForClient client (PostForm c "scope") with
    | inr _ => mret (oauth_error w StatusBadRequest "invalid_scope"
                       "Requested scope is not allowed for this client")
    | inl grantedScope =>
      response ← attempt (CreateDeviceAuthorization (oh_authService h) tenantID client grantedScope);
      mret match response with
           | inr _ => oauth_error w StatusInternalServerError "server_error"
                        "Failed to start device authorization"
           | inl response => c_JSON w StatusOK (PDevice response)
           end
    end))
  end.

Definition bearerError (w : Response) (status : Z) (code scope : string) : Response :=
  let challenge := "Bearer realm=" +:+ in_quotes (cfg_ServerURL (oh_cfg h))
                   +:+ ", error=" +:+ in_quotes code in
  let challenge := if scope !=? "" then challenge +:+ ", scope=" +:+ in_quotes scope else challenge in
  c_JSON (Header w "WWW-Authenticate" challenge) status (PErrorCode code).

Definition HandleUserInfo (w : Response) : prog Response :=
  match GetTenantID c with
  | None => mret (bearerError w StatusUnauthorized "invalid_token" "")
  | Some tenantID =>
    let authHeader := GetHeader c "Authorization" in
    if negb (has_prefix "Bearer " authHeader) then
      mret (c_JSON (Header w "WWW-Authenticate"
                      ("Bearer realm=" +:+ in_quotes (cfg_ServerURL (oh_cfg h))))
              StatusUnauthorized (PErrorCode "invalid_request"))
    else
    let token := TrimPrefix "Bearer " authHeader in
    userInfo ← attempt (GetUserInfo (oh_authService h) tenantID token);
    mret match userInfo with
         | inl userInfo => c_JSON w StatusOK (PUserInfo userInfo)
         | inr err =>
           if errors_Is err ErrInsufficientScope
           then bearerError w StatusForbidden "insufficient_scope" "openid"
           else bearerError w StatusUnauthorized "invalid_token" ""
         end
  end.

Definition HandleDiscovery (w : Response) : prog Response :=
  discovery ← attempt (GetDiscoveryDocument (oh_authService h));
  mret match discovery with
       | inr _ => c_JSON w StatusInternalServerError (PErrorCode "server_error")
       | inl discovery => c_JSON w StatusOK (PDiscovery discovery)
       end.

Definition HandleJWKS (w : Response) : prog Response :=
  jwks ← attempt (GetJWKS (oh_authService h));
  mret match jwks with
       | inr _ => c_JSON w StatusInternalServerError (PErrorCode "server_error")
       | inl jwks => c_JSON (Header w "Cache-Control" "public, max-age=900") StatusOK (PJWKS jwks)
       end.

(** POST /oauth/introspect, behind [noStore]. *)
Definition HandleIntrospect (w : Response) : prog Response :=
  let w := noStore w in
  match GetTenantID c with
  | None => mret (oauth_error w StatusBadRequest "invalid_request"
                    "Tenant context required — provide X-Tenant-ID header")
  | Some tenantID =>
    authenticateClient w tenantID (fun client =>
    if cl_IsPublic client then
      mret (oauth_error w StatusUnauthorized "invalid_client"
              "Introspection requires a confidential client")
    else
    let token := PostForm c "token" in
    if token ==? "" then mret (c_JSON w StatusBadRequest (PErrorCode "invalid_request"))
    else
    introspection ← attempt (IntrospectToken (oh_authService h) tenantID token);
    mret match introspection with
         | inr _ => c_JSON w StatusOK PInactive
         | inl introspection => c_JSON w StatusOK (PIntrospection introspection)
         end)
  end.

Definition HandleRevoke (w : Response) : prog Response :=
  match GetTenantID c with
  | None => mret (c_JSON w StatusUnauthorized (PErrorCode "invalid_client"))
  | Some tenantID =>
    authenticateClient w tenantID (fun client =>
    let token := PostForm c "token" in
    let tokenTypeHint := PostForm c "token_type_hint" in
    if token ==? "" then mret (c_JSON w StatusBadRequest (PErrorCode "invalid_request"))
    else
    ignore (RevokeToken (oh_authService h) tenantID token tokenTypeHint (cl_ID client)) ;;
    mret (w <| rs_Status := StatusOK |>))
  end.
End Handler.
