(* ===== verification/Authorize.v ===== *)
(** internal/handlers/oauth_authorize.go and oauth_mfa.go: the authorization
    endpoint and the login, second factor and consent forms that carry an
    authorization request through. Log lines and counters are left out.
    Helpers that answer the request themselves and report false take the
    rest of the handler as [k]. *)
From S2P Require Import Prelude GoStd Models Effects Store Libraries JwtKeys AuditTrail Http.
From S2P Require Import Scope AuthService Mfa MfaService ClientService Session UserService.
From S2P Require Import TenantService HandlerSecurity TokenEndpoint.
From stdpp Require Import gmap.

Open Scope Z_scope.

Definition sessionCookieName : string := "sg_session".
Definition promptNone : string := "none".
Definition promptLogin : string := "login".
Definition promptConsent : string := "consent".
Definition promptSelectAccount : string := "select_account".

(** authorizationRequest; [az_prompt] is the key set of the prompt map. *)
Record authorizationRequest := MkAuthorizationRequest {
  az_request : AuthorizeRequest;
  az_client : Client;
  az_scope : string;
  az_prompt : gset string;
  az_maxAge : Z
}.
Definition prompts (r : authorizationRequest) (p : string) : bool := bool_decide (p ∈ az_prompt r).

Definition readAuthorizeRequest (get : string -> string) : AuthorizeRequest := {|
  ar_ResponseType := get "response_type"; ar_ClientID := get "client_id";
  ar_RedirectURI := get "redirect_uri"; ar_Scope := get "scope"; ar_State := get "state";
  ar_CodeChallenge := get "code_challenge";
  ar_CodeChallengeMethod := get "code_challenge_method"; ar_Nonce := get "nonce";
  ar_Prompt := get "prompt"; ar_MaxAge := get "max_age"; ar_Request := get "request";
  ar_RequestURI := get "request_uri" |}.

Section Handler.
Context `{Env} `{UuidLib} `{JwtLib} `{UnicodeTables} `{BcryptLib} `{AeadLib}.
Context `{RedirectLib} `{PendingJson}.
Context (h : OAuthHandler) (c : Request).

(** ** Errors, cookies and events *)

Definition renderError (w : Response) (errorCode errorDescription redirectURI state : string)
    : Response :=
  let page := c_HTML w StatusBadRequest "error.html"
    [("error", HString errorCode); ("error_description", HString errorDescription)] in
  if redirectURI !=? "" then
    match url_SetQuery redirectURI
            ([("error", errorCode); ("error_description", errorDescription)]
             ++ (if state !=? "" then [("state", state)] else [])
             ++ [("iss", cfg_ServerURL (oh_cfg h))]) with
    | Some location => Redirect w StatusFound location
    | None => page
    end
  else page.

(** renderError towards the client of a validated request. *)
Definition fail_to (w : Response) (ar : AuthorizeRequest) (code description : string) : Response :=
  renderError w code description (ar_RedirectURI ar) (ar_State ar).
Definition server_error (w : Response) (ar : AuthorizeRequest) : Response :=
  fail_to w ar "server_error" "Internal server error".

Definition secureCookies : bool := has_prefix "https://" (cfg_ServerURL (oh_cfg h)).

Definition set_csrf_cookie (w : Response) (csrfToken : string) : Response :=
  add_cookie w (MkSetCookie csrfCookieName csrfToken 600 "/oauth" secureCookies).

Definition addCSRFToken (w : Response) (data : gin_H) (k : Response -> gin_H -> prog Response)
    : prog Response :=
  csrfToken ← attempt (newCSRFToken (cfg_JWTSecret (oh_cfg h)));
  match csrfToken with
  | inr _ => mret (renderError w "server_error" "Internal server error" "" "")
  | inl csrfToken =>
    k (set_csrf_cookie w csrfToken) (data ++ [("csrf_token", HString csrfToken)])
  end.

Definition validCSRF : bool :=
  validateCSRFToken (cfg_JWTSecret (oh_cfg h)) (PostForm c "csrf_token") (Cookie c csrfCookieName).

Definition setSessionCookie (w : Response) (token : string) : Response :=
  add_cookie w (MkSetCookie sessionCookieName token
                  (dur_seconds (cfg_SessionDuration (oh_cfg h))) "/" secureCookies).

Definition record (ev : Event) : prog unit := Record_ (oh_events h) (q_Ctx c) ev.
(** An event that is only counted has no action. *)
Definition counted : Event := MkEvent "" uuid_Nil None None "" false "" [].

(** ** The browser's session *)

Definition currentSession (tenantID : uuid) : prog (option Session) :=
  let token := Cookie c sessionCookieName in
  if token ==? "" then mret None
  else
  session ← attempt (GetSession tenantID token);
  match session with
  | inr _ => mret None
  | inl session =>
    let end_it := ignore (EndSession tenantID token) ;; mret None in
    user ← attempt (UserService.GetByID tenantID (ss_UserID session));
    match user with
    | inr err => if negb (errors_Is err ErrUserNotFound) then mret None else end_it
    | inl user => if IsSuspended user then end_it else mret (Some session)
    end
  end.

Definition deleteBrowserSession (tenantID : uuid) : prog unit :=
  let token := Cookie c sessionCookieName in
  if token !=? "" then ignore (EndSession tenantID token) else mret tt.

Definition endBrowserSession (w : Response) (tenantID : uuid) : prog Response :=
  deleteBrowserSession tenantID ;;
  mret (add_cookie w (MkSetCookie sessionCookieName "" (-1) "/" secureCookies)).

(** ** Validating the authorization request *)

(** r.acceptsSession *)
Definition acceptsSession (r : authorizationRequest) (session : Session) : prog bool :=
  if prompts r promptLogin || prompts r promptSelectAccount then mret false
  else if az_maxAge r <? 0 then mret true
  else now ← Now; mret (time_sub now (ss_AuthTime session) <=? az_maxAge r).

(** The checks once the redirect URI is trusted: the validated request, or
    the error code and description sent back to the client. *)
Definition check_request (client : Client) (req : AuthorizeRequest)
    : authorizationRequest + string * string :=
  let fail code description := inr (code, description) in
  if ar_Request req !=? "" then
    fail "request_not_supported" "The request parameter is not supported"
  else if ar_RequestURI req !=? "" then
    fail "request_uri_not_supported" "The request_uri parameter is not supported"
  else match AuthorizeRequest_Validate req with
  | Some err => fail "unsupported_response_type" (match err with EMessage m => m | _ => "" end)
  | None =>
  if Nat.ltb maxNonceLength (String.length (ar_Nonce req)) then
    fail "invalid_request" "nonce is too long"
  else if negb (HasGrantType client "authorization_code") then
    fail "unauthorized_client" "Client is not authorized for the authorization_code grant"
  else match ValidateScopeForClient client (ar_Scope req) with
  | inr _ => fail "invalid_scope" "Requested scope is not allowed for this client"
  | inl scope =>
  if cl_IsPublic client
     && ((ar_CodeChallenge req ==? "") || (ar_CodeChallengeMethod req ==? "")) then
    fail "invalid_request" "PKCE required for public clients"
  else if cl_IsPublic client && (ar_CodeChallengeMethod req !=? "S256") then
    fail "invalid_request" "Only S256 code challenge method supported"
  else
  let prompt : gset string := list_to_set (Fields (ar_Prompt req)) in
  if bool_decide (promptNone ∈ prompt) && Nat.ltb 1 (size prompt) then
    fail "invalid_request" "prompt=none cannot be combined with other values"
  else
  let ok maxAge := inl (MkAuthorizationRequest req client scope prompt maxAge) in
  if ar_MaxAge req !=? "" then
    match Atoi (ar_MaxAge req) with
    | Some seconds =>
      if seconds <? 0 then fail "invalid_request" "max_age must be a non-negative integer"
      else ok (wrap64 (seconds * second))
    | None => fail "invalid_request" "max_age must be a non-negative integer"
    end
  else ok (-1)
  end end.

Definition validateAuthorizationRequest (w : Response) (tenantID : uuid) (req : AuthorizeRequest)
    (k : authorizationRequest -> prog Response) : prog Response :=
  client ← attempt (ClientService.GetByClientID tenantID (ar_ClientID req));
  match client with
  | inr _ => mret (renderError w "invalid_client" "Invalid client" "" "")
  | inl client =>
    valid ← attempt (ValidateRedirectURI client (ar_RedirectURI req));
    match valid with
    | inr _ => mret (renderError w "invalid_request" "Invalid redirect URI" "" "")
    | inl _ =>
      match check_request client req with
      | inr (code, description) => mret (fail_to w req code description)
      | inl ar => k ar
      end
    end
  end.

(** ** Pages *)

Definition authorizationFormData (ar : authorizationRequest) : gin_H :=
  let req := az_request ar in
  [("client_id", HString (ar_ClientID req)); ("client_name", HString (cl_Name (az_client ar)));
   ("redirect_uri", HString (ar_RedirectURI req)); ("scope", HString (az_scope ar));
   ("state", HString (ar_State req)); ("code_challenge", HString (ar_CodeChallenge req));
   ("code_challenge_method", HString (ar_CodeChallengeMethod req));
   ("nonce", HString (ar_Nonce req)); ("prompt", HString (ar_Prompt req));
   ("response_type", HString "code")].

Definition error_entry (errorMsg : string) : gin_H :=
  if errorMsg !=? "" then [("error", HString errorMsg)] else [].
Definition tenant_entry (name : string) : gin_H :=
  [("tenant_info", HMap [("name", HString name)])].

Definition renderLoginPage (w : Response) (tenantID : uuid) (ar : authorizationRequest)
    (errorMsg : string) : prog Response :=
  addCSRFToken w (authorizationFormData ar) (fun w data =>
  tenant ← attempt (TenantService.GetByID tenantID);
  let data := match tenant with inl tenant => data ++ tenant_entry (tn_Name tenant) | inr _ => data end in
  mret (c_HTML w StatusOK "login.html" (data ++ error_entry errorMsg))).

Definition renderConsentPage (w : Response) (tenantID : uuid) (ar : authorizationRequest)
    (session : Session) : prog Response :=
  addCSRFToken w (authorizationFormData ar) (fun w data =>
  user ← attempt (UserService.GetByID tenantID (ss_UserID session));
  let data := match user with
              | inl user => data ++ [("user_email", HString (us_Email user))]
              | inr _ => data
              end in
  mret (c_HTML w StatusOK "consent.html" data)).

Definition renderMFAPage (w : Response) (action : string) (hidden : gin_H)
    (pendingToken errorMsg : string) : prog Response :=
  addCSRFToken w [("action", HString action); ("hidden", HMap hidden);
                  ("mfa_token", HString pendingToken)] (fun w data =>
  mret (c_HTML w StatusOK "mfa.html" (data ++ error_entry errorMsg))).

(** ** Issuing the code *)

Definition issueAuthorizationCode (w : Response) (tenantID : uuid) (ar : authorizationRequest)
    (session : Session) : prog Response :=
  let req := az_request ar in
  authCode ← attempt (GenerateAuthorizationCode (oh_authService h) tenantID (cl_ID (az_client ar))
    (ss_UserID session) (ar_RedirectURI req) (az_scope ar) (ar_CodeChallenge req)
    (ar_CodeChallengeMethod req) (ar_Nonce req) (ss_AuthTime session) (ss_AMR session));
  match authCode with
  | inr _ => mret (server_error w req)
  | inl authCode =>
    match url_SetQuery (ar_RedirectURI req)
            ([("code", ac_Code authCode)]
             ++ (if ar_State req !=? "" then [("state", ar_State req)] else [])
             ++ [("iss", cfg_ServerURL (oh_cfg h))]) with
    | None => mret (renderError w "invalid_request" "Invalid redirect URI" "" "")
    | Some location => mret (Redirect w StatusFound location)
    end
  end.

Definition continueAuthorization (w : Response) (tenantID : uuid) (ar : authorizationRequest)
    (session : Session) : prog Response :=
  granted ← attempt (HasConsent tenantID (ss_UserID session) (cl_ID (az_client ar)) (az_scope ar));
  match granted with
  | inr _ => mret (server_error w (az_request ar))
  | inl granted =>
    if negb granted || prompts ar promptConsent then
      if prompts ar promptNone then
        mret (fail_to w (az_request ar) "consent_required" "End-user consent is required")
      else renderConsentPage w tenantID ar session
    else issueAuthorizationCode w tenantID ar session
  end.

(** A fresh session for a fully authenticated user. *)
Definition signIn (w : Response) (tenantID : uuid) (ar : authorizationRequest) (userID : uuid)
    (amr : list string) : prog Response :=
  deleteBrowserSession tenantID ;;
  created ← attempt (CreateSession (cfg_SessionDuration (oh_cfg h)) tenantID userID amr
                       (q_ClientIP c) (q_UserAgent c));
  match created with
  | inr _ => mret (server_error w (az_request ar))
  | inl (token, session) =>
    let w := setSessionCookie w token in
    record (MkEvent AuditActionUserLogin tenantID (Some userID) (Some (cl_ID (az_client ar))) ""
              true "" [("amr", MetaStrings amr); ("flow", MetaString mfaPurposeLogin)]) ;;
    continueAuthorization w tenantID ar session
  end.

Definition recordLoginFailure (tenantID : uuid) (flow username : string) (err : error) : prog unit :=
  let result := if errors_Is err ErrUserLocked then "locked" else "invalid_credentials" in
  record (MkEvent AuditActionUserLoginFailed tenantID None None "" false result
            [("username", MetaString username); ("flow", MetaString flow)]).

(** ** The second factor *)

Definition mfaRequired (tenantID userID : uuid) : prog bool :=
  match oh_mfaService h with None => mret false | Some _ => IsEnabled tenantID userID end.

Definition startMFA (w : Response) (tenantID userID : uuid) (purpose action : string)
    (hidden : gin_H) : prog Response :=
  now ← Now;
  let token := newMFAPendingToken (cfg_JWTSecret (oh_cfg h))
    (MkMfaPending (uuid_String tenantID) (uuid_String userID) purpose
       (time_unix (now + mfaPendingTTL))) in
  renderMFAPage w action hidden token "".

Definition recordMFAFailure (tenantID userID : uuid) (flow result : string) : prog unit :=
  record (MkEvent AuditActionMFAFailed tenantID (Some userID) None "" false result
            [("flow", MetaString flow)]).

(** [k] gets the user and the amr values to record. A nil MFA service
    panics when it is called. *)
Definition completeMFA (w : Response) (tenantID : uuid) (purpose action : string) (hidden : gin_H)
    (restart : string -> prog Response) (k : uuid -> list string -> prog Response)
    : prog Response :=
  let pendingToken := PostForm c "mfa_token" in
  userID ← attempt (parseMFAPendingToken (cfg_JWTSecret (oh_cfg h)) pendingToken tenantID purpose);
  match userID with
  | inr _ => restart "Your sign-in took too long — please enter your password again"
  | inl userID =>
    user ← attempt (UserService.GetByID tenantID userID);
    match user with
    | inr _ => restart "Invalid email or password"
    | inl user =>
      now ← Now;
      if IsSuspended user || IsLocked now user then restart "Invalid email or password"
      else
      match oh_mfaService h with
      | None => panic
      | Some keys =>
        method ← attempt (mfa_Verify keys tenantID userID (PostForm c "code"));
        match method with
        | inl method => record counted ;; k userID (AMRForSecondFactor method)
        | inr err =>
          if errors_Is err ErrInvalidMFACode then
            recordMFAFailure tenantID userID purpose "invalid_code" ;;
            renderMFAPage w action hidden pendingToken "Invalid code — please try again"
          else if errors_Is err ErrMFALocked then
            recordMFAFailure tenantID userID purpose "locked" ;;
            restart "Too many incorrect codes — please try again in 15 minutes"
          else if errors_Is err ErrMFANotEnabled then restart "Please sign in again"
          else restart "Something went wrong — please try again"
        end
      end
    end
  end.

(** ** The endpoints *)

Definition no_tenant (w : Response) : prog Response :=
  mret (renderError w "invalid_request"
    "Tenant context required — use the tenant's domain or provide X-Tenant-ID" "" "").
Definition bad_csrf (w : Response) : prog Response :=
  mret (renderError w "invalid_request"
    "Invalid or missing CSRF token — please retry the authorization flow" "" "").

Definition HandleAuthorize (w : Response) : prog Response :=
  match GetTenantID c with
  | None => no_tenant w
  | Some tenantID =>
    let get := if q_Method c ==? "POST" then PostForm c else Query c in
    validateAuthorizationRequest w tenantID (readAuthorizeRequest get) (fun ar =>
    session ← currentSession tenantID;
    session ← match session with
              | Some session =>
                accepted ← acceptsSession ar session;
                mret (if accepted : bool then Some session else None)
              | None => mret None
              end;
    match session with
    | None =>
      if prompts ar promptNone then
        mret (fail_to w (az_request ar) "login_required" "End-user authentication is required")
      else renderLoginPage w tenantID ar ""
    | Some session => continueAuthorization w tenantID ar session
    end)
  end.

Definition HandleLogin (w : Response) : prog Response :=
  match GetTenantID c with
  | None => no_tenant w
  | Some tenantID =>
    if negb validCSRF then bad_csrf w
    else
    validateAuthorizationRequest w tenantID (readAuthorizeRequest (PostForm c)) (fun ar =>
    let username := PostForm c "username" in
    user ← attempt (Authenticate tenantID username (PostForm c "password"));
    match user with
    | inr err =>
      recordLoginFailure tenantID mfaPurposeLogin username err ;;
      renderLoginPage w tenantID ar "Invalid email or password"
    | inl user =>
      required ← attempt (mfaRequired tenantID (us_ID user));
      match required with
      | inr _ => mret (server_error w (az_request ar))
      | inl true =>
        record counted ;;
        startMFA w tenantID (us_ID user) mfaPurposeLogin "/oauth/login/mfa"
          (authorizationFormData ar)
      | inl false => signIn w tenantID ar (us_ID user) [AMRPassword]
      end
    end)
  end.

Definition HandleLoginMFA (w : Response) : prog Response :=
  match GetTenantID c with
  | None => no_tenant w
  | Some tenantID =>
    if negb validCSRF then bad_csrf w
    else
    validateAuthorizationRequest w tenantID (readAuthorizeRequest (PostForm c)) (fun ar =>
    completeMFA w tenantID mfaPurposeLogin "/oauth/login/mfa" (authorizationFormData ar)
      (fun msg => renderLoginPage w tenantID ar msg)
      (fun userID amr => signIn w tenantID ar userID amr))
  end.

Definition HandleConsent (w : Response) : prog Response :=
  match GetTenantID c with
  | None => no_tenant w
  | Some tenantID =>
    if negb validCSRF then bad_csrf w
    else
    validateAuthorizationRequest w tenantID (readAuthorizeRequest (PostForm c)) (fun ar =>
    session ← currentSession tenantID;
    match session with
    | None => renderLoginPage w tenantID ar "Your session has expired — please sign in again"
    | Some session =>
      let event action success :=
        MkEvent action tenantID (Some (ss_UserID session)) (Some (cl_ID (az_client ar))) ""
          success "" [("scope", MetaString (az_scope ar))] in
      if PostForm c "decision" !=? "allow" then
        record (event AuditActionConsentDenied false) ;;
        mret (fail_to w (az_request ar) "access_denied" "The user denied the request")
      else
      granted ← attempt (GrantConsent tenantID (ss_UserID session) (cl_ID (az_client ar))
                           (az_scope ar));
      match granted with
      | inr _ => mret (server_error w (az_request ar))
      | inl _ =>
        record (event AuditActionConsentGranted true) ;;
        issueAuthorizationCode w tenantID ar session
      end
    end)
  end.
End Handler.
