(* ===== verification/BrowserPages.v ===== *)
(** internal/handlers/oauth_logout.go and the user-facing part of
    oauth_device_handler.go: RP-initiated logout and the device
    verification page. Log lines and counters are left out. *)
From S2P Require Import Prelude GoStd Models Effects Store Libraries JwtKeys AuditTrail Http.
From S2P Require Import Scope AuthService DeviceFlow Mfa MfaService ClientService Session UserService.
From S2P Require Import TenantService HandlerSecurity TokenEndpoint Authorize.

Open Scope Z_scope.

Section Handler.
Context `{Env} `{UuidLib} `{JwtLib} `{UnicodeTables} `{BcryptLib} `{AeadLib}.
Context `{RedirectLib} `{PendingJson}.
Context (h : OAuthHandler) (c : Request).

(** ** Logout *)

Definition logout_error (w : Response) (description : string) : prog Response :=
  mret (renderError h w "invalid_request" description "" "").

(** The parsed hint, if one was sent. *)
Definition parse_hint (w : Response) (tenantID : uuid) (raw : string)
    (k : option IDTokenClaims -> prog Response) : prog Response :=
  if raw ==? "" then k None
  else
  claims ← attempt (ParseIDTokenHint (oh_authService h) raw);
  match claims with
  | inr _ => logout_error w "Invalid id_token_hint"
  | inl claims =>
    if ic_TenantID claims !=? uuid_String tenantID then logout_error w "Invalid id_token_hint"
    else k (Some claims)
  end.

(** The client the hint or the parameter names ("": none). *)
Definition logout_client (w : Response) (hint : option IDTokenClaims) (clientID : string)
    (k : string -> prog Response) : prog Response :=
  match hint with
  | None => k clientID
  | Some claims =>
    if (clientID !=? "") && (clientID !=? ic_Aud claims)
    then logout_error w "client_id does not match id_token_hint"
    else k (ic_Aud claims)
  end.

(** The registration check of the redirect URI. *)
Definition check_logout_redirect (w : Response) (tenantID : uuid) (clientID redirectURI : string)
    (k : prog Response) : prog Response :=
  if redirectURI ==? "" then k
  else if clientID ==? "" then
    logout_error w "post_logout_redirect_uri requires client_id or id_token_hint"
  else
  client ← attempt (ClientService.GetByClientID tenantID clientID);
  match client with
  | inr _ => logout_error w "Unknown client"
  | inl client =>
    if negb (contains (cl_PostLogoutRedirectURIs client) redirectURI) then
      logout_error w "post_logout_redirect_uri is not registered for this client"
    else k
  end.

(** The answer once the session has ended. *)
Definition logged_out (w : Response) (redirectURI state : string) : Response :=
  let page := c_HTML w StatusOK "logout.html" [("confirm", HBool false)] in
  if redirectURI !=? "" then
    match url_SetQuery redirectURI (if state !=? "" then [("state", state)] else []) with
    | Some location => Redirect w StatusFound location
    | None => page
    end
  else page.

Definition HandleLogout (w : Response) : prog Response :=
  match GetTenantID c with
  | None => no_tenant h w
  | Some tenantID =>
    let post := q_Method c ==? "POST" in
    let get := if post then PostForm c else Query c in
    if post && negb (validCSRF h c) then
      logout_error w "Invalid or missing CSRF token — please retry signing out"
    else
    parse_hint w tenantID (get "id_token_hint") (fun hint =>
    logout_client w hint (get "client_id") (fun clientID =>
    let redirectURI := get "post_logout_redirect_uri" in
    check_logout_redirect w tenantID clientID redirectURI (
    session ← currentSession c tenantID;
    let confirmed :=
      post || match hint with
              | None => false
              | Some claims => match session with
                               | None => true
                               | Some session => ui_Sub (ic_UserInfo claims) ==? uuid_String (ss_UserID session)
                               end
              end in
    let finish :=
      w ← endBrowserSession h c w tenantID;
      mret (logged_out w redirectURI (get "state")) in
    match session with
    | Some session =>
      if negb confirmed then
        addCSRFToken h w
          [("confirm", HBool true); ("client_id", HString clientID);
           ("post_logout_redirect_uri", HString redirectURI); ("state", HString (get "state"))]
          (fun w data => mret (c_HTML w StatusOK "logout.html" data))
      else
        record h c (MkEvent AuditActionUserLogout tenantID (Some (ss_UserID session)) None "" true
                      "" []) ;;
        finish
    | None => finish
    end)))
  end.

(** ** The device verification page *)

Definition device_no_tenant (w : Response) : prog Response :=
  mret (renderError h w "invalid_request" "Tenant context required — provide X-Tenant-ID header" "" "").

Definition renderDevicePage (w : Response) (tenant : option Tenant)
    (userCode errorMsg resultMsg : string) : prog Response :=
  csrfToken ← attempt (newCSRFToken (cfg_JWTSecret (oh_cfg h)));
  match csrfToken with
  | inr _ => mret (renderError h w "server_error" "Internal server error" "" "")
  | inl csrfToken =>
    mret (c_HTML (set_csrf_cookie h w csrfToken) StatusOK "device.html"
      ([("user_code", HString userCode); ("csrf_token", HString csrfToken)]
       ++ match tenant with Some tenant => tenant_entry (tn_Name tenant) | None => [] end
       ++ error_entry errorMsg
       ++ (if resultMsg !=? "" then [("result", HString resultMsg)] else [])))
  end.

(** [tenant, _ := h.tenantService.GetByID(...)] *)
Definition page_tenant (tenantID : uuid) : prog (option Tenant) :=
  tenant ← attempt (TenantService.GetByID tenantID);
  mret (match tenant with inl tenant => Some tenant | inr _ => None end).

Definition HandleDeviceVerificationPage (w : Response) : prog Response :=
  match GetTenantID c with
  | None => device_no_tenant w
  | Some tenantID =>
    tenant ← page_tenant tenantID;
    renderDevicePage w tenant (Query c "user_code") "" ""
  end.

Definition applyDeviceDecision (w : Response) (tenant : option Tenant) (tenantID userID : uuid)
    (userCode action : string) (amr : list string) : prog Response :=
  decided ← attempt (if action ==? "deny" then DenyDeviceCode tenantID userCode
                     else ApproveDeviceCode tenantID userCode userID amr);
  match decided with
  | inr err =>
    renderDevicePage w tenant userCode
      (if err ==? (ErrExpiredDeviceCode : error)
       then "This code has expired — request a new one on your device"
       else "Code not found — check the code and try again") ""
  | inl _ =>
    let '(result, event_action) :=
      if action ==? "deny"
      then ("Device denied — the sign-in request was rejected", AuditActionDeviceDenied)
      else ("Device approved — you can return to your device now", AuditActionDeviceApproved) in
    record h c (MkEvent event_action tenantID (Some userID) None "" true ""
                  [("amr", MetaStrings amr)]) ;;
    renderDevicePage w tenant "" "" result
  end.

Definition HandleDeviceVerification (w : Response) : prog Response :=
  match GetTenantID c with
  | None => device_no_tenant w
  | Some tenantID =>
    tenant ← page_tenant tenantID;
    let userCode := PostForm c "user_code" in
    if negb (validCSRF h c) then
      renderDevicePage w tenant userCode "Invalid or missing CSRF token — please reload the page" ""
    else if TrimSpace userCode ==? "" then
      renderDevicePage w tenant "" "Please enter the code shown on your device" ""
    else
    user ← attempt (Authenticate tenantID (PostForm c "username") (PostForm c "password"));
    match user with
    | inr err =>
      recordLoginFailure h c tenantID mfaPurposeDevice (PostForm c "username") err ;;
      renderDevicePage w tenant userCode "Invalid email or password" ""
    | inl user =>
      required ← attempt (mfaRequired h tenantID (us_ID user));
      match required with
      | inr _ => renderDevicePage w tenant userCode "Something went wrong — please try again" ""
      | inl true =>
        record h c counted ;;
        startMFA h w tenantID (us_ID user) mfaPurposeDevice "/oauth/device/mfa"
          [("user_code", HString userCode); ("action", HString (PostForm c "action"))]
      | inl false =>
        applyDeviceDecision w tenant tenantID (us_ID user) userCode (PostForm c "action")
          [AMRPassword]
      end
    end
  end.

Definition HandleDeviceMFA (w : Response) : prog Response :=
  match GetTenantID c with
  | None => device_no_tenant w
  | Some tenantID =>
    tenant ← page_tenant tenantID;
    let userCode := PostForm c "user_code" in
    let action := PostForm c "action" in
    if negb (validCSRF h c) then
      renderDevicePage w tenant userCode "Invalid or missing CSRF token — please reload the page" ""
    else
    completeMFA h c w tenantID mfaPurposeDevice "/oauth/device/mfa"
      [("user_code", HString userCode); ("action", HString action)]
      (fun msg => renderDevicePage w tenant userCode msg "")
      (fun userID amr => applyDeviceDecision w tenant tenantID userID userCode action amr)
  end.
End Handler.
