(* ===== verification/Middleware.v ===== *)
(** internal/middleware: tenant resolution, authentication, authorization,
    CORS, security headers and the smaller filters. A handler completes the
    response it is given; a middleware takes the rest of the chain as [next].
    Log lines are left out. *)
From S2P Require Import Prelude GoStd Models Effects Store Libraries JwtKeys Scope AuditTrail Http.
From S2P Require Import AuthService Rbac TenantService Redis.
From stdpp Require Import gmap.
From Stdlib Require Import Ascii.

Open Scope Z_scope.

(** gin.HandlerFunc *)
Definition Handler : Type := Request -> Response -> prog Response.

(** RespondWithError followed by Abort, or c.JSON and Abort. *)
Definition abort_api (c : Request) (w : Response) (status : Z) (code message : string)
    : prog Response := mret (Abort (RespondWithError c w status code message)).
Definition abort_oauth (w : Response) (status : Z) (error description : string) : prog Response :=
  mret (Abort (oauth_error w status error description)).

Section Middleware.
Context `{Env} `{UuidLib} `{JwtLib} `{UnicodeTables} `{RedisLib}.

(** keys.Parse(tokenString, &models.JWTClaims{}): the claims of a token
    that is valid. *)
Definition plain_options : ParserOptions := MkParserOptions [] None None false false.
Definition parse_access (keys : KeySet) (tokenString : string) : prog (option JWTClaims) :=
  r ← Parse keys JWTClaimsType plain_options tokenString;
  mret match r with
       | inl (token, AccessClaims claims) => if tk_Valid token then Some claims else None
       | _ => None
       end.

(** ** Tenant context *)

Definition extractTenantFromJWT (tokenString : string) (keys : KeySet) : prog (option uuid) :=
  claims ← parse_access keys tokenString;
  mret match claims with
       | Some claims => if jc_TenantID claims ==? "" then None else uuid_Parse (jc_TenantID claims)
       | None => None
       end.

Definition extractTenantFromSubdomain (host : string) : option uuid :=
  match Split "."%char host with
  | p :: _ :: _ :: _ => uuid_Parse p
  | _ => None
  end.

(** The sources in order; each is tried when those before it gave nothing.
    [domains] is the lifetime of the resolver's cache entries. *)
Definition extractTenantID (c : Request) (keys : KeySet) (domains : option Z)
    : prog (option uuid) :=
  let authHeader := GetHeader c "Authorization" in
  fromJWT ←
    (if has_prefix "Bearer " authHeader
     then extractTenantFromJWT (TrimPrefix "Bearer " authHeader) keys else mret None);
  match fromJWT with
  | Some tenantID => mret (Some tenantID)
  | None =>
    let tenantHeader := GetHeader c "X-Tenant-ID" in
    match (if tenantHeader !=? "" then uuid_Parse tenantHeader else None) with
    | Some tenantID => mret (Some tenantID)
    | None =>
      match extractTenantFromSubdomain (q_Host c) with
      | Some tenantID => mret (Some tenantID)
      | None =>
        match domains with Some ttl => Resolve ttl (q_Host c) | None => mret None end
      end
    end
  end.

Definition has_one_prefix (prefixes : list string) (path : string) : bool :=
  existsb (fun p => has_prefix p path) prefixes.
Definition isOAuthEndpoint (path : string) : bool :=
  has_one_prefix ["/oauth/"; "/account/"; "/.well-known/"; "/userinfo"] path.
Definition isPublicEndpoint (path : string) : bool :=
  has_one_prefix ["/health"; "/metrics"; "/static/"; "/favicon.ico"] path.

Definition with_request_id (c : Request) (w : Response) (k : Handler) : prog Response :=
  id ← NewUUID;
  let requestID := uuid_String id in
  k (c <| q_RequestID := requestID |>) (Header w "X-Request-ID" requestID).

Definition TenantContext (keys : KeySet) (domains : option Z) (next : Handler) : Handler :=
  fun c w => with_request_id c w (fun c w =>
  if isOAuthEndpoint (q_Path c) then
    tenantID ← extractTenantID c keys domains;
    next (match tenantID with
          | Some tenantID => c <| q_TenantID := Some tenantID |>
          | None => c
          end) w
  else if isPublicEndpoint (q_Path c) then next c w
  else
  tenantID ← extractTenantID c keys domains;
  match tenantID with
  | None => abort_api c w StatusUnauthorized ErrorCodeUnauthorized "Invalid or missing tenant context"
  | Some tenantID => next (c <| q_TenantID := Some tenantID |>) w
  end).

Definition RequestID (next : Handler) : Handler := fun c w => with_request_id c w next.

(** ** RequireAuth

    [validator] is the AuthService whose token store is consulted, if any. *)
Definition RequireAuth (keys : KeySet) (validator : option authServiceImpl) (next : Handler)
    : Handler := fun c w =>
  let refuse := abort_api c w StatusUnauthorized ErrorCodeUnauthorized in
  let authHeader := GetHeader c "Authorization" in
  if authHeader ==? "" then refuse "Authorization header required"
  else if negb (has_prefix "Bearer " authHeader) then refuse "Invalid authorization header format"
  else
  let tokenString := TrimPrefix "Bearer " authHeader in
  if tokenString ==? "" then refuse "Missing access token"
  else
  claims ← parse_access keys tokenString;
  match claims with
  | None => refuse "Invalid or expired token"
  | Some claims =>
    let proceed :=
      let c := match uuid_Parse (jc_UserID claims) with
               | Some userID => c <| q_UserID := Some userID |> | None => c end in
      let c := if jc_ClientID claims !=? "" then c <| q_ClientID := Some (jc_ClientID claims) |>
               else c in
      let c := match uuid_Parse (jc_TenantID claims) with
               | Some tenantID => c <| q_TenantID := Some tenantID |> | None => c end in
      next c w in
    match validator with
    | None => proceed
    | Some s =>
      match uuid_Parse (jc_TenantID claims) with
      | None => refuse "Invalid token claims"
      | Some tenantID =>
        validated ← attempt (ValidateAccessToken s tenantID tokenString);
        match validated with inr _ => refuse "Invalid or expired token" | inl _ => proceed end
      end
    end
  end.

(** ** The Authorizer of authz.go *)

Record Authorizer := MkAuthorizer { az_superAdmins : gset uuid }.
Definition NewAuthorizer (superAdminIDs : list uuid) : Authorizer :=
  MkAuthorizer (list_to_set superAdminIDs).

Definition deny (c : Request) (w : Response) : prog Response :=
  abort_api c w StatusForbidden ErrorCodeInsufficientPermissions "Insufficient permissions".

Definition authorize (a : Authorizer) (resource action selfParam : string) (next : Handler)
    : Handler := fun c w =>
  match GetUserID c with
  | None => deny c w
  | Some userID =>
    if userID ==? uuid_Nil then deny c w
    else if bool_decide (userID ∈ az_superAdmins a) then next c w
    else if (selfParam !=? "")
            && match uuid_Parse (Param c selfParam) with
               | Some target => target ==? userID | None => false end then next c w
    else if resource ==? "" then deny c w
    else
    match GetTenantID c with
    | None => abort_api c w StatusUnauthorized ErrorCodeUnauthorized "Invalid tenant context"
    | Some tenantID =>
      allowed ← attempt (PermissionService.HasPermission tenantID userID resource action);
      match allowed with
      | inr _ => abort_api c w StatusInternalServerError ErrorCodeInternalError
                   "Permission check failed"
      | inl allowed => if negb allowed then deny c w else next c w
      end
    end
  end.
Definition Require (a : Authorizer) (resource action : string) := authorize a resource action "".
Definition RequireOrSelf (a : Authorizer) (resource action userParam : string) :=
  authorize a resource action userParam.
Definition RequireSuperAdmin (a : Authorizer) := authorize a "" "" "".

(** ** Headers and filters *)

Definition originAllowed (cfg : Config) (origin : string) : bool :=
  existsb (fun allowed => let allowed := TrimSpace allowed in
                          (allowed ==? "*") || (allowed ==? origin))
    (Split ","%char (cfg_CORSAllowedOrigins cfg)).

Definition CORS (cfg : Config) (next : Handler) : Handler := fun c w =>
  let origin := GetHeader c "Origin" in
  let w := if (origin !=? "") && originAllowed cfg origin
           then Header w "Access-Control-Allow-Origin" origin else w in
  let w := Header w "Access-Control-Allow-Methods" (cfg_CORSAllowedMethods cfg) in
  let w := Header w "Access-Control-Allow-Headers" (cfg_CORSAllowedHeaders cfg) in
  let w := Header w "Access-Control-Allow-Credentials" "true" in
  let w := Header w "Access-Control-Max-Age" "86400" in
  if q_Method c ==? "OPTIONS" then mret (Abort (w <| rs_Status := StatusNoContent |>))
  else next c w.

Definition SecurityHeaders (next : Handler) : Handler := fun c w =>
  let w := Header w "X-Content-Type-Options" "nosniff" in
  let w := Header w "X-Frame-Options" "DENY" in
  let w := Header w "X-XSS-Protection" "1; mode=block" in
  let w := Header w "Referrer-Policy" "strict-origin-when-cross-origin" in
  let w := Header w "Content-Security-Policy" "default-src 'self'" in
  let w :=
    if has_one_prefix ["/oauth/"; "/api/"; "/userinfo"] (q_Path c) then
      Header (Header (Header w "Cache-Control" "no-store, no-cache, must-revalidate, private")
                "Pragma" "no-cache") "Expires" "0"
    else w in
  next c w.

Definition ValidateContentType (expectedType : string) (next : Handler) : Handler := fun c w =>
  if (q_Method c ==? "POST") || (q_Method c ==? "PUT") || (q_Method c ==? "PATCH") then
    let contentType := GetHeader c "Content-Type" in
    if (contentType ==? "") || negb (Contains contentType expectedType) then
      abort_oauth w StatusUnsupportedMediaType "unsupported_media_type"
        ("Content-Type must be " +:+ expectedType)
    else next c w
  else next c w.

(** It takes the first address a proxy header names. *)
Definition getClientIP (c : Request) : string :=
  let xff := GetHeader c "X-Forwarded-For" in
  let xri := GetHeader c "X-Real-IP" in
  if xff !=? "" then TrimSpace (hd "" (Split ","%char xff))
  else if xri !=? "" then TrimSpace xri
  else q_ClientIP c.

(** Per-IP rate limiting with the client stored under "redis". *)
Definition RateLimit (cfg : Config) (next : Handler) : Handler := fun c w =>
  let clientIP := getClientIP c in
  let limit := cfg_RateLimitRequestsPerMinute cfg in
  match q_Redis c with
  | None => next c w
  | Some false => next c w
  | Some true =>
    current ← attempt (RedisClient.GetRateLimit clientIP);
    match current with
    | inr _ => next c w
    | inl current =>
      if limit <=? current then
        mret (Abort (c_JSON w StatusTooManyRequests (PRateLimit "rate_limit_exceeded"
                       "Too many requests. Please try again later." 60)))
      else
      ignore (RedisClient.SetRateLimit clientIP limit minute) ;;
      now ← Now;
      let w := Header w "X-RateLimit-Limit" (format_int limit) in
      let w := Header w "X-RateLimit-Remaining" (format_int (wrap64 (limit - current - 1))) in
      next c (Header w "X-RateLimit-Reset" (format_int (time_unix (now + minute))))
    end
  end.

(** c.Set of a string. *)
Definition set_key (c : Request) (key value : string) : Request :=
  c <| q_Keys := (key, value) :: q_Keys c |>.

Definition Authentication (next : Handler) : Handler := fun c w =>
  let refuse := abort_oauth w StatusUnauthorized "unauthorized" in
  let authHeader := GetHeader c "Authorization" in
  if authHeader ==? "" then refuse "Authorization header is required"
  else
  match Cut " "%char authHeader with
  | None => refuse "Invalid authorization header format"
  | Some (scheme, token) =>
    if scheme !=? "Bearer" then refuse "Invalid authorization header format"
    else if token ==? "" then refuse "Token is required"
    else next (set_key c "access_token" token) w
  end.

(** The key "client_id" is also the one RequireAuth sets. *)
Definition ClientAuthentication (next : Handler) : Handler := fun c w =>
  if has_prefix "Basic " (GetHeader c "Authorization")
  then next (set_key c "client_auth_method" "basic") w
  else
  let clientID := PostForm c "client_id" in
  if clientID ==? "" then abort_oauth w StatusUnauthorized "invalid_client" "Client authentication failed"
  else
  let c := c <| q_ClientID := Some clientID |> in
  let c := set_key c "client_secret" (PostForm c "client_secret") in
  next (set_key c "client_auth_method" "post") w.

(** observability.RequestContext *)
Definition RequestContext (next : Handler) : Handler := fun c w =>
  let info := {| rq_RequestID := GetRequestID c; rq_IPAddress := q_ClientIP c;
                 rq_UserAgent := q_UserAgent c |} in
  next (c <| q_Ctx := MkCtx (Some info) (ctx_TraceID (q_Ctx c)) |>) w.
End Middleware.
