(* ===== verification/Idempotency.v ===== *)
(** internal/middleware/idempotency.go: replaying the stored response of a
    POST that carries an Idempotency-Key. *)
From S2P Require Import Prelude GoStd Hash Models Effects Store AccountRepos Libraries Http.
From S2P Require Import Middleware.
From Stdlib Require Import Ascii.

Open Scope Z_scope.

(** [recover]: the outcome of [p] as a value, a panic included. *)
Fixpoint catch {A} (p : prog A) : prog (outcome A) :=
  match p with
  | Done o => Done (Ok o)
  | Step act k => Step act (fun x => catch (k x))
  end.

Definition maxIdempotencyKeyLength : nat := 255.
Definition maxIdempotentBodyBytes : Z := 1048576.
Definition idempotencyStaleAfter : Z := minute.

(** ** JSON documents, as encoding/json decodes them into an interface{} *)

#[warnings="-register-all"]
Inductive Json : Type :=
| JNull
| JBool (b : bool)
| JNumber (n : string)
| JString (s : string)
| JArray (l : list Json)
| JObject (l : list (string * Json)).

Class JsonLib := {
  json_Unmarshal : string -> option Json;
  json_Marshal : Json -> string
}.

Definition redactedResponseFields : list string :=
  ["client_secret"; "secret"; "otpauth_uri"; "recovery_codes"; "initial_access_token"].

(** The document without the redacted fields, and whether there were any. *)
Fixpoint redact (v : Json) : Json * bool :=
  match v with
  | JObject node =>
    let r := (fix fields (node : list (string * Json)) : list (string * Json) * bool :=
       match node with
       | [] => ([], false)
       | (k, child) :: node =>
         let (rest, found) := fields node in
         if contains redactedResponseFields k then (rest, true)
         else let (child, f) := redact child in ((k, child) :: rest, f || found)
       end) node in
    (JObject r.1, r.2)
  | JArray node =>
    let r := (fix items (node : list Json) : list Json * bool :=
       match node with
       | [] => ([], false)
       | child :: node =>
         let (rest, found) := items node in
         let (child, f) := redact child in (child :: rest, f || found)
       end) node in
    (JArray r.1, r.2)
  | _ => (v, false)
  end.

(** What gin writes for a body: the bytes and the Content-Type. *)
Class Rendering := {
  body_bytes : Body -> string;
  body_type : Body -> string
}.

Section Idempotency.
Context `{Env} `{UuidLib} `{JsonLib} `{Rendering}.

Definition redactResponse (body : string) : string :=
  match json_Unmarshal body with
  | None => body
  | Some doc => let (doc, found) := redact doc in
                if found then json_Marshal doc else body
  end.

Definition validIdempotencyKey (key : string) : bool :=
  let n := String.length key in
  if Nat.eqb n 0 || Nat.ltb maxIdempotencyKeyLength n then false
  else string_forall (fun b => between 0x21 0x7e (byte_val b)) key.

Definition idempotencyPrincipal (c : Request) : string :=
  let other := match GetClientID c with
               | Some clientID => "client:" +:+ clientID
               | None => "anonymous"
               end in
  match GetUserID c with
  | Some userID => if userID !=? uuid_Nil then "user:" +:+ uuid_String userID else other
  | None => other
  end.

Definition hex_lower : string := "0123456789abcdef".
Definition hex_encode (s : string) : string :=
  string_concat_map (fun b => String (char_at hex_lower (byte_val b / 16))
                                (String (char_at hex_lower (byte_val b mod 16)) EmptyString)) s.

Definition requestFingerprint (method uri body : string) : string :=
  let nul := String zero EmptyString in
  hex_encode (sha256 (method +:+ nul +:+ uri +:+ nul +:+ body)).

Definition respondInProgress (c : Request) (w : Response) : prog Response :=
  abort_api c (Header w "Retry-After" "1") StatusConflict ErrorCodeResourceConflict
    "A request with this Idempotency-Key is still being processed".

Definition replayOrReject (c : Request) (w : Response) (existing : IdempotencyKey)
    (requestHash : string) : prog Response :=
  if ik_RequestHash existing !=? requestHash then
    abort_api c w StatusUnprocessableEntity ErrorCodeInvalidRequest
      "Idempotency-Key was already used with a different request"
  else if InProgress existing then respondInProgress c w
  else
    mret (Abort (c_Data (Header w "Idempotent-Replayed" "true") (ik_StatusCode existing)
                   (or_default (ik_ResponseContentType existing) "application/octet-stream")
                   (ik_ResponseBody existing))).

(** Run the rest of the chain under the claimed key [id]. *)
Definition run_claimed (id : uuid) (next : prog Response) : prog Response :=
  let release := ignore (IdempotencyRepo.Delete id) in
  r ← catch next;
  match r with
  | Ok w =>
    let body := body_bytes (rs_Body w) in
    if (StatusInternalServerError <=? rs_Status w)
       || (maxIdempotentBodyBytes <? Z.of_nat (String.length body)) then release ;; mret w
    else
      completed ← attempt (IdempotencyRepo.Complete id (rs_Status w) (body_type (rs_Body w))
                             (redactResponse body));
      match completed with inr _ => release ;; mret w | inl _ => mret w end
  | Err e => release ;; throw e
  | Panic => release ;; panic
  end.

Definition Idempotency (ttl : Z) (next : Handler) : Handler := fun c w =>
  let key := GetHeader c "Idempotency-Key" in
  if (q_Method c !=? "POST") || (key ==? "") then next c w
  else if negb (validIdempotencyKey key) then
    abort_api c w StatusBadRequest ErrorCodeInvalidRequest
      "Idempotency-Key must be 1-255 visible ASCII characters"
  else
  match GetTenantID c with
  | None => abort_api c w StatusUnauthorized ErrorCodeUnauthorized "Invalid tenant context"
  | Some tenantID =>
    match q_Body c with
    | None => abort_api c w StatusBadRequest ErrorCodeInvalidRequest "Failed to read request body"
    | Some body =>
      if maxIdempotentBodyBytes <? Z.of_nat (String.length body) then
        abort_api c w StatusRequestEntityTooLarge ErrorCodeInvalidRequest "Request body too large"
      else
      id ← NewUUID;
      now ← Now;
      let record := {|
        ik_ID := id; ik_TenantID := tenantID; ik_Principal := idempotencyPrincipal c;
        ik_Key := key; ik_Method := q_Method c; ik_Path := q_RequestURI c;
        ik_RequestHash := requestFingerprint (q_Method c) (q_RequestURI c) body;
        ik_StatusCode := 0; ik_ResponseContentType := ""; ik_ResponseBody := "";
        ik_CreatedAt := time_zero; ik_ExpiresAt := now + ttl |} in
      staleNow ← Now;
      began ← attempt (IdempotencyRepo.Begin record (staleNow - idempotencyStaleAfter));
      match began with
      | inr err =>
        if errors_Is err ErrResourceConflict then respondInProgress c w
        else abort_api c w StatusInternalServerError ErrorCodeInternalError "Internal server error"
      | inl (true, _) => run_claimed id (next c w)
      | inl (false, Some existing) => replayOrReject c w existing (ik_RequestHash record)
      | inl (false, None) => panic (* nil existing record *)
      end
    end
  end.
End Idempotency.
