(* ===== verification/Management.v ===== *)
(** The REST handlers of the management API: rbac_handler.go,
    tenant_handler.go, user_handler.go, client_handler.go, mfa_handler.go
    and audit_handler.go of internal/handlers. A module per handler. Log lines
    are left out. *)
From S2P Require Import Prelude GoStd GoTime Models Effects Store Libraries JwtKeys AuditTrail Http.
From S2P Require Import Scope AuthService Rbac TenantService UserService ClientService Mfa MfaService.
From S2P Require Import AuditRepo Registration Middleware.
From stdpp Require Import gmap.
From Stdlib Require Import Ascii.

Open Scope Z_scope.

(** A request body as the decoder reads it: the bytes it yields, and whether
    reading on fails after them (else they end). *)
Record Reader := MkReader { rd_Data : string; rd_Fails : bool }.
Definition body_reader (c : Request) : Reader :=
  match q_Body c with Some s => MkReader s false | None => MkReader "" true end.
(** http.MaxBytesReader *)
Definition MaxBytesReader (r : Reader) (n : nat) : Reader :=
  if Nat.ltb n (String.length (rd_Data r)) then MkReader (String.substring 0 n (rd_Data r)) true else r.

(** c.ShouldBindJSON into a struct: gin decodes and validates the body. *)
Class JsonBind (T : Type) := ShouldBindJSON : Reader -> T + error.

(** The request body of AddPermissionToRole. *)
Record AddPermissionRequest := MkAddPermissionRequest { apr_PermissionID : uuid }.

(** ** What the handlers share *)
Section Shared.
Context `{Env} `{UuidLib}.

Definition refuse (c : Request) (w : Response) (status : Z) (code message : string) : prog Response :=
  mret (RespondWithError c w status code message).
Definition respond (c : Request) (w : Response) (status : Z) (data : ApiData) : prog Response :=
  mret (RespondWithSuccess c w status data).
(** c.Status *)
Definition set_status (w : Response) (status : Z) : Response := w <| rs_Status := status |>.

(** [result, err := p; if err != nil { fail(err) } else { ok(result) }] *)
Definition result_of {A} (p : prog A) (fail : error -> prog Response) (ok : A -> prog Response)
    : prog Response :=
  r ← attempt p; match r with inl a => ok a | inr err => fail err end.

(** The tenant of the request. *)
Definition in_tenant (c : Request) (w : Response) (k : uuid -> prog Response) : prog Response :=
  match GetTenantID c with
  | None => refuse c w StatusUnauthorized ErrorCodeUnauthorized "Invalid tenant context"
  | Some tenantID => k tenantID
  end.
(** A UUID in the path. *)
Definition path_id (c : Request) (w : Response) (param message : string) (k : uuid -> prog Response)
    : prog Response :=
  match uuid_Parse (Param c param) with
  | None => refuse c w StatusBadRequest ErrorCodeInvalidRequest message
  | Some id => k id
  end.
(** The JSON body. *)
Definition with_body {T} `{JsonBind T} (c : Request) (w : Response) (message : string)
    (k : T -> prog Response) : prog Response :=
  match ShouldBindJSON (body_reader c) with
  | inr _ => refuse c w StatusBadRequest ErrorCodeValidationFailed message
  | inl req => k req
  end.
Definition internal_error (c : Request) (w : Response) (message : string) : prog Response :=
  refuse c w StatusInternalServerError ErrorCodeInternalError message.

(** userID, _ := middleware.GetUserID(c) *)
Definition user_or_nil (c : Request) : uuid := default uuid_Nil (GetUserID c).

(** The limit and offset of a list request. *)
Definition getPaginationParams (c : Request) : Z * Z :=
  let limit := match Atoi (Query c "limit") with
               | Some parsed => if (0 <? parsed) && (parsed <=? 100) then parsed else 20
               | None => 20
               end in
  let offset := match Atoi (Query c "offset") with
                | Some parsed => if 0 <=? parsed then parsed else 0
                | None => 0
                end in
  (limit, offset).
End Shared.

(** ** Roles and permissions *)
Module RBACHandler.
Section Handlers.
Context `{Env} `{UuidLib}.
Context `{JsonBind CreateRoleRequest} `{JsonBind UpdateRoleRequest} `{JsonBind AddPermissionRequest}.
Context `{JsonBind AssignRoleRequest} `{JsonBind CreatePermissionRequest} `{JsonBind UpdatePermissionRequest}.
Context (s : RoleService.RoleServiceImpl) (c : Request) (w : Response).

Definition handleServiceError (err : error) : prog Response :=
  if errors_Is err ErrRoleNotFound then
    refuse c w StatusNotFound ErrorCodeResourceNotFound (error_text ErrRoleNotFound)
  else if errors_Is err ErrPermissionNotFound then
    refuse c w StatusNotFound ErrorCodeResourceNotFound (error_text ErrPermissionNotFound)
  else if errors_Is err ErrDuplicateResource then
    refuse c w StatusConflict ErrorCodeDuplicateResource "Resource already exists"
  else if errors_Is err ErrBusinessRuleViolation then
    refuse c w StatusUnprocessableEntity ErrorCodeBusinessRuleViolation "Business rule violation"
  else if errors_Is err ErrInsufficientPermissions then
    refuse c w StatusForbidden ErrorCodeInsufficientPermissions "Insufficient permissions"
  else internal_error c w "Internal server error".

Definition role_id := path_id c w "role_id" "Invalid role ID".
Definition permission_id := path_id c w "permission_id" "Invalid permission ID".
Definition user_id := path_id c w "user_id" "Invalid user ID".
Definition body {T} `{JsonBind T} (k : T -> prog Response) : prog Response :=
  with_body c w "Invalid request format" k.

Definition CreateRole : prog Response :=
  in_tenant c w (fun tenantID =>
  body (fun req : CreateRoleRequest =>
  result_of (RoleService.Create s (q_Ctx c) tenantID req) handleServiceError (fun role =>
  respond c w StatusCreated (DRole role)))).

Definition ListRoles : prog Response :=
  in_tenant c w (fun tenantID =>
  let '(limit, offset) := getPaginationParams c in
  result_of (RoleService.List tenantID limit offset) handleServiceError (fun response =>
  respond c w StatusOK (DRolePage response))).

Definition GetRole : prog Response :=
  in_tenant c w (fun tenantID =>
  role_id (fun roleID =>
  result_of (RoleService.GetByID tenantID roleID) handleServiceError (fun role =>
  respond c w StatusOK (DRole role)))).

Definition UpdateRole : prog Response :=
  in_tenant c w (fun tenantID =>
  role_id (fun roleID =>
  body (fun req : UpdateRoleRequest =>
  result_of (RoleService.Update s (q_Ctx c) tenantID roleID req) handleServiceError (fun role =>
  respond c w StatusOK (DRole role))))).

Definition DeleteRole : prog Response :=
  in_tenant c w (fun tenantID =>
  role_id (fun roleID =>
  result_of (RoleService.Delete s (q_Ctx c) tenantID roleID) handleServiceError (fun _ =>
  respond c w StatusNoContent DNone))).

Definition AddPermissionToRole : prog Response :=
  in_tenant c w (fun tenantID =>
  role_id (fun roleID =>
  body (fun req : AddPermissionRequest =>
  result_of (RoleService.AddPermission s (q_Ctx c) tenantID roleID (apr_PermissionID req) (user_or_nil c))
    handleServiceError (fun _ =>
  respond c w StatusNoContent DNone)))).

Definition RemovePermissionFromRole : prog Response :=
  in_tenant c w (fun tenantID =>
  role_id (fun roleID =>
  permission_id (fun permissionID =>
  result_of (RoleService.RemovePermission s (q_Ctx c) tenantID roleID permissionID)
    handleServiceError (fun _ =>
  respond c w StatusNoContent DNone)))).

Definition GetRolePermissions : prog Response :=
  in_tenant c w (fun tenantID =>
  role_id (fun roleID =>
  result_of (RoleService.GetPermissions tenantID roleID) handleServiceError (fun permissions =>
  respond c w StatusOK (DPermissions permissions)))).

Definition AssignRoleToUser : prog Response :=
  in_tenant c w (fun tenantID =>
  role_id (fun roleID =>
  body (fun req : AssignRoleRequest =>
  result_of (RoleService.AssignToUser s (q_Ctx c) tenantID roleID (asr_UserID req) (user_or_nil c)
               (asr_ExpiresAt req)) handleServiceError (fun _ =>
  respond c w StatusNoContent DNone)))).

Definition RevokeRoleFromUser : prog Response :=
  in_tenant c w (fun tenantID =>
  role_id (fun roleID =>
  user_id (fun userID =>
  result_of (RoleService.RevokeFromUser s (q_Ctx c) tenantID roleID userID) handleServiceError (fun _ =>
  respond c w StatusNoContent DNone)))).

Definition CreatePermission : prog Response :=
  body (fun req : CreatePermissionRequest =>
  result_of (PermissionService.Create req) handleServiceError (fun permission =>
  respond c w StatusCreated (DPermission permission))).

Definition ListPermissions : prog Response :=
  let '(limit, offset) := getPaginationParams c in
  result_of (PermissionService.List limit offset) handleServiceError (fun response =>
  respond c w StatusOK (DPermissionPage response)).

Definition GetPermission : prog Response :=
  permission_id (fun permissionID =>
  result_of (PermissionService.GetByID permissionID) handleServiceError (fun permission =>
  respond c w StatusOK (DPermission permission))).

Definition UpdatePermission : prog Response :=
  permission_id (fun permissionID =>
  body (fun req : UpdatePermissionRequest =>
  result_of (PermissionService.Update permissionID req) handleServiceError (fun permission =>
  respond c w StatusOK (DPermission permission)))).

Definition DeletePermission : prog Response :=
  permission_id (fun permissionID =>
  result_of (PermissionService.Delete permissionID) handleServiceError (fun _ =>
  respond c w StatusNoContent DNone)).

Definition GetUserRoles : prog Response :=
  in_tenant c w (fun tenantID =>
  user_id (fun userID =>
  result_of (RoleService.GetUserRoles tenantID userID) handleServiceError (fun roles =>
  respond c w StatusOK (DRoles roles)))).

Definition GetUserPermissions : prog Response :=
  in_tenant c w (fun tenantID =>
  user_id (fun userID =>
  result_of (PermissionService.GetUserPermissions tenantID userID) handleServiceError (fun permissions =>
  respond c w StatusOK (DPermissions permissions)))).
End Handlers.
End RBACHandler.

(** ** Tenants *)
Module TenantHandler.
Section Handlers.
Context `{Env} `{UuidLib} `{JsonBind CreateTenantRequest} `{JsonBind UpdateTenantRequest}.
Context (c : Request) (w : Response).

Definition tenant_id := path_id c w "id" "Invalid tenant ID format".
Definition body {T} `{JsonBind T} (k : T -> prog Response) : prog Response :=
  with_body c w "Invalid request format" k.
(** err.Error() == "tenant with domain "+domain+" already exists" *)
Definition domain_conflict (err : error) (domain : string) : bool :=
  error_text err ==? "tenant with domain " +:+ domain +:+ " already exists".
Definition not_found : prog Response :=
  refuse c w StatusNotFound ErrorCodeResourceNotFound "Tenant not found".
Definition conflict : prog Response :=
  refuse c w StatusConflict ErrorCodeDuplicateResource "Tenant with this domain already exists".

(** It sends an APIResponse of its own, whose Success stays false. *)
Definition CreateTenant : prog Response :=
  body (fun req : CreateTenantRequest =>
  result_of (TenantService.Create req)
    (fun err => if domain_conflict err (ctr_Domain req) then conflict
                else internal_error c w "Failed to create tenant")
    (fun tenant => mret (c_JSON w StatusCreated (PApi false (DTenant tenant) (GetRequestID c))))).

Definition GetTenant : prog Response :=
  tenant_id (fun tenantID =>
  result_of (TenantService.GetByID tenantID)
    (fun err => if err ==? (ErrTenantNotFound : error) then not_found
                else internal_error c w "Failed to retrieve tenant")
    (fun tenant => respond c w StatusCreated (DTenant tenant))).

Definition ListTenants : prog Response :=
  let '(limit, offset) := getPaginationParams c in
  result_of (TenantService.List limit offset)
    (fun _ => internal_error c w "Failed to retrieve tenants")
    (fun result => respond c w StatusOK (DTenantPage result)).

Definition UpdateTenant : prog Response :=
  tenant_id (fun tenantID =>
  body (fun req : UpdateTenantRequest =>
  result_of (TenantService.Update tenantID req)
    (fun err => if err ==? (ErrTenantNotFound : error) then not_found
                else if domain_conflict err (utr_Domain req) then conflict
                else internal_error c w "Failed to update tenant")
    (fun tenant => respond c w StatusOK (DTenant tenant)))).

Definition DeleteTenant : prog Response :=
  tenant_id (fun tenantID =>
  result_of (TenantService.Delete tenantID)
    (fun err => if err ==? (ErrTenantNotFound : error) then not_found
                else internal_error c w "Failed to delete tenant")
    (fun _ => mret (set_status w StatusNoContent))).
End Handlers.
End TenantHandler.

(** ** Users *)
Module UserHandler.
Section Handlers.
Context `{Env} `{UuidLib} `{BcryptLib} `{JsonBind CreateUserRequest} `{JsonBind UpdateUserRequest}.
Context `{JsonBind ChangePasswordRequest}.
Context (emails : option TemplateEmailSender) (baseURL : string) (c : Request) (w : Response).

Definition user_id := path_id c w "user_id" "Invalid user ID format".
Definition body {T} `{JsonBind T} (k : T -> prog Response) : prog Response :=
  with_body c w "Invalid request body" k.
(** A missing user gives 404, anything else 500. *)
Definition or_not_found (message : string) (err : error) : prog Response :=
  if err ==? (ErrUserNotFound : error)
  then refuse c w StatusNotFound ErrorCodeResourceNotFound "User not found"
  else internal_error c w message.
(** user.PasswordHash = "" before the response. *)
Definition send_user (status : Z) (user : User) : prog Response :=
  respond c w status (DUser (json_User (user <| us_PasswordHash := "" |>))).

Definition CreateUser : prog Response :=
  in_tenant c w (fun tenantID =>
  body (fun req : CreateUserRequest =>
  result_of (UserService.Create tenantID req) (fun _ => internal_error c w "Failed to create user")
  (fun user =>
  (if negb (us_EmailVerified user)
   then ignore (UserService.SendVerificationEmail emails baseURL tenantID (us_ID user))
   else mret tt) ;;
  send_user StatusCreated user))).

Definition GetUser : prog Response :=
  in_tenant c w (fun tenantID =>
  user_id (fun userID =>
  result_of (UserService.GetByID tenantID userID) (or_not_found "Failed to get user") (fun user =>
  send_user StatusOK user))).

Definition UpdateUser : prog Response :=
  in_tenant c w (fun tenantID =>
  user_id (fun userID =>
  body (fun req : UpdateUserRequest =>
  result_of (UserService.Update tenantID userID req) (or_not_found "Failed to update user") (fun user =>
  send_user StatusOK user)))).

Definition DeleteUser : prog Response :=
  in_tenant c w (fun tenantID =>
  user_id (fun userID =>
  result_of (UserService.Delete tenantID userID) (or_not_found "Failed to delete user") (fun _ =>
  respond c w StatusOK (DMessage "User deleted successfully")))).

Definition ListUsers : prog Response :=
  in_tenant c w (fun tenantID =>
  let '(limit, offset) := getPaginationParams c in
  result_of (UserService.List tenantID limit offset) (fun _ => internal_error c w "Failed to list users")
  (fun response =>
  respond c w StatusOK (DUserPage (json_items json_User response)))).

Definition ChangePassword : prog Response :=
  in_tenant c w (fun tenantID =>
  user_id (fun userID =>
  body (fun req : ChangePasswordRequest =>
  result_of (UserService.ChangePassword emails tenantID userID (cw_OldPassword req) (cw_NewPassword req))
    (fun err =>
       if err ==? (ErrUserNotFound : error)
       then refuse c w StatusNotFound ErrorCodeResourceNotFound "User not found"
       else if err ==? (ErrInvalidCredentials : error)
       then refuse c w StatusBadRequest ErrorCodeValidationFailed "Current password is incorrect"
       else internal_error c w "Failed to change password")
    (fun _ => respond c w StatusOK (DMessage "Password changed successfully"))))).

Definition SendVerificationEmail : prog Response :=
  in_tenant c w (fun tenantID =>
  user_id (fun userID =>
  result_of (UserService.SendVerificationEmail emails baseURL tenantID userID)
    (fun err =>
       if errors_Is err ErrUserNotFound
       then refuse c w StatusNotFound ErrorCodeResourceNotFound "User not found"
       else if errors_Is err ErrEmailAlreadyVerified
       then refuse c w StatusConflict ErrorCodeResourceConflict "Email is already verified"
       else internal_error c w "Failed to send verification email")
    (fun _ => mret (set_status w StatusAccepted)))).
End Handlers.
End UserHandler.

(** ** Clients *)
Module ClientHandler.
Section Handlers.
Context `{Env} `{UuidLib} `{BcryptLib} `{JsonBind CreateClientRequest} `{JsonBind UpdateClientRequest}.
Context (c : Request) (w : Response).

Definition client_id := path_id c w "client_id" "Invalid client ID format".
Definition body {T} `{JsonBind T} (k : T -> prog Response) : prog Response :=
  with_body c w "Invalid request body" k.
Definition or_not_found (message : string) (err : error) : prog Response :=
  if err ==? (ErrClientNotFound : error)
  then refuse c w StatusNotFound ErrorCodeResourceNotFound "Client not found"
  else internal_error c w message.

Definition CreateClient : prog Response :=
  in_tenant c w (fun tenantID =>
  body (fun req : CreateClientRequest =>
  result_of (ClientService.Create tenantID req) (fun _ => internal_error c w "Failed to create client")
  (fun client => respond c w StatusCreated (DClient (json_Client client))))).

Definition GetClient : prog Response :=
  in_tenant c w (fun tenantID =>
  client_id (fun clientID =>
  result_of (ClientService.GetByID tenantID clientID) (or_not_found "Failed to get client") (fun client =>
  respond c w StatusOK (DClient (json_Client (client <| cl_ClientSecret := "" |>)))))).

Definition UpdateClient : prog Response :=
  in_tenant c w (fun tenantID =>
  client_id (fun clientID =>
  body (fun req : UpdateClientRequest =>
  result_of (ClientService.Update tenantID clientID req) (or_not_found "Failed to update client")
  (fun client =>
  respond c w StatusOK (DClient (json_Client (client <| cl_ClientSecret := "" |>))))))).

Definition DeleteClient : prog Response :=
  in_tenant c w (fun tenantID =>
  client_id (fun clientID =>
  result_of (ClientService.Delete tenantID clientID) (or_not_found "Failed to delete client") (fun _ =>
  respond c w StatusOK (DMessage "Client deleted successfully")))).

Definition ListClients : prog Response :=
  in_tenant c w (fun tenantID =>
  let '(limit, offset) := getPaginationParams c in
  result_of (ClientService.List tenantID limit offset)
    (fun _ => internal_error c w "Failed to list clients")
    (fun response => respond c w StatusOK (DClientPage (json_items json_Client response)))).
End Handlers.
End ClientHandler.

(** ** Second factors *)
Module MFAHandler.
Section Handlers.
Context `{Env} `{UuidLib} `{AeadLib} `{JsonBind MFACodeRequest}.
Context (keys : Mfa.Keys) (events : Recorder) (c : Request) (w : Response).

Definition record (action : AuditAction) (tenantID userID : uuid) (metadata : Metadata) : prog unit :=
  Record_ events (q_Ctx c) {|
    e_Action := action; e_TenantID := tenantID; e_UserID := Some userID; e_ClientID := None;
    e_Resource := ""; e_Success := true; e_ErrorCode := ""; e_Metadata := metadata |}.

(** Only the user named by :user_id passes. *)
Definition requireSelf (next : Handler) : Handler := fun c w =>
  let forbid := abort_api c w StatusForbidden ErrorCodeForbidden
                  "Only the user can manage their own authenticator" in
  match GetUserID c with
  | None => forbid
  | Some caller =>
    if (caller ==? uuid_Nil) || (uuid_String caller !=? Param c "user_id") then forbid else next c w
  end.

Definition target (k : uuid -> uuid -> prog Response) : prog Response :=
  in_tenant c w (fun tenantID =>
  path_id c w "user_id" "Invalid user ID format" (fun userID => k tenantID userID)).

Definition fail (err : error) : prog Response :=
  if errors_Is err ErrUserNotFound
  then refuse c w StatusNotFound ErrorCodeResourceNotFound "User not found"
  else if errors_Is err ErrMFANotEnabled
  then refuse c w StatusNotFound ErrorCodeResourceNotFound "MFA is not enabled"
  else if errors_Is err ErrMFAAlreadyEnabled
  then refuse c w StatusConflict ErrorCodeResourceConflict "MFA is already enabled"
  else if errors_Is err ErrMFANotEnrolling
  then refuse c w StatusConflict ErrorCodeResourceConflict "No pending enrollment — start again"
  else if errors_Is err ErrInvalidMFACode
  then refuse c w StatusBadRequest ErrorCodeInvalidVerificationCode "Invalid code"
  else if errors_Is err ErrMFALocked
  then refuse c w StatusTooManyRequests ErrorCodeRateLimitExceeded
         "Too many incorrect codes — try again later"
  else internal_error c w "Internal server error".

Definition bindCode (k : string -> prog Response) : prog Response :=
  with_body c w "Request body must contain code" (fun req : MFACodeRequest => k (mc_Code req)).
Definition verify (tenantID userID : uuid) (k : prog Response) : prog Response :=
  bindCode (fun code => result_of (mfa_Verify keys tenantID userID code) fail (fun _ => k)).

Definition GetStatus : prog Response :=
  target (fun tenantID userID =>
  result_of (Status tenantID userID) fail (fun status =>
  respond c w StatusOK (DMFAStatus status))).

Definition BeginTOTP : prog Response :=
  target (fun tenantID userID =>
  result_of (BeginTOTPEnrollment keys tenantID userID) fail (fun enrollment =>
  respond c w StatusCreated (DTOTPEnrollment enrollment))).

Definition ConfirmTOTP : prog Response :=
  target (fun tenantID userID =>
  bindCode (fun code =>
  result_of (ConfirmTOTPEnrollment keys tenantID userID code) fail (fun codes =>
  record AuditActionMFAEnabled tenantID userID [("method", MetaString MFAMethodTOTP)] ;;
  respond c w StatusOK (DRecoveryCodes codes)))).

Definition RegenerateRecoveryCodes : prog Response :=
  target (fun tenantID userID =>
  verify tenantID userID (
  result_of (MfaService.RegenerateRecoveryCodes keys tenantID userID) fail (fun codes =>
  record AuditActionUserUpdated tenantID userID
    [("change", MetaString "mfa_recovery_codes_regenerated")] ;;
  respond c w StatusOK (DRecoveryCodes codes)))).

Definition Disable : prog Response :=
  target (fun tenantID userID =>
  verify tenantID userID (
  result_of (MfaService.Disable tenantID userID) fail (fun _ =>
  record AuditActionMFADisabled tenantID userID [] ;;
  mret (set_status w StatusNoContent)))).

Definition Reset_ : prog Response :=
  target (fun tenantID userID =>
  result_of (MfaService.Disable tenantID userID) fail (fun _ =>
  record AuditActionMFAReset tenantID userID
    [("admin_id", MetaString (uuid_String (user_or_nil c)))] ;;
  mret (set_status w StatusNoContent))).
End Handlers.
End MFAHandler.

(** ** Audit log *)
Module AuditHandler.
Section Handlers.
Context `{Env} `{UuidLib} (c : Request) (w : Response).

Definition handleServiceError (err : error) : prog Response :=
  if errors_Is err ErrResourceNotFound then
    refuse c w StatusNotFound ErrorCodeResourceNotFound (error_text ErrResourceNotFound)
  else if errors_Is err ErrInsufficientPermissions then
    refuse c w StatusForbidden ErrorCodeInsufficientPermissions "Insufficient permissions"
  else internal_error c w "Internal server error".

(** A query parameter that is given and parses. *)
Definition parsed {A} (key : string) (parse : string -> option A) : option A :=
  let v := Query c key in if v !=? "" then parse v else None.
Definition parse_date (s : string) : option Z := option_map fst (rfc3339_Parse s).

Definition QueryAuditLogs : prog Response :=
  in_tenant c w (fun tenantID =>
  let '(limit, offset) := getPaginationParams c in
  let query := {|
    aq_TenantID := tenantID; aq_UserID := parsed "user_id" uuid_Parse;
    aq_ClientID := parsed "client_id" uuid_Parse; aq_Action := parsed "action" Some;
    aq_Resource := Query c "resource"; aq_ResourceID := parsed "resource_id" uuid_Parse;
    aq_IPAddress := Query c "ip_address"; aq_Success := parsed "success" ParseBool;
    aq_StartDate := parsed "start_date" parse_date; aq_EndDate := parsed "end_date" parse_date;
    aq_Limit := limit; aq_Offset := offset |} in
  result_of (AuditTrail.Query query) handleServiceError (fun response =>
  respond c w StatusOK (DAuditLogPage response))).

Definition GetAuditLog : prog Response :=
  in_tenant c w (fun tenantID =>
  path_id c w "audit_id" "Invalid audit ID" (fun auditID =>
  result_of (AuditTrail.GetByID tenantID auditID) handleServiceError (fun auditLog =>
  respond c w StatusOK (DAuditLog auditLog)))).

Definition GetUserActivity : prog Response :=
  in_tenant c w (fun tenantID =>
  path_id c w "user_id" "Invalid user ID" (fun userID =>
  let '(limit, offset) := getPaginationParams c in
  result_of (AuditTrail.GetUserActivity tenantID userID limit offset) handleServiceError (fun response =>
  respond c w StatusOK (DAuditLogPage response)))).

Definition GetResourceActivity : prog Response :=
  in_tenant c w (fun tenantID =>
  let resource := Param c "resource" in
  if resource ==? "" then
    refuse c w StatusBadRequest ErrorCodeInvalidRequest "Resource parameter is required"
  else
  path_id c w "resource_id" "Invalid resource ID" (fun resourceID =>
  let '(limit, offset) := getPaginationParams c in
  result_of (AuditTrail.GetResourceActivity tenantID resource resourceID limit offset)
    handleServiceError (fun response =>
  respond c w StatusOK (DAuditLogPage response)))).

Definition securityActions : list AuditAction :=
  [AuditActionUserLoginFailed; AuditActionUserLocked; AuditActionUserSuspended;
   AuditActionTokenRevoked; AuditActionPermissionGranted; AuditActionPermissionRevoked;
   AuditActionRoleAssigned; AuditActionRoleRevoked; AuditActionTokenReuseDetected;
   AuditActionMFADisabled; AuditActionMFAReset; AuditActionMFAFailed; AuditActionPasswordReset].
Definition is_security_event (l : AuditLog) : bool :=
  contains securityActions (al_Action l) || negb (al_Success l).

Definition GetSecurityEvents : prog Response :=
  in_tenant c w (fun tenantID =>
  let '(limit, offset) := getPaginationParams c in
  let query := (AuditLogRepo.query tenantID limit offset)
    <| aq_StartDate := parsed "start_date" parse_date |> <| aq_EndDate := parsed "end_date" parse_date |> in
  result_of (AuditTrail.Query query) handleServiceError (fun response =>
  let filteredItems := List.filter is_security_event (pg_Items response) in
  let page := MkPageInfo (pi_Limit (pg_Page response)) (pi_Offset (pg_Page response))
                (Z.of_nat (length filteredItems)) (pi_HasMore (pg_Page response)) in
  respond c w StatusOK (DAuditLogPage (MkPaginatedResponse filteredItems page)))).

(** The summary; its period is the response's own. *)
Definition generateComplianceReportSummary (response : PaginatedResponse AuditLog)
    (startDate endDate : Z) : ComplianceReport :=
  foldl count_log
    (MkComplianceReport (startDate, endDate) (pi_TotalCount (pg_Page response)) 0 0 0 0 0 ∅ ∅ ∅)
    (pg_Items response).

Definition GetComplianceReport : prog Response :=
  in_tenant c w (fun tenantID =>
  let invalid := refuse c w StatusBadRequest ErrorCodeInvalidRequest in
  let startDateStr := Query c "start_date" in
  let endDateStr := Query c "end_date" in
  if (startDateStr ==? "") || (endDateStr ==? "") then
    invalid "start_date and end_date parameters are required"
  else
  match rfc3339_Parse startDateStr with
  | None => invalid "Invalid start_date format, use RFC3339"
  | Some startDate =>
    match rfc3339_Parse endDateStr with
    | None => invalid "Invalid end_date format, use RFC3339"
    | Some endDate =>
      if time_before endDate.1 startDate.1 then invalid "end_date must be after start_date"
      else if 90 * 24 * hour <? time_sub endDate.1 startDate.1 then
        invalid "Date range cannot exceed 90 days"
      else
      let query := (AuditLogRepo.query tenantID 10000 0)
        <| aq_StartDate := Some startDate.1 |> <| aq_EndDate := Some endDate.1 |> in
      result_of (AuditTrail.Query query) handleServiceError (fun response =>
      respond c w StatusOK
        (DComplianceReport (rfc3339_Format startDate, rfc3339_Format endDate)
           (generateComplianceReportSummary response startDate.1 endDate.1)))
    end
  end).
End Handlers.
End AuditHandler.
