(* ===== verification/RegistrationHandler.v ===== *)
(** internal/handlers/registration_handler.go: dynamic client registration,
    client self-management and the management of initial access tokens. Log
    lines and counters are left out. *)
From S2P Require Import Prelude GoStd Models Effects Store Libraries JwtKeys AuditTrail Http.
From S2P Require Import Registration Middleware TokenEndpoint Management.
From Stdlib Require Import Ascii.

Open Scope Z_scope.

Definition maxRegistrationBody : nat := Z.to_nat 65536.

(** errors.As(err, &regErr): its code and description. *)
Fixpoint as_RegistrationError (err : error) : option (string * string) :=
  match err with
  | ERegistration code description => Some (code, description)
  | EWrap _ err => as_RegistrationError err
  | _ => None
  end.

Section Handler.
Context `{Env} `{UuidLib} `{BcryptLib} `{UnicodeTables} `{NetLib}.
Context `{JsonBind ClientMetadata} `{JsonBind CreateInitialAccessTokenRequest}.
Context (baseURL : string) (events : Recorder) (c : Request) (w : Response).

Definition bearerToken : string :=
  match Cut " "%char (GetHeader c "Authorization") with
  | None => ""
  | Some (scheme, token) => if negb (EqualFold scheme "Bearer") then "" else TrimSpace token
  end.

Definition registration_tenant (k : uuid -> prog Response) : prog Response :=
  match GetTenantID c with
  | None => mret (oauth_error w StatusBadRequest "invalid_request"
                    "Tenant context required — use the tenant's domain or provide X-Tenant-ID")
  | Some tenantID => k tenantID
  end.

Definition bindMetadata (k : ClientMetadata -> prog Response) : prog Response :=
  match ShouldBindJSON (MaxBytesReader (body_reader c) maxRegistrationBody) with
  | inr _ => mret (oauth_error w StatusBadRequest "invalid_client_metadata"
                     "Request body must be a JSON object of client metadata")
  | inl meta => k meta
  end.

Definition registration_fail (err : error) : prog Response :=
  match as_RegistrationError err with
  | Some (code, description) => mret (oauth_error w StatusBadRequest code description)
  | None =>
    if errors_Is err ErrInvalidToken then
      mret (c_JSON (Header w "WWW-Authenticate" ("Bearer error=" +:+ in_quotes "invalid_token"))
              StatusUnauthorized (PErrorCode "invalid_token"))
    else mret (c_JSON w StatusInternalServerError (PErrorCode "server_error"))
  end.

Definition audit (action : AuditAction) (tenantID : uuid) (clientID : string) (metadata : Metadata)
    : prog unit :=
  Record_ events (q_Ctx c) {|
    e_Action := action; e_TenantID := tenantID; e_UserID := None; e_ClientID := None;
    e_Resource := "client"; e_Success := true; e_ErrorCode := "";
    e_Metadata := ("client_id", MetaString clientID) :: metadata |}.

Definition HandleRegister : prog Response :=
  registration_tenant (fun tenantID =>
  bindMetadata (fun meta =>
  result_of (Register baseURL tenantID bearerToken meta) registration_fail (fun resp =>
  audit AuditActionClientCreated tenantID (cp_ClientID resp)
    [("registration", MetaString "dynamic");
     ("grant_types", MetaStrings (cm_GrantTypes (cp_ClientMetadata resp)));
     ("auth_method", MetaString (cm_TokenEndpointAuthMethod (cp_ClientMetadata resp)))] ;;
  mret (c_JSON w StatusCreated (PRegistration resp))))).

Definition HandleRead : prog Response :=
  registration_tenant (fun tenantID =>
  result_of (Read baseURL tenantID (Param c "client_id") bearerToken) registration_fail (fun resp =>
  mret (c_JSON w StatusOK (PRegistration resp)))).

Definition HandleUpdate : prog Response :=
  registration_tenant (fun tenantID =>
  bindMetadata (fun meta =>
  result_of (Update baseURL tenantID (Param c "client_id") bearerToken meta) registration_fail
  (fun resp =>
  audit AuditActionClientUpdated tenantID (cp_ClientID resp)
    [("registration", MetaString "dynamic")] ;;
  mret (c_JSON w StatusOK (PRegistration resp))))).

Definition HandleDelete : prog Response :=
  registration_tenant (fun tenantID =>
  let clientID := Param c "client_id" in
  result_of (Delete tenantID clientID bearerToken) registration_fail (fun _ =>
  audit AuditActionClientDeleted tenantID clientID [("registration", MetaString "dynamic")] ;;
  mret (set_status w StatusNoContent))).

(** ** /v1/client-registration-tokens *)

Definition HandleCreateInitialAccessToken : prog Response :=
  in_tenant c w (fun tenantID =>
  with_body c w "Request body must contain scopes" (fun req : CreateInitialAccessTokenRequest =>
  let createdBy := match GetUserID c with
                   | Some userID => if userID !=? uuid_Nil then Some userID else None
                   | None => None
                   end in
  result_of (CreateInitialAccessToken tenantID createdBy req)
    (fun err => match as_RegistrationError err with
                | Some (_, description) =>
                  refuse c w StatusBadRequest ErrorCodeValidationFailed description
                | None => internal_error c w "Internal server error"
                end)
    (fun '(token, plain) =>
  Record_ events (q_Ctx c) {|
    e_Action := AuditActionClientCreated; e_TenantID := tenantID; e_UserID := createdBy;
    e_ClientID := None; e_Resource := "initial_access_token"; e_Success := true; e_ErrorCode := "";
    e_Metadata := [("initial_access_token_id", MetaString (uuid_String (ia_ID token)));
                   ("scopes", MetaStrings (ia_Scopes token));
                   ("max_uses", MetaNumber (ia_MaxUses token))] |} ;;
  respond c (Header w "Cache-Control" "no-store") StatusCreated
    (DInitialAccessToken (json_InitialAccessToken token) plain)))).

Definition HandleListInitialAccessTokens : prog Response :=
  in_tenant c w (fun tenantID =>
  result_of (ListInitialAccessTokens tenantID)
    (fun _ => internal_error c w "Internal server error")
    (fun tokens =>
  respond c w StatusOK (DInitialAccessTokens (map json_InitialAccessToken tokens)))).

Definition HandleRevokeInitialAccessToken : prog Response :=
  in_tenant c w (fun tenantID =>
  path_id c w "id" "Invalid token ID format" (fun id =>
  result_of (RevokeInitialAccessToken tenantID id)
    (fun err =>
       if errors_Is err ErrInitialAccessTokenNotFound
       then refuse c w StatusNotFound ErrorCodeResourceNotFound "Initial access token not found"
       else internal_error c w "Internal server error")
    (fun _ => mret (set_status w StatusNoContent)))).
End Handler.
