(* ===== verification/AccountPages.v ===== *)
(** internal/handlers/account_handler.go: the pages email links open, that is,
    email verification and password reset. Log lines and counters are left
    out. *)
From S2P Require Import Prelude GoStd Models Effects Store Libraries JwtKeys AuditTrail Http.
From S2P Require Import UserService HandlerSecurity Middleware Management.

Open Scope Z_scope.

Definition accountCSRFPath : string := "/account".
Definition accountViewMessage : string := "message".
Definition accountViewForgot : string := "forgot".
Definition accountViewReset : string := "reset".

Definition noStoreNoReferrer (w : Response) : Response :=
  Header (Header w "Cache-Control" "no-store") "Referrer-Policy" "no-referrer".

Module AccountHandler.
Section Handler.
Context `{Env} `{UuidLib} `{BcryptLib} `{UnicodeTables}.
Context (cfg : Config) (emails : option TemplateEmailSender) (baseURL : string) (events : Recorder).
Context (c : Request) (w : Response).

Definition message (w : Response) (status : Z) (title text : string) : prog Response :=
  mret (c_HTML w status "account.html"
          [("view", HString accountViewMessage); ("title", HString title); ("message", HString text)]).

Definition tenant (k : uuid -> prog Response) : prog Response :=
  match GetTenantID c with
  | None => message w StatusBadRequest "Unknown organization"
              "This page must be opened from your organization's sign-in address."
  | Some tenantID => k tenantID
  end.

Definition render (status : Z) (data : gin_H) : prog Response :=
  result_of (newCSRFToken (cfg_JWTSecret cfg))
    (fun _ => message w StatusInternalServerError "Something went wrong" "Please try again later.")
    (fun csrfToken =>
  let w := add_cookie w (MkSetCookie csrfCookieName csrfToken 600 accountCSRFPath
                           (has_prefix "https://" (cfg_ServerURL cfg))) in
  mret (c_HTML w status "account.html" (data ++ [("csrf_token", HString csrfToken)]))).

Definition validCSRF : bool :=
  validateCSRFToken (cfg_JWTSecret cfg) (PostForm c "csrf_token") (Cookie c csrfCookieName).

Definition record (action : AuditAction) (tenantID : uuid) (userID : option uuid)
    (metadata : Metadata) : prog unit :=
  Record_ events (q_Ctx c) {|
    e_Action := action; e_TenantID := tenantID; e_UserID := userID; e_ClientID := None;
    e_Resource := ""; e_Success := true; e_ErrorCode := ""; e_Metadata := metadata |}.

Definition VerifyEmail : prog Response :=
  tenant (fun tenantID =>
  result_of (UserService.VerifyEmail tenantID (Query c "code"))
    (fun err =>
       if errors_Is err ErrVerificationExpired then
         message w StatusBadRequest "Link expired"
           "This verification link has expired. Ask for a new one and try again."
       else if errors_Is err ErrInvalidVerificationCode then
         message w StatusBadRequest "Invalid link"
           "This verification link is invalid or has already been used."
       else
         message w StatusInternalServerError "Something went wrong"
           "We could not verify your email. Please try again later.")
    (fun user =>
  record AuditActionEmailVerified tenantID (Some (us_ID user)) [] ;;
  message w StatusOK "Email verified"
    "Your email address is confirmed. You can close this window.")).

Definition ForgotPasswordForm : prog Response :=
  tenant (fun _ => render StatusOK [("view", HString accountViewForgot)]).

Definition forgot_error (msg : string) : prog Response :=
  render StatusBadRequest [("view", HString accountViewForgot); ("error", HString msg)].

Definition ForgotPassword : prog Response :=
  tenant (fun tenantID =>
  if negb validCSRF then forgot_error "Your form expired. Please try again."
  else
  let email := TrimSpace (PostForm c "email") in
  if email ==? "" then forgot_error "Enter your email address."
  else
  result_of (RequestPasswordReset emails baseURL tenantID email)
    (fun _ => message w StatusInternalServerError "Something went wrong"
                "We could not send the email. Please try again later.")
    (fun _ =>
  record AuditActionPasswordResetRequested tenantID None [("email", MetaString email)] ;;
  message w StatusOK "Check your email"
    "If an account exists for that address, we sent a link to reset the password. The link expires in one hour.")).

Definition ResetPasswordForm : prog Response :=
  tenant (fun _ =>
  let token := Query c "token" in
  if token ==? "" then
    message w StatusBadRequest "Invalid link" "This password reset link is invalid."
  else render StatusOK [("view", HString accountViewReset); ("token", HString token)]).

Definition ResetPassword : prog Response :=
  tenant (fun tenantID =>
  let token := PostForm c "token" in
  let retry (status : Z) (msg : string) :=
    render status [("view", HString accountViewReset); ("token", HString token); ("error", HString msg)] in
  if negb validCSRF then retry StatusBadRequest "Your form expired. Please try again."
  else
  let password := PostForm c "password" in
  if password !=? PostForm c "password_confirm" then
    retry StatusBadRequest "The passwords do not match."
  else
  result_of (UserService.ResetPassword emails tenantID token password)
    (fun err =>
       if errors_Is err ErrPasswordTooShort then retry StatusBadRequest (error_text err)
       else if errors_Is err ErrVerificationExpired then
         message w StatusBadRequest "Link expired"
           "This password reset link has expired. Ask for a new one."
       else if errors_Is err ErrInvalidVerificationCode || errors_Is err ErrUserSuspended then
         message w StatusBadRequest "Invalid link"
           "This password reset link is invalid or has already been used."
       else
         message w StatusInternalServerError "Something went wrong"
           "We could not change your password. Please try again later.")
    (fun user =>
  record AuditActionPasswordReset tenantID (Some (us_ID user)) [] ;;
  message w StatusOK "Password changed"
    "Your password has been changed and you have been signed out everywhere. Sign in again with your new password.")).
End Handler.
End AccountHandler.
