(* ===== verification/Routes.v ===== *)
(** cmd/auth-server/main.go and the RegisterRoutes methods of
    internal/handlers: which handler serves a request, behind which
    middleware. Metrics, tracing, the access log, static files, the HTTP
    listener and shutdown are left out; gin.Recovery, which answers a panic
    with a 500, is too, so a [Panic] outcome stands for it. *)
From S2P Require Import Prelude GoStd GoTime Models Effects Store Repos AccountRepos Libraries JwtKeys.
From S2P Require Import AuditTrail Http Rbac AuthService Session ClientService Mfa UserService.
From S2P Require Import EmailService Registration HandlerSecurity TokenEndpoint Authorize BrowserPages.
From S2P Require Import Redis Middleware Idempotency Management RegistrationHandler AccountPages.
From Stdlib Require Import Ascii.

Open Scope Z_scope.

(** ** gin's routes *)

Record Route := MkRoute { rt_Method : string; rt_Path : string; rt_Handler : Handler }.
Definition GET (path : string) (h : Handler) : Route := MkRoute "GET" path h.
Definition POST (path : string) (h : Handler) : Route := MkRoute "POST" path h.
Definition PUT (path : string) (h : Handler) : Route := MkRoute "PUT" path h.
Definition DELETE (path : string) (h : Handler) : Route := MkRoute "DELETE" path h.

(** router.Group(prefix, use) with the routes registered on it. *)
Definition Group (prefix : string) (use : Handler -> Handler) (routes : list Route) : list Route :=
  map (fun r => MkRoute (rt_Method r) (prefix +:+ rt_Path r) (use (rt_Handler r))) routes.
Definition plain (next : Handler) : Handler := next.
(** A middleware that only sets headers. *)
Definition headers (f : Response -> Response) (next : Handler) : Handler := fun c w => next c (f w).

(** The index of the route gin selects for a method and a path, with the
    path parameters. *)
Class GinRouter := gin_match :
  list (string * string) -> string -> string -> option (nat * list (string * string)).

(** ** What main builds *)

Record Server := MkServer {
  sv_cfg : Config;
  sv_keys : KeySet;
  sv_mfaKeys : Keys;
  sv_secrets : option clientSecretCache;
  sv_superAdmins : list uuid;
  sv_redis : bool
}.

Section Server.
Context `{Env} `{UuidLib} `{JwtLib} `{UnicodeTables} `{BcryptLib} `{AeadLib} `{RedirectLib}.
Context `{PendingJson} `{NetLib} `{RedisLib} `{JsonLib} `{Rendering} `{MapOrder} `{SmtpServer}.
Context `{MimeLib} `{GinRouter}.
Context `{JsonBind CreateRoleRequest} `{JsonBind UpdateRoleRequest} `{JsonBind AddPermissionRequest}.
Context `{JsonBind AssignRoleRequest} `{JsonBind CreatePermissionRequest}.
Context `{JsonBind UpdatePermissionRequest} `{JsonBind CreateTenantRequest}.
Context `{JsonBind UpdateTenantRequest} `{JsonBind CreateUserRequest} `{JsonBind UpdateUserRequest}.
Context `{JsonBind ChangePasswordRequest} `{JsonBind CreateClientRequest}.
Context `{JsonBind UpdateClientRequest} `{JsonBind MFACodeRequest} `{JsonBind ClientMetadata}.
Context `{JsonBind CreateInitialAccessTokenRequest}.

(** parseUserIDs; blank parts are skipped. *)
Fixpoint parse_ids (parts : list string) : list uuid + error :=
  match parts with
  | [] => inl []
  | part :: parts =>
    let part := TrimSpace part in
    if part ==? "" then parse_ids parts
    else
    match uuid_Parse part with
    | None => inr (EMessage (in_quotes part +:+ " is not a valid UUID"))
    | Some id => match parse_ids parts with inl ids => inl (id :: ids) | inr err => inr err end
    end
  end.
Definition parseUserIDs (raw : string) : list uuid + error := parse_ids (Split ","%char raw).

(** The part of main that can refuse to start, after the connections are made
    and the signing keys loaded. *)
Definition newServer (cfg : Config) (jwtKeys : KeySet) (redis : bool) : prog Server :=
  secrets ← newClientSecretCache clientSecretCacheTTL;
  mfaMasterKey ← from_sum (if cfg_MFAEncryptionKey cfg !=? ""
                           then ParseKey (cfg_MFAEncryptionKey cfg)
                           else inl (DeriveKey (cfg_JWTSecret cfg)));
  mfaKeys ← from_sum (NewKeys mfaMasterKey);
  superAdminIDs ← from_sum (parseUserIDs (cfg_RBACSuperAdminUserIDs cfg));
  mret (MkServer cfg jwtKeys mfaKeys secrets superAdminIDs redis).

Context (s : Server).

Definition recorder : Recorder := MkRecorder true.
Definition authService : authServiceImpl := MkAuthService (sv_cfg s) (sv_keys s) true.
Definition emailService : option TemplateEmailSender := Some (SendTemplateEmail (sv_cfg s)).
Definition roleService : RoleService.RoleServiceImpl := RoleService.MkRoleService true.
Definition baseURL : string := TrimSuffix "/" (cfg_ServerURL (sv_cfg s)).
Definition oauthHandler : OAuthHandler :=
  MkOAuthHandler (sv_cfg s) authService (Some (sv_mfaKeys s)) recorder (sv_secrets s).
Definition authz : Authorizer := NewAuthorizer (sv_superAdmins s).

(** One round of each background worker: every minute the email queue, every
    15 minutes what has expired. An error is only logged. *)
Definition email_round : prog unit := ignore (ProcessQueue (sv_cfg s)).
Definition cleanup_round : prog unit :=
  ignore CleanupExpiredTokens ;;
  ignore CleanupExpiredSessions ;;
  ignore IdempotencyRepo.DeleteExpired.

(** ** RegisterRoutes *)

Definition oauth_routes : list Route :=
  let h := oauthHandler in
  Group "/oauth" plain [
    GET "/authorize" (HandleAuthorize h); POST "/authorize" (HandleAuthorize h);
    POST "/login" (HandleLogin h); POST "/login/mfa" (HandleLoginMFA h);
    POST "/consent" (HandleConsent h);
    GET "/logout" (HandleLogout h); POST "/logout" (HandleLogout h);
    POST "/token" (headers noStore (HandleToken h));
    POST "/introspect" (headers noStore (HandleIntrospect h));
    POST "/revoke" (HandleRevoke h);
    POST "/device_authorization" (headers noStore (HandleDeviceAuthorization h));
    GET "/device" (HandleDeviceVerificationPage h); POST "/device" (HandleDeviceVerification h);
    POST "/device/mfa" (HandleDeviceMFA h)] ++
  Group "/.well-known" plain [
    GET "/openid-configuration" (fun c w => HandleDiscovery h w);
    GET "/oauth-authorization-server" (fun c w => HandleDiscovery h w);
    GET "/jwks.json" (fun c w => HandleJWKS h w)] ++
  [GET "/userinfo" (HandleUserInfo h); POST "/userinfo" (HandleUserInfo h)].

Definition account_routes : list Route :=
  let cfg := sv_cfg s in
  Group "/account" (headers noStoreNoReferrer) [
    GET "/verify-email" (AccountHandler.VerifyEmail recorder);
    GET "/forgot-password" (AccountHandler.ForgotPasswordForm cfg);
    POST "/forgot-password" (AccountHandler.ForgotPassword cfg emailService baseURL recorder);
    GET "/reset-password" (AccountHandler.ResetPasswordForm cfg);
    POST "/reset-password" (AccountHandler.ResetPassword cfg emailService recorder)].

Definition registration_routes : list Route :=
  Group "/oauth/register" (headers noStore) [
    POST "" (HandleRegister baseURL recorder); GET "/:client_id" (HandleRead baseURL);
    PUT "/:client_id" (HandleUpdate baseURL recorder); DELETE "/:client_id" (HandleDelete recorder)].

Definition registration_management_routes : list Route :=
  Group "/client-registration-tokens" plain [
    POST "" (Require authz "client" "create" (HandleCreateInitialAccessToken recorder));
    GET "" (Require authz "client" "read" HandleListInitialAccessTokens);
    DELETE "/:id" (Require authz "client" "delete" HandleRevokeInitialAccessToken)].

Definition tenant_routes : list Route :=
  Group "/admin" (RequireSuperAdmin authz) [
    POST "/tenants" TenantHandler.CreateTenant; GET "/tenants" TenantHandler.ListTenants;
    GET "/tenants/:id" TenantHandler.GetTenant; PUT "/tenants/:id" TenantHandler.UpdateTenant;
    DELETE "/tenants/:id" TenantHandler.DeleteTenant].

Definition user_routes : list Route := [
  POST "" (Require authz "user" "create" (UserHandler.CreateUser emailService baseURL));
  GET "/:user_id" (RequireOrSelf authz "user" "read" "user_id" UserHandler.GetUser);
  PUT "/:user_id" (Require authz "user" "update" UserHandler.UpdateUser);
  DELETE "/:user_id" (Require authz "user" "delete" UserHandler.DeleteUser);
  GET "" (Require authz "user" "read" UserHandler.ListUsers);
  POST "/:user_id/change-password"
    (RequireOrSelf authz "user" "update" "user_id" (UserHandler.ChangePassword emailService));
  POST "/:user_id/verification-email"
    (RequireOrSelf authz "user" "update" "user_id"
       (UserHandler.SendVerificationEmail emailService baseURL))].

Definition mfa_routes : list Route :=
  let self := MFAHandler.requireSelf in
  let keys := sv_mfaKeys s in
  [GET "/:user_id/mfa" (RequireOrSelf authz "user" "read" "user_id" MFAHandler.GetStatus);
   POST "/:user_id/mfa/totp" (self (MFAHandler.BeginTOTP keys));
   POST "/:user_id/mfa/totp/confirm" (self (MFAHandler.ConfirmTOTP keys recorder));
   POST "/:user_id/mfa/recovery-codes" (self (MFAHandler.RegenerateRecoveryCodes keys recorder));
   POST "/:user_id/mfa/disable" (self (MFAHandler.Disable keys recorder));
   DELETE "/:user_id/mfa" (Require authz "user" "update" (MFAHandler.Reset_ recorder))].

Definition client_routes : list Route := [
  POST "" (Require authz "client" "create" ClientHandler.CreateClient);
  GET "/:client_id" (Require authz "client" "read" ClientHandler.GetClient);
  PUT "/:client_id" (Require authz "client" "update" ClientHandler.UpdateClient);
  DELETE "/:client_id" (Require authz "client" "delete" ClientHandler.DeleteClient);
  GET "" (Require authz "client" "read" ClientHandler.ListClients)].

Definition rbac_routes : list Route :=
  let rs := roleService in
  Group "/roles" plain [
    POST "" (Require authz "role" "create" (RBACHandler.CreateRole rs));
    GET "" (Require authz "role" "read" RBACHandler.ListRoles);
    GET "/:role_id" (Require authz "role" "read" RBACHandler.GetRole);
    PUT "/:role_id" (Require authz "role" "update" (RBACHandler.UpdateRole rs));
    DELETE "/:role_id" (Require authz "role" "delete" (RBACHandler.DeleteRole rs));
    POST "/:role_id/permissions" (Require authz "role" "update" (RBACHandler.AddPermissionToRole rs));
    DELETE "/:role_id/permissions/:permission_id"
      (Require authz "role" "update" (RBACHandler.RemovePermissionFromRole rs));
    GET "/:role_id/permissions" (Require authz "role" "read" RBACHandler.GetRolePermissions);
    POST "/:role_id/users" (Require authz "role" "assign" (RBACHandler.AssignRoleToUser rs));
    DELETE "/:role_id/users/:user_id" (Require authz "role" "assign" (RBACHandler.RevokeRoleFromUser rs))]
  ++ Group "/permissions" plain [
    POST "" (RequireSuperAdmin authz RBACHandler.CreatePermission);
    GET "" (Require authz "permission" "read" RBACHandler.ListPermissions);
    GET "/:permission_id" (Require authz "permission" "read" RBACHandler.GetPermission);
    PUT "/:permission_id" (RequireSuperAdmin authz RBACHandler.UpdatePermission);
    DELETE "/:permission_id" (RequireSuperAdmin authz RBACHandler.DeletePermission)]
  ++ Group "/users" plain [
    GET "/:user_id/roles" (RequireOrSelf authz "role" "read" "user_id" RBACHandler.GetUserRoles);
    GET "/:user_id/permissions"
      (RequireOrSelf authz "role" "read" "user_id" RBACHandler.GetUserPermissions)].

Definition audit_routes : list Route :=
  Group "/audit" (Require authz "audit" "read") [
    GET "/logs" AuditHandler.QueryAuditLogs; GET "/logs/:audit_id" AuditHandler.GetAuditLog;
    GET "/users/:user_id/activity" AuditHandler.GetUserActivity;
    GET "/resources/:resource/:resource_id/activity" AuditHandler.GetResourceActivity;
    GET "/security-events" AuditHandler.GetSecurityEvents;
    GET "/compliance-report" AuditHandler.GetComplianceReport].

(** ** setupRoutes *)

Definition serviceVersion : string := "1.0.0".

(** PingContext reaches the database like a statement. *)
Definition health : Handler := fun c w =>
  db ← attempt (Stmt (fun _ db => (db, tt)));
  redis ← (if sv_redis s then r ← attempt RedisClient.Ping; mret (Some r) else mret None);
  let dbStatus := if db is inr _ then "error" else "ok" in
  let redisStatus := match redis with
                     | None => "disabled" | Some (inr _) => "error" | Some (inl _) => "ok"
                     end in
  let failed := (dbStatus ==? "error") || (redisStatus ==? "error") in
  now ← Now;
  mret (c_JSON w (if failed then StatusServiceUnavailable else StatusOK)
          (PHealth (if failed then "degraded" else "ok") dbStatus redisStatus now
             serviceVersion (cfg_GinMode (sv_cfg s)))).

Definition idempotencyTTL : Z := 24 * hour.

(** What every /v1 route runs behind. *)
Definition api_use (next : Handler) : Handler :=
  RequireAuth (sv_keys s) (Some authService) (Idempotency idempotencyTTL next).

Definition api_routes : list Route :=
  Group "/v1" api_use (
    Group "/tenants" plain tenant_routes ++ Group "/users" plain user_routes ++
    Group "/users" plain mfa_routes ++ Group "/clients" plain client_routes ++
    registration_management_routes ++ rbac_routes ++ audit_routes).

Definition setupRoutes : list Route :=
  [GET "/health" health] ++ oauth_routes ++ account_routes ++ registration_routes ++ api_routes.

(** ** A request through the router *)

(** The middleware main adds to the router, in order; tenants are looked up
    by domain with entries kept for a minute. *)
Definition router_use (next : Handler) : Handler :=
  CORS (sv_cfg s) (RateLimit (sv_cfg s) (TenantContext (sv_keys s) (Some minute)
    (RequestID (RequestContext next)))).

(** A request as net/http delivers it: nothing is stored in the gin context,
    and no credential has been checked. *)
Definition incoming (c : Request) : Request :=
  c <| q_Params := [] |> <| q_RequestID := "" |> <| q_TenantID := None |> <| q_UserID := None |>
    <| q_ClientID := None |> <| q_Redis := None |> <| q_Keys := [] |>.

Definition select (routes : list Route) (c : Request) : Handler * list (string * string) :=
  let not_found : Handler * list (string * string) :=
    ((fun _ w => mret (c_Data w StatusNotFound "text/plain" "404 page not found")), []) in
  match gin_match (map (fun r => (rt_Method r, rt_Path r)) routes) (q_Method c) (q_Path c) with
  | None => not_found
  | Some (i, params) => match routes !! i with Some r => (rt_Handler r, params) | None => not_found end
  end.

Definition ServeHTTP (c : Request) : prog Response :=
  let c := incoming c in
  let '(h, params) := select setupRoutes c in
  router_use h (c <| q_Params := params |>) blank.
End Server.
