(* ===== verification/KeyFiles.v ===== *)
(** internal/jwtkeys, where keys come from: PEM files, generated keys and
    Load; and how main starts the server with them. Reading a file, the PEM
    and x509 parsers and key generation are parameters. *)
From S2P Require Import Prelude GoStd Models Effects Libraries JwtKeys Http TenantService Mfa.
From S2P Require Import ClientService Routes.
From Stdlib Require Import Ascii.

Open Scope Z_scope.

(** What os.ReadFile answers at a step; the first PEM block of a text, as its
    type and bytes; the x509 parsers, whose results are typed as in Go, a key
    that is neither RSA nor ECDSA being [Bytes]; and key generation. *)
Class KeyFileLib := {
  os_ReadFile : nat -> string -> string + error;
  pem_Decode : string -> option (string * string);
  x509_ParsePKCS1PrivateKey : string -> (Z * Z * Z) + error;
  x509_ParseECPrivateKey : string -> (string * Z * Z * Z * Z) + error;
  x509_ParsePKCS8PrivateKey : string -> keyMaterial + error;
  x509_ParsePKCS1PublicKey : string -> (Z * Z) + error;
  x509_ParsePKIXPublicKey : string -> keyMaterial + error;
  rsa_GenerateKey : option (nat -> Z) -> Z -> (Z * Z * Z) + error;
  ecdsa_GenerateKey_P256 : option (nat -> Z) -> (Z * Z * Z) + error
}.

Definition as_key {A} (make : A -> keyMaterial) (r : A + error) : keyMaterial + error :=
  match r with inl a => inl (make a) | inr e => inr e end.
Definition rsa_key (k : Z * Z * Z) : keyMaterial := let '(N, E, D) := k in RSAPrivate N E D.
Definition rsa_public (k : Z * Z) : keyMaterial := let '(N, E) := k in RSAPublic N E.
Definition ec_key (k : string * Z * Z * Z * Z) : keyMaterial :=
  let '(curve, bitSize, X, Y, D) := k in ECPrivate curve bitSize X Y D.
Definition p256_key (k : Z * Z * Z) : keyMaterial :=
  let '(X, Y, D) := k in ECPrivate "P-256" 256 X Y D.

Section Files.
Context `{Env} `{KeyFileLib}.

Definition wrapKey (k : keyMaterial) : prog Key := r ← or_panic (newKey k); from_sum r.

Definition ParsePEM (data : string) : prog Key :=
  match pem_Decode data with
  | None => throw (EMessage "no PEM block found")
  | Some (type, bytes) =>
    let parsed :=
      if type ==? "RSA PRIVATE KEY" then Some (as_key rsa_key (x509_ParsePKCS1PrivateKey bytes))
      else if type ==? "EC PRIVATE KEY" then Some (as_key ec_key (x509_ParseECPrivateKey bytes))
      else if type ==? "PRIVATE KEY" then Some (x509_ParsePKCS8PrivateKey bytes)
      else if type ==? "RSA PUBLIC KEY" then Some (as_key rsa_public (x509_ParsePKCS1PublicKey bytes))
      else if type ==? "PUBLIC KEY" then Some (x509_ParsePKIXPublicKey bytes)
      else None in
    match parsed with
    | None => throw (EMessage ("unsupported PEM block type " +:+ in_quotes type))
    | Some (inr err) => throw (EWrap ("failed to parse " +:+ type) err)
    | Some (inl parsed) => wrapKey parsed
    end
  end.

Definition ReadFile (path : string) : prog string :=
  r ← Step (fun w => (tick w, os_ReadFile (w_step w) path)) mret; from_sum r.

Definition LoadFile (path : string) : prog Key :=
  data ← wrap "failed to read key file" (ReadFile path);
  wrap path (ParsePEM data).

Definition Generate (alg : string) : prog Key :=
  if alg ==? AlgRS256 then
    r ← WithRandom (fun rnd => rsa_GenerateKey rnd minRSABits);
    k ← from_sum r; wrapKey (rsa_key k)
  else if alg ==? AlgES256 then
    r ← WithRandom (fun rnd => ecdsa_GenerateKey_P256 rnd);
    k ← from_sum r; wrapKey (p256_key k)
  else throw (EMessage ("cannot generate key for alg " +:+ in_quotes alg)).

Record Options := MkOptions {
  op_Alg : string; op_SigningKeyFile : string; op_VerificationKeyFiles : string;
  op_HMACSecret : string; op_AllowEphemeral : bool
}.

(** The loop over the comma-separated verification key files. *)
Fixpoint load_files (paths : list string) : prog (list Key) :=
  match paths with
  | [] => mret []
  | path :: paths =>
    let path := TrimSpace path in
    if path ==? "" then load_files paths
    else key ← LoadFile path; keys ← load_files paths; mret (key :: keys)
  end.

(** The active key, and whether it is ephemeral. *)
Definition active_key (opts : Options) (alg : string) : prog (Key * bool) :=
  let file := op_SigningKeyFile opts in
  if file !=? "" then
    active ← LoadFile file;
    if negb (CanSign active) then
      throw (EMessage (file +:+ ": signing key must be a private key"))
    else if ky_Alg active !=? alg then
      throw (EMessage (file +:+ ": key is for " +:+ ky_Alg active +:+ " but signing alg is " +:+ alg))
    else mret (active, false)
  else if op_AllowEphemeral opts then
    active ← wrap "failed to generate ephemeral key" (Generate alg);
    mret (active, true)
  else throw (EMessage ("a signing key file is required for " +:+ alg)).

Context `{UnicodeTables}.

Definition Load (opts : Options) : prog (option KeySet * bool) :=
  let alg := ToUpper (TrimSpace (op_Alg opts)) in
  if alg ==? AlgHS256 then
    if (op_SigningKeyFile opts !=? "") || (op_VerificationKeyFiles opts !=? "") then
      throw (EMessage "key files are not used with HS256")
    else if op_HMACSecret opts ==? "" then throw (EMessage "HS256 requires a JWT secret")
    else mret (NewHMAC (op_HMACSecret opts), false)
  else if (alg !=? AlgRS256) && (alg !=? AlgES256) then
    throw (EMessage ("unsupported signing alg " +:+ in_quotes (op_Alg opts)
                     +:+ " (want RS256, ES256 or HS256)"))
  else
  active ← active_key opts alg;
  verification ← load_files (Split ","%char (op_VerificationKeyFiles opts));
  ks ← from_sum (NewKeySet (Some active.1) verification);
  mret (Some ks, active.2).

Definition ReleaseMode : string := "release".

(** What main does between opening the connections and serving: the keys,
    then the rest of the server. Logging the algorithm of a nil set panics. *)
Definition start `{UuidLib} `{AeadLib} (cfg : Config) (redis : bool) : prog Server :=
  loaded ← Load {|
    op_Alg := cfg_JWTSigningAlg cfg; op_SigningKeyFile := cfg_JWTSigningKeyFile cfg;
    op_VerificationKeyFiles := cfg_JWTVerificationKeyFiles cfg;
    op_HMACSecret := cfg_JWTSecret cfg;
    op_AllowEphemeral := cfg_GinMode cfg !=? ReleaseMode |};
  jwtKeys ← or_panic loaded.1;
  newServer cfg jwtKeys redis.
End Files.
