(* ===== verification/Schema.v ===== *)
(** What the schema promises: no two rows of a table have the same primary key
    or agree on a unique index. [steady I p]: each atomic step of the program
    [p] keeps the invariant [I] of the database, so that any interleaving of
    such programs does. *)
From S2P Require Import Prelude GoStd Models Effects Store Repos AccountRepos RbacRepos AuditRepo.
From S2P Require Import EmailRepos Redis Idempotency.

Open Scope Z_scope.

(** ** Tables without clashes *)

(** A unique index is symmetric, and rows keep it when they are stamped or
    deleted. *)
Class Indexed (R : Set) `{Row R} : Prop := {
  conflict_sym a b : row_conflict a b = row_conflict b a;
  conflict_touch now a b : row_conflict (row_touch now a) b = row_conflict a b;
  id_touched now a : row_id (row_touch now a) = row_id a;
  conflict_deleted now a b a' : row_delete now a = Some a' -> row_conflict a' b = true -> row_conflict a b = true;
  id_deleted now a a' : row_delete now a = Some a' -> row_id a' = row_id a
}.

Lemma eqb_sym {A} `{EqDecision A} (x y : A) : (x ==? y) = (y ==? x).
Proof. apply bool_decide_ext. naive_solver. Qed.

Ltac indexed :=
  constructor; intros; cbn in *; try reflexivity;
  try match goal with E : _ = Some _ |- _ => revert E; cbv [gone]; (discriminate || intros [= <-]; cbn in *) end;
  try reflexivity; try discriminate;
  repeat match goal with |- context [?a ==? ?b] =>
    match goal with |- context [b ==? a] => rewrite (eqb_sym a b) end end;
  try solve [ reflexivity
            | repeat match goal with |- context [is_none ?x] => destruct (is_none x) end;
              repeat match goal with |- context [bool_decide ?x] => destruct (bool_decide x) end; reflexivity ].

#[export] Instance indexed_Tenant : Indexed Tenant. Proof. indexed. Qed.
#[export] Instance indexed_User : Indexed User. Proof. indexed. Qed.
#[export] Instance indexed_Client : Indexed Client. Proof. indexed. Qed.
#[export] Instance indexed_AuthorizationCode : Indexed AuthorizationCode. Proof. indexed. Qed.
#[export] Instance indexed_AccessToken : Indexed AccessToken. Proof. indexed. Qed.
#[export] Instance indexed_RefreshToken : Indexed RefreshToken. Proof. indexed. Qed.
#[export] Instance indexed_DeviceCode : Indexed DeviceCode. Proof. indexed. Qed.
#[export] Instance indexed_Session : Indexed Session. Proof. indexed. Qed.
#[export] Instance indexed_Consent : Indexed Consent. Proof. indexed. Qed.
#[export] Instance indexed_UserMFA : Indexed UserMFA. Proof. indexed. Qed.
#[export] Instance indexed_MFARecoveryCode : Indexed MFARecoveryCode. Proof. indexed. Qed.
#[export] Instance indexed_InitialAccessToken : Indexed InitialAccessToken. Proof. indexed. Qed.
#[export] Instance indexed_EmailVerification : Indexed EmailVerification. Proof. indexed. Qed.
#[export] Instance indexed_PasswordReset : Indexed PasswordReset. Proof. indexed. Qed.
#[export] Instance indexed_Role : Indexed Role. Proof. indexed. Qed.
#[export] Instance indexed_Permission : Indexed Permission. Proof. indexed. Qed.
#[export] Instance indexed_UserRole : Indexed UserRole. Proof. indexed. Qed.
#[export] Instance indexed_RolePermission : Indexed RolePermission. Proof. indexed. Qed.
#[export] Instance indexed_IdempotencyKey : Indexed IdempotencyKey. Proof. indexed. Qed.
#[export] Instance indexed_AuditLog : Indexed AuditLog. Proof. indexed. Qed.
#[export] Instance indexed_EmailTemplate : Indexed EmailTemplate. Proof. indexed. Qed.
#[export] Instance indexed_EmailQueue : Indexed EmailQueue. Proof. indexed. Qed.

(** No two rows of the table clash. *)
Fixpoint distinct {R : Set} `{Row R} (l : list R) : Prop :=
  match l with
  | [] => True
  | r :: l => (forall r', r' ∈ l -> clashes r r' = false) /\ distinct l
  end.

#[local] Set Default Proof Using "Type*".
Section Distinct.
Context {R : Set} `{Row R} `{!Indexed R}.
Implicit Types (l : list R) (r : R).

Lemma clashes_sym r r' : clashes r r' = clashes r' r.
Proof. unfold clashes. by rewrite conflict_sym, eqb_sym. Qed.

Lemma distinct_app l r : distinct l -> (forall x, x ∈ l -> clashes r x = false) -> distinct (l ++ [r]).
Proof.
  induction l as [|x l IH]; simpl; [set_solver|]. intros [Hx Hl] Hr. split.
  - intros r' [Hr'| ->%list_elem_of_singleton]%elem_of_app; [by apply Hx|].
    rewrite clashes_sym. apply Hr. by left.
  - apply IH; [done|]. intros y Hy. apply Hr. by right.
Qed.

(** A map whose results clash only where the rows did. *)
Lemma distinct_omap (g : R -> option R) l :
  (forall a b a' b', a ∈ l -> b ∈ l -> g a = Some a' -> g b = Some b' ->
     clashes a' b' = true -> clashes a b = true) ->
  distinct l -> distinct (omap g l).
Proof.
  induction l as [|x l IH]; intros Hg; [done|]. intros [Hx Hl].
  assert (Hd : distinct (omap g l)) by (apply IH; [intros a b a' b' ? ?; apply Hg; by right|done]).
  simpl. destruct (g x) as [x'|] eqn:Ex; [|done]. split; [|done].
  intros r' (y & Hy & Ey)%list_elem_of_omap. destruct (clashes x' r') eqn:Ec; [|done].
  rewrite <-(Hx y Hy). symmetry. eapply Hg; try done; [by left|by right].
Qed.
Lemma distinct_map (g : R -> R) l :
  (forall a b, a ∈ l -> b ∈ l -> clashes (g a) (g b) = true -> clashes a b = true) ->
  distinct l -> distinct (map g l).
Proof.
  intros Hg Hl. assert (E : map g l = omap (fun r => Some (g r)) l) by (clear; induction l as [|x l IH]; [done|]; cbn [map]; by rewrite IH).
  rewrite E. apply distinct_omap; [|done]. intros a b a' b' Ha Hb [= <-] [= <-]. by apply Hg.
Qed.

Lemma distinct_insert now r l l' : insert_row now r l = Some l' -> distinct l -> distinct l'.
Proof. intros [-> Hc]%insert_row_Some Hl. by apply distinct_app. Qed.

Lemma distinct_insert_rows now l0 l l' : insert_rows now l0 l = Some l' -> distinct l -> distinct l'.
Proof.
  unfold insert_rows. revert l. induction l0 as [|r l0 IH]; intros l; simpl; [by intros [= ->]|].
  destruct (insert_row now r l) as [l1|] eqn:E.
  - intros Hf Hl. eapply IH; [exact Hf|]. by eapply distinct_insert.
  - intros Hf. exfalso. clear -Hf. induction l0; simpl in Hf; [done|auto].
Qed.

Lemma distinct_delete p now l : distinct l -> distinct (delete_where p now l).
Proof.
  apply distinct_omap. intros a b a' b' _ _ Ea Eb Hc.
  assert (Hleft : forall x y x', (if p x && row_live x then row_delete now x else Some x) = Some x' ->
    clashes x' y = true -> clashes x y = true).
  { intros x y x'. destruct (p x && row_live x); [|by intros [= ->]]. intros Hd. unfold clashes.
    rewrite (id_deleted _ _ _ Hd), !orb_true_iff. intros [Hx|Hx]; [by left|right].
    by eapply conflict_deleted. }
  eapply Hleft; [exact Ea|]. rewrite clashes_sym. eapply Hleft; [exact Eb|]. by rewrite clashes_sym.
Qed.

(** An update that leaves the keys alone. *)
Definition keeps_keys (f : R -> R) : Prop :=
  forall a b, row_id (f a) = row_id a /\ row_conflict (f a) b = row_conflict a b.
Lemma keeps_keys_clashes f a b : keeps_keys f -> clashes (f a) b = clashes a b.
Proof. intros Hf. unfold clashes. by destruct (Hf a b) as [-> ->]. Qed.
Lemma keeps_keys_touch f now : keeps_keys f -> keeps_keys (fun r => row_touch now (f r)).
Proof. intros Hf a b. destruct (Hf a b) as [<- <-]. split; [apply id_touched|apply conflict_touch]. Qed.
Lemma distinct_map_if (p : R -> bool) f l :
  keeps_keys f -> distinct l -> distinct (map (fun r => if p r then f r else r) l).
Proof.
  intros Hf. apply distinct_map. intros a b _ _.
  assert (Hl : forall x y, clashes (if p x then f x else x) y = clashes x y).
  { intros x y. destruct (p x); [by apply keeps_keys_clashes|done]. }
  by rewrite Hl, clashes_sym, Hl, clashes_sym.
Qed.
Lemma distinct_update p f l : keeps_keys f -> distinct l -> distinct (update_where p f l).1.
Proof. intros Hf. by apply (distinct_map_if (fun r => p r && row_live r)). Qed.

Lemma distinct_replace (q : R -> bool) r l :
  distinct l -> (forall a b, a ∈ l -> b ∈ l -> q a = true -> q b = true -> clashes a b = true) ->
  (forall a b, a ∈ l -> b ∈ l -> q a = true -> q b = false -> clashes r b = true -> clashes a b = true) ->
  distinct (map (fun x => if q x then r else x) l).
Proof.
  intros Hl Hqq Hq. revert Hl. apply distinct_map. intros a b Ha Hb.
  destruct (q a) eqn:Ea, (q b) eqn:Eb; [by intros _; apply Hqq|by apply Hq| |done].
  rewrite (clashes_sym a r), (clashes_sym a b). by apply Hq.
Qed.

Lemma distinct_save now r l l' : save_row now r l = Some l' -> distinct l -> distinct l'.
Proof.
  unfold save_row. set (r' := row_touch now r). destruct (existsb (fun x => _ && _) l) eqn:Ec; [done|].
  assert (Hc : forall x, x ∈ l -> row_id r' <> row_id x -> row_conflict r' x = false).
  { intros x Hx Hid. destruct (row_conflict r' x) eqn:E; [|done]. rewrite <-Ec. symmetry.
    apply existsb_exists. exists x. rewrite <-list_elem_of_In. by rewrite bool_decide_eq_false_2. }
  clear Ec. destruct (existsb _ l) eqn:Ei; intros [= <-] Hl.
  - apply distinct_replace; [done| |].
    + intros a b _ _ Ha Hb. bool_simp. unfold clashes. apply orb_true_iff. left.
      apply bool_decide_eq_true. congruence.
    + intros a b _ Hb Ha Hbq. bool_simp. unfold clashes. rewrite (Hc b Hb Hbq), orb_false_r.
      intros. by bool_simp.
  - apply distinct_app; [done|]. intros x Hx. unfold clashes.
    assert (Hid : row_id r' <> row_id x).
    { intros E. enough (existsb (fun x => row_id r' ==? row_id x) l = true) by congruence.
      apply existsb_exists. exists x. rewrite <-list_elem_of_In. by rewrite bool_decide_eq_true. }
    by rewrite (bool_decide_eq_false_2 _ Hid), (Hc x Hx Hid).
Qed.
End Distinct.

(** *** The statements that are not of a common form *)

Lemma distinct_upsert now c l l' : ConsentRepo.upsert now c l = Some l' -> distinct l -> distinct l'.
Proof.
  unfold ConsentRepo.upsert. destruct (existsb _ l); [|apply distinct_insert].
  intros [= <-]. by apply distinct_map_if.
Qed.

Lemma distinct_save_pending m l : distinct l -> distinct (MFARepo.save_pending m l).1.
Proof.
  unfold MFARepo.save_pending. destruct (existsb _ l) eqn:E; cbn [fst]; [by apply distinct_map_if|].
  intros Hl. apply distinct_app; [done|]. intros x Hx. unfold clashes. cbn. rewrite orb_false_r.
  destruct (_ ==? _) eqn:Ed; [|done]. rewrite <-E. symmetry. apply existsb_exists.
  exists x. rewrite <-list_elem_of_In, eqb_sym. done.
Qed.

Lemma ik_conflict_trans (a b c : IdempotencyKey) :
  row_conflict c a = true -> row_conflict c b = true -> row_conflict a b = true.
Proof. cbn. intros Ha Hb. bool_simp. by rewrite !bool_decide_eq_true_2 by congruence. Qed.

Lemma distinct_begin now stale r l l' n :
  IdempotencyRepo.begin_insert now stale r l = Some (l', n) -> distinct l -> distinct l'.
Proof.
  unfold IdempotencyRepo.begin_insert. destruct (existsb (row_conflict r) l) eqn:Ex.
  - destruct (_ && _) eqn:Eg; [done|]. intros [= <- _] Hl. apply distinct_replace; [done| |].
    + intros a b _ _ Ha Hb. apply andb_true_iff in Ha as [Ha _], Hb as [Hb _].
      unfold clashes. by rewrite (ik_conflict_trans a b r Ha Hb), orb_true_r.
    + intros a b Hla Hlb Ha Hb. unfold clashes. rewrite orb_true_iff. intros [Hid|Hc].
      * exfalso. enough (true = false) by done. rewrite <-Eg. symmetry. apply andb_true_iff.
        split; apply existsb_exists; [exists a|exists b]; rewrite <-list_elem_of_In; [done|].
        split; [done|]. apply andb_true_iff. split; [|by apply negb_true_iff].
        change (row_id r) with (ik_ID r) in Hid. by rewrite eqb_sym.
      * apply andb_true_iff in Ha as [Ha _]. by rewrite (ik_conflict_trans a b r Ha Hc), orb_true_r.
  - destruct (insert_row now r l) as [l1|] eqn:E; [|done]. intros [= <- _]. by eapply distinct_insert.
Qed.

(** ** The database *)

(** Every table is free of clashes. *)
Record consistent (db : DB) : Prop := {
  con_tenants : distinct (db_tenants db); con_users : distinct (db_users db);
  con_clients : distinct (db_clients db); con_authCodes : distinct (db_authCodes db);
  con_accessTokens : distinct (db_accessTokens db);
  con_refreshTokens : distinct (db_refreshTokens db);
  con_deviceCodes : distinct (db_deviceCodes db); con_sessions : distinct (db_sessions db);
  con_consents : distinct (db_consents db); con_mfa : distinct (db_mfa db);
  con_recoveryCodes : distinct (db_recoveryCodes db);
  con_initialAccess : distinct (db_initialAccess db);
  con_emailVerifications : distinct (db_emailVerifications db);
  con_passwordResets : distinct (db_passwordResets db); con_roles : distinct (db_roles db);
  con_permissions : distinct (db_permissions db); con_userRoles : distinct (db_userRoles db);
  con_rolePermissions : distinct (db_rolePermissions db);
  con_idempotency : distinct (db_idempotency db); con_auditLogs : distinct (db_auditLogs db);
  con_emailTemplates : distinct (db_emailTemplates db);
  con_emailQueue : distinct (db_emailQueue db)
}.

(** The invariant covers the table of [R]. *)
Class Covered (R : Set) `{Table R} `{Row R} : Prop := {
  covered db : consistent db -> distinct (rows db);
  covered_set db l : consistent db -> distinct l -> consistent (set_rows l db)
}.
Ltac covered := constructor; [intros ? []; assumption|intros ? ? [] ?; constructor; assumption].
#[export] Instance covered_Tenant : Covered Tenant. Proof. covered. Qed.
#[export] Instance covered_User : Covered User. Proof. covered. Qed.
#[export] Instance covered_Client : Covered Client. Proof. covered. Qed.
#[export] Instance covered_AuthorizationCode : Covered AuthorizationCode. Proof. covered. Qed.
#[export] Instance covered_AccessToken : Covered AccessToken. Proof. covered. Qed.
#[export] Instance covered_RefreshToken : Covered RefreshToken. Proof. covered. Qed.
#[export] Instance covered_DeviceCode : Covered DeviceCode. Proof. covered. Qed.
#[export] Instance covered_Session : Covered Session. Proof. covered. Qed.
#[export] Instance covered_Consent : Covered Consent. Proof. covered. Qed.
#[export] Instance covered_UserMFA : Covered UserMFA. Proof. covered. Qed.
#[export] Instance covered_MFARecoveryCode : Covered MFARecoveryCode. Proof. covered. Qed.
#[export] Instance covered_InitialAccessToken : Covered InitialAccessToken. Proof. covered. Qed.
#[export] Instance covered_EmailVerification : Covered EmailVerification. Proof. covered. Qed.
#[export] Instance covered_PasswordReset : Covered PasswordReset. Proof. covered. Qed.
#[export] Instance covered_Role : Covered Role. Proof. covered. Qed.
#[export] Instance covered_Permission : Covered Permission. Proof. covered. Qed.
#[export] Instance covered_UserRole : Covered UserRole. Proof. covered. Qed.
#[export] Instance covered_RolePermission : Covered RolePermission. Proof. covered. Qed.
#[export] Instance covered_IdempotencyKey : Covered IdempotencyKey. Proof. covered. Qed.
#[export] Instance covered_AuditLog : Covered AuditLog. Proof. covered. Qed.
#[export] Instance covered_EmailTemplate : Covered EmailTemplate. Proof. covered. Qed.
#[export] Instance covered_EmailQueue : Covered EmailQueue. Proof. covered. Qed.

(** ** Programs *)

Definition keeping (I : DB -> Prop) (w w' : World) : Prop := I (w_db w) -> I (w_db w').
Definition steady {A} (I : DB -> Prop) (p : prog A) : Prop := guar (keeping I) (fun _ => True) p.

Section Steady.
Context (I : DB -> Prop).

#[local] Instance keeping_preorder : PreOrder (keeping I).
Proof. split; unfold keeping; [by intros w|intros x y z; auto]. Qed.

Lemma steady_run {A} (p : prog A) w : steady I p -> I (w_db w) -> I (w_db (run p w).1).
Proof. intros Hp. exact (proj1 (guar_run _ p _ w Hp)). Qed.

Lemma steady_ret {A} (a : A) : steady I (mret a).
Proof. exact Logic.I. Qed.
Lemma steady_throw {A} e : steady I (throw e : prog A).
Proof. exact Logic.I. Qed.
Lemma steady_panic {A} : steady I (panic : prog A).
Proof. exact Logic.I. Qed.
Lemma steady_from_opt {A} e (o : option A) : steady I (from_opt e o).
Proof. by destruct o. Qed.
Lemma steady_or_panic {A} (o : option A) : steady I (or_panic o).
Proof. by destruct o. Qed.
Lemma steady_bind {A B} (p : prog A) (f : A -> prog B) :
  steady I p -> (forall a, steady I (f a)) -> steady I (p ≫= f).
Proof. intros Hp Hf. eapply guar_bind; [exact Hp|]. intros [a|e|] _; [apply Hf|done|done]. Qed.
Lemma steady_attempt {A} (p : prog A) : steady I p -> steady I (attempt p).
Proof. intros Hp. eapply guar_attempt, guar_mono; [exact Hp|]. by intros [a|e|]. Qed.
Lemma steady_catch {A} (p : prog A) : steady I p -> steady I (catch p).
Proof. unfold steady. induction p as [o|X act k IH]; [done|]. intros Hp w. destruct (Hp w). auto. Qed.
Lemma steady_map_err {A} g (p : prog A) : steady I p -> steady I (map_err g p).
Proof. intros Hp. apply steady_bind; [by apply steady_attempt|]. by intros []. Qed.
Lemma steady_ignore {A} (p : prog A) : steady I p -> steady I (ignore p).
Proof. intros Hp. apply steady_bind; [by apply steady_attempt|]. done. Qed.
Lemma steady_transaction {A : Set} (p : prog A) : steady I p -> steady I (Transaction p).
Proof.
  intros Hp w. split; [|done]. intros Hw. cbv zeta. pose proof (steady_run p w Hp Hw) as Hr.
  by destruct (run p w).2.
Qed.
(** A step that leaves the database alone. *)
Lemma steady_step {A} {X : Set} (act : World -> World * X) (k : X -> prog A) :
  (forall w, w_db (act w).1 = w_db w) -> (forall x, steady I (k x)) -> steady I (Step act k).
Proof. intros Ha Hk w. split; [|apply Hk]. intros Hw. by rewrite Ha. Qed.

Section Steps.
Context `{Env}.
Lemma steady_Now : steady I Now.
Proof. by apply steady_step. Qed.
Lemma steady_NewUUID : steady I NewUUID.
Proof. by apply steady_step. Qed.
Lemma steady_RandRead n : steady I (RandRead n).
Proof. apply steady_step; [done|]. intros x. apply steady_from_opt. Qed.
Lemma steady_RandInt n : steady I (RandInt n).
Proof. apply steady_step; [done|]. intros x. apply steady_from_opt. Qed.
Lemma steady_EmitEvent ev : steady I (EmitEvent ev).
Proof. by apply steady_step. Qed.
Lemma steady_WithSecrets {X : Set} f : steady I (WithSecrets (X := X) f).
Proof. by apply steady_step. Qed.
Lemma steady_WithDomains {X : Set} f : steady I (WithDomains (X := X) f).
Proof. by apply steady_step. Qed.
Lemma steady_Stmt {X : Set} (f : Z -> DB -> DB * X) :
  (forall now db, I db -> I (f now db).1) -> steady I (Stmt f).
Proof.
  intros Hf w. split; [|apply steady_from_opt]. intros Hw.
  destruct (env_fault _); [exact Hw|]. cbv zeta. by apply Hf.
Qed.
Lemma steady_read {X : Set} (g : Z -> DB -> X) : steady I (Stmt (fun now db => (db, g now db))).
Proof. by apply steady_Stmt. Qed.
End Steps.
End Steady.

(** PING reaches the redis server only. *)
Class PingQuiet `{RedisLib} : Prop := ping_quiet I : steady I redis_Ping.

(** ** The statements keep the schema *)

Section Statements.
Context `{Env} {R : Set} `{Table R} `{!Row R} `{!Indexed R} `{!Covered R}.

Lemma steady_write {X : Set} (f : Z -> list R -> option (list R * X)) :
  (forall now l l' x, f now l = Some (l', x) -> distinct l -> distinct l') -> steady consistent (write f).
Proof.
  intros Hf. apply steady_bind; [|intros; apply steady_from_opt]. apply steady_Stmt. intros now db Hdb.
  destruct (f now (rows db)) as [[l x]|] eqn:E; [|done]. apply covered_set; [done|].
  eapply Hf; [exact E|]. by apply covered.
Qed.
Lemma steady_Insert (r : R) : steady consistent (Insert r).
Proof.
  apply steady_write. intros now l l' x. destruct (insert_row now r l) eqn:E; [|done].
  intros [= <- _]. by eapply distinct_insert.
Qed.
Lemma steady_InsertAll (l0 : list R) : steady consistent (InsertAll l0).
Proof.
  apply steady_write. intros now l l' x. destruct (insert_rows now l0 l) eqn:E; [|done].
  intros [= <- _]. by eapply distinct_insert_rows.
Qed.
Lemma steady_Save (r : R) : steady consistent (Save r).
Proof.
  apply steady_write. intros now l l' x. destruct (save_row now r l) eqn:E; [|done].
  intros [= <- _]. by eapply distinct_save.
Qed.
Lemma steady_UpdateRaw p (f : R -> R) : keeps_keys f -> steady consistent (UpdateRaw p f).
Proof.
  intros Hf. apply steady_Stmt. intros now db Hdb. cbv zeta. apply covered_set; [done|].
  apply distinct_update; [done|by apply covered].
Qed.
Lemma steady_UpdateWhere p (f : R -> R) : keeps_keys f -> steady consistent (UpdateWhere p f).
Proof.
  intros Hf. apply steady_Stmt. intros now db Hdb. cbv zeta. apply covered_set; [done|].
  apply distinct_update; [by apply keeps_keys_touch|by apply covered].
Qed.
Lemma steady_DeleteWhere (p : R -> bool) : steady consistent (DeleteWhere p).
Proof.
  apply steady_Stmt. intros now db Hdb. apply covered_set; [done|]. by apply distinct_delete, covered.
Qed.
Lemma steady_get_by msg nf (p : R -> bool) : steady consistent (get_by msg nf p).
Proof. apply steady_bind; [apply steady_map_err, steady_read|]. intros. apply steady_from_opt. Qed.
End Statements.

Section Special.
Context `{Env}.
Lemma steady_Upsert c : steady consistent (ConsentRepo.Upsert c).
Proof.
  apply steady_map_err, steady_write. intros now l l' x.
  destruct (ConsentRepo.upsert now c l) eqn:E; [|done]. intros [= <- _]. by eapply distinct_upsert.
Qed.
Lemma steady_save_pending m :
  steady consistent (Stmt (fun _ db => let r := MFARepo.save_pending m (rows db) in (set_rows r.1 db, r.2))).
Proof.
  apply steady_Stmt. intros _ db Hdb. cbv zeta. apply covered_set; [done|].
  by apply distinct_save_pending, covered.
Qed.
Lemma steady_begin now stale r :
  steady consistent (Stmt (fun _ db => match IdempotencyRepo.begin_insert now stale r (rows db) with
                                       | Some (l, n) => (set_rows l db, Some n)
                                       | None => (db, None)
                                       end)).
Proof.
  apply steady_Stmt. intros _ db Hdb. destruct (IdempotencyRepo.begin_insert _ _ _ _) as [[l n]|] eqn:E; [|done].
  apply covered_set; [done|]. eapply distinct_begin; [exact E|by apply covered].
Qed.
Lemma steady_claim now limit :
  steady consistent (Stmt (fun _ db => let r := EmailQueueRepo.claim_due now limit (rows db) in
                                       (set_rows r.1 db, r.2))).
Proof.
  apply steady_Stmt. intros _ db Hdb. cbv zeta. apply covered_set; [done|].
  apply distinct_update; [done|by apply covered].
Qed.
End Special.

(** ** Automation *)

Create HintDb steady discriminated.
#[export] Hint Constants Opaque : steady.
#[export] Hint Resolve steady_ret steady_throw steady_panic steady_from_opt steady_or_panic steady_Now
  steady_NewUUID steady_RandRead steady_RandInt steady_EmitEvent steady_WithSecrets
  steady_WithDomains steady_Upsert steady_save_pending steady_begin steady_claim : steady.

Ltac keeps_keys := let a := fresh in intros a ?; split; reflexivity.
Ltac program_head p := match p with ?f _ => program_head f | _ => p end.
Ltac steady_step :=
  lazymatch goal with
  | |- steady _ (mbind _ _) => apply steady_bind; [|intros ?; cbv beta]
  | |- steady _ (attempt _) => apply steady_attempt
  | |- steady _ (catch _) => apply steady_catch
  | |- steady _ (wrap _ _) => apply steady_map_err
  | |- steady _ (or_err _ _) => apply steady_map_err
  | |- steady _ (map_err _ _) => apply steady_map_err
  | |- steady _ (ignore _) => apply steady_ignore
  | |- steady _ (Transaction _) => apply steady_transaction
  | |- steady _ (UpdateWhere _ _) => refine (steady_UpdateWhere _ _ _); keeps_keys
  | |- steady _ (UpdateRaw _ _) => refine (steady_UpdateRaw _ _ _); keeps_keys
  | |- steady _ (Insert _) => refine (steady_Insert _)
  | |- steady _ (InsertAll _) => refine (steady_InsertAll _)
  | |- steady _ (Save _) => refine (steady_Save _)
  | |- steady _ (DeleteWhere _) => refine (steady_DeleteWhere _)
  | |- steady _ (get_by _ _ _) => refine (steady_get_by _ _ _)
  | |- steady _ (First _) => apply steady_read
  | |- steady _ (Find _) => apply steady_read
  | |- steady _ (Count _) => apply steady_read
  | |- steady _ (FindPage _ _ _ _) => apply steady_read
  | |- steady _ (Stmt (fun _ db => (db, _))) => apply steady_read
  | |- steady ?I (let x := ?v in @?body x) =>
    change (steady I (body v)); cbv beta
  | |- steady _ (match Some _ with _ => _ end) => cbv iota beta
  | |- steady _ (match ?b with _ => _ end) => destruct b
  | |- steady _ ?p =>
    first [ assumption
          | solve [eauto with steady nocore]
          | let h := program_head p in progress cbv delta [h]; cbv beta ]
  end.
Ltac steady := repeat steady_step.
