(* ===== verification/Isolation.v ===== *)
(** Whose rows an operation writes. [iso t F Q p]: started with [F] as the
    rows that are not the tenant [t]'s, [p] ends with the same [F], and a value
    it returns satisfies [Q]. *)
From S2P Require Import Prelude GoStd Models Effects Store Repos AccountRepos RbacRepos AuditRepo.
From S2P Require Import EmailRepos Libraries Http Idempotency.

Open Scope Z_scope.

(** ** Ownership *)

(** [owned t F r]: the row is the tenant [t]'s, where [F] is the part of the
    database that is not. Bookkeeping of a statement changes neither the owner
    nor the primary key. *)
Class Scoped (R : Set) `{Row R} := {
  owned : uuid -> DB -> R -> bool;
  owned_stamp t F now r : owned t F (row_stamp now r) = owned t F r;
  owned_touch t F now r : owned t F (row_touch now r) = owned t F r;
  owned_delete t F now r r' : row_delete now r = Some r' -> owned t F r' = owned t F r;
  id_stamp now r : row_id (row_stamp now r) = row_id r;
  id_touch now r : row_id (row_touch now r) = row_id r;
  id_delete now r r' : row_delete now r = Some r' -> row_id r' = row_id r
}.

Ltac scoped by_owner :=
  refine {| owned := by_owner |}; intros; cbn in *;
  try reflexivity; match goal with E : _ = Some _ |- _ => revert E end;
  cbv [gone]; (discriminate || (intros [= <-]; reflexivity)).

#[export] Instance scoped_User : Scoped User := ltac:(scoped (fun t (_ : DB) r => us_TenantID r ==? t)).
#[export] Instance scoped_Client : Scoped Client := ltac:(scoped (fun t (_ : DB) r => cl_TenantID r ==? t)).
#[export] Instance scoped_AuthorizationCode : Scoped AuthorizationCode :=
  ltac:(scoped (fun t (_ : DB) r => ac_TenantID r ==? t)).
#[export] Instance scoped_AccessToken : Scoped AccessToken :=
  ltac:(scoped (fun t (_ : DB) r => at_TenantID r ==? t)).
#[export] Instance scoped_RefreshToken : Scoped RefreshToken :=
  ltac:(scoped (fun t (_ : DB) r => rt_TenantID r ==? t)).
#[export] Instance scoped_DeviceCode : Scoped DeviceCode :=
  ltac:(scoped (fun t (_ : DB) r => dc_TenantID r ==? t)).
#[export] Instance scoped_Session : Scoped Session := ltac:(scoped (fun t (_ : DB) r => ss_TenantID r ==? t)).
#[export] Instance scoped_Consent : Scoped Consent := ltac:(scoped (fun t (_ : DB) r => cs_TenantID r ==? t)).
#[export] Instance scoped_UserMFA : Scoped UserMFA := ltac:(scoped (fun t (_ : DB) r => mf_TenantID r ==? t)).
#[export] Instance scoped_MFARecoveryCode : Scoped MFARecoveryCode :=
  ltac:(scoped (fun t (_ : DB) r => rc_TenantID r ==? t)).
#[export] Instance scoped_InitialAccessToken : Scoped InitialAccessToken :=
  ltac:(scoped (fun t (_ : DB) r => ia_TenantID r ==? t)).
#[export] Instance scoped_EmailVerification : Scoped EmailVerification :=
  ltac:(scoped (fun t (_ : DB) r => ev_TenantID r ==? t)).
#[export] Instance scoped_PasswordReset : Scoped PasswordReset :=
  ltac:(scoped (fun t (_ : DB) r => pr_TenantID r ==? t)).
#[export] Instance scoped_Role : Scoped Role := ltac:(scoped (fun t (_ : DB) r => ro_TenantID r ==? t)).
#[export] Instance scoped_UserRole : Scoped UserRole := ltac:(scoped (fun t (_ : DB) r => ur_TenantID r ==? t)).
#[export] Instance scoped_IdempotencyKey : Scoped IdempotencyKey :=
  ltac:(scoped (fun t (_ : DB) r => ik_TenantID r ==? t)).
#[export] Instance scoped_AuditLog : Scoped AuditLog := ltac:(scoped (fun t (_ : DB) r => al_TenantID r ==? t)).
#[export] Instance scoped_EmailTemplate : Scoped EmailTemplate :=
  ltac:(scoped (fun t (_ : DB) r => et_TenantID r ==? t)).
#[export] Instance scoped_EmailQueue : Scoped EmailQueue :=
  ltac:(scoped (fun t (_ : DB) r => eq_TenantID r ==? t)).
(** A grant belongs to the tenant of its role, and to everybody else when the
    role is another tenant's. Tenants and permissions are nobody's. *)
#[export] Instance scoped_RolePermission : Scoped RolePermission :=
  ltac:(scoped (fun (t : uuid) F r => negb (bool_decide (rp_RoleID r ∈ map ro_ID (db_roles F))))).
#[export] Instance scoped_Tenant : Scoped Tenant := ltac:(scoped (fun (_ : uuid) (_ : DB) (_ : Tenant) => false)).
#[export] Instance scoped_Permission : Scoped Permission :=
  ltac:(scoped (fun (_ : uuid) (_ : DB) (_ : Permission) => false)).

Definition foreign {R : Set} `{Row R} `{!Scoped R} (t : uuid) (F : DB) (l : list R) : list R :=
  List.filter (fun r => negb (owned t F r)) l.

(** Everything in a database that is not the tenant's. *)
Definition elsewhere (t : uuid) (db : DB) : DB :=
  let F := db <| db_roles := foreign t db (db_roles db) |> in
  {| db_tenants := foreign t F (db_tenants F); db_users := foreign t F (db_users F);
     db_clients := foreign t F (db_clients F); db_authCodes := foreign t F (db_authCodes F);
     db_accessTokens := foreign t F (db_accessTokens F);
     db_refreshTokens := foreign t F (db_refreshTokens F);
     db_deviceCodes := foreign t F (db_deviceCodes F); db_sessions := foreign t F (db_sessions F);
     db_consents := foreign t F (db_consents F); db_mfa := foreign t F (db_mfa F);
     db_recoveryCodes := foreign t F (db_recoveryCodes F);
     db_initialAccess := foreign t F (db_initialAccess F);
     db_emailVerifications := foreign t F (db_emailVerifications F);
     db_passwordResets := foreign t F (db_passwordResets F); db_roles := db_roles F;
     db_permissions := foreign t F (db_permissions F); db_userRoles := foreign t F (db_userRoles F);
     db_rolePermissions := foreign t F (db_rolePermissions F);
     db_idempotency := foreign t F (db_idempotency F); db_auditLogs := foreign t F (db_auditLogs F);
     db_emailTemplates := foreign t F (db_emailTemplates F);
     db_emailQueue := foreign t F (db_emailQueue F) |}.

(** ** The invariant *)

(** A table holds the foreign rows of [F], in order, and no row of the tenant
    has the primary key of one of them. *)
Definition apart {R : Set} `{Table R} `{Row R} `{!Scoped R} (t : uuid) (F : DB) (l : list R) : Prop :=
  foreign t F l = rows F /\
  forall r, r ∈ l -> owned t F r = true -> row_id r ∉ map row_id (rows F).

Record Isolated (t : uuid) (F : DB) (db : DB) : Prop := {
  iso_tenants : apart t F (db_tenants db); iso_users : apart t F (db_users db);
  iso_clients : apart t F (db_clients db); iso_authCodes : apart t F (db_authCodes db);
  iso_accessTokens : apart t F (db_accessTokens db);
  iso_refreshTokens : apart t F (db_refreshTokens db);
  iso_deviceCodes : apart t F (db_deviceCodes db); iso_sessions : apart t F (db_sessions db);
  iso_consents : apart t F (db_consents db); iso_mfa : apart t F (db_mfa db);
  iso_recoveryCodes : apart t F (db_recoveryCodes db);
  iso_initialAccess : apart t F (db_initialAccess db);
  iso_emailVerifications : apart t F (db_emailVerifications db);
  iso_passwordResets : apart t F (db_passwordResets db); iso_roles : apart t F (db_roles db);
  iso_permissions : apart t F (db_permissions db); iso_userRoles : apart t F (db_userRoles db);
  iso_rolePermissions : apart t F (db_rolePermissions db);
  iso_idempotency : apart t F (db_idempotency db); iso_auditLogs : apart t F (db_auditLogs db);
  iso_emailTemplates : apart t F (db_emailTemplates db);
  iso_emailQueue : apart t F (db_emailQueue db)
}.

(** The invariant covers the table of [R]. *)
Class Tracked (R : Set) `{Table R} `{Row R} `{!Scoped R} : Prop := {
  tracked t F db : Isolated t F db -> apart t F (rows db);
  tracked_set t F db l : Isolated t F db -> apart t F l -> Isolated t F (set_rows l db)
}.
Ltac tracked_tac :=
  constructor; [intros ? ? ? []; cbn; assumption|intros ? ? ? ? [] ?; constructor; assumption].
#[export] Instance tracked_User : Tracked User.
Proof. tracked_tac. Qed.
#[export] Instance tracked_Client : Tracked Client.
Proof. tracked_tac. Qed.
#[export] Instance tracked_AuthorizationCode : Tracked AuthorizationCode.
Proof. tracked_tac. Qed.
#[export] Instance tracked_AccessToken : Tracked AccessToken.
Proof. tracked_tac. Qed.
#[export] Instance tracked_RefreshToken : Tracked RefreshToken.
Proof. tracked_tac. Qed.
#[export] Instance tracked_DeviceCode : Tracked DeviceCode.
Proof. tracked_tac. Qed.
#[export] Instance tracked_Session : Tracked Session.
Proof. tracked_tac. Qed.
#[export] Instance tracked_Consent : Tracked Consent.
Proof. tracked_tac. Qed.
#[export] Instance tracked_UserMFA : Tracked UserMFA.
Proof. tracked_tac. Qed.
#[export] Instance tracked_MFARecoveryCode : Tracked MFARecoveryCode.
Proof. tracked_tac. Qed.
#[export] Instance tracked_InitialAccessToken : Tracked InitialAccessToken.
Proof. tracked_tac. Qed.
#[export] Instance tracked_EmailVerification : Tracked EmailVerification.
Proof. tracked_tac. Qed.
#[export] Instance tracked_PasswordReset : Tracked PasswordReset.
Proof. tracked_tac. Qed.
#[export] Instance tracked_Role : Tracked Role.
Proof. tracked_tac. Qed.
#[export] Instance tracked_UserRole : Tracked UserRole.
Proof. tracked_tac. Qed.
#[export] Instance tracked_IdempotencyKey : Tracked IdempotencyKey.
Proof. tracked_tac. Qed.
#[export] Instance tracked_AuditLog : Tracked AuditLog.
Proof. tracked_tac. Qed.
#[export] Instance tracked_EmailTemplate : Tracked EmailTemplate.
Proof. tracked_tac. Qed.
#[export] Instance tracked_EmailQueue : Tracked EmailQueue.
Proof. tracked_tac. Qed.
#[export] Instance tracked_RolePermission : Tracked RolePermission.
Proof. tracked_tac. Qed.
#[export] Instance tracked_Tenant : Tracked Tenant.
Proof. tracked_tac. Qed.
#[export] Instance tracked_Permission : Tracked Permission.
Proof. tracked_tac. Qed.

(** Primary keys tell the rows of every table apart. *)
Definition keys {R : Set} `{Row R} (l : list R) : Prop := NoDup (map row_id l).
Record primary_keys (db : DB) : Prop := {
  key_tenants : keys (db_tenants db); key_users : keys (db_users db);
  key_clients : keys (db_clients db); key_authCodes : keys (db_authCodes db);
  key_accessTokens : keys (db_accessTokens db); key_refreshTokens : keys (db_refreshTokens db);
  key_deviceCodes : keys (db_deviceCodes db); key_sessions : keys (db_sessions db);
  key_consents : keys (db_consents db); key_mfa : keys (db_mfa db);
  key_recoveryCodes : keys (db_recoveryCodes db); key_initialAccess : keys (db_initialAccess db);
  key_emailVerifications : keys (db_emailVerifications db);
  key_passwordResets : keys (db_passwordResets db); key_roles : keys (db_roles db);
  key_permissions : keys (db_permissions db); key_userRoles : keys (db_userRoles db);
  key_rolePermissions : keys (db_rolePermissions db); key_idempotency : keys (db_idempotency db);
  key_auditLogs : keys (db_auditLogs db); key_emailTemplates : keys (db_emailTemplates db);
  key_emailQueue : keys (db_emailQueue db)
}.

Section Lists.
Context {R : Set} `{Row R} `{!Scoped R} (t : uuid) (F : DB).
Implicit Types (l : list R) (r : R).

Lemma elem_of_foreign l r : r ∈ foreign t F l <-> r ∈ l /\ owned t F r = false.
Proof.
  unfold foreign. rewrite list_elem_of_In, List.filter_In, <-list_elem_of_In, negb_true_iff. done.
Qed.
Lemma foreign_app l l' : foreign t F (l ++ l') = foreign t F l ++ foreign t F l'.
Proof. apply List.filter_app. Qed.

(** A map that turns owned rows into owned rows and leaves the rest alone. *)
Lemma foreign_map (g : R -> R) l :
  (forall r, r ∈ l -> owned t F r = false -> g r = r) ->
  (forall r, r ∈ l -> owned t F r = true -> owned t F (g r) = true) ->
  foreign t F (map g l) = foreign t F l.
Proof.
  unfold foreign. induction l as [|x l IH]; intros Hf Ho; [done|]. simpl.
  rewrite IH by (intros; (apply Hf || apply Ho); set_solver).
  destruct (owned t F x) eqn:E.
  - by rewrite (Ho x) by set_solver.
  - by rewrite (Hf x) by set_solver; rewrite E.
Qed.
Lemma foreign_omap (g : R -> option R) l :
  (forall r, r ∈ l -> owned t F r = false -> g r = Some r) ->
  (forall r r', r ∈ l -> owned t F r = true -> g r = Some r' -> owned t F r' = true) ->
  foreign t F (omap g l) = foreign t F l.
Proof.
  unfold foreign. induction l as [|x l IH]; intros Hf Ho; [done|]. simpl.
  rewrite <-IH by (intros; (apply Hf || eapply Ho); set_solver).
  destruct (owned t F x) eqn:E.
  - destruct (g x) as [x'|] eqn:Eg; [|done]. simpl. by rewrite (Ho x x') by set_solver.
  - rewrite (Hf x) by set_solver. simpl. by rewrite E.
Qed.
Lemma foreign_foreign l : foreign t F (foreign t F l) = foreign t F l.
Proof.
  unfold foreign. induction l as [|x l IH]; [done|]. simpl.
  destruct (owned t F x) eqn:E; simpl; [done|]. by rewrite E, IH.
Qed.

Lemma keys_apart `{!Table R} l : keys l -> rows F = foreign t F l -> apart t F l.
Proof.
  intros Hk HF. split; [done|]. rewrite HF. intros r Hr Ho (r' & Hid & Hr')%list_elem_of_fmap.
  apply elem_of_foreign in Hr' as [Hr' Ho'].
  enough (r = r') by congruence. clear HF Ho Ho'. unfold keys in Hk.
  induction l as [|x l IH]; [set_solver|]. simpl in Hk. inversion_clear Hk as [|? ? Hx Hk'].
  rename Hk' into Hk.
  assert (forall y, y ∈ l -> row_id y ∈ map row_id l) as Hin by (intros; by apply list_elem_of_fmap_2).
  rewrite elem_of_cons in Hr, Hr'.
  destruct Hr as [->|Hr], Hr' as [->|Hr']; [done| | |by apply IH].
  - destruct Hx. rewrite Hid. by apply Hin.
  - destruct Hx. rewrite <-Hid. by apply Hin.
Qed.
End Lists.

Lemma elsewhere_isolated t db : primary_keys db -> Isolated t (elsewhere t db) db.
Proof. intros []. constructor; (apply keys_apart; [assumption|reflexivity]). Qed.

Lemma isolated_elsewhere t F db : Isolated t F db -> elsewhere t db = F.
Proof.
  intros []. repeat match goal with Ha : apart _ _ _ |- _ => destruct Ha as [? _] end.
  assert (Hroles : foreign t db (db_roles db) = db_roles F) by assumption.
  unfold elsewhere. rewrite Hroles. destruct F. f_equal; assumption.
Qed.

(** ** Programs *)

Definition anything {A} (_ : A) : Prop := True.
(** What holds of a value when [Q] does unless it is an error. *)
Definition unless_error {A} (Q : A -> Prop) (r : A + error) : Prop :=
  match r with inl a => Q a | inr _ => True end.

Section Iso.
Context (t : uuid) (F : DB).

Definition iso {A} (Q : A -> Prop) (p : prog A) : Prop :=
  forall w w' o, Isolated t F (w_db w) -> run p w = (w', o) ->
    Isolated t F (w_db w') /\ match o with Ok a => Q a | _ => True end.

(** A row of the tenant, whose primary key no foreign row has. *)
Definition mine {R : Set} `{Table R} `{Row R} `{!Scoped R} (r : R) : Prop :=
  owned t F r = true /\ row_id r ∉ map row_id (rows F).
(** A condition that selects no foreign row. *)
Definition misses {R : Set} `{Table R} `{Row R} `{!Scoped R} (p : R -> bool) : Prop :=
  forall r, r ∈ rows F -> owned t F r = false -> p r = false.

Section Programs.
Context {A : Type}.
Implicit Types (p : prog A) (Q : A -> Prop).

Lemma iso_mono P Q p : iso P p -> (forall a, P a -> Q a) -> iso Q p.
Proof. intros Hp HPQ w w' o Hw E. destruct (Hp _ _ _ Hw E) as [? Ho]. destruct o; auto. Qed.
Lemma iso_any Q p : iso Q p -> iso anything p.
Proof. intros Hp. by eapply iso_mono. Qed.
Lemma iso_ret Q a : Q a -> iso Q (mret a).
Proof. by intros Ha w w' o Hw [= <- <-]. Qed.
Lemma iso_throw Q e : iso Q (throw e).
Proof. by intros w w' o Hw [= <- <-]. Qed.
Lemma iso_panic Q : iso Q panic.
Proof. by intros w w' o Hw [= <- <-]. Qed.
Lemma iso_from_opt e o : iso (fun a => o = Some a) (from_opt e o : prog A).
Proof. destruct o; [by apply iso_ret|apply iso_throw]. Qed.
Lemma iso_or_panic (o : option A) : iso (fun a => o = Some a) (or_panic o).
Proof. destruct o; [by apply iso_ret|apply iso_panic]. Qed.
Lemma iso_from_sum (r : A + error) : iso (fun a => r = inl a) (from_sum r).
Proof. destruct r; [by apply iso_ret|apply iso_throw]. Qed.
Lemma iso_bind {B} (P : B -> Prop) Q (q : prog B) (f : B -> prog A) :
  iso P q -> (forall b, P b -> iso Q (f b)) -> iso Q (q ≫= f).
Proof.
  intros Hq Hf w w' o Hw. rewrite run_bind. destruct (run q w) as [w1 o1] eqn:E.
  destruct (Hq _ _ _ Hw E) as [Hw1 Ho]. destruct o1 as [b|e|]; [by apply Hf|by intros [= <- <-]..].
Qed.
Lemma iso_attempt Q p : iso Q p -> iso (unless_error Q) (attempt p).
Proof.
  intros Hp w w' o Hw. rewrite run_attempt. destruct (run p w) as [w1 o1] eqn:E.
  destruct (Hp _ _ _ Hw E) as [Hw1 Ho]. by destruct o1; intros [= <- <-].
Qed.
Lemma iso_map_err Q g p : iso Q p -> iso Q (map_err g p).
Proof.
  intros Hp w w' o Hw. rewrite run_map_err. destruct (run p w) as [w1 o1] eqn:E.
  destruct (Hp _ _ _ Hw E) as [Hw1 Ho]. by destruct o1; intros [= <- <-].
Qed.
Lemma iso_ignore Q p : iso Q p -> iso anything (ignore p).
Proof.
  intros Hp w w' o Hw. rewrite run_ignore. destruct (run p w) as [w1 o1] eqn:E.
  destruct (Hp _ _ _ Hw E) as [Hw1 Ho]. by destruct o1; intros [= <- <-].
Qed.
Lemma iso_step {Y : Set} Q (act : World -> World * Y) (k : Y -> prog A) :
  (forall w, w_db (act w).1 = w_db w) -> (forall y, iso Q (k y)) -> iso Q (Step act k).
Proof.
  intros Ha Hk w w' o Hw E. unfold run in E; fold (@run A) in E. eapply Hk, E. by rewrite Ha.
Qed.
Lemma iso_catch p : iso anything p -> iso anything (catch p).
Proof.
  intros Hp w w' o Hw E. destruct (run p w) as [w1 o1] eqn:Ep.
  destruct (Hp _ _ _ Hw Ep) as [Hw1 _].
  enough (run (catch p) w = (w1, Ok o1)) as Ec by (rewrite Ec in E; by injection E as <- <-).
  clear -Ep. revert w Ep. induction p as [o'|X act k IH]; intros w; simpl.
  - by intros [= <- <-].
  - intros Ep. by apply IH.
Qed.
End Programs.

Lemma iso_transaction {A : Set} (Q : A -> Prop) (p : prog A) : iso Q p -> iso Q (Transaction p).
Proof.
  intros Hp w w' o Hw. rewrite run_transaction. destruct (run p w) as [w1 o1] eqn:E.
  destruct (Hp _ _ _ Hw E) as [Hw1 Ho]. by destruct o1; intros [= <- <-].
Qed.

Section Steps.
Context `{Env}.
Lemma iso_Now : iso anything Now.
Proof. apply iso_step; [done|]. intros. by apply iso_ret. Qed.
Lemma iso_NewUUID : iso anything NewUUID.
Proof. apply iso_step; [done|]. intros. by apply iso_ret. Qed.
Lemma iso_RandRead n : iso anything (RandRead n).
Proof. apply iso_step; [done|]. intros []; [by apply iso_ret|apply iso_throw]. Qed.
Lemma iso_RandInt n : iso anything (RandInt n).
Proof. apply iso_step; [done|]. intros []; [by apply iso_ret|apply iso_throw]. Qed.
Lemma iso_EmitEvent ev : iso anything (EmitEvent ev).
Proof. apply iso_step; [done|]. intros. by apply iso_ret. Qed.
Lemma iso_WithRandom {X : Set} f : iso anything (WithRandom (A := X) f).
Proof. apply iso_step; [done|]. intros. by apply iso_ret. Qed.
Lemma iso_WithSecrets {X : Set} f : iso anything (WithSecrets (X := X) f).
Proof. apply iso_step; [by intros w; destruct (f _)|]. intros. by apply iso_ret. Qed.
Lemma iso_WithDomains {X : Set} f : iso anything (WithDomains (X := X) f).
Proof. apply iso_step; [by intros w; destruct (f _)|]. intros. by apply iso_ret. Qed.

(** A statement, by what it does to the database. *)
Lemma iso_Stmt {X : Set} (Q : X -> Prop) (f : Z -> DB -> DB * X) :
  (forall now db, Isolated t F db -> Isolated t F (f now db).1 /\ Q (f now db).2) ->
  iso Q (Stmt f).
Proof.
  intros Hf w w' o Hw. rewrite run_Stmt. destruct (env_fault _); [by intros [= <- <-]|].
  specialize (Hf (env_now (w_step w)) _ Hw). cbv zeta. by intros [= <- <-].
Qed.

Section Table.
Context {R : Set} `{Table R} `{!Row R} `{!Scoped R} `{!Tracked R}.
Implicit Types (p : R -> bool) (r : R).

Lemma apart_mine l r : apart t F l -> r ∈ l -> owned t F r = true -> mine r.
Proof. intros [_ Hl] Hr Ho. split; [done|by apply Hl]. Qed.
Lemma apart_foreign l r : apart t F l -> r ∈ l -> owned t F r = false -> r ∈ rows F.
Proof. intros [Hl _] Hr Ho. rewrite <-Hl. by apply elem_of_foreign. Qed.
(** A condition that misses the foreign rows selects rows of the tenant. *)
Lemma selected_mine l p r : apart t F l -> misses p -> r ∈ l -> p r = true -> mine r.
Proof.
  intros Hl Hp Hr Hpr. destruct (owned t F r) eqn:Ho; [by eapply apart_mine|].
  rewrite (Hp r) in Hpr; [done|by eapply apart_foreign|done].
Qed.


Lemma iso_First p : misses p ->
  iso (fun o => forall r, o = Some r -> mine r /\ p r = true) (First p).
Proof using Type*.
  intros Hp. apply iso_Stmt. intros now db Hdb. split; [done|]. cbn [snd].
  intros r (Hr & Hpr & _)%first_where_Some. split; [|done].
  eapply selected_mine; eauto using tracked.
Qed.
Lemma iso_get_by msg nf p : misses p -> iso (fun r => mine r /\ p r = true) (get_by msg nf p).
Proof using Type*.
  intros Hp. eapply iso_bind; [apply iso_map_err, iso_First, Hp|]. intros o Ho. cbv beta in Ho.
  eapply iso_mono; [apply iso_from_opt|]. cbv beta. auto.
Qed.
(** Reading anything. *)
Lemma iso_read {X : Set} (g : Z -> DB -> X) : iso anything (Stmt (fun now db => (db, g now db))).
Proof. by apply iso_Stmt. Qed.
Lemma iso_get_any msg nf p : iso (fun r => p r = true) (get_by msg nf p).
Proof.
  eapply iso_bind; [apply iso_map_err, (iso_Stmt (fun o => forall r, o = Some r -> p r = true))|].
  - intros now db Hdb. split; [done|]. cbn [snd]. by intros r (_ & ? & _)%first_where_Some.
  - intros o Ho. eapply iso_mono; [apply iso_from_opt|]. cbv beta in *. auto.
Qed.
Lemma iso_Find p : misses p -> iso (fun l => forall r, r ∈ l -> mine r) (Find p).
Proof using Type*.
  intros Hp. apply iso_Stmt. intros now db Hdb. split; [done|]. cbn [snd].
  intros r (Hr & Hpr & _)%elem_of_select_where. eapply selected_mine; eauto using tracked.
Qed.

(** *** Writes *)

Lemma apart_app l r :
  apart t F l -> owned t F r = true -> row_id r ∉ map row_id l -> apart t F (l ++ [r]).
Proof.
  intros [Hl Ha] Ho Hid. split.
  - rewrite foreign_app, Hl. unfold foreign. simpl. by rewrite Ho, app_nil_r.
  - intros r' Hr' Ho'. rewrite elem_of_app, list_elem_of_singleton in Hr'.
    destruct Hr' as [Hr'| ->]; [by apply Ha|].
    intros (x & Hx & Hin)%list_elem_of_fmap. apply Hid. rewrite Hx. apply list_elem_of_fmap_2.
    rewrite <-Hl in Hin. by apply elem_of_foreign in Hin as [? _].
Qed.
Lemma apart_map l (g : R -> R) :
  apart t F l -> (forall r, r ∈ l -> owned t F r = false -> g r = r) ->
  (forall r, r ∈ l -> mine r -> mine (g r)) -> apart t F (map g l).
Proof.
  intros Hl Hf Hm. assert (Ho : forall r, r ∈ l -> owned t F r = true -> mine (g r)).
  { intros r Hr Ho. apply Hm; [done|]. by eapply apart_mine. }
  split.
  - rewrite foreign_map; [apply Hl|done|]. intros r Hr Hor. by apply Ho.
  - intros x (r & -> & Hr)%list_elem_of_fmap Hox. destruct (owned t F r) eqn:E; [by apply Ho|].
    rewrite (Hf r Hr E) in Hox. congruence.
Qed.
Lemma apart_omap l (g : R -> option R) :
  apart t F l -> (forall r, r ∈ l -> owned t F r = false -> g r = Some r) ->
  (forall r r', r ∈ l -> mine r -> g r = Some r' -> mine r') -> apart t F (omap g l).
Proof.
  intros Hl Hf Hm. assert (Ho : forall r r', r ∈ l -> owned t F r = true -> g r = Some r' -> mine r').
  { intros r r' Hr Ho. apply Hm; [done|]. by eapply apart_mine. }
  split.
  - rewrite foreign_omap; [apply Hl|done|]. intros r r' Hr Hor Eg. by eapply Ho.
  - intros x (r & Hr & Eg)%list_elem_of_omap Hox. destruct (owned t F r) eqn:E; [by eapply Ho|].
    rewrite (Hf r Hr E) in Eg. congruence.
Qed.

Lemma mine_stamp now r : mine r -> mine (row_stamp now r).
Proof. unfold mine. by rewrite owned_stamp, id_stamp. Qed.
Lemma mine_touch now r : mine r -> mine (row_touch now r).
Proof. unfold mine. by rewrite owned_touch, id_touch. Qed.

Lemma apart_insert now l l' r :
  apart t F l -> owned t F r = true -> insert_row now r l = Some l' ->
  apart t F l' /\ mine (row_stamp now r).
Proof.
  intros Hl Ho [-> Hc]%insert_row_Some.
  assert (Hid : row_id (row_stamp now r) ∉ map row_id l).
  { intros (x & Hx & Hin)%list_elem_of_fmap. specialize (Hc x Hin). unfold clashes in Hc.
    by rewrite Hx, bool_decide_eq_true_2 in Hc. }
  assert (Ho' : owned t F (row_stamp now r) = true) by (by rewrite owned_stamp).
  assert (Ha : apart t F (l ++ [row_stamp now r])) by (by apply apart_app).
  split; [done|]. eapply apart_mine; [exact Ha| |done]. apply elem_of_app; right; by apply list_elem_of_singleton.
Qed.

Lemma iso_write {X : Set} (Q : X -> Prop) (f : Z -> list R -> option (list R * X)) :
  (forall now l l' x, apart t F l -> f now l = Some (l', x) -> apart t F l' /\ Q x) ->
  iso Q (write f).
Proof using Type*.
  intros Hf w w' o Hw. rewrite run_write. destruct (env_fault _); [by intros [= <- <-]|].
  destruct (f _ _) as [[l x]|] eqn:E; intros [= <- <-]; [|done].
  eapply Hf in E as [Hl Hx]; [|by apply tracked]. split; [by apply tracked_set|done].
Qed.
Lemma iso_Insert r : owned t F r = true -> iso mine (Insert r).
Proof using Type*.
  intros Ho. apply iso_write. intros now l l' x Hl.
  destruct (insert_row now r l) as [l1|] eqn:E; intros [= <- <-]. by eapply apart_insert.
Qed.
Lemma iso_InsertAll l0 : (forall r, r ∈ l0 -> owned t F r = true) -> iso anything (InsertAll l0).
Proof using Type*.
  intros Ho. apply iso_write. intros now l l' x Hl E. split; [|done].
  unfold insert_rows in E. assert (E' : foldl (fun acc r => match acc with
    | Some t => insert_row now r t | None => None end) (Some l) l0 = Some l').
  { by destruct (foldl _ _ _); [injection E as <- _|]. }
  clear E. revert l Hl E'. induction l0 as [|r l0 IH]; intros l Hl; simpl; [by intros [= <-]|].
  destruct (insert_row now r l) as [l1|] eqn:E1.
  - apply IH; [set_solver|]. eapply apart_insert; [done| |exact E1]. apply Ho. set_solver.
  - intros E. exfalso. clear -E. induction l0; by simpl in E.
Qed.
Lemma iso_Save r : mine r -> iso mine (Save r).
Proof using Type*.
  intros Hr. apply iso_write. intros now l l' x Hl.
  destruct (save_row now r l) as [l1|] eqn:E; intros [= <- <-].
  pose proof (mine_touch now r Hr) as Hm. split; [|done]. revert E. unfold save_row.
  destruct (existsb _ l); [done|]. destruct (existsb _ l) eqn:Ex; intros [= <-].
  - apply apart_map; [done| |by intros; case_bool_decide].
    intros y Hy Hoy. case_bool_decide as Hid; [|done]. exfalso. apply Hm. rewrite Hid.
    apply list_elem_of_fmap_2. by eapply apart_foreign.
  - apply apart_app; [done|apply Hm|]. intros (y & Hy & Hin)%list_elem_of_fmap.
    pose proof (existsb_false _ _ Ex y Hin) as Hn. by rewrite Hy, bool_decide_eq_true_2 in Hn.
Qed.
Lemma apart_update f l p :
  apart t F l -> misses p -> (forall r, mine r -> mine (f r)) ->
  apart t F (update_where p f l).1 /\ forall r, r ∈ (update_where p f l).2 -> mine r.
Proof.
  intros Hl Hp Hf. split.
  - apply apart_map; [done| |intros r Hr Hm; destruct (_ && _); auto].
    intros r Hr Ho. by rewrite (Hp r) by (try eapply apart_foreign; done).
  - intros r (x & -> & (Hx & Hpx & _)%elem_of_select_where)%list_elem_of_fmap.
    apply Hf. by eapply selected_mine.
Qed.
Lemma iso_UpdateRaw p f : misses p -> (forall r, mine r -> mine (f r)) ->
  iso (fun l => forall r, r ∈ l -> mine r) (UpdateRaw p f).
Proof using Type*.
  intros Hp Hf. apply iso_Stmt. intros now db Hdb. cbn [fst snd].
  destruct (apart_update f (rows db) p) as [Hl Hr]; [by apply tracked|done..|].
  split; [by apply tracked_set|done].
Qed.
Lemma iso_UpdateWhere p f : misses p -> (forall r, mine r -> mine (f r)) ->
  iso (fun l => forall r, r ∈ l -> mine r) (UpdateWhere p f).
Proof using Type*.
  intros Hp Hf. apply iso_Stmt. intros now db Hdb. cbn [fst snd].
  destruct (apart_update (fun x => row_touch now (f x)) (rows db) p) as [Hl Hr];
    [by apply tracked|done|auto using mine_touch|].
  split; [by apply tracked_set|done].
Qed.
Lemma iso_DeleteWhere p : misses p -> iso anything (DeleteWhere p).
Proof using Type*.
  intros Hp. apply iso_Stmt. intros now db Hdb. cbn [fst snd]. split; [|done].
  apply tracked_set; [done|]. pose proof (tracked t F db Hdb) as Hl. apply apart_omap; [done|..].
  - intros r Hr Ho. by rewrite (Hp r) by (try eapply apart_foreign; done).
  - intros r r' Hr Hm. destruct (_ && _); [|by intros [= <-]]. intros Hd. unfold mine.
    by rewrite (owned_delete _ _ _ _ _ Hd), (id_delete _ _ _ Hd).
Qed.
End Table.
End Steps.
End Iso.

(** ** The statements that are not of a common form *)

Section Special.
Context (t : uuid) (F : DB) `{Env}.

Lemma iso_Upsert c : cs_TenantID c = t -> iso t F anything (ConsentRepo.Upsert c).
Proof.
  intros Hc. apply iso_map_err, (iso_write t F (R := Consent)). intros now l l' x Hl.
  destruct (ConsentRepo.upsert now c l) as [l1|] eqn:E; intros [= <- <-]. split; [|done].
  revert E. unfold ConsentRepo.upsert. destruct (existsb _ l).
  - intros [= <-]. apply apart_map; [done| |].
    + intros r Hr Ho. cbn in *. destruct (bool_decide (cs_TenantID c = cs_TenantID r)) eqn:E; [|done].
      bool_simp. congruence.
    + intros r Hr Hm. destruct (_ && _); [exact Hm|done].
  - intros E. eapply apart_insert; [done| |exact E]. cbn. by apply bool_decide_eq_true.
Qed.

Lemma iso_SavePending m : mf_TenantID m = t -> iso t F anything (MFARepo.SavePending m).
Proof.
  intros Hm. unfold MFARepo.SavePending. apply iso_bind with anything; [apply iso_Now|].
  intros now _. cbv zeta. set (m' := m <| mf_ConfirmedAt := _ |> <| mf_CreatedAt := _ |> <| mf_UpdatedAt := _ |>).
  apply iso_bind with anything; [|intros n _; case_match; [apply iso_throw|by apply iso_ret]].
  apply iso_map_err, iso_Stmt. intros now' db Hdb. cbn [fst snd]. split; [|done].
  apply tracked_set; [done|]. pose proof (tracked (R := UserMFA) t F db Hdb) as Hl.
  unfold MFARepo.save_pending. destruct (existsb _ _) eqn:Ex; cbn [fst].
  - apply apart_map; [done| |].
    + intros r Hr Ho. cbn in *. bool_simp. rewrite (bool_decide_eq_false_2 (mf_TenantID r = _)) by congruence.
      by rewrite andb_false_r.
    + intros r Hr Hr'. destruct (_ && _); [exact Hr'|done].
  - apply apart_app; [done|cbn; by apply bool_decide_eq_true|].
    intros (x & Hx & Hin)%list_elem_of_fmap. pose proof (existsb_false _ _ Ex x Hin) as Hn.
    cbn in Hx, Hn. by rewrite Hx, bool_decide_eq_true_2 in Hn.
Qed.

(** Taking over records of the tenant that [taken] selects. *)
Lemma apart_takeover (r : IdempotencyKey) (taken : IdempotencyKey -> bool) l :
  apart t F l -> owned t F r = true -> (forall k, k ∈ l -> owned t F k = false -> taken k = false) ->
  existsb taken l && existsb (fun k => (ik_ID k ==? ik_ID r) && negb (taken k)) l = false ->
  apart t F (map (fun k => if taken k then r else k) l) /\
  (existsb taken l = true -> ik_ID r ∉ map ik_ID (db_idempotency F)).
Proof.
  intros Hl Ho Hf Eid. assert (Hid : existsb taken l = true -> ik_ID r ∉ map ik_ID (db_idempotency F)).
  { intros Et (k & Hk & Hin)%list_elem_of_fmap. rewrite Et in Eid. simpl in Eid.
    assert (Hin' : k ∈ foreign t F l) by (destruct Hl as [-> _]; exact Hin).
    apply elem_of_foreign in Hin' as [Hkl Hko]. pose proof (existsb_false _ _ Eid k Hkl) as Hn.
    by rewrite Hk, bool_decide_eq_true_2, (Hf k Hkl Hko) in Hn. }
  split; [|exact Hid]. apply apart_map; [done|by intros r' Hr' Hor; rewrite (Hf r' Hr' Hor)|].
  intros k Hk Hm. destruct (taken k) eqn:Etk; [|done]. split; [done|]. apply Hid.
  apply existsb_exists. exists k. by rewrite <-list_elem_of_In.
Qed.

Lemma iso_new_codes u now hashes :
  iso t F (fun l => forall r, r ∈ l -> owned t F r = true) (MFARepo.new_codes t u now hashes).
Proof.
  induction hashes as [|h hashes IH]; cbn [MFARepo.new_codes]; [apply iso_ret; set_solver|].
  apply iso_bind with anything; [apply iso_NewUUID|]. intros id _.
  eapply iso_bind; [exact IH|]. cbv beta. intros l Hl. apply iso_ret.
  intros r [->|Hr]%elem_of_cons; [cbn; by apply bool_decide_eq_true|by apply Hl].
Qed.

(** A claimed key has an ID no foreign record has. *)
Lemma iso_Begin r stale : ik_TenantID r = t ->
  iso t F (fun x => x.1 = true -> ik_ID r ∉ map ik_ID (db_idempotency F)) (IdempotencyRepo.Begin r stale).
Proof.
  intros Ht. unfold IdempotencyRepo.Begin. apply iso_bind with anything; [apply iso_Now|].
  intros now _. cbv zeta. set (r' := r <| ik_CreatedAt := now |>).
  assert (Hrow : owned t F r' = true) by (cbn; by apply bool_decide_eq_true).
  apply iso_bind with (fun n => n = 1 -> ik_ID r ∉ map ik_ID (db_idempotency F)).
  - apply iso_map_err. apply iso_bind with (fun o => o = Some 1 -> ik_ID r ∉ map ik_ID (db_idempotency F)).
    + apply iso_Stmt. intros now' db Hdb. pose proof (tracked (R := IdempotencyKey) t F db Hdb) as Hl.
      unfold IdempotencyRepo.begin_insert. destruct (existsb (row_conflict r') (rows db)).
      * destruct (_ && _) eqn:Eid; cbn [fst snd]; [done|].
        apply apart_takeover in Eid as [Hl' Hid]; [|done..|].
        -- split; [by apply tracked_set|]. intros [= Hn]. apply Hid.
           destruct (existsb _ _) eqn:Et; [done|exfalso]. destruct (filter _ _) as [|k ks] eqn:Ef; [done|].
           assert (Hk : k ∈ k :: ks) by left. rewrite <-Ef, list_elem_of_filter in Hk.
           destruct Hk as [Hk%Is_true_true Hin]. pose proof (existsb_false _ _ Et k Hin) as Hn0.
           cbn in Hk, Hn0. congruence.
        -- intros k Hk Hko. cbn in *. bool_simp.
           rewrite (bool_decide_eq_false_2 (ik_TenantID r = _)) by congruence. done.
      * destruct (insert_row _ _ _) as [l'|] eqn:E; cbn [fst snd]; [|done].
        apply (apart_insert t F) in E as [Hl' [_ Hid]]; [|done..].
        split; [by apply tracked_set|]. by intros _.
    + intros o Ho. eapply iso_mono; [apply iso_from_opt|]. cbv beta. intros n Hn ->. by apply Ho.
  - intros n Hn. destruct (n =? 1) eqn:E.
    + apply iso_ret. intros _. apply Hn. lia.
    + eapply iso_bind; [apply iso_get_any|]. intros. by apply iso_ret.
Qed.
End Special.

(** ** Automation *)

Create HintDb iso discriminated.
#[export] Hint Constants Opaque : iso.
#[export] Hint Extern 1 (_ = _) => reflexivity : iso.
#[export] Hint Resolve iso_Now iso_NewUUID iso_RandRead iso_RandInt iso_EmitEvent iso_WithRandom
  iso_WithSecrets iso_WithDomains iso_throw iso_panic iso_Upsert iso_SavePending iso_new_codes iso_Begin : iso.
Create HintDb conditions.
#[export] Hint Unfold MFARepo.of_user MFARepo.code_of_user EmailTemplateRepo.named
  AuditLogRepo.applyFilters : conditions.

(** No foreign row has the key: [mine] or an explicit fact says so. *)
Ltac key_tac r Hr :=
  match goal with
  | Hm : mine _ _ _ |- _ => apply (proj2 Hm); apply list_elem_of_fmap; exists r; split; [cbn in *; congruence|exact Hr]
  | Hn : _ ∉ map _ _ |- _ => apply Hn; apply list_elem_of_fmap; exists r; split; [cbn in *; congruence|exact Hr]
  end.
Ltac role_tac :=
  match goal with
  | Ho : _ ∈ map ro_ID _, Hm : mine _ _ _ |- _ => apply (proj2 Hm); cbn in *; congruence
  end.
Ltac misses_tac :=
  let r := fresh "r" in let Hr := fresh "Hr" in let Ho := fresh "Ho" in let E := fresh "E" in
  intros r Hr Ho; autounfold with conditions; cbv beta; cbn in Ho;
  first
    [ rewrite Ho; reflexivity
    | match goal with |- context [bool_decide ?P] => destruct (bool_decide P) eqn:E end;
      [exfalso; bool_simp; first [congruence | key_tac r Hr | role_tac]|reflexivity] ].

Ltac mine_tac :=
  match goal with
  | |- mine _ _ (if ?b then _ else _) => destruct b; mine_tac
  | |- mine _ _ (match ?b with _ => _ end) => destruct b; mine_tac
  | |- mine ?t ?F (upd _ _ ?r) => let H := fresh in assert (H : mine t F r) by mine_tac; exact H
  | |- mine _ _ (_, _).1 => cbn [fst]; mine_tac
  | |- mine ?t ?F _ => multimatch goal with Hm : mine t F _ |- _ => exact Hm end
  end.
Ltac owned_tac :=
  first
    [ match goal with Hm : mine _ _ _ |- _ => exact (proj1 Hm) end
    | cbn; apply bool_decide_eq_true; cbn; congruence
    | cbn; rewrite bool_decide_eq_false_2;
      [reflexivity
      |let H := fresh in intros H;
       match goal with Hm : mine _ _ _ |- _ => apply (proj2 Hm); cbn in *; congruence end] ].

Ltac known_tac :=
  match goal with
  | |- iso _ _ _ (attempt _) => apply iso_attempt; known_tac
  | |- iso _ _ _ (wrap _ _) => apply iso_map_err; known_tac
  | |- iso _ _ _ (or_err _ _) => apply iso_map_err; known_tac
  | |- iso _ _ _ (map_err _ _) => apply iso_map_err; known_tac
  | |- iso _ _ _ (Transaction _) => apply iso_transaction; known_tac
  | |- iso _ _ _ (from_opt _ _) => apply iso_from_opt
  | |- iso _ _ _ (or_panic _) => apply iso_or_panic
  | |- iso _ _ _ (from_sum _) => apply iso_from_sum
  | |- iso _ _ _ (get_by _ _ _) => first [refine (iso_get_by _ _ _ _ _ _); solve [misses_tac] | apply iso_get_any]
  | |- iso _ _ _ (First _) => first [refine (iso_First _ _ _ _); solve [misses_tac] | apply (iso_read _ _ (fun _ db => first_where _ (rows db)))]
  | |- iso _ _ _ (Find _) => first [refine (iso_Find _ _ _ _); solve [misses_tac] | apply (iso_read _ _ (fun _ db => select_where _ (rows db)))]
  | |- iso _ _ _ (Count _) => apply iso_read
  | |- iso _ _ _ (FindPage _ _ _ _) => apply iso_read
  | |- iso _ _ _ (Insert _) => refine (iso_Insert _ _ _ _); solve [owned_tac]
  | |- iso _ _ _ (InsertAll _) => refine (iso_InsertAll _ _ _ _); solve [eauto]
  | |- iso _ _ _ (Save _) => refine (iso_Save _ _ _ _); solve [mine_tac]
  | |- iso _ _ _ (UpdateWhere _ _) => refine (iso_UpdateWhere _ _ _ _ _ _); [solve [misses_tac]|intros; solve [mine_tac]]
  | |- iso _ _ _ (UpdateRaw _ _) => refine (iso_UpdateRaw _ _ _ _ _ _); [solve [misses_tac]|intros; solve [mine_tac]]
  | |- iso _ _ _ (DeleteWhere _) => refine (iso_DeleteWhere _ _ _ _); solve [misses_tac]
  | |- iso _ _ _ (Stmt (fun _ db => (db, _))) => apply iso_read
  | |- iso _ _ _ _ => first [solve [eauto with iso] | progress (autounfold with repos); known_tac]
  end.

(** What a step returned, taken apart. *)
Ltac returned_tac H :=
  cbn beta in H;
  lazymatch type of H with
  | anything _ => clear H
  | mine _ _ _ => let Ho := fresh "Ho" in pose proof (proj1 H) as Ho; cbn in Ho;
    try apply bool_decide_eq_true in Ho
  | _ /\ _ => let H1 := fresh H in let H2 := fresh H in destruct H as [H1 H2]; returned_tac H1; returned_tac H2
  | _ = true => bool_simp
  | _ => idtac
  end.
Ltac post_tac := first [exact I | assumption | solve [mine_tac] | solve [eauto] ].

Ltac head_of p := match p with ?f _ => head_of f | _ => p end.
Ltac iso_step :=
  lazymatch goal with
  | |- iso _ _ _ (mret _) => apply iso_ret; post_tac
  | |- iso _ _ _ (throw _) => apply iso_throw
  | |- iso _ _ _ panic => apply iso_panic
  | |- iso ?t ?F ?Q (mbind ?f ?p) =>
    first [ refine (iso_bind t F _ Q p f _ _);
            [known_tac|let a := fresh "a" in let Ha := fresh "Ha" in intros a Ha; cbv beta; returned_tac Ha]
          | let H := fresh "Hm" in
            refine (iso_bind t F (mine t F) Q p f _ _); [solve [iso]|intros ? H; cbv beta]
          | let H := fresh "Hm" in
            refine (iso_bind t F (fun x => mine t F x.1) Q p f _ _);
            [solve [iso]|intros [? ?] H; cbn [fst] in H; cbv beta]
          | refine (iso_bind t F anything Q p f _ _); [|intros ? _; cbv beta] ]
  | |- iso ?t ?F _ (ignore _) => apply (iso_ignore t F anything)
  | |- iso ?t ?F ?Q (let x := ?v in @?body x) =>
    change (iso t F Q (body v));
    first [ let H := fresh "Hm" in assert (H : mine t F v) by mine_tac; revert H; generalize v; intros ? H
          | idtac ];
    cbv beta
  | |- iso _ _ _ (match ?b with _ => _ end) =>
    destruct b; repeat match goal with H : unless_error _ _ |- _ => cbn [unless_error] in H; returned_tac H end
  | |- iso ?t ?F anything (attempt _) => apply (iso_any t F (unless_error anything)), iso_attempt
  | |- iso _ _ ?Q ?p =>
    first [ known_tac
          | eapply iso_mono; [known_tac|cbv beta; intros; post_tac]
          | lazymatch goal with
            | |- iso _ _ _ (wrap _ _) => apply iso_map_err
            | |- iso _ _ _ (or_err _ _) => apply iso_map_err
            | |- iso _ _ _ (map_err _ _) => apply iso_map_err
            | |- iso _ _ _ (Transaction _) => apply iso_transaction
            end
          | lazymatch p with
            | Step _ _ => fail 1 | Insert _ => fail 1 | Save _ => fail 1 | UpdateWhere _ _ => fail 1
            | UpdateRaw _ _ => fail 1 | DeleteWhere _ => fail 1 | get_by _ _ _ => fail 1
            | InsertAll _ => fail 1 | Stmt _ => fail 1 | write _ => fail 1 | _ => idtac
            end;
            let h := head_of p in cbv delta [h]; cbv beta ]
  end
with iso := repeat iso_step.
