(* ===== verification/IsolationServices.v ===== *)
(** Each service method that is given a tenant writes rows of that tenant
    only. *)
From S2P Require Import Prelude GoStd Models Effects Store Repos AccountRepos RbacRepos AuditRepo.
From S2P Require Import EmailRepos Libraries JwtKeys Http Idempotency Scope AuthService DeviceFlow Session.
From S2P Require Import ClientService Mfa MfaService Registration UserService Rbac AuditTrail EmailService.
From S2P Require Import TenantService Isolation.

Open Scope Z_scope.

Section Tokens.
Context (t : uuid) (F : DB) `{Env} `{UuidLib} `{JwtLib} `{UnicodeTables}.
Context (s : authServiceImpl).

Lemma iso_revokeTokenFamily family : iso t F anything (revokeTokenFamily t family).
Proof. iso. Qed.
Lemma iso_issueTokens client u scope family r i auth :
  iso t F anything (issueTokens s t client u scope family r i auth).
Proof. iso. Qed.
Lemma iso_GenerateAuthorizationCode c u ru scope nonce cc cm at_ amr :
  iso t F anything (GenerateAuthorizationCode s t c u ru scope nonce cc cm at_ amr).
Proof. iso. Qed.
End Tokens.
#[export] Hint Resolve iso_revokeTokenFamily iso_issueTokens iso_GenerateAuthorizationCode : iso.

Section TokenService.
Context (t : uuid) (F : DB) `{Env} `{UuidLib} `{JwtLib} `{UnicodeTables}.
Context (s : authServiceImpl).

Lemma iso_ExchangeAuthorizationCode code c secret ru v :
  iso t F anything (ExchangeAuthorizationCode s t code c secret ru v).
Proof. iso. Qed.
Lemma iso_GenerateTokens c u scope r : iso t F anything (GenerateTokens s t c u scope r).
Proof. iso. Qed.
Lemma iso_GenerateClientCredentialsTokens c scope :
  iso t F anything (GenerateClientCredentialsTokens s t c scope).
Proof. iso. Qed.
Lemma iso_RefreshTokens token c scope : iso t F anything (RefreshTokens s t token c scope).
Proof. iso. Qed.
Lemma iso_RevokeToken token hint c : iso t F anything (RevokeToken s t token hint c).
Proof. iso. Qed.
Lemma iso_IntrospectToken token : iso t F anything (IntrospectToken s t token).
Proof. iso. Qed.
(** Validation reads only, whatever the tenant. *)
Lemma iso_ValidateAccessToken t' token : iso t F anything (ValidateAccessToken s t' token).
Proof. iso. Qed.
Lemma iso_GetUserInfo token : iso t F anything (GetUserInfo s t token).
Proof. iso. Qed.

Lemma iso_resolveDeviceCode userCode (resolve : DeviceCode -> prog DeviceCode) :
  (forall c, mine t F c -> iso t F (mine t F) (resolve c)) ->
  iso t F anything (resolveDeviceCode t userCode resolve).
Proof.
  intros Hr. unfold resolveDeviceCode. iso.
Qed.
Lemma iso_ApproveDeviceCode code u amr : iso t F anything (ApproveDeviceCode t code u amr).
Proof. apply iso_resolveDeviceCode. intros c Hc. iso. Qed.
Lemma iso_DenyDeviceCode code : iso t F anything (DenyDeviceCode t code).
Proof. apply iso_resolveDeviceCode. intros c Hc. iso. Qed.
Lemma iso_user_code_loop n : iso t F anything (user_code_loop n).
Proof. induction n; cbn [user_code_loop]; iso. Qed.
#[local] Hint Resolve iso_user_code_loop : iso.
Lemma iso_CreateDeviceAuthorization c scope : iso t F anything (CreateDeviceAuthorization s t c scope).
Proof. iso. Qed.
Lemma iso_ExchangeDeviceCode c code : iso t F anything (ExchangeDeviceCode s t c code).
Proof. iso. Qed.
Lemma iso_ExchangeToken c a b d : iso t F anything (ExchangeToken s t c a b d).
Proof. iso. Qed.

Lemma iso_CreateSession ttl u amr ip ua : iso t F anything (CreateSession ttl t u amr ip ua).
Proof. iso. Qed.
Lemma iso_GetSession token : iso t F anything (GetSession t token).
Proof. iso. Qed.
Lemma iso_EndSession token : iso t F anything (EndSession t token).
Proof. iso. Qed.
Lemma iso_GrantConsent u c scope : iso t F anything (GrantConsent t u c scope).
Proof. iso. Qed.
Lemma iso_HasConsent u c scope : iso t F anything (HasConsent t u c scope).
Proof. iso. Qed.
End TokenService.
#[export] Hint Resolve iso_ExchangeAuthorizationCode iso_GenerateTokens
  iso_GenerateClientCredentialsTokens iso_RefreshTokens iso_RevokeToken iso_IntrospectToken
  iso_ValidateAccessToken iso_GetUserInfo iso_ApproveDeviceCode iso_DenyDeviceCode
  iso_CreateDeviceAuthorization iso_ExchangeDeviceCode iso_ExchangeToken iso_CreateSession
  iso_GetSession iso_EndSession iso_GrantConsent iso_HasConsent : iso.

Section Accounts.
Context (t : uuid) (F : DB) `{Env} `{UuidLib} `{BcryptLib} `{UnicodeTables} `{AeadLib}.

Section Clients.
Context (secrets : option clientSecretCache).
Lemma iso_Client_Create req : iso t F anything (ClientService.Create t req).
Proof. iso. Qed.
Lemma iso_Client_Update c req : iso t F anything (ClientService.Update t c req).
Proof. iso. Qed.
Lemma iso_Client_Delete c : iso t F anything (ClientService.Delete t c).
Proof. iso. Qed.
Lemma iso_Client_List limit offset : iso t F anything (ClientService.List t limit offset).
Proof. iso. Qed.
Lemma iso_ValidateClient c secret : iso t F (mine t F) (ValidateClient secrets t c secret).
Proof. iso. Qed.
End Clients.

Section SecondFactor.
Context (keys : Keys).
Lemma iso_recovery_codes n : iso t F anything (Mfa.new_codes n).
Proof. induction n; cbn [Mfa.new_codes]; iso. Qed.
#[local] Hint Resolve iso_recovery_codes : iso.
Lemma iso_Status u : iso t F anything (Status t u).
Proof. iso. Qed.
Lemma iso_IsEnabled u : iso t F anything (IsEnabled t u).
Proof. iso. Qed.
Lemma iso_BeginTOTPEnrollment u : iso t F anything (BeginTOTPEnrollment keys t u).
Proof. iso. Qed.
Lemma iso_ConfirmTOTPEnrollment u code : iso t F anything (ConfirmTOTPEnrollment keys t u code).
Proof. iso. Qed.
Lemma iso_mfa_Verify u code : iso t F anything (mfa_Verify keys t u code).
Proof. iso. Qed.
Lemma iso_RegenerateRecoveryCodes u : iso t F anything (RegenerateRecoveryCodes keys t u).
Proof. iso. Qed.
Lemma iso_Disable u : iso t F anything (Disable t u).
Proof. iso. Qed.
End SecondFactor.
End Accounts.
#[export] Hint Resolve iso_Client_Create iso_Client_Update iso_Client_Delete iso_Client_List
  iso_ValidateClient iso_Status iso_IsEnabled iso_BeginTOTPEnrollment iso_ConfirmTOTPEnrollment
  iso_mfa_Verify iso_RegenerateRecoveryCodes iso_Disable : iso.

Section Registration.
Context (t : uuid) (F : DB) `{Env} `{UuidLib} `{BcryptLib} `{UnicodeTables} `{NetLib}.
Lemma iso_CreateInitialAccessToken u req : iso t F anything (CreateInitialAccessToken t u req).
Proof. iso. Qed.
Lemma iso_ListInitialAccessTokens : iso t F anything (ListInitialAccessTokens t).
Proof. iso. Qed.
Lemma iso_RevokeInitialAccessToken id : iso t F anything (RevokeInitialAccessToken t id).
Proof. iso. Qed.
Lemma iso_Register baseURL token meta : iso t F anything (Register baseURL t token meta).
Proof. iso. Qed.
Lemma iso_authorize c token : iso t F (mine t F) (Registration.authorize t c token).
Proof. iso. Qed.
#[local] Hint Resolve iso_authorize : iso.
Lemma iso_Registration_Read baseURL c token : iso t F anything (Read baseURL t c token).
Proof. iso. Qed.
Lemma iso_Registration_Update baseURL c token meta :
  iso t F anything (Registration.Update baseURL t c token meta).
Proof. iso. Qed.
Lemma iso_Registration_Delete c token : iso t F anything (Registration.Delete t c token).
Proof. iso. Qed.
End Registration.
#[export] Hint Resolve iso_CreateInitialAccessToken iso_ListInitialAccessTokens
  iso_RevokeInitialAccessToken iso_Register iso_Registration_Read iso_Registration_Update
  iso_Registration_Delete : iso.

Section Users.
Context (t : uuid) (F : DB) `{Env} `{BcryptLib} `{UnicodeTables}.
Context (emails : option TemplateEmailSender) (baseURL : string).
(** The interface of the email sender, for the tenant it is given. *)
Hypothesis sends : forall send to name template vars priority,
  emails = Some send -> iso t F anything (send t to name template vars priority).

Lemma iso_hash_password p : iso t F anything (hash_password p).
Proof. iso. Qed.
Lemma iso_revokeUserCredentials u : iso t F anything (revokeUserCredentials t u).
Proof. iso. Qed.
Lemma iso_notifyPasswordChanged user : mine t F user -> iso t F anything (notifyPasswordChanged emails user).
Proof using Type*.
  intros Hm. pose proof (proj1 Hm) as Ho. cbn in Ho. bool_simp. unfold notifyPasswordChanged.
  destruct emails as [send|]; [|by apply iso_ret]. rewrite Ho. by eapply iso_ignore, sends.
Qed.
#[local] Hint Resolve iso_revokeUserCredentials iso_notifyPasswordChanged : iso.

Lemma iso_User_Create req : iso t F anything (UserService.Create t req).
Proof. iso. Qed.
Lemma iso_User_Update u req : iso t F anything (UserService.Update t u req).
Proof. iso. Qed.
Lemma iso_User_Delete u : iso t F anything (UserService.Delete t u).
Proof. iso. Qed.
Lemma iso_User_List limit offset : iso t F anything (UserService.List t limit offset).
Proof. iso. Qed.
Lemma iso_RecordLoginAttempt email ip b : iso t F anything (RecordLoginAttempt t email ip b).
Proof. iso. Qed.
#[local] Hint Resolve iso_RecordLoginAttempt : iso.
Lemma iso_Authenticate email p : iso t F (mine t F) (Authenticate t email p).
Proof. iso. Qed.
Lemma iso_UpdateStatus u st : iso t F anything (UpdateStatus t u st).
Proof. iso. Qed.
Lemma iso_VerifyEmail code : iso t F anything (VerifyEmail t code).
Proof. iso. Qed.
Lemma iso_SendVerificationEmail u : iso t F anything (SendVerificationEmail emails baseURL t u).
Proof using Type*. iso. Qed.
Lemma iso_RequestPasswordReset email : iso t F anything (RequestPasswordReset emails baseURL t email).
Proof using Type*. iso. Qed.
Lemma iso_ResetPassword token p : iso t F anything (ResetPassword emails t token p).
Proof using Type*. iso. Qed.
Lemma iso_ChangePassword u p q : iso t F anything (ChangePassword emails t u p q).
Proof using Type*. iso. Qed.
End Users.
#[export] Hint Resolve iso_User_Create iso_User_Update iso_User_Delete iso_User_List
  iso_RecordLoginAttempt iso_Authenticate iso_UpdateStatus iso_VerifyEmail
  iso_SendVerificationEmail iso_RequestPasswordReset iso_ResetPassword iso_ChangePassword : iso.

Section Roles.
Context (t : uuid) (F : DB) `{Env}.

Lemma iso_Log ctx entry : al_TenantID entry = t -> iso t F anything (Log ctx entry).
Proof.
  intros Ht. unfold Log. apply iso_bind with (fun e => al_TenantID e = t); [iso|]. intros e1 H1.
  apply iso_bind with (fun e => al_TenantID e = t); [iso|]. intros e2 H2.
  apply iso_bind with anything; [|intros; by apply iso_ret].
  eapply iso_any, iso_map_err, iso_map_err. refine (iso_Insert _ _ _ _).
  unfold attribute. destruct (RequestInfoFrom ctx); cbn; by apply bool_decide_eq_true.
Qed.
#[local] Hint Resolve iso_Log : iso.
Lemma iso_write_audit r ctx entry : al_TenantID entry = t -> iso t F anything (AuditTrail.write r ctx entry).
Proof.
  intros Ht. unfold AuditTrail.write. destruct (negb _); [by apply iso_ret|]. cbv zeta.
  eapply iso_ignore, iso_Log. by destruct (RequestInfoFrom ctx), (bool_decide _).
Qed.
Lemma iso_Record r ctx ev : e_TenantID ev = t -> iso t F anything (Record_ r ctx ev).
Proof.
  intros Ht. unfold Record_. destruct (bool_decide _); [by apply iso_ret|].
  by apply iso_write_audit.
Qed.

Context (s : RoleService.RoleServiceImpl) (ctx : Ctx).
Lemma iso_audit_system action resource id metadata :
  iso t F anything (RoleService.audit_system s ctx t action resource id metadata).
Proof. iso. Qed.
Lemma iso_audit_user u action resource id metadata :
  iso t F anything (RoleService.audit_user s ctx t u action resource id metadata).
Proof. iso. Qed.
#[local] Hint Resolve iso_audit_system iso_audit_user : iso.

Lemma iso_add_permissions (role : Role) r names :
  mine t F role -> ro_ID role = r -> iso t F anything (RoleService.add_permissions t r names).
Proof. intros Hm <-. induction names; cbn [RoleService.add_permissions]; iso. Qed.
Lemma iso_remove_grants (role : Role) r grants :
  mine t F role -> ro_ID role = r -> iso t F anything (RoleService.remove_grants r grants).
Proof. intros Hm <-. induction grants; cbn [RoleService.remove_grants]; iso. Qed.
#[local] Hint Resolve iso_add_permissions iso_remove_grants : iso.

Lemma iso_Role_Create req : iso t F anything (RoleService.Create s ctx t req).
Proof. iso. Qed.
Lemma iso_Role_Update r req : iso t F anything (RoleService.Update s ctx t r req).
Proof. iso. Qed.
Lemma iso_Role_Delete r : iso t F anything (RoleService.Delete s ctx t r).
Proof. iso. Qed.
Lemma iso_AddPermission r p u : iso t F anything (RoleService.AddPermission s ctx t r p u).
Proof. iso. Qed.
Lemma iso_RemovePermission r p : iso t F anything (RoleService.RemovePermission s ctx t r p).
Proof. iso. Qed.
Lemma iso_AssignToUser r u g e : iso t F anything (RoleService.AssignToUser s ctx t r u g e).
Proof. iso. Qed.
Lemma iso_RevokeFromUser r u : iso t F anything (RoleService.RevokeFromUser s ctx t r u).
Proof. iso. Qed.

(** Reading roles and permissions. *)
Lemma iso_load_permissions grants : iso t F anything (RoleService.load_permissions grants).
Proof. induction grants; cbn [RoleService.load_permissions]; iso. Qed.
Lemma iso_load_roles l : iso t F anything (RoleService.load_roles t l).
Proof. induction l; cbn [RoleService.load_roles]; iso. Qed.
Lemma iso_collect_grants seen acc grants :
  iso t F anything (PermissionService.collect_grants seen acc grants).
Proof. revert seen acc. induction grants; intros; cbn [PermissionService.collect_grants]; iso. Qed.
Lemma iso_collect_roles t' seen acc l :
  iso t F anything (PermissionService.collect_roles t' seen acc l).
Proof.
  revert seen acc. induction l; intros; cbn [PermissionService.collect_roles]; iso.
  all: eauto using iso_collect_grants.
Qed.
#[local] Hint Resolve iso_load_permissions iso_load_roles iso_collect_roles : iso.
Lemma iso_GetPermissions r : iso t F anything (RoleService.GetPermissions t r).
Proof. iso. Qed.
Lemma iso_GetUserRoles u : iso t F anything (RoleService.GetUserRoles t u).
Proof. iso. Qed.
Lemma iso_GetUserPermissions t' u : iso t F anything (PermissionService.GetUserPermissions t' u).
Proof. iso. Qed.
#[local] Hint Resolve iso_GetUserPermissions : iso.
Lemma iso_HasPermission t' u r a : iso t F anything (PermissionService.HasPermission t' u r a).
Proof. iso. Qed.
End Roles.
#[export] Hint Resolve iso_write_audit iso_Record iso_Role_Create iso_Role_Update iso_Role_Delete
  iso_AddPermission iso_RemovePermission iso_AssignToUser iso_RevokeFromUser iso_GetPermissions
  iso_GetUserRoles iso_GetUserPermissions iso_HasPermission : iso.

Section Messages.
Context (t : uuid) (F : DB) `{Env} `{MapOrder} `{UnicodeTables} (cfg : Config).
Lemma iso_render template vars escape : iso t F anything (render template vars escape).
Proof.
  unfold render. apply iso_bind with anything; [|intros; by apply iso_ret].
  apply iso_step; [done|]. intros. by apply iso_ret.
Qed.
#[local] Hint Resolve iso_render : iso.
Lemma iso_SendTemplateEmail to name template vars priority :
  iso t F anything (EmailService.SendTemplateEmail cfg t to name template vars priority).
Proof. iso. Qed.

Lemma iso_Resolve ttl host : iso t F anything (Resolve ttl host).
Proof. iso. Qed.
End Messages.
