(* ===== verification/Examples.v ===== *)
(** A concrete environment, concrete stand-ins for the libraries and a small
    database. The witnesses run the modelled operations on them. *)
From S2P Require Import Prelude GoStd Hash Models Effects Store Libraries JwtKeys Scope AuthService.
From S2P Require Import DeviceFlow Mfa MfaService AuditTrail Http TokenEndpoint.
From stdpp Require Import gmap.
From Stdlib Require Import Ascii.

Open Scope Z_scope.

(** One second passes at every step; no statement fails; random bytes and
    UUIDs differ from step to step. *)
Definition epoch : Z := 1700000000 * second.
#[export] Instance example_env : Env := {
  env_now n := epoch + Z.of_nat n * second;
  env_fault _ := false;
  env_rand n := Some (fun i => (Z.of_nat n * 37 + Z.of_nat i * 11) mod 256);
  env_uuid n := N.of_nat (1000 + n)
}.

(** A UUID in unary and back. *)
#[export] Instance example_uuid : UuidLib := {
  uuid_String u := string_of (repeat 117 (N.to_nat u));
  uuid_Parse s := Some (N.of_nat (String.length s))
}.

#[export] Instance example_uuid_laws : UuidLaws.
Proof.
  intros u. simpl. f_equal. rewrite <-(N2Nat.id u) at 2. f_equal.
  induction (N.to_nat u) as [|n IH]; [done|]. cbn [repeat]. simpl. by rewrite IH.
Qed.

#[export] Instance example_unicode : UnicodeTables := {
  unicode_to_upper s := s; unicode_to_lower s := s; unicode_equal_fold a b := a ==? b
}.

(** The claims of the one token that verifies. *)
Definition example_claims : JWTClaims := {|
  jc_Jti := "j"; jc_Sub := uuid_String 9; jc_Aud := "https://sg"; jc_Iss := "https://sg";
  jc_Exp := 1700000600; jc_Iat := 1700000000; jc_TenantID := uuid_String 1;
  jc_Scope := "openid read"; jc_ClientID := "client_app"; jc_UserID := uuid_String 9;
  jc_Email := ""; jc_Name := ""; jc_Act := None |}.

(** A signed token is its jti; "good" verifies under every key. *)
Definition example_parse (now : Z) (ty : ClaimsType) (o : ParserOptions)
    (kf : Token -> keyMaterial + error) (s : string) : (Token * Claims) + error :=
  let t := MkToken TypeAccessToken "" AlgHS256 true in
  match kf (MkToken TypeAccessToken "" AlgHS256 false), ty with
  | inl _, JWTClaimsType =>
    if (s ==? "good") && contains (po_ValidMethods o) AlgHS256
       && (po_WithoutClaimsValidation o
           || ((from_option (fun i => i ==? jc_Iss example_claims) true (po_Issuer o))
               && (from_option (fun a => a ==? jc_Aud example_claims) true (po_Audience o))
               && (now <? jc_Exp example_claims * second)))
    then inl (t, AccessClaims example_claims) else inr (EExternal "jwt")
  | _, _ => inr (EExternal "jwt")
  end.
#[export] Instance example_jwt : JwtLib := {
  jwt_SignedString _ tok c _ :=
    inl (match c with AccessClaims c => "access:" +:+ jc_Jti c | IDClaims c => "id:" +:+ ic_Nonce c end);
  jwt_ParseWithClaims := example_parse;
  jwt_verify _ _ s := s ==? "good"
}.
#[export] Instance example_jwt_laws : JwtLaws.
Proof.
  intros now ty o kf s t c. simpl. unfold example_parse.
  destruct (kf _) as [k|] eqn:Ek; [|done]. destruct ty; [|done].
  destruct (s ==? "good") eqn:Es; simpl; [|done].
  destruct (contains _ _) eqn:Em; simpl; [|done]. apply contains_elem_of in Em. bool_simp.
  destruct (po_WithoutClaimsValidation o) eqn:Ew; simpl.
  - intros [= <- <-]. split; simpl; try done; [|congruence..].
    exists k. split; [done|]. by rewrite Es.
  - destruct (_ && _) eqn:E; [|done]. intros [= <- <-]. bool_simp.
    split; simpl; try done.
    + exists k. split; [done|]. by rewrite Es.
    + intros i Hi _. rewrite Hi in *. simpl in *. by bool_simp.
    + intros a Ha _. rewrite Ha in *. simpl in *. bool_simp. subst. by left.
    + intros _ _. eexists. split; [done|]. done.
Qed.

(** An AEAD that hides nothing, with four-byte nonces. *)
#[export] Instance example_aead : AeadLib := {
  hkdf_sha256 secret info := secret;
  aead_NonceSize := 4;
  aead_Seal key nonce plain aad := plain;
  aead_Open key nonce sealed aad := Some sealed
}.
#[export] Instance example_aead_laws : AeadLaws.
Proof. split; [done|]. by intros key nonce sealed aad plain [= ->]. Qed.

Definition example_config : Config := {|
  cfg_DatabaseURL := "postgres://db"; cfg_RedisURL := ""; cfg_Port := "8080";
  cfg_GinMode := "release"; cfg_JWTSigningAlg := "HS256"; cfg_JWTSigningKeyFile := "";
  cfg_MFAEncryptionKey := ""; cfg_JWTVerificationKeyFiles := ""; cfg_MetricsAddr := "";
  cfg_RBACSuperAdminUserIDs := ""; cfg_LogLevel := "info"; cfg_LogFormat := "json";
  cfg_ServerURL := "https://sg"; cfg_BcryptCost := 10; cfg_AccessTokenDuration := 15 * minute;
  cfg_RefreshTokenDuration := 720 * hour; cfg_IDTokenDuration := hour;
  cfg_SessionDuration := 12 * hour; cfg_AuthorizationCodeDuration := 10 * minute;
  cfg_DeviceCodeDuration := 10 * minute; cfg_DeviceCodePollInterval := 5;
  cfg_JWTSecret := "jwt secret"; cfg_CORSAllowedOrigins := "https://a, https://b";
  cfg_CORSAllowedMethods := "GET"; cfg_CORSAllowedHeaders := "*";
  cfg_RateLimitRequestsPerMinute := 60; cfg_SMTPHost := ""; cfg_SMTPPort := 587;
  cfg_SMTPUser := ""; cfg_SMTPPassword := ""; cfg_SMTPUseTLS := false; cfg_SMTPFrom := "no-reply@sg";
  cfg_SMTPFromName := "ShieldGate" |}.

Definition example_key : Key := MkKey "" AlgHS256 (Some (Bytes "secret")) (Bytes "secret").
Definition example_service : authServiceImpl :=
  MkAuthService example_config (MkKeySet example_key [example_key] {["" := example_key]} [AlgHS256]) true.

(** A PKCE verifier and its challenge. *)
Definition example_verifier : string := "dBjftJeZ4CVP-mB92K27uhbUJU1p1r_wW1gFWFOEjXk".
Definition example_code : AuthorizationCode := {|
  ac_ID := 50; ac_TenantID := 1; ac_Code := "code"; ac_ClientID := 7; ac_UserID := 9;
  ac_RedirectURI := "https://app/cb"; ac_Scope := "read"; 
  ac_CodeChallenge := base64_raw_url (sha256 example_verifier);
  ac_CodeChallengeMethod := "S256"; ac_Nonce := "n"; ac_AuthTime := Some epoch; ac_AMR := ["pwd"];
  ac_UsedAt := None; ac_ExpiresAt := epoch + 10 * minute; ac_CreatedAt := epoch |}.
Definition example_refresh : RefreshToken := {|
  rt_ID := 60; rt_TenantID := 1; rt_Token := hashToken "refresh"; rt_ClientID := 7;
  rt_UserID := 9; rt_FamilyID := 61; rt_Scope := "read write"; rt_AuthTime := None; rt_AMR := [];
  rt_RevokedAt := None; rt_ExpiresAt := epoch + hour; rt_CreatedAt := epoch |}.
Definition example_access : AccessToken := {|
  at_ID := 70; at_TenantID := 1; at_Token := hashToken "good"; at_ClientID := 7; at_UserID := 9;
  at_FamilyID := 61; at_Scope := "openid read"; at_ExpiresAt := epoch + hour; at_CreatedAt := epoch |}.

Definition example_db : DB := empty_db
  <| db_clients := [example_client ["openid"; "read"; "write"]] |>
  <| db_authCodes := [example_code] |>
  <| db_refreshTokens := [example_refresh] |>
  <| db_accessTokens := [example_access] |>.
Definition example_world (db : DB) : World := MkWorld db 0 [] ∅ ∅ [].

(** The result of a run, and what it leaves. *)
Definition result {A} (p : prog A) (db : DB) : outcome A := (run p (example_world db)).2.
Definition after {A} (p : prog A) (w : World) : World := (run p w).1.

Definition ok_of {A} (d : A) (o : outcome A) : A := match o with Ok a => a | _ => d end.
Definition no_response : TokenResponse := MkTokenResponse "" "" 0 "" "" "".

(** The client's requests of the witnesses. *)
Abbreviation example_exchange :=
  (ExchangeAuthorizationCode example_service 1 "code" (uuid_String 7) "" "https://app/cb"
     example_verifier) (only parsing).
Abbreviation example_refreshing :=
  (RefreshTokens example_service 1 "refresh" (uuid_String 7) "read") (only parsing).

(** A user with a confirmed second factor and one recovery code. *)
Definition totp_secret : string := "12345678901234567890".
Definition example_keys : Keys := MkKeys "k" "h".
Definition example_settings : UserMFA := {|
  mf_UserID := 9; mf_TenantID := 1; mf_TOTPSecret := base64_raw_std ("nonc" +:+ totp_secret);
  mf_ConfirmedAt := Some epoch; mf_LastUsedStep := 0; mf_FailedAttempts := 2;
  mf_LockedUntil := None; mf_CreatedAt := epoch; mf_UpdatedAt := epoch |}.
Definition example_recovery : MFARecoveryCode := {|
  rc_ID := 90; rc_TenantID := 1; rc_UserID := 9;
  rc_CodeHash := HashRecoveryCode example_keys "23456-789AB"; rc_UsedAt := None;
  rc_CreatedAt := epoch |}.
Definition mfa_world : World := example_world (example_db
  <| db_mfa := [example_settings] |> <| db_recoveryCodes := [example_recovery] |>).

(** A device code in a given state, and the device's poll. *)
Definition example_device (status : DeviceCodeStatus) (u : option uuid) : DeviceCode := {|
  dc_ID := 80; dc_TenantID := 1; dc_DeviceCode := hashToken "device"; dc_UserCode := "BCDFGHJK";
  dc_ClientID := 7; dc_UserID := u; dc_Scope := "read"; dc_Status := status;
  dc_Interval := 5; dc_LastPolledAt := None; dc_AuthTime := Some epoch; dc_AMR := ["pwd"];
  dc_ExpiresAt := epoch + 10 * minute; dc_CreatedAt := epoch |}.
Definition device_world (c : DeviceCode) : World :=
  example_world (example_db <| db_deviceCodes := [c] |>).
Abbreviation example_poll :=
  (ExchangeDeviceCode example_service 1 (example_client ["read"]) "device") (only parsing).

(** The OAuth handler, without a client secret cache. *)
Definition example_handler : OAuthHandler :=
  MkOAuthHandler example_config example_service (Some example_keys) (MkRecorder true) None.

(** A request for tenant 1 without a body. *)
Definition example_request : Request :=
  MkRequest "GET" "/" "/" "sg" [] [] [] [] [] None None "10.0.0.1" "agent" (MkCtx None "") "req"
    (Some 1%N) None None None [].
