(* ===== verification/AuthSpec.v ===== *)
(** What the token service of AuthService.v guarantees. *)
From S2P Require Import Prelude GoStd StringFacts Hash Models Effects Store Repos AccountRepos.
From S2P Require Import Libraries JwtKeys Scope AuthService Examples.

Open Scope Z_scope.

(** ** Lemmas on the building blocks *)

#[export] Hint Unfold SignTyped Sign generateRandomString randomToken Parse : repos.

Section Blocks.
Context `{Env} `{UuidLib} `{JwtLib} `{UnicodeTables} (s : authServiceImpl).

Lemma ok_emit ev w w' u :
  run (emit s ev) w = (w', Ok u) <->
  w' = if as_events s then tick w <| w_events := w_events w ++ [ev] |> else w.
Proof.
  unfold emit. destruct (as_events s); [apply ok_EmitEvent|]. rewrite ok_ret. destruct u. naive_solver.
Qed.

(** Steps that leave the database alone. *)
Definition quiet (w w' : World) : Prop := w_db w' = w_db w /\ (w_step w <= w_step w')%nat.

Lemma emit_quiet ev w w' u : run (emit s ev) w = (w', Ok u) -> quiet w w'.
Proof. rewrite ok_emit. intros ->. destruct (as_events s); split; simpl; auto with lia. Qed.

Lemma run_emit ev w : exists w', run (emit s ev) w = (w', Ok tt) /\ quiet w w'.
Proof.
  unfold emit. destruct (as_events s); eexists; (split; [reflexivity|]); split; simpl; auto.
Qed.

Lemma generateJWT_quiet t c u sc d w w' tok :
  run (generateJWT s t c u sc d) w = (w', Ok tok) -> quiet w w'.
Proof. unfold generateJWT. intros E. go_ok. split; [congruence|lia]. Qed.

Lemma GenerateIDToken_quiet u p w w' tok :
  run (GenerateIDToken s u p) w = (w', Ok tok) -> quiet w w'.
Proof. unfold GenerateIDToken. intros E. go_ok; (split; [congruence|lia]). Qed.

(** The token and refresh token rows issueTokens stores. *)
Definition issued_access (tenantID : uuid) (client : Client) (userID : uuid) (scope : string)
    (familyID : uuid) (token : string) (t : AccessToken) : Prop :=
  at_TenantID t = tenantID /\ at_Token t = hashToken token /\ at_ClientID t = cl_ID client /\
  at_UserID t = userID /\ at_FamilyID t = familyID /\ at_Scope t = scope.

Definition issued_refresh (tenantID : uuid) (client : Client) (userID : uuid) (scope : string)
    (familyID : uuid) (auth : authContext) (token : string) (t : RefreshToken) : Prop :=
  rt_TenantID t = tenantID /\ rt_Token t = hashToken token /\ rt_ClientID t = cl_ID client /\
  rt_UserID t = userID /\ rt_FamilyID t = familyID /\ rt_Scope t = scope /\
  rt_AuthTime t = au_authTime auth /\ rt_AMR t = au_amr auth /\ rt_RevokedAt t = None.

(** An INSERT that went through used a fresh token hash. *)
Lemma access_no_clash a l :
  existsb (clashes a) l = false -> forall x, x ∈ l -> at_Token x <> at_Token a.
Proof.
  intros Hc x Hx Heq. specialize (existsb_false _ _ Hc x Hx). unfold clashes. simpl.
  rewrite Heq, (bool_decide_eq_true_2 (at_Token a = at_Token a)) by done. by rewrite orb_true_r.
Qed.
Lemma refresh_no_clash a l :
  existsb (clashes a) l = false -> forall x, x ∈ l -> rt_Token x <> rt_Token a.
Proof.
  intros Hc x Hx Heq. specialize (existsb_false _ _ Hc x Hx). unfold clashes. simpl.
  rewrite Heq, (bool_decide_eq_true_2 (rt_Token a = rt_Token a)) by done. by rewrite orb_true_r.
Qed.

(** A successful issueTokens appends one access token and one refresh token
    of the family, and changes no other table. *)
Lemma issueTokens_ok t client u scope family auth w w' resp :
  run (issueTokens s t client u scope family true true auth) w = (w', Ok resp) ->
  (w_step w < w_step w')%nat /\
  exists acc ref,
    issued_access t client u scope family (tr_AccessToken resp) acc /\
    issued_refresh t client u scope family auth (tr_RefreshToken resp) ref /\
    w_db w' = (w_db w) <| db_accessTokens := db_accessTokens (w_db w) ++ [acc] |>
                     <| db_refreshTokens := db_refreshTokens (w_db w) ++ [ref] |> /\
    (forall x, x ∈ db_accessTokens (w_db w) -> at_Token x <> at_Token acc) /\
    (forall x, x ∈ db_refreshTokens (w_db w) -> rt_Token x <> rt_Token ref) /\
    tr_Scope resp = scope /\ tr_TokenType resp = "Bearer".
Proof.
  unfold issueTokens. intros E. go_ok.
  all: repeat match goal with
       | He : run (emit s _) _ = _ |- _ => apply emit_quiet in He as [? ?]
       | He : run (generateJWT s _ _ _ _ _) _ = _ |- _ => apply generateJWT_quiet in He as [? ?]
       | He : run (GenerateIDToken s _ _) _ = _ |- _ => apply GenerateIDToken_quiet in He as [? ?]
       end.
  all: use_dbs.
  all: match goal with
       | Ha : ?acc = row_stamp _ (MkAccessToken _ _ _ _ _ _ _ _ _),
         Hr : ?ref = row_stamp _ (MkRefreshToken _ _ _ _ _ _ _ _ _ _ _ _),
         Hc : existsb (clashes ?acc) _ = false, Hc' : existsb (clashes ?ref) _ = false |- _ =>
         split; [lia|]; exists acc, ref;
         pose proof (access_no_clash _ _ Hc); pose proof (refresh_no_clash _ _ Hc'); subst
       end.
  all: repeat split; assumption.
Qed.
(** Consume claims the unused row, or returns the used one unchanged. *)
Definition is_code (tenantID : uuid) (code : string) (c : AuthorizationCode) : Prop :=
  ac_TenantID c = tenantID /\ ac_Code c = code.
Definition claim_code (tenantID : uuid) (code : string) (now : Z) (c : AuthorizationCode)
    : AuthorizationCode :=
  if (ac_TenantID c ==? tenantID) && (ac_Code c ==? code) && is_none (ac_UsedAt c)
  then c <| ac_UsedAt := Some now |> else c.

Lemma Consume_ok t code w w' c r :
  run (AuthCodeRepo.Consume t code) w = (w', Ok (c, r)) ->
  (w_step w < w_step w')%nat /\
  match r with
  | None =>
    exists c0, let now := env_now (w_step w) in
      c0 ∈ db_authCodes (w_db w) /\ is_code t code c0 /\ ac_UsedAt c0 = None /\
      c = c0 <| ac_UsedAt := Some now |> /\
      w_db w' = (w_db w) <| db_authCodes := map (claim_code t code now) (db_authCodes (w_db w)) |>
  | Some e =>
    e = ErrAuthCodeAlreadyUsed /\ w_db w' = w_db w /\
    c ∈ db_authCodes (w_db w) /\ is_code t code c /\ is_Some (ac_UsedAt c)
  end.
Proof.
  intros E. go_ok.
  - match goal with H : [] = _ |- _ => apply eq_sym, update_where_nil in H as [Hn Hl] end.
    match goal with H : first_where _ _ = _ |- _ => apply first_where_Some in H as (Hin & Hp & _) end.
    rewrite Hl in *. use_dbs. rewrite set_rows_rows in *. bool_simp. subst.
    specialize (Hn _ Hin). rewrite !bool_decide_eq_true_2 in Hn by done. simpl in Hn.
    rewrite andb_true_r in Hn. unfold is_none in Hn. apply negb_false_iff in Hn.
    repeat split; try done; [lia|]. by destruct (ac_UsedAt x3).
  - match goal with H : _ :: _ = _ |- _ =>
      apply eq_sym, update_where_cons in H as (c0 & Hin & Hp & _ & ->) end.
    use_dbs. bool_simp. subst. split; [lia|]. exists c0.
    repeat split; try done.
    + by destruct (ac_UsedAt c0).
    + by rewrite update_where_hard.
Qed.

Lemma ValidatePKCE_true v c m :
  ValidatePKCE v c m = true -> m = "S256" /\ base64_raw_url (sha256 v) = c.
Proof. unfold ValidatePKCE, ConstantTimeCompare. case_match; [done|]. by intros ?; bool_simp. Qed.

Lemma pkce_passed v c m :
  (c !=? "") && (v ==? "") = false -> (c !=? "") && negb (ValidatePKCE v c m) = false ->
  c <> "" -> v <> "" /\ m = "S256" /\ base64_raw_url (sha256 v) = c.
Proof.
  intros Hv Hp Hc. rewrite (bool_decide_eq_false_2 _ Hc) in Hv, Hp. simpl in Hv, Hp. bool_simp.
  split; [done|]. by apply ValidatePKCE_true.
Qed.

(** *** Revoking a family *)

Definition of_family_a (tenantID familyID : uuid) (t : AccessToken) : bool :=
  (at_TenantID t ==? tenantID) && (at_FamilyID t ==? familyID).
Definition of_family_r (tenantID familyID : uuid) (t : RefreshToken) : bool :=
  (rt_TenantID t ==? tenantID) && (rt_FamilyID t ==? familyID).
Definition drop_family (tenantID familyID : uuid) (db : DB) : DB :=
  db <| db_refreshTokens := filter (fun t => negb (of_family_r tenantID familyID t)) (db_refreshTokens db) |>
     <| db_accessTokens := filter (fun t => negb (of_family_a tenantID familyID t)) (db_accessTokens db) |>.

(** No statement from [w] on fails. *)
Definition healthy (w : World) : Prop := forall n, (w_step w <= n)%nat -> env_fault n = false.

Lemma healthy_later w w' : (w_step w <= w_step w')%nat -> healthy w -> healthy w'.
Proof. intros Hle Hw n Hn. apply Hw. lia. Qed.

Lemma run_revokeTokenFamily t f w :
  exists w', run (revokeTokenFamily t f) w = (w', Ok tt) /\ (w_step w <= w_step w')%nat /\
             (healthy w -> w_db w' = drop_family t f (w_db w)).
Proof.
  unfold revokeTokenFamily, RefreshTokenRepo.DeleteByFamilyID, AccessTokenRepo.DeleteByFamilyID.
  rewrite run_bind, run_ignore. unfold wrap. rewrite run_map_err, run_DeleteWhere.
  destruct (env_fault (w_step w)) eqn:E1; cbv beta iota;
    rewrite run_ignore, run_map_err, run_DeleteWhere;
    destruct (env_fault (w_step _)) eqn:E2 in |- *; cbv beta iota;
    (eexists; split; [reflexivity|]; split; [simpl; lia|]); intros Hw.
  all: try (rewrite Hw in E1 by lia; done).
  all: try (rewrite Hw in E2 by (simpl; lia); done).
  rewrite !delete_where_hard by done. done.
Qed.

(** Without a database failure Consume answers for a code that is stored. *)
Lemma Consume_answers t code w c :
  healthy w -> c ∈ db_authCodes (w_db w) -> is_code t code c ->
  exists w' r, run (AuthCodeRepo.Consume t code) w = (w', Ok r).
Proof.
  intros Hw Hc [Ht Hcode].
  enough (Hwp : wp (AuthCodeRepo.Consume t code) (fun o _ => exists r, o = Ok r) w).
  { unfold wp in Hwp. destruct (run _ w) as [w' o], Hwp as [r Hr]. simpl in Hr. subst. eauto. }
  unfold AuthCodeRepo.Consume, AuthCodeRepo.GetByCode, get_by, UpdateWhere, First.
  repeat progress (autorewrite with wp; cbn [kont]). rewrite Hw by (simpl; lia).
  cbv zeta. cbn [kont fst snd].
  match goal with |- wp (match ?l with _ => _ end) _ _ => destruct l eqn:E end;
    repeat progress (autorewrite with wp; cbn [kont]); [|by eauto].
  rewrite Hw by (simpl; lia). apply update_where_nil in E as [_ E].
  cbn -[first_where update_where] in *. rewrite E.
  match goal with |- context [first_where ?p ?l] => destruct (first_where p l) eqn:E' end;
    repeat progress (autorewrite with wp; cbn [kont]); [by eauto|].
  rewrite first_where_None in E'.
  specialize (E' c Hc eq_refl). rewrite !bool_decide_eq_true_2 in E' by done. done.
Qed.

Lemma Consume_safe t code : safe (AuthCodeRepo.Consume t code).
Proof. go_safe. Qed.

(** ** The authorization code grant *)

(** What a successful exchange has checked and done. *)
Lemma exchange_ok t code clientID secret redirect verifier w w' resp :
  run (ExchangeAuthorizationCode s t code clientID secret redirect verifier) w = (w', Ok resp) ->
  exists c client n acc ref,
    (forall x, x ∈ db_accessTokens (w_db w) -> at_Token x <> at_Token acc) /\
    (forall x, x ∈ db_refreshTokens (w_db w) -> rt_Token x <> rt_Token ref) /\
    c ∈ db_authCodes (w_db w) /\ is_code t code c /\ ac_UsedAt c = None /\
    (w_step w <= n < w_step w')%nat /\ AuthorizationCode_IsExpired (env_now n) c = false /\
    uuid_String (ac_ClientID c) = clientID /\ ac_RedirectURI c = redirect /\
    (ac_CodeChallenge c <> "" ->
       verifier <> "" /\ ac_CodeChallengeMethod c = "S256" /\
       base64_raw_url (sha256 verifier) = ac_CodeChallenge c) /\
    client ∈ db_clients (w_db w) /\ cl_TenantID client = t /\ cl_ID client = ac_ClientID c /\
    row_live client = true /\
    issued_access t client (ac_UserID c) (ac_Scope c) (ac_ID c) (tr_AccessToken resp) acc /\
    issued_refresh t client (ac_UserID c) (ac_Scope c) (ac_ID c)
      (MkAuthContext GrantTypeAuthorizationCode (ac_AuthTime c) (ac_AMR c) (ac_Nonce c))
      (tr_RefreshToken resp) ref /\
    w_db w' = (w_db w) <| db_authCodes := map (claim_code t code (env_now (w_step w))) (db_authCodes (w_db w)) |>
                     <| db_accessTokens := db_accessTokens (w_db w) ++ [acc] |>
                     <| db_refreshTokens := db_refreshTokens (w_db w) ++ [ref] |>.
Proof.
  unfold ExchangeAuthorizationCode. intros E.
  repeat step_ok. match goal with H : run (AuthCodeRepo.Consume _ _) _ = _ |- _ =>
    apply Consume_ok in H as (? & c & ? & ? & ? & -> & ?) end.
  match goal with H : run (issueTokens _ _ _ _ _ _ _ _ _) _ = _ |- _ =>
    apply issueTokens_ok in H as (? & acc & ref & ? & ? & ? & ? & ? & ?) end.
  go_ok. match goal with H : first_where _ _ = Some ?cl |- _ =>
    apply first_where_Some in H as (? & ? & ?); rename cl into client end.
  use_dbs. bool_simp. exists c, client, (w_step x0), acc, ref.
  split_and!; try done; try lia; [by subst | by apply pkce_passed].
Qed.

(** C1: a code is exchanged only when it is stored, unused, unexpired, bound
    to the client and redirect URI of the request and, when it carries a
    PKCE challenge, the verifier hashes to it. The exchange marks the code
    used, stores one access and one refresh token row that carry the code's
    subject and scope and the code's ID as family, and changes nothing else
    in the database. *)
Theorem ExchangeAuthorizationCode_sound t code clientID secret redirect verifier w w' resp :
  run (ExchangeAuthorizationCode s t code clientID secret redirect verifier) w = (w', Ok resp) ->
  exists c client n acc ref,
    c ∈ db_authCodes (w_db w) /\ is_code t code c /\ ac_UsedAt c = None /\
    (w_step w <= n < w_step w')%nat /\ AuthorizationCode_IsExpired (env_now n) c = false /\
    uuid_String (ac_ClientID c) = clientID /\ ac_RedirectURI c = redirect /\
    (ac_CodeChallenge c <> "" ->
       verifier <> "" /\ ac_CodeChallengeMethod c = "S256" /\
       base64_raw_url (sha256 verifier) = ac_CodeChallenge c) /\
    client ∈ db_clients (w_db w) /\ cl_TenantID client = t /\ cl_ID client = ac_ClientID c /\
    row_live client = true /\
    issued_access t client (ac_UserID c) (ac_Scope c) (ac_ID c) (tr_AccessToken resp) acc /\
    issued_refresh t client (ac_UserID c) (ac_Scope c) (ac_ID c)
      (MkAuthContext GrantTypeAuthorizationCode (ac_AuthTime c) (ac_AMR c) (ac_Nonce c))
      (tr_RefreshToken resp) ref /\
    w_db w' = (w_db w) <| db_authCodes := map (claim_code t code (env_now (w_step w))) (db_authCodes (w_db w)) |>
                     <| db_accessTokens := db_accessTokens (w_db w) ++ [acc] |>
                     <| db_refreshTokens := db_refreshTokens (w_db w) ++ [ref] |>.
Proof.
  intros (c & client & n & acc & ref & _ & _ & Hall)%exchange_ok. by exists c, client, n, acc, ref.
Qed.

(** Presenting a used code. *)
Lemma used_code_rejected t code c clientID secret redirect verifier w w' r :
  c ∈ db_authCodes (w_db w) -> is_code t code c -> is_Some (ac_UsedAt c) ->
  (forall c', c' ∈ db_authCodes (w_db w) -> is_code t code c' -> c' = c) ->
  run (ExchangeAuthorizationCode s t code clientID secret redirect verifier) w = (w', r) ->
  r = Err ErrInvalidGrant /\ (healthy w -> w_db w' = drop_family t (ac_ID c) (w_db w)).
Proof.
  intros Hc Hcode Hused Huniq. unfold ExchangeAuthorizationCode. rewrite run_bind, run_attempt.
  destruct (run (AuthCodeRepo.Consume t code) w) as [w1 [[c' o]|e|]] eqn:E.
  - destruct (Consume_ok _ _ _ _ _ _ E) as [Hs Hr]. destruct o as [e|].
    + destruct Hr as (-> & Hdb & Hc' & Hcode' & _).
      rewrite (Huniq c' Hc' Hcode'). cbv beta iota. rewrite run_bind.
      rewrite bool_decide_eq_true_2 by done. rewrite run_bind.
      destruct (run_revokeTokenFamily t (ac_ID c) w1) as (w2 & -> & Hs2 & Hdb2).
      cbv beta iota. destruct (run_emit ((token_event TokenEventReuseDetected t (ac_ClientID c))
        <|tv_UserID := userRef (ac_UserID c)|> <|tv_FamilyID := ac_ID c|>
        <|tv_Credential := CredentialAuthorizationCode|>) w2) as (w3 & -> & Hdb3 & Hs3).
      intros [= <- <-]. split; [done|]. intros Hw. rewrite Hdb3, Hdb2, Hdb; [done|].
      eapply healthy_later, Hw. lia.
    + destruct Hr as (c0 & Hc0 & Hcode0 & Hnone & _).
      rewrite (Huniq c0 Hc0 Hcode0) in Hnone. rewrite Hnone in Hused. by destruct Hused.
  - intros [= <- <-]. split; [done|]. intros Hw.
    destruct (Consume_answers _ _ _ _ Hw Hc Hcode) as (? & ? & E'). congruence.
  - exfalso. apply (Consume_safe t code w). by rewrite E.
Qed.

(** A family's rows are gone, rows issued with a fresh token with them. *)
Lemma drop_family_access t f db l acc x :
  db_accessTokens db = l ++ [acc] -> (forall y, y ∈ l -> at_Token y <> at_Token acc) ->
  at_TenantID acc = t -> at_FamilyID acc = f ->
  x ∈ db_accessTokens (drop_family t f db) ->
  at_Token x <> at_Token acc.
Proof.
  intros E Hfresh Ht Hf. simpl. rewrite list_elem_of_filter, E, elem_of_app, list_elem_of_singleton.
  intros [Hx [Hin| ->]]; [by apply Hfresh|]. unfold of_family_a in Hx.
  by rewrite !bool_decide_eq_true_2 in Hx.
Qed.
Lemma drop_family_refresh t f db l ref x :
  db_refreshTokens db = l ++ [ref] -> (forall y, y ∈ l -> rt_Token y <> rt_Token ref) ->
  rt_TenantID ref = t -> rt_FamilyID ref = f ->
  x ∈ db_refreshTokens (drop_family t f db) ->
  rt_Token x <> rt_Token ref.
Proof.
  intros E Hfresh Ht Hf. simpl. rewrite list_elem_of_filter, E, elem_of_app, list_elem_of_singleton.
  intros [Hx [Hin| ->]]; [by apply Hfresh|]. unfold of_family_r in Hx.
  by rewrite !bool_decide_eq_true_2 in Hx.
Qed.

Lemma claim_code_is t code now c : is_code t code (claim_code t code now c) <-> is_code t code c.
Proof. unfold claim_code. by case_match. Qed.
Lemma claim_code_used t code now c :
  is_code t code c -> ac_UsedAt c = None -> claim_code t code now c = c <| ac_UsedAt := Some now |>.
Proof. intros [Ht Hc] Hu. unfold claim_code. by rewrite Ht, Hc, !bool_decide_eq_true_2, Hu. Qed.

(** The unique index on authorization_codes.code. *)
Definition codes_unique (db : DB) : Prop := NoDup (ac_Code <$> db_authCodes db).

Lemma codes_unique_eq db c c' t code :
  codes_unique db -> c ∈ db_authCodes db -> c' ∈ db_authCodes db ->
  is_code t code c -> is_code t code c' -> c' = c.
Proof.
  intros Hu Hc Hc' [_ E1] [_ E2]. apply list_elem_of_lookup in Hc as [i Hi], Hc' as [j Hj].
  assert (i = j) as ->; [|congruence].
  eapply (NoDup_lookup _ i j code); [exact Hu| |];
    rewrite list_lookup_fmap, ?Hi, ?Hj; simpl; congruence.
Qed.


(** ** Refresh token rotation *)

Definition is_refresh (tenantID : uuid) (token : string) (r : RefreshToken) : Prop :=
  rt_TenantID r = tenantID /\ rt_Token r = hashToken token.
Definition revoke_token (tenantID : uuid) (tokenHash : string) (now : Z) (r : RefreshToken)
    : RefreshToken :=
  if (rt_TenantID r ==? tenantID) && (rt_Token r ==? tokenHash) && is_none (rt_RevokedAt r)
  then r <| rt_RevokedAt := Some now |> else r.

Lemma Revoke_ok t h w w' b :
  run (RefreshTokenRepo.Revoke t h) w = (w', Ok b) ->
  (w_step w < w_step w')%nat /\
  w_db w' = (w_db w) <| db_refreshTokens :=
              map (revoke_token t h (env_now (w_step w))) (db_refreshTokens (w_db w)) |>.
Proof. intros E. go_ok. use_dbs. split; [lia|]. subst. by rewrite update_where_hard. Qed.

Lemma revoke_token_Token t h now r : rt_Token (revoke_token t h now r) = rt_Token r.
Proof. unfold revoke_token. by case_match. Qed.

(** What a successful refresh has checked and done. *)
Lemma refresh_ok t token clientID requested w w' resp :
  run (RefreshTokens s t token clientID requested) w = (w', Ok resp) ->
  exists r client n m acc ref,
    let scope := if requested !=? "" then requested else rt_Scope r in
    (forall x, x ∈ db_accessTokens (w_db w) -> at_Token x <> at_Token acc) /\
    (forall x, x ∈ db_refreshTokens (w_db w) -> rt_Token x <> rt_Token ref) /\
    r ∈ db_refreshTokens (w_db w) /\ is_refresh t token r /\ rt_RevokedAt r = None /\
    (w_step w <= n < w_step w')%nat /\ RefreshToken_IsExpired (env_now n) r = false /\
    uuid_String (rt_ClientID r) = clientID /\
    (requested <> "" -> ScopeIsSubset requested (rt_Scope r) = true) /\
    client ∈ db_clients (w_db w) /\ cl_TenantID client = t /\ cl_ID client = rt_ClientID r /\
    row_live client = true /\
    issued_access t client (rt_UserID r) scope (rt_FamilyID r) (tr_AccessToken resp) acc /\
    issued_refresh t client (rt_UserID r) scope (rt_FamilyID r)
      (MkAuthContext GrantTypeRefreshToken (rt_AuthTime r) (rt_AMR r) "")
      (tr_RefreshToken resp) ref /\
    w_db w' = (w_db w) <| db_accessTokens := db_accessTokens (w_db w) ++ [acc] |>
      <| db_refreshTokens :=
           map (revoke_token t (hashToken token) (env_now m)) (db_refreshTokens (w_db w)) ++ [ref] |>.
Proof.
  unfold RefreshTokens. intros E. repeat step_ok.
  match goal with H : run (issueTokens _ _ _ _ _ _ _ _ _) _ = _ |- _ =>
    apply issueTokens_ok in H as (? & acc & ref & ? & ? & ? & ? & Hfr & ?) end.
  match goal with H : run (RefreshTokenRepo.Revoke _ _) _ = _ |- _ => apply Revoke_ok in H as [? ?] end.
  go_ok. repeat match goal with H : first_where _ _ = Some _ |- _ =>
    apply first_where_Some in H as (? & ? & ?) end.
  use_dbs. bool_simp.
  exists x, x3, (w_step x0), (w_step x4), acc, ref.
  split_and!; try done; try lia; try (by subst).
  - intros y Hy. specialize (Hfr (revoke_token t (rt_Token x) (env_now (w_step x4)) y)).
    rewrite revoke_token_Token in Hfr. by apply Hfr, list_elem_of_fmap_2.
  - match goal with H : RefreshToken_IsRevoked x = false |- _ => unfold RefreshToken_IsRevoked in H end.
    by destruct (rt_RevokedAt x).
  - intros Hreq. rewrite (bool_decide_eq_false_2 _ Hreq) in *. simpl in *. by bool_simp.
  - by replace (rt_Token x) with (hashToken token).
Qed.

(** C2: a refresh token is exchanged only when it is stored, unrevoked,
    unexpired, bound to the client of the request, and for scopes among
    those it was granted. The exchange revokes it and stores a new pair of
    the same family, user and client; nothing else in the database changes. *)
Theorem RefreshTokens_sound t token clientID requested w w' resp :
  run (RefreshTokens s t token clientID requested) w = (w', Ok resp) ->
  exists r client n m acc ref,
    let scope := if requested !=? "" then requested else rt_Scope r in
    r ∈ db_refreshTokens (w_db w) /\ is_refresh t token r /\ rt_RevokedAt r = None /\
    (w_step w <= n < w_step w')%nat /\ RefreshToken_IsExpired (env_now n) r = false /\
    uuid_String (rt_ClientID r) = clientID /\
    (forall sc, sc ∈ ParseScope scope -> sc ∈ ParseScope (rt_Scope r)) /\
    client ∈ db_clients (w_db w) /\ cl_TenantID client = t /\ cl_ID client = rt_ClientID r /\
    row_live client = true /\
    issued_access t client (rt_UserID r) scope (rt_FamilyID r) (tr_AccessToken resp) acc /\
    issued_refresh t client (rt_UserID r) scope (rt_FamilyID r)
      (MkAuthContext GrantTypeRefreshToken (rt_AuthTime r) (rt_AMR r) "")
      (tr_RefreshToken resp) ref /\
    w_db w' = (w_db w) <| db_accessTokens := db_accessTokens (w_db w) ++ [acc] |>
      <| db_refreshTokens :=
           map (revoke_token t (hashToken token) (env_now m)) (db_refreshTokens (w_db w)) ++ [ref] |>.
Proof.
  intros (r & client & n & m & acc & ref & _ & _ & Hr & His & Hrev & Hn & Hexp & Hc & Hsub & Hall)
    %refresh_ok.
  exists r, client, n, m, acc, ref. do 6 (split; [done|]). split; [|done].
  case_bool_decide as Hreq; [done|]. apply ScopeIsSubset_elem, Hsub, Hreq.
Qed.

Definition refresh_unique (db : DB) : Prop := NoDup (rt_Token <$> db_refreshTokens db).
Lemma refresh_unique_eq db r r' t token :
  refresh_unique db -> r ∈ db_refreshTokens db -> r' ∈ db_refreshTokens db ->
  is_refresh t token r -> is_refresh t token r' -> r' = r.
Proof.
  intros Hu Hr Hr' [_ E1] [_ E2]. apply list_elem_of_lookup in Hr as [i Hi], Hr' as [j Hj].
  assert (i = j) as ->; [|congruence].
  eapply (NoDup_lookup _ i j (hashToken token)); [exact Hu| |];
    rewrite list_lookup_fmap, ?Hi, ?Hj; simpl; congruence.
Qed.

Lemma run_refreshTokenReused t r w :
  exists w', run (refreshTokenReused s t r) w = (w', Ok tt) /\
             (healthy w -> w_db w' = drop_family t (rt_FamilyID r) (w_db w)).
Proof.
  unfold refreshTokenReused. rewrite run_bind.
  destruct (run_revokeTokenFamily t (rt_FamilyID r) w) as (w1 & -> & _ & Hdb).
  cbv beta iota. edestruct run_emit as (w2 & -> & Hdb2 & _).
  exists w2. split; [done|]. intros Hw. by rewrite Hdb2, Hdb.
Qed.

(** Presenting a revoked refresh token. *)
Lemma revoked_refresh_rejected t token r clientID requested w w' o :
  r ∈ db_refreshTokens (w_db w) -> is_refresh t token r -> is_Some (rt_RevokedAt r) ->
  (forall r', r' ∈ db_refreshTokens (w_db w) -> is_refresh t token r' -> r' = r) ->
  run (RefreshTokens s t token clientID requested) w = (w', o) ->
  o = Err ErrInvalidGrant /\ (healthy w -> w_db w' = drop_family t (rt_FamilyID r) (w_db w)).
Proof.
  intros Hr His Hrev Huniq. unfold RefreshTokens, or_err. rewrite run_bind, run_map_err.
  destruct (run (RefreshTokenRepo.GetByToken t (hashToken token)) w) as [w1 [r'|e|]] eqn:E.
  - go_ok. match goal with H : first_where _ _ = _ |- _ =>
      apply first_where_Some in H as (Hr' & ? & _) end. bool_simp.
    rewrite (Huniq r' Hr') in * by done. unfold RefreshToken_IsRevoked.
    destruct Hrev as [z Hz]. rewrite Hz. change (is_some (Some z)) with true. cbv iota.
    rewrite run_bind.
    destruct (run_refreshTokenReused t r w1) as (w2 & -> & Hdb).
    intros [= <- <-]. split; [done|]. intros Hw. rewrite Hdb; [congruence|].
    eapply healthy_later, Hw. lia.
  - intros [= <- <-]. split; [done|]. intros Hw. exfalso.
    edestruct (get_by_found "failed to get refresh token" ErrRefreshTokenNotFound
      (fun x => (rt_TenantID x ==? t) && (rt_Token x ==? hashToken token)) w r) as [r' Hr'];
      [by apply Hw | done | | done |].
    + destruct His as [-> ->]. by rewrite !bool_decide_eq_true_2.
    + unfold RefreshTokenRepo.GetByToken in E. congruence.
  - exfalso. apply (safe_get_by "failed to get refresh token" ErrRefreshTokenNotFound
      (fun x => (rt_TenantID x ==? t) && (rt_Token x ==? hashToken token)) w).
    unfold RefreshTokenRepo.GetByToken in E. by rewrite E.
Qed.

Lemma family_gone t f db :
  (forall x, x ∈ db_accessTokens (drop_family t f db) -> of_family_a t f x = false) /\
  (forall x, x ∈ db_refreshTokens (drop_family t f db) -> of_family_r t f x = false).
Proof.
  by split; intros x; simpl; rewrite list_elem_of_filter; intros [Hx%Is_true_true%negb_true_iff _].
Qed.

Lemma revoke_token_unrevoked t token now r :
  is_refresh t token r -> rt_RevokedAt r = None ->
  revoke_token t (hashToken token) now r = r <| rt_RevokedAt := Some now |>.
Proof.
  intros [Ht Hk] Hn. unfold revoke_token. by rewrite !bool_decide_eq_true_2, Hn.
Qed.

(** A rotation keeps the unique index on the token hash. *)
Lemma rotated_unique t h now l ref db db' :
  refresh_unique db -> db_refreshTokens db = l ->
  (forall x, x ∈ l -> rt_Token x <> rt_Token ref) ->
  db_refreshTokens db' = map (revoke_token t h now) l ++ [ref] -> refresh_unique db'.
Proof.
  unfold refresh_unique. intros Hu Hl Hf ->. subst l. rewrite fmap_app, <-list_fmap_compose.
  rewrite (list_fmap_ext _ rt_Token) by (intros; apply revoke_token_Token).
  apply list.NoDup_app. split; [done|]. split; [|apply NoDup_singleton].
  intros y (x & -> & Hx)%list_elem_of_fmap E%list_elem_of_singleton. by apply (Hf x).
Qed.

(** C4: a refresh token that has been exchanged is worth nothing, and
    presenting it again costs the whole family. The exchange leaves the
    token's row revoked and stores its new pair in the family of that row.
    From then on, in every database that still holds the revoked row, with
    any number of later rotations and siblings, presenting the token again,
    by any client and for any scope, fails with invalid_grant; and unless
    the database fails, the refresh and access tokens of the family are
    deleted, all of them, and nothing else in the database changes. *)
Theorem RefreshTokens_reuse t token cid req w w1 resp :
  refresh_unique (w_db w) ->
  run (RefreshTokens s t token cid req) w = (w1, Ok resp) ->
  exists r acc ref,
    refresh_unique (w_db w1) /\
    r ∈ db_refreshTokens (w_db w1) /\ is_refresh t token r /\ is_Some (rt_RevokedAt r) /\
    acc ∈ db_accessTokens (w_db w1) /\ at_Token acc = hashToken (tr_AccessToken resp) /\
    of_family_a t (rt_FamilyID r) acc = true /\
    ref ∈ db_refreshTokens (w_db w1) /\ rt_Token ref = hashToken (tr_RefreshToken resp) /\
    of_family_r t (rt_FamilyID r) ref = true /\
    forall cid' req' w2 w3 o,
      refresh_unique (w_db w2) -> r ∈ db_refreshTokens (w_db w2) ->
      run (RefreshTokens s t token cid' req') w2 = (w3, o) ->
      o = Err ErrInvalidGrant /\
      (healthy w2 ->
         w_db w3 = drop_family t (rt_FamilyID r) (w_db w2) /\
         (forall x, x ∈ db_accessTokens (w_db w3) -> of_family_a t (rt_FamilyID r) x = false) /\
         (forall x, x ∈ db_refreshTokens (w_db w3) -> of_family_r t (rt_FamilyID r) x = false) /\
         (w_db w2 = w_db w1 ->
          (forall x, x ∈ db_accessTokens (w_db w3) ->
                     at_Token x <> hashToken (tr_AccessToken resp)) /\
          (forall x, x ∈ db_refreshTokens (w_db w3) ->
                     rt_Token x <> hashToken (tr_RefreshToken resp)))).
Proof.
  intros Hu Hrun.
  apply refresh_ok in Hrun as (r & client & n & m & acc & ref & Hfa & Hfr & Hr & His & Hnone & _ & _
    & _ & _ & _ & _ & _ & _ & (Hat & Hatok & _ & _ & Haf & _) & (Hrt & Hrtok & _ & _ & Hrf & _)
    & Hdb1).
  set (rev := revoke_token t (hashToken token) (env_now m)) in *.
  assert (Hrevoked : rev r = r <| rt_RevokedAt := Some (env_now m) |>)
    by (by apply revoke_token_unrevoked).
  assert (Hold : is_refresh t token (rev r)) by (by rewrite Hrevoked).
  assert (Hf : rt_FamilyID (rev r) = rt_FamilyID r) by (by rewrite Hrevoked).
  exists (rev r), acc, ref. split.
  { eapply rotated_unique; [exact Hu|done|exact Hfr|]. by rewrite Hdb1. }
  assert (Hin : rev r ∈ db_refreshTokens (w_db w1)).
  { rewrite Hdb1. simpl. apply elem_of_app. left. by apply list_elem_of_fmap_2. }
  split_and!; try done; try (by rewrite Hrevoked); try (by rewrite Hdb1; simpl; set_solver);
    try (unfold of_family_a, of_family_r; by rewrite Hf, !bool_decide_eq_true_2).
  intros cid' req' w2 w3 o Hu2 Hin2 Hrun2.
  destruct (revoked_refresh_rejected t token (rev r) cid' req' w2 w3 o) as [-> Hdb3]; try done.
  - by rewrite Hrevoked.
  - intros r' Hr' His'. by apply (refresh_unique_eq (w_db w2) _ _ t token).
  - split; [done|]. intros Hw. rewrite Hdb3 by done. split; [done|].
    split; [apply family_gone|]. split; [apply family_gone|]. intros ->.
    rewrite Hdb1, <-Hatok, <-Hrtok, Hf. split; intros x;
      [by apply drop_family_access with (db_accessTokens (w_db w))|].
    apply drop_family_refresh with (map rev (db_refreshTokens (w_db w))); try done.
    intros y (y0 & -> & Hy0)%list_elem_of_fmap. unfold rev. rewrite revoke_token_Token.
    by apply Hfr.
Qed.
End Blocks.

(** ** Witnesses *)

Lemma ExchangeAuthorizationCode_sound_witness :
  let w := example_world example_db in
  exists c, c ∈ db_authCodes (w_db w) /\ ac_UsedAt c = None /\
            (exists n, AuthorizationCode_IsExpired (env_now n) c = false) /\
            base64_raw_url (sha256 example_verifier) = ac_CodeChallenge c.
Proof.
  intros w.
  assert (E : run example_exchange w = (after example_exchange w,
    Ok (ok_of no_response (run example_exchange w).2))) by (vm_compute; reflexivity).
  destruct (ExchangeAuthorizationCode_sound example_service 1 "code" (uuid_String 7) ""
    "https://app/cb" example_verifier w _ _ E)
    as (c & client & n & acc & ref & Hc & _ & Hu & _ & Hexp & _ & _ & Hp & _).
  exists c. split; [exact Hc|]. split; [exact Hu|]. split; [by exists n|].
  apply Hp. apply list_elem_of_singleton in Hc. subst c. vm_compute. discriminate.
Defined.


Lemma RefreshTokens_sound_witness :
  let w := example_world example_db in
  exists r, r ∈ db_refreshTokens (w_db w) /\ rt_RevokedAt r = None /\
            forall sc, sc ∈ ParseScope "read" -> sc ∈ ParseScope (rt_Scope r).
Proof.
  intros w.
  assert (E : run example_refreshing w = (after example_refreshing w,
    Ok (ok_of no_response (run example_refreshing w).2))) by (vm_compute; reflexivity).
  destruct (RefreshTokens_sound example_service 1 "refresh" (uuid_String 7) "read" w _ _ E)
    as (r & client & n & m & acc & ref & Hr & _ & Hrev & _ & _ & _ & Hsub & _).
  exists r. auto.
Defined.

(** The token is exchanged, its successor is exchanged too, and then the
    first token is presented again: all three generations are gone. *)
Lemma RefreshTokens_reuse_witness :
  let w := example_world example_db in
  let w1 := after example_refreshing w in
  let w2 := after (RefreshTokens example_service 1
                     (tr_RefreshToken (ok_of no_response (run example_refreshing w).2))
                     (uuid_String 7) "read") w1 in
  length (db_refreshTokens (w_db w2)) = 3%nat /\
  (run example_refreshing w2).2 = Err ErrInvalidGrant /\
  exists f,
    (forall x, x ∈ db_accessTokens (w_db (after example_refreshing w2)) ->
               of_family_a 1 f x = false) /\
    (forall x, x ∈ db_refreshTokens (w_db w2) -> of_family_r 1 f x = true).
Proof.
  intros w w1 w2.
  assert (E : run example_refreshing w = (w1, Ok (ok_of no_response (run example_refreshing w).2)))
    by (vm_compute; reflexivity).
  assert (Hu : refresh_unique (w_db w)) by apply NoDup_singleton.
  assert (Hu2 : refresh_unique (w_db w2)) by (apply (bool_decide_unpack _); vm_compute; reflexivity).
  assert (Hl : exists r1 r2 l, db_refreshTokens (w_db w1) = [r1; r2] /\
    db_refreshTokens (w_db w2) = r1 :: l /\ rt_Token r2 <> hashToken "refresh" /\
    length (r1 :: l) = 3%nat /\
    Is_true (forallb (of_family_r 1 (rt_FamilyID r1)) (r1 :: l))).
  { vm_compute. do 3 eexists. repeat split; discriminate. }
  clearbody w2. clearbody w1.
  destruct (RefreshTokens_reuse example_service 1 "refresh" (uuid_String 7) "read" w w1 _ Hu E)
    as (r & acc & ref & _ & Hr & [_ Htok] & _ & _ & _ & _ & _ & _ & _ & Hreuse).
  destruct Hl as (r1 & r2 & l & E1 & E2 & Hr2 & Hlen & Hall). rewrite E1 in Hr. rewrite E2.
  split; [exact Hlen|].
  apply elem_of_cons in Hr as [->|Hr%list_elem_of_singleton]; [|congruence].
  destruct (Hreuse (uuid_String 7) "read" w2 (after example_refreshing w2)
              (run example_refreshing w2).2) as [Ho Hgone];
    [exact Hu2|rewrite E2; apply list_elem_of_here|apply surjective_pairing|].
  split; [exact Ho|]. exists (rt_FamilyID r1). split; [apply Hgone; by intros n _|].
  apply forallb_True in Hall. intros x Hx. apply Is_true_true.
  exact (proj1 (List.Forall_forall _ _) Hall x (proj1 (list_elem_of_In _ _) Hx)).
Defined.
