(* ===== verification/TokenSpec.v ===== *)
(** Revocation, introspection, validation and exchange of issued tokens. *)
From S2P Require Import Prelude GoStd StringFacts Hash Models Effects Store Repos AccountRepos.
From S2P Require Import Libraries JwtKeys Scope AuthService DeviceFlow Examples AuthSpec.

Open Scope Z_scope.

(** ** Revocation (RFC 7009) *)

Definition refresh_key (tenantID : uuid) (token : string) (r : RefreshToken) : bool :=
  (rt_TenantID r ==? tenantID) && (rt_Token r ==? hashToken token).
Definition access_key (tenantID : uuid) (token : string) (a : AccessToken) : bool :=
  (at_TenantID a ==? tenantID) && (at_Token a ==? hashToken token).

(** What RevokeToken does to the database when no statement fails. *)
Definition revoke_access_spec (t : uuid) (token hint : string) (clientID : uuid) (db : DB) : DB :=
  match if (hint ==? "access_token") || (hint ==? "")
        then first_where (access_key t token) (db_accessTokens db) else None with
  | Some a =>
    if at_ClientID a ==? clientID
    then db <| db_accessTokens := filter (fun x => negb (access_key t token x)) (db_accessTokens db) |>
    else db
  | None => db
  end.
Definition revoke_spec (t : uuid) (token hint : string) (clientID : uuid) (db : DB) : DB :=
  match if (hint ==? "refresh_token") || (hint ==? "")
        then first_where (refresh_key t token) (db_refreshTokens db) else None with
  | Some r => if rt_ClientID r ==? clientID then drop_family t (rt_FamilyID r) db else db
  | None => revoke_access_spec t token hint clientID db
  end.

Section Tokens.
Context `{Env} `{UuidLib} `{JwtLib} `{UnicodeTables} (s : authServiceImpl).

(** The second half of RevokeToken: the token as an access token. *)
Definition revoke_access (t : uuid) (token hint : string) (clientID : uuid) : prog unit :=
  found ←
    (if (hint ==? "access_token") || (hint ==? "")
     then attempt (AccessTokenRepo.GetByToken t (hashToken token))
     else mret (inr (ErrAccessTokenNotFound : error)));
  match found with
  | inl accessToken =>
    if at_ClientID accessToken !=? clientID then mret tt
    else
      deleted ← attempt (AccessTokenRepo.Delete t (hashToken token));
      match deleted with
      | inr _ => mret tt
      | inl _ =>
        emit s ((token_event TokenEventRevoked t (at_ClientID accessToken))
                  <| tv_UserID := userRef (at_UserID accessToken) |>
                  <| tv_FamilyID := at_FamilyID accessToken |>)
      end
  | inr _ => mret tt
  end.

Lemma run_Delete_access t h w :
  run (AccessTokenRepo.Delete t h) w =
  if env_fault (w_step w) then (tick w, Err (EWrap "failed to delete access token" (EExternal "database")))
  else (wrote (filter (fun a => negb ((at_TenantID a ==? t) && (at_Token a ==? h)))
                 (db_accessTokens (w_db w))) w, Ok tt).
Proof.
  unfold AccessTokenRepo.Delete, wrap. rewrite run_map_err, run_DeleteWhere.
  destruct (env_fault (w_step w)); [done|]. by rewrite delete_where_hard.
Qed.

Lemma run_revoke_access t token hint clientID w :
  exists w', run (revoke_access t token hint clientID) w = (w', Ok tt) /\
    (healthy w -> w_db w' = revoke_access_spec t token hint clientID (w_db w)) /\
    ((forall a, a ∈ db_accessTokens (w_db w) -> access_key t token a = true ->
                at_ClientID a <> clientID) -> w_db w' = w_db w).
Proof.
  unfold revoke_access, revoke_access_spec, AccessTokenRepo.GetByToken. rewrite run_bind.
  destruct ((hint ==? "access_token") || (hint ==? "")); [|by eexists].
  rewrite run_attempt, run_get_by. fold (access_key t token). cbn [rows table_AccessToken].
  destruct (env_fault (w_step w)) eqn:Ef.
  { eexists. split; [done|]. split; [|done]. intros Hw. by rewrite Hw in Ef. }
  destruct (first_where (access_key t token) _) as [a|] eqn:E; [|by eexists].
  apply first_where_Some in E as (Ha & Hk & _). cbv beta iota.
  case_bool_decide as Hc; cbn [negb]; cbv iota; [|by eexists].
  rewrite run_bind, run_attempt, run_Delete_access.
  destruct (env_fault (w_step (tick w))) eqn:Ef'; cbv beta iota.
  - eexists. split; [done|]. split; [|done]. intros Hw. by rewrite Hw in Ef' by (simpl; lia).
  - edestruct run_emit as (w2 & -> & Hdb & _). exists w2. split; [done|].
    rewrite Hdb. split; [done|]. intros Hn. by destruct (Hn a Ha Hk).
Qed.


(** ** Introspection (RFC 7662) *)

Definition is_client (t clientID : uuid) (c : Client) : Prop :=
  cl_TenantID c = t /\ cl_ID c = clientID /\ row_live c = true.

(** C14: introspection always answers, changes no row, and says active
    exactly for a stored, unexpired access token whose client still exists
    (on a database failure it may only say inactive). An inactive answer
    discloses nothing else; an active one describes the stored row. *)
Theorem IntrospectToken_spec t token w w' o :
  run (IntrospectToken s t token) w = (w', o) ->
  exists resp, o = Ok resp /\ w_db w' = w_db w /\
    (ir_Active resp = false -> resp = inactive) /\
    (ir_Active resp = true ->
       exists a c,
         a ∈ db_accessTokens (w_db w) /\ access_key t token a = true /\
         AccessToken_IsExpired (env_now (S (w_step w))) a = false /\
         c ∈ db_clients (w_db w) /\ is_client t (at_ClientID a) c /\
         ir_Scope resp = at_Scope a /\ ir_ClientID resp = cl_ClientID c /\
         ir_Exp resp = time_unix (at_ExpiresAt a) /\
         ir_UserID resp = (if at_UserID a ==? uuid_Nil then "" else uuid_String (at_UserID a)) /\
         ir_Sub resp = ir_UserID resp) /\
    (healthy w -> forall a c,
       a ∈ db_accessTokens (w_db w) -> access_key t token a = true ->
       (forall a', a' ∈ db_accessTokens (w_db w) -> access_key t token a' = true -> a' = a) ->
       AccessToken_IsExpired (env_now (S (w_step w))) a = false ->
       c ∈ db_clients (w_db w) -> is_client t (at_ClientID a) c -> ir_Active resp = true).
Proof.
  unfold IntrospectToken, AccessTokenRepo.GetByToken, ClientRepo.GetByID.
  rewrite run_bind, run_attempt, run_get_by. fold (access_key t token).
  cbn [rows table_AccessToken].
  destruct (env_fault (w_step w)) eqn:Ef; cbv beta iota.
  { intros [= <- <-]. exists inactive. split_and!; try done. intros Hw. by rewrite Hw in Ef. }
  destruct (first_where (access_key t token) _) as [a|] eqn:Ea; cbv beta iota.
  2: { intros [= <- <-]. exists inactive. split_and!; try done.
       intros _ a c Ha Hk. rewrite first_where_None in Ea. by rewrite Ea in Hk. }
  apply first_where_Some in Ea as (Ha & Hk & _). rewrite run_bind, run_Now. cbv beta iota.
  change (w_step (tick w)) with (S (w_step w)).
  destruct (AccessToken_IsExpired _ a) eqn:Ee.
  { intros [= <- <-]. exists inactive. split_and!; try done.
    intros _ a' c Ha' Hk' Hu He. rewrite (Hu a Ha Hk) in *. congruence. }
  rewrite run_bind, run_attempt, run_get_by. cbn [rows table_Client].
  destruct (env_fault (w_step (tick (tick w)))) eqn:Ef'; cbv beta iota.
  { intros [= <- <-]. exists inactive. split_and!; try done.
    intros Hw. by rewrite Hw in Ef' by (simpl; lia). }
  match goal with |- context [first_where ?p (db_clients ?d)] =>
    destruct (first_where p (db_clients d)) as [c|] eqn:Ec end; cbv beta iota.
  2: { intros [= <- <-]. exists inactive. split_and!; try done.
       intros _ a' c Ha' Hk' Hu He Hc (Ht & Hid & Hl). rewrite first_where_None in Ec.
       specialize (Ec c Hc Hl). rewrite (Hu a Ha Hk), Ht, Hid in Ec.
       by rewrite !bool_decide_eq_true_2 in Ec. }
  apply first_where_Some in Ec as (Hc & Hck & Hl). bool_simp.
  intros [= <- <-]. eexists. split; [done|]. split; [done|].
  destruct (at_UserID a ==? uuid_Nil) eqn:Eu; cbn [negb]; cbv iota.
  all: (split; [done|]; split; [|done]); intros _; exists a, c; split_and!; try done.
  all: by rewrite Eu.
Qed.

(** ** Validation *)

(** What a validated access token has shown. *)
Record validated (t : uuid) (token : string) (now : Z) (c : JWTClaims) (db : DB) : Prop := {
  val_type : exists opts tok, HasType tok TypeAccessToken = true /\
    jwt_ParseWithClaims now JWTClaimsType opts (keyfunc (as_keys s)) token = inl (tok, AccessClaims c);
  val_signed : exists k, k ∈ ks_keys (as_keys s) /\
                         jwt_verify (ky_Alg k) (ky_verifyKey k) token = true;
  val_issuer : jc_Iss c = cfg_ServerURL (as_config s);
  val_audience : jc_Aud c = accessTokenAudience s;
  val_unexpired : now < jc_Exp c * second;
  val_tenant : jc_TenantID c = uuid_String t;
  val_stored : exists a, a ∈ db_accessTokens db /\ access_key t token a = true
}.

Lemma ValidateAccessToken_ok `{!JwtLaws} t token w w' c :
  keyset_ok (as_keys s) -> (forall k, k ∈ ks_keys (as_keys s) -> made k) ->
  run (ValidateAccessToken s t token) w = (w', Ok c) ->
  validated t token (env_now (w_step w)) c (w_db w) /\ quiet w w'.
Proof.
  intros Hks Hmade. unfold ValidateAccessToken. intros E. go_ok.
  subst. match goal with H : _ = inl (t0, _) |- _ =>
    pose proof (jwt_parse_sound _ _ _ _ _ _ _ H) as [_ _ (m & Hm & Hv) _ Hi Ha He] end.
  simpl in Hi, Ha, He, Hm, Hv. destruct (He eq_refl eq_refl) as (e & Hexp & Hlt).
  destruct (keyfunc_ok _ _ _ Hks Hm) as (k & Hk & <- & Halg & _). simpl in Halg.
  repeat match goal with H : first_where _ _ = Some _ |- _ =>
    apply first_where_Some in H as (? & ? & _) end. use_dbs.
  assert (e = jc_Exp c1 * second) as -> by (destruct (jc_Exp c1 =? 0); congruence).
  split; [split|split; [done|lia]]; try done; eauto.
  - exists k. by rewrite Halg.
  - specialize (Ha _ eq_refl eq_refl). set_solver.
Qed.

(** C15: an access token the service validates was signed by a key of its
    key set, for this issuer, audience and tenant, is typed at+jwt, has not
    expired at the time of the check and is still stored (not revoked). *)
Theorem ValidateAccessToken_sound `{!JwtLaws} t token w w' c :
  keyset_ok (as_keys s) -> (forall k, k ∈ ks_keys (as_keys s) -> made k) ->
  run (ValidateAccessToken s t token) w = (w', Ok c) ->
  validated t token (env_now (w_step w)) c (w_db w) /\ w_db w' = w_db w.
Proof.
  intros Hks Hmade E. by destruct (ValidateAccessToken_ok _ _ _ _ _ Hks Hmade E) as [? [? ?]].
Qed.

(** ** Token exchange (RFC 8693) *)

(** C16: a token is exchanged only for a valid access token of the tenant,
    and never for more than it: every scope granted is one of the subject
    token and one the client is registered for. The new row belongs to the
    requesting client and to the subject's user, starts a family of its own,
    and is the only change to the database. *)
Theorem ExchangeToken_sound `{!JwtLaws} t client token ty requested w w' resp :
  keyset_ok (as_keys s) -> (forall k, k ∈ ks_keys (as_keys s) -> made k) ->
  run (ExchangeToken s t client token ty requested) w = (w', Ok resp) ->
  exists c a,
    ty = TokenTypeAccessToken /\ validated t token (env_now (w_step w)) c (w_db w) /\
    (forall x, x ∈ ParseScope (te_Scope resp) ->
               x ∈ ParseScope (jc_Scope c) /\ x ∈ ParseScope (strings_Join (cl_Scopes client))) /\
    (requested <> "" -> ParseScope (te_Scope resp) = ParseScope requested) /\
    at_TenantID a = t /\ at_Token a = hashToken (te_AccessToken resp) /\
    at_ClientID a = cl_ID client /\ at_Scope a = te_Scope resp /\
    (forall u, jc_UserID c <> "" -> uuid_Parse (jc_UserID c) = Some u -> at_UserID a = u) /\
    w_db w' = (w_db w) <| db_accessTokens := db_accessTokens (w_db w) ++ [a] |>.
Proof.
  intros Hks Hmade. unfold ExchangeToken. intros E. repeat step_ok.
  all: match goal with H : run (ValidateAccessToken _ _ _) _ = _ |- _ =>
    apply (ValidateAccessToken_ok _ _ _ _ _ Hks Hmade) in H as [Hval [? ?]] end.
  go_ok.
  match goal with H : run (emit s _) _ = _ |- _ => apply emit_quiet in H as [? ?] end.
  use_dbs.
  match goal with H : ValidateScopeForClient _ ?sc = _ |- _ =>
    pose proof (ValidateScopeForClient_bound _ _ _ H) as Hreg; set (scope := sc) in * end.
  assert (Hsub : forall y, y ∈ ParseScope scope -> y ∈ ParseScope (jc_Scope x)).
  { unfold scope. destruct (requested !=? ""); [|done]. simpl in Heqb0. bool_simp.
    rewrite ParseScope_Join_ParseScope. by apply ScopeIsSubset_elem. }
  subst x13 resp. eexists x, _. split_and!; try done; simpl; try done.
  - auto.
  - intros Hreq. unfold scope. rewrite (bool_decide_eq_false_2 _ Hreq). apply ParseScope_Join_ParseScope.
  - intros u Hu Hp. by rewrite (bool_decide_eq_false_2 _ Hu), Hp.
Qed.
End Tokens.

(** ** Witnesses *)

Lemma example_keys : keyset_ok (as_keys example_service).
Proof. by destruct (newkeyset_ok (Some example_key) [] (as_keys example_service) eq_refl). Qed.
Lemma example_made k : k ∈ ks_keys (as_keys example_service) -> made k.
Proof. intros ->%list_elem_of_singleton. left. by exists "secret". Qed.


Definition introspect : prog IntrospectionResponse := IntrospectToken example_service 1 "good".
Lemma IntrospectToken_spec_witness :
  let w := example_world example_db in
  exists resp, (run introspect w).2 = Ok resp /\ ir_Active resp = true.
Proof.
  intros w.
  destruct (IntrospectToken_spec example_service 1 "good" w (after introspect w)
    (run introspect w).2) as (resp & Ho & _ & _ & _ & Hact); [apply surjective_pairing|].
  exists resp. split; [exact Ho|].
  apply Hact with example_access (example_client ["openid"; "read"; "write"]).
  - by intros n _.
  - apply list_elem_of_singleton. reflexivity.
  - vm_compute. reflexivity.
  - by intros a' ->%list_elem_of_singleton _.
  - vm_compute. reflexivity.
  - apply list_elem_of_singleton. reflexivity.
  - repeat split.
Defined.

Lemma ValidateAccessToken_sound_witness :
  let w := example_world example_db in
  validated example_service 1 "good" (env_now 0) example_claims (w_db w).
Proof.
  intros w.
  apply (ValidateAccessToken_sound example_service 1 "good" w
    (after (ValidateAccessToken example_service 1 "good") w)).
  - exact example_keys.
  - exact example_made.
  - vm_compute. reflexivity.
Defined.

Definition no_exchange : TokenExchangeResponse := MkTokenExchangeResponse "" "" "" 0 "".
Lemma ExchangeToken_sound_witness :
  let w := example_world example_db in
  let client := example_client ["openid"; "read"; "write"] in
  let p := ExchangeToken example_service 1 client "good" TokenTypeAccessToken "read" in
  exists c a, validated example_service 1 "good" (env_now 0) c (w_db w) /\
    at_Token a = hashToken (te_AccessToken (ok_of no_exchange (run p w).2)).
Proof.
  intros w client p.
  destruct (ExchangeToken_sound example_service 1 client "good" TokenTypeAccessToken "read" w
    (after p w) (ok_of no_exchange (run p w).2)) as (c & a & _ & Hv & _ & _ & _ & Ha & _).
  - exact example_keys.
  - exact example_made.
  - vm_compute. reflexivity.
  - exists c, a. split; [exact Hv|exact Ha].
Defined.
