(* ===== verification/DeviceSpec.v ===== *)
(** What the device authorization grant of DeviceFlow.v guarantees. *)
From S2P Require Import Prelude GoStd StringFacts Hash Models Effects Store Repos AccountRepos.
From S2P Require Import Libraries JwtKeys Scope AuthService DeviceFlow Frame Onward Examples AuthSpec.
From Stdlib Require Import Ascii.

Open Scope Z_scope.

Definition device_key (t : uuid) (deviceCode : string) (c : DeviceCode) : bool :=
  (dc_TenantID c ==? t) && (dc_DeviceCode c ==? hashToken deviceCode).

(** The poll interval of the row had passed at [now]. *)
Definition may_poll (now : Z) (c : DeviceCode) : Prop :=
  forall last, dc_LastPolledAt c = Some last -> wrap64 (dc_Interval c * second) <= time_sub now last.

(** *** A property of the stored device codes *)

(** [p], begun at or after step [n0] with every stored device code in [P],
    ends so; a value it returns is in [Q]. *)
Section Rows.
Context `{Env} (n0 : nat) (P : DeviceCode -> Prop).

Definition devices_in (w : World) : Prop :=
  (n0 <= w_step w)%nat /\ forall x, x ∈ db_deviceCodes (w_db w) -> P x.
Definition devices {A} (Q : A -> Prop) (p : prog A) : Prop :=
  forall w w' o, devices_in w -> run p w = (w', o) ->
    devices_in w' /\ forall a, o = Ok a -> Q a.
Definition any {A} (a : A) : Prop := True.

Lemma devices_bind {A B} Q Q' (p : prog A) (f : A -> prog B) :
  devices Q p -> (forall a, Q a -> devices Q' (f a)) -> devices Q' (p ≫= f).
Proof.
  intros Hp Hf w w' o Hw. rewrite run_bind. destruct (run p w) as [w1 [a|e|]] eqn:E;
    apply Hp in E as [Hw1 Ha]; try done; [|by intros [= <- <-]..].
  apply Hf; auto.
Qed.
Lemma devices_ret {A} (Q : A -> Prop) a : Q a -> devices Q (mret a).
Proof. intros Ha w w' o Hw [= <- <-]. split; [done|]. by intros b [= <-]. Qed.
Lemma devices_throw {A} (Q : A -> Prop) e : devices Q (throw e).
Proof. by intros w w' o Hw [= <- <-]. Qed.
Lemma devices_map_err {A} (Q : A -> Prop) g p : devices Q p -> devices Q (map_err g p).
Proof.
  intros Hp w w' o Hw. rewrite run_map_err. destruct (run p w) as [w1 [a|e|]] eqn:E;
    apply Hp in E as [Hw1 Ha]; try done; by intros [= <- <-].
Qed.
Lemma devices_ignore {A} (Q : A -> Prop) p : devices Q p -> devices any (ignore p).
Proof.
  intros Hp w w' o Hw. rewrite run_ignore. destruct (run p w) as [w1 [a|e|]] eqn:E;
    apply Hp in E as [Hw1 Ha]; try done; by intros [= <- <-].
Qed.
(** A program that leaves the device codes alone. *)
Lemma devices_keeps {A} (p : prog A) : keeps db_deviceCodes p -> onward p -> devices any p.
Proof.
  intros Hk Ho w w' o [Hn Hw] E. split; [split|done].
  - apply Ho in E. lia.
  - intros x. rewrite (Hk _ _ _ E). apply Hw.
Qed.
Lemma devices_NewUUID : devices (fun id => exists n, (n0 <= n)%nat /\ id = env_uuid n) NewUUID.
Proof.
  intros w w' o [Hn Hw]. rewrite run_NewUUID. intros [= <- <-]. split; [split; [simpl; lia|done]|].
  intros a [= <-]. eauto.
Qed.
Lemma devices_get msg nf p : devices P (get_by msg nf p).
Proof.
  intros w w' o [Hn Hw]. rewrite run_get_by. intros [= <- <-]. split; [split; [simpl; lia|done]|].
  intros a. destruct (env_fault _); [done|]. destruct (first_where _ _) as [r|] eqn:E; [|done].
  intros [= <-]. apply Hw. exact (proj1 (first_where_Some _ _ _ E)).
Qed.
Lemma devices_write {X : Set} (g : Z -> list DeviceCode -> option (list DeviceCode * X)) :
  (forall now l l' x y, g now l = Some (l', x) -> y ∈ l' -> y ∈ l \/ P y) -> devices any (write g).
Proof.
  intros Hg w w' o [Hn Hw]. rewrite run_write. destruct (env_fault _).
  { intros [= <- <-]. split; [split; [simpl; lia|done]|done]. }
  destruct (g _ _) as [[l x]|] eqn:E; intros [= <- <-]; (split; [split; [simpl; lia|]|done]); [|done].
  intros y Hy. destruct (Hg _ _ _ _ _ E Hy) as [Hin|]; [by apply Hw|done].
Qed.
Lemma devices_Insert c : (forall now, P (row_stamp now c)) -> devices any (Insert c).
Proof.
  intros Hc. apply devices_write. intros now l l' x y. destruct (insert_row now c l) eqn:E; [|done].
  apply insert_row_Some in E as [-> _]. intros [= <- _] [?|?%list_elem_of_singleton]%elem_of_app; [by left|].
  right. subst y. apply Hc.
Qed.
Lemma devices_Save c : P c -> devices any (Save c).
Proof.
  intros Hc. apply devices_write. intros now l l' x y. unfold save_row.
  destruct (existsb _ l); [done|]. destruct (existsb _ l); intros [= <- _].
  - intros (r & -> & Hr)%list_elem_of_fmap. destruct (bool_decide _); [by right|by left].
  - intros [?|?%list_elem_of_singleton]%elem_of_app; [by left|right; by subst y].
Qed.
Lemma devices_DeleteWhere p : devices any (DeleteWhere (R := DeviceCode) p).
Proof.
  intros w w' o [Hn Hw]. rewrite run_DeleteWhere. destruct (env_fault _); intros [= <- <-];
    (split; [split; [simpl; lia|]|done]); [done|].
  intros x. rewrite delete_where_hard by done. simpl. intros [_ Hx]%list_elem_of_filter. by apply Hw.
Qed.
End Rows.

Section Device.
Context `{Env} `{UuidLib} `{JwtLib} `{UnicodeTables} (s : authServiceImpl).

(** Writing a device code back touches no other table. *)
Lemma Update_frame c w w' o :
  run (DeviceCodeRepo.Update c) w = (w', o) ->
  (w_step w <= w_step w')%nat /\ exists l, w_db w' = (w_db w) <| db_deviceCodes := l |>.
Proof.
  unfold DeviceCodeRepo.Update, wrap, Save, write. rewrite run_map_err, run_bind, run_Stmt.
  destruct (env_fault (w_step w)).
  { intros [= <- <-]. split; [simpl; lia|]. exists (db_deviceCodes (w_db w)). by destruct w as [[]]. }
  destruct (save_row _ c _) as [l|]; cbn [fst snd].
  - intros [= <- <-]. split; [simpl; lia|]. by exists l.
  - intros [= <- <-]. split; [simpl; lia|]. exists (db_deviceCodes (w_db w)). by destruct w as [[]].
Qed.

(** C17: polling yields tokens only for a stored, unexpired device code of
    the client that a user has approved, and not before the poll interval
    has passed. They are that user's, for the scope the device asked for,
    and the device code is no longer stored afterwards. *)
Theorem ExchangeDeviceCode_sound t client deviceCode w w' resp :
  run (ExchangeDeviceCode s t client deviceCode) w = (w', Ok resp) ->
  exists c u n m acc ref l,
    c ∈ db_deviceCodes (w_db w) /\ device_key t deviceCode c = true /\
    dc_ClientID c = cl_ID client /\ dc_Status c = DeviceCodeApproved /\ dc_UserID c = Some u /\
    DeviceCode_IsExpired (env_now n) c = false /\ may_poll (env_now m) c /\
    issued_access t client u (dc_Scope c) (dc_ID c) (tr_AccessToken resp) acc /\
    issued_refresh t client u (dc_Scope c) (dc_ID c)
      (MkAuthContext GrantTypeDeviceCode (dc_AuthTime c) (dc_AMR c) "") (tr_RefreshToken resp) ref /\
    w_db w' = (w_db w) <| db_deviceCodes := l |>
                     <| db_accessTokens := db_accessTokens (w_db w) ++ [acc] |>
                     <| db_refreshTokens := db_refreshTokens (w_db w) ++ [ref] |> /\
    (forall c', c' ∈ l -> device_key t deviceCode c' = false).
Proof.
  unfold ExchangeDeviceCode. intros E. repeat step_ok.
  match goal with H : run (issueTokens _ _ _ _ _ _ _ _ _) _ = _ |- _ =>
    apply issueTokens_ok in H as (_ & acc & ref & Hacc & Href & Hdb & _) end.
  match goal with H : run (DeviceCodeRepo.Update _) _ = _ |- _ =>
    apply Update_frame in H as (_ & l & Hsave) end.
  go_ok. match goal with H : first_where _ _ = Some _ |- _ =>
    apply first_where_Some in H as (Hin & Hk & _) end. bool_simp.
  use_dbs. rewrite delete_where_hard by done.
  eexists x, n, (w_step x0), (w_step x2), acc, ref, _.
  split_and!; [..|reflexivity|]; try done; try (by subst).
  - unfold device_key. by rewrite !bool_decide_eq_true_2.
  - intros last Hlast. rewrite Hlast in *. subst. bool_simp. done.
  - intros c' [Hc' _]%list_elem_of_filter. unfold device_key. simpl in Hc'.
    match goal with Hk : dc_DeviceCode x = _ |- _ => rewrite <-Hk end.
    by destruct (_ && _).
Qed.

(** *** The user's decision *)

Definition user_key (t : uuid) (userCode : string) (c : DeviceCode) : bool :=
  (dc_TenantID c ==? t) && (dc_UserCode c ==? userCode).

(** What a decision may do to the row it is given. *)
Definition decides (decide : DeviceCode -> prog DeviceCode) : Prop :=
  forall c c' w w', run (decide c) w = (w', Ok c') ->
    w_db w' = w_db w /\ dc_Status c' <> DeviceCodePending /\
    c' = c <| dc_Status := dc_Status c' |> <| dc_UserID := dc_UserID c' |>
           <| dc_AuthTime := dc_AuthTime c' |> <| dc_AMR := dc_AMR c' |>.

Definition replace_device (c' : DeviceCode) (l : list DeviceCode) : list DeviceCode :=
  map (fun r => if dc_ID c' ==? dc_ID r then c' else r) l.

Lemma resolve_ok t userCode decide w w' u :
  decides decide -> run (resolveDeviceCode t userCode decide) w = (w', Ok u) ->
  exists c c' n w1 w2,
    c ∈ db_deviceCodes (w_db w) /\ user_key t (NormalizeUserCode userCode) c = true /\
    dc_Status c = DeviceCodePending /\ DeviceCode_IsExpired (env_now n) c = false /\
    run (decide c) w1 = (w2, Ok c') /\
    w_db w' = (w_db w) <| db_deviceCodes := replace_device c' (db_deviceCodes (w_db w)) |>.
Proof.
  intros Hd. unfold resolveDeviceCode. intros E. repeat step_ok.
  match goal with H : run (decide _) _ = _ |- _ => pose proof (Hd _ _ _ _ H) as (? & Hs & Hc') end.
  match goal with H : run (decide ?c) ?w1 = (?w2, Ok ?c') |- _ =>
    exists c, c', (w_step x0), w1, w2; pose proof H as Hrun; clear H end.
  clear Hd Hs. go_ok. repeat match goal with H : first_where _ _ = Some _ |- _ =>
    apply first_where_Some in H as (Hin & Hk & _) end.
  bool_simp. use_dbs.
  match goal with H : save_row _ _ _ = Some _ |- _ =>
    apply (save_row_existing _ _ x) in H; [|done|by rewrite Hc'] end.
  split_and!; try done; try (by subst).
  unfold user_key. by rewrite !bool_decide_eq_true_2.
Qed.

Lemma approve_decides u amr :
  decides (fun dc => now ← Now;
    mret (dc <| dc_Status := DeviceCodeApproved |> <| dc_UserID := Some u |>
             <| dc_AuthTime := Some now |> <| dc_AMR := amr |>)).
Proof. intros c c' w w' E. go_ok. by subst. Qed.
Lemma deny_decides : decides (fun dc => mret (dc <| dc_Status := DeviceCodeDenied |>)).
Proof. intros c c' w w' E. go_ok. subst. split; [done|]. split; [done|]. by destruct c. Qed.

(** The unique indexes of device_codes. *)
Definition devices_unique (db : DB) : Prop :=
  NoDup (dc_ID <$> db_deviceCodes db) /\ NoDup (dc_UserCode <$> db_deviceCodes db).

(** A user code that has been decided on cannot be decided on again. *)
Lemma resolve_decided t userCode decide w w' o :
  (forall c, c ∈ db_deviceCodes (w_db w) -> user_key t (NormalizeUserCode userCode) c = true ->
             dc_Status c <> DeviceCodePending) ->
  run (resolveDeviceCode t userCode decide) w = (w', o) ->
  (o = Err ErrDeviceCodeNotFound \/ o = Err ErrExpiredDeviceCode) /\ w_db w' = w_db w.
Proof.
  intros Hn. unfold resolveDeviceCode, DeviceCodeRepo.GetByUserCode, or_err.
  rewrite run_bind, run_map_err, run_get_by. fold (user_key t (NormalizeUserCode userCode)).
  cbn [rows table_DeviceCode].
  destruct (env_fault (w_step w)); [intros [= <- <-]; auto|].
  destruct (first_where _ _) as [c|] eqn:E; [|intros [= <- <-]; auto].
  apply first_where_Some in E as (Hc & Hk & _). cbv beta iota.
  rewrite run_bind, run_Now. cbv beta iota.
  destruct (DeviceCode_IsExpired _ c); [intros [= <- <-]; auto|].
  rewrite bool_decide_eq_false_2 by auto. intros [= <- <-]. auto.
Qed.

(** The request that carries a user's decision. *)
Definition decision (t : uuid) (userCode : string) (userID : uuid) (amr : list string)
    (approve : bool) : prog unit :=
  if approve then ApproveDeviceCode t userCode userID amr else DenyDeviceCode t userCode.

(** The row a decision at [now] writes. *)
Definition decided (u : uuid) (amr : list string) (approve : bool) (now : Z) (c : DeviceCode)
    : DeviceCode :=
  if approve
  then c <| dc_Status := DeviceCodeApproved |> <| dc_UserID := Some u |>
         <| dc_AuthTime := Some now |> <| dc_AMR := amr |>
  else c <| dc_Status := DeviceCodeDenied |>.

Lemma decided_same u amr approve now c :
  dc_ID (decided u amr approve now c) = dc_ID c /\
  dc_TenantID (decided u amr approve now c) = dc_TenantID c /\
  dc_UserCode (decided u amr approve now c) = dc_UserCode c /\
  dc_Status (decided u amr approve now c) <> DeviceCodePending.
Proof. by destruct approve. Qed.

Lemma decision_ok t userCode u amr approve w w' x :
  run (decision t userCode u amr approve) w = (w', Ok x) ->
  exists c n m,
    c ∈ db_deviceCodes (w_db w) /\ user_key t (NormalizeUserCode userCode) c = true /\
    dc_Status c = DeviceCodePending /\ DeviceCode_IsExpired (env_now n) c = false /\
    w_db w' = (w_db w) <| db_deviceCodes :=
      replace_device (decided u amr approve (env_now m) c) (db_deviceCodes (w_db w)) |>.
Proof.
  destruct approve; simpl; intros E; apply resolve_ok in E;
    try apply approve_decides; try apply deny_decides.
  all: destruct E as (c & c' & n & w1 & w2 & Hc & Hk & Hs & He & Hrun & Hdb);
    exists c, n, (w_step w1).
  all: go_ok; subst; split_and!; done.
Qed.

Lemma decision_again t userCode u amr approve w w' o :
  (forall c, c ∈ db_deviceCodes (w_db w) -> user_key t (NormalizeUserCode userCode) c = true ->
             dc_Status c <> DeviceCodePending) ->
  run (decision t userCode u amr approve) w = (w', o) ->
  (o = Err ErrDeviceCodeNotFound \/ o = Err ErrExpiredDeviceCode) /\ w_db w' = w_db w.
Proof. intros Hn. destruct approve; by apply resolve_decided. Qed.

(** *** What can happen to a device code later *)

(** One operation, from its start to its end: a decision of anyone on any
    user code, a poll of any client with any device code, a new device
    authorization, the removal of expired rows, or an operation of another
    component, which leaves the device codes alone. [id] is a device code's
    primary key; a new row does not get it again. *)
Inductive device_step (id : uuid) (w w' : World) : Prop :=
| step_decision t userCode u amr approve o :
    run (decision t userCode u amr approve) w = (w', o) -> device_step id w w'
| step_poll t client deviceCode o :
    run (ExchangeDeviceCode s t client deviceCode) w = (w', o) -> device_step id w w'
| step_request t client scope o :
    (forall n, (w_step w <= n)%nat -> env_uuid n <> id) ->
    run (CreateDeviceAuthorization s t client scope) w = (w', o) -> device_step id w w'
| step_cleanup o :
    run CleanupExpiredTokens w = (w', o) -> device_step id w w'
| step_other :
    db_deviceCodes (w_db w') = db_deviceCodes (w_db w) -> device_step id w w'.

Lemma devices_resolve n0 P t userCode decide :
  (forall c, P c -> dc_Status c = DeviceCodePending -> devices n0 P P (decide c)) ->
  devices n0 P any (resolveDeviceCode t userCode decide).
Proof.
  intros Hd. unfold resolveDeviceCode. eapply devices_bind; [apply devices_map_err, devices_get|].
  intros c Hc. cbv beta. eapply devices_bind; [apply devices_keeps; [keeps|onward]|]. intros now _.
  destruct (DeviceCode_IsExpired _ _); [apply devices_throw|].
  destruct (dc_Status c !=? DeviceCodePending) eqn:Hs; [apply devices_throw|]. bool_simp.
  eapply devices_bind; [by apply Hd|]. intros c' Hc'.
  eapply devices_bind; [by apply devices_map_err, devices_Save|]. intros ? _. by apply devices_ret.
Qed.

Ltac token_steps :=
  unfold issueTokens, generateJWT, GenerateIDToken, Sign, SignTyped, emit, generateRandomString,
    randomToken, AccessTokenRepo.Create, RefreshTokenRepo.Create, UserRepo.GetByID.
Lemma devices_issueTokens n0 P t client u scope family b r ctx :
  devices n0 P any (issueTokens s t client u scope family b r ctx).
Proof. apply devices_keeps; token_steps; [keeps|onward]. Qed.

(** A poll writes the row it read, with another time of the last poll. *)
Lemma devices_poll n0 (P : DeviceCode -> Prop) t client code :
  (forall c last, P c -> P (c <| dc_LastPolledAt := last |>)) ->
  devices n0 P any (ExchangeDeviceCode s t client code).
Proof.
  intros HP. unfold ExchangeDeviceCode, DeviceCodeRepo.Delete.
  eapply devices_bind; [apply devices_map_err, devices_get|]. intros c Hc. cbv beta.
  destruct (dc_ClientID c !=? cl_ID client); [apply devices_throw|].
  assert (Hnow : devices n0 P any Now) by (apply devices_keeps; [keeps|onward]).
  assert (Hdel : forall p, devices n0 P any
      (ignore (wrap "failed to delete device code" (DeleteWhere (R := DeviceCode) p)))).
  { intros p. eapply devices_ignore, devices_map_err, devices_DeleteWhere. }
  eapply devices_bind; [exact Hnow|]. intros now _.
  destruct (DeviceCode_IsExpired now c).
  { eapply devices_bind; [apply Hdel|]. intros. apply devices_throw. }
  eapply devices_bind; [exact Hnow|]. intros now' _. cbv zeta.
  eapply devices_bind; [eapply devices_ignore, devices_map_err, devices_Save, HP, Hc|]. intros _ _.
  repeat match goal with |- devices _ _ _ (if ?b then _ else _) => destruct b end;
    try apply devices_throw.
  - eapply devices_bind; [apply Hdel|]. intros. apply devices_throw.
  - destruct (dc_UserID _); [|apply devices_throw].
    eapply devices_bind; [apply devices_map_err, devices_map_err, devices_DeleteWhere|]. intros _ _.
    apply devices_issueTokens.
Qed.

Lemma devices_request n0 (P : DeviceCode -> Prop) t client scope :
  (forall c n, (n0 <= n)%nat -> dc_ID c = env_uuid n -> P c) ->
  devices n0 P any (CreateDeviceAuthorization s t client scope).
Proof.
  intros HP. unfold CreateDeviceAuthorization, generateRandomString, randomToken, generateUserCode.
  eapply devices_bind; [apply devices_keeps; [keeps|onward]|]. intros code _.
  eapply devices_bind.
  { apply devices_keeps; generalize userCodeLength; intros n; induction n; cbn [user_code_loop];
      [keeps|keeps; done|onward|onward; done]. }
  intros userCode _. cbv zeta. eapply devices_bind; [apply devices_NewUUID|].
  intros id (n & Hn & ->). eapply devices_bind; [apply devices_keeps; [keeps|onward]|].
  intros now _. eapply devices_bind; [|intros; by apply devices_ret].
  apply devices_map_err, devices_Insert. intros now'. by apply (HP _ n).
Qed.

Lemma devices_cleanup n0 P : devices n0 P any CleanupExpiredTokens.
Proof.
  unfold CleanupExpiredTokens, AuthCodeRepo.DeleteExpired, AccessTokenRepo.DeleteExpired,
    RefreshTokenRepo.DeleteExpired, DeviceCodeRepo.DeleteExpired,
    EmailVerificationRepo.DeleteExpired, PasswordResetRepo.DeleteExpired.
  do 3 (eapply devices_bind; [apply devices_keeps; [keeps|onward]|]; intros _ _).
  eapply devices_bind.
  { eapply devices_ignore, devices_bind; [apply devices_keeps; [keeps|onward]|]. intros now _.
    apply devices_map_err, devices_DeleteWhere. }
  intros _ _. apply devices_keeps; [keeps|onward].
Qed.

(** What every device code with the key of [c'] is once [c'] is decided. *)
Definition settled (c' x : DeviceCode) : Prop :=
  dc_ID x = dc_ID c' -> x = c' <| dc_LastPolledAt := dc_LastPolledAt x |>.

Lemma settled_decision n0 c' t userCode u amr approve :
  dc_Status c' <> DeviceCodePending ->
  devices n0 (settled c') any (decision t userCode u amr approve).
Proof.
  intros Hs. destruct approve; apply devices_resolve; intros c Hc Hp.
  - eapply devices_bind; [apply devices_keeps; [keeps|onward]|]. intros now _. apply devices_ret.
    intros Hid. exfalso. apply Hs. rewrite <-Hp. by rewrite (Hc Hid).
  - apply devices_ret. intros Hid. exfalso. apply Hs. rewrite <-Hp. by rewrite (Hc Hid).
Qed.

Lemma settled_step c' w w' :
  dc_Status c' <> DeviceCodePending -> device_step (dc_ID c') w w' ->
  (forall x, x ∈ db_deviceCodes (w_db w) -> settled c' x) ->
  forall x, x ∈ db_deviceCodes (w_db w') -> settled c' x.
Proof.
  intros Hs Hstep Hw. assert (Hin : devices_in (w_step w) (settled c') w) by done.
  destruct Hstep as [t code u amr approve o E|t client code o E|t client scope o Hid E|o E|E].
  - eapply settled_decision; [exact Hs|exact Hin|exact E].
  - eapply devices_poll; [|exact Hin|exact E]. intros c last Hc Hx. cbn. by rewrite (Hc Hx).
  - eapply devices_request; [|exact Hin|exact E]. intros c n Hn Hc Hx. exfalso.
    by apply (Hid n Hn); rewrite <-Hx.
  - eapply devices_cleanup; [exact Hin|exact E].
  - by rewrite E.
Qed.

Lemma settled_steps c' w w' :
  dc_Status c' <> DeviceCodePending -> rtc (device_step (dc_ID c')) w w' ->
  (forall x, x ∈ db_deviceCodes (w_db w) -> settled c' x) ->
  forall x, x ∈ db_deviceCodes (w_db w') -> settled c' x.
Proof. intros Hs. induction 1; intros Hw; [done|]. eauto using settled_step. Qed.

Lemma devices_unique_eq db c x :
  devices_unique db -> c ∈ db_deviceCodes db -> x ∈ db_deviceCodes db ->
  dc_UserCode x = dc_UserCode c -> x = c.
Proof.
  intros [_ Hcodes] [i Hi]%list_elem_of_lookup [j Hj]%list_elem_of_lookup Huc.
  assert (i = j) as ->; [|congruence].
  eapply (NoDup_lookup _ i j (dc_UserCode c)); [exact Hcodes| |];
    rewrite list_lookup_fmap, ?Hi, ?Hj; simpl; congruence.
Qed.

Lemma replace_device_unique c c' db db' :
  devices_unique db -> c ∈ db_deviceCodes db -> dc_ID c' = dc_ID c ->
  dc_UserCode c' = dc_UserCode c ->
  db_deviceCodes db' = replace_device c' (db_deviceCodes db) -> devices_unique db'.
Proof.
  intros [Hids Hcodes] [i Hi]%list_elem_of_lookup Hid Huc E. unfold devices_unique. rewrite E.
  change (replace_device c' (db_deviceCodes db))
    with ((fun r => if dc_ID c' ==? dc_ID r then c' else r) <$> db_deviceCodes db).
  rewrite <-!list_fmap_compose. split.
  - rewrite (list_fmap_ext _ dc_ID); [done|]. intros _ r _. simpl. by case_bool_decide.
  - rewrite (list_fmap_ext _ dc_UserCode); [done|]. intros j r Hj. simpl. case_bool_decide as Hr; [|done].
    assert (i = j) as ->; [|congruence]. eapply (NoDup_lookup _ i j (dc_ID c)); [exact Hids| |];
      rewrite list_lookup_fmap, ?Hi, ?Hj; simpl; congruence.
Qed.

(** C18: a user's decision applies to a stored, pending, unexpired device
    code with that user code. It writes the decision into that row, changes
    no other field of it and nothing else in the database, and is final for
    operations that follow one another: after any number of decisions,
    polls, new authorizations, clean-ups and other operations, each run from
    its start to its end, the row, while it is stored, is the decided one up
    to the time of the last poll; and whoever approves or denies the same
    user code then is refused and changes nothing. (A poll that overlaps the
    decision is another matter: Concurrency.v shows it undoing one.) *)
Theorem device_decision_final t userCode u amr approve w w1 :
  devices_unique (w_db w) ->
  run (decision t userCode u amr approve) w = (w1, Ok tt) ->
  exists c n m,
    let c' := decided u amr approve (env_now m) c in
    c ∈ db_deviceCodes (w_db w) /\ user_key t (NormalizeUserCode userCode) c = true /\
    dc_Status c = DeviceCodePending /\ DeviceCode_IsExpired (env_now n) c = false /\
    w_db w1 = (w_db w) <| db_deviceCodes := replace_device c' (db_deviceCodes (w_db w)) |> /\
    c' ∈ db_deviceCodes (w_db w1) /\ devices_unique (w_db w1) /\
    forall w2, rtc (device_step (dc_ID c)) w1 w2 ->
      (forall x, x ∈ db_deviceCodes (w_db w2) -> dc_ID x = dc_ID c ->
                 x = c' <| dc_LastPolledAt := dc_LastPolledAt x |>) /\
      forall x u' amr' approve' w3 o,
        x ∈ db_deviceCodes (w_db w2) -> dc_ID x = dc_ID c -> devices_unique (w_db w2) ->
        run (decision t userCode u' amr' approve') w2 = (w3, o) ->
        (o = Err ErrDeviceCodeNotFound \/ o = Err ErrExpiredDeviceCode) /\ w_db w3 = w_db w2.
Proof.
  intros Hu E. apply decision_ok in E as (c & n & m & Hc & Hk & Hs & He & Hdb).
  exists c, n, m. destruct (decided_same u amr approve (env_now m) c) as (Hid & Ht & Huc & Hs').
  set (c' := decided u amr approve (env_now m) c) in *. cbv zeta. do 5 (split; [done|]).
  split. { rewrite Hdb. simpl. apply list_elem_of_fmap. exists c. by rewrite bool_decide_eq_true_2. }
  split. { by apply (replace_device_unique c c' (w_db w)); rewrite ?Hdb. }
  rewrite <-Hid. intros w2 Hsteps.
  assert (Hset : forall x, x ∈ db_deviceCodes (w_db w2) -> settled c' x).
  { apply (settled_steps c' w1); [done..|]. rewrite Hdb. simpl.
    intros x (r & -> & Hr)%list_elem_of_fmap. case_bool_decide as Hrid; [by intros _; destruct c'|].
    by intros Hx. }
  split; [exact Hset|]. intros x u' amr' approve' w3 o Hx Hxid Hu2. apply decision_again.
  intros y Hy Hyk. replace y with x; [by rewrite (Hset x Hx Hxid)|].
  apply (devices_unique_eq (w_db w2)); try done. rewrite (Hset x Hx Hxid). cbn.
  change (dc_UserCode c' = dc_UserCode y). unfold user_key in Hk, Hyk. bool_simp. congruence.
Qed.
End Device.

(** ** User codes *)

Definition charset_char (c : ascii) : bool := bool_decide (c ∈ String.list_ascii_of_string userCodeCharset).

Lemma charset_char_ok c :
  charset_char c = true ->
  plain c = true /\ is_ascii c = true /\ upper_byte c = c /\ c <> "-"%char /\ c <> " "%char.
Proof.
  unfold charset_char. rewrite bool_decide_eq_true. cbn [String.list_ascii_of_string userCodeCharset].
  rewrite !elem_of_cons. intros Hc.
  repeat (destruct Hc as [->|Hc]; [repeat split; done|]). by apply elem_of_nil in Hc.
Qed.

Lemma char_at_charset i : 0 <= i < 20 -> charset_char (char_at userCodeCharset i) = true.
Proof.
  intros Hi. assert (Hall : forallb (fun i => charset_char (char_at userCodeCharset (Z.of_nat i)))
                              (seq 0 20) = true) by (vm_compute; reflexivity).
  rewrite forallb_forall in Hall. specialize (Hall (Z.to_nat i)). rewrite Z2Nat.id in Hall by lia.
  apply Hall, in_seq. lia.
Qed.

Lemma user_code_loop_ok `{Env} n w w' code :
  run (user_code_loop n) w = (w', Ok code) ->
  String.length code = n /\ string_forall charset_char code = true.
Proof.
  revert w code. induction n as [|n IH]; intros w code; cbn [user_code_loop]; intros E.
  - go_ok. by subst.
  - repeat step_ok. subst. cbn [String.length string_forall].
    match goal with H : run (user_code_loop n) _ = _ |- _ => apply IH in H as [-> ->] end.
    split; [done|]. rewrite andb_true_r. apply char_at_charset, Z.mod_pos_bound. done.
Qed.

(** A user code the service generates has eight letters of the
    alphabet without vowels, and reading back what is displayed for it
    (XXXX-XXXX) gives the code itself. *)
Theorem user_code_roundtrip `{Env} `{UnicodeTables} w w' code :
  run generateUserCode w = (w', Ok code) ->
  String.length code = userCodeLength /\ string_forall charset_char code = true /\
  NormalizeUserCode (FormatUserCode code) = code.
Proof.
  intros [Hlen Hall]%user_code_loop_ok. split; [done|]. split; [done|].
  unfold FormatUserCode. rewrite bool_decide_eq_true_2 by done.
  do 8 (destruct code as [|? code]; [done|]). destruct code; [|done].
  cbn [string_forall] in Hall. rewrite !andb_true_iff in Hall.
  repeat match goal with H : _ /\ _ |- _ => destruct H end.
  repeat match goal with H : charset_char _ = true |- _ =>
    apply charset_char_ok in H as (? & ? & ? & ? & ?) end.
  cbn. unfold NormalizeUserCode. rewrite TrimSpace_nospace.
  2: { apply plain_nospace. simpl. by repeat match goal with H : plain _ = true |- _ => rewrite H end. }
  unfold ToUpper. simpl.
  repeat match goal with H : is_ascii ?c = true |- _ => rewrite H; clear H end. cbn [andb].
  repeat match goal with H : upper_byte ?c = _ |- _ => rewrite H; clear H end.
  change (upper_byte "-"%char) with "-"%char. cbn [remove_byte].
  repeat match goal with H : ?c <> "-"%char |- _ => rewrite (bool_decide_eq_false_2 _ H); clear H end.
  rewrite bool_decide_eq_true_2 by done. cbn [remove_byte].
  by repeat match goal with H : ?c <> " "%char |- _ =>
    rewrite (bool_decide_eq_false_2 _ H); clear H end.
Qed.

(** ** Witnesses *)

Lemma ExchangeDeviceCode_sound_witness :
  let w := device_world (example_device DeviceCodeApproved (Some 9%N)) in
  exists c u, c ∈ db_deviceCodes (w_db w) /\ dc_UserID c = Some u /\
    forall c', c' ∈ db_deviceCodes (w_db (after example_poll w)) -> device_key 1 "device" c' = false.
Proof.
  intros w.
  assert (E : run example_poll w = (after example_poll w, Ok (ok_of no_response (run example_poll w).2))) by (vm_compute; reflexivity).
  destruct (ExchangeDeviceCode_sound example_service 1 (example_client ["read"]) "device" w _ _ E)
    as (c & u & n & m & acc & ref & l & Hc & _ & _ & _ & Hu & _ & _ & _ & _ & Hdb & Hl).
  exists c, u. split; [exact Hc|]. split; [exact Hu|]. rewrite Hdb. exact Hl.
Defined.

(** The device polls, the user approves, the device polls again too fast for
    tokens: a denial is still refused. *)
Lemma device_decision_final_witness :
  let w := after example_poll
             (device_world ((example_device DeviceCodePending None) <| dc_Interval := 60 |>)) in
  let w1 := after (ApproveDeviceCode 1 " bcdf-ghjk " 9 ["pwd"]) w in
  let w2 := after example_poll w1 in
  (dc_Status <$> db_deviceCodes (w_db w2)) = [DeviceCodeApproved] /\
  dc_LastPolledAt <$> db_deviceCodes (w_db w2) <> dc_LastPolledAt <$> db_deviceCodes (w_db w1) /\
  w_db (after (DenyDeviceCode 1 "BCDFGHJK") w2) = w_db w2.
Proof.
  intros w w1 w2. split; [vm_compute; reflexivity|]. split; [vm_compute; discriminate|].
  assert (Hrow : exists x, db_deviceCodes (w_db w2) = [x] /\
                           forall c, c ∈ db_deviceCodes (w_db w) -> dc_ID x = dc_ID c).
  { vm_compute. eexists. split; [reflexivity|]. by intros c ->%list_elem_of_singleton. }
  assert (Hu : devices_unique (w_db w)) by (vm_compute; split; apply NoDup_singleton).
  assert (E : run (decision 1 " bcdf-ghjk " 9 ["pwd"] true) w = (w1, Ok tt))
    by (vm_compute; reflexivity).
  assert (E2 : w2 = after example_poll w1) by reflexivity.
  clearbody w2 w1. clearbody w.
  destruct (device_decision_final example_service 1 " bcdf-ghjk " 9 ["pwd"] true w w1 Hu E)
    as (c & n & m & Hc & _ & _ & _ & _ & _ & _ & Hfinal).
  destruct Hrow as (x & Hx & Hid). destruct (Hfinal w2) as [_ Hagain].
  - apply rtc_once. rewrite E2.
    apply (step_poll _ _ _ _ 1 (example_client ["read"]) "device" (run example_poll w1).2).
    apply surjective_pairing.
  - apply (Hagain x 9%N [] false (after (DenyDeviceCode 1 "BCDFGHJK") w2)
             (run (DenyDeviceCode 1 "BCDFGHJK") w2).2).
    + rewrite Hx. apply list_elem_of_here.
    + by apply Hid.
    + unfold devices_unique. rewrite Hx. split; apply NoDup_singleton.
    + apply surjective_pairing.
Defined.

Lemma user_code_roundtrip_witness :
  let code := ok_of "" (run generateUserCode (example_world example_db)).2 in
  String.length code = 8%nat /\ NormalizeUserCode (FormatUserCode code) = code.
Proof.
  intros code.
  destruct (user_code_roundtrip (example_world example_db)
    (after generateUserCode (example_world example_db)) code) as (Hl & _ & Hr).
  - vm_compute. reflexivity.
  - split; [exact Hl|exact Hr].
Defined.
