(* ===== verification/Concurrency.v ===== *)
(** Interleaved runs: several programs share one world and take their atomic
    steps (SQL statements, clock and random reads) in any order. *)
From S2P Require Import Prelude GoStd Hash Models Effects Store Repos Libraries Scope AuthService.
From S2P Require Import DeviceFlow Examples AuthSpec DeviceSpec.

Open Scope Z_scope.

Section Pools.
Context {A : Type}.

(** One atomic step of a program; a finished program does nothing. *)
Definition step_prog (p : prog A) (w : World) : prog A * World :=
  match p with
  | Done _ => (p, w)
  | Step act k => let r := act w in (k r.2, r.1)
  end.

(** The pool after thread [i] took a step. *)
Definition step_thread (i : nat) (s : list (prog A) * World) : list (prog A) * World :=
  match s.1 !! i with
  | Some p => let r := step_prog p s.2 in (<[i := r.1]> s.1, r.2)
  | None => s
  end.

(** The threads named by the schedule take a step each, in order. *)
Definition interleave (schedule : list nat) (s : list (prog A) * World) : list (prog A) * World :=
  foldl (fun s i => step_thread i s) s schedule.

(** Any interleaving with each other and with other programs, whose steps
    satisfy [rely]. *)
Inductive interleaving (rely : World -> World -> Prop)
  : list (prog A) * World -> list (prog A) * World -> Prop :=
| il_refl s : interleaving rely s s
| il_thread i s s' : interleaving rely (step_thread i s) s' -> interleaving rely s s'
| il_other ps w w' s' : rely w w' -> interleaving rely (ps, w') s' -> interleaving rely (ps, w) s'.

Lemma interleave_interleaving rely schedule s : interleaving rely s (interleave schedule s).
Proof. revert s. induction schedule as [|i l IH]; intros s; [constructor|]. by apply il_thread with i. Qed.

(** An invariant every step keeps. *)
Lemma interleaving_inv rely (I : list (prog A) -> World -> Prop) s s' :
  (forall i ps w p, I ps w -> ps !! i = Some p ->
     I (<[i := (step_prog p w).1]> ps) (step_prog p w).2) ->
  (forall ps w w', I ps w -> rely w w' -> I ps w') ->
  interleaving rely s s' -> I s.1 s.2 -> I s'.1 s'.2.
Proof.
  intros Hstep Hrely. induction 1 as [s|i s s' _ IH|ps w w' s' Hr _ IH]; intros HI; [done| |].
  - apply IH. unfold step_thread. destruct (s.1 !! i) as [p|] eqn:E; [|done]. by apply Hstep.
  - apply IH. by eapply Hrely.
Qed.
End Pools.

(** ** Claiming an authorization code *)

Section Claim.
Context `{Env} (t : uuid) (code : string).

Definition unused (c : AuthorizationCode) : Prop := is_code t code c /\ ac_UsedAt c = None.

(** What the rest of the system may do: it never makes the code unused
    again. *)
Definition keeps_used (w w' : World) : Prop :=
  ((exists c, c ∈ db_authCodes (w_db w') /\ unused c) ->
   exists c, c ∈ db_authCodes (w_db w) /\ unused c).

(** Consume claimed the code. *)
Definition claimed (p : prog (AuthorizationCode * option error)) : bool :=
  match p with Done (Ok (_, None)) => true | _ => false end.
Definition claims (ps : list (prog (AuthorizationCode * option error))) : nat :=
  length (filter (fun p => Is_true (claimed p)) ps).

(** The stages of Consume: the UPDATE, and the lookup after it found nothing. *)
Definition consume_lookup : prog (AuthorizationCode * option error) :=
  existing ← or_err ErrAuthCodeNotFound (AuthCodeRepo.GetByCode t code);
  mret (existing, Some (ErrAuthCodeAlreadyUsed : error)).
Definition consume_update (now : Z) : prog (AuthorizationCode * option error) :=
  updated ← wrap "failed to consume authorization code"
    (UpdateWhere (fun c => (ac_TenantID c ==? t) && (ac_Code c ==? code)
                           && is_none (ac_UsedAt c))
                 (fun c => c <| ac_UsedAt := Some now |>));
  match updated with
  | authCode :: _ => mret (authCode, None)
  | [] => consume_lookup
  end.
Definition consume_stage (p : prog (AuthorizationCode * option error)) : Prop :=
  p = AuthCodeRepo.Consume t code \/ (exists now, p = consume_update now) \/
  p = consume_lookup \/ exists o, p = Done o.

Lemma step_Consume w :
  step_prog (AuthCodeRepo.Consume t code) w = (consume_update (env_now (w_step w)), tick w).
Proof. done. Qed.

Lemma step_consume_lookup w :
  exists o, step_prog consume_lookup w = (Done o, tick w) /\ claimed (Done o) = false.
Proof.
  unfold step_prog, consume_lookup. simpl. destruct (env_fault (w_step w)); simpl; [by eexists|].
  destruct w as [db n ev sec dom out]. simpl.
  destruct (first_where _ _); simpl; by eexists.
Qed.

Lemma claimed_unclaimed p : consume_stage p -> (forall o, p <> Done o) -> claimed p = false.
Proof. intros [->|[[now ->]|[->|[o ->]]]] Hn; try done. by destruct (Hn o). Qed.

Definition unused_code (c : AuthorizationCode) : bool :=
  (ac_TenantID c ==? t) && (ac_Code c ==? code) && is_none (ac_UsedAt c).

Lemma unused_code_spec c : unused_code c = true <-> unused c.
Proof.
  unfold unused_code, unused, is_code, is_none. rewrite !andb_true_iff, !bool_decide_eq_true.
  destruct (ac_UsedAt c); naive_solver.
Qed.

(** The UPDATE is one step: it claims the unused rows and leaves none. *)
Lemma step_consume_update now w :
  step_prog (consume_update now) w =
  if env_fault (w_step w)
  then (Done (Err (EWrap "failed to consume authorization code" (EExternal "database"))), tick w)
  else (match select_where unused_code (db_authCodes (w_db w)) with
        | [] => consume_lookup
        | c :: _ => Done (Ok (c <| ac_UsedAt := Some now |>, None))
        end,
        wrote (map (claim_code t code now) (db_authCodes (w_db w))) w).
Proof.
  unfold step_prog, consume_update. simpl.
  destruct (env_fault (w_step w)); [done|]. destruct w as [db n ev sec dom out]. simpl.
  f_equal.
  - unfold unused_code. by destruct (select_where _ _).
  - unfold wrote, tick. simpl. do 2 f_equal. apply map_ext. intros c. by rewrite andb_true_r.
Qed.

Lemma claim_all now l c : c ∈ map (claim_code t code now) l -> ~ unused c.
Proof.
  intros (c0 & -> & _)%list_elem_of_fmap [Hc Hu]. rewrite claim_code_is in Hc.
  unfold claim_code in Hu. destruct (_ && _) eqn:E; [done|].
  assert (Hn : unused_code c0 = true) by (by apply unused_code_spec). unfold unused_code in Hn.
  congruence.
Qed.

(** The invariant: the threads are at a stage of Consume, and one of them
    has claimed the code only when it is used up. *)
Definition claim_inv (ps : list (prog (AuthorizationCode * option error))) (w : World) : Prop :=
  Forall consume_stage ps /\ (claims ps <= 1)%nat /\
  ((exists c, c ∈ db_authCodes (w_db w) /\ unused c) -> claims ps = 0%nat).

Lemma claims_insert ps i p q :
  ps !! i = Some p ->
  (claims (<[i := q]> ps) + (if claimed p then 1 else 0) =
   claims ps + (if claimed q then 1 else 0))%nat.
Proof.
  revert i. induction ps as [|x ps IH]; intros [|i]; simpl; try done.
  - intros [= ->]. unfold claims. rewrite !filter_cons.
    destruct (claimed p), (claimed q); simpl; lia.
  - intros E. specialize (IH i E). unfold claims in *. rewrite !filter_cons.
    destruct (claimed x); simpl; lia.
Qed.

Lemma claim_step i ps w p :
  claim_inv ps w -> ps !! i = Some p ->
  claim_inv (<[i := (step_prog p w).1]> ps) (step_prog p w).2.
Proof.
  intros (Hst & Hle & Hz) Hi. pose proof (claims_insert ps i p (step_prog p w).1 Hi) as Hc.
  assert (consume_stage p) as Hp by (by eapply Forall_lookup_1).
  destruct Hp as [->|[[now ->]|[->|[o ->]]]].
  - rewrite step_Consume in *. simpl in *. split; [|split; [lia|intros He; rewrite Hz in Hc by done; lia]].
    apply Forall_insert; [done|]. right. left. by eexists.
  - rewrite step_consume_update in *. destruct (env_fault (w_step w)); simpl in *.
    + split; [|split; [lia|intros He; rewrite Hz in Hc by done; lia]].
      apply Forall_insert; [done|]. right. right. right. by eexists.
    + split; [|split; [|intros (c & Hin & Hu); by destruct (claim_all now _ c Hin)]].
      * apply Forall_insert; [done|]. destruct (select_where _ _); [by right; right; left|].
        right. right. right. by eexists.
      * destruct (select_where unused_code _) as [|c l] eqn:E; simpl in Hc; [lia|].
        assert (c ∈ select_where unused_code (db_authCodes (w_db w)))
          as (Hin & Hu & _)%elem_of_select_where by (rewrite E; left).
        rewrite Hz in Hc; [lia|]. exists c. by rewrite <-unused_code_spec.
  - destruct (step_consume_lookup w) as (o & Hstep & Ho). rewrite Hstep in *. simpl in *.
    rewrite Ho in Hc. split; [|split; [lia|intros He; rewrite Hz in Hc by done; lia]].
    apply Forall_insert; [done|]. right. right. right. by eexists.
  - simpl. by rewrite list_insert_id.
Qed.

(** C12: however many requests try to consume one authorization code at
    once, interleaved with each other and with anything that does not make
    the code unused again, at most one of them gets it. *)
Theorem Consume_once n w ps w' :
  interleaving keeps_used (repeat (AuthCodeRepo.Consume t code) n, w) (ps, w') ->
  (claims ps <= 1)%nat.
Proof.
  intros Hil. apply (interleaving_inv keeps_used claim_inv) in Hil as (_ & Hle & _); [done|..].
  - intros. by apply claim_step.
  - intros ps0 w0 w1 (Hst & Hle & Hz) Hr. split; [done|]. split; [done|]. intros He. by apply Hz, Hr.
  - simpl. assert (claims (repeat (AuthCodeRepo.Consume t code) n) = 0%nat) as Hz.
    { clear Hil. induction n as [|n IH]; [done|]. unfold claims in *. simpl repeat. rewrite filter_cons. exact IH. }
    split; [|split; [lia|done]]. clear Hz Hil. induction n as [|n IH]; [constructor|]. constructor; [by left|done].
Qed.
End Claim.

(** Two requests race for the example code. *)
Lemma Consume_once_witness :
  let s := interleave [0; 1; 1; 0; 0; 1]%nat
             (repeat (AuthCodeRepo.Consume 1 "code") 2, example_world example_db) in
  (claims s.1 <= 1)%nat /\ claims s.1 = 1%nat.
Proof.
  intros s. split; [|vm_compute; reflexivity].
  apply (Consume_once 1 "code" 2 (example_world example_db) s.1 s.2).
  unfold s. rewrite <-surjective_pairing. apply interleave_interleaving.
Defined.

(** ** Races the code does not exclude

    Each theorem gives a schedule under which two requests interfere. *)

Definition succeeded {A} (p : prog A) : bool := match p with Done (Ok _) => true | _ => false end.

(** A device code that was approved once can be redeemed twice: the
    second poll reads the row before the first deletes it. Deleting does not
    tell the service whether a row was there. Both requests get tokens, of
    one user and family. *)
Theorem ExchangeDeviceCode_double_redeem :
  exists schedule,
    let s := interleave schedule ([example_poll; example_poll], device_world (example_device DeviceCodeApproved (Some 9%N))) in
    forallb succeeded s.1 = true /\
    length (filter (fun a => at_FamilyID a = 80%N) (db_accessTokens (w_db s.2))) = 2%nat.
Proof.
  exists ([0%nat] ++ repeat 1%nat 30 ++ repeat 0%nat 30).
  split; vm_compute; reflexivity.
Qed.

(** An approval can be lost: a poll that read the row while it was
    pending writes the whole row back after the user approved. The approval
    reported success, and the row is pending again. *)
Theorem ApproveDeviceCode_lost :
  exists schedule,
    let approve := ApproveDeviceCode 1 "BCDF-GHJK" 9 ["pwd"] in
    let s := interleave schedule ([example_poll ;; mret tt; approve], device_world (example_device DeviceCodePending None)) in
    (exists p, s.1 !! 1%nat = Some p /\ succeeded p = true) /\
    (dc_Status <$> db_deviceCodes (w_db s.2)) = [DeviceCodePending] /\
    (dc_UserID <$> db_deviceCodes (w_db s.2)) = [None].
Proof.
  exists ([0%nat] ++ repeat 1%nat 30 ++ repeat 0%nat 30).
  split; [eexists; split; vm_compute; reflexivity | split; vm_compute; reflexivity].
Qed.

(** A replayed authorization code can leave tokens alive: when the
    replay revokes the family after the first request has claimed the code
    but before it has stored its tokens, nothing is there to revoke, and the
    first request does not look again. The reuse was detected (the event was
    emitted), yet the pair of that family is stored at the end. *)
Theorem ExchangeAuthorizationCode_replay_race :
  exists schedule,
    let s := interleave schedule ([example_exchange; example_exchange], example_world example_db) in
    (succeeded <$> s.1) = [true; false] /\
    (exists e, e ∈ w_events s.2 /\ tv_Type e = TokenEventReuseDetected) /\
    (exists a, a ∈ db_accessTokens (w_db s.2) /\ at_FamilyID a = ac_ID example_code) /\
    (exists r, r ∈ db_refreshTokens (w_db s.2) /\ rt_FamilyID r = ac_ID example_code).
Proof.
  exists ([0; 0]%nat ++ repeat 1%nat 30 ++ repeat 0%nat 30).
  split; [vm_compute; reflexivity|].
  split; [|split]; vm_compute.
  - eexists. split; [by left|done].
  - eexists. split; [by right; left|done].
  - eexists. split; [by right; left|done].
Qed.
