(* ===== verification/SessionSpec.v ===== *)
(** What Session.v guarantees of sessions and of remembered consent. *)
From S2P Require Import Prelude GoStd StringFacts Hash Models Effects Store Repos AccountRepos.
From S2P Require Import Libraries Scope AuthService Session Examples AuthSpec.

Open Scope Z_scope.

Section Consent.
Context `{Env} (t u c : uuid).

Definition consent_key (x : Consent) : bool :=
  (cs_TenantID x ==? t) && (cs_UserID x ==? u) && (cs_ClientID x ==? c).

Lemma run_Get w :
  run (ConsentRepo.Get t u c) w =
  (tick w, if env_fault (w_step w) then Err (EWrap "failed to get consent" (EExternal "database"))
           else match first_where consent_key (db_consents (w_db w)) with
                | Some r => Ok r | None => Err ErrResourceNotFound end).
Proof. unfold ConsentRepo.Get. by rewrite run_get_by. Qed.

(** HasConsent asks whether every scope token is covered. *)
Lemma HasConsent_true sc w w' :
  run (HasConsent t u c sc) w = (w', Ok true) ->
  exists old, first_where consent_key (db_consents (w_db w)) = Some old /\
    forall x, x ∈ ParseScope sc -> x ∈ ParseScope (cs_Scope old).
Proof.
  unfold HasConsent. rewrite run_bind, run_attempt, run_Get.
  destruct (env_fault (w_step w)); [done|].
  destruct (first_where _ _) as [old|] eqn:E; [|done]. cbv beta iota. rewrite run_ret.
  intros [= <- Hs]. exists old. split; [done|]. by apply ScopeIsSubset_elem.
Qed.

Lemma HasConsent_holds sc w y :
  stmt_ok w -> (exists x, x ∈ db_consents (w_db w) /\ consent_key x = true) ->
  (forall x, x ∈ db_consents (w_db w) -> consent_key x = true -> cs_Scope x = y) ->
  run (HasConsent t u c sc) w = (tick w, Ok (ScopeIsSubset sc y)).
Proof.
  intros Hw (x & Hx & Hk) Hall. unfold HasConsent. rewrite run_bind, run_attempt, run_Get, Hw.
  destruct (first_where _ _) as [old|] eqn:E.
  - apply first_where_Some in E as (Ho & Hko & _). cbv beta iota. rewrite run_ret.
    by rewrite (Hall old).
  - rewrite first_where_None in E. by rewrite E in Hk.
Qed.

Lemma conflict_key n x r :
  consent_key x = true -> row_conflict (row_stamp n x) r = consent_key r.
Proof.
  unfold consent_key. simpl. intros Hx. bool_simp. subst.
  repeat case_bool_decide; simpl; try done; congruence.
Qed.

(** The table after a successful upsert. *)
Lemma upsert_ok n x l l' :
  consent_key x = true -> ConsentRepo.upsert n x l = Some l' ->
  (exists y, y ∈ l' /\ consent_key y = true) /\
  (forall y, y ∈ l' -> consent_key y = true -> cs_Scope y = cs_Scope x) /\
  (forall y, consent_key y = false -> y ∈ l' <-> y ∈ l).
Proof.
  intros Hx. unfold ConsentRepo.upsert.
  set (upd := fun c' => if row_conflict (row_stamp n x) c' then _ else c').
  assert (Hkey : forall y, consent_key (upd y) = consent_key y).
  { intros y. unfold upd. by case_match. }
  assert (Hin : forall y, consent_key y = true -> cs_Scope (upd y) = cs_Scope x).
  { intros y Hy. unfold upd. by rewrite conflict_key, Hy. }
  assert (Hout : forall y, consent_key y = false -> upd y = y).
  { intros y Hy. unfold upd. by rewrite conflict_key, Hy. }
  destruct (existsb _ l) eqn:Ex.
  - intros [= <-]. fold upd. split_and!.
    + apply existsb_exists in Ex as (y & Hy%list_elem_of_In & Hk). rewrite conflict_key in Hk by done.
      exists (upd y). rewrite Hkey. split; [by apply list_elem_of_fmap_2|done].
    + intros y (z & -> & Hz)%list_elem_of_fmap. rewrite Hkey. apply Hin.
    + intros y Hy. rewrite list_elem_of_fmap. split.
      * intros (z & -> & Hz). rewrite Hkey in Hy. by rewrite Hout.
      * intros Hl. exists y. by rewrite Hout.
  - intros (-> & _)%insert_row_Some. pose proof (existsb_false _ _ Ex) as Hno.
    set (x' := row_stamp n (row_stamp n x)).
    assert (Hx' : consent_key x' = true) by done. split_and!.
    + exists x'. split; [|done]. apply elem_of_app. right. by left.
    + intros y [Hy|Hy%list_elem_of_singleton]%elem_of_app Hk; [|by subst].
      specialize (Hno y Hy). rewrite conflict_key in Hno by done. congruence.
    + intros y Hy. rewrite elem_of_app, list_elem_of_singleton. split; [|auto].
      intros [?| ->]; [done|congruence].
Qed.

Lemma Upsert_ok x w w' v :
  consent_key x = true -> run (ConsentRepo.Upsert x) w = (w', Ok v) ->
  exists l, w_db w' = (w_db w) <| db_consents := l |> /\
    (exists y, y ∈ l /\ consent_key y = true) /\
    (forall y, y ∈ l -> consent_key y = true -> cs_Scope y = cs_Scope x) /\
    (forall y, consent_key y = false -> y ∈ l <-> y ∈ db_consents (w_db w)).
Proof.
  intros Hx. unfold ConsentRepo.Upsert. rewrite ok_wrap, ok_write.
  intros (_ & l & E & ->). destruct (ConsentRepo.upsert _ _ _) as [l'|] eqn:Eu; [|done].
  injection E as <- _. exists l'. split; [done|]. by apply (upsert_ok _ _ _ _ Hx Eu).
Qed.

Lemma GrantConsent_ok scope w w' x :
  run (GrantConsent t u c scope) w = (w', Ok x) ->
  exists granted,
    (forall sc, sc ∈ granted <-> sc ∈ ParseScope scope \/
       exists old, first_where consent_key (db_consents (w_db w)) = Some old /\
                   sc ∈ ParseScope (cs_Scope old)) /\
    exists l, w_db w' = (w_db w) <| db_consents := l |> /\
      (exists y, y ∈ l /\ consent_key y = true) /\
      (forall y, y ∈ l -> consent_key y = true -> cs_Scope y = strings_Join granted) /\
      (forall y, consent_key y = false -> y ∈ l <-> y ∈ db_consents (w_db w)).
Proof.
  unfold GrantConsent. rewrite run_bind, run_attempt, run_Get.
  destruct (env_fault (w_step w)); [done|].
  destruct (first_where _ _) as [old|] eqn:E; cbv beta iota; intros Hrun.
  - exists (unionScopes (ParseScope (cs_Scope old)) (ParseScope scope)). split.
    { intros sc. rewrite elem_of_unionScopes. naive_solver. }
    repeat step_ok. match goal with H : run (ConsentRepo.Upsert _) _ = _ |- _ =>
      apply Upsert_ok in H as (l & Hdb & Hl); [|by unfold consent_key; rewrite !bool_decide_eq_true_2] end.
    exists l. go_ok. use_dbs. subst. split_and!; eauto.
  - exists (ParseScope scope). split; [naive_solver|].
    repeat step_ok. match goal with H : run (ConsentRepo.Upsert _) _ = _ |- _ =>
      apply Upsert_ok in H as (l & Hdb & Hl); [|by unfold consent_key; rewrite !bool_decide_eq_true_2] end.
    exists l. go_ok. use_dbs. subst. split_and!; eauto.
Qed.

(** The stored scope string reads back as the granted tokens. *)
Lemma ParseScope_granted scope w granted :
  (forall sc, sc ∈ granted <-> sc ∈ ParseScope scope \/
     exists old, first_where consent_key (db_consents (w_db w)) = Some old /\
                 sc ∈ ParseScope (cs_Scope old)) ->
  ParseScope (strings_Join granted) = granted.
Proof.
  intros Hg. apply Fields_Join. rewrite Forall_forall. intros x. rewrite <-list_elem_of_In, Hg.
  pose proof (fun s => proj1 (Forall_forall _ _) (Fields_fields s)) as Hf.
  intros [Hx|(old & _ & Hx)]; eapply Hf, list_elem_of_In, Hx.
Qed.

(** Granting consent remembers it, for this user and client alone:
    afterwards consent covers exactly what was granted now together with what
    an earlier consent covered, so nothing has to be asked again and nothing
    is covered that was not granted; consents of other users and clients are
    untouched. *)
Theorem GrantConsent_remembers scope sc w w1 w2 :
  run (GrantConsent t u c scope) w = (w1, Ok tt) ->
  w_db w2 = w_db w1 -> stmt_ok w2 -> stmt_ok w ->
  run (HasConsent t u c scope) w2 = (tick w2, Ok true) /\
  (run (HasConsent t u c sc) w = (tick w, Ok true) ->
   run (HasConsent t u c sc) w2 = (tick w2, Ok true)) /\
  (run (HasConsent t u c sc) w2 = (tick w2, Ok true) ->
   forall x, x ∈ ParseScope sc -> x ∈ ParseScope scope \/
     exists old, old ∈ db_consents (w_db w) /\ consent_key old = true /\
                 x ∈ ParseScope (cs_Scope old)) /\
  (forall y, consent_key y = false -> y ∈ db_consents (w_db w1) <-> y ∈ db_consents (w_db w)).
Proof.
  intros (granted & Hg & l & Hdb1 & Hex & Hall & Hout)%GrantConsent_ok Hdb2 Hw2 Hw.
  pose proof (ParseScope_granted _ _ _ Hg) as Hfields.
  assert (Hhas : forall sc, run (HasConsent t u c sc) w2 =
    (tick w2, Ok (ScopeIsSubset sc (strings_Join granted)))).
  { intros sc'. apply HasConsent_holds; rewrite ?Hdb2, ?Hdb1; done. }
  rewrite !Hhas. split_and!.
  - do 2 f_equal. apply ScopeIsSubset_elem. rewrite Hfields. intros x Hx. apply Hg. auto.
  - intros (old & Ho & Hsub)%HasConsent_true. do 2 f_equal. apply ScopeIsSubset_elem.
    rewrite Hfields. intros x Hx. apply Hg. eauto.
  - intros [= Hsub]. rewrite ScopeIsSubset_elem, Hfields in Hsub.
    intros x [?|(old & (? & ? & _)%first_where_Some & ?)]%Hsub%Hg; eauto.
  - by rewrite Hdb1.
Qed.
End Consent.

(** ** Witnesses *)

Lemma GrantConsent_remembers_witness :
  let grant := GrantConsent 1 9 7 "read write" in
  let w1 := after grant (example_world example_db) in
  run (HasConsent 1 9 7 "write") w1 = (tick w1, Ok true) /\
  run (HasConsent 1 9 7 "read write") w1 = (tick w1, Ok true).
Proof.
  intros grant w1. split; [vm_compute; reflexivity|].
  assert (E : run grant (example_world example_db) = (w1, Ok tt)) by (vm_compute; reflexivity).
  clearbody w1.
  unfold grant in E. by destruct (GrantConsent_remembers 1 9 7 "read write" "write" _ _ w1 E).
Defined.
