(* ===== verification/MfaSpec.v ===== *)
(** What the second factor of Mfa.v and MfaService.v guarantees. *)
From S2P Require Import Prelude GoStd StringFacts Base64 Hash Models Effects Store Repos.
From S2P Require Import AccountRepos Libraries Mfa MfaService Examples.
From Stdlib Require Import Ascii.

Open Scope Z_scope.

(** ** Time-based codes *)

Lemma verify_loop_spec secret code n step s b :
  verify_loop secret code n step (0, false) = (s, b) ->
  if b then step <= s < step + Z.of_nat n /\ Code secret s = code /\
            forall k, step <= k < s -> Code secret k <> code
  else forall k, step <= k < step + Z.of_nat n -> Code secret k <> code.
Proof.
  assert (Hdone : forall n step x, verify_loop secret code n step (x, true) = (x, true)).
  { induction n0 as [|n0 IH]; intros; simpl; [done|]. rewrite andb_false_r. apply IH. }
  revert step. induction n as [|n IH]; intros step; simpl.
  { intros [= <- <-] k Hk. lia. }
  rewrite andb_true_r. case_bool_decide as Hc.
  - rewrite Hdone. intros [= <- <-]. split; [lia|]. split; [done|]. intros. lia.
  - intros E. apply IH in E. destruct b.
    + destruct E as (Hs & Heq & Hmin). split; [lia|]. split; [done|].
      intros k Hk. destruct (decide (k = step)) as [->|]; [done|]. apply Hmin. lia.
    + intros k Hk. destruct (decide (k = step)) as [->|]; [done|]. apply E. lia.
Qed.

(** A time-based code is accepted exactly when, trimmed, it has six
    characters and is the code of the current time step or of one of its two
    neighbours; the step reported is the earliest that matches. *)
Theorem Verify_spec secret code now step ok :
  Verify secret code now = (step, ok) ->
  let steps k := totp_Step now - 1 <= k <= totp_Step now + 1 in
  if ok then String.length (TrimSpace code) = Digits /\ steps step /\
             Code secret step = TrimSpace code /\
             forall k, steps k -> Code secret k = TrimSpace code -> step <= k
  else String.length (TrimSpace code) <> Digits \/
       forall k, steps k -> Code secret k <> TrimSpace code.
Proof.
  unfold Verify. case_bool_decide as Hl.
  { intros [= <- <-]. by left. }
  intros E%verify_loop_spec. unfold Skew in E. destruct ok.
  - destruct E as (Hs & Hc & Hmin). split; [by destruct (decide (String.length (TrimSpace code) = Digits))|]. split; [lia|]. split; [done|].
    intros k Hk Hck. destruct (decide (step <= k)); [done|]. destruct (Hmin k); [lia|done].
  - right. intros k Hk. apply E. lia.
Qed.

(** ** Secrets at rest *)

Lemma substring_app_l a b : String.substring 0 (String.length a) (a +:+ b) = a.
Proof. induction a; simpl; [by destruct b|]. by f_equal. Qed.
Lemma substring_whole b : String.substring 0 (String.length b) b = b.
Proof. induction b; simpl; congruence. Qed.
Lemma substring_app_r a b :
  String.substring (String.length a) (String.length b) (a +:+ b) = b.
Proof. induction a; simpl; [apply substring_whole|done]. Qed.

Section Keys.
Context `{Env} `{AeadLib}.

(** C39: a sealed secret opens, under the same keys and for the same owner,
    to the secret that was sealed. *)
Theorem Seal_Open `{!AeadLaws} k secret aad w w' sealed :
  run (Seal k secret aad) w = (w', Ok sealed) -> Open k sealed aad = inl secret.
Proof.
  unfold Seal. intros E. repeat step_ok. subst. unfold Open.
  rewrite base64_std_roundtrip. unfold slice_to, slice_from.
  match goal with |- context [string_of ?l] => set (nonce := string_of l) in * end.
  assert (Hn : String.length nonce = aead_NonceSize).
  { unfold nonce. by rewrite string_of_length, length_map, length_seq. }
  rewrite string_length_app, <-Hn, leb_correct by lia.
  rewrite substring_app_l.
  replace (String.length nonce + _ - String.length nonce)%nat with
    (String.length (aead_Seal (mk_aead k) nonce secret aad)) by lia.
  by rewrite substring_app_r, aead_Open_Seal.
Qed.
End Keys.

(** ** One use *)

Section Service.
Context `{Env} (t u : uuid).

Definition fresh_step (step : Z) (m : UserMFA) : bool :=
  MFARepo.of_user t u m && is_some (mf_ConfirmedAt m) && (mf_LastUsedStep m <? step).

Lemma RowsAffected_1 {R : Set} (l : list R) : (RowsAffected l =? 1) = true -> exists x, x ∈ l.
Proof. destruct l as [|x l]; [done|]. intros _. exists x. by left. Qed.

Lemma UseStep_ok step w w' b :
  run (MFARepo.UseStep t u step) w = (w', Ok b) ->
  (b = true -> exists m, m ∈ db_mfa (w_db w) /\ fresh_step step m = true) /\
  (forall m, m ∈ db_mfa (w_db w') -> MFARepo.of_user t u m = true ->
             is_some (mf_ConfirmedAt m) = true -> step <= mf_LastUsedStep m) /\
  ((forall m, m ∈ db_mfa (w_db w) -> fresh_step step m = false) -> b = false /\ w_db w' = w_db w).
Proof.
  unfold MFARepo.UseStep. intros E. apply ok_bind in E as (now & w1 & [-> ->]%ok_Now & E).
  apply ok_bind in E as (l & w2 & E%ok_wrap & [-> ->]%ok_ret).
  apply UpdateRaw_ok in E as (_ & _ & Hdb & Hl & Hn); [|done]. split_and!.
  - intros [x Hx]%RowsAffected_1. apply Hl in Hx as (m & Hm & Hf & _). by exists m.
  - rewrite Hdb. intros m (m0 & -> & Hm0)%list_elem_of_fmap. fold (fresh_step step m0).
    destruct (fresh_step step m0) eqn:Hf; simpl; [lia|].
    intros Hu Hc. unfold fresh_step in Hf. rewrite Hu, Hc in Hf. simpl in Hf. lia.
  - intros Hno. by destruct (Hn Hno) as [-> ->].
Qed.

(** A time step is used at most once: once a code of a step was
    accepted, no code of that step or of an earlier one is accepted again,
    whatever the time, and trying changes nothing. *)
Theorem UseStep_once step step' w w1 w2 w3 b :
  run (MFARepo.UseStep t u step) w = (w1, Ok true) ->
  w_db w2 = w_db w1 -> step' <= step ->
  run (MFARepo.UseStep t u step') w2 = (w3, Ok b) ->
  b = false /\ w_db w3 = w_db w2.
Proof.
  intros (_ & Hused & _)%UseStep_ok Hdb Hle (_ & _ & Hn)%UseStep_ok. apply Hn.
  rewrite Hdb. intros m Hm. unfold fresh_step.
  destruct (MFARepo.of_user t u m) eqn:Hu; [|done].
  destruct (is_some (mf_ConfirmedAt m)) eqn:Hc; [|done].
  specialize (Hused m Hm Hu Hc). simpl. lia.
Qed.

Definition unused_recovery (hash : string) (c : MFARecoveryCode) : bool :=
  MFARepo.code_of_user t u c && (rc_CodeHash c ==? hash) && is_none (rc_UsedAt c).

Lemma UseRecoveryCode_ok hash w w' b :
  run (MFARepo.UseRecoveryCode t u hash) w = (w', Ok b) ->
  (b = true -> exists c, c ∈ db_recoveryCodes (w_db w) /\ unused_recovery hash c = true) /\
  (forall c, c ∈ db_recoveryCodes (w_db w') -> unused_recovery hash c = false) /\
  ((forall c, c ∈ db_recoveryCodes (w_db w) -> unused_recovery hash c = false) ->
   b = false /\ w_db w' = w_db w).
Proof.
  unfold MFARepo.UseRecoveryCode. rewrite ok_transaction. intros E.
  apply ok_bind in E as (now & w1 & [-> ->]%ok_Now & E).
  apply ok_bind in E as (l & w2 & E1%ok_wrap & E).
  apply UpdateRaw_ok in E1 as (_ & _ & Hdb & Hl & Hn); [|done].
  assert (Hused : forall c, c ∈ db_recoveryCodes (w_db w2) -> unused_recovery hash c = false).
  { rewrite Hdb. intros c (c0 & -> & Hc0)%list_elem_of_fmap. fold (unused_recovery hash c0).
    destruct (unused_recovery hash c0) eqn:Hf; [|done]. unfold unused_recovery. simpl.
    by rewrite andb_false_r. }
  destruct (RowsAffected l =? 0) eqn:E0.
  - apply ok_ret in E as [-> ->]. split_and!; [done|done|]. intros Hno. by destruct (Hn Hno) as [_ ->].
  - apply ok_bind in E as (now' & w3 & [-> ->]%ok_Now & E).
    apply ok_bind in E as (l' & w4 & E2 & [-> ->]%ok_ret).
    apply UpdateRaw_ok in E2 as (_ & _ & Hdb' & _); [|done]. split_and!.
    + intros _. destruct l as [|x l]; [done|]. destruct (Hl x) as (c & Hc & Hp & _); [by left|].
      by exists c.
    + rewrite Hdb'. simpl. exact Hused.
    + intros Hno. destruct (Hn Hno) as [-> _]. done.
Qed.

(** A recovery code is accepted at most once. *)
Theorem UseRecoveryCode_once hash w w1 w2 w3 b :
  run (MFARepo.UseRecoveryCode t u hash) w = (w1, Ok true) ->
  w_db w2 = w_db w1 ->
  run (MFARepo.UseRecoveryCode t u hash) w2 = (w3, Ok b) ->
  b = false /\ w_db w3 = w_db w2.
Proof.
  intros (_ & Hused & _)%UseRecoveryCode_ok Hdb (_ & _ & Hn)%UseRecoveryCode_ok.
  apply Hn. by rewrite Hdb.
Qed.
End Service.

(** ** Verification *)

Section Verification.
Context `{Env} `{UuidLib} `{AeadLib} (keys : Keys).

(** What passes as a second factor for a user with settings [m]. *)
Definition second_factor (m : UserMFA) (code method : string) (now : Z) (db : DB) : Prop :=
  (method = MFAMethodTOTP /\ exists secret step,
     Open keys (mf_TOTPSecret m) (secretAAD (mf_TenantID m) (mf_UserID m)) = inl secret /\
     Verify secret code now = (step, true) /\
     exists m', m' ∈ db_mfa db /\ fresh_step (mf_TenantID m) (mf_UserID m) step m' = true) \/
  (method = MFAMethodRecoveryCode /\ exists c, c ∈ db_recoveryCodes db /\
     unused_recovery (mf_TenantID m) (mf_UserID m) (HashRecoveryCode keys code) c = true).

Lemma check_ok m code now w w' method :
  run (check keys m code now) w = (w', Ok (method, true)) ->
  second_factor m code method now (w_db w).
Proof.
  unfold check, second_factor. intros E. repeat step_ok.
  - simplify_eq.
  - left. simplify_eq. match goal with H : run (MFARepo.UseStep _ _ _) _ = _ |- _ =>
      apply UseStep_ok in H as (Hf & _) end.
    split; [done|]. destruct (Hf eq_refl) as (m' & ? & ?). bool_simp. subst. eauto 10.
  - right. simplify_eq. match goal with H : run (MFARepo.UseRecoveryCode _ _ _) _ = _ |- _ =>
      apply UseRecoveryCode_ok in H as (Hf & _) end. auto.
Qed.

(** A confirmed factor of a user who is not locked out. *)
Definition factor_passed (t u : uuid) (code method : string) (db : DB) : Prop :=
  exists m n, m ∈ db_mfa db /\ MFARepo.of_user t u m = true /\ UserMFA_Enabled m = true /\
    (forall l, mf_LockedUntil m = Some l -> l <= env_now n) /\
    second_factor m code method (env_now n) db.

Lemma mfa_Verify_ok t u code w w' method :
  run (mfa_Verify keys t u code) w = (w', Ok method) -> factor_passed t u code method (w_db w).
Proof.
  unfold mfa_Verify. intros E.
  apply ok_bind in E as (m & w1 & (_ & -> & (Hm & Hu & _)%first_where_Some)%ok_get_by & E).
  destruct (UserMFA_Enabled m) eqn:Hen; [|done]. cbn [negb] in E.
  apply ok_bind in E as (now & w2 & [-> ->]%ok_Now & E).
  destruct (match mf_LockedUntil m with Some t => _ | None => _ end) eqn:Hlock; [done|].
  apply ok_bind in E as ([method' ok] & w1 & Hcheck & E). destruct ok; [|repeat step_ok].
  apply ok_ret in E as [_ ->]. apply check_ok in Hcheck.
  exists m, (w_step (tick w)). split_and!; try done.
  intros l Hl. rewrite Hl in Hlock. unfold time_before in Hlock. lia.
Qed.

(** C38: the second factor is accepted only for a user who has confirmed
    one and is not locked out, for a code of a fresh time step or an unused
    recovery code. While the user is locked out every code is refused and
    nothing changes. *)
Theorem mfa_Verify_sound t u code w w' o :
  run (mfa_Verify keys t u code) w = (w', o) ->
  (forall method, o = Ok method ->
     exists m n, m ∈ db_mfa (w_db w) /\ MFARepo.of_user t u m = true /\
       UserMFA_Enabled m = true /\
       (forall l, mf_LockedUntil m = Some l -> l <= env_now n) /\
       second_factor m code method (env_now n) (w_db w)) /\
  ((forall m, m ∈ db_mfa (w_db w) -> MFARepo.of_user t u m = true -> UserMFA_Enabled m = true /\
      exists l, mf_LockedUntil m = Some l /\ env_now (S (w_step w)) < l) ->
   (exists m, m ∈ db_mfa (w_db w) /\ MFARepo.of_user t u m = true) -> stmt_ok w ->
   o = Err ErrMFALocked /\ w_db w' = w_db w).
Proof.
  intros Hrun. split; [intros method ->; by apply mfa_Verify_ok in Hrun|].
  intros Hall (m0 & Hm0 & Hu0) Hw. revert Hrun.
  unfold mfa_Verify, MFARepo.Get. rewrite run_bind, run_get_by, Hw. cbn [rows table_UserMFA].
  destruct (first_where _ _) as [m|] eqn:E; [|rewrite first_where_None in E; by rewrite E in Hu0].
  apply first_where_Some in E as (Hm & Hu & _). cbv beta iota.
  destruct (Hall m Hm Hu) as (-> & l & -> & Hlt). cbn [negb]. rewrite run_bind, run_Now.
  cbv beta iota. change (w_step (tick w)) with (S (w_step w)). unfold time_before.
  destruct (Z.ltb_spec (env_now (S (w_step w))) l); [by intros [= <- <-]|lia].
Qed.
End Verification.

(** ** Witnesses *)

Definition example_totp : string := Code totp_secret (totp_Step epoch).

Lemma Verify_spec_witness :
  Verify totp_secret example_totp (epoch + 29 * second) = (totp_Step epoch, true) /\
  Code totp_secret (totp_Step epoch) = TrimSpace example_totp.
Proof.
  assert (E : Verify totp_secret example_totp (epoch + 29 * second) = (totp_Step epoch, true))
    by (vm_compute; reflexivity).
  split; [exact E|]. destruct (Verify_spec _ _ _ _ _ E) as (_ & _ & Hc & _). exact Hc.
Defined.

Lemma Seal_Open_witness :
  let r := run (Seal example_keys "secret" "1|9") mfa_world in
  Open example_keys (ok_of "" r.2) "1|9" = inl "secret".
Proof.
  intros r.
  apply (Seal_Open example_keys "secret" "1|9" mfa_world
    (after (Seal example_keys "secret" "1|9") mfa_world)).
  vm_compute. reflexivity.
Defined.

Lemma UseStep_once_witness :
  let use n := MFARepo.UseStep 1 9 n in
  let w1 := after (use 7) mfa_world in
  (run (use 7) mfa_world).2 = Ok true /\ w_db (after (use 6) w1) = w_db w1.
Proof.
  intros use w1. split; [vm_compute; reflexivity|].
  apply (UseStep_once 1 9 7 6 mfa_world w1 w1 (after (use 6) w1) false);
    [vm_compute; reflexivity | reflexivity | lia | vm_compute; reflexivity].
Defined.

Lemma UseRecoveryCode_once_witness :
  let use := MFARepo.UseRecoveryCode 1 9 (HashRecoveryCode example_keys "23456-789AB") in
  let w1 := after use mfa_world in
  (run use mfa_world).2 = Ok true /\ w_db (after use w1) = w_db w1.
Proof.
  intros use w1. split; [vm_compute; reflexivity|].
  apply (UseRecoveryCode_once 1 9 (HashRecoveryCode example_keys "23456-789AB") mfa_world w1 w1
    (after use w1) false); [vm_compute; reflexivity | reflexivity | vm_compute; reflexivity].
Defined.

Lemma mfa_Verify_sound_witness :
  let w := mfa_world in
  exists m n, m ∈ db_mfa (w_db w) /\
    second_factor example_keys m example_totp MFAMethodTOTP (env_now n) (w_db w).
Proof.
  intros w.
  destruct (mfa_Verify_sound example_keys 1 9 example_totp w
    (after (mfa_Verify example_keys 1 9 example_totp) w) (Ok MFAMethodTOTP)) as [Hok _].
  - vm_compute. reflexivity.
  - destruct (Hok _ eq_refl) as (m & n & Hm & _ & _ & _ & Hf). exists m, n. split; [exact Hm|exact Hf].
Defined.
