(* ===== verification/UserSpec.v ===== *)
(** What UserService.v guarantees: authentication, lockout and password
    reset, and where lockout and email verification fall short. *)
From S2P Require Import Prelude GoStd Hash Models Effects Store Repos AccountRepos.
From S2P Require Import Libraries Config AuthService UserService EmailService Frame SenderSpec Onward.
From S2P Require Import Examples.

Open Scope Z_scope.

Definition email_key (t : uuid) (email : string) (u : User) : bool :=
  (us_TenantID u ==? t) && (us_Email u ==? email).
Definition user_key (t id : uuid) (u : User) : bool := (us_TenantID u ==? t) && (us_ID u ==? id).

(** The users table with one row written back. *)
Definition replace_user (u : User) (l : list User) : list User :=
  map (fun r => if us_ID u ==? us_ID r then u else r) l.

Section Users.
Context `{Env} `{BcryptLib}.

Lemma run_GetByEmail t email w :
  run (UserRepo.GetByEmail t email) w =
  (tick w, if env_fault (w_step w) then Err (EWrap "failed to get user by email" (EExternal "database"))
           else match first_where (email_key t email) (db_users (w_db w)) with
                | Some u => Ok u | None => Err ErrUserNotFound end).
Proof. unfold UserRepo.GetByEmail. by rewrite run_get_by. Qed.

(** The unique indexes of users. *)
Definition users_unique (db : DB) : Prop :=
  forall a b, a ∈ db_users db -> b ∈ db_users db -> row_conflict a b = true -> us_ID a = us_ID b.

(** The row a failed and a successful attempt write. *)
Definition failed_attempt (now : Z) (u : User) : User :=
  let n := us_FailedLoginAttempts u + 1 in
  if MaxLoginAttempts <=? n
  then u <| us_FailedLoginAttempts := n |> <| us_Status := UserStatusLocked |>
         <| us_LockedAt := Some now |> <| us_LockedUntil := Some (now + LockoutDuration) |>
  else u <| us_FailedLoginAttempts := n |>.
Definition good_attempt (now : Z) (ip : string) (u : User) : User :=
  (if us_Status u ==? UserStatusLocked then u <| us_Status := UserStatusActive |> else u)
    <| us_FailedLoginAttempts := 0 |> <| us_LastLoginAt := Some now |> <| us_LastLoginIP := ip |>
    <| us_LockedAt := None |> <| us_LockedUntil := None |>.

Lemma safe_RecordLoginAttempt t email ip b : safe (RecordLoginAttempt t email ip b).
Proof. unfold RecordLoginAttempt. go_safe. Qed.

(** Saving a row that keeps its unique columns replaces it. *)
Lemma run_save_user (u u' : User) w :
  stmt_ok w -> users_unique (w_db w) -> u ∈ db_users (w_db w) ->
  us_ID u' = us_ID u -> us_TenantID u' = us_TenantID u -> us_Username u' = us_Username u ->
  us_Email u' = us_Email u -> us_DeletedAt u' = us_DeletedAt u ->
  run (UserRepo.Update u') w =
  (wrote (replace_user (row_touch (stmt_now w) u') (db_users (w_db w))) w,
   Ok (row_touch (stmt_now w) u')).
Proof.
  intros Hw Hu Hin Hid Ht Hn He Hd. unfold UserRepo.Update. rewrite ok_wrap, ok_Save.
  split; [done|]. split; [done|]. eexists. split; [|done]. unfold save_row. cbn [rows table_User].
  destruct (existsb (fun r => _ && _) _) eqn:Ex.
  - exfalso. apply existsb_exists in Ex as (r & Hr%list_elem_of_In & Hc).
    apply andb_true_iff in Hc as [Hne Hc]. apply (Hu u r) in Hr; [|done|].
    + simpl in Hne. by rewrite Hid, Hr, bool_decide_eq_true_2 in Hne.
    + revert Hc. simpl. by rewrite Ht, Hn, He, Hd.
  - destruct (existsb (fun r => row_id _ ==? _) _) eqn:Ex2; [reflexivity|].
    pose proof (existsb_false _ _ Ex2 u Hin) as Hf. simpl in Hf.
    rewrite Hid, bool_decide_eq_true_2 in Hf; done.
Qed.

(** Two rows that are equal once stamped are stored alike. *)
Lemma stored_user (a b : User) w n :
  row_touch (env_now n) a = b -> n = w_step w ->
  w_db (run (mret tt) (wrote (replace_user (row_touch (stmt_now w) a) (db_users (w_db w))) w)).1 =
  (w_db w) <| db_users := replace_user b (db_users (w_db w)) |>.
Proof. intros <- ->. reflexivity. Qed.

Lemma RecordLoginAttempt_effect t email ip b w u :
  (forall n, (w_step w <= n)%nat -> env_fault n = false) -> users_unique (w_db w) ->
  first_where (email_key t email) (db_users (w_db w)) = Some u ->
  let now := env_now (S (w_step w)) in
  w_db (run (RecordLoginAttempt t email ip b) w).1 =
    (w_db w) <| db_users := replace_user
      ((if b then good_attempt now ip u else failed_attempt now u)
         <| us_UpdatedAt := env_now (S (S (w_step w))) |>) (db_users (w_db w)) |>.
Proof.
  intros Hw Hu Hf. apply first_where_Some in Hf as Hin. destruct Hin as (Hin & _).
  unfold RecordLoginAttempt. rewrite run_bind, run_attempt, run_GetByEmail, Hw, Hf by lia.
  cbv beta iota. rewrite run_bind, run_Now. cbv beta iota.
  destruct b; cbv zeta; rewrite run_bind; erewrite (run_save_user u); try done;
    try (unfold stmt_ok; simpl; apply Hw; lia); try (by case_match); cbv beta iota;
    apply (stored_user _ _ (tick (tick w)) (S (S (w_step w)))); try done.
  - unfold good_attempt. simpl. by destruct (us_Status u ==? UserStatusLocked).
  - unfold failed_attempt. simpl. by destruct (MaxLoginAttempts <=? us_FailedLoginAttempts u + 1).
Qed.

(** What authentication does to the database, as a pure function of the
    clock (read at the guard, at the record and at its write). *)
Definition auth_outcome (now : Z) (u : option User) (password : string) : outcome User :=
  match u with
  | None => Err ErrInvalidCredentials
  | Some u => if IsLocked now u then Err ErrUserLocked
              else if bcrypt_Compare (us_PasswordHash u) password then Ok u
              else Err ErrInvalidCredentials
  end.
Definition auth_users (now recorded written : Z) (u : option User) (password : string)
    (l : list User) : list User :=
  match u with
  | None => l
  | Some u =>
    if IsLocked now u then l
    else replace_user ((if bcrypt_Compare (us_PasswordHash u) password
                        then good_attempt recorded "" u else failed_attempt recorded u)
                         <| us_UpdatedAt := written |>) l
  end.

Lemma run_Authenticate t email password w :
  stmt_ok w ->
  run (Authenticate t email password) w =
  match first_where (email_key t email) (db_users (w_db w)) with
  | None => (tick w, Err ErrInvalidCredentials)
  | Some u =>
    if IsLocked (env_now (S (w_step w))) u then (tick (tick w), Err ErrUserLocked)
    else let ok := bcrypt_Compare (us_PasswordHash u) password in
         ((run (RecordLoginAttempt t email "" ok) (tick (tick w))).1,
          if ok then Ok u else Err ErrInvalidCredentials)
  end.
Proof.
  unfold stmt_ok. intros Hw. unfold Authenticate, or_err.
  rewrite run_bind, run_map_err, run_GetByEmail, Hw.
  destruct (first_where _ _) as [u|]; cbv beta iota; [|done].
  rewrite run_bind, run_Now. cbv beta iota. change (w_step (tick w)) with (S (w_step w)).
  destruct (IsLocked _ u); [done|]. cbv zeta.
  destruct (bcrypt_Compare _ _); cbv beta iota delta [negb];
    rewrite run_bind, run_ignore_safe by apply safe_RecordLoginAttempt; by rewrite ?run_throw, ?run_ret.
Qed.

(** C19: with a database that answers, authentication answers exactly as
    [auth_outcome] says and leaves exactly the users [auth_users] says: an
    unknown address and a wrong password are told apart by nothing but the
    failure count, a locked account is refused before its password is
    looked at, and only the row of the account changes. *)
Theorem Authenticate_spec t email password w :
  (forall n, (w_step w <= n)%nat -> env_fault n = false) -> users_unique (w_db w) ->
  let found := first_where (email_key t email) (db_users (w_db w)) in
  let at_ n := env_now (n + w_step w)%nat in
  exists w', run (Authenticate t email password) w = (w', auth_outcome (at_ 1%nat) found password) /\
    w_db w' = (w_db w) <| db_users :=
      auth_users (at_ 1%nat) (at_ 3%nat) (at_ 4%nat) found password (db_users (w_db w)) |>.
Proof.
  intros Hw Hu found at_. rewrite run_Authenticate by (apply Hw; lia).
  change (first_where _ _) with found. change (env_now (S (w_step w))) with (at_ 1%nat).
  destruct found as [u|] eqn:Hf; simpl auth_outcome; unfold auth_users.
  2:{ eexists. split; [done|]. simpl. by destruct (w_db w). }
  destruct (IsLocked (at_ 1%nat) u); [eexists; split; [done|]; simpl; by destruct (w_db w)|].
  eexists. split; [done|]. erewrite RecordLoginAttempt_effect; [by destruct (bcrypt_Compare _ _)| |done..].
  intros n Hn. apply Hw. simpl in Hn. lia.
Qed.

(** The row written back is the one the address finds. *)
Lemma replaced_found t email u u' l db :
  db_users db = l -> users_unique db -> first_where (email_key t email) l = Some u ->
  us_ID u' = us_ID u -> us_TenantID u' = us_TenantID u -> us_Username u' = us_Username u ->
  us_Email u' = us_Email u -> us_DeletedAt u' = us_DeletedAt u ->
  first_where (email_key t email) (replace_user u' l) = Some u'.
Proof.
  intros <- Hu (Hin & Hk & Hl)%first_where_Some Hid Ht Hn He Hd.
  unfold email_key in Hk. bool_simp. simpl in Hl.
  assert (Hin' : u' ∈ replace_user u' (db_users db)).
  { apply list_elem_of_fmap. exists u. split; [|done]. by rewrite Hid, bool_decide_eq_true_2. }
  assert (Hk' : email_key t email u' = true).
  { unfold email_key. rewrite Ht, He. apply andb_true_intro. split; by apply bool_decide_eq_true. }
  destruct (first_where _ _) as [x|] eqn:E.
  2:{ rewrite first_where_None in E. rewrite E in Hk'; [done|done|]. simpl. by rewrite Hd. }
  apply first_where_Some in E as (Hx & Hkx & Hlx). f_equal.
  apply list_elem_of_fmap in Hx as (x0 & -> & Hx0). case_bool_decide as Hc; [done|]. exfalso.
  apply Hc. rewrite Hid. symmetry. apply Hu; [done|done|]. simpl.
  unfold email_key in Hkx. simpl in Hlx. bool_simp. subst.
  rewrite Hlx, Hl. simpl. apply andb_true_intro. split; [by apply bool_decide_eq_true; congruence|].
  apply orb_true_iff. right. apply bool_decide_eq_true. congruence.
Qed.

End Users.

Lemma Authenticate_locked (E : Env) (B : BcryptLib) t email password w u :
  stmt_ok w -> first_where (email_key t email) (db_users (w_db w)) = Some u ->
  us_Status u = UserStatusLocked ->
  exists w', run (Authenticate t email password) w = (w', Err ErrUserLocked) /\ w_db w' = w_db w.
Proof.
  intros Hw Hf Hs. rewrite run_Authenticate, Hf by done. unfold IsLocked.
  rewrite Hs, bool_decide_eq_true_2 by done. cbn [orb]. by eexists.
Qed.

(** *** Guessing the password of an account *)

Section Guessing.
Context (E : Env) (B : BcryptLib) (t : uuid) (email : string).

(** A history of one account: the logins with their passwords and outcomes,
    one after another, between which anything may happen that leaves the row
    of the account as it is. *)
Inductive logins : World -> list (string * outcome User) -> World -> Prop :=
| logins_none w : logins w [] w
| logins_attempt w password w1 o h w' :
    run (Authenticate t email password) w = (w1, o) -> logins w1 h w' ->
    logins w ((password, o) :: h) w'
| logins_other w w1 h w' :
    (w_step w <= w_step w1)%nat -> users_unique (w_db w1) ->
    first_where (email_key t email) (db_users (w_db w1)) =
      first_where (email_key t email) (db_users (w_db w)) ->
    logins w1 h w' -> logins w h w'.

(** The row of the account after [i] wrong passwords, counted from [u]. *)
Definition guessed (u : User) (i : nat) (w : World) (v : User) : Prop :=
  us_PasswordHash v = us_PasswordHash u /\
  if us_FailedLoginAttempts u + Z.of_nat i <? MaxLoginAttempts
  then us_Status v = us_Status u /\ us_LockedUntil v = None /\
       us_FailedLoginAttempts v = us_FailedLoginAttempts u + Z.of_nat i
  else us_Status v = UserStatusLocked /\
       exists n, (n <= w_step w)%nat /\ us_LockedUntil v = Some (env_now n + LockoutDuration).
Definition guessing (u : User) (i : nat) (w : World) : Prop :=
  users_unique (w_db w) /\
  exists v, first_where (email_key t email) (db_users (w_db w)) = Some v /\ guessed u i w v.

Lemma replace_user_unique u u' db :
  users_unique db -> u ∈ db_users db -> us_ID u' = us_ID u -> us_TenantID u' = us_TenantID u ->
  us_Username u' = us_Username u -> us_Email u' = us_Email u -> us_DeletedAt u' = us_DeletedAt u ->
  users_unique (db <| db_users := replace_user u' (db_users db) |>).
Proof.
  intros Hu Hin Hid Ht Hn He Hd.
  assert (Hrep : forall a, a ∈ replace_user u' (db_users db) -> exists a0, a0 ∈ db_users db /\
    us_ID a = us_ID a0 /\ us_TenantID a = us_TenantID a0 /\ us_Username a = us_Username a0 /\
    us_Email a = us_Email a0 /\ us_DeletedAt a = us_DeletedAt a0).
  { intros a (r & -> & Hr)%list_elem_of_fmap. case_bool_decide; [exists u|exists r]; done. }
  intros a b (a0 & Ha & Ea & Ea1 & Ea2 & Ea3 & Ea4)%Hrep (b0 & Hb & Eb & Eb1 & Eb2 & Eb3 & Eb4)%Hrep Hc.
  rewrite Ea, Eb. apply Hu; [done..|]. revert Hc. simpl. by rewrite Ea1, Ea2, Ea3, Ea4, Eb1, Eb2, Eb3, Eb4.
Qed.

Lemma onward_Authenticate password : onward (Authenticate t email password).
Proof.
  unfold Authenticate, RecordLoginAttempt, UserRepo.GetByEmail, UserRepo.Update. onward.
Qed.

Lemma steps_RecordLoginAttempt ip b w u :
  env_fault (w_step w) = false ->
  first_where (email_key t email) (db_users (w_db w)) = Some u ->
  (S (S (w_step w)) <= w_step (run (RecordLoginAttempt t email ip b) w).1)%nat.
Proof.
  intros Hw Hf. unfold RecordLoginAttempt. rewrite run_bind, run_attempt, run_GetByEmail, Hw, Hf.
  cbv beta iota. rewrite run_bind, run_Now. cbv beta iota zeta.
  match goal with |- context [run ?p ?w1] =>
    assert (Ho : onward p) by (unfold UserRepo.Update; onward);
    pose proof (Ho w1 _ _ (surjective_pairing _)) as Hle end.
  exact Hle.
Qed.

(** What a wrong password [i] (or, once locked, any password) leads to. *)
Definition guess_outcome (u : User) (i : nat) : outcome User :=
  if us_FailedLoginAttempts u + Z.of_nat i <? MaxLoginAttempts
  then Err ErrInvalidCredentials else Err ErrUserLocked.

Lemma guessing_locked u i w password w' o :
  (forall n, (w_step w <= n)%nat -> env_fault n = false) ->
  guessing u i w -> MaxLoginAttempts <= us_FailedLoginAttempts u + Z.of_nat i ->
  run (Authenticate t email password) w = (w', o) ->
  o = Err ErrUserLocked /\ guessing u (S i) w'.
Proof.
  intros Hw (Hu & v & Hv & Hh & Hg) Hi Hrun. pose proof (onward_Authenticate password _ _ _ Hrun).
  rewrite (proj2 (Z.ltb_ge _ _) Hi) in Hg. destruct Hg as [Hs (n & Hn & Hl)].
  destruct (Authenticate_locked E B t email password w v) as (w1 & E1 & Hdb);
    [apply Hw; lia|done|done|].
  rewrite E1 in Hrun. injection Hrun as <- <-. split; [done|]. split; [by rewrite Hdb|].
  exists v. split; [by rewrite Hdb|]. split; [done|].
  rewrite (proj2 (Z.ltb_ge _ _)) by lia. split; [done|]. exists n. split; [lia|done].
Qed.

Lemma guessing_wrong u i w password w' o :
  (forall n, (w_step w <= n)%nat -> env_fault n = false) ->
  us_Status u <> UserStatusLocked -> guessing u i w ->
  us_FailedLoginAttempts u + Z.of_nat i < MaxLoginAttempts ->
  bcrypt_Compare (us_PasswordHash u) password = false ->
  run (Authenticate t email password) w = (w', o) ->
  o = Err ErrInvalidCredentials /\ guessing u (S i) w'.
Proof.
  intros Hw Hnl (Hu & v & Hv & Hh & Hg) Hi Hp Hrun.
  pose proof (onward_Authenticate password _ _ _ Hrun) as Hon. revert Hrun.
  rewrite (proj2 (Z.ltb_lt _ _) Hi) in Hg. destruct Hg as (Hs & Hl & Hf).
  rewrite run_Authenticate, Hv by (apply Hw; lia). unfold IsLocked. rewrite Hl, Hs.
  rewrite bool_decide_eq_false_2 by done. cbv zeta. rewrite Hh, Hp. intros [= <- <-].
  split; [done|]. apply first_where_Some in Hv as Hin. destruct Hin as (Hin & _).
  pose proof (RecordLoginAttempt_effect t email "" false (tick (tick w)) v) as Hdb.
  set (w1 := (run (RecordLoginAttempt _ _ _ _) _).1) in *.
  specialize (Hdb (fun n Hn => Hw n ltac:(simpl in Hn; lia)) Hu Hv). cbv zeta iota in Hdb.
  match type of Hdb with context [replace_user ?x _] => set (v' := x) in Hdb end.
  change (w_db (tick (tick w))) with (w_db w) in Hdb.
  assert (Hrow : us_ID v' = us_ID v /\ us_TenantID v' = us_TenantID v /\
    us_Username v' = us_Username v /\ us_Email v' = us_Email v /\ us_DeletedAt v' = us_DeletedAt v /\
    guessed u (S i) w1 v').
  { subst v'. unfold guessed, failed_attempt.
    replace (us_FailedLoginAttempts u + Z.of_nat (S i)) with (us_FailedLoginAttempts v + 1) by lia.
    rewrite Z.ltb_antisym. destruct (MaxLoginAttempts <=? _); simpl; [|by rewrite Hf].
    do 6 (split; [done|]). split; [done|]. eexists. split; [|done].
    pose proof (steps_RecordLoginAttempt "" false (tick (tick w)) v) as Hsteps. fold w1 in Hsteps.
    simpl in Hsteps |- *. specialize (Hsteps (Hw (S (S (w_step w))) ltac:(lia)) Hv). lia. }
  destruct Hrow as (H1 & H2 & H3 & H4 & H5 & H6). split.
  - rewrite Hdb. by apply (replace_user_unique v).
  - exists v'. split; [|done]. rewrite Hdb. by apply (replaced_found _ _ v _ _ (w_db w)).
Qed.

Lemma guessing_step u i w password w' o :
  (forall n, (w_step w <= n)%nat -> env_fault n = false) ->
  us_Status u <> UserStatusLocked -> guessing u i w ->
  (us_FailedLoginAttempts u + Z.of_nat i < MaxLoginAttempts ->
   bcrypt_Compare (us_PasswordHash u) password = false) ->
  run (Authenticate t email password) w = (w', o) ->
  o = guess_outcome u i /\ guessing u (S i) w'.
Proof.
  intros Hw Hnl Hg Hp Hrun. unfold guess_outcome. destruct (_ <? _) eqn:Hi.
  - apply Z.ltb_lt in Hi. eapply guessing_wrong; eauto.
  - apply Z.ltb_ge in Hi. eapply guessing_locked; eauto.
Qed.

Lemma guessing_other u i w w' :
  (w_step w <= w_step w')%nat -> users_unique (w_db w') ->
  first_where (email_key t email) (db_users (w_db w')) =
    first_where (email_key t email) (db_users (w_db w)) ->
  guessing u i w -> guessing u i w'.
Proof.
  intros Hle Hu Hf (_ & v & Hv & Hh & Hg). split; [done|]. exists v. split; [congruence|].
  split; [done|]. destruct (_ <? _); [done|]. destruct Hg as [? (n & Hn & ?)].
  split; [done|]. exists n. split; [lia|done].
Qed.

Lemma guessing_history u i w h w' :
  us_Status u <> UserStatusLocked -> logins w h w' ->
  (forall n, (w_step w <= n)%nat -> env_fault n = false) -> guessing u i w ->
  (forall j password o, h !! j = Some (password, o) ->
     us_FailedLoginAttempts u + Z.of_nat (i + j) < MaxLoginAttempts ->
     bcrypt_Compare (us_PasswordHash u) password = false) ->
  (forall j password o, h !! j = Some (password, o) -> o = guess_outcome u (i + j)) /\
  guessing u (i + length h) w'.
Proof.
  intros Hnl Hh. revert i. induction Hh as [w|w p w1 o h w' Hrun _ IH|w w1 h w' Hle Hu Hf _ IH];
    intros i Hw Hg Hp.
  - split; [done|]. by rewrite Nat.add_0_r.
  - pose proof (onward_Authenticate p _ _ _ Hrun).
    destruct (guessing_step u i w p w1 o) as [Ho Hg1]; [done..| |done|].
    { intros Hi. apply (Hp 0%nat p o); [done|]. by rewrite Nat.add_0_r. }
    destruct (IH (S i)) as [Hall Hend]; [intros n Hn; apply Hw; lia|done| |].
    { intros j q o' Hj. rewrite Nat.add_succ_comm. by apply (Hp (S j) q o'). }
    split; [|simpl; by rewrite <-Nat.add_succ_comm].
    intros [|j] q o' Hj; [injection Hj as <- <-; by rewrite Nat.add_0_r|].
    rewrite <-Nat.add_succ_comm. by apply (Hall j q).
  - apply IH; [intros n Hn; apply Hw; lia|by eapply guessing_other|done].
Qed.

(** C20: guessing the password of an account ends after MaxLoginAttempts
    wrong ones, and the lock that ends it does not end by itself. In every
    history of logins to an account that is not locked, between which its
    row is left as it is, the wrong passwords up to the fifth failure are
    refused as wrong, and after it every login is refused as locked,
    whatever its password and whatever the clock says by then. The row ends
    with the status locked and, as the time the lock is to end, the time of
    a failure plus LockoutDuration: that time is stored, and contrary to
    what the constant says it passes without effect. (What lifts the lock is
    an operation that rewrites the row: a password reset,
    [ResetPassword_sound], or an administrator's unlocking.) *)
Theorem Authenticate_lockout u w h w' :
  (forall n, (w_step w <= n)%nat -> env_fault n = false) -> users_unique (w_db w) ->
  first_where (email_key t email) (db_users (w_db w)) = Some u ->
  us_Status u <> UserStatusLocked -> us_LockedUntil u = None ->
  us_FailedLoginAttempts u < MaxLoginAttempts ->
  let left := Z.to_nat (MaxLoginAttempts - us_FailedLoginAttempts u) in
  logins w h w' ->
  (forall i password o, h !! i = Some (password, o) -> (i < left)%nat ->
     bcrypt_Compare (us_PasswordHash u) password = false) ->
  (forall i password o, h !! i = Some (password, o) ->
     o = if decide (i < left)%nat then Err ErrInvalidCredentials else Err ErrUserLocked) /\
  ((left <= length h)%nat ->
     exists v n, first_where (email_key t email) (db_users (w_db w')) = Some v /\
       us_Status v = UserStatusLocked /\ (n <= w_step w')%nat /\
       us_LockedUntil v = Some (env_now n + LockoutDuration) /\
       forall now, IsLocked now v = true).
Proof.
  intros Hw Hu Hf Hnl Hul Hmax left Hh Hp.
  assert (Hleft : forall i, us_FailedLoginAttempts u + Z.of_nat i < MaxLoginAttempts <-> (i < left)%nat)
    by (unfold left; lia).
  destruct (guessing_history u 0 w h w') as [Hall (_ & v & Hv & _ & Hend)]; try done.
  - split; [done|]. exists u. split; [done|]. split; [done|]. rewrite Z.add_0_r.
    by rewrite (proj2 (Z.ltb_lt _ _) Hmax).
  - intros j password o Hj Hi. apply (Hp j password o Hj). by apply Hleft.
  - split.
    + intros i password o Hi. rewrite (Hall i password o Hi). unfold guess_outcome.
      change (0 + i)%nat with i.
      destruct (us_FailedLoginAttempts u + Z.of_nat i <? MaxLoginAttempts) eqn:Hlt.
      * by rewrite decide_True by (by apply Hleft, Z.ltb_lt).
      * rewrite decide_False; [done|]. intros Hd%Hleft. apply Z.ltb_ge in Hlt. lia.
    + intros Hlen. simpl in Hend. rewrite (proj2 (Z.ltb_ge _ _)) in Hend.
      * destruct Hend as [Hs (n & Hn & Hl)]. exists v, n. do 4 (split; [done|]).
        intros now. unfold IsLocked. by rewrite Hs, bool_decide_eq_true_2.
      * destruct (Z.lt_ge_cases (us_FailedLoginAttempts u + Z.of_nat (length h)) MaxLoginAttempts)
          as [Hlt|]; [apply Hleft in Hlt; lia|done].
Qed.
End Guessing.

(** ** Password reset *)

(** A user's sessions and tokens removed. *)
Definition of_user {R} (tenant user : R -> uuid) (t u : uuid) (r : R) : bool :=
  (tenant r ==? t) && (user r ==? u).
Definition drop_credentials (t u : uuid) (db : DB) : DB :=
  db <| db_sessions := filter (fun r => negb (of_user ss_TenantID ss_UserID t u r)) (db_sessions db) |>
     <| db_accessTokens := filter (fun r => negb (of_user at_TenantID at_UserID t u r)) (db_accessTokens db) |>
     <| db_refreshTokens := filter (fun r => negb (of_user rt_TenantID rt_UserID t u r)) (db_refreshTokens db) |>.

Section Reset.
Context `{Env} `{BcryptLib} `{MapOrder} (cfg : Config).
(** The sender main.go gives the user service. *)
#[local] Abbreviation wired := (Some (EmailService.SendTemplateEmail cfg : TemplateEmailSender)).

Lemma revokeUserCredentials_ok t u w w' x :
  run (revokeUserCredentials t u) w = (w', Ok x) -> w_db w' = drop_credentials t u (w_db w).
Proof.
  unfold revokeUserCredentials, endSessions, SessionRepo.DeleteByUserID,
    AccessTokenRepo.DeleteByUserID, RefreshTokenRepo.DeleteByUserID.
  intros E. apply ok_bind in E as (? & w1 & E1%ok_wrap%ok_wrap & E).
  apply ok_bind in E as (? & w2 & E2%ok_wrap%ok_wrap & E3%ok_wrap%ok_wrap).
  apply ok_DeleteWhere in E1 as [_ ->], E2 as [_ ->], E3 as [_ ->].
  rewrite !delete_where_hard by done. done.
Qed.

Definition reset_used (r : PasswordReset) : bool := is_some (pr_UsedAt r).

Lemma MarkUsed_ok id w w' b :
  run (PasswordResetRepo.MarkUsed id) w = (w', Ok b) ->
  (forall r, r ∈ db_passwordResets (w_db w') -> pr_ID r = id -> reset_used r = true) /\
  w_db w' = (w_db w) <| db_passwordResets := db_passwordResets (w_db w') |>.
Proof.
  unfold PasswordResetRepo.MarkUsed. intros E. apply ok_bind in E as (now & w1 & [-> ->]%ok_Now & E).
  apply ok_bind in E as (l & w2 & [_ [_ ->]]%ok_wrap%ok_UpdateWhere & [-> ->]%ok_ret).
  split; [|done]. intros r (r0 & _ & ->)%elem_of_update_where. unfold reset_used.
  change (row_live r0) with true. rewrite andb_true_r.
  destruct (decide (pr_ID r0 = id)) as [Hd|Hd].
  - rewrite (bool_decide_eq_true_2 _ Hd). cbn [andb]. destruct (pr_UsedAt r0) eqn:Hu; simpl; by rewrite ?Hu.
  - rewrite (bool_decide_eq_false_2 _ Hd). simpl. done.
Qed.

Lemma RevokeUnused_run t u w :
  w_db (run (PasswordResetRepo.RevokeUnusedByUserID t u) w).1 =
    (w_db w) <| db_passwordResets :=
      db_passwordResets (w_db (run (PasswordResetRepo.RevokeUnusedByUserID t u) w).1) |> /\
  forall r, r ∈ db_passwordResets (w_db (run (PasswordResetRepo.RevokeUnusedByUserID t u) w).1) ->
    exists r0, r0 ∈ db_passwordResets (w_db w) /\ pr_ID r = pr_ID r0 /\
               (reset_used r0 = true -> reset_used r = true).
Proof.
  unfold PasswordResetRepo.RevokeUnusedByUserID. rewrite run_bind, run_Now. cbv beta iota.
  rewrite run_bind. unfold wrap. rewrite run_map_err. unfold UpdateWhere. rewrite run_Stmt.
  destruct (env_fault (w_step (tick w))).
  - split; [simpl; by destruct (w_db w)|]. intros r Hr. by exists r.
  - split; [done|]. intros r (r0 & Hr0 & ->)%elem_of_update_where. exists r0.
    split; [done|]. unfold reset_used. by destruct (_ && row_live r0).
Qed.

(** The password-changed notice: queued for the user, or not at all. *)
Definition notice_queued (u : User) (w w' : World) : Prop :=
  none_queued w w' \/ one_queued (us_TenantID u) (us_Email u) (GetFullName u) w w'.

Lemma notifyPasswordChanged_ok u w w' x :
  run (notifyPasswordChanged wired u) w = (w', Ok x) -> notice_queued u w w'.
Proof.
  unfold notifyPasswordChanged. intros (o & E & _)%ok_ignore.
  by apply (SendTemplateEmail_effect cfg) in E.
Qed.

Lemma notice_queued_db u w w' :
  notice_queued u w w' ->
  w_db w' = (w_db w) <| db_emailQueue := db_emailQueue (w_db w') |> /\
  (db_emailQueue (w_db w') = db_emailQueue (w_db w) \/
   exists e, queued_for (us_TenantID u) (us_Email u) (GetFullName u) e /\
             db_emailQueue (w_db w') = db_emailQueue (w_db w) ++ [e]).
Proof.
  intros [->|(e & He & ->)].
  - split; [by destruct (w_db w)|by left].
  - split; [by destruct (w_db w)|]. right. by exists e.
Qed.

Lemma Save_user_ok (u u0 u' : User) w w' :
  run (UserRepo.Update u) w = (w', Ok u') -> u0 ∈ db_users (w_db w) -> us_ID u = us_ID u0 ->
  u' = row_touch (stmt_now w) u /\
  w_db w' = (w_db w) <| db_users := replace_user u' (db_users (w_db w)) |>.
Proof.
  unfold UserRepo.Update. intros (_ & -> & l & Hl & ->)%ok_wrap%ok_Save Hin Hid. split; [done|].
  apply (save_row_existing _ _ u0) in Hl; [|done|done]. by subst l.
Qed.

(** What a reset ends with: the tokens and sessions go, resets only become
    used, and the user is told. *)
Lemma reset_tail_ok t u w w' x :
  run (revokeUserCredentials t (us_ID u) ;;
       ignore (PasswordResetRepo.RevokeUnusedByUserID t (us_ID u)) ;;
       notifyPasswordChanged wired u ;; mret u) w = (w', Ok x) ->
  x = u /\
  (forall r, r ∈ db_passwordResets (w_db w') ->
     exists r0, r0 ∈ db_passwordResets (w_db w) /\ pr_ID r = pr_ID r0 /\
                (reset_used r0 = true -> reset_used r = true)) /\
  (db_emailQueue (w_db w') = db_emailQueue (w_db w) \/
   exists e, queued_for (us_TenantID u) (us_Email u) (GetFullName u) e /\
             db_emailQueue (w_db w') = db_emailQueue (w_db w) ++ [e]) /\
  w_db w' = drop_credentials t (us_ID u) (w_db w)
              <| db_passwordResets := db_passwordResets (w_db w') |>
              <| db_emailQueue := db_emailQueue (w_db w') |>.
Proof.
  intros E. apply ok_bind in E as (? & w3 & Hdb3%revokeUserCredentials_ok & E).
  apply ok_bind in E as (? & w4 & (o & E4 & _)%ok_ignore & E).
  apply ok_bind in E as (? & w5 & Hq%notifyPasswordChanged_ok & [-> ->]%ok_ret).
  destruct (RevokeUnused_run t (us_ID u) w3) as [Hdb4 Hback].
  rewrite E4 in Hdb4, Hback. cbn [fst] in Hdb4, Hback. split; [done|].
  apply notice_queued_db in Hq as [Hdb5 Hq].
  assert (Hr5 : db_passwordResets (w_db w5) = db_passwordResets (w_db w4)) by (by rewrite Hdb5).
  assert (Hq4 : db_emailQueue (w_db w4) = db_emailQueue (w_db w)) by (by rewrite Hdb4, Hdb3).
  split_and!.
  - intros r Hr. rewrite Hr5 in Hr. apply Hback in Hr as (r0 & Hr0 & Hr). exists r0. split; [|done].
    by rewrite Hdb3 in Hr0.
  - by rewrite <-Hq4.
  - rewrite Hdb5 at 1. rewrite Hr5. set (l4 := db_passwordResets (w_db w4)) in *. clearbody l4.
    by rewrite Hdb4, Hdb3.
Qed.

(** The row a reset writes: the new hash and no failures; a lock that failed
    logins brought is lifted. *)
Definition reset_row (hash : string) (u : User) : User :=
  let u := u <| us_PasswordHash := hash |> <| us_FailedLoginAttempts := 0 |> in
  if (us_Status u ==? UserStatusLocked) && is_some (us_LockedUntil u)
  then u <| us_Status := UserStatusActive |> <| us_LockedAt := None |> <| us_LockedUntil := None |>
  else u.

Lemma reset_row_same hash u :
  us_Status u <> UserStatusSuspended ->
  us_ID (reset_row hash u) = us_ID u /\ us_PasswordHash (reset_row hash u) = hash /\
  us_FailedLoginAttempts (reset_row hash u) = 0 /\
  us_Status (reset_row hash u) <> UserStatusSuspended.
Proof.
  intros Hs. unfold reset_row. simpl.
  by destruct ((us_Status u ==? UserStatusLocked) && is_some (us_LockedUntil u)).
Qed.

End Reset.

(** ** Email addresses *)

Section Emails.
Context `{Env} `{BcryptLib} `{UnicodeTables}.

Lemma MarkVerified_ok id w w' b :
  run (EmailVerificationRepo.MarkVerified id) w = (w', Ok b) ->
  (forall v, v ∈ db_emailVerifications (w_db w') -> ev_ID v = id -> is_some (ev_VerifiedAt v) = true) /\
  w_db w' = (w_db w) <| db_emailVerifications := db_emailVerifications (w_db w') |>.
Proof.
  unfold EmailVerificationRepo.MarkVerified. intros E.
  apply ok_bind in E as (now & w1 & [-> ->]%ok_Now & E).
  apply ok_bind in E as (l & w2 & [_ [_ ->]]%ok_wrap%ok_UpdateWhere & [-> ->]%ok_ret).
  split; [|done]. intros r (r0 & _ & ->)%elem_of_update_where.
  change (row_live r0) with true. rewrite andb_true_r.
  destruct (decide (ev_ID r0 = id)) as [Hd|Hd].
  - rewrite (bool_decide_eq_true_2 _ Hd). cbn [andb]. destruct (ev_VerifiedAt r0) eqn:Hu; simpl; by rewrite ?Hu.
  - rewrite (bool_decide_eq_false_2 _ Hd). simpl. done.
Qed.

(** An address is marked verified only by the code of a stored,
    unverified, unexpired verification of the user that was sent to the
    address the user has now (up to case); the verification is used up, a
    pending account becomes active, and nothing else changes. *)
Theorem VerifyEmail_sound t code w w' u :
  run (VerifyEmail t code) w = (w', Ok u) ->
  exists v u0 n m,
    v ∈ db_emailVerifications (w_db w) /\ ev_TenantID v = t /\ ev_CodeHash v = hashToken code /\
    ev_VerifiedAt v = None /\ EmailVerification_IsExpired (env_now n) v = false /\
    u0 ∈ db_users (w_db w) /\ user_key t (ev_UserID v) u0 = true /\
    EqualFold (us_Email u0) (ev_Email v) = true /\
    u = u0 <| us_EmailVerified := true |>
           <| us_Status := if us_Status u0 ==? UserStatusPending then UserStatusActive else us_Status u0 |>
           <| us_UpdatedAt := env_now m |> /\
    (forall x, x ∈ db_emailVerifications (w_db w') -> ev_ID x = ev_ID v ->
               is_some (ev_VerifiedAt x) = true) /\
    w_db w' = (w_db w) <| db_users := replace_user u (db_users (w_db w)) |>
                       <| db_emailVerifications := db_emailVerifications (w_db w') |>.
Proof.
  unfold VerifyEmail. intros (_ & E)%ok_guard.
  apply ok_bind in E as (v & w1 & (_ & -> & Hv)%ok_get_by & E).
  apply ok_guard in E as (Hver & E). apply ok_bind in E as (now & w1 & [-> ->]%ok_Now & E).
  apply ok_guard in E as (Hexp & E).
  apply ok_bind in E as (u0 & w1 & (_ & -> & Hu0)%ok_get_by & E).
  apply ok_guard in E as (Hfold & E).
  apply ok_bind in E as (cl & w1 & (Hmark & Hdb1)%MarkVerified_ok & E).
  apply ok_guard in E as (_ & E). apply ok_bind in E as (now & w2 & [-> ->]%ok_Now & E%ok_wrap).
  apply first_where_Some in Hv as (Hv & Hkv & _), Hu0 as (Hu0 & Hku & _).
  cbv zeta in E. apply (Save_user_ok _ u0) in E as [-> Hdb2];
    [|change (w_db (tick w1)) with (w_db w1); by rewrite Hdb1|by case_match].
  exists v, u0, (w_step (tick w)), (w_step (tick w1)). unfold user_key. rewrite Hku. bool_simp.
  split_and!; try done.
  - by destruct (ev_VerifiedAt v).
  - unfold stmt_now. simpl. by destruct u0, (bool_decide _).
  - rewrite Hdb2. exact Hmark.
  - rewrite Hdb2. change (w_db (tick w1)) with (w_db w1). by rewrite Hdb1.
Qed.

Lemma must_be_free_ok msg nf (p : User -> bool) m w w' x :
  run (must_be_free (get_by msg nf p) m) w = (w', Ok x) -> w_db w' = w_db w.
Proof.
  unfold must_be_free. rewrite run_bind, run_attempt, run_get_by.
  destruct (env_fault _); cbv beta iota; [by intros [-> _]%ok_ret|].
  destruct (first_where _ _); cbv beta iota; [by intros []%ok_throw|by intros [-> _]%ok_ret].
Qed.

(** A field that is changed when the request names a new value. *)
Lemma changed_field_ok msg nf (p : User -> bool) m (field : User -> string) (upd : User -> User)
    (new : string) (old r : User) w w' :
  (new = field old -> upd old = old) ->
  run (if (new !=? "") && (new !=? field old)
       then must_be_free (get_by msg nf p) m ;; mret (upd old) else mret old) w = (w', Ok r) ->
  w_db w' = w_db w /\ r = (if new ==? "" then old else upd old).
Proof.
  intros Hupd. destruct (new ==? ""); cbn [negb andb]; [by intros [-> ->]%ok_ret|].
  destruct (new ==? field old) eqn:Hc; cbn [negb].
  - intros [-> ->]%ok_ret. apply bool_decide_eq_true_1 in Hc. by rewrite Hupd.
  - intros E. apply ok_bind in E as (? & w1 & Hdb%must_be_free_ok & [-> ->]%ok_ret). auto.
Qed.

Lemma changed_password_ok password (old r : User) w w' :
  run (if password !=? "" then hashedPassword ← hash_password password;
         mret (old <| us_PasswordHash := hashedPassword |>) else mret old) w = (w', Ok r) ->
  w_db w' = w_db w /\ exists h, r = old <| us_PasswordHash := h |> /\
    if password ==? "" then h = us_PasswordHash old
    else exists rnd, bcrypt_Generate rnd 10 password = inl h.
Proof.
  destruct (password ==? ""); cbn [negb].
  - intros [-> ->]%ok_ret. split; [done|]. exists (us_PasswordHash old). by destruct old.
  - intros E. apply ok_bind in E as (h & w1 & E & [-> ->]%ok_ret).
    apply ok_bind in E as (g & w2 & [-> ->]%ok_WithRandom & [-> E]%ok_wrap%ok_from_sum). eauto.
Qed.

(** What Save lets through respects the unique indexes. *)
Lemma Save_user_unique (u u' x : User) w w' :
  run (UserRepo.Update u) w = (w', Ok u') -> x ∈ db_users (w_db w) ->
  us_DeletedAt u = None -> us_DeletedAt x = None -> us_TenantID x = us_TenantID u ->
  us_ID x <> us_ID u -> us_Username x <> us_Username u /\ us_Email x <> us_Email u.
Proof.
  unfold UserRepo.Update. intros (_ & -> & l & Hl & ->)%ok_wrap%ok_Save Hin Hd Hdx Ht Hid.
  unfold save_row in Hl. destruct (existsb _ _) eqn:Hc in Hl; [done|].
  assert (Hx := existsb_false _ _ Hc x Hin). simpl in Hx.
  rewrite Hd, Hdx, Ht, (bool_decide_eq_true_2 (us_TenantID u = _)) in Hx by done.
  rewrite (bool_decide_eq_false_2 (us_ID u = us_ID x)) in Hx by congruence. simpl in Hx.
  apply orb_false_iff in Hx as [Hx1%bool_decide_eq_false_1 Hx2%bool_decide_eq_false_1]. by split; congruence.
Qed.

Lemma updated_row (c1 c2 : bool) (u0 u1 u2 : User) n e h :
  u1 = (if c1 then u0 else u0 <| us_Username := n |>) ->
  u2 = (if c2 then u1 else u1 <| us_Email := e |>) ->
  u2 <| us_PasswordHash := h |> =
  u0 <| us_Username := if c1 then us_Username u0 else n |>
     <| us_Email := if c2 then us_Email u0 else e |> <| us_PasswordHash := h |> /\
  us_PasswordHash u2 = us_PasswordHash u0.
Proof. intros -> ->. by destruct u0, c1, c2. Qed.

(** An update changes the username, the email address and the password
    hash of the user and nothing else of the row; no other live user of the
    tenant has the username or the address afterwards; a new password ends
    every session of the user. The row keeps EmailVerified even when its
    address is a new one. *)
Theorem Update_spec t id req w w' u :
  run (Update t id req) w = (w', Ok u) ->
  exists u0 n l, u0 ∈ db_users (w_db w) /\ user_key t id u0 = true /\ us_DeletedAt u0 = None /\
    u = u0 <| us_Username := if uu_Username req ==? "" then us_Username u0 else uu_Username req |>
           <| us_Email := if uu_Email req ==? "" then us_Email u0 else uu_Email req |>
           <| us_PasswordHash := us_PasswordHash u |> <| us_UpdatedAt := env_now n |> /\
    (if uu_Password req ==? "" then us_PasswordHash u = us_PasswordHash u0
     else exists rnd, bcrypt_Generate rnd 10 (uu_Password req) = inl (us_PasswordHash u)) /\
    (forall x, x ∈ db_users (w_db w) -> us_DeletedAt x = None -> us_TenantID x = t ->
               us_ID x <> id -> us_Username x <> us_Username u /\ us_Email x <> us_Email u) /\
    l = (if uu_Password req ==? "" then db_sessions (w_db w)
         else filter (fun r => negb (of_user ss_TenantID ss_UserID t id r)) (db_sessions (w_db w))) /\
    w_db w' = (w_db w) <| db_users := replace_user u (db_users (w_db w)) |> <| db_sessions := l |>.
Proof.
  unfold Update. intros E. apply ok_bind in E as (u0 & w1 & (_ & -> & Hu0)%ok_get_by & E).
  apply first_where_Some in Hu0 as (Hu0 & Hk & Hl).
  apply ok_bind in E as (u1 & w2 & (Hdb2 & E1)%changed_field_ok & E); [|by destruct u0; simpl; intros ->].
  apply ok_bind in E as (u2 & w3 & (Hdb3 & E2)%changed_field_ok & E); [|by destruct u1; simpl; intros ->].
  apply ok_bind in E as (u3 & w4 & (Hdb4 & h & -> & Hh)%changed_password_ok & E).
  apply ok_bind in E as (u5 & w5 & E5%ok_wrap & E).
  destruct (updated_row _ _ _ _ _ _ _ h E1 E2) as [Hrow Hold]. rewrite Hrow in E5.
  set (new := _ <| us_PasswordHash := h |>) in E5. unfold user_key.
  assert (Hnew : us_ID new = us_ID u0 /\ us_TenantID new = us_TenantID u0 /\
                 us_DeletedAt new = None /\ us_PasswordHash new = h).
  { split_and!; try done. simpl. simpl in Hl. by destruct (us_DeletedAt u0). }
  destruct Hnew as (Hid & Ht & Hd & Hph).
  assert (Hdb : w_db w4 = w_db w) by (by rewrite Hdb4, Hdb3, Hdb2).
  assert (Huniq := fun x => Save_user_unique new u5 x w4 w5 E5). rewrite Hdb, Hid, Ht in Huniq.
  apply (Save_user_ok _ u0) in E5 as [-> Hdb5]; [|by rewrite Hdb|done]. rewrite Hdb in Hdb5.
  apply ok_bind in E as ([] & w6 & E6 & [-> ->]%ok_ret).
  exists u0, (w_step w4), (db_sessions (w_db w6)). rewrite Hk. bool_simp.
  split_and!; try done.
  - change (us_PasswordHash (row_touch _ new)) with h. rewrite <-Hold. by destruct (uu_Password req ==? "").
  - intros x Hx Hdx Htx Hidx. apply Huniq; congruence.
  - destruct (uu_Password req ==? ""); cbn [negb] in E6; [apply ok_ret in E6 as [-> _]; by rewrite Hdb5|].
    apply ok_wrap, ok_wrap, ok_DeleteWhere in E6 as [_ ->]. rewrite delete_where_hard by done.
    simpl. by rewrite Hdb5.
  - destruct (uu_Password req ==? ""); cbn [negb] in E6; [apply ok_ret in E6 as [-> _]; by rewrite Hdb5|].
    apply ok_wrap, ok_wrap, ok_DeleteWhere in E6 as [_ ->]. simpl. by rewrite Hdb5.
Qed.
End Emails.

(** ** Witnesses *)

Instance example_bcrypt : BcryptLib := {
  bcrypt_Generate _ _ password := inl ("hash:" +:+ password);
  bcrypt_Compare hash password := hash ==? "hash:" +:+ password
}.
Definition example_user (failures : Z) : User := {|
  us_ID := 9; us_TenantID := 1; us_Username := "ann"; us_Email := "ann@example.org";
  us_PasswordHash := "hash:right"; us_Status := UserStatusActive;
  us_EmailVerified := true; us_EmailVerificationCode := "";
  us_EmailVerificationExpiresAt := None; us_PhoneNumber := ""; us_PhoneVerified := false;
  us_FirstName := ""; us_LastName := ""; us_Avatar := ""; us_Locale := ""; us_Timezone := "";
  us_LastLoginAt := None; us_LastLoginIP := ""; us_FailedLoginAttempts := failures;
  us_LockedAt := None; us_LockedUntil := None; us_PasswordResetToken := "";
  us_PasswordResetExpiresAt := None; us_Metadata := ""; us_CreatedAt := epoch;
  us_UpdatedAt := epoch; us_DeletedAt := None |}.
Definition user_world : World := example_world (empty_db <| db_users := [example_user 4] |>).
Definition link_world : World := example_world (empty_db
  <| db_users := [example_user 4] |>
  <| db_sessions := [{| ss_ID := 40; ss_TenantID := 1; ss_UserID := 9; ss_TokenHash := "s";
       ss_AuthTime := epoch; ss_AMR := []; ss_IPAddress := ""; ss_UserAgent := "";
       ss_ExpiresAt := epoch + hour; ss_CreatedAt := epoch |}] |>
  <| db_passwordResets := [{| pr_ID := 30; pr_TenantID := 1; pr_UserID := 9;
       pr_TokenHash := hashToken "reset"; pr_ExpiresAt := epoch + hour; pr_UsedAt := None;
       pr_CreatedAt := epoch |}] |>
  <| db_emailVerifications := [{| ev_ID := 20; ev_TenantID := 1; ev_UserID := 9;
       ev_Email := "ann@example.org"; ev_CodeHash := hashToken "verify";
       ev_ExpiresAt := epoch + hour; ev_VerifiedAt := None; ev_CreatedAt := epoch |}] |>).

(** A clock that jumps a year ahead after the tenth step. *)
Definition a_year_on : Env := {|
  env_now n := epoch + (if Nat.ltb n 10 then 0 else 365 * 24 * hour) + Z.of_nat n * second;
  env_fault _ := false; env_rand _ := None; env_uuid n := N.of_nat (1000 + n) |}.

Lemma user_world_unique : users_unique (w_db user_world).
Proof. intros a b Ha%list_elem_of_singleton Hb%list_elem_of_singleton _. by rewrite Ha, Hb. Qed.

Lemma Authenticate_spec_witness :
  exists w', run (Authenticate 1 "ann@example.org" "right") user_world = (w', Ok (example_user 4)) /\
    w_db w' = (w_db user_world) <| db_users := [(example_user 0)
      <| us_LastLoginAt := Some (epoch + 3 * second) |> <| us_UpdatedAt := epoch + 4 * second |>] |>.
Proof.
  destruct (Authenticate_spec 1 "ann@example.org" "right" user_world) as (w' & E1 & E2);
    [intros n Hn; reflexivity | exact user_world_unique |].
  exists w'. split; [rewrite E1 | rewrite E2]; vm_compute; reflexivity.
Defined.

(** Three wrong passwords came before and two more follow; a year later the
    right one is refused. *)
Lemma Authenticate_lockout_witness :
  let w := example_world (empty_db <| db_users := [example_user 3] |>) in
  let login password w := run (@Authenticate a_year_on example_bcrypt 1 "ann@example.org" password) w in
  let w2 := (login "wronger" (login "wrong" w).1).1 in
  env_now (Env := a_year_on) (w_step w2) = epoch + 365 * 24 * hour + 10 * second /\
  (login "right" w2).2 = Err ErrUserLocked /\
  exists v, v ∈ db_users (w_db (login "right" w2).1) /\
            us_LockedUntil v = Some (epoch + 30 * minute + 8 * second) /\
            forall now, IsLocked now v = true.
Proof.
  intros w login w2. split; [vm_compute; reflexivity|].
  assert (Hh : logins a_year_on example_bcrypt 1 "ann@example.org" w
    [("wrong", (login "wrong" w).2); ("wronger", (login "wronger" (login "wrong" w).1).2);
     ("right", (login "right" w2).2)] (login "right" w2).1).
  { repeat (eapply logins_attempt; [apply surjective_pairing|]). apply logins_none. }
  assert (Hl : us_LockedUntil <$> db_users (w_db (login "right" w2).1)
               = [Some (epoch + 30 * minute + 8 * second)]) by (vm_compute; reflexivity).
  clearbody w2.
  match type of Hh with logins _ _ _ _ _ ?h ?w' =>
    destruct (Authenticate_lockout a_year_on example_bcrypt 1 "ann@example.org" (example_user 3)
      w h w' (fun _ _ => eq_refl)) as [Hall Hlock] end.
  - intros a b Ha%list_elem_of_singleton Hb%list_elem_of_singleton _. by rewrite Ha, Hb.
  - vm_compute. reflexivity.
  - discriminate.
  - reflexivity.
  - reflexivity.
  - exact Hh.
  - intros [|[|i]] password o; cbn; [intros [= <- _] _; reflexivity..|]. intros _ Hi. exfalso.
    change (S (S i) < 2)%nat in Hi. lia.
  - split; [exact (Hall 2%nat "right" _ eq_refl)|].
    destruct Hlock as (v & n & Hv & _ & _ & _ & Hlocked); [vm_compute; lia|].
    apply first_where_Some in Hv as (Hv & _). exists v. split; [exact Hv|]. split; [|exact Hlocked].
    apply (list_elem_of_fmap_2 us_LockedUntil) in Hv. rewrite Hl in Hv.
    by apply list_elem_of_singleton in Hv.
Defined.

(** The server's sender, with variables visited in the order of the code. *)
Definition in_order : MapOrder := fun _ m => m.
Abbreviation example_reset := (ResetPassword
  (Some (@EmailService.SendTemplateEmail example_env in_order example_config))
  1 "reset" "new password") (only parsing).


Lemma VerifyEmail_sound_witness :
  exists w' u, run (VerifyEmail 1 "verify") link_world = (w', Ok u) /\
  forall x, x ∈ db_emailVerifications (w_db w') -> ev_ID x = 20%N -> is_some (ev_VerifiedAt x) = true.
Proof.
  set (w' := after (VerifyEmail 1 "verify") link_world).
  set (u := ok_of (example_user 0) (run (VerifyEmail 1 "verify") link_world).2).
  assert (E : run (VerifyEmail 1 "verify") link_world = (w', Ok u)) by (vm_compute; reflexivity).
  clearbody w' u. exists w', u. split; [exact E|].
  destruct (VerifyEmail_sound 1 "verify" link_world w' u E) as (v & u0 & n & m & H).
  destruct H as (Hv & _ & _ & _ & _ & _ & _ & _ & _ & Hused & _).
  apply list_elem_of_singleton in Hv. intros x Hx Hid. apply Hused; [exact Hx|].
  rewrite Hv. exact Hid.
Defined.

(** A new address, still marked as verified. *)
Lemma Update_spec_witness :
  let req := MkUpdateUserRequest "" "eve@example.org" "" in
  let w' := after (Update 1 9 req) link_world in
  exists n, db_users (w_db w') =
    [(example_user 4) <| us_Email := "eve@example.org" |> <| us_UpdatedAt := env_now n |>] /\
    us_EmailVerified (example_user 4) = true.
Proof.
  intros req w'.
  set (u := ok_of (example_user 0) (run (Update 1 9 req) link_world).2).
  assert (E : run (Update 1 9 req) link_world = (w', Ok u)) by (vm_compute; reflexivity).
  clearbody w' u. destruct (Update_spec 1 9 req link_world w' u E) as (u0 & n & l & H).
  destruct H as (Hu & _ & _ & Hrow & Hh & _ & _ & Hdb).
  apply list_elem_of_singleton in Hu. subst u0. exists n. split; [|reflexivity].
  rewrite Hdb. change (us_PasswordHash u = "hash:right") in Hh. rewrite Hh in Hrow.
  rewrite Hrow. reflexivity.
Defined.
