(* ===== verification/RegistrationSpec.v ===== *)
(** What Registration.v guarantees: the metadata it accepts, the clients it
    creates and changes, and the budget of initial access tokens. *)
From S2P Require Import Prelude GoStd StringFacts Base64 Hash Models Effects Store Repos AccountRepos.
From S2P Require Import Libraries Scope AuthService ClientService Registration Examples Concurrency.
From stdpp Require Import gmap.
From Stdlib Require Import Ascii.

Open Scope Z_scope.

(** ** Metadata *)

Lemma dedupe_loop_spec l acc :
  NoDup acc.2 -> (forall x, x ∈ acc.1 <-> x ∈ acc.2) ->
  NoDup (dedupe_loop l acc).2 /\
  forall x, x ∈ (dedupe_loop l acc).2 <->
    x ∈ acc.2 \/ (x <> "" /\ exists r, r ∈ l /\ x = TrimSpace r).
Proof.
  revert acc. induction l as [|v l IH]; intros [X out] Hnd Hacc; simpl in *.
  { split; [done|]. intros x. set_solver. }
  destruct (TrimSpace v !=? "") eqn:He; cbn [andb].
  - apply negb_true_iff, bool_decide_eq_false_1 in He. case_bool_decide as Hin; cbn [negb].
    + destruct (IH (X, out)) as [Hn Hx]; [done..|]. split; [done|]. intros x. rewrite Hx. simpl.
      apply Hacc in Hin. set_solver.
    + destruct (IH ({[TrimSpace v]} ∪ X, out ++ [TrimSpace v])) as [Hn Hx]; simpl.
      * apply NoDup_app. split; [done|]. split; [|apply NoDup_singleton]. intros x Hx ->%list_elem_of_singleton.
        by apply Hin, Hacc.
      * intros x. rewrite elem_of_union, elem_of_app, Hacc. set_solver.
      * split; [done|]. intros x. rewrite Hx. simpl. set_solver.
  - apply negb_false_iff, bool_decide_eq_true_1 in He.
    destruct (IH (X, out)) as [Hn Hx]; [done..|]. split; [done|]. intros x. rewrite Hx. simpl. set_solver.
Qed.

Lemma dedupe_spec l :
  NoDup (dedupe l) /\
  forall x, x ∈ dedupe l <-> x <> "" /\ exists r, r ∈ l /\ x = TrimSpace r.
Proof.
  destruct (dedupe_loop_spec l (∅, [])) as [Hn Hx]; [constructor|set_solver|].
  split; [done|]. intros x. unfold dedupe. rewrite Hx. set_solver.
Qed.

Lemma find_none {A} (f : A -> bool) l : find f l = None -> forall x, x ∈ l -> f x = false.
Proof. intros E x Hx. eapply List.find_none; [done|]. by apply list_elem_of_In. Qed.

Section Validation.
Context `{UnicodeTables} `{NetLib}.

(** A URI that may be registered. *)
Definition registrable (raw : string) : Prop :=
  (String.length raw <= maxRegisteredURILen)%nat /\ in_set raw "#"%char = false /\
  exists u, url_Parse raw = Some u /\ u_Scheme u <> "" /\
    ((ToLower (u_Scheme u) = "https" /\ u_Host u <> "" /\ u_User u = false) \/
     (ToLower (u_Scheme u) = "http" /\ isLoopback (u_Hostname u) = true /\ u_User u = false) \/
     (ToLower (u_Scheme u) <> "https" /\ ToLower (u_Scheme u) <> "http" /\
      in_set (u_Scheme u) "."%char = true)).

Lemma check_uri_spec raw field : check_uri raw field = None <-> registrable raw.
Proof.
  unfold check_uri, registrable. destruct (Nat.ltb _ _) eqn:Hl; cbn [orb].
  { split; [done|]. apply Nat.ltb_lt in Hl. intros [? _]. lia. }
  apply Nat.ltb_ge in Hl. destruct (in_set raw _) eqn:Hf; [split; [done|by intros (_ & ? & _)]|].
  destruct (url_Parse raw) as [u|] eqn:Hu; [|split; [done|by intros (_ & _ & ? & ? & _)]].
  case_bool_decide as Hs; [split; [done|]; intros (_ & _ & ? & [= <-] & ? & _); done|].
  case_bool_decide as Hh.
  - destruct (bool_decide (u_Host u = "")) eqn:Eh; cbn [orb]; bool_simp.
    + split; [done|]. intros (_ & _ & ? & [= <-] & _ & [?|[?|?]]); destruct_and?; congruence.
    + destruct (u_User u) eqn:Euser; split; try done.
      * intros (_ & _ & ? & [= <-] & _ & [?|[?|?]]); destruct_and?; congruence.
      * intros _. split_and!; [done..|]. exists u. by split_and!; [..|left].
  - case_bool_decide as Hh2.
    + destruct (isLoopback (u_Hostname u)) eqn:El; cbn [negb orb].
      * destruct (u_User u) eqn:Euser; split; try done.
        -- intros (_ & _ & ? & [= <-] & _ & [?|[?|?]]); destruct_and?; congruence.
        -- intros _. split_and!; [done..|]. exists u. by split_and!; [..|right; left].
      * split; [done|]. intros (_ & _ & ? & [= <-] & _ & [?|[?|?]]); destruct_and?; congruence.
    + destruct (in_set (u_Scheme u) _) eqn:Ed; cbn [negb]; split; try done.
      * intros _. split_and!; [done..|]. exists u. by split_and!; [..|right; right].
      * intros (_ & _ & ? & [= <-] & _ & [?|[?|?]]); destruct_and?; congruence.
Qed.

Lemma check_uris_spec l field : check_uris l field = None <-> Forall registrable l.
Proof.
  induction l as [|raw l IH]; simpl; [split; constructor|]. rewrite Forall_cons, <-IH, <-(check_uri_spec raw field).
  destruct (check_uri raw field); naive_solver.
Qed.

(** A list of URIs as it is registered. *)
Definition registered_uris (given uris : list string) : Prop :=
  uris = dedupe given /\ (length uris <= maxRegisteredURIs)%nat /\ Forall registrable uris.

Lemma validateRegisteredURIs_ok l field uris :
  validateRegisteredURIs l field = inl uris <-> registered_uris l uris.
Proof.
  unfold validateRegisteredURIs, registered_uris. destruct (Nat.ltb _ _) eqn:Hl.
  - apply Nat.ltb_lt in Hl. split; [done|]. intros (-> & ? & _). lia.
  - apply Nat.ltb_ge in Hl. destruct (check_uris (dedupe l) field) eqn:E.
    + split; [done|]. intros (-> & _ & Hr). by apply (check_uris_spec _ field) in Hr; rewrite E in Hr.
    + apply check_uris_spec in E. naive_solver.
Qed.

(** The lists a request stands for, defaults filled in. *)
Definition requested_grants (meta : ClientMetadata) : list string :=
  match dedupe (cm_GrantTypes meta) with [] => [GrantTypeAuthorizationCode] | l => l end.
Definition requested_auth (meta : ClientMetadata) : string :=
  if cm_TokenEndpointAuthMethod meta ==? "" then TokenEndpointAuthClientSecretBasic
  else cm_TokenEndpointAuthMethod meta.
Definition requested_name (meta : ClientMetadata) : string :=
  let name := TrimSpace (cm_ClientName meta) in if name ==? "" then defaultDynamicClient else name.

(** The policy of a registration, condition by condition. *)
Definition accepted (meta : ClientMetadata) (md : registeredMetadata) : Prop :=
  md = MkRegisteredMetadata (requested_name meta) (dedupe (cm_RedirectURIs meta))
         (dedupe (cm_PostLogoutRedirectURIs meta)) (requested_grants meta) (requested_auth meta)
         (ParseScope (cm_Scope meta)) /\
  md_grantTypes md ⊆ dynamicGrantTypes /\
  (GrantTypeRefreshToken ∈ md_grantTypes md ->
     GrantTypeAuthorizationCode ∈ md_grantTypes md \/ GrantTypeDeviceCode ∈ md_grantTypes md) /\
  (dedupe (cm_ResponseTypes meta) = [] \/
     GrantTypeAuthorizationCode ∈ md_grantTypes md /\ dedupe (cm_ResponseTypes meta) = [responseTypeCode]) /\
  md_authMethod md ∈ [TokenEndpointAuthNone; TokenEndpointAuthClientSecretBasic;
                      TokenEndpointAuthClientSecretPost] /\
  (md_authMethod md = TokenEndpointAuthNone -> GrantTypeClientCredentials ∉ md_grantTypes md) /\
  registered_uris (cm_RedirectURIs meta) (md_redirectURIs md) /\
  (GrantTypeAuthorizationCode ∈ md_grantTypes md -> md_redirectURIs md <> []) /\
  registered_uris (cm_PostLogoutRedirectURIs meta) (md_postLogoutRedirectURIs md) /\
  (String.length (md_name md) <= maxClientNameLength)%nat /\ has_control 0 (md_name md) = false /\
  (length (md_scopes md) <= maxRegisteredScopes)%nat /\
  Forall (fun s => validScopeToken s = true) (md_scopes md).

Lemma contains_false l v : contains l v = false <-> v ∉ l.
Proof. rewrite <-contains_elem_of. by destruct (contains l v). Qed.

Lemma forall_find {A} (f : A -> bool) l : find f l = None <-> Forall (fun x => f x = false) l.
Proof.
  split; [intros E; apply Forall_forall; intros; by eapply find_none|].
  induction 1 as [|x l Hx _ IH]; simpl; [done|]. by rewrite Hx.
Qed.

Definition rejection (e : error) : Prop :=
  exists d, e = ERegistration "invalid_client_metadata" d \/ e = ERegistration "invalid_redirect_uri" d.
Definition decides (r : registeredMetadata + error) (Q : registeredMetadata -> Prop) : Prop :=
  match r with inl md => Q md | inr e => (forall md, ~ Q md) /\ rejection e end.

(** One check of the validation. *)
Lemma decides_if (b : bool) e r Q :
  rejection e -> (b = true -> forall md, ~ Q md) -> (b = false -> decides r Q) ->
  decides (if b then inr e else r) Q.
Proof. intros He Hb Hr. destruct b; [split; auto|auto]. Qed.
Lemma decides_find {A} (f : A -> bool) l (e : A -> error) r Q :
  (forall x, rejection (e x)) -> ((exists x, x ∈ l /\ f x = true) -> forall md, ~ Q md) ->
  (Forall (fun x => f x = false) l -> decides r Q) ->
  decides (match find f l with Some x => inr (e x) | None => r end) Q.
Proof.
  intros He Hx Hr. destruct (find f l) as [x|] eqn:E.
  - apply find_some in E as [Hin Hf]. split; [|done]. apply Hx. exists x. by rewrite list_elem_of_In.
  - by apply Hr, forall_find.
Qed.
Lemma decides_uris given field k Q :
  ((forall uris, ~ registered_uris given uris) -> forall md, ~ Q md) ->
  (registered_uris given (dedupe given) -> decides (k (dedupe given)) Q) ->
  decides (match validateRegisteredURIs given field with inr e => inr e | inl uris => k uris end) Q.
Proof.
  intros Hn Hk. destruct (validateRegisteredURIs given field) as [uris|e] eqn:E.
  - apply validateRegisteredURIs_ok in E as E'. destruct E' as (-> & _). apply Hk.
    by apply validateRegisteredURIs_ok in E.
  - split.
    + apply Hn. intros uris Hu. apply (validateRegisteredURIs_ok _ field) in Hu. congruence.
    + unfold validateRegisteredURIs in E. destruct (Nat.ltb _ _); [injection E as <-; eexists; by right|].
      destruct (check_uris _ _) as [e'|] eqn:E'; [|done]. injection E as <-. revert E'. clear Hk.
      induction (dedupe given) as [|raw l IH]; simpl; [done|].
      destruct (check_uri raw field) as [e0|] eqn:E0; [|exact IH]. intros [= <-].
      unfold check_uri in E0. repeat case_match; simplify_eq; eexists; by right.
Qed.

Lemma rejection_metadata d : rejection (invalidMetadata d).
Proof. eexists. by left. Qed.
Lemma rejection_redirect d : rejection (invalidRedirect d).
Proof. eexists. by right. Qed.
Hint Resolve rejection_metadata rejection_redirect : core.

(** The boolean tests of the validation as propositions. *)
Lemma length_0 {A} (l : list A) : Nat.eqb (length l) 0 = true <-> l = [].
Proof. by destruct l. Qed.
Ltac tests H :=
  rewrite ?negb_true_iff, ?negb_false_iff, ?andb_true_iff, ?orb_false_iff, ?negb_true_iff,
    ?negb_false_iff, ?contains_elem_of, ?contains_false, ?bool_decide_eq_true, ?length_0,
    ?Nat.ltb_lt, ?Nat.ltb_ge in H.
(** Refute [accepted] from a test that failed. *)
Ltac refuse :=
  intros Hb md (-> & Hg & Hr & Ht & Ha & Hp & Hu & Hc & Hl & Hn & Hk & Hs & Hv);
  cbn [md_name md_redirectURIs md_postLogoutRedirectURIs md_grantTypes md_authMethod md_scopes] in *.

Lemma validate_decides meta : decides (validateClientMetadata meta) (accepted meta).
Proof.
  unfold validateClientMetadata.
  replace (if Nat.eqb _ 0 then _ else _) with (requested_grants meta)
    by (unfold requested_grants; by destruct (dedupe (cm_GrantTypes meta))).
  change (if cm_TokenEndpointAuthMethod meta ==? "" then _ else _) with (requested_auth meta).
  cbv zeta.
  change (if TrimSpace (cm_ClientName meta) ==? "" then _ else _) with (requested_name meta).
  apply decides_find; [auto| |intros Hdyn].
  { refuse. destruct Hb as (x & Hx & Hb). tests Hb. auto. }
  apply decides_if; [auto| |intros Href].
  { refuse. tests Hb. tauto. }
  apply decides_if; [auto| |intros Hresp].
  { refuse. destruct Ht as [E|[Hcode E]]; rewrite E in Hb; [done|].
    apply contains_elem_of in Hcode. by rewrite Hcode in Hb. }
  apply decides_if; [auto| |intros Hauth].
  { refuse. by tests Hb. }
  apply decides_if; [auto| |intros Hpub].
  { refuse. tests Hb. tauto. }
  apply decides_uris; [refuse; by destruct (Hb _ Hu)|intros Huris].
  apply decides_if; [auto| |intros Hcode].
  { refuse. tests Hb. tauto. }
  apply decides_uris; [refuse; by destruct (Hb _ Hl)|intros Hpost].
  apply decides_if; [auto| |intros Hname].
  { refuse. apply orb_true_iff in Hb as [Hb|Hb]; [tests Hb; lia|congruence]. }
  apply decides_if; [auto| |intros Hlen].
  { refuse. tests Hb. lia. }
  apply decides_find; [auto| |intros Hscopes].
  { refuse. destruct Hb as (x & Hx & Hb). tests Hb. rewrite Forall_forall in Hv.
    apply Hv in Hx. congruence. }
  unfold accepted. cbn [decides md_name md_redirectURIs md_postLogoutRedirectURIs md_grantTypes
    md_authMethod md_scopes]. tests Hlen.
  apply orb_false_iff in Hname as [Hnl%Nat.ltb_ge Hnc].
  split; [done|]. split_and!; try done.
  - intros g Hg. rewrite Forall_forall in Hdyn. specialize (Hdyn g Hg). by tests Hdyn.
  - intros Hr. apply contains_elem_of in Hr. rewrite Hr in Href. simpl in Href.
    apply andb_false_iff in Href as [Hc|Hc]; tests Hc; auto.
  - apply negb_false_iff, orb_true_iff in Hresp as [Hr|Hr]; tests Hr; auto.
  - by tests Hauth.
  - intros Hn Hc. apply contains_elem_of in Hc. rewrite Hn, Hc in Hpub. done.
  - intros Hc Hn. apply contains_elem_of in Hc. rewrite Hn, Hc in Hcode. done.
  - eapply Forall_impl; [exact Hscopes|]. simpl. intros x. by rewrite negb_false_iff.
Qed.

(** C35: the validation of registration metadata accepts exactly the
    requests that satisfy the policy [accepted], registers exactly what
    that policy says, and rejects every other with one of the two error
    codes of RFC 7591. *)
Theorem validateClientMetadata_spec meta :
  (forall md, validateClientMetadata meta = inl md <-> accepted meta md) /\
  (forall e, validateClientMetadata meta = inr e ->
     exists d, e = ERegistration "invalid_client_metadata" d \/
               e = ERegistration "invalid_redirect_uri" d).
Proof.
  pose proof (validate_decides meta) as Hd. destruct (validateClientMetadata meta) as [md|e] eqn:E; simpl in Hd.
  - split; [|done]. intros md'. split; [by intros [= <-]|]. intros Hmd'.
    f_equal. destruct Hd as [-> _], Hmd' as [-> _]. done.
  - destruct Hd as [Hn Hr]. split; [|by intros ? [= <-]]. intros md. split; [done|]. intros Hmd. by destruct (Hn md).
Qed.
End Validation.

(** ** The budget of initial access tokens *)

Section Budget.
Context `{Env} (t : uuid) (hash : string).

Definition is_token (x : InitialAccessToken) : bool :=
  (ia_TenantID x ==? t) && (ia_TokenHash x ==? hash).

(** The uses left in the rows of the token. *)
Definition uses_left (x : InitialAccessToken) : Z :=
  if is_token x then Z.max 0 (ia_MaxUses x - ia_Uses x) else 0.
Definition budget (db : DB) : Z := foldr (fun x acc => uses_left x + acc) 0 (db_initialAccess db).

(** Threads that got the token. *)
Definition winners {A} (ps : list (prog A)) : nat := length (filter (fun p => Is_true (succeeded p)) ps).

Lemma winners_insert {A} (ps : list (prog A)) i p q :
  ps !! i = Some p ->
  (winners (<[i := q]> ps) + (if succeeded p then 1 else 0) =
   winners ps + (if succeeded q then 1 else 0))%nat.
Proof.
  unfold winners. revert i. induction ps as [|x ps IH]; intros [|i]; simpl; try done.
  - intros [= ->]. rewrite !filter_cons. destruct (succeeded p), (succeeded q); simpl; lia.
  - intros E. specialize (IH i E). rewrite !filter_cons. destruct (succeeded x); simpl; lia.
Qed.

Lemma winners_repeat {A} (p : prog A) n : succeeded p = false -> winners (repeat p n) = 0%nat.
Proof.
  intros Hp. unfold winners. induction n as [|n IH]; [done|]. simpl repeat. rewrite filter_cons, Hp. exact IH.
Qed.

Definition usable (now : Z) (x : InitialAccessToken) : bool :=
  is_token x && is_none (ia_RevokedAt x) && time_after (ia_ExpiresAt x) now
  && (ia_Uses x <? ia_MaxUses x).
Definition use_token (now : Z) (x : InitialAccessToken) : InitialAccessToken :=
  if usable now x then x <| ia_Uses := ia_Uses x + 1 |> else x.

(** The second step of Consume. *)
Definition use_update (now : Z) : prog InitialAccessToken :=
  tokens ← wrap "failed to use initial access token"
    (UpdateRaw (usable now) (fun x => x <| ia_Uses := ia_Uses x + 1 |>));
  match tokens with
  | [] => throw ErrInitialAccessTokenNotFound
  | x :: _ => mret x
  end.

Lemma step_use_update now w :
  step_prog (use_update now) w =
  if env_fault (w_step w)
  then (Done (Err (EWrap "failed to use initial access token" (EExternal "database"))), tick w)
  else (match select_where (usable now) (db_initialAccess (w_db w)) with
        | [] => Done (Err ErrInitialAccessTokenNotFound)
        | x :: _ => Done (Ok (x <| ia_Uses := ia_Uses x + 1 |>))
        end, wrote (map (use_token now) (db_initialAccess (w_db w))) w).
Proof.
  unfold step_prog, use_update. simpl. destruct (env_fault (w_step w)); [done|].
  destruct w as [db n ev sec dom out]. simpl. f_equal; [by destruct (select_where _ _)|].
  unfold wrote, tick. simpl. do 2 f_equal. apply map_ext. intros x. by rewrite andb_true_r.
Qed.

Lemma uses_left_nonneg x : 0 <= uses_left x.
Proof. unfold uses_left. case_match; lia. Qed.
Lemma uses_left_use now x :
  uses_left (use_token now x) = uses_left x - (if usable now x then 1 else 0).
Proof.
  unfold use_token. destruct (usable now x) eqn:Hu; [|lia]. unfold usable in Hu. bool_simp.
  unfold uses_left. change (is_token (x <| ia_Uses := _ |>)) with (is_token x).
  replace (is_token x) with true by done. simpl. lia.
Qed.

(** A use that found a row costs at least one. *)
Lemma budget_use now l :
  foldr (fun x acc => uses_left x + acc) 0 (map (use_token now) l)
  + (match select_where (usable now) l with [] => 0 | _ => 1 end)
  <= foldr (fun x acc => uses_left x + acc) 0 l.
Proof.
  induction l as [|x l IH]; [done|]. cbn [map foldr]. rewrite uses_left_use.
  unfold select_where in *. rewrite filter_cons. change (row_live x) with true. rewrite andb_true_r.
  destruct (usable now x); simpl decide; simpl; destruct (filter _ l); simpl in *; lia.
Qed.

Definition token_stage (p : prog InitialAccessToken) : Prop :=
  p = InitialAccessTokenRepo.Consume t hash \/ (exists now, p = use_update now) \/ exists o, p = Done o.

Definition budget_inv (total : Z) (ps : list (prog InitialAccessToken)) (w : World) : Prop :=
  Forall token_stage ps /\ Z.of_nat (winners ps) + budget (w_db w) <= total.

Lemma budget_step total i ps w p :
  budget_inv total ps w -> ps !! i = Some p ->
  budget_inv total (<[i := (step_prog p w).1]> ps) (step_prog p w).2.
Proof.
  intros (Hst & Hle) Hi. pose proof (winners_insert ps i p (step_prog p w).1 Hi) as Hc.
  assert (token_stage p) as Hp by (by eapply Forall_lookup_1).
  destruct Hp as [->|[[now ->]|[o ->]]].
  - change (step_prog _ w) with (use_update (env_now (w_step w)), tick w) in *. simpl in *.
    split; [apply Forall_insert; [done|right; left; by eexists]|]. simpl. lia.
  - rewrite step_use_update in *. destruct (env_fault (w_step w)); cbn [fst snd succeeded] in *.
    { split; [apply Forall_insert; [done|right; right; by eexists]|]. simpl w_db. lia. }
    pose proof (budget_use now (db_initialAccess (w_db w))) as Hb.
    change (succeeded (use_update now)) with false in Hc.
    destruct (select_where _ _); cbn [succeeded] in *;
      (split; [apply Forall_insert; [done|right; right; by eexists]|]);
      change (budget (w_db (wrote _ w))) with
        (foldr (fun x acc => uses_left x + acc) 0 (map (use_token now) (db_initialAccess (w_db w))));
      unfold budget in Hle; lia.
  - simpl in *. by rewrite list_insert_id.
Qed.

(** C37: however many registrations race for one initial access token,
    interleaved with each other and with anything that does not give the
    token more uses, no more of them get it than its rows had uses left. *)
Theorem Consume_budget n w ps w' :
  interleaving (fun a b => budget (w_db b) <= budget (w_db a))
    (repeat (InitialAccessTokenRepo.Consume t hash) n, w) (ps, w') ->
  Z.of_nat (winners ps) + budget (w_db w') <= budget (w_db w).
Proof.
  intros Hil. apply (interleaving_inv _ (budget_inv (budget (w_db w)))) in Hil as (_ & Hle); [done|..].
  - intros. by apply budget_step.
  - intros ps0 w0 w1 (Hst & Hle) Hr. split; [done|]. lia.
  - cbn [fst snd]. split; [|by rewrite winners_repeat].
    clear Hil. induction n as [|n IH]; [constructor|]. constructor; [by left|done].
Qed.
End Budget.

(** ** The operations *)

Section Operations.
Context `{Env} `{UuidLib} `{BcryptLib} `{UnicodeTables} `{NetLib} (baseURL : string).

Lemma randomToken_ok n w w' tok :
  run (randomToken n) w = (w', Ok tok) -> w' = tick w /\ (n <= String.length tok)%nat.
Proof.
  unfold randomToken. intros E. apply ok_bind in E as (bytes & w1 & E & [-> ->]%ok_ret).
  apply ok_RandRead in E as (-> & f & _ & ->). split; [done|].
  etrans; [|apply base64_raw_url_length]. by rewrite string_of_length, length_map, length_seq.
Qed.

(** The lifetime a request asks for, with Go's 64-bit arithmetic. *)
Definition requested_ttl (req : CreateInitialAccessTokenRequest) : Z :=
  if ci_ExpiresIn req =? 0 then 24 * hour else wrap64 (ci_ExpiresIn req * second).

(** An initial access token is created only for a non-empty list of
    valid scopes, with 1 to 1000 uses, none of them used, and a lifetime
    between zero and 30 days; the row that is stored has the hash of the
    returned token, and no other row had that hash. *)
Theorem CreateInitialAccessToken_sound t creator req w w' row token :
  run (CreateInitialAccessToken t creator req) w = (w', Ok (row, token)) ->
  exists n,
    ia_TenantID row = t /\ ia_CreatedBy row = creator /\ ia_TokenHash row = hashToken token /\
    (registrationTokenBytes <= String.length token)%nat /\
    ia_Scopes row = dedupe (ci_Scopes req) /\ ia_Scopes row <> [] /\
    Forall (fun s => validScopeToken s = true) (ia_Scopes row) /\
    1 <= ia_MaxUses row <= 1000 /\ ia_Uses row = 0 /\ ia_RevokedAt row = None /\
    ia_ExpiresAt row = env_now n + requested_ttl req /\ 0 < requested_ttl req <= 30 * 24 * hour /\
    (forall x, x ∈ db_initialAccess (w_db w) -> ia_TokenHash x <> ia_TokenHash row) /\
    w_db w' = (w_db w) <| db_initialAccess := db_initialAccess (w_db w) ++ [row] |>.
Proof.
  unfold CreateInitialAccessToken. cbv zeta. intros (Hne & E)%ok_guard.
  destruct (find _ _) eqn:Hf in E; [by apply ok_throw in E|]. apply forall_find in Hf.
  change (if ci_ExpiresIn req =? 0 then _ else _) with (requested_ttl req) in E.
  apply ok_guard in E as (Httl & E). apply ok_guard in E as (Hmax & E).
  apply ok_bind in E as (tok & w1 & Htok%ok_wrap & E). apply randomToken_ok in Htok as [-> Hlen].
  apply ok_bind in E as (id & w2 & [-> ->]%ok_NewUUID & E).
  apply ok_bind in E as (now & w2 & [-> ->]%ok_Now & E).
  apply ok_bind in E as (now & w2 & [-> ->]%ok_Now & E).
  apply ok_bind in E as (rec & w2 & E2%ok_wrap & [-> E]%ok_ret). apply pair_eq in E as [-> ->].
  apply ok_Insert in E2 as (_ & -> & Hex & ->). exists (w_step (tick (tick w))).
  set (row := row_stamp _ _) in *.
  assert (Hrow : ia_MaxUses row = if ci_MaxUses req =? 0 then 1 else ci_MaxUses req) by done.
  rewrite <-Hrow in Hmax. unfold maxInitialAccessTokenUses, maxInitialAccessTokenTTL in *.
  split_and!; try done; try (bool_simp; lia).
  - intros Hn. change (ia_Scopes row) with (dedupe (ci_Scopes req)) in Hn. by rewrite Hn in Hne.
  - eapply Forall_impl; [exact Hf|]. simpl. intros x. by rewrite negb_false_iff.
  - destruct (ci_MaxUses req =? 0) eqn:E0; [lia|]. bool_simp. apply Z.eqb_neq in E0. lia.
  - intros x Hx. pose proof (existsb_false _ _ Hex x Hx) as Hc. apply orb_false_iff in Hc as [_ Hc].
    change (bool_decide (ia_TokenHash row = ia_TokenHash x) = false) in Hc. bool_simp. congruence.
Qed.

(** A lifetime of 584 years and a bit is accepted and lasts 0.29 seconds. *)
Lemma CreateInitialAccessToken_ttl_wraps req :
  ci_ExpiresIn req = 18446744074 -> requested_ttl req = 290448384.
Proof. unfold requested_ttl. by intros ->. Qed.

Lemma Consume_token_ok t hash w w' x :
  run (InitialAccessTokenRepo.Consume t hash) w = (w', Ok x) ->
  (exists i, i ∈ db_initialAccess (w_db w) /\ usable t hash (env_now (w_step w)) i = true) /\
  w_db w' = (w_db w) <| db_initialAccess :=
    map (use_token t hash (env_now (w_step w))) (db_initialAccess (w_db w)) |>.
Proof.
  unfold InitialAccessTokenRepo.Consume. intros E. apply ok_bind in E as (now & w1 & [-> ->]%ok_Now & E).
  apply ok_bind in E as (l & w2 & E1%ok_wrap & E).
  apply UpdateRaw_ok in E1 as (_ & _ & Hdb & Hl & _); [|done].
  destruct l as [|y l]; [by apply ok_throw in E|]. apply ok_ret in E as [-> ->]. split; [|exact Hdb].
  destruct (Hl y) as (i & Hi & Hu & _); [by left|]. by exists i.
Qed.

(** The secret of a new client and its hash; a public client has none. *)
Definition new_secret (public : bool) (secret hash : string) : Prop :=
  if public then secret = "" /\ hash = ""
  else secret <> "" /\ exists rnd, bcrypt_Generate rnd DefaultCost secret = inl hash.

Lemma new_secret_ok (public : bool) w w' secret hash :
  run (if negb public then
         plainSecret ← wrap "failed to generate client secret" generateClientSecret;
         secretHash ← wrap "failed to hash client secret" (hashClientSecret plainSecret);
         mret (plainSecret, secretHash)
       else mret ("", "")) w = (w', Ok (secret, hash)) ->
  w_db w' = w_db w /\ new_secret public secret hash.
Proof.
  destruct public; cbn [negb].
  - intros [-> [= -> ->]]%ok_ret. done.
  - intros E. apply ok_bind in E as (plain & w1 & E1%ok_wrap & E).
    apply ok_bind in E1 as (bytes & w2 & (-> & _)%ok_RandRead & [-> ->]%ok_ret).
    apply ok_bind in E as (h & w2 & E1%ok_wrap & [-> [= -> ->]]%ok_ret).
    apply ok_bind in E1 as (r & w3 & [-> ->]%ok_WithRandom & [-> E1]%ok_from_sum).
    split; [done|]. split; [done|]. by eexists.
Qed.

Lemma generateClientID_ok w w' id : run generateClientID w = (w', Ok id) -> w_db w' = w_db w.
Proof.
  unfold generateClientID. intros E. apply ok_bind in E as (u & w1 & [-> ->]%ok_NewUUID & E).
  by apply ok_bind in E as (p & w2 & [-> _]%ok_or_panic & [-> _]%ok_ret).
Qed.

(** The scopes a registration without any asks for. *)
Definition or_scopes (scopes default : list string) : list string :=
  match scopes with [] => default | _ => scopes end.
Lemma with_scopes md default :
  (if Nat.eqb (length (md_scopes md)) 0 then md <| md_scopes := default |> else md)
  = md <| md_scopes := or_scopes (md_scopes md) default |>.
Proof. by destruct md as [? ? ? ? ? []]. Qed.

(** C36: a client is registered only with an unrevoked, unexpired initial
    access token of the tenant that has a use left, and only for metadata
    the policy accepts and scopes of the token. The registration spends one
    use, stores one dynamically registered client of the tenant with that
    metadata, and keeps only hashes of the secret and of the registration
    token it returns; a public client has no secret. *)
Theorem Register_sound t token meta w w' resp :
  run (Register baseURL t token meta) w = (w', Ok resp) ->
  exists iat spent md c n,
    iat ∈ db_initialAccess (w_db w) /\ is_token t (hashToken token) iat = true /\
    spent ∈ db_initialAccess (w_db w) /\ usable t (hashToken token) (env_now n) spent = true /\
    accepted meta md /\
    let scopes := or_scopes (md_scopes md) (ia_Scopes iat) in
    ScopeIsSubset (strings_Join scopes) (strings_Join (ia_Scopes iat)) = true /\
    cl_TenantID c = t /\ cl_ClientID c = cp_ClientID resp /\ cl_Name c = md_name md /\
    cl_RedirectURIs c = md_redirectURIs md /\ cl_PostLogoutRedirectURIs c = md_postLogoutRedirectURIs md /\
    cl_GrantTypes c = md_grantTypes md /\ cl_Scopes c = scopes /\
    cl_IsPublic c = isPublic md /\ cl_TokenEndpointAuthMethod c = md_authMethod md /\
    cl_DynamicallyRegistered c = true /\ cl_DeletedAt c = None /\
    cl_RegistrationAccessToken c = hashToken (cp_RegistrationAccessToken resp) /\
    new_secret (isPublic md) (cp_ClientSecret resp) (cl_ClientSecret c) /\
    w_db w' = (w_db w)
      <| db_initialAccess := map (use_token t (hashToken token) (env_now n)) (db_initialAccess (w_db w)) |>
      <| db_clients := db_clients (w_db w) ++ [c] |>.
Proof.
  unfold Register. cbv zeta. intros (_ & E)%ok_guard.
  apply ok_bind in E as (iat & w1 & (_ & -> & Hi)%ok_map_err%ok_get_by & E).
  apply ok_bind in E as (md & w1 & [-> Hmd]%ok_from_sum & E). rewrite with_scopes in E.
  apply ok_guard in E as (Hsub & E).
  apply ok_bind in E as (tok & w1 & ((spent & Hsp & Husable) & Hdb1)%ok_map_err%Consume_token_ok & E).
  apply ok_bind in E as (regtok & w2 & [-> _]%ok_wrap%randomToken_ok & E).
  apply ok_bind in E as ([secret hash] & w3 & (Hdb3 & Hsecret)%new_secret_ok & E).
  apply ok_bind in E as (id & w4 & [-> ->]%ok_NewUUID & E).
  apply ok_bind in E as (clientID & w4 & Hid & E).
  apply ok_bind in E as (now & w5 & [-> ->]%ok_Now & E).
  apply ok_bind in E as (c & w5 & E5%ok_wrap & [-> ->]%ok_ret).
  apply first_where_Some in Hi as (Hi & Hki & _).
  assert (Hacc : accepted meta md) by (pose proof (validate_decides meta) as Hd; by rewrite Hmd in Hd).
  assert (Hdb4 : w_db w4 = w_db w1) by (etrans; [exact (generateClientID_ok _ _ _ Hid)|exact Hdb3]).
  apply ok_wrap, ok_Insert in E5 as (_ & -> & _ & ->). apply negb_false_iff in Hsub.
  set (c := row_stamp _ _).
  exists iat, spent, md, c, (w_step (tick w)). cbv zeta.
  replace (if secret !=? "" then _ else _) with ((response baseURL c) <|cp_ClientSecret := secret|>
    <|cp_ClientSecretExpiresAt := if secret ==? "" then None else Some 0 |>)
    by (by destruct (secret ==? "")).
  split_and!; try done.
  - destruct Hacc as (_ & _ & _ & _ & Ham & _). simpl. unfold or_default.
    destruct (md_authMethod md); [set_solver|done].
  - change (w_db (wrote _ (tick w4))) with ((w_db w4) <| db_clients := db_clients (w_db w4) ++ [c] |>).
    by rewrite Hdb4, Hdb1.
Qed.

(** A registration access token opens the one client it was issued for. *)
Lemma authorize_ok t clientID token w w' c :
  run (authorize t clientID token) w = (w', Ok c) ->
  w' = tick w /\ token <> "" /\ c ∈ db_clients (w_db w) /\ cl_TenantID c = t /\
  cl_ClientID c = clientID /\ cl_DeletedAt c = None /\ cl_DynamicallyRegistered c = true /\
  cl_RegistrationAccessToken c = hashToken token.
Proof.
  unfold authorize. intros (Ht & E)%ok_guard.
  apply ok_bind in E as (x & w1 & (_ & -> & Hc)%ok_map_err%ok_get_by & E).
  apply ok_guard in E as (Hg & [-> ->]%ok_ret). apply first_where_Some in Hc as (Hc & Hk & Hl).
  simpl in Hl. unfold ConstantTimeCompare in Hg. bool_simp. split_and!; try done.
  by destruct (cl_DeletedAt x).
Qed.

(** With its registration token a client can change its name, URIs,
    grants, authentication method and scopes, to metadata the policy
    accepts, to scopes it already had, and without turning from confidential
    to public or back. Its identity, secret and registration token stay, and
    no other row and no other table changes. *)
Theorem Registration_Update_sound t clientID token meta w w' resp :
  run (Registration.Update baseURL t clientID token meta) w = (w', Ok resp) ->
  exists c md n,
    c ∈ db_clients (w_db w) /\ cl_TenantID c = t /\ cl_ClientID c = clientID /\
    cl_DynamicallyRegistered c = true /\ cl_RegistrationAccessToken c = hashToken token /\
    token <> "" /\ cm_ClientID meta = clientID /\ accepted meta md /\ isPublic md = cl_IsPublic c /\
    let scopes := or_scopes (md_scopes md) (cl_Scopes c) in
    ScopeIsSubset (strings_Join scopes) (strings_Join (cl_Scopes c)) = true /\
    let c' := c <| cl_Name := md_name md |> <| cl_RedirectURIs := md_redirectURIs md |>
      <| cl_PostLogoutRedirectURIs := md_postLogoutRedirectURIs md |>
      <| cl_GrantTypes := md_grantTypes md |> <| cl_Scopes := scopes |>
      <| cl_TokenEndpointAuthMethod := md_authMethod md |> <| cl_UpdatedAt := env_now n |>
      <| cl_PlainClientSecret := "" |> in
    resp = response baseURL c' /\
    w_db w' = (w_db w) <| db_clients :=
      map (fun r => if cl_ID c ==? cl_ID r then c' else r) (db_clients (w_db w)) |>.
Proof.
  unfold Registration.Update. intros E.
  apply ok_bind in E as (c & w1 & (-> & Ht & Hc & Htn & Hid & Hd & Hdyn & Htok)%authorize_ok & E).
  apply ok_guard in E as (Hcm & E).
  apply ok_bind in E as (md & w1 & [-> Hmd]%ok_from_sum & E). apply ok_guard in E as (Hpub & E).
  cbv zeta in E. rewrite with_scopes in E. apply ok_guard in E as (Hsub & E).
  apply ok_bind in E as (now & w1 & [-> ->]%ok_Now & E).
  apply ok_bind in E as (c1 & w2 & E2%ok_wrap & [-> ->]%ok_ret).
  apply ok_wrap, ok_Save in E2 as (_ & -> & l & Hl & ->).
  apply (save_row_existing _ _ c) in Hl; [|done|done]. subst l.
  assert (Hacc : accepted meta md) by (pose proof (validate_decides meta) as Hv; by rewrite Hmd in Hv).
  apply negb_false_iff, eqb_prop in Hpub. apply negb_false_iff in Hsub. bool_simp.
  exists c, md, (w_step (tick (tick w))). cbv zeta. by split_and!.
Qed.
End Operations.

(** ** Witnesses *)

(** Every https URI has the host "app"; nothing else parses. *)
Instance example_net : NetLib := {
  url_Parse s := if String.prefix "https://" s then Some (MkURL "https" "app" false "app") else None;
  ip_loopback _ := false
}.
Instance registration_bcrypt : BcryptLib := {
  bcrypt_Generate _ _ password := inl ("hash:" +:+ password);
  bcrypt_Compare hash password := hash ==? "hash:" +:+ password
}.
Definition example_iat : InitialAccessToken := {|
  ia_ID := 31; ia_TenantID := 1; ia_TokenHash := hashToken "initial"; ia_Description := "";
  ia_Scopes := ["read"; "write"]; ia_MaxUses := 2; ia_Uses := 0; ia_CreatedBy := None;
  ia_ExpiresAt := epoch + hour; ia_RevokedAt := None; ia_CreatedAt := epoch |}.
Definition registration_world : World :=
  example_world (empty_db <| db_initialAccess := [example_iat] |>).
Definition example_metadata (client_id : string) : ClientMetadata :=
  MkClientMetadata client_id ["https://app/cb"] [] "" [] ["code"] "App" "read".

(** Three requests race for a token with two uses. *)
Lemma Consume_budget_witness :
  let consume := InitialAccessTokenRepo.Consume 1 (hashToken "initial") in
  let s := Concurrency.interleave [0; 1; 2; 0; 1; 2]%nat (repeat consume 3%nat, registration_world) in
  winners s.1 = 2%nat /\ Z.of_nat (winners s.1) + budget 1 (hashToken "initial") (w_db s.2) <= 2.
Proof.
  intros consume s. split; [vm_compute; reflexivity|].
  assert (Hb : budget 1 (hashToken "initial") (w_db registration_world) = 2) by (vm_compute; reflexivity).
  rewrite <-Hb.
  apply (Consume_budget 1 (hashToken "initial") 3 registration_world s.1 s.2).
  unfold s. rewrite <-surjective_pairing. apply interleave_interleaving.
Defined.

Lemma CreateInitialAccessToken_sound_witness :
  let req := MkCreateInitialAccessTokenRequest "" [" read "; "write"; "read"] 3600 2 in
  exists w' row token,
    run (CreateInitialAccessToken 1 None req) (example_world empty_db) = (w', Ok (row, token)) /\
    ia_Scopes row = ["read"; "write"] /\ 1 <= ia_MaxUses row <= 1000.
Proof.
  intros req.
  destruct (run (CreateInitialAccessToken 1 None req) (example_world empty_db)) as [w' o] eqn:E.
  destruct o as [[row token]|e|];
    [|exfalso; apply (f_equal snd) in E; vm_compute in E; discriminate E..].
  exists w', row, token. split; [reflexivity|].
  destruct (CreateInitialAccessToken_sound 1 None req (example_world empty_db) w' row token E)
    as (n & _ & _ & _ & _ & Hs & _ & _ & Hm & _).
  split; [|exact Hm]. rewrite Hs. vm_compute. reflexivity.
Defined.

Abbreviation register := (Register "https://sg" 1 "initial" (example_metadata "")) (only parsing).
Abbreviation update_registration :=
  (Registration.Update "https://sg" 1 "client_app" "registration" (example_metadata "client_app"))
  (only parsing).

Lemma Register_sound_witness :
  exists w' resp, run register registration_world = (w', Ok resp) /\
    map ia_Uses (db_initialAccess (w_db w')) = [1] /\
    exists c, c ∈ db_clients (w_db w') /\ cl_Scopes c = ["read"] /\
      cl_RegistrationAccessToken c = hashToken (cp_RegistrationAccessToken resp) /\
      cl_DynamicallyRegistered c = true.
Proof.
  set (w' := (run register registration_world).1). set (o := (run register registration_world).2).
  assert (Eo : exists resp, o = Ok resp) by (vm_compute; eexists; reflexivity).
  destruct Eo as [resp Eo].
  assert (E : run register registration_world = (w', Ok resp)).
  { rewrite <-Eo. apply surjective_pairing. }
  assert (Hu : map ia_Uses (db_initialAccess (w_db w')) = [1]) by (vm_compute; reflexivity).
  clearbody w' o. exists w', resp. split; [exact E|]. split; [exact Hu|].
  pose proof (Register_sound "https://sg" 1 "initial" (example_metadata "") registration_world w' resp E)
    as H. cbv zeta in H.
  destruct H as (iat & spent & md & c & n & _ & _ & Hsp & _ & Hacc & H).
  destruct H as (_ & _ & _ & _ & _ & _ & _ & Hs & _ & _ & Hdyn & _ & Htok & _ & Hdb).
  exists c. rewrite Hdb. split; [apply elem_of_app; right; left|].
  split; [|split; [exact Htok|exact Hdyn]]. rewrite Hs. destruct Hacc as (-> & _). reflexivity.
Defined.

Definition registered_client : Client :=
  (example_client ["read"; "write"]) <| cl_DynamicallyRegistered := true |>
    <| cl_RegistrationAccessToken := hashToken "registration" |> <| cl_IsPublic := false |>.
Definition registered_world : World := example_world (empty_db <| db_clients := [registered_client] |>).

Lemma Registration_Update_sound_witness :
  exists w' resp, run update_registration registered_world = (w', Ok resp) /\
    map cl_Scopes (db_clients (w_db w')) = [["read"]] /\
    map cl_RegistrationAccessToken (db_clients (w_db w')) = [hashToken "registration"].
Proof.
  set (w' := (run update_registration registered_world).1). set (o := (run update_registration registered_world).2).
  assert (Eo : exists resp, o = Ok resp) by (vm_compute; eexists; reflexivity).
  destruct Eo as [resp Eo].
  assert (E : run update_registration registered_world = (w', Ok resp)).
  { rewrite <-Eo. apply surjective_pairing. }
  clearbody w' o. exists w', resp. split; [exact E|].
  destruct (Registration_Update_sound "https://sg" 1 "client_app" "registration"
    (example_metadata "client_app") registered_world w' resp E)
    as (c & md & n & Hc & _ & _ & _ & Htok & _ & _ & Hacc & _ & _ & _ & Hdb).
  apply list_elem_of_singleton in Hc. rewrite Hdb. subst c. destruct Hacc as (-> & _).
  split; reflexivity.
Defined.
