(* ===== verification/RbacSpec.v ===== *)
(** What the role and permission services and the authorizer guarantee. *)
From S2P Require Import Prelude GoStd StringFacts Hash Models Effects Store Repos RbacRepos AuditRepo.
From S2P Require Import AuditTrail Rbac Libraries Http Middleware Examples.
From stdpp Require Import gmap.

Open Scope Z_scope.

(** ** Reading runs *)

(** A run that only read the database. *)
Definition later (w w' : World) : Prop :=
  w_db w' = w_db w /\ (w_step w <= w_step w')%nat.
(** A statement between the two worlds failed. *)
Definition faulty `{Env} (w w' : World) : Prop :=
  exists n, (w_step w <= n < w_step w')%nat /\ env_fault n = true.

Lemma later_refl w : later w w.
Proof. done. Qed.
Lemma later_tick w : later w (tick w).
Proof. split; [done|]. simpl. lia. Qed.
Lemma later_trans w1 w2 w3 : later w1 w2 -> later w2 w3 -> later w1 w3.
Proof. intros [E1 ?] [E2 ?]. split; [congruence|lia]. Qed.
Lemma faulty_tick `{Env} w : env_fault (w_step w) = true -> faulty w (tick w).
Proof. intros Hf. exists (w_step w). split; [simpl; lia|done]. Qed.
Lemma faulty_later `{Env} w1 w2 w3 : later w1 w2 -> faulty w2 w3 -> faulty w1 w3.
Proof. intros [_ ?] (n & ? & ?). exists n. split; [lia|done]. Qed.
Lemma faulty_trans `{Env} w1 w2 w3 : faulty w1 w2 -> later w2 w3 -> faulty w1 w3.
Proof. intros (n & ? & ?) [_ ?]. exists n. split; [lia|done]. Qed.
Create HintDb later.
#[local] Hint Resolve later_refl later_tick later_trans faulty_tick faulty_later faulty_trans : later.

(** With distinct primary keys a lookup by key finds the row. *)
Lemma lookup_by_key {R : Set} `{Row R} (p : R -> bool) (l : list R) r :
  NoDup (map row_id l) -> r ∈ l -> p r = true -> row_live r = true ->
  (forall x, p x = true -> row_id x = row_id r) -> first_where p l = Some r.
Proof.
  intros Hnd Hr Hp Hl Hkey. destruct (first_where p l) as [x|] eqn:E.
  - apply first_where_Some in E as (Hx & Hpx & _). f_equal.
    specialize (Hkey x Hpx). clear -Hnd Hr Hx Hkey.
    induction l as [|y l IH]; [by apply not_elem_of_nil in Hx|].
    simpl in Hnd. apply NoDup_cons in Hnd as [Hy Hnd].
    apply elem_of_cons in Hx as [->|Hx], Hr as [->|Hr]; [done|..|by apply IH].
    + destruct Hy. rewrite Hkey. by apply list_elem_of_fmap_2.
    + destruct Hy. rewrite <-Hkey. by apply list_elem_of_fmap_2.
  - rewrite first_where_None in E. by rewrite E in Hp.
Qed.

Section Permissions.
Context `{Env} (t u : uuid).
Implicit Types w : World.

Definition role_of (db : DB) (id : uuid) : option Role :=
  first_where (fun r => (ro_TenantID r ==? t) && (ro_ID r ==? id)) (db_roles db).
Definition permission_of (db : DB) (id : uuid) : option Permission :=
  first_where (fun p => pm_ID p ==? id) (db_permissions db).
Definition grants_of (db : DB) (roleID : uuid) : list RolePermission :=
  select_where (fun g => rp_RoleID g ==? roleID) (db_rolePermissions db).

Lemma run_RoleRepo_GetByID id w :
  run (RoleRepo.GetByID t id) w =
  (tick w, if env_fault (w_step w) then Err (EWrap "failed to get role by ID" (EExternal "database"))
           else match role_of (w_db w) id with Some r => Ok r | None => Err ErrRoleNotFound end).
Proof. unfold RoleRepo.GetByID. by rewrite run_get_by. Qed.

Lemma run_PermissionRepo_GetByID id w :
  run (PermissionRepo.GetByID id) w =
  (tick w, if env_fault (w_step w)
           then Err (EWrap "failed to get permission by ID" (EExternal "database"))
           else match permission_of (w_db w) id with
                | Some r => Ok r | None => Err ErrPermissionNotFound end).
Proof. unfold PermissionRepo.GetByID. by rewrite run_get_by. Qed.

Lemma run_Find_wrap {R : Set} `{Table R} `{!Row R} msg (p : R -> bool) w :
  run (wrap msg (Find p)) w =
  (tick w, if env_fault (w_step w) then Err (EWrap msg (EExternal "database"))
           else Ok (select_where p (rows (w_db w)))).
Proof.
  unfold wrap. rewrite run_map_err. unfold Find. rewrite run_Stmt.
  destruct (env_fault (w_step w)); [done|]. simpl. by destruct w.
Qed.

(** The inner loop adds the live permissions of the grants. *)
Lemma run_collect_grants seen perms grants w w' o :
  (forall id p, id ∈ seen -> permission_of (w_db w) id = Some p -> p ∈ perms) ->
  run (PermissionService.collect_grants seen perms grants) w = (w', o) ->
  later w w' /\
  match o with
  | Ok (seen', perms') =>
    (forall id p, id ∈ seen' -> permission_of (w_db w) id = Some p -> p ∈ perms') /\
    forall p, p ∈ perms' <->
      p ∈ perms \/ exists g, g ∈ grants /\ permission_of (w_db w) (rp_PermissionID g) = Some p
  | Err _ => faulty w w'
  | Panic => False
  end.
Proof.
  revert seen perms w. induction grants as [|g grants IH]; intros seen perms w Hseen; cbn [PermissionService.collect_grants].
  - intros [= <- <-]. split; [auto with later|]. split; [done|]. set_solver.
  - case_bool_decide as Hin.
    { intros E. destruct (IH _ _ _ Hseen E) as [Hw Ho]. split; [done|].
      destruct o as [[seen' perms']| |]; [|done..]. destruct Ho as [Hs Hp]. split; [done|].
      intros p. rewrite Hp. split; [set_solver|]. intros [?|(g' & [->|?]%elem_of_cons & Hg)]; eauto. }
    rewrite run_bind, run_attempt, run_PermissionRepo_GetByID.
    destruct (env_fault (w_step w)) eqn:Ef.
    { simpl. intros [= <- <-]. split; auto with later. }
    destruct (permission_of (w_db w) (rp_PermissionID g)) as [pm|] eqn:Ep; cbv beta iota.
    + intros E. apply IH in E as [Hw Ho]; change (w_db (tick w)) with (w_db w) in *.
      * split; [eauto with later|]. destruct o as [[seen' perms']|e|]; [|eauto with later|done].
        destruct Ho as [Hs Hp]. split; [done|]. intros p. rewrite Hp. split.
        -- intros [[->|?]%elem_of_cons|(g' & ? & ?)]; [right; exists g; split; [left|done]|auto|].
           right. exists g'. split; [by right|done].
        -- intros [?|(g' & [->|?]%elem_of_cons & Hg)]; [left; by right| |right; eauto].
           assert (pm = p) as -> by congruence. left. left.
      * intros id p [->%elem_of_singleton|Hid]%elem_of_union Hp.
        -- rewrite Ep in Hp. injection Hp as ->. left.
        -- right. by eapply Hseen.
    + intros E. apply IH in E as [Hw Ho]; [|done].
      split; [eauto with later|]. destruct o as [[seen' perms']|e|]; [|eauto with later|done].
      destruct Ho as [Hs Hp]. split; [done|]. intros p. rewrite Hp.
      change (w_db (tick w)) with (w_db w). split; [set_solver|].
      intros [?|(g' & [->|?]%elem_of_cons & Hg)]; [auto|congruence|eauto].
Qed.

(** What a user role gives at time [now]: the permission [p], through an
    active role that is granted it. *)
Definition gives (db : DB) (now : Z) (ur : UserRole) (p : Permission) : Prop :=
  UserRole_IsExpired now ur = false /\
  exists role g, role_of db (ur_RoleID ur) = Some role /\ ro_IsActive role = true /\
    g ∈ grants_of db (ro_ID role) /\ permission_of db (rp_PermissionID g) = Some p.

(** The outer loop collects what the user roles give. *)
Definition collected (w w' : World) (perms : list Permission) (urs : list UserRole)
    (o : outcome (list Permission)) : Prop :=
  later w w' /\
  match o with
  | Ok res => forall p,
      (p ∈ res -> p ∈ perms \/ exists ur n, ur ∈ urs /\ (w_step w <= n < w_step w')%nat /\
                                 gives (w_db w) (env_now n) ur p) /\
      (p ∈ perms -> p ∈ res) /\
      (forall ur, ur ∈ urs ->
         (forall n, (w_step w <= n < w_step w')%nat -> gives (w_db w) (env_now n) ur p) -> p ∈ res)
  | Err _ => faulty w w'
  | Panic => False
  end.

(** A user role that gives nothing is skipped. *)
Lemma collected_skip w w1 w' perms ur urs o :
  later w w1 -> (w_step w < w_step w1)%nat ->
  (forall p, ~ gives (w_db w) (env_now (w_step w)) ur p) ->
  collected w1 w' perms urs o -> collected w w' perms (ur :: urs) o.
Proof.
  intros Hw1 Hlt Hno [Hw Ho]. split; [eauto with later|].
  destruct o as [res| |]; [|by eapply faulty_later|done]. destruct Hw1 as [Edb _].
  rewrite Edb in Ho. destruct Hw as [_ Hle]. intros p. destruct (Ho p) as (H1 & H2 & H3). split_and!.
  - intros [?|(ur' & n & ? & ? & ?)]%H1; [auto|]. right. exists ur', n. split_and!; auto with lia.
    by right.
  - done.
  - intros ur' [->|Hur]%elem_of_cons Hg; [destruct (Hno p); apply Hg; lia|].
    apply (H3 ur' Hur). intros n Hn. apply Hg. lia.
Qed.

(** One whose permissions were added to those collected so far. *)
Lemma collected_add w w1 w' perms perms' ur urs o :
  later w w1 -> (w_step w < w_step w1)%nat ->
  (forall p, p ∈ perms' <-> p ∈ perms \/ gives (w_db w) (env_now (w_step w)) ur p) ->
  collected w1 w' perms' urs o -> collected w w' perms (ur :: urs) o.
Proof.
  intros Hw1 Hlt Hadd [Hw Ho]. split; [eauto with later|].
  destruct o as [res| |]; [|by eapply faulty_later|done]. destruct Hw1 as [Edb _].
  rewrite Edb in Ho. destruct Hw as [_ Hle]. intros p. destruct (Ho p) as (H1 & H2 & H3). split_and!.
  - intros [Hp|(ur' & n & ? & ? & ?)]%H1.
    + apply Hadd in Hp as [?|Hp]; [auto|]. right. exists ur, (w_step w).
      split_and!; [left|lia|lia|done].
    + right. exists ur', n. split_and!; auto with lia. by right.
  - intros Hp. apply H2, Hadd. auto.
  - intros ur' [->|Hur]%elem_of_cons Hg; [apply H2, Hadd; right; apply Hg; lia|].
    apply (H3 ur' Hur). intros n Hn. apply Hg. lia.
Qed.

Lemma run_collect_roles seen perms urs w w' o :
  (forall id p, id ∈ seen -> permission_of (w_db w) id = Some p -> p ∈ perms) ->
  run (PermissionService.collect_roles t seen perms urs) w = (w', o) ->
  collected w w' perms urs o.
Proof.
  revert seen perms w. induction urs as [|ur urs IH]; intros seen perms w Hseen;
    cbn [PermissionService.collect_roles].
  - intros [= <- <-]. split; [done|]. intros p. rewrite elem_of_reverse. split_and!; auto; set_solver.
  - rewrite run_bind, run_Now. cbv beta iota.
    destruct (UserRole_IsExpired _ ur) eqn:Ex.
    { intros E%IH; [|done]. eapply collected_skip, E; [auto with later|simpl; lia|].
      intros p [Hx _]. congruence. }
    rewrite run_bind, run_attempt, run_RoleRepo_GetByID. change (w_db (tick w)) with (w_db w).
    destruct (env_fault _) eqn:Ef; cbv beta iota.
    { rewrite bool_decide_eq_false_2 by done. intros [= <- <-]. split; [eauto with later|].
      eapply faulty_later; auto with later. }
    destruct (role_of (w_db w) (ur_RoleID ur)) as [role|] eqn:Er; cbv beta iota.
    2: { rewrite bool_decide_eq_true_2 by done. intros E%IH; [|done].
         eapply collected_skip, E; [eauto with later|simpl; lia|].
         intros p (_ & role & g & Hr & _). congruence. }
    destruct (ro_IsActive role) eqn:Ea; cbn [negb].
    2: { intros E%IH; [|done]. eapply collected_skip, E; [eauto with later|simpl; lia|].
         intros p (_ & role' & g & Hr & ? & _). congruence. }
    rewrite run_bind. unfold RolePermissionRepo.GetRolePermissions, wrap at 1.
    rewrite run_map_err, run_Find_wrap.
    destruct (env_fault (w_step (tick (tick w)))) eqn:Ef2; cbv beta iota.
    { intros [= <- <-]. split; [eauto with later|].
      eapply faulty_later; [|by apply faulty_tick]. eauto with later. }
    rewrite run_bind. set (w3 := tick (tick (tick w))).
    assert (Hw3 : later w w3) by eauto with later.
    change (rows (w_db (tick (tick w)))) with (db_rolePermissions (w_db w)).
    destruct (run (PermissionService.collect_grants _ _ _) w3) as [w4 o4] eqn:Ec.
    apply run_collect_grants in Ec as [Hw4 Ho4]; [|done].
    destruct o4 as [[seen' perms']|e|]; [|intros [= <- <-]; split; eauto with later|done].
    destruct Ho4 as [Hs Hp]. intros E. apply IH in E.
    + eapply collected_add, E; [eauto with later|destruct Hw4; simpl in *; lia|].
      intros p. rewrite Hp. split.
      * intros [?|(g & Hg & Hpm)]; [auto|]. right. split; [done|]. exists role, g. done.
      * intros [?|(_ & role' & g & Hr & _ & Hg & Hpm)]; [auto|]. right. exists g.
        rewrite Er in Hr. injection Hr as <-. done.
    + destruct Hw4 as [E4 _]. intros id p Hid. rewrite E4. by apply Hs.
Qed.
End Permissions.

(** ** Having a permission *)

(** The user holds the permission in the tenant at time [now]: an unexpired
    assignment to a live, active role of the tenant that is granted a live
    permission for the action, or for every action, on the resource. *)
Definition permitted (db : DB) (now : Z) (t u : uuid) (resource action : string) : Prop :=
  exists ur role g p,
    ur ∈ db_userRoles db /\ ur_TenantID ur = t /\ ur_UserID ur = u /\
    UserRole_IsExpired now ur = false /\
    role ∈ db_roles db /\ ro_ID role = ur_RoleID ur /\ ro_TenantID role = t /\
    ro_DeletedAt role = None /\ ro_IsActive role = true /\
    g ∈ db_rolePermissions db /\ rp_RoleID g = ro_ID role /\
    p ∈ db_permissions db /\ pm_ID p = rp_PermissionID g /\ pm_DeletedAt p = None /\
    pm_Resource p = resource /\ (pm_Action p = action \/ pm_Action p = PermissionActionManage).

(** The primary keys of the tables are distinct. *)
Definition keys_distinct (db : DB) : Prop :=
  NoDup (map ro_ID (db_roles db)) /\ NoDup (map pm_ID (db_permissions db)).

(** The clock does not go backwards. *)
Definition clock_monotone `{Env} : Prop := forall n m, (n <= m)%nat -> env_now n <= env_now m.

Lemma is_none_None {A} (o : option A) : is_none o = true <-> o = None.
Proof. by destruct o. Qed.

Lemma not_expired_before now now' ur :
  now <= now' -> UserRole_IsExpired now' ur = false -> UserRole_IsExpired now ur = false.
Proof. unfold UserRole_IsExpired, time_after. destruct (ur_ExpiresAt ur); [|done]. lia. Qed.

Lemma grants_action_spec resource action p :
  PermissionService.grants_action resource action p = true <->
  pm_Resource p = resource /\ (pm_Action p = action \/ pm_Action p = PermissionActionManage).
Proof.
  unfold PermissionService.grants_action.
  rewrite andb_true_iff, orb_true_iff, !bool_decide_eq_true. done.
Qed.

Section HasPermission.
Context `{Env} (t u : uuid) (resource action : string).
Implicit Types w : World.

Definition user_roles_of (db : DB) : list UserRole :=
  select_where (fun x => (ur_TenantID x ==? t) && (ur_UserID x ==? u)) (db_userRoles db).

(** [gives] through one of the user's roles, against [permitted]. *)
Lemma gives_permitted db now ur p :
  ur ∈ user_roles_of db -> gives t db now ur p ->
  PermissionService.grants_action resource action p = true ->
  permitted db now t u resource action.
Proof.
  intros (Hur & Hk & _)%elem_of_select_where (Hx & role & g & Hr & Ha & Hg & Hp).
  intros [Hres Hact]%grants_action_spec. bool_simp.
  apply first_where_Some in Hr as (Hro & Hrk & Hrl), Hp as (Hpm & Hpk & Hpl).
  apply elem_of_select_where in Hg as (Hg & Hgk & _). bool_simp.
  exists ur, role, g, p. split_and!; try done; by apply is_none_None.
Qed.

Lemma permitted_gives db now :
  keys_distinct db -> permitted db now t u resource action ->
  exists ur p, ur ∈ user_roles_of db /\ PermissionService.grants_action resource action p = true /\
    forall now', now' <= now -> gives t db now' ur p.
Proof.
  intros [Hroles Hperms] (ur & role & g & p & Hur & Ht & Hu & Hx & Hro & Hid & Hrt & Hrd & Ha &
    Hg & Hgk & Hp & Hpk & Hpd & Hact).
  exists ur, p. split_and!.
  - apply elem_of_select_where. split; [done|]. split; [|done].
    by rewrite andb_true_iff, !bool_decide_eq_true.
  - by apply grants_action_spec.
  - intros now' Hnow. split; [by eapply not_expired_before|]. exists role, g. split_and!; try done.
    + apply lookup_by_key; [done..| | |].
      * by rewrite andb_true_iff, !bool_decide_eq_true.
      * simpl. by rewrite Hrd.
      * intros x [_ Hxid%bool_decide_eq_true]%andb_true_iff. simpl. congruence.
    + apply elem_of_select_where. split; [done|]. split; [by apply bool_decide_eq_true|done].
    + apply lookup_by_key; [done..| | |].
      * by apply bool_decide_eq_true.
      * simpl. by rewrite Hpd.
      * intros x Hxid%bool_decide_eq_true. simpl. congruence.
Qed.

Lemma run_GetUserPermissions w w' o :
  run (PermissionService.GetUserPermissions t u) w = (w', o) ->
  (env_fault (w_step w) = true /\ w' = tick w /\ exists e, o = Err e) \/
  collected t (tick w) w' [] (user_roles_of (w_db w)) o.
Proof.
  unfold PermissionService.GetUserPermissions. rewrite run_bind. unfold wrap at 1.
  unfold UserRoleRepo.GetUserRoles. rewrite run_map_err, run_Find_wrap.
  destruct (env_fault (w_step w)); cbv beta iota.
  - intros [= <- <-]. left. split_and!; eauto.
  - intros E. right. apply run_collect_roles in E; [exact E|].
    intros id p Hid. by apply elem_of_empty in Hid.
Qed.

Lemma HasPermission_run w w' o :
  keys_distinct (w_db w) -> clock_monotone ->
  run (PermissionService.HasPermission t u resource action) w = (w', o) ->
  later w w' /\
  match o with
  | Ok b => (b = true -> permitted (w_db w) (env_now (w_step w)) t u resource action) /\
            (permitted (w_db w) (env_now (w_step w')) t u resource action -> b = true)
  | Err _ => faulty w w'
  | Panic => False
  end.
Proof.
  intros Hkeys Hclock. unfold PermissionService.HasPermission. rewrite run_bind.
  destruct (run (PermissionService.GetUserPermissions t u) w) as [w1 o1] eqn:E.
  apply run_GetUserPermissions in E as [(Hf & -> & e & ->)|[Hw Ho]].
  { intros [= <- <-]. split; auto with later. }
  assert (Hw' : later w w1) by eauto with later. destruct o1 as [perms|e|]; [|intros [= <- <-]..|done].
  - rewrite run_ret. intros [= <- <-]. split; [done|]. split.
    + intros (p & Hp%list_elem_of_In & Hact)%existsb_exists.
      destruct (Ho p) as (H1 & _ & _). apply H1 in Hp as [Hp|(ur & n & Hur & Hn & Hx & Hg)].
      { by apply elem_of_nil in Hp. }
      eapply gives_permitted; [exact Hur| |exact Hact]. split; [|exact Hg].
      eapply not_expired_before, Hx. apply Hclock. simpl in Hn. lia.
    + intros (ur & p & Hur & Hact & Hg)%permitted_gives; [|done].
      apply existsb_exists. exists p. split; [|done]. apply list_elem_of_In.
      destruct (Ho p) as (_ & _ & H3). apply (H3 ur Hur). intros n Hn. apply Hg, Hclock. lia.
  - split; [done|]. eauto with later.
Qed.
End HasPermission.

(** C23: the permission check reads only, and answers by the assignments and
    grants that are in force: [true] only for a user who held the permission
    in the tenant when the check began, and [true] for everyone who still
    holds it when the check ends; it reports an error only when a statement
    of its own failed, so a failing database never grants anything. *)
Theorem HasPermission_spec `{Env} t u resource action w w' o :
  keys_distinct (w_db w) -> clock_monotone ->
  run (PermissionService.HasPermission t u resource action) w = (w', o) ->
  w_db w' = w_db w /\
  match o with
  | Ok b => (b = true -> permitted (w_db w) (env_now (w_step w)) t u resource action) /\
            (permitted (w_db w) (env_now (w_step w')) t u resource action -> b = true)
  | Err _ => exists n, (w_step w <= n < w_step w')%nat /\ env_fault n = true
  | Panic => False
  end.
Proof.
  intros Hkeys Hclock E. destruct (HasPermission_run _ _ _ _ _ _ _ Hkeys Hclock E) as [[Hdb _] Ho].
  split; [exact Hdb|]. by destruct o.
Qed.

(** ** The authorizer *)

Lemma run_authorize `{Env} `{UuidLib} a resource action self (next : Handler) c r w w' o :
  keys_distinct (w_db w) -> clock_monotone ->
  run (authorize a resource action self next c r) w = (w', o) ->
  (exists w1 u,
     later w w1 /\ run (next c r) w1 = (w', o) /\ q_UserID c = Some u /\ u <> uuid_Nil /\
     (u ∈ az_superAdmins a \/
      (self <> "" /\ uuid_Parse (Param c self) = Some u) \/
      (resource <> "" /\ exists t, q_TenantID c = Some t /\
         permitted (w_db w) (env_now (w_step w)) t u resource action))) \/
  (later w w' /\ exists resp, o = Ok resp /\ rs_Aborted resp = true /\
     rs_Status resp ∈ [StatusUnauthorized; StatusForbidden; StatusInternalServerError]).
Proof.
  intros Hkeys Hclock. unfold authorize, GetUserID, GetTenantID, deny, abort_api.
  assert (Hrefuse : forall w1 status code msg,
    later w w1 -> status ∈ [StatusUnauthorized; StatusForbidden; StatusInternalServerError] ->
    run (mret (Abort (RespondWithError c r status code msg))) w1 = (w', o) ->
    later w w' /\ exists resp, o = Ok resp /\ rs_Aborted resp = true /\
      rs_Status resp ∈ [StatusUnauthorized; StatusForbidden; StatusInternalServerError]).
  { intros w1 status code msg Hw Hs [= <- <-]. split; [done|]. eauto. }
  destruct (q_UserID c) as [u|]; [|intros E; right; eapply Hrefuse, E; [done|set_solver]].
  case_bool_decide as Hnil; [intros E; right; eapply Hrefuse, E; [done|set_solver]|].
  case_bool_decide as Hsuper; [intros E; left; exists w, u; split_and!; auto with later|].
  destruct ((self !=? "") && _) eqn:Eself.
  { intros E. left. exists w, u. split_and!; auto with later. right. left.
    apply andb_true_iff in Eself as [Hne Hp]. bool_simp. split; [done|].
    destruct (uuid_Parse (Param c self)) as [target|]; [|done].
    by apply bool_decide_eq_true in Hp as ->. }
  clear Eself.
  case_bool_decide as Hres; [intros E; right; eapply Hrefuse, E; [done|set_solver]|].
  destruct (q_TenantID c) as [t|]; [|intros E; right; eapply Hrefuse, E; [done|set_solver]].
  rewrite run_bind, run_attempt.
  destruct (run (PermissionService.HasPermission t u resource action) w) as [w1 o1] eqn:Ep.
  apply HasPermission_run in Ep as [Hw1 Ho1]; [|done..]. destruct o1 as [[]|e|]; [..|done]; cbv beta iota.
  - intros E. left. exists w1, u. split_and!; auto. right. right. split; [done|]. exists t.
    split; [done|]. by apply Ho1.
  - intros E. right. eapply Hrefuse, E; [done|set_solver].
  - intros E. right. eapply Hrefuse, E; [done|set_solver].
Qed.

(** The authorizer lets a request through to the handler only for a user
    who is a super admin, is the user the path names (where the route allows
    that), or holds the permission in the tenant of the request; everyone
    else, a token without a user included, is answered 401, 403 or 500 with
    the chain aborted and nothing written. *)
Theorem authorize_spec `{Env} `{UuidLib} a resource action self (next : Handler) c r w w' o :
  keys_distinct (w_db w) -> clock_monotone ->
  run (authorize a resource action self next c r) w = (w', o) ->
  (exists w1 u,
     later w w1 /\ run (next c r) w1 = (w', o) /\ q_UserID c = Some u /\ u <> uuid_Nil /\
     (u ∈ az_superAdmins a \/
      (self <> "" /\ uuid_Parse (Param c self) = Some u) \/
      (resource <> "" /\ exists t, q_TenantID c = Some t /\
         permitted (w_db w) (env_now (w_step w)) t u resource action))) \/
  (later w w' /\ exists resp, o = Ok resp /\ rs_Aborted resp = true /\
     rs_Status resp ∈ [StatusUnauthorized; StatusForbidden; StatusInternalServerError]).
Proof. apply run_authorize. Qed.

(** ** Roles *)

Lemma filter_all {A} (p : A -> bool) (l : list A) : (forall x, x ∈ l -> p x = true) -> filter p l = l.
Proof.
  intros Hall. induction l as [|x l IH]; [done|].
  rewrite filter_cons_True by (rewrite (Hall x) by set_solver; done).
  rewrite IH; [done|set_solver].
Qed.

(** Writing the audit log touches no other table, and its failure is never
    the caller's. *)
Definition only_audited (w w' : World) : Prop :=
  exists l, w_db w' = (w_db w) <| db_auditLogs := l |>.

Lemma only_audited_refl w w' : w_db w' = w_db w -> only_audited w w'.
Proof. intros E. exists (db_auditLogs (w_db w)). rewrite E. by destruct (w_db w). Qed.


Lemma run_store `{Env} (e : AuditLog) w w' o :
  run (wrap "failed to create audit log" (AuditLogRepo.Create e) ;; mret tt) w = (w', o) ->
  only_audited w w' /\ o <> Panic.
Proof.
  rewrite run_bind. unfold AuditLogRepo.Create, wrap. rewrite !run_map_err.
  destruct (run (Store.Insert _) w) as [w1 o1] eqn:E. apply run_Insert_any in E as [Hl Hp].
  assert (only_audited w w1).
  { destruct Hl as [?|[l ?]]; [by apply only_audited_refl|by exists l]. }
  destruct o1; [..|done]; intros [= <- <-]; done.
Qed.

Lemma only_audited_db w1 w2 w3 : w_db w2 = w_db w1 -> only_audited w2 w3 -> only_audited w1 w3.
Proof. intros E [l ?]. exists l. congruence. Qed.

Lemma run_Log `{Env} ctx e w w' o : run (Log ctx e) w = (w', o) -> only_audited w w' /\ o <> Panic.
Proof.
  unfold Log. rewrite run_bind.
  assert (Hid : forall e0 w0, run (entry ← (if al_ID e0 ==? uuid_Nil
           then id ← NewUUID; mret (e0 <| al_ID := id |>) else mret e0);
         wrap "failed to create audit log" (AuditLogRepo.Create (attribute ctx entry)) ;; mret tt) w0
         = (w', o) -> only_audited w0 w' /\ o <> Panic).
  { intros e0 w0. rewrite run_bind. destruct (_ ==? _).
    - rewrite run_bind, run_NewUUID, run_ret. intros [Hs ?]%run_store. split; [|done].
      by eapply only_audited_db, Hs.
    - rewrite run_ret. apply run_store. }
  destruct (time_is_zero _).
  - rewrite run_bind, run_Now, run_ret. intros [Hs ?]%Hid. split; [|done].
    by eapply only_audited_db, Hs.
  - rewrite run_ret. apply Hid.
Qed.

Section Roles.
Context `{Env} (s : RoleService.RoleServiceImpl) (ctx : Ctx).
Implicit Types w : World.

Lemma run_audit_ignored (b : bool) ctx' e w w' o :
  run (if b then ignore (Log ctx' e) else mret tt) w = (w', o) -> only_audited w w' /\ o = Ok tt.
Proof.
  destruct b; [|intros [= <- <-]; split; [by apply only_audited_refl|done]].
  rewrite run_ignore. destruct (run (Log _ _) w) as [w1 o1] eqn:E.
  apply run_Log in E as [Hl Hp]. destruct o1; [..|done]; intros [= <- <-]; done.
Qed.

Lemma ok_must_be_absent {A} nf msg (p : prog A) w w' x :
  run (must_be_absent nf msg p) w = (w', Ok x) -> run p w = (w', Err (ESentinel nf)).
Proof.
  unfold must_be_absent. rewrite run_bind, run_attempt.
  destruct (run p w) as [w1 [a|e|]]; [done| |done]. cbv beta iota.
  case_bool_decide as E; simpl; [|done]. intros [= <- _]. by subst.
Qed.

Definition assignment (t u r : uuid) (x : UserRole) : bool :=
  (ur_TenantID x ==? t) && (ur_UserID x ==? u) && (ur_RoleID x ==? r).

(** A role is assigned once: the assignment is the only one of its kind. *)
Lemma AssignToUser_ok t r u by_ exp w w' x :
  run (RoleService.AssignToUser s ctx t r u by_ exp) w = (w', Ok x) ->
  (exists role, role_of t (w_db w) r = Some role) /\
  (forall y, y ∈ db_userRoles (w_db w) -> assignment t u r y = false) /\
  exists id at_, db_userRoles (w_db w') = db_userRoles (w_db w) ++ [MkUserRole id t u r by_ at_ exp] /\
    db_roles (w_db w') = db_roles (w_db w) /\
    db_rolePermissions (w_db w') = db_rolePermissions (w_db w) /\
    db_permissions (w_db w') = db_permissions (w_db w).
Proof.
  unfold RoleService.AssignToUser. intros E.
  apply ok_bind in E as (role & w1 & (Hw & -> & Hr)%ok_wrap%ok_get_by & E).
  apply ok_bind in E as (? & w2 & Eabs%ok_must_be_absent & E).
  unfold UserRoleRepo.GetByUserAndRole in Eabs. rewrite run_get_by in Eabs. revert Eabs.
  destruct (env_fault _) eqn:Ef; [done|].
  destruct (first_where (R := UserRole) _ _) as [y|] eqn:Eno; [done|].
  intros [= <-].
  apply ok_bind in E as (id & w3 & [-> ->]%ok_NewUUID & E).
  apply ok_bind in E as (now & w4 & [-> ->]%ok_Now & E).
  apply ok_bind in E as (ur & w5 & (Hw5 & -> & _ & ->)%ok_wrap%ok_wrap%ok_Insert & E).
  apply run_audit_ignored in E as [[l Hl] _]. rewrite Hl. split; [eauto|]. split.
  - rewrite first_where_None in Eno. intros y Hy. apply Eno; done.
  - eexists _, _. split_and!; reflexivity.
Qed.

Lemma RevokeFromUser_ok t r u w w' x :
  run (RoleService.RevokeFromUser s ctx t r u) w = (w', Ok x) ->
  db_userRoles (w_db w') = filter (fun y => negb (assignment t u r y)) (db_userRoles (w_db w)).
Proof.
  unfold RoleService.RevokeFromUser. intros E.
  apply ok_bind in E as (role & w1 & (Hw & -> & Hr)%ok_wrap%ok_get_by & E).
  apply ok_bind in E as (? & w2 & (Hw2 & ->)%ok_wrap%ok_wrap%ok_DeleteWhere & E).
  apply run_audit_ignored in E as [[l Hl] _]. rewrite Hl. by apply delete_where_hard.
Qed.
End Roles.

(** Assigning a role to a user gives the user what the role is granted,
    from the next check on, and revoking it takes back exactly that: the
    assignments are those from before, whatever else happened to the other
    tables in between. *)
Theorem AssignToUser_RevokeFromUser `{Env} s ctx t r u by_ exp w w1 w2 w3 :
  run (RoleService.AssignToUser s ctx t r u by_ exp) w = (w1, Ok tt) ->
  db_userRoles (w_db w2) = db_userRoles (w_db w1) ->
  run (RoleService.RevokeFromUser s ctx t r u) w2 = (w3, Ok tt) ->
  (forall now role g p resource action,
     role_of t (w_db w) r = Some role -> ro_IsActive role = true ->
     (forall e, exp = Some e -> now <= e) ->
     g ∈ grants_of (w_db w) r -> permission_of (w_db w) (rp_PermissionID g) = Some p ->
     PermissionService.grants_action resource action p = true ->
     permitted (w_db w1) now t u resource action) /\
  db_userRoles (w_db w3) = db_userRoles (w_db w).
Proof.
  intros (_ & Hnone & id & at_ & E1 & Ero & Egr & Epm)%AssignToUser_ok E2 E3%RevokeFromUser_ok.
  split.
  - intros now role g p resource action Hr Ha Hexp Hg Hp Hact.
    apply grants_action_spec in Hact.
    apply first_where_Some in Hr as (Hro & Hrk & Hrl), Hp as (Hpm & Hpk & Hpl).
    apply elem_of_select_where in Hg as (Hg & Hgk & _). bool_simp.
    exists (MkUserRole id t u r by_ at_ exp), role, g, p. rewrite E1, Ero, Egr, Epm.
    split_and!; try done; try (by apply is_none_None); try congruence.
    + apply elem_of_app. right. by left.
    + unfold UserRole_IsExpired, time_after. simpl. destruct exp as [e|]; [|done].
      specialize (Hexp e eq_refl). lia.
    + tauto.
    + tauto.
  - rewrite E3, E2, E1, filter_app. rewrite (filter_cons_False _ _ []), filter_nil, app_nil_r.
    + apply filter_all. intros y Hy. by rewrite (Hnone y Hy).
    + unfold assignment. simpl. rewrite !(bool_decide_eq_true_2 _ eq_refl). by intros [].
Qed.

(** Taking grants away without a fault: the listed ones are gone and
    nothing else is touched. *)
Definition revoked (r : uuid) (grants : list RolePermission) (g : RolePermission) : bool :=
  existsb (fun x => (rp_RoleID g ==? r) && (rp_PermissionID g ==? rp_PermissionID x)) grants.

Lemma run_remove_grants `{Env} r grants w :
  (forall n, env_fault n = false) ->
  exists w', run (RoleService.remove_grants r grants) w = (w', Ok tt) /\
    w_db w' = set_rows (filter (fun g => negb (revoked r grants g)) (rows (w_db w))) (w_db w).
Proof.
  intros Hf. revert w. induction grants as [|x grants IH]; intros w.
  - exists w. split; [done|]. rewrite (filter_all (fun g => negb (revoked r [] g))) by done.
    symmetry. apply set_rows_rows.
  - cbn [RoleService.remove_grants]. rewrite run_bind, run_ignore.
    unfold RolePermissionRepo.Delete, wrap. rewrite run_map_err, run_DeleteWhere, Hf.
    cbv beta iota. edestruct IH as (w' & E & Hw). exists w'. split; [exact E|]. rewrite Hw.
    unfold wrote. rewrite delete_where_hard by done.
    transitivity (set_rows (filter (fun g => negb (revoked r grants g)) (filter (fun g =>
      negb ((rp_RoleID g ==? r) && (rp_PermissionID g ==? rp_PermissionID x))) (rows (w_db w)))) (w_db w));
      [done|]. f_equal. rewrite list_filter_filter.
    apply list_filter_iff. intros g. unfold revoked. cbn [existsb].
    by destruct (_ && _), (existsb _ grants); simpl; tauto.
Qed.

Lemma select_nonempty {R : Set} `{Row R} (p : R -> bool) l :
  (forall r, row_live r = true) -> Nat.ltb 0 (length (select_where p l)) = existsb p l.
Proof.
  intros Hl. induction l as [|r l IH]; [done|]. unfold select_where in *.
  rewrite filter_cons, Hl. simpl. destruct (p r); simpl; [done|exact IH].
Qed.

Lemma first_where_deleted {R : Set} `{Row R} (p : R -> bool) now l :
  (forall r r', row_delete now r = Some r' -> row_live r' = false) ->
  first_where p (delete_where p now l) = None.
Proof.
  intros Hd. rewrite first_where_None. unfold delete_where.
  intros x (y & Hy & E)%list_elem_of_omap Hx.
  destruct (p y && row_live y) eqn:Ey; [by rewrite (Hd y x E) in Hx|].
  injection E as ->. by rewrite Hx, andb_true_r in Ey.
Qed.

(** A role that the system defines, or that a user still has, is not
    deleted (ErrBusinessRuleViolation when the look-ups succeed) and nothing
    is written; a deleted role is no longer found, so it gives nothing. *)
Theorem RoleService_Delete_spec `{Env} s ctx t r w w' o :
  (forall n, env_fault n = false) ->
  run (RoleService.Delete s ctx t r) w = (w', o) ->
  match role_of t (w_db w) r with
  | None => w_db w' = w_db w /\ o = Err (EWrap "failed to get role" ErrRoleNotFound)
  | Some role =>
    if ro_IsSystem role
       || existsb (fun x => (ur_TenantID x ==? t) && (ur_RoleID x ==? r)) (db_userRoles (w_db w))
    then w_db w' = w_db w /\ o = Err (ESentinel ErrBusinessRuleViolation)
    else o = Ok tt /\ role_of t (w_db w') r = None /\
         (forall now ur p, ur_RoleID ur = r -> ~ gives t (w_db w') now ur p) /\
         (forall g, g ∈ db_rolePermissions (w_db w') -> rp_RoleID g <> r) /\
         db_userRoles (w_db w') = db_userRoles (w_db w)
  end.
Proof.
  intros Hf. unfold RoleService.Delete. rewrite run_bind. unfold wrap at 1.
  rewrite run_map_err, run_RoleRepo_GetByID, Hf. cbv beta iota.
  destruct (role_of t (w_db w) r) as [role|] eqn:Er; [|by intros [= <- <-]].
  destruct (ro_IsSystem role); [by intros [= <- <-]|]. rewrite orb_false_l.
  unfold UserRoleRepo.GetRoleUsers. rewrite run_bind. unfold wrap at 1.
  rewrite run_map_err, run_Find_wrap, Hf. cbv beta iota.
  rewrite select_nonempty by done.
  change (rows (w_db (tick w))) with (db_userRoles (w_db w)).
  destruct (existsb _ (db_userRoles _)); [by intros [= <- <-]|].
  unfold RoleService.clear_permissions. rewrite !run_bind, run_attempt.
  unfold RolePermissionRepo.GetRolePermissions. rewrite run_Find_wrap, Hf. cbv beta iota.
  destruct (run_remove_grants r (select_where (fun g => rp_RoleID g ==? r)
    (rows (w_db (tick (tick w))))) (tick (tick (tick w))) Hf) as (w1 & -> & Hw1).
  rewrite run_bind. unfold RoleRepo.Delete. unfold wrap at 1 2. rewrite !run_map_err, run_DeleteWhere, Hf.
  cbv beta iota. intros [[l Hl] ->]%run_audit_ignored. split; [done|].
  assert (Hno : role_of t (w_db w') r = None).
  { unfold role_of. rewrite Hl. apply first_where_deleted. by intros ?? [= <-]. }
  split; [done|]. split; [|rewrite Hl; split; [|change (db_userRoles (w_db w1) = db_userRoles (w_db w)); by rewrite Hw1]].
  - intros now ur p Hur (_ & role' & g & Hr' & _). by rewrite Hur, Hno in Hr'.
  - intros g. change (db_rolePermissions _) with (db_rolePermissions (w_db w1)). rewrite Hw1.
    intros [Hk Hg]%list_elem_of_filter Hrg. apply Is_true_true, negb_true_iff in Hk.
    assert (revoked r (select_where (fun g => rp_RoleID g ==? r) (db_rolePermissions (w_db w))) g = true) as Hk';
      [|by pose proof (eq_trans (eq_sym Hk') Hk)].
    apply existsb_exists. exists g. rewrite Hrg, !(bool_decide_eq_true_2 _ eq_refl). split; [|done].
    apply list_elem_of_In, elem_of_select_where. by rewrite Hrg, (bool_decide_eq_true_2 _ eq_refl).
Qed.

(** ** Witnesses *)

(** The role "editor" may write documents; user 9 has it in tenant 1. *)
Definition rbac_db : DB := empty_db
  <| db_roles := [MkRole 50 1 "editor" "Editor" "" false true epoch epoch None] |>
  <| db_permissions :=
       [MkPermission 60 "doc.write" "Write" "" "documents" "write" false epoch epoch None] |>
  <| db_rolePermissions := [MkRolePermission 70 50 60 1 epoch] |>.
Definition rbac_world : World :=
  example_world (rbac_db <| db_userRoles := [MkUserRole 80 1 9 50 2 epoch None] |>).
Definition rbac_ctx : Ctx := MkCtx None "".

Lemma rbac_keys_distinct : keys_distinct (w_db rbac_world).
Proof. by split; apply (bool_decide_unpack _); vm_compute. Defined.
Lemma example_clock_monotone : clock_monotone.
Proof. intros n m Hnm. simpl. unfold second. lia. Qed.

Lemma HasPermission_spec_witness :
  permitted (w_db rbac_world) (env_now 0) 1 9 "documents" "write".
Proof.
  assert (E : exists w', run (PermissionService.HasPermission 1 9 "documents" "write") rbac_world =
    (w', Ok true)) by (eexists; vm_compute; reflexivity).
  destruct E as [w' E].
  exact (proj1 (proj2 (HasPermission_spec 1 9 "documents" "write" _ _ _ rbac_keys_distinct
                         example_clock_monotone E)) eq_refl).
Defined.

Lemma authorize_spec_witness :
  exists w' resp, run (authorize (NewAuthorizer []) "documents" "write" "" (fun _ w => mret w)
      (example_request <| q_UserID := Some 9%N |>) blank) rbac_world = (w', Ok resp) /\
    (rs_Aborted resp = true \/ permitted (w_db rbac_world) (env_now 0) 1 9 "documents" "write").
Proof.
  assert (E : exists w', run (authorize (NewAuthorizer []) "documents" "write" "" (fun _ w => mret w)
      (example_request <| q_UserID := Some 9%N |>) blank) rbac_world = (w', Ok blank))
    by (eexists; vm_compute; reflexivity).
  destruct E as [w' E]. exists w', blank. split; [exact E|].
  destruct (authorize_spec _ _ _ _ _ _ _ _ _ _ rbac_keys_distinct example_clock_monotone E)
    as [(w1 & u & _ & _ & [= <-] & _ & Hwhy)|(_ & resp & [= <-] & Ha & _)]; [|left; exact Ha].
  right. destruct Hwhy as [Hs|[[Hs _]|(_ & t & [= <-] & Hp)]]; [|by destruct Hs|exact Hp].
  exfalso. revert Hs. apply (bool_decide_unpack _). vm_compute. exact I.
Defined.

Lemma AssignToUser_RevokeFromUser_witness :
  exists w1 w3,
    run (RoleService.AssignToUser (RoleService.MkRoleService true) rbac_ctx 1 50 9 2 None)
      (example_world rbac_db) = (w1, Ok tt) /\
    permitted (w_db w1) (epoch + 100) 1 9 "documents" "write" /\
    run (RoleService.RevokeFromUser (RoleService.MkRoleService true) rbac_ctx 1 50 9) w1
      = (w3, Ok tt) /\
    db_userRoles (w_db w3) = [].
Proof.
  eexists _, _.
  assert (E1 : run (RoleService.AssignToUser (RoleService.MkRoleService true) rbac_ctx 1 50 9 2 None)
    (example_world rbac_db) = (_, Ok tt)) by (vm_compute; reflexivity).
  match type of E1 with _ = (?w, _) =>
    assert (E2 : run (RoleService.RevokeFromUser (RoleService.MkRoleService true) rbac_ctx 1 50 9) w
      = (_, Ok tt)) by (vm_compute; reflexivity)
  end.
  destruct (AssignToUser_RevokeFromUser _ _ _ _ _ _ _ _ _ _ _ E1 eq_refl E2) as [Hp Hr].
  split; [exact E1|]. split; [|split; [exact E2|exact Hr]].
  eapply Hp; [reflexivity|reflexivity|discriminate|by left|reflexivity|reflexivity].
Defined.

Lemma RoleService_Delete_spec_witness :
  exists w', run (RoleService.Delete (RoleService.MkRoleService true) rbac_ctx 1 50)
      (example_world rbac_db) = (w', Ok tt) /\ role_of 1 (w_db w') 50 = None.
Proof.
  destruct (run (RoleService.Delete (RoleService.MkRoleService true) rbac_ctx 1 50)
    (example_world rbac_db)) as [w' o] eqn:E.
  destruct (RoleService_Delete_spec (H := example_env) _ _ _ _ _ _ _ (fun _ => eq_refl) E) as [-> [Hno _]].
  exists w'. split; [reflexivity|exact Hno].
Defined.
