(* ===== verification/AuthorizeSpec.v ===== *)
(** What the authorization endpoint and its login, second factor and consent
    forms guarantee: where they send the browser and for whom they store an
    authorization code. *)
From S2P Require Import Prelude GoStd StringFacts Base64 Hash Models Effects Store Repos AccountRepos.
From S2P Require Import RbacRepos AuditRepo Libraries JwtKeys AuditTrail Http Scope AuthService Mfa MfaService.
From S2P Require Import ClientService Session UserService TenantService HandlerSecurity TokenEndpoint.
From S2P Require Import Authorize Examples Frame SessionSpec MfaSpec UserSpec.
From stdpp Require Import gmap.

Open Scope Z_scope.

(** ** Validation of the request *)

(** What a request must satisfy before anyone is asked to sign in. *)
Record sound_request (client : Client) (req : AuthorizeRequest) (scope : string) : Prop := {
  sr_response_type : ar_ResponseType req = "code";
  sr_grant : HasGrantType client "authorization_code" = true;
  sr_scope : ValidateScopeForClient client (ar_Scope req) = inl scope;
  sr_pkce : cl_IsPublic client = true ->
    ar_CodeChallenge req <> "" /\ ar_CodeChallengeMethod req = "S256";
  sr_plain : ar_Request req = "" /\ ar_RequestURI req = "";
  sr_nonce : (String.length (ar_Nonce req) <= maxNonceLength)%nat
}.

Lemma check_request_ok client req r :
  check_request client req = inl r ->
  az_request r = req /\ az_client r = client /\ sound_request client req (az_scope r) /\
  az_prompt r = list_to_set (Fields (ar_Prompt req)) /\
  (ar_MaxAge req <> "" -> exists n, Atoi (ar_MaxAge req) = Some n /\ 0 <= n /\
     az_maxAge r = wrap64 (n * second)).
Proof.
  unfold check_request. cbv zeta.
  destruct (ar_Request req !=? "") eqn:E1; [done|]. destruct (ar_RequestURI req !=? "") eqn:E2; [done|].
  destruct (AuthorizeRequest_Validate req) as [|] eqn:E3; [done|].
  destruct (Nat.ltb _ _) eqn:E4; [done|].
  destruct (HasGrantType client "authorization_code") eqn:E5; [|done]. cbn [negb].
  destruct (ValidateScopeForClient client (ar_Scope req)) as [scope|] eqn:E6; [|done].
  destruct (cl_IsPublic client && ((_ ==? _) || _)) eqn:E7; [done|].
  destruct (cl_IsPublic client && (_ !=? "S256")) eqn:E8; [done|].
  destruct (bool_decide (promptNone ∈ _) && _) eqn:E9; [done|].
  assert (Hs : sound_request client req scope).
  { unfold AuthorizeRequest_Validate in E3. destruct (ar_ResponseType req !=? "code") eqn:E10; [done|].
    apply Nat.ltb_ge in E4. constructor; try done; bool_simp; try done.
    intros Hp. rewrite Hp in E7, E8. simpl in E7, E8. by bool_simp. }
  destruct (ar_MaxAge req !=? "") eqn:Em.
  - destruct (Atoi _) as [n|] eqn:Ea; [|done]. destruct (Z.ltb_spec n 0); [done|].
    intros [= <-]. split_and!; try done. intros _. by exists n.
  - bool_simp. intros [= <-]. split_and!; try done.
Qed.

(** ** Responses *)

Lemma Location_Redirect w status l : Location (Redirect w status l) = l.
Proof. reflexivity. Qed.

(** The response is a page, or an error redirect to [uri] that carries the
    issuer and the state. *)
Definition error_params (state iss : string) (params : list (string * string)) : Prop :=
  exists code description,
    params = [("error", code); ("error_description", description)]
             ++ (if state !=? "" then [("state", state)] else []) ++ [("iss", iss)].
Definition code_params (state iss code : string) : list (string * string) :=
  [("code", code)] ++ (if state !=? "" then [("state", state)] else []) ++ [("iss", iss)].

Section Answers.
Context `{RedirectLib} (h : OAuthHandler) (w0 : Response) (uri state : string).

Definition refused (r : Response) : Prop :=
  Location r = Location w0 \/
  exists params, error_params state (cfg_ServerURL (oh_cfg h)) params /\
    url_SetQuery uri params = Some (Location r).

(** [Q]: what holds of a code that was stored. It is in the redirect, unless
    that could not be built. *)
Definition answered (codes codes' : list AuthorizationCode) (r : Response)
    (Q : AuthorizationCode -> Prop) : Prop :=
  (codes' = codes /\ refused r) \/
  exists ac, codes' = codes ++ [ac] /\ Q ac /\
    (Location r = Location w0 \/
     url_SetQuery uri (code_params state (cfg_ServerURL (oh_cfg h)) (ac_Code ac)) = Some (Location r)).

Lemma answered_refused codes r Q : refused r -> answered codes codes r Q.
Proof. by left. Qed.

Lemma renderError_refused w code description :
  Location w = Location w0 -> refused (renderError h w code description uri state).
Proof.
  intros Hw. unfold renderError. destruct (uri !=? ""); [|by left].
  destruct (url_SetQuery _ _) as [location|] eqn:E; [|by left].
  right. rewrite Location_Redirect. eexists. split; [|exact E]. by eexists _, _.
Qed.
Lemma renderError_page w code description :
  Location w = Location w0 -> refused (renderError h w code description "" "").
Proof. by left. Qed.
End Answers.

(** ** Pages *)

Section Pages.
Context `{Env} `{UuidLib} `{JwtLib} `{UnicodeTables} `{BcryptLib} `{AeadLib}.
Context `{RedirectLib} `{PendingJson}.
Context (h : OAuthHandler) (c : Request).
Context {X : Type} (f : DB -> X).

Lemma keeps_newCSRFToken s : keeps f (newCSRFToken s).
Proof. unfold newCSRFToken. keeps. Qed.
Lemma keeps_addCSRFToken w data k :
  (forall w1 d, keeps f (k w1 d)) -> keeps f (addCSRFToken h w data k).
Proof. intros Hk. unfold addCSRFToken. keeps. apply keeps_newCSRFToken. Qed.
Lemma keeps_user_GetByID t u : keeps f (UserService.GetByID t u).
Proof. unfold UserService.GetByID, UserRepo.GetByID. keeps. Qed.
Lemma keeps_tenant_GetByID t : keeps f (TenantService.GetByID t).
Proof. unfold TenantService.GetByID, TenantRepo.GetByID. keeps. Qed.
Hint Resolve keeps_newCSRFToken keeps_user_GetByID keeps_tenant_GetByID : keeps.

Lemma keeps_renderLoginPage w t ar msg : keeps f (renderLoginPage h w t ar msg).
Proof. unfold renderLoginPage. apply keeps_addCSRFToken. intros. keeps. Qed.
Lemma keeps_renderConsentPage w t ar s : keeps f (renderConsentPage h w t ar s).
Proof. unfold renderConsentPage. apply keeps_addCSRFToken. intros. keeps. Qed.
Lemma keeps_renderMFAPage w action hidden token msg :
  keeps f (renderMFAPage h w action hidden token msg).
Proof. unfold renderMFAPage. apply keeps_addCSRFToken. intros. keeps. Qed.
Lemma keeps_startMFA w t u purpose action hidden :
  keeps f (startMFA h w t u purpose action hidden).
Proof. unfold startMFA. keeps. apply keeps_renderMFAPage. Qed.
End Pages.
#[export] Hint Resolve keeps_newCSRFToken keeps_user_GetByID keeps_tenant_GetByID
  keeps_renderLoginPage keeps_renderConsentPage keeps_renderMFAPage keeps_startMFA : keeps.

Section Answering.
Context `{Env} `{UuidLib} `{JwtLib} `{UnicodeTables} `{BcryptLib} `{AeadLib}.
Context `{RedirectLib} `{PendingJson}.
Context (h : OAuthHandler) (c : Request).
Implicit Types v : World.

(** A program that answers with a page only. *)
Definition pages (w : Response) (p : prog Response) : Prop :=
  forall v v' r, run p v = (v', Ok r) -> Location r = Location w.

Lemma pages_addCSRFToken w data k :
  (forall w1 d, Location w1 = Location w -> pages w (k w1 d)) -> pages w (addCSRFToken h w data k).
Proof.
  intros Hk v v' r. unfold addCSRFToken. rewrite ok_bind. intros (x & v1 & _ & E).
  destruct x as [tok|e].
  - by eapply Hk, E.
  - by apply ok_ret in E as [_ ->].
Qed.
Lemma pages_bind {A} (p : prog A) w k : (forall a, pages w (k a)) -> pages w (p ≫= k).
Proof. intros Hk v v' r. rewrite ok_bind. intros (x & v1 & _ & E). by eapply Hk, E. Qed.
Lemma pages_ret w r : Location r = Location w -> pages w (mret r).
Proof. by intros Hr v v' r' [_ ->]%ok_ret. Qed.

Lemma pages_renderLoginPage w t ar msg : pages w (renderLoginPage h w t ar msg).
Proof. apply pages_addCSRFToken. intros. by apply pages_bind; intros; apply pages_ret. Qed.
Lemma pages_renderConsentPage w t ar s : pages w (renderConsentPage h w t ar s).
Proof. apply pages_addCSRFToken. intros. by apply pages_bind; intros; apply pages_ret. Qed.
Lemma pages_renderMFAPage w action hidden token msg :
  pages w (renderMFAPage h w action hidden token msg).
Proof. apply pages_addCSRFToken. intros. by apply pages_ret. Qed.
Lemma pages_startMFA w t u purpose action hidden :
  pages w (startMFA h w t u purpose action hidden).
Proof. apply pages_bind. intros. apply pages_renderMFAPage. Qed.
End Answering.

(** ** Steps that store no code *)

Section Frames.
Context `{Env} `{UuidLib} `{JwtLib} `{UnicodeTables} `{BcryptLib} `{AeadLib}.
Context `{RedirectLib} `{PendingJson}.
Context (h : OAuthHandler) (c : Request).
Context {X : Type} (f : DB -> X).

Lemma keeps_Log `{!Ignores f AuditLog} ctx e : keeps f (Log ctx e).
Proof. unfold Log, AuditLogRepo.Create. keeps. Qed.
Lemma keeps_record `{!Ignores f AuditLog} ev : keeps f (Authorize.record h c ev).
Proof. unfold Authorize.record, Record_, AuditTrail.write. keeps. by apply keeps_Log. Qed.
Lemma keeps_EndSession `{!Ignores f Session} t token : keeps f (EndSession t token).
Proof. unfold EndSession, SessionRepo.DeleteByTokenHash. keeps. Qed.
Lemma keeps_GetSession `{!Ignores f Session} t token : keeps f (GetSession t token).
Proof. unfold GetSession, SessionRepo.GetByTokenHash, SessionRepo.DeleteByTokenHash. keeps. Qed.
Lemma keeps_currentSession `{!Ignores f Session} t : keeps f (currentSession c t).
Proof. unfold currentSession. keeps; by (apply keeps_GetSession || apply keeps_EndSession). Qed.
Lemma keeps_deleteBrowserSession `{!Ignores f Session} t : keeps f (deleteBrowserSession c t).
Proof. unfold deleteBrowserSession. keeps. by apply keeps_EndSession. Qed.
Lemma keeps_CreateSession `{!Ignores f Session} d t u amr ip ua :
  keeps f (CreateSession d t u amr ip ua).
Proof. unfold CreateSession, randomToken, SessionRepo.Create. keeps. Qed.
Lemma keeps_acceptsSession ar s : keeps f (acceptsSession ar s).
Proof. unfold acceptsSession. keeps. Qed.
Lemma keeps_HasConsent t u cl sc : keeps f (HasConsent t u cl sc).
Proof. unfold HasConsent, ConsentRepo.Get. keeps. Qed.
Lemma keeps_GrantConsent `{!Ignores f Consent} t u cl sc : keeps f (GrantConsent t u cl sc).
Proof. unfold GrantConsent, ConsentRepo.Get, ConsentRepo.Upsert. keeps. Qed.
Lemma keeps_IsEnabled t u : keeps f (IsEnabled t u).
Proof. unfold IsEnabled, MFARepo.Get. keeps. Qed.
Lemma keeps_Authenticate `{!Ignores f User} t e p : keeps f (Authenticate t e p).
Proof.
  unfold Authenticate, RecordLoginAttempt, UserRepo.GetByEmail, UserRepo.Update. keeps.
Qed.
Lemma keeps_mfaRequired t u : keeps f (mfaRequired h t u).
Proof. unfold mfaRequired. keeps. apply keeps_IsEnabled. Qed.
Lemma keeps_recordLoginFailure `{!Ignores f AuditLog} t flow user err :
  keeps f (recordLoginFailure h c t flow user err).
Proof. by apply keeps_record. Qed.
Lemma keeps_recordMFAFailure `{!Ignores f AuditLog} t u flow res :
  keeps f (recordMFAFailure h c t u flow res).
Proof. by apply keeps_record. Qed.
Lemma keeps_mfa_check `{!Ignores f UserMFA, !Ignores f MFARecoveryCode} keys m code now :
  keeps f (check keys m code now).
Proof. unfold check, MFARepo.UseStep, MFARepo.UseRecoveryCode. keeps. Qed.
Lemma keeps_mfa_Verify `{!Ignores f UserMFA, !Ignores f MFARecoveryCode} keys t u code :
  keeps f (mfa_Verify keys t u code).
Proof. unfold mfa_Verify, MFARepo.Get, MFARepo.RecordFailure. keeps. by apply keeps_mfa_check. Qed.
Lemma keeps_parsePending s token t purpose : keeps f (parseMFAPendingToken s token t purpose).
Proof. unfold parseMFAPendingToken. keeps. Qed.
End Frames.

(** ** Evidence *)

Section Evidence.
Context `{Env} `{UuidLib} `{JwtLib} `{UnicodeTables} `{BcryptLib} `{AeadLib}.
Context `{RedirectLib} `{PendingJson}.
Context (h : OAuthHandler) (c : Request) (t : uuid).
Implicit Types v : World.

(** A live account that is not suspended. *)
Definition user_in_good_standing (db : DB) (id : uuid) : Prop :=
  exists u, u ∈ db_users db /\ us_TenantID u = t /\ us_ID u = id /\ us_DeletedAt u = None /\
    IsSuspended u = false.

(** The browser holds the token of this session. *)
Definition signed_in (db : DB) (s : Session) : Prop :=
  s ∈ db_sessions db /\ ss_TenantID s = t /\ Cookie c sessionCookieName <> "" /\
  ss_TokenHash s = hashToken (Cookie c sessionCookieName) /\
  (exists n, Session_IsExpired (env_now n) s = false) /\ user_in_good_standing db (ss_UserID s).

Lemma user_GetByID_ok id v v' u :
  run (UserService.GetByID t id) v = (v', Ok u) ->
  v' = tick v /\ u ∈ db_users (w_db v) /\ us_TenantID u = t /\ us_ID u = id /\ us_DeletedAt u = None.
Proof.
  unfold UserService.GetByID, UserRepo.GetByID.
  intros (_ & -> & (Hu & Hk & Hl)%first_where_Some)%ok_get_by. simpl in Hl.
  bool_simp. split_and!; try done. by destruct (us_DeletedAt u).
Qed.

Lemma currentSession_ok v v' s :
  run (currentSession c t) v = (v', Ok (Some s)) ->
  w_db v' = w_db v /\ signed_in (w_db v) s.
Proof.
  unfold currentSession. cbv zeta. destruct (_ ==? "") eqn:Ec; [done|]. bool_simp. intros E.
  apply ok_bind in E as (x & v1 & Ex & E). rewrite run_attempt in Ex. revert Ex.
  destruct (run (GetSession _ _) v) as [v2 [s'|e|]] eqn:Es; intros [= <- <-]; [|done].
  unfold GetSession in Es. rewrite (bool_decide_eq_false_2 _ Ec) in Es.
  apply ok_bind in Es as (s0 & v3 & (_ & -> & Hs)%ok_get_by & Es).
  apply ok_bind in Es as (now & v4 & [-> ->]%ok_Now & Es).
  destruct (Session_IsExpired _ s0) eqn:Hexp.
  { apply ok_bind in Es as (? & ? & _ & Es). done. }
  apply ok_ret in Es as [-> ->].
  apply ok_bind in E as (y & v5 & Ey & E). rewrite run_attempt in Ey. revert Ey.
  destruct (run (UserService.GetByID t _) _) as [v6 [u|e|]] eqn:Eu; intros [= <- <-].
  2: { destruct (negb _); [done|]. by apply ok_bind in E as (? & ? & _ & E). }
  destruct (IsSuspended u) eqn:Hsus.
  { by apply ok_bind in E as (? & ? & _ & E). }
  apply ok_ret in E as [-> [= ->]].
  apply user_GetByID_ok in Eu as (-> & Hu & Hut & Hui & Hud).
  apply first_where_Some in Hs as (Hin & Hk & _). bool_simp.
  split; [done|]. split_and!; try done; [by eexists|by exists u].
Qed.

(** The code of a request for the user of a session. *)
Definition code_for (ar : authorizationRequest) (s : Session) (ac : AuthorizationCode) : Prop :=
  ac_TenantID ac = t /\ ac_ClientID ac = cl_ID (az_client ar) /\ ac_UserID ac = ss_UserID s /\
  ac_RedirectURI ac = ar_RedirectURI (az_request ar) /\ ac_Scope ac = az_scope ar /\
  ac_CodeChallenge ac = ar_CodeChallenge (az_request ar) /\
  ac_CodeChallengeMethod ac = ar_CodeChallengeMethod (az_request ar) /\
  ac_Nonce ac = ar_Nonce (az_request ar) /\ ac_AuthTime ac = Some (ss_AuthTime s) /\
  ac_AMR ac = ss_AMR s /\ ac_UsedAt ac = None.

Lemma attempt_Generate ar s v v' x :
  let req := az_request ar in
  run (attempt (GenerateAuthorizationCode (oh_authService h) t (cl_ID (az_client ar))
    (ss_UserID s) (ar_RedirectURI req) (az_scope ar) (ar_CodeChallenge req)
    (ar_CodeChallengeMethod req) (ar_Nonce req) (ss_AuthTime s) (ss_AMR s))) v = (v', Ok x) ->
  match x with
  | inl ac => db_authCodes (w_db v') = db_authCodes (w_db v) ++ [ac] /\ code_for ar s ac
  | inr _ => db_authCodes (w_db v') = db_authCodes (w_db v)
  end.
Proof.
  cbv zeta. rewrite run_attempt. unfold GenerateAuthorizationCode. rewrite run_bind.
  destruct (run (wrap _ _) v) as [v1 [code|e|]] eqn:E1;
    (assert (Hc : db_authCodes (w_db v1) = db_authCodes (w_db v))
       by (revert E1; apply keeps_ok; unfold generateRandomString, randomToken; keeps));
    [|by intros [= <- <-]|done].
  rewrite run_bind, run_NewUUID. cbv beta iota. rewrite run_bind, run_Now. cbv beta iota zeta.
  rewrite run_bind. unfold AuthCodeRepo.Create. unfold wrap. rewrite !run_map_err.
  unfold Store.Insert. rewrite run_write.
  destruct (env_fault _); [by intros [= <- <-]|].
  destruct (insert_row _ _ _) as [l|] eqn:El; [|by intros [= <- <-]]. cbv beta iota.
  rewrite run_bind. destruct (slice_to code 8); [|done]. intros [= <- <-].
  unfold insert_row in El. destruct (existsb _ _); [done|]. injection El as <-.
  split; [|by split_and!]. by rewrite <-Hc.
Qed.
Lemma issue_answered w0 w ar s v v' r :
  Location w = Location w0 -> run (issueAuthorizationCode h w t ar s) v = (v', Ok r) ->
  answered h w0 (ar_RedirectURI (az_request ar)) (ar_State (az_request ar))
    (db_authCodes (w_db v)) (db_authCodes (w_db v')) r (code_for ar s).
Proof.
  intros Hw. unfold issueAuthorizationCode. cbv zeta. intros E.
  apply ok_bind in E as (x & v1 & Ex%attempt_Generate & E). destruct x as [ac|e].
  - destruct Ex as [Hc Hac].
    right. exists ac. destruct (url_SetQuery _ _) as [loc|] eqn:El; apply ok_ret in E as [-> ->].
    + split_and!; [done..|]. right. by rewrite Location_Redirect.
    + split_and!; [done..|]. by left.
  - apply ok_ret in E as [-> ->]. left. split; [done|]. by apply renderError_refused.
Qed.

(** The user's consent covers the scope. *)
Definition consented (db : DB) (u client : uuid) (scope : string) : Prop :=
  exists x, first_where (consent_key t u client) (db_consents db) = Some x /\
    forall sc, sc ∈ ParseScope scope -> sc ∈ ParseScope (cs_Scope x).

Lemma answered_mono w0 uri state codes codes' r (P Q : AuthorizationCode -> Prop) :
  (forall ac, P ac -> Q ac) -> answered h w0 uri state codes codes' r P ->
  answered h w0 uri state codes codes' r Q.
Proof. intros HPQ [?|(ac & ? & ? & ?)]; [by left|right; eauto]. Qed.

Lemma continue_answered w0 w ar s v v' r :
  Location w = Location w0 -> run (continueAuthorization h w t ar s) v = (v', Ok r) ->
  answered h w0 (ar_RedirectURI (az_request ar)) (ar_State (az_request ar))
    (db_authCodes (w_db v)) (db_authCodes (w_db v')) r (fun ac =>
      code_for ar s ac /\ prompts ar promptConsent = false /\
      consented (w_db v) (ss_UserID s) (cl_ID (az_client ar)) (az_scope ar)).
Proof.
  intros Hw E. unfold continueAuthorization in E.
  apply ok_bind in E as (x & v1 & Ex & E).
  pose proof (keeps_ok _ _ _ _ _ (keeps_attempt _ _ (keeps_HasConsent db_authCodes _ _ _ _)) Ex) as Hc.
  rewrite run_attempt in Ex. revert Ex.
  destruct (run (HasConsent _ _ _ _) v) as [v2 [granted|e|]] eqn:Eg; intros [= <- <-].
  2: { apply ok_ret in E as [-> ->]. left. split; [done|]. by apply renderError_refused. }
  destruct granted; cbn [negb orb] in E; [destruct (prompts ar promptConsent) eqn:Ep|].
  1, 3: destruct (prompts ar promptNone);
    [apply ok_ret in E as [-> ->]; left; split; [done|]; by apply renderError_refused|].
  1, 2: left; split; [rewrite <-Hc; eapply keeps_ok, E; apply keeps_renderConsentPage|];
    left; rewrite <-Hw; by eapply pages_renderConsentPage.
  apply (issue_answered w0) in E; [|done]. rewrite Hc in E.
  eapply answered_mono, E. intros ac Hac. split_and!; [done..|]. by apply HasConsent_true in Eg.
Qed.

(** The client a request names, and the request it sent. *)
Definition client_of (db : DB) (clientID : string) : option Client :=
  first_where (fun x => (cl_TenantID x ==? t) && (cl_ClientID x ==? clientID)) (db_clients db).

Lemma allowed_uri_elem l u : allowed_uri l u = true <-> u ∈ l.
Proof.
  induction l as [|x l IH]; simpl; [set_solver|]. case_bool_decide as E; set_solver.
Qed.

(** Past validation the request is sound and its redirect URI registered. *)
Definition validated (db : DB) (req : AuthorizeRequest) (ar : authorizationRequest) : Prop :=
  az_request ar = req /\ client_of db (ar_ClientID req) = Some (az_client ar) /\
  ar_RedirectURI req ∈ cl_RedirectURIs (az_client ar) /\
  sound_request (az_client ar) req (az_scope ar).

Lemma validate_ok w req k v v' r :
  run (validateAuthorizationRequest h w t req k) v = (v', Ok r) ->
  (w_db v' = w_db v /\ Location r = Location w) \/
  (exists client, client_of (w_db v) (ar_ClientID req) = Some client /\
     ar_RedirectURI req ∈ cl_RedirectURIs client /\ w_db v' = w_db v /\
     refused h w (ar_RedirectURI req) (ar_State req) r) \/
  exists ar v1, validated (w_db v) req ar /\ w_db v1 = w_db v /\
    check_request (az_client ar) req = inl ar /\ run (k ar) v1 = (v', Ok r).
Proof.
  unfold validateAuthorizationRequest. intros E.
  apply ok_bind in E as (x & v1 & Ex & E). rewrite run_attempt in Ex. revert Ex.
  destruct (run (ClientService.GetByClientID _ _) v) as [v2 [client|e|]] eqn:Ec; intros [= <- <-].
  2: { assert (Hdb : w_db v2 = w_db v) by (revert Ec; apply (keeps_ok (fun db => db));
         unfold ClientService.GetByClientID, ClientRepo.GetByClientID; keeps).
       apply ok_ret in E as [-> ->]. by left. }
  apply ok_get_by in Ec as (_ & -> & Hclient).
  apply ok_bind in E as (x & v1 & Ex & E). unfold ValidateRedirectURI in Ex.
  destruct (allowed_uri _ _) eqn:Ha; injection Ex as <- <-.
  2: { apply ok_ret in E as [-> ->]. by left. }
  apply allowed_uri_elem in Ha.
  destruct (check_request client req) as [ar|[code description]] eqn:Er.
  - right. right. apply check_request_ok in Er as Hr. destruct Hr as (Hreq & Hcl & Hs & _).
    subst client. exists ar, (tick v). by split_and!.
  - apply ok_ret in E as [-> ->]. right. left. exists client. split_and!; try done.
    by apply renderError_refused.
Qed.
(** ** Signing in *)

Lemma CreateSession_ok d u amr ip ua v v' token s :
  run (CreateSession d t u amr ip ua) v = (v', Ok (token, s)) ->
  ss_UserID s = u /\ ss_AMR s = amr /\ ss_TenantID s = t /\ ss_TokenHash s = hashToken token /\
  exists n, ss_AuthTime s = env_now n.
Proof.
  unfold CreateSession, randomToken, SessionRepo.Create. intros E.
  apply ok_bind in E as (tok & v1 & Et%ok_wrap & E).
  apply ok_bind in E as (now & v2 & [-> ->]%ok_Now & E).
  apply ok_bind in E as (id & v3 & [-> ->]%ok_NewUUID & E). cbv zeta in E.
  apply ok_bind in E as (s' & v4 & (_ & -> & _ & ->)%ok_wrap%ok_wrap%ok_Insert & E).
  apply ok_ret in E as [-> [= -> ->]]. split_and!; try done.
  by exists (w_step v1).
Qed.

Lemma keeps_eq {X} (f : DB -> X) {A} (p : prog A) v v' o :
  run p v = (v', o) -> keeps f p -> f (w_db v') = f (w_db v).
Proof. intros E Hp. exact (Hp _ _ _ E). Qed.

Lemma signIn_answered w0 w ar u amr v v' r :
  Location w = Location w0 -> run (signIn h c w t ar u amr) v = (v', Ok r) ->
  answered h w0 (ar_RedirectURI (az_request ar)) (ar_State (az_request ar))
    (db_authCodes (w_db v)) (db_authCodes (w_db v')) r (fun ac =>
      (exists s, ss_UserID s = u /\ ss_AMR s = amr /\ code_for ar s ac /\
         exists n, ss_AuthTime s = env_now n) /\
      prompts ar promptConsent = false /\
      consented (w_db v) u (cl_ID (az_client ar)) (az_scope ar)).
Proof.
  intros Hw. unfold signIn. intros E.
  apply ok_bind in E as (x1 & v1 & E1 & E).
  pose proof (keeps_eq db_authCodes _ _ _ _ E1 (keeps_deleteBrowserSession _ _ _)) as C1.
  pose proof (keeps_eq db_consents _ _ _ _ E1 (keeps_deleteBrowserSession _ _ _)) as G1.
  apply ok_bind in E as (x2 & v2 & E2 & E).
  pose proof (keeps_eq db_authCodes _ _ _ _ E2 (keeps_attempt _ _ (keeps_CreateSession _ _ _ _ _ _ _))) as C2.
  pose proof (keeps_eq db_consents _ _ _ _ E2 (keeps_attempt _ _ (keeps_CreateSession _ _ _ _ _ _ _))) as G2.
  destruct x2 as [[token s]|e].
  2: { apply ok_ret in E as [-> ->]. left. split; [congruence|]. by apply renderError_refused. }
  apply ok_bind in E as (x3 & v3 & E3 & E).
  pose proof (keeps_eq db_authCodes _ _ _ _ E3 (keeps_record _ _ _ _)) as C3.
  pose proof (keeps_eq db_consents _ _ _ _ E3 (keeps_record _ _ _ _)) as G3.
  apply (continue_answered w0) in E; [|done].
  rewrite C3, C2, C1 in E. eapply answered_mono, E. cbv beta. intros ac (Hac & Hp & Hg).
  rewrite run_attempt in E2. revert E2.
  destruct (run (CreateSession _ _ _ _ _ _) v1) as [v4 [[tok s']|e|]] eqn:Es; intros [= <- <- <-].
  apply CreateSession_ok in Es as (Hu & Ha & _ & _ & n & Hn).
  split; [exists s'; eauto|]. split; [done|]. unfold consented in *. by rewrite <-G1, <-G2, <-G3, <-Hu.
Qed.
(** The password the form brought is the account's. *)
Definition password_checked (db : DB) (u : uuid) : Prop :=
  exists user, user ∈ db_users db /\ email_key t (PostForm c "username") user = true /\
    us_ID user = u /\ us_DeletedAt user = None /\
    bcrypt_Compare (us_PasswordHash user) (PostForm c "password") = true /\
    exists n, IsLocked (env_now n) user = false.
(** The account has no confirmed second factor. *)
Definition no_second_factor (db : DB) (u : uuid) : Prop :=
  oh_mfaService h = None \/
  forall m, first_where (MFARepo.of_user t u) (db_mfa db) = Some m -> UserMFA_Enabled m = false.

Lemma Authenticate_ok v v' u :
  run (Authenticate t (PostForm c "username") (PostForm c "password")) v = (v', Ok u) ->
  password_checked (w_db v) (us_ID u).
Proof.
  unfold Authenticate. intros E.
  apply ok_bind in E as (u' & v1 & (_ & -> & (Hu & Hk & Hl)%first_where_Some)%ok_or_err%ok_get_by & E).
  apply ok_bind in E as (now & v2 & [-> ->]%ok_Now & E).
  destruct (IsLocked _ u') eqn:Hlock; [done|].
  destruct (bcrypt_Compare _ _) eqn:Hb; cbn [negb] in E;
    apply ok_bind in E as (? & v3 & _ & E); [|done].
  apply ok_ret in E as [_ ->]. exists u'. simpl in Hl. split_and!; try done.
  - by destruct (us_DeletedAt u').
  - by eexists.
Qed.

Lemma mfaRequired_false v v' u :
  run (mfaRequired h t u) v = (v', Ok false) -> no_second_factor (w_db v) u.
Proof.
  unfold mfaRequired, no_second_factor. destruct (oh_mfaService h); [|by left]. right.
  unfold IsEnabled, MFARepo.Get in *. intros m Hm.
  match goal with E : run _ v = _ |- _ => revert E end.
  rewrite run_bind, run_attempt, run_get_by. cbn [rows table_UserMFA]. rewrite Hm.
  destruct (env_fault _); [done|]. cbv beta iota. by intros [= _ ->].
Qed.

(** A form for the second factor brought the token of the password step and
    a code that verifies. *)
Definition second_step (purpose : string) (db : DB) (u : uuid) (method : string) : Prop :=
  (exists payload raw p n,
     Cut dot (PostForm c "mfa_token")
       = Some (payload, sign_pending (cfg_JWTSecret (oh_cfg h)) payload) /\
     base64_raw_url_decode payload = Some raw /\ pending_Unmarshal raw = Some p /\
     mp_TenantID p = uuid_String t /\ mp_Purpose p = purpose /\
     time_unix (env_now n) <= mp_Expires p /\ uuid_Parse (mp_UserID p) = Some u) /\
  (exists user n, user ∈ db_users db /\ us_TenantID user = t /\ us_ID user = u /\
     us_DeletedAt user = None /\ IsSuspended user = false /\ IsLocked (env_now n) user = false) /\
  exists keys, oh_mfaService h = Some keys /\
    factor_passed keys t u (PostForm c "code") method db.
Lemma completeMFA_ok w purpose action hidden restart k v v' r :
  (forall msg, pages w (restart msg)) -> (forall msg, keeps db_authCodes (restart msg)) ->
  run (completeMFA h c w t purpose action hidden restart k) v = (v', Ok r) ->
  (db_authCodes (w_db v') = db_authCodes (w_db v) /\ Location r = Location w) \/
  exists u method v1, second_step purpose (w_db v) u method /\
    db_authCodes (w_db v1) = db_authCodes (w_db v) /\ db_consents (w_db v1) = db_consents (w_db v) /\
    run (k u (AMRForSecondFactor method)) v1 = (v', Ok r).
Proof.
  intros Hpage Hkeep.
  assert (Hrestart : forall msg v1, db_authCodes (w_db v1) = db_authCodes (w_db v) ->
    run (restart msg) v1 = (v', Ok r) ->
    db_authCodes (w_db v') = db_authCodes (w_db v) /\ Location r = Location w).
  { intros msg v1 <- E. split; [by eapply keeps_eq|by eapply Hpage]. }
  unfold completeMFA. cbv zeta. intros E.
  apply ok_bind in E as (x & v1 & Ex & E). rewrite run_attempt in Ex. revert Ex.
  destruct (run (parseMFAPendingToken _ _ _ _) v) as [v2 [u|e|]] eqn:Ep; intros [= <- <-];
    pose proof (keeps_eq (fun db => db) _ _ _ _ Ep (keeps_parsePending _ _ _ _ _)) as Hv2; cbv beta in Hv2.
  2: { left. eapply Hrestart, E. by rewrite Hv2. }
  apply ok_bind in E as (x & v1 & Ex & E). rewrite run_attempt in Ex. revert Ex.
  destruct (run (UserService.GetByID _ _) v2) as [v3 [user|e|]] eqn:Eu; intros [= <- <-];
    pose proof (keeps_eq (fun db => db) _ _ _ _ Eu (keeps_user_GetByID _ _ _)) as Hv3; cbv beta in Hv3.
  2: { left. eapply Hrestart, E. by rewrite Hv3, Hv2. }
  apply ok_bind in E as (now & v4 & [-> ->]%ok_Now & E).
  destruct (IsSuspended user || _) eqn:Eg.
  { left. eapply Hrestart, E. simpl. by rewrite Hv3, Hv2. }
  apply orb_false_iff in Eg as [Hsus Hlock].
  destruct (oh_mfaService h) as [keys|] eqn:Hk; [|done].
  apply ok_bind in E as (x & v5 & Ex & E). 
  pose proof (keeps_eq db_authCodes _ _ _ _ Ex (keeps_attempt _ _ (keeps_mfa_Verify _ _ _ _ _))) as C5.
  pose proof (keeps_eq db_consents _ _ _ _ Ex (keeps_attempt _ _ (keeps_mfa_Verify _ _ _ _ _))) as G5.
  rewrite run_attempt in Ex. revert Ex.
  destruct (run (mfa_Verify _ _ _ _) _) as [v6 [method|e|]] eqn:Em; intros [= -> <-].
  - right. apply ok_bind in E as (x & v7 & Ex & E). exists u, method, v7.
    pose proof (keeps_eq db_authCodes _ _ _ _ Ex (keeps_record _ _ _ _)) as C7.
    pose proof (keeps_eq db_consents _ _ _ _ Ex (keeps_record _ _ _ _)) as G7.
    simpl in C5, G5. rewrite Hv3, Hv2 in C5, G5. split; [|split_and!; [congruence..|done]].
    apply parseMFAPendingToken_ok in Ep as (_ & -> & payload & raw & p & Hp).
    apply user_GetByID_ok in Eu as (-> & Hu & Hut & Hui & Hud). split; [|split].
    + by exists payload, raw, p, (w_step v).
    + exists user. eexists. by split_and!.
    + exists keys. split; [done|]. by apply mfa_Verify_ok in Em.
  - left. simpl in C5. rewrite Hv3, Hv2 in C5.
    destruct (errors_Is e ErrInvalidMFACode); [|destruct (errors_Is e ErrMFALocked)].
    1, 2: apply ok_bind in E as (? & v7 & Ex & E);
      pose proof (keeps_eq db_authCodes _ _ _ _ Ex (keeps_recordMFAFailure _ _ _ _ _ _ _)) as C7.
    + split; [|by eapply pages_renderMFAPage].
      rewrite <-C5, <-C7. eapply keeps_eq; [exact E|apply keeps_renderMFAPage].
    + eapply Hrestart, E. congruence.
    + destruct (errors_Is e ErrMFANotEnabled); by eapply Hrestart, E.
Qed.
End Evidence.
(** ** The endpoints *)

Inductive endpoint := AtAuthorize | AtLogin | AtLoginMFA | AtConsent.

Section Endpoints.
Context `{Env} `{UuidLib} `{JwtLib} `{UnicodeTables} `{BcryptLib} `{AeadLib}.
Context `{RedirectLib} `{PendingJson}.
Context (h : OAuthHandler) (c : Request).
Implicit Types v : World.

Definition serve (e : endpoint) (w : Response) : prog Response :=
  match e with
  | AtAuthorize => HandleAuthorize h c w
  | AtLogin => HandleLogin h c w
  | AtLoginMFA => HandleLoginMFA h c w
  | AtConsent => HandleConsent h c w
  end.
(** The authorization request: in the query of a GET of /oauth/authorize, in
    the form otherwise. *)
Definition request_at (e : endpoint) : AuthorizeRequest :=
  readAuthorizeRequest (match e with
                        | AtAuthorize => if q_Method c ==? "POST" then PostForm c else Query c
                        | _ => PostForm c
                        end).

(** Why the code of [ar] may be issued to the user and authentication
    methods of [ac], judged by the database [db] before and [db'] after. *)
Definition warranted (e : endpoint) (t : uuid) (db db' : DB) (ar : authorizationRequest)
    (ac : AuthorizationCode) : Prop :=
  (e <> AtAuthorize -> validCSRF h c = true) /\
  consented t (if e is AtConsent then db' else db) (ac_UserID ac) (cl_ID (az_client ar)) (az_scope ar) /\
  (e <> AtConsent -> prompts ar promptConsent = false) /\
  match e with
  | AtAuthorize =>
    exists s, signed_in c t db s /\ code_for t ar s ac /\
      prompts ar promptLogin = false /\ prompts ar promptSelectAccount = false /\
      (0 <= az_maxAge ar -> exists n, time_sub (env_now n) (ss_AuthTime s) <= az_maxAge ar)
  | AtConsent =>
    exists s, signed_in c t db s /\ code_for t ar s ac /\ PostForm c "decision" = "allow"
  | AtLogin =>
    password_checked c t db (ac_UserID ac) /\ no_second_factor h t db (ac_UserID ac) /\
    exists s, code_for t ar s ac /\ ss_AMR s = [AMRPassword] /\ exists n, ss_AuthTime s = env_now n
  | AtLoginMFA =>
    exists method, second_step h c t mfaPurposeLogin db (ac_UserID ac) method /\
    exists s, code_for t ar s ac /\ ss_AMR s = AMRForSecondFactor method /\
      exists n, ss_AuthTime s = env_now n
  end.

(** The response of one endpoint, once its request is known to be valid. *)
Definition outcome_at (e : endpoint) (t : uuid) (w : Response) (v v' : World) (r : Response)
    (ar : authorizationRequest) : Prop :=
  answered h w (ar_RedirectURI (request_at e)) (ar_State (request_at e))
    (db_authCodes (w_db v)) (db_authCodes (w_db v')) r
    (fun ac => warranted e t (w_db v) (w_db v') ar ac).

Lemma page_answered w uri state codes codes' r Q :
  codes' = codes -> Location r = Location w -> answered h w uri state codes codes' r Q.
Proof. intros -> Hr. left. split; [done|]. by left. Qed.

Lemma authorize_valid t w ar v v' r :
  az_request ar = request_at AtAuthorize ->
  run (session ← currentSession c t;
       session ← match session with
                 | Some session =>
                   accepted ← acceptsSession ar session;
                   mret (if accepted : bool then Some session else None)
                 | None => mret None
                 end;
       match session with
       | None =>
         if prompts ar promptNone then
           mret (fail_to h w (az_request ar) "login_required" "End-user authentication is required")
         else renderLoginPage h w t ar ""
       | Some session => continueAuthorization h w t ar session
       end) v = (v', Ok r) ->
  outcome_at AtAuthorize t w v v' r ar.
Proof.
  intros Hreq E. unfold outcome_at. rewrite <-Hreq.
  apply ok_bind in E as (s & v1 & E1 & E).
  pose proof (keeps_eq db_authCodes _ _ _ _ E1 (keeps_currentSession _ _ _)) as C1.
  apply ok_bind in E as (s' & v2 & E2 & E).
  assert (C2 : w_db v2 = w_db v1).
  { eapply (keeps_eq (fun db => db)); [exact E2|]. keeps. apply keeps_acceptsSession. }
  destruct s' as [s'|].
  - destruct s as [s|]; [|done]. apply currentSession_ok in E1 as [D1 Hs].
    apply ok_bind in E2 as (accepted & v3 & Ea & [-> Eq]%ok_ret).
    destruct accepted; [|done]. injection Eq as ->.
    apply (continue_answered _ _ w) in E; [|done]. rewrite C2, C1 in E.
    eapply answered_mono, E. cbv beta. intros ac (Hac & Hp & Hg).
    split; [done|]. split.
    { destruct Hac as (_ & _ & -> & _). unfold consented in *. by rewrite <-D1. }
    split; [done|]. exists s. split; [done|]. split; [done|].
    unfold acceptsSession in Ea. destruct (prompts ar promptLogin); [done|].
    destruct (prompts ar promptSelectAccount); [done|]. split; [done|]. split; [done|].
    cbn [orb] in Ea. intros Hmax. destruct (Z.ltb_spec (az_maxAge ar) 0); [lia|].
    apply ok_bind in Ea as (now & v4 & [_ ->]%ok_Now & [_ Ea]%ok_ret).
    exists (w_step v1). symmetry in Ea. by apply Z.leb_le in Ea.
  - destruct (prompts ar promptNone).
    + apply ok_ret in E as [-> ->]. left. split; [by rewrite C2, C1|]. by apply renderError_refused.
    + apply page_answered; [|by eapply pages_renderLoginPage].
      rewrite <-C1, <-C2. eapply keeps_eq; [exact E|apply keeps_renderLoginPage].
Qed.
Lemma login_valid t w ar v v' r :
  validCSRF h c = true -> az_request ar = request_at AtLogin ->
  run (user ← attempt (Authenticate t (PostForm c "username") (PostForm c "password"));
       match user with
       | inr err =>
         recordLoginFailure h c t mfaPurposeLogin (PostForm c "username") err ;;
         renderLoginPage h w t ar "Invalid email or password"
       | inl user =>
         required ← attempt (mfaRequired h t (us_ID user));
         match required with
         | inr _ => mret (server_error h w (az_request ar))
         | inl true =>
           Authorize.record h c counted ;;
           startMFA h w t (us_ID user) mfaPurposeLogin "/oauth/login/mfa" (authorizationFormData ar)
         | inl false => signIn h c w t ar (us_ID user) [AMRPassword]
         end
       end) v = (v', Ok r) ->
  outcome_at AtLogin t w v v' r ar.
Proof.
  intros Hcsrf Hreq E. unfold outcome_at. rewrite <-Hreq.
  apply ok_bind in E as (x & v1 & Ex & E).
  pose proof (keeps_eq db_authCodes _ _ _ _ Ex (keeps_attempt _ _ (keeps_Authenticate _ _ _ _))) as C1.
  pose proof (keeps_eq db_consents _ _ _ _ Ex (keeps_attempt _ _ (keeps_Authenticate _ _ _ _))) as G1.
  pose proof (keeps_eq db_mfa _ _ _ _ Ex (keeps_attempt _ _ (keeps_Authenticate _ _ _ _))) as M1.
  rewrite run_attempt in Ex. revert Ex.
  destruct (run (Authenticate _ _ _) v) as [v2 [user|err|]] eqn:Ea; intros [= -> <-].
  2: { apply ok_bind in E as (? & v3 & E3 & E).
       pose proof (keeps_eq db_authCodes _ _ _ _ E3 (keeps_recordLoginFailure _ _ _ _ _ _ _)) as C3.
       apply page_answered; [|by eapply pages_renderLoginPage].
       rewrite <-C1, <-C3. eapply keeps_eq; [exact E|apply keeps_renderLoginPage]. }
  apply ok_bind in E as (x & v3 & Ex & E).
  pose proof (keeps_eq (fun db => db) _ _ _ _ Ex (keeps_attempt _ _ (keeps_mfaRequired _ _ _ _))) as D3.
  cbv beta in D3. destruct x as [[]|e].
  - apply ok_bind in E as (? & v4 & E4 & E).
    pose proof (keeps_eq db_authCodes _ _ _ _ E4 (keeps_record _ _ _ _)) as C4.
    apply page_answered; [|by eapply pages_startMFA].
    rewrite <-C1, <-D3, <-C4. eapply keeps_eq; [exact E|apply keeps_startMFA].
  - rewrite run_attempt in Ex. revert Ex.
    destruct (run (mfaRequired _ _ _) v1) as [v4 [b|e|]] eqn:Em; intros [= -> ->].
    apply (signIn_answered _ _ _ w) in E; [|done]. rewrite D3, C1 in E.
    eapply answered_mono, E. cbv beta. intros ac ((s & Hu & Ha & Hac & n & Hn) & Hp & Hg).
    assert (Hac' := Hac). destruct Hac' as (_ & _ & Huser & _). rewrite Hu in Huser.
    apply Authenticate_ok in Ea. apply mfaRequired_false in Em. rewrite <-Huser in *.
    split; [done|]. split; [unfold consented in *; by rewrite <-G1|]. split; [done|].
    split; [done|]. split; [by unfold no_second_factor in *; rewrite <-M1|]. exists s. eauto.
  - apply ok_ret in E as [-> ->]. left. split; [by rewrite D3|]. by apply renderError_refused.
Qed.

Lemma login_mfa_valid t w ar v v' r :
  validCSRF h c = true -> az_request ar = request_at AtLoginMFA ->
  run (completeMFA h c w t mfaPurposeLogin "/oauth/login/mfa" (authorizationFormData ar)
         (fun msg => renderLoginPage h w t ar msg)
         (fun userID amr => signIn h c w t ar userID amr)) v = (v', Ok r) ->
  outcome_at AtLoginMFA t w v v' r ar.
Proof.
  intros Hcsrf Hreq E. unfold outcome_at. rewrite <-Hreq.
  apply completeMFA_ok in E as [[Hc Hl]|(u & method & v1 & Hstep & C1 & G1 & E)].
  - by apply page_answered.
  - apply (signIn_answered _ _ _ w) in E; [|done]. rewrite C1 in E.
    eapply answered_mono, E. cbv beta. intros ac ((s & Hu & Ha & Hac & n & Hn) & Hp & Hg).
    assert (Hac' := Hac). destruct Hac' as (_ & _ & Huser & _). rewrite Hu in Huser.
    rewrite <-Huser in *.
    split; [done|]. split; [unfold consented in *; by rewrite <-G1|]. split; [done|].
    exists method. split; [done|]. exists s. eauto.
  - intros. apply pages_renderLoginPage.
  - intros. apply keeps_renderLoginPage.
Qed.

Lemma consent_valid t w ar v v' r :
  validCSRF h c = true -> az_request ar = request_at AtConsent ->
  run (session ← currentSession c t;
    match session with
    | None => renderLoginPage h w t ar "Your session has expired — please sign in again"
    | Some session =>
      let event action success :=
        MkEvent action t (Some (ss_UserID session)) (Some (cl_ID (az_client ar))) ""
          success "" [("scope", MetaString (az_scope ar))] in
      if PostForm c "decision" !=? "allow" then
        Authorize.record h c (event AuditActionConsentDenied false) ;;
        mret (fail_to h w (az_request ar) "access_denied" "The user denied the request")
      else
      granted ← attempt (GrantConsent t (ss_UserID session) (cl_ID (az_client ar)) (az_scope ar));
      match granted with
      | inr _ => mret (server_error h w (az_request ar))
      | inl _ =>
        Authorize.record h c (event AuditActionConsentGranted true) ;;
        issueAuthorizationCode h w t ar session
      end
    end) v = (v', Ok r) ->
  outcome_at AtConsent t w v v' r ar.
Proof.
  intros Hcsrf Hreq E. unfold outcome_at. rewrite <-Hreq.
  apply ok_bind in E as (x & v1 & E1 & E).
  pose proof (keeps_eq db_authCodes _ _ _ _ E1 (keeps_currentSession _ _ _)) as C1.
  destruct x as [s|].
  2: { apply page_answered; [|by eapply pages_renderLoginPage].
       rewrite <-C1. eapply keeps_eq; [exact E|apply keeps_renderLoginPage]. }
  apply currentSession_ok in E1 as [D1 Hs]. cbv zeta in E.
  destruct (PostForm c "decision" !=? "allow") eqn:Hd.
  { apply ok_bind in E as (? & v2 & E2 & [-> ->]%ok_ret).
    pose proof (keeps_eq db_authCodes _ _ _ _ E2 (keeps_record _ _ _ _)) as C2.
    left. split; [congruence|]. by apply renderError_refused. }
  bool_simp. apply ok_bind in E as (x & v2 & E2 & E).
  pose proof (keeps_eq db_authCodes _ _ _ _ E2 (keeps_attempt _ _ (keeps_GrantConsent _ _ _ _ _))) as C2.
  destruct x as [u|e].
  2: { apply ok_ret in E as [-> ->]. left. split; [congruence|]. by apply renderError_refused. }
  apply ok_bind in E as (? & v3 & E3 & E).
  pose proof (keeps_eq db_authCodes _ _ _ _ E3 (keeps_record _ _ _ _)) as C3.
  pose proof (keeps_eq db_consents _ _ _ _ E3 (keeps_record _ _ _ _)) as G3.
  assert (G4 : db_consents (w_db v') = db_consents (w_db v3)).
  { eapply keeps_eq; [exact E|]. unfold issueAuthorizationCode, GenerateAuthorizationCode,
      generateRandomString, randomToken, AuthCodeRepo.Create. keeps. }
  rewrite run_attempt in E2. revert E2.
  destruct (run (GrantConsent _ _ _ _) v1) as [v4 [b|e|]] eqn:Eg; intros [= -> ->].
  apply (issue_answered _ _ w) in E; [|done]. rewrite C3, C2, C1 in E.
  eapply answered_mono, E. intros ac Hac. split; [done|]. split; [|split; [done|eauto]].
  assert (Hac' := Hac). destruct Hac' as (_ & _ & -> & _).
  apply GrantConsent_ok in Eg as (granted & Hgr & l & Hl & (y & Hy & Hky) & Hsc & _).
  unfold consented. rewrite G4, G3, Hl. simpl.
  destruct (first_where _ l) as [z|] eqn:Ez.
  - exists z. split; [done|]. apply first_where_Some in Ez as (Hz & Hkz & _).
    rewrite (Hsc z Hz Hkz), (ParseScope_granted _ _ _ _ _ _ Hgr). intros sc Hin. apply Hgr. by left.
  - rewrite first_where_None in Ez. by rewrite Ez in Hky.
Qed.

(** Every answer of the four endpoints: a page without a redirect, an error
    sent to a registered URI, or what [outcome_at] allows for a valid request. *)
Definition served (e : endpoint) (w : Response) (v v' : World) (r : Response) : Prop :=
  (db_authCodes (w_db v') = db_authCodes (w_db v) /\ Location r = Location w) \/
  exists t client, q_TenantID c = Some t /\
    client_of t (w_db v) (ar_ClientID (request_at e)) = Some client /\
    ar_RedirectURI (request_at e) ∈ cl_RedirectURIs client /\
    ((db_authCodes (w_db v') = db_authCodes (w_db v) /\
      refused h w (ar_RedirectURI (request_at e)) (ar_State (request_at e)) r) \/
     exists ar, check_request client (request_at e) = inl ar /\ az_client ar = client /\
       sound_request client (request_at e) (az_scope ar) /\ outcome_at e t w v v' r ar).

Lemma serve_valid e t k w v v' r :
  q_TenantID c = Some t ->
  (forall ar v1, az_request ar = request_at e -> run (k ar) v1 = (v', Ok r) ->
     outcome_at e t w v1 v' r ar) ->
  run (validateAuthorizationRequest h w t (request_at e) k) v = (v', Ok r) ->
  served e w v v' r.
Proof.
  intros Ht Hk [[Hdb Hl]|[(client & Hc & Hu & Hdb & Hr)|(ar & v1 & Har & Hdb & Hcheck & E)]]%validate_ok.
  - left. by rewrite Hdb.
  - right. exists t, client. split_and!; [done..|]. left. by rewrite Hdb.
  - right. destruct Har as (Hreq & Hc & Hu & Hs). exists t, (az_client ar). split_and!; [done..|].
    right. exists ar. split_and!; try done. specialize (Hk ar v1 Hreq E).
    unfold outcome_at in *. by rewrite <-Hdb.
Qed.

Lemma serve_outcome e w v v' r : run (serve e w) v = (v', Ok r) -> served e w v v' r.
Proof.
  assert (Hno : forall code d, run (mret (renderError h w code d "" "")) v = (v', Ok r) ->
    served e w v v' r) by (intros ?? [-> ->]%ok_ret; by left).
  destruct e; simpl serve;
    unfold HandleAuthorize, HandleLogin, HandleLoginMFA, HandleConsent, no_tenant, bad_csrf, GetTenantID;
    (destruct (q_TenantID c) as [t|] eqn:Ht; [|apply Hno]).
  2, 3, 4: destruct (validCSRF h c) eqn:Hcsrf; cbn [negb]; [|apply Hno].
  - apply (serve_valid AtAuthorize t); [done|]. intros ar v1. by apply authorize_valid.
  - apply (serve_valid AtLogin t); [done|]. intros ar v1. by apply login_valid.
  - apply (serve_valid AtLoginMFA t); [done|]. intros ar v1. by apply login_mfa_valid.
  - apply (serve_valid AtConsent t); [done|]. intros ar v1. by apply consent_valid.
Qed.
End Endpoints.

(** C6: no open redirect. Whatever the parameters, the authorization endpoint
    and its forms send the browser nowhere, or to the redirect URI of the
    request, which is then one the named client has registered; the redirect
    carries the issuer, the state of the request and nothing but an error or
    a code. *)
Theorem authorization_redirects `{Env} `{UuidLib} `{JwtLib} `{UnicodeTables} `{BcryptLib}
    `{AeadLib} `{RedirectLib} `{PendingJson} h c e w v v' r :
  let req := request_at c e in
  run (serve h c e w) v = (v', Ok r) -> Location w = "" ->
  Location r = "" \/
  exists t client params, q_TenantID c = Some t /\
    client_of t (w_db v) (ar_ClientID req) = Some client /\
    ar_RedirectURI req ∈ cl_RedirectURIs client /\
    url_SetQuery (ar_RedirectURI req) params = Some (Location r) /\
    (error_params (ar_State req) (cfg_ServerURL (oh_cfg h)) params \/
     exists ac, ac ∈ db_authCodes (w_db v') /\
       params = code_params (ar_State req) (cfg_ServerURL (oh_cfg h)) (ac_Code ac)).
Proof.
  intros req [[_ ->]|(t & client & Ht & Hc & Hu & Hr)]%serve_outcome Hw; [by left|].
  assert (Hrefused : refused h w (ar_RedirectURI req) (ar_State req) r -> Location r = "" \/
    exists params, url_SetQuery (ar_RedirectURI req) params = Some (Location r) /\
      error_params (ar_State req) (cfg_ServerURL (oh_cfg h)) params).
  { intros [->|(params & ? & ?)]; eauto. }
  destruct Hr as [[_ Hr]|(ar & _ & _ & _ & [[_ Hr]|(ac & Hc' & _ & Hr)])].
  1, 2: destruct (Hrefused Hr) as [?|(params & ? & ?)]; [by left|right; exists t, client, params; by eauto 8].
  destruct Hr as [->|Hr]; [by left|]. right.
  exists t, client, (code_params (ar_State req) (cfg_ServerURL (oh_cfg h)) (ac_Code ac)).
  split_and!; [done..|]. right. exists ac. split; [|done]. rewrite Hc'. set_solver.
Qed.

(** C5: an authorization code is stored only for a sound request of a
    registered client (response type, grant, scope, PKCE with S256 for a
    public client, redirect URI), with the values of the request, on behalf of
    a user the endpoint has reason to trust: the owner of a live session, the
    holder of the password when there is no second factor, or one who passed
    both; the forms only with a CSRF token, and always with the user's consent
    to the whole scope. At most one code is stored. *)
Theorem authorization_code_warranted `{Env} `{UuidLib} `{JwtLib} `{UnicodeTables} `{BcryptLib}
    `{AeadLib} `{RedirectLib} `{PendingJson} h c e w v v' r :
  run (serve h c e w) v = (v', Ok r) ->
  db_authCodes (w_db v') = db_authCodes (w_db v) \/
  exists t client ar ac, q_TenantID c = Some t /\
    db_authCodes (w_db v') = db_authCodes (w_db v) ++ [ac] /\
    client_of t (w_db v) (ar_ClientID (request_at c e)) = Some client /\
    ac_RedirectURI ac ∈ cl_RedirectURIs client /\ az_client ar = client /\
    check_request client (request_at c e) = inl ar /\
    sound_request client (request_at c e) (ac_Scope ac) /\
    warranted h c e t (w_db v) (w_db v') ar ac.
Proof.
  intros [[? _]|(t & client & Ht & Hc & Hu & [[? _]|(ar & Hcheck & Hcl & Hs & Hr)])]%serve_outcome;
    [by left..|].
  destruct Hr as [[? _]|(ac & Hcodes & Hwhy & _)]; [by left|]. right. exists t, client, ar, ac.
  assert (Hcode : exists s, code_for t ar s ac).
  { destruct Hwhy as (_ & _ & _ & Hwhy). destruct e; naive_solver. }
  destruct Hcode as (s & _ & _ & _ & Huri & Hsc & _). apply check_request_ok in Hcheck as Hreq.
  destruct Hreq as (Hreq & _). rewrite Hsc, Huri, Hreq. by split_and!.
Qed.

(** ** Witnesses *)

(** Parameters are appended unescaped. *)
Definition example_query (params : list (string * string)) : string :=
  fold_right (fun p s => p.1 +:+ "=" +:+ p.2 +:+ "&" +:+ s) "" params.
#[export] Instance example_redirect : RedirectLib := {
  url_SetQuery u params := Some (u +:+ "?" +:+ example_query params)
}.
#[export] Instance example_pending : PendingJson := {
  pending_Marshal p := mp_UserID p; pending_Unmarshal s := None
}.

(** The parameters of an authorization request of the example client. *)
Definition example_params : list (string * string) :=
  [("response_type", "code"); ("client_id", "client_app"); ("redirect_uri", "https://app/cb");
   ("scope", "read"); ("state", "xyz"); ("code_challenge", "abc"); ("code_challenge_method", "S256")].
Definition example_silent : Request :=
  example_request <| q_Query := example_params ++ [("prompt", "none")] |>.

(** A login form for a user who has consented earlier. *)
Definition example_csrf : string :=
  let value := base64_raw_url "nonce" in
  value +:+ "." +:+ signCSRFValue (cfg_JWTSecret example_config) value.
Definition example_login : Request :=
  example_request <| q_Method := "POST" |>
    <| q_PostForm := example_params ++ [("csrf_token", example_csrf); ("username", "ann@example.org");
                                        ("password", "right")] |>
    <| q_Cookies := [(csrfCookieName, example_csrf)] |>.
Definition login_world (status : UserStatus) : World := example_world (example_db
  <| db_users := [(example_user 0) <| us_Status := status |>] |>
  <| db_consents := [MkConsent 41 1 9 7 "read" epoch epoch] |>).

Lemma authorization_redirects_witness :
  exists v' r, run (serve example_handler example_silent AtAuthorize blank) (example_world example_db)
      = (v', Ok r) /\ Location r <> "" /\
    exists params, url_SetQuery "https://app/cb" params = Some (Location r).
Proof.
  destruct (run (serve example_handler example_silent AtAuthorize blank) (example_world example_db))
    as [v' [r| |]] eqn:E; [|exfalso; vm_compute in E; discriminate E..].
  exists v', r. split; [reflexivity|].
  assert (Hr : Location r <> "") by (vm_compute in E; injection E as _ <-; vm_compute; discriminate).
  split; [exact Hr|].
  destruct (authorization_redirects _ _ _ _ _ _ _ E eq_refl)
    as [Hl|(t & client & params & _ & _ & _ & Hp & _)]; [destruct (Hr Hl)|].
  exists params. exact Hp.
Defined.

(** The login form checks the password and the lock, never the suspension: a
    suspended user with a remembered consent leaves it with a code. *)
Lemma HandleLogin_suspended :
  IsSuspended ((example_user 0) <| us_Status := UserStatusSuspended |>) = true /\
  match run (serve example_handler example_login AtLogin blank) (login_world UserStatusSuspended) with
  | (v', Ok r) => map ac_UserID (db_authCodes (w_db v')) = [9; 9]%N /\ rs_Status r = StatusFound
  | _ => False
  end.
Proof. split; [reflexivity|]. vm_compute. split; reflexivity. Qed.

Lemma authorization_code_warranted_witness :
  exists v' r, run (serve example_handler example_login AtLogin blank) (login_world UserStatusActive)
      = (v', Ok r) /\
    exists client ar ac, db_authCodes (w_db v') = [example_code; ac] /\
      warranted example_handler example_login AtLogin 1 (w_db (login_world UserStatusActive))
        (w_db v') ar ac /\ sound_request client (request_at example_login AtLogin) (ac_Scope ac).
Proof.
  destruct (run (serve example_handler example_login AtLogin blank) (login_world UserStatusActive))
    as [v' [r| |]] eqn:E; [|exfalso; vm_compute in E; discriminate E..].
  exists v', r. split; [reflexivity|].
  assert (Hlen : length (db_authCodes (w_db v')) = 2%nat)
    by (vm_compute in E; injection E as <- _; vm_compute; reflexivity).
  destruct (authorization_code_warranted _ _ _ _ _ _ _ E)
    as [Hc|(t & client & ar & ac & [= <-] & Hc & _ & _ & _ & _ & Hs & Hw)].
  - exfalso. rewrite Hc in Hlen. discriminate Hlen.
  - exists client, ar, ac. split; [exact Hc|]. split; [exact Hw|exact Hs].
Defined.

(** max_age is multiplied in 64 bits: 9223372037 seconds become a negative
    duration, which stands for no limit, and a session of any age is accepted. *)
Lemma max_age_wraps :
  match check_request (example_client ["read"])
          (readAuthorizeRequest (get_field (example_params ++ [("max_age", "9223372037")]))) with
  | inl r => az_maxAge r < 0
  | inr _ => False
  end.
Proof. vm_compute. reflexivity. Qed.
