(* ===== verification/TokenEndpointSpec.v ===== *)
(** What the token endpoint and client authentication guarantee. *)
From S2P Require Import Prelude GoStd StringFacts Base64 Hash Models Effects Store Repos AccountRepos.
From S2P Require Import RbacRepos AuditRepo Libraries JwtKeys AuditTrail Http Scope AuthService DeviceFlow.
From S2P Require Import ClientService HandlerSecurity TokenEndpoint Examples Frame AuthSpec UserSpec.
From stdpp Require Import gmap.

Open Scope Z_scope.

(** ** Client authentication and its cache *)

Section Secrets.
Context `{Env} `{UuidLib} `{BcryptLib} (secrets : option clientSecretCache).
Implicit Types w : World.

(** Every cached entry is the MAC of a secret that bcrypt has accepted. *)
Definition cache_sound (w : World) : Prop :=
  match secrets with
  | None => True
  | Some c => forall id hash m e, w_secrets w !! (id, hash) = Some (m, e) ->
      exists secret, bcrypt_Compare hash secret = true /\ m = mac c secret
  end.
Definition cache_bounded (w : World) : Prop :=
  Z.of_nat (size (w_secrets w)) <= maxCachedClientSecrets.

Lemma remember_entry_size k e m :
  Z.of_nat (size m) <= maxCachedClientSecrets ->
  Z.of_nat (size (remember_entry k e m)) <= maxCachedClientSecrets.
Proof.
  unfold remember_entry. intros Hm. destruct (Z.leb_spec maxCachedClientSecrets (Z.of_nat (size m))).
  - rewrite insert_empty, map_size_singleton. unfold maxCachedClientSecrets. lia.
  - rewrite map_size_insert. destruct (m !! k); simpl; lia.
Qed.

Lemma remember_entry_lookup k e m k' x :
  remember_entry k e m !! k' = Some x -> (k' = k /\ x = e) \/ m !! k' = Some x.
Proof.
  unfold remember_entry. intros [[<- <-]|[_ Hx]]%lookup_insert_Some; [by left|].
  right. by destruct (_ <=? _); [rewrite lookup_empty in Hx|].
Qed.

(** How a request proves to be from [client]. *)
Definition proven (client : Client) (secret : string) : Prop :=
  if cl_IsPublic client then secret = ""
  else secret <> "" /\ cl_ClientSecret client <> "" /\
       exists s, bcrypt_Compare (cl_ClientSecret client) s = true /\
         (s = secret \/ exists c, secrets = Some c /\ mac c s = mac c secret).

Lemma verified_ok id hash secret w w' b :
  run (verified secrets id hash secret) w = (w', Ok b) ->
  w_db w' = w_db w /\ w_secrets w' = w_secrets w /\
  (b = true -> exists c e, secrets = Some c /\ w_secrets w !! (id, hash) = Some (mac c secret, e)).
Proof.
  unfold verified. destruct secrets as [c|]; [|by intros [-> ->]%ok_ret]. intros E.
  apply ok_bind in E as (x & w1 & Ex & E). apply ok_WithSecrets in Ex as [-> ->].
  destruct (w_secrets w !! (id, hash)) as [[m e]|] eqn:Hm; [|by apply ok_ret in E as [-> ->]].
  apply ok_bind in E as (now & w2 & [-> ->]%ok_Now & E).
  destruct (negb _); apply ok_ret in E as [-> ->]; [done|]. split_and!; try done.
  intros Hc%bool_decide_eq_true. subst m. eauto.
Qed.

Lemma remember_ok id hash secret w w' x :
  cache_sound w -> bcrypt_Compare hash secret = true ->
  run (remember secrets id hash secret) w = (w', Ok x) ->
  w_db w' = w_db w /\ cache_sound w' /\ (cache_bounded w -> cache_bounded w').
Proof.
  unfold remember, cache_sound, cache_bounded. destruct secrets as [c|].
  2: by intros _ _ [-> ->]%ok_ret.
  intros Hs Hb E. apply ok_bind in E as (now & w1 & [-> ->]%ok_Now & E).
  apply ok_WithSecrets in E as [-> ->]. cbn. split; [done|]. split.
  - intros id' hash' m e [[[= -> ->] [= -> ->]]|He]%remember_entry_lookup; [eauto|by eapply Hs].
  - apply remember_entry_size.
Qed.

Lemma ValidateClient_ok t clientID secret w w' client :
  cache_sound w -> run (ValidateClient secrets t clientID secret) w = (w', Ok client) ->
  w_db w' = w_db w /\ client ∈ db_clients (w_db w) /\ cl_TenantID client = t /\
  cl_ClientID client = clientID /\ cl_DeletedAt client = None /\ proven client secret /\
  cache_sound w' /\ (cache_bounded w -> cache_bounded w').
Proof.
  intros Hs. unfold ValidateClient, proven. intros E.
  apply ok_bind in E as (cl & w1 & (_ & -> & Hc)%ok_or_err%ok_get_by & E).
  apply first_where_Some in Hc as (Hin & Hk & Hl). bool_simp. simpl in Hl.
  assert (Hd : cl_DeletedAt cl = None) by (by destruct (cl_DeletedAt cl)).
  destruct (cl_IsPublic cl) eqn:Hp.
  { destruct (secret !=? "") eqn:Es; [done|]. bool_simp. apply ok_ret in E as [-> ->].
    rewrite Hp. by split_and!. }
  destruct (_ || _) eqn:Ee; [done|]. bool_simp.
  apply ok_bind in E as (cached & w2 & Ev & E).
  apply verified_ok in Ev as (Hdb & Hsec & Hv).
  assert (Hs2 : cache_sound w2).
  { unfold cache_sound in *. rewrite Hsec. exact Hs. }
  destruct cached.
  - apply ok_ret in E as [-> ->]. rewrite Hp. destruct (Hv eq_refl) as (c & e & Hc & He).
    assert (Hs' := Hs). unfold cache_sound in Hs'. rewrite Hc in Hs'. destruct (Hs' _ _ _ _ He) as (s & Hb & Hm). unfold cache_bounded. rewrite Hsec.
    split_and!; try done. exists s. split; [done|]. right. by exists c.
  - destruct (bcrypt_Compare _ _) eqn:Hb; [|done]. cbn [negb] in E.
    apply ok_bind in E as (x & w3 & Er & [-> ->]%ok_ret).
    apply remember_ok in Er as (Hdb3 & Hs3 & Hb3); [|done..]. rewrite Hp, Hdb3, Hdb.
    split_and!; try done.
    + exists secret. split; [done|]. by left.
    + intros Hc. apply Hb3. unfold cache_bounded. by rewrite Hsec.
Qed.
End Secrets.

(** ** The token endpoint *)

Section Endpoint.
Context `{Env} `{UuidLib} `{JwtLib} `{UnicodeTables} `{BcryptLib}.
Context (h : OAuthHandler) (c : Request).
Implicit Types v : World.

Definition is_token (b : Body) : bool :=
  match b with JSON (PToken _) | JSON (PTokenExchange _) => true | _ => false end.

(** What the grant type of the request asks of the token service, on behalf
    of the authenticated client. *)
Definition grant_run (t : uuid) (client : Client) (v v' : World) (b : Body) : Prop :=
  let s := oh_authService h in
  let g := PostForm c "grant_type" in
  let id := uuid_String (cl_ID client) in
  (g = GrantTypeAuthorizationCode /\ exists resp, b = JSON (PToken resp) /\
     run (ExchangeAuthorizationCode s t (PostForm c "code") id "" (PostForm c "redirect_uri")
            (PostForm c "code_verifier")) v = (v', Ok resp)) \/
  (g = "refresh_token" /\ exists resp, b = JSON (PToken resp) /\
     run (RefreshTokens s t (PostForm c "refresh_token") id (PostForm c "scope")) v = (v', Ok resp)) \/
  (g = "client_credentials" /\ cl_IsPublic client = false /\ exists resp scope,
     b = JSON (PToken resp) /\ ValidateScopeForClient client (PostForm c "scope") = inl scope /\
     run (GenerateClientCredentialsTokens s t client scope) v = (v', Ok resp)) \/
  (g = GrantTypeDeviceCode /\ exists resp, b = JSON (PToken resp) /\
     run (ExchangeDeviceCode s t client (PostForm c "device_code")) v = (v', Ok resp)) \/
  (g = GrantTypeTokenExchange /\ cl_IsPublic client = false /\ exists resp,
     b = JSON (PTokenExchange resp) /\
     run (ExchangeToken s t client (PostForm c "subject_token") (PostForm c "subject_token_type")
            (PostForm c "scope")) v = (v', Ok resp)).

(** A token response is preceded by client authentication. *)
Lemma authenticateClient_ok w t k v v' r :
  is_token (rs_Body w) = false -> is_token (rs_Body r) = true ->
  run (authenticateClient h c w t k) v = (v', Ok r) ->
  exists id secret client v1, clientCredentialsFromRequest c = Some (id, secret) /\
    run (ValidateClient (oh_secrets h) t id secret) v = (v1, Ok client) /\
    run (k client) v1 = (v', Ok r).
Proof.
  intros Hw Hr. unfold authenticateClient.
  destruct (clientCredentialsFromRequest c) as [[id secret]|] eqn:Ec.
  2: { intros [-> ->]%ok_ret. done. }
  intros E. apply ok_bind in E as (x & v1 & Ex & E). rewrite run_attempt in Ex. revert Ex.
  destruct (run (ValidateClient _ _ _ _) v) as [v2 [client|e|]] eqn:Ev; intros [= -> <-].
  - by exists id, secret, client, v1.
  - apply ok_ret in E as [-> ->]. done.
Qed.

Lemma require_grant_ok w client grant name k v v' r :
  is_token (rs_Body r) = true -> run (require_grant w client grant name k) v = (v', Ok r) ->
  HasGrantType client grant = true /\ run k v = (v', Ok r).
Proof.
  intros Hr. unfold require_grant. destruct (HasGrantType client grant); [done|].
  intros [-> ->]%ok_ret. done.
Qed.

(** The handlers end by turning the service's answer into a response. *)
Lemma answer_ok {A} (p : prog A) (f : A + error -> Response) v v' r :
  run (x ← attempt p; mret (f x)) v = (v', Ok r) ->
  (exists a, run p v = (v', Ok a) /\ r = f (inl a)) \/ (exists e, r = f (inr e)).
Proof.
  intros E. apply ok_bind in E as (x & v1 & Ex & [-> ->]%ok_ret). rewrite run_attempt in Ex. revert Ex.
  destruct (run p v) as [v2 [a|e|]]; intros [= <- <-]; eauto.
Qed.

Lemma HandleToken_ok w v v' r :
  is_token (rs_Body w) = false -> is_token (rs_Body r) = true ->
  run (HandleToken h c w) v = (v', Ok r) ->
  exists t id secret client v1, q_TenantID c = Some t /\
    clientCredentialsFromRequest c = Some (id, secret) /\
    run (ValidateClient (oh_secrets h) t id secret) v = (v1, Ok client) /\
    HasGrantType client (PostForm c "grant_type") = true /\
    grant_run t client v1 v' (rs_Body r).
Proof.
  intros Hw Hr. unfold HandleToken, GetTenantID. cbv zeta.
  destruct (q_TenantID c) as [t|]; [|by intros [-> ->]%ok_ret].
  destruct (_ ==? "authorization_code") eqn:G1; [|destruct (_ ==? "refresh_token") eqn:G2;
    [|destruct (_ ==? "client_credentials") eqn:G3; [|destruct (_ ==? GrantTypeDeviceCode) eqn:G4;
    [|destruct (_ ==? GrantTypeTokenExchange) eqn:G5; [|by intros [-> ->]%ok_ret]]]]];
    bool_simp; intros E.
  - apply authenticateClient_ok in E as (id & secret & client & v1 & Hc & Hv & E); [|done..].
    apply require_grant_ok in E as [Hg E]; [|done]. apply answer_ok in E as [(a & E & ->)|[e ->]]; [|done].
    exists t, id, secret, client, v1. rewrite G1. split_and!; try done. left. eauto.
  - apply authenticateClient_ok in E as (id & secret & client & v1 & Hc & Hv & E); [|done..].
    apply require_grant_ok in E as [Hg E]; [|done]. apply answer_ok in E as [(a & E & ->)|[e ->]].
    2: by destruct (e ==? _).
    exists t, id, secret, client, v1. rewrite G2. split_and!; try done. right. left. eauto.
  - apply authenticateClient_ok in E as (id & secret & client & v1 & Hc & Hv & E); [|done..].
    destruct (cl_IsPublic client) eqn:Hp; [by apply ok_ret in E as [-> ->]|].
    apply require_grant_ok in E as [Hg E]; [|done].
    destruct (ValidateScopeForClient client _) as [scope|] eqn:Hs; [|by apply ok_ret in E as [-> ->]].
    apply answer_ok in E as [(a & E & ->)|[e ->]]; [|done].
    exists t, id, secret, client, v1. rewrite G3. split_and!; try done. do 2 right. left. eauto 8.
  - unfold handleDeviceCodeGrant in E. cbv zeta in E.
    destruct (_ ==? ""); [by apply ok_ret in E as [-> ->]|].
    apply authenticateClient_ok in E as (id & secret & client & v1 & Hc & Hv & E); [|done..].
    apply require_grant_ok in E as [Hg E]; [|done]. apply answer_ok in E as [(a & E & ->)|[e ->]].
    2: unfold device_error in Hr; repeat destruct (e ==? _); done.
    exists t, id, secret, client, v1. rewrite G4. split_and!; try done. do 3 right. left. eauto.
  - apply authenticateClient_ok in E as (id & secret & client & v1 & Hc & Hv & E); [|done..].
    destruct (cl_IsPublic client) eqn:Hp; [by apply ok_ret in E as [-> ->]|].
    apply require_grant_ok in E as [Hg E]; [|done]. cbv zeta in E.
    destruct (_ || _); [by apply ok_ret in E as [-> ->]|].
    destruct (_ && _); [by apply ok_ret in E as [-> ->]|].
    apply answer_ok in E as [(a & E & ->)|[e ->]]; [|by destruct (e ==? _)].
    exists t, id, secret, client, v1. rewrite G5. split_and!; try done. do 4 right. eauto.
Qed.
(** ** Responses are not stored by caches *)

Definition no_store (r : Response) : Prop := get_field (rs_Header r) "Cache-Control" = "no-store".
Definition answers (Q : Response -> Prop) (p : prog Response) : Prop :=
  forall v v' r, run p v = (v', Ok r) -> Q r.

Lemma answers_ret (Q : Response -> Prop) r : Q r -> answers Q (mret r).
Proof. by intros Hr v v' r' [-> ->]%ok_ret. Qed.
Lemma answers_bind {A} Q (p : prog A) k : (forall a, answers Q (k a)) -> answers Q (p ≫= k).
Proof. intros Hk v v' r E. apply ok_bind in E as (a & v1 & _ & E). by eapply Hk. Qed.
Lemma answers_match {A B} Q (x : A + B) (f : A -> prog Response) g :
  (forall a, answers Q (f a)) -> (forall b, answers Q (g b)) ->
  answers Q (match x with inl a => f a | inr b => g b end).
Proof. by destruct x. Qed.

Lemma Header_no_store w k x : k <> "Cache-Control" -> no_store w -> no_store (Header w k x).
Proof.
  intros Hk. unfold no_store, Header. simpl. rewrite bool_decide_eq_false_2 by done.
  induction (rs_Header w) as [|[k' y] l IH]; [done|]. simpl. destruct (k' ==? k) eqn:E; simpl.
  - bool_simp. subst k'. rewrite bool_decide_eq_false_2 by done. exact IH.
  - by destruct (k' ==? "Cache-Control").
Qed.

Lemma authenticateClient_no_store w t k :
  no_store w -> (forall client, answers no_store (k client)) ->
  answers no_store (authenticateClient h c w t k).
Proof.
  intros Hw Hk. unfold authenticateClient.
  destruct (clientCredentialsFromRequest c) as [[id secret]|].
  - apply answers_bind. intros [client|e]; [apply Hk|]. by apply answers_ret, Header_no_store.
  - by apply answers_ret, Header_no_store.
Qed.
Lemma require_grant_no_store w client grant name k :
  no_store w -> answers no_store k -> answers no_store (require_grant w client grant name k).
Proof. intros Hw Hk. unfold require_grant. destruct (negb _); [by apply answers_ret|done]. Qed.

Lemma HandleToken_no_store w : answers no_store (HandleToken h c w).
Proof.
  unfold HandleToken. cbv zeta. assert (Hw : no_store (noStore w)) by reflexivity.
  revert Hw. generalize (noStore w). intros w' Hw.
  destruct (GetTenantID c) as [t|]; [|by apply answers_ret].
  repeat case_bool_decide; [| | | | |by apply answers_ret].
  - apply authenticateClient_no_store; [done|]. intros client. apply require_grant_no_store; [done|].
    apply answers_bind. intros [a|e]; by apply answers_ret.
  - apply authenticateClient_no_store; [done|]. intros client. apply require_grant_no_store; [done|].
    apply answers_bind. intros [a|e]; apply answers_ret; [done|by case_bool_decide].
  - apply authenticateClient_no_store; [done|]. intros client.
    destruct (cl_IsPublic client); [by apply answers_ret|]. apply require_grant_no_store; [done|].
    apply answers_match; [|intros; by apply answers_ret]. intros scope.
    apply answers_bind. intros [a|e]; by apply answers_ret.
  - unfold handleDeviceCodeGrant. cbv zeta. case_bool_decide; [by apply answers_ret|].
    apply authenticateClient_no_store; [done|]. intros client. apply require_grant_no_store; [done|].
    apply answers_bind. intros [a|e]; apply answers_ret; [done|].
    unfold device_error. by repeat case_bool_decide.
  - apply authenticateClient_no_store; [done|]. intros client.
    destruct (cl_IsPublic client); [by apply answers_ret|]. apply require_grant_no_store; [done|].
    cbv zeta. destruct (_ || _); [by apply answers_ret|]. destruct (_ && _); [by apply answers_ret|].
    apply answers_bind. intros [a|e]; apply answers_ret; [done|by case_bool_decide].
Qed.

(** The code or refresh token of the request belongs to the client. *)
Definition own_grant (db : DB) (t : uuid) (client : Client) : Prop :=
  (PostForm c "grant_type" = GrantTypeAuthorizationCode -> exists ac, ac ∈ db_authCodes db /\
     ac_TenantID ac = t /\ ac_Code ac = PostForm c "code" /\ ac_UsedAt ac = None /\
     ac_ClientID ac = cl_ID client /\ ac_RedirectURI ac = PostForm c "redirect_uri") /\
  (PostForm c "grant_type" = "refresh_token" -> exists rt, rt ∈ db_refreshTokens db /\
     is_refresh t (PostForm c "refresh_token") rt /\ rt_RevokedAt rt = None /\
     rt_ClientID rt = cl_ID client).

Lemma grant_run_own `{!UuidLaws} t client v v' b :
  grant_run t client v v' b -> own_grant (w_db v) t client.
Proof.
  intros Hg. split; intros Heq.
  - destruct Hg as [[_ (resp & _ & E)]|[[G _]|[[G _]|[[G _]|[G _]]]]];
      [|rewrite Heq in G; discriminate G..].
    apply exchange_ok in E as (ac & cl & n & acc & ref & _ & _ & Hin & [Ht Hc] & Hu & _ & _ &
      Hid%uuid_String_inj & Huri & _). exists ac. by split_and!.
  - destruct Hg as [[G _]|[[_ (resp & _ & E)]|[[G _]|[[G _]|[G _]]]]];
      [rewrite Heq in G; discriminate G| |rewrite Heq in G; discriminate G..].
    apply refresh_ok in E as (rt & cl & n & m & acc & ref & _ & _ & Hin & Ht & Hu & _ & _ &
      Hid%uuid_String_inj & _). exists rt. by split_and!.
Qed.
End Endpoint.

(** C10: the token endpoint issues tokens only to a client that has proven
    itself, is registered for the grant type of the request, and (for
    client_credentials and token exchange) is confidential; the tokens are
    what the token service gave for that client, and a redeemed code or
    refresh token was that client's own. No response of the endpoint may be
    cached, and the database is untouched before the service is called. *)
Theorem HandleToken_sound `{Env} `{UuidLaws} `{JwtLib} `{UnicodeTables} `{BcryptLib} h c w v v' r :
  cache_sound (oh_secrets h) v -> is_token (rs_Body w) = false ->
  run (HandleToken h c w) v = (v', Ok r) ->
  no_store r /\
  (is_token (rs_Body r) = true ->
   exists t id secret client v1, q_TenantID c = Some t /\
     clientCredentialsFromRequest c = Some (id, secret) /\
     client ∈ db_clients (w_db v) /\ cl_TenantID client = t /\ cl_ClientID client = id /\
     cl_DeletedAt client = None /\ proven (oh_secrets h) client secret /\
     HasGrantType client (PostForm c "grant_type") = true /\ own_grant c (w_db v) t client /\
     w_db v1 = w_db v /\ grant_run h c t client v1 v' (rs_Body r)).
Proof.
  intros Hcache Hw E. split; [by eapply HandleToken_no_store|]. intros Hr.
  apply HandleToken_ok in E as (t & id & secret & client & v1 & Ht & Hc & Hv & Hg & Hrun); [|done..].
  apply ValidateClient_ok in Hv as (Hdb & Hin & Hct & Hid & Hd & Hp & _ & _); [|done].
  exists t, id, secret, client, v1. rewrite <-Hdb at 2.
  split_and!; try done. by eapply grant_run_own.
Qed.

(** C11: a client is authenticated only if it is stored, live and public with
    no secret sent, or confidential with a secret that bcrypt accepts for its
    stored hash, or one with the same MAC as a secret that bcrypt accepted
    for that hash. The cache keeps only accepted secrets, for the hash they
    were accepted for, and at most ten thousand. *)
Theorem ValidateClient_sound `{Env} `{UuidLib} `{BcryptLib} secrets t clientID secret w w' client :
  cache_sound secrets w -> run (ValidateClient secrets t clientID secret) w = (w', Ok client) ->
  w_db w' = w_db w /\ client ∈ db_clients (w_db w) /\ cl_TenantID client = t /\
  cl_ClientID client = clientID /\ cl_DeletedAt client = None /\ proven secrets client secret /\
  cache_sound secrets w' /\ (cache_bounded w -> cache_bounded w').
Proof. apply ValidateClient_ok. Qed.

(** ** Witnesses *)

Definition example_cache : clientSecretCache := MkClientSecretCache "k" clientSecretCacheTTL.

(** The public example client redeems its code. *)
Definition example_token_request : Request := example_request
  <| q_Method := "POST" |>
  <| q_PostForm := [("grant_type", "authorization_code"); ("client_id", "client_app");
       ("code", "code"); ("redirect_uri", "https://app/cb"); ("code_verifier", example_verifier)] |>.

Lemma HandleToken_sound_witness :
  exists v' r client, run (HandleToken example_handler example_token_request blank)
      (example_world example_db) = (v', Ok r) /\ is_token (rs_Body r) = true /\ no_store r /\
    client ∈ db_clients example_db /\ own_grant example_token_request example_db 1 client.
Proof.
  destruct (run (HandleToken example_handler example_token_request blank) (example_world example_db))
    as [v' [r| |]] eqn:E; [|exfalso; vm_compute in E; discriminate E..].
  assert (Hr : is_token (rs_Body r) = true)
    by (vm_compute in E; injection E as _ <-; vm_compute; reflexivity).
  destruct (HandleToken_sound example_handler example_token_request blank (example_world example_db)
    v' r I eq_refl E) as [Hn Hs].
  destruct (Hs Hr) as (t & id & secret & client & v1 & [= <-] & _ & Hin & _ & _ & _ & _ & _ & Hown & _).
  exists v', r, client. split; [reflexivity|]. split; [exact Hr|]. split; [exact Hn|].
  split; [exact Hin|exact Hown].
Defined.

(** A confidential client authenticates with its secret; the accepted secret
    is cached. *)
Definition confidential_world : World := example_world (empty_db
  <| db_clients := [(example_client ["read"]) <| cl_IsPublic := false |>
                                              <| cl_ClientSecret := "hash:secret" |>] |>).

Lemma ValidateClient_sound_witness :
  exists w' client,
    run (ValidateClient (Some example_cache) 1 "client_app" "secret") confidential_world
      = (w', Ok client) /\
    proven (Some example_cache) client "secret" /\ cache_sound (Some example_cache) w' /\
    cache_bounded w'.
Proof.
  destruct (run (ValidateClient (Some example_cache) 1 "client_app" "secret") confidential_world)
    as [w' [client| |]] eqn:E; [|exfalso; vm_compute in E; discriminate E..].
  assert (Hc : cache_sound (Some example_cache) confidential_world).
  { intros id hash m e He. vm_compute in He. discriminate He. }
  assert (Hb : cache_bounded confidential_world) by (vm_compute; discriminate).
  destruct (ValidateClient_sound _ _ _ _ _ _ _ Hc E) as (_ & _ & _ & _ & _ & Hp & Hs & Hb').
  exists w', client. split; [reflexivity|]. split; [exact Hp|]. split; [exact Hs|exact (Hb' Hb)].
Defined.
