(* ===== verification/IdempotencySpec.v ===== *)
(** What the idempotency middleware guarantees. *)
From S2P Require Import Prelude GoStd StringFacts Hash Models Effects Store AccountRepos Libraries.
From S2P Require Import AuditTrail Http Middleware Idempotency Frame Examples.
From stdpp Require Import gmap.

Open Scope Z_scope.

(** ** Claiming a key *)

Definition idem_key (k : IdempotencyKey) : uuid * string * string :=
  (ik_TenantID k, ik_Principal k, ik_Key k).
(** The unique index. *)
Definition idem_unique (l : list IdempotencyKey) : Prop := NoDup (map idem_key l).

(** The record that holds the key of [r]. *)
Definition holder (r : IdempotencyKey) (l : list IdempotencyKey) : option IdempotencyKey :=
  List.find (row_conflict r) l.
(** The table once [r] has claimed its key. *)
Definition claimed (r : IdempotencyKey) (l : list IdempotencyKey) : list IdempotencyKey :=
  if existsb (row_conflict r) l then map (fun k => if row_conflict r k then r else k) l else l ++ [r].

Lemma conflict_idem_key r k : row_conflict r k = true <-> idem_key k = idem_key r.
Proof.
  simpl. unfold idem_key. rewrite !andb_true_iff, !bool_decide_eq_true. intuition congruence.
Qed.

Lemma holder_split r l :
  idem_unique l ->
  match holder r l with
  | None => existsb (row_conflict r) l = false
  | Some k => exists l1 l2, l = l1 ++ k :: l2 /\ row_conflict r k = true /\
      (forall x, x ∈ l1 -> row_conflict r x = false) /\ (forall x, x ∈ l2 -> row_conflict r x = false)
  end.
Proof.
  unfold holder, idem_unique. intros Hu. induction l as [|x l IH]; [done|].
  cbn [map] in Hu. apply NoDup_cons in Hu as [Hx Hu]. cbn [List.find existsb].
  destruct (row_conflict r x) eqn:Ex.
  - exists [], l. split_and!; try done; [set_solver|]. intros y Hy.
    destruct (row_conflict r y) eqn:Ey; [|done]. exfalso. apply Hx.
    apply conflict_idem_key in Ex, Ey. rewrite Ex, <-Ey. by apply list_elem_of_fmap_2.
  - specialize (IH Hu). destruct (List.find _ l) as [k|]; [|done].
    destruct IH as (l1 & l2 & -> & Hk & H1 & H2). exists (x :: l1), l2.
    split_and!; try done. intros y [->|Hy]%elem_of_cons; [done|by apply H1].
Qed.

(** At most one record is taken over. *)
Lemma taken_count r (p : IdempotencyKey -> bool) l1 k l2 :
  row_conflict r k = true -> (forall x, x ∈ l1 -> row_conflict r x = false) ->
  (forall x, x ∈ l2 -> row_conflict r x = false) ->
  filter (fun x => Is_true (row_conflict r x && p x)) (l1 ++ k :: l2) = if p k then [k] else [].
Proof.
  intros Hk H1 H2. rewrite filter_app.
  assert (Hnil : forall l, (forall x, x ∈ l -> row_conflict r x = false) ->
    filter (fun x => Is_true (row_conflict r x && p x)) l = []).
  { intros l Hl. induction l as [|x l IH]; [done|].
    rewrite filter_cons_False; [apply IH; set_solver|]. rewrite (Hl x) by set_solver. by intros []. }
  rewrite Hnil by done. rewrite filter_cons, (Hnil l2) by done. rewrite Hk. simpl.
  destruct (p k); case_decide; done.
Qed.

Lemma map_unaffected {A} (f : A -> A) l : (forall x, x ∈ l -> f x = x) -> map f l = l.
Proof.
  intros Hf. induction l as [|x l IH]; [done|]. simpl. rewrite Hf, IH; [done|set_solver..].
Qed.

Lemma existsb_all_false {A} (f : A -> bool) l : (forall x, x ∈ l -> f x = false) -> existsb f l = false.
Proof.
  intros Hf. induction l as [|x l IH]; [done|]. simpl. rewrite Hf, IH; [done|set_solver..].
Qed.

Section Begin.
Context `{Env}.
Hypothesis healthy : forall n, env_fault n = false.

Lemma run_Begin r stale w :
  let now := env_now (w_step w) in
  let r' := r <| ik_CreatedAt := now |> in
  let l := db_idempotency (w_db w) in
  idem_unique l -> (forall x, x ∈ l -> ik_ID x <> ik_ID r) ->
  exists w', match holder r l with
  | Some k =>
    if IdempotencyRepo.dead (env_now (w_step w)) stale k
    then run (IdempotencyRepo.Begin r stale) w = (w', Ok (true, None)) /\
         w_db w' = set_rows (claimed r' l) (w_db w)
    else run (IdempotencyRepo.Begin r stale) w = (w', Ok (false, Some k)) /\ w_db w' = w_db w
  | None => run (IdempotencyRepo.Begin r stale) w = (w', Ok (true, None)) /\
            w_db w' = set_rows (claimed r' l) (w_db w)
  end.
Proof using Type*.
  cbv zeta. intros Hu Hfresh. set (r' := r <| ik_CreatedAt := env_now (w_step w) |>).
  assert (Hrun : run (IdempotencyRepo.Begin r stale) w =
    match IdempotencyRepo.begin_insert (env_now (w_step w)) stale r' (db_idempotency (w_db w)) with
    | Some (l', n) =>
      if n =? 1 then (tick (tick w) <| w_db := set_rows l' (w_db w) |>, Ok (true, None))
      else run (existing ← get_by "failed to get idempotency key" ErrResourceConflict
                  (fun k => (ik_TenantID k ==? ik_TenantID r) && (ik_Principal k ==? ik_Principal r)
                            && (ik_Key k ==? ik_Key r));
                mret (false, Some existing)) (tick (tick w) <| w_db := set_rows l' (w_db w) |>)
    | None => (tick (tick w), Err (EWrap "failed to store idempotency key" (EExternal "duplicate key")))
    end).
  { unfold IdempotencyRepo.Begin. rewrite run_bind, run_Now. cbv beta iota zeta.
    rewrite run_bind. unfold wrap. rewrite run_map_err, run_bind, run_Stmt, healthy. fold r'.
    cbn [rows table_IdempotencyKey]. change (w_db (tick w)) with (w_db w).
    destruct (IdempotencyRepo.begin_insert _ _ r' _) as [[l' n]|]; [|done].
    cbn [fst snd from_opt]. rewrite run_ret. cbv beta iota. by destruct (n =? 1). }
  rewrite Hrun. clear Hrun. unfold IdempotencyRepo.begin_insert, claimed.
  change (row_conflict r') with (row_conflict r).
  pose proof (holder_split r _ Hu) as Hs. destruct (holder r _) as [k|] eqn:Hh.
  2: { rewrite Hs. unfold insert_row.
       replace (row_stamp (env_now (w_step w)) r') with r'.
       2: { unfold r'. simpl. unfold stamp. by destruct (time_is_zero _). }
       rewrite existsb_all_false; [by eexists|]. intros x Hx. unfold clashes.
       change (row_conflict r' x) with (row_conflict r x).
       rewrite (existsb_false _ _ Hs x Hx), orb_false_r. apply bool_decide_eq_false_2.
       intros Heq. by apply (Hfresh x Hx). }
  destruct Hs as (l1 & l2 & Hl & Hk & H1 & H2).
  assert (Hex : existsb (row_conflict r) (l1 ++ k :: l2) = true).
  { apply existsb_exists. exists k. split; [|done]. apply in_elt. }
  assert (Honly : forall x, x ∈ l1 ++ k :: l2 -> row_conflict r x = true -> x = k).
  { intros x Hx Ex. rewrite elem_of_app, elem_of_cons in Hx.
    destruct Hx as [Hx|[Hx|Hx]]; [|done|]; [rewrite H1 in Ex|rewrite H2 in Ex]; done. }
  rewrite Hl, Hex, (taken_count _ _ _ _ _ Hk H1 H2), (existsb_all_false (fun x => (ik_ID x ==? _) && _)),
    andb_false_r.
  2: { intros x Hx. rewrite bool_decide_eq_false_2; [done|]. apply Hfresh. by rewrite Hl. }
  destruct (IdempotencyRepo.dead _ _ k) eqn:Hdead; cbn [length Z.of_nat].
  - eexists. split; [reflexivity|]. refine (f_equal (fun l => set_rows l (w_db w)) _).
    apply map_ext_in. intros x Hx%list_elem_of_In. destruct (row_conflict r x) eqn:Ex; [|done].
    by rewrite (Honly x Hx Ex), Hdead.
  - rewrite map_unaffected.
    2: { intros x Hx. destruct (row_conflict r x) eqn:Ex; [|done]. by rewrite (Honly x Hx Ex), Hdead. }
    change (0 =? 1) with false. cbv iota. rewrite <-Hl.
    change (db_idempotency (w_db w)) with (rows (R := IdempotencyKey) (w_db w)). rewrite set_rows_rows.
    eexists. rewrite run_bind, run_get_by, healthy. cbn [rows table_IdempotencyKey w_db tick].
    destruct (first_where _ _) as [x|] eqn:Ex; cbn [rows table_IdempotencyKey] in Ex;
      change (db_idempotency (w_db _)) with (db_idempotency (w_db w)) in Ex.
    + apply first_where_Some in Ex as (Hx & Hp & _). rewrite Hl in Hx.
      rewrite (Honly x Hx); [done|]. apply conflict_idem_key. unfold idem_key. bool_simp. congruence.
    + exfalso. rewrite first_where_None in Ex. apply conflict_idem_key in Hk. unfold idem_key in Hk.
      injection Hk as E1 E2 E3. assert (Hf := Ex k). rewrite E1, E2, E3 in Hf.
      rewrite !(bool_decide_eq_true_2 _ eq_refl) in Hf. discriminate Hf; [rewrite Hl; set_solver|done].
Qed.
End Begin.

(** ** The middleware *)

Section Middleware.
Context `{Env} `{UuidLib} `{JsonLib} `{Rendering} (ttl : Z) (next : Handler).
Implicit Types v : World.

(** A response that is kept for a repetition. *)
Definition storable (r : Response) : bool :=
  negb ((StatusInternalServerError <=? rs_Status r)
        || (maxIdempotentBodyBytes <? Z.of_nat (String.length (body_bytes (rs_Body r))))).
Definition complete (id : uuid) (r : Response) (k : IdempotencyKey) : IdempotencyKey :=
  if ik_ID k ==? id then
    k <| ik_StatusCode := rs_Status r |> <| ik_ResponseContentType := body_type (rs_Body r) |>
      <| ik_ResponseBody := redactResponse (body_bytes (rs_Body r)) |>
  else k.
(** The table after the request that claimed [id] has ended. *)
Definition settled (id : uuid) (o : outcome Response) (l : list IdempotencyKey)
    : list IdempotencyKey :=
  let released := filter (fun k => Is_true (negb (ik_ID k ==? id))) l in
  match o with
  | Ok r => if storable r then map (complete id r) l else released
  | _ => released
  end.

Lemma run_catch {A} (p : prog A) v : run (catch p) v = ((run p v).1, Ok (run p v).2).
Proof.
  revert v. induction p as [o|Y act k IH]; intros v; [done|].
  unfold run; fold (@run (outcome A)); fold (@run A). simpl. apply IH.
Qed.

Hypothesis healthy : forall n, env_fault n = false.

Lemma run_release id v :
  run (ignore (IdempotencyRepo.Delete id)) v =
  (wrote (filter (fun k => Is_true (negb (ik_ID k ==? id))) (rows (w_db v))) v, Ok tt).
Proof using Type*.
  rewrite run_ignore. unfold IdempotencyRepo.Delete, wrap.
  rewrite run_map_err, run_DeleteWhere, healthy. cbv beta iota. by rewrite delete_where_hard.
Qed.

Lemma run_claimed_spec id (p : prog Response) v :
  let r := run p v in
  exists v', run (run_claimed id p) v = (v', r.2) /\
    w_db v' = set_rows (settled id r.2 (db_idempotency (w_db r.1))) (w_db r.1).
Proof using Type*.
  cbv zeta. unfold run_claimed. rewrite run_bind, run_catch. cbv beta iota.
  destruct (run p v) as [v1 o]. cbn [fst snd]. unfold settled.
  destruct o as [r|e|].
  2, 3: rewrite run_bind, run_release; by eexists.
  unfold storable. destruct (_ || _); cbn [negb].
  { rewrite run_bind, run_release. by eexists. }
  rewrite run_bind, run_attempt. unfold IdempotencyRepo.Complete. rewrite run_bind. unfold wrap.
  rewrite run_map_err. unfold UpdateWhere. rewrite run_Stmt, healthy. cbv beta iota.
  rewrite run_ret. cbv beta iota. rewrite run_ret. eexists. split; [done|].
  refine (f_equal (fun l => set_rows l (w_db v1)) _). unfold update_where. cbn [fst].
  apply map_ext. intros k. cbn [row_live row_IdempotencyKey]. unfold hard. rewrite andb_true_r.
  unfold complete. by destruct (_ ==? _).
Qed.
(** The record under which request [c] claims its key, at [v]. *)
Definition claim (c : Request) (t : uuid) (body : string) (v : World) : IdempotencyKey := {|
  ik_ID := env_uuid (w_step v); ik_TenantID := t; ik_Principal := idempotencyPrincipal c;
  ik_Key := GetHeader c "Idempotency-Key"; ik_Method := q_Method c; ik_Path := q_RequestURI c;
  ik_RequestHash := requestFingerprint (q_Method c) (q_RequestURI c) body;
  ik_StatusCode := 0; ik_ResponseContentType := ""; ik_ResponseBody := "";
  ik_CreatedAt := env_now (3 + w_step v)%nat; ik_ExpiresAt := env_now (1 + w_step v)%nat + ttl |}.
(** The record that answers for the key at that time. *)
Definition live_holder (r : IdempotencyKey) (v : World) : option IdempotencyKey :=
  match holder r (db_idempotency (w_db v)) with
  | Some k => if IdempotencyRepo.dead (env_now (3 + w_step v)%nat)
                   (env_now (2 + w_step v)%nat - idempotencyStaleAfter) k then None else Some k
  | None => None
  end.
(** The answer it gives. *)
Definition repeated (c : Request) (w : Response) (r k : IdempotencyKey) : Response :=
  if ik_RequestHash k !=? ik_RequestHash r then
    Abort (RespondWithError c w StatusUnprocessableEntity ErrorCodeInvalidRequest
             "Idempotency-Key was already used with a different request")
  else if InProgress k then
    Abort (RespondWithError c (Header w "Retry-After" "1") StatusConflict ErrorCodeResourceConflict
             "A request with this Idempotency-Key is still being processed")
  else Abort (c_Data (Header w "Idempotent-Replayed" "true") (ik_StatusCode k)
                (or_default (ik_ResponseContentType k) "application/octet-stream")
                (ik_ResponseBody k)).

(** A keyed request that the middleware takes charge of. *)
Definition keyed (c : Request) (t : uuid) (body : string) : Prop :=
  q_Method c = "POST" /\ validIdempotencyKey (GetHeader c "Idempotency-Key") = true /\
  q_TenantID c = Some t /\ q_Body c = Some body /\
  Z.of_nat (String.length body) <= maxIdempotentBodyBytes.

Lemma run_Idempotency c w t body v :
  keyed c t body -> idem_unique (db_idempotency (w_db v)) ->
  (forall x, x ∈ db_idempotency (w_db v) -> ik_ID x <> env_uuid (w_step v)) ->
  let r := claim c t body v in
  match live_holder r v with
  | Some k => exists v', run (Idempotency ttl next c w) v = (v', Ok (repeated c w r k)) /\
                         w_db v' = w_db v
  | None => exists v1 v',
      w_db v1 = set_rows (claimed r (db_idempotency (w_db v))) (w_db v) /\
      run (Idempotency ttl next c w) v = (v', (run (next c w) v1).2) /\
      w_db v' = set_rows (settled (ik_ID r) (run (next c w) v1).2
                            (db_idempotency (w_db (run (next c w) v1).1))) (w_db (run (next c w) v1).1)
  end.
Proof using Type*.
  intros (Hm & Hkey & Ht & Hb & Hlen) Hu Hfresh r. unfold Idempotency. cbv zeta.
  rewrite Hkey, (bool_decide_eq_true_2 _ Hm).
  assert (Hne : GetHeader c "Idempotency-Key" <> "") by (intros He; by rewrite He in Hkey).
  rewrite (bool_decide_eq_false_2 _ Hne). cbn [negb orb]. unfold GetTenantID. rewrite Ht, Hb.
  destruct (Z.ltb_spec maxIdempotentBodyBytes (Z.of_nat (String.length body))); [lia|].
  rewrite run_bind, run_NewUUID. cbv beta iota. rewrite run_bind, run_Now. cbv beta iota.
  rewrite run_bind, run_Now. cbv beta iota. rewrite run_bind, run_attempt.
  unfold live_holder, claim in *.
  match goal with |- context [run (IdempotencyRepo.Begin ?x ?stale) ?w3] =>
    destruct (run_Begin healthy x stale w3) as (w' & HB); [exact Hu|exact Hfresh|];
    change (holder x (db_idempotency (w_db w3))) with (holder r (db_idempotency (w_db v))) in HB
  end.
  fold r. destruct (holder r _) as [k|]; cycle 1.
  - destruct HB as [-> Hw']. destruct (run_claimed_spec (ik_ID r) (next c w) w') as (v' & Hr & Hv').
    exists w', v'. split; [exact Hw'|]. split; [exact Hr|exact Hv'].
  - change (w_step (tick (tick (tick v)))) with (3 + w_step v)%nat in HB.
    change (w_step (tick (tick v))) with (2 + w_step v)%nat in HB |- *.
    destruct (IdempotencyRepo.dead _ _ k).
    + destruct HB as [-> Hw']. destruct (run_claimed_spec (ik_ID r) (next c w) w') as (v' & Hr & Hv').
      exists w', v'. split; [exact Hw'|]. split; [exact Hr|exact Hv'].
    + destruct HB as [-> Hw']. exists w'. split; [|exact Hw']. cbv beta iota.
      unfold replayOrReject, respondInProgress, abort_api, repeated. unfold r. cbn [ik_RequestHash].
      destruct (_ !=? _); [done|]. by destruct (InProgress k).
Qed.
End Middleware.

(** ** Repetitions *)

Lemma conflict_same_key r r' k : idem_key r' = idem_key r -> row_conflict r' k = row_conflict r k.
Proof.
  intros E. apply Bool.eq_iff_eq_true. rewrite !conflict_idem_key. by rewrite E.
Qed.

Lemma holder_in r l k : idem_unique l -> k ∈ l -> row_conflict r k = true -> holder r l = Some k.
Proof.
  intros Hu Hin Hk. pose proof (holder_split r l Hu) as Hs. destruct (holder r l) as [x|].
  - destruct Hs as (l1 & l2 & -> & Hx & H1 & H2). rewrite elem_of_app, elem_of_cons in Hin.
    destruct Hin as [Hin|[->|Hin]]; [rewrite H1 in Hk|done|rewrite H2 in Hk]; done.
  - by rewrite (existsb_false _ _ Hs k Hin) in Hk.
Qed.

Lemma claimed_in r l : r ∈ claimed r l.
Proof.
  unfold claimed. destruct (existsb _ l) eqn:E; [|set_solver].
  apply existsb_exists in E as (k & Hk%list_elem_of_In & Hc).
  apply list_elem_of_fmap. exists k. by rewrite Hc.
Qed.

Lemma claimed_unique r l : idem_unique l -> idem_unique (claimed r l).
Proof.
  unfold claimed, idem_unique. intros Hu. destruct (existsb _ l) eqn:E.
  - rewrite map_map. erewrite map_ext; [exact Hu|]. intros k. cbv beta.
    destruct (row_conflict r k) eqn:Hk; [|done]. by apply conflict_idem_key in Hk.
  - rewrite map_app. apply NoDup_app. split; [done|]. split; [|apply NoDup_singleton].
    intros x (k & -> & Hk)%list_elem_of_fmap Hx. apply list_elem_of_singleton in Hx.
    pose proof (existsb_false _ _ E k Hk) as Hf. apply conflict_idem_key in Hx. congruence.
Qed.

Lemma complete_unique `{JsonLib} `{Rendering} id r l :
  idem_unique l -> idem_unique (map (complete id r) l).
Proof.
  unfold idem_unique. rewrite map_map. erewrite (map_ext (fun x => idem_key (complete id r x))); [done|].
  intros k. unfold complete. by destruct (_ ==? _).
Qed.

(** C32: a keyed POST runs the rest of the chain exactly once per key. When
    no record holds the key of the tenant and caller, or the one that does has
    expired or was abandoned, the request claims the key, the chain runs, and
    the record is completed with its response (secrets removed), or released
    when the response is a server error, too large, or the chain panics or
    fails. Otherwise the chain does not run, nothing is written, and the
    record answers: 422 for another request under the same key, 409 while the
    first one is running, the stored response after it. *)
Theorem Idempotency_spec `{Env} `{UuidLib} `{JsonLib} `{Rendering} ttl next c w t body v :
  (forall n, env_fault n = false) -> keyed c t body -> idem_unique (db_idempotency (w_db v)) ->
  (forall x, x ∈ db_idempotency (w_db v) -> ik_ID x <> env_uuid (w_step v)) ->
  let r := claim ttl c t body v in
  match live_holder r v with
  | Some k => exists v', run (Idempotency ttl next c w) v = (v', Ok (repeated c w r k)) /\
                         w_db v' = w_db v
  | None => exists v1 v',
      w_db v1 = set_rows (claimed r (db_idempotency (w_db v))) (w_db v) /\
      run (Idempotency ttl next c w) v = (v', (run (next c w) v1).2) /\
      w_db v' = set_rows (settled (ik_ID r) (run (next c w) v1).2
                            (db_idempotency (w_db (run (next c w) v1).1))) (w_db (run (next c w) v1).1)
  end.
Proof. intros Hf Hk Hu Hfresh. by apply run_Idempotency. Qed.

(** A repetition is a replay. After a request has claimed its key and
    ended with a storable response, the same request, sent again before the
    record expires, is answered with the stored status, content type and
    redacted body, whatever the chain would do; it does not run and the
    database stays as it is. *)
Theorem Idempotency_replay `{Env} `{UuidLib} `{JsonLib} `{Rendering} ttl next next' c w w' t body
    v v1 v2 r1 :
  (forall n, env_fault n = false) -> keyed c t body -> idem_unique (db_idempotency (w_db v)) ->
  (forall x, x ∈ db_idempotency (w_db v) -> ik_ID x <> env_uuid (w_step v)) ->
  live_holder (claim ttl c t body v) v = None -> keeps db_idempotency (next c w) ->
  run (Idempotency ttl next c w) v = (v1, Ok r1) -> storable r1 = true -> rs_Status r1 <> 0 ->
  db_idempotency (w_db v2) = db_idempotency (w_db v1) ->
  (forall x, x ∈ db_idempotency (w_db v2) -> ik_ID x <> env_uuid (w_step v2)) ->
  env_now (3 + w_step v2)%nat <= env_now (1 + w_step v)%nat + ttl ->
  exists v3, run (Idempotency ttl next' c w') v2 =
    (v3, Ok (Abort (c_Data (Header w' "Idempotent-Replayed" "true") (rs_Status r1)
               (or_default (body_type (rs_Body r1)) "application/octet-stream")
               (redactResponse (body_bytes (rs_Body r1)))))) /\
    w_db v3 = w_db v2.
Proof.
  intros Hf Hk Hu Hfresh Hnone Hkeep E Hst Hnz Hdb Hfresh2 Htime.
  pose proof (run_Idempotency ttl next Hf c w t body v Hk Hu Hfresh) as R1. cbv zeta in R1.
  rewrite Hnone in R1. destruct R1 as (v0 & v1' & Hv0 & E' & Hv1). rewrite E in E'.
  injection E' as <- Eo. destruct (run (next c w) v0) as [v0' o] eqn:En. cbn [fst snd] in *.
  subst o. apply Hkeep in En. rewrite Hv0 in En. unfold settled in Hv1. rewrite Hst in Hv1.
  set (r := claim ttl c t body v) in *. set (l := db_idempotency (w_db v)) in *.
  assert (Hrows : db_idempotency (w_db v2) = map (complete (ik_ID r) r1) (claimed r l)).
  { rewrite Hdb, Hv1. cbn. f_equal. exact En. }
  assert (Hu2 : idem_unique (db_idempotency (w_db v2)))
    by (rewrite Hrows; by apply complete_unique, claimed_unique).
  pose proof (run_Idempotency ttl next' Hf c w' t body v2 Hk Hu2 Hfresh2) as R2. cbv zeta in R2.
  set (r2 := claim ttl c t body v2) in *.
  assert (Hh : live_holder r2 v2 = Some (complete (ik_ID r) r1 r)).
  { unfold live_holder. rewrite Hrows.
    rewrite (holder_in r2 _ (complete (ik_ID r) r1 r)).
    - assert (Hd : forall n stale, n <= ik_ExpiresAt r ->
        IdempotencyRepo.dead n stale (complete (ik_ID r) r1 r) = false).
      { intros n stale Hn. unfold complete. rewrite (bool_decide_eq_true_2 _ eq_refl).
        unfold IdempotencyRepo.dead, time_before. apply orb_false_iff. split.
        - apply Z.ltb_ge. exact Hn.
        - apply andb_false_iff. left. by apply Z.eqb_neq. }
      by rewrite Hd.
    - by rewrite <-Hrows.
    - apply list_elem_of_fmap_2, claimed_in.
    - apply conflict_idem_key. unfold complete. by destruct (_ ==? _). }
  rewrite Hh in R2. destruct R2 as (v3 & -> & Hv3). exists v3. split; [|done].
  do 2 f_equal. unfold repeated, complete. rewrite (bool_decide_eq_true_2 _ eq_refl). 
  change (ik_RequestHash _) with (ik_RequestHash r2) at 1.
  rewrite bool_decide_eq_true_2 by done. unfold InProgress. cbn.
  destruct (Z.eqb_spec (rs_Status r1) 0); done.
Qed.

(** ** Witnesses *)

#[export] Instance example_json : JsonLib := {
  json_Unmarshal _ := None; json_Marshal _ := ""
}.
#[export] Instance example_rendering : Rendering := {
  body_bytes b := match b with Data _ s => s | _ => "" end;
  body_type b := match b with Data t _ => t | _ => "" end
}.
Definition keyed_request : Request := example_request <| q_Method := "POST" |>
  <| q_Header := [("Idempotency-Key", "k-1")] |> <| q_Body := Some "{}" |>.
Definition created : Handler := fun _ w => mret (c_Data w 201 "text/plain" "made").

Lemma example_never_fails : forall n, @env_fault example_env n = false.
Proof. done. Qed.
Lemma keyed_request_keyed : keyed keyed_request 1 "{}".
Proof. by repeat split. Qed.
Lemma empty_unique : idem_unique (db_idempotency (w_db (example_world empty_db))).
Proof. apply NoDup_nil. done. Qed.
Lemma empty_fresh : forall x, x ∈ db_idempotency (w_db (example_world empty_db)) ->
  ik_ID x <> env_uuid (w_step (example_world empty_db)).
Proof. intros x Hx. by apply not_elem_of_nil in Hx. Qed.

Lemma Idempotency_spec_witness :
  exists v1 v', run (Idempotency hour created keyed_request blank) (example_world empty_db)
    = (v', Ok (c_Data blank 201 "text/plain" "made")) /\
    db_idempotency (w_db v1) = [claim hour keyed_request 1 "{}" (example_world empty_db)].
Proof.
  destruct (Idempotency_spec hour created keyed_request blank 1 "{}" (example_world empty_db)
    example_never_fails keyed_request_keyed empty_unique empty_fresh) as (v1 & v' & Hv1 & E & _).
  exists v1, v'. split; [exact E|]. rewrite Hv1. reflexivity.
Defined.

Lemma Idempotency_replay_witness :
  exists v1 v3, run (Idempotency hour created keyed_request blank) (example_world empty_db)
      = (v1, Ok (c_Data blank 201 "text/plain" "made")) /\
    run (Idempotency hour (fun _ _ => panic) keyed_request blank) v1
      = (v3, Ok (Abort (c_Data (Header blank "Idempotent-Replayed" "true") 201 "text/plain" "made"))) /\
    w_db v3 = w_db v1.
Proof.
  destruct (run (Idempotency hour created keyed_request blank) (example_world empty_db))
    as [v1 o] eqn:E.
  assert (Ho : o = Ok (c_Data blank 201 "text/plain" "made"))
    by (vm_compute in E; injection E as _ <-; vm_compute; reflexivity).
  assert (Hstep : w_step v1 = 6%nat) by (vm_compute in E; injection E as <- _; vm_compute; reflexivity).
  assert (Hids : map ik_ID (db_idempotency (w_db v1)) = [1000%N])
    by (vm_compute in E; injection E as <- _; vm_compute; reflexivity).
  subst o.
  destruct (Idempotency_replay hour created (fun _ _ => panic) keyed_request blank blank 1 "{}"
    (example_world empty_db) v1 v1 _ example_never_fails keyed_request_keyed empty_unique empty_fresh
    eq_refl (keeps_ret _ _) E eq_refl) as (v3 & E3 & Hdb).
  - discriminate.
  - reflexivity.
  - intros x Hx%(list_elem_of_fmap_2 ik_ID). change (ik_ID <$> ?l) with (map ik_ID l) in Hx.
    rewrite Hids in Hx. apply list_elem_of_singleton in Hx. rewrite Hx, Hstep. discriminate.
  - rewrite Hstep. vm_compute. discriminate.
  - exists v1, v3. split; [reflexivity|]. split; [exact E3|exact Hdb].
Defined.
