(* ===== verification/Answers.v ===== *)
(** Every request is answered: no handler and no middleware ends with an
    error of its own or without having written a response. *)
From S2P Require Import Prelude GoStd Models Effects Store Repos AccountRepos Libraries.
From S2P Require Import JwtKeys AuditTrail Http Scope AuthService Rbac TenantService Mfa Registration.
From S2P Require Import MfaService DeviceFlow Session ClientService UserService.
From S2P Require Import EmailService HandlerSecurity TokenEndpoint Authorize BrowserPages Redis.
From S2P Require Import Middleware Idempotency Management RegistrationHandler AccountPages Routes.
From S2P Require Import IdempotencySpec.
From stdpp Require Import gmap.

Open Scope Z_scope.

(** [p] ends with a value that satisfies [Q], or panics; never with an error. *)
Definition responds {A} (Q : A -> Prop) (p : prog A) : Prop :=
  forall w w' o, run p w = (w', o) -> match o with Ok a => Q a | Err _ => False | Panic => True end.
Definition any {A} (_ : A) : Prop := True.

(** The response carries something: a body, or a status other than the 200
    that gin sends when a handler writes nothing. *)
Definition written (r : Response) : Prop := rs_Body r <> NoBody \/ rs_Status r <> StatusOK.

Section Programs.
Context {A : Type}.
Implicit Types (p : prog A) (Q : A -> Prop).

Lemma responds_ret Q a : Q a -> responds Q (mret a).
Proof. by intros Ha w w' o [= _ <-]. Qed.
Lemma responds_panic Q : responds Q panic.
Proof. by intros w w' o [= _ <-]. Qed.
Lemma responds_bind {B} (Q : B -> Prop) p (f : A -> prog B) :
  responds any p -> (forall a, responds Q (f a)) -> responds Q (p ≫= f).
Proof.
  intros Hp Hf w w' o. rewrite run_bind. destruct (run p w) as [w1 o1] eqn:E.
  specialize (Hp _ _ _ E). destruct o1 as [a|e|]; [apply Hf|done|]. by intros [= _ <-].
Qed.
Lemma responds_attempt p : responds any (attempt p).
Proof. intros w w' o. rewrite run_attempt. by destruct (run p w) as [w1 [a|e|]]; intros [= _ <-]. Qed.
Lemma responds_ignore p : responds any (ignore p).
Proof. intros w w' o. rewrite run_ignore. by destruct (run p w) as [w1 [a|e|]]; intros [= _ <-]. Qed.
Lemma responds_step Q {Y : Set} (act : World -> World * Y) (k : Y -> prog A) :
  (forall y, responds Q (k y)) -> responds Q (Step act k).
Proof. intros Hk w w' o E. unfold run in E; fold (@run A) in E. by eapply Hk. Qed.
End Programs.

Lemma step_responds {X : Set} (act : World -> World * X) : responds any (Step act mret).
Proof. apply responds_step. intros y. by apply responds_ret. Qed.

Section Steps.
Context `{Env}.
Lemma responds_Now : responds any Now.
Proof. apply step_responds. Qed.
Lemma responds_NewUUID : responds any NewUUID.
Proof. apply step_responds. Qed.
Lemma responds_WithDomains {X : Set} f : responds any (WithDomains (X := X) f).
Proof. apply step_responds. Qed.
Lemma responds_WithRandom {X : Set} f : responds any (WithRandom (A := X) f).
Proof. apply step_responds. Qed.

(** The middleware passes the response of the rest of the chain on. *)
Lemma responds_run_claimed `{Rendering} `{JsonLib} Q id (p : prog Response) :
  responds Q p -> responds Q (run_claimed id p).
Proof.
  intros Hp w w' o. unfold run_claimed. rewrite run_bind, run_catch. cbv beta iota zeta.
  destruct (run p w) as [w1 o1] eqn:E. specialize (Hp _ _ _ E). cbn [fst snd].
  refine ((_ : responds _ _) _ _ _). destruct o1 as [r|e|]; [|done|].
  - destruct (_ || _).
    + apply responds_bind; [apply responds_ignore|intros; by apply responds_ret].
    + apply responds_bind; [apply responds_attempt|]. intros []; [by apply responds_ret|].
      apply responds_bind; [apply responds_ignore|intros; by apply responds_ret].
  - apply responds_bind; [apply responds_ignore|intros; apply responds_panic].
Qed.
End Steps.

Create HintDb answers.
#[export] Hint Resolve responds_panic responds_attempt responds_ignore responds_Now
  responds_NewUUID responds_WithDomains responds_WithRandom : answers.

Ltac head_of p := match p with ?f _ => head_of f | _ => p end.

(** The call that completes the response is in sight. *)
Ltac written_tac :=
  cbv zeta;
  first
    [ solve [left; cbn; discriminate | right; cbn; discriminate]
    | match goal with
      | |- written (match ?b with _ => _ end) => destruct b
      | |- written ?r => let h := head_of r in unfold h; cbv beta
      end; written_tac ].

Ltac responds_step_tac :=
  match goal with
  | |- responds any (mret _) => by apply responds_ret
  | |- responds written (mret _) => apply responds_ret; written_tac
  | |- responds any (attempt _) => apply responds_attempt
  | |- responds any (ignore _) => apply responds_ignore
  | |- responds _ (run_claimed _ _) => apply responds_run_claimed
  | |- responds _ (mbind _ _) => refine (responds_bind _ _ _ _ _); [|intros ?]
  | |- responds _ (let _ := _ in _) => cbv zeta
  | |- responds _ (match ?b with _ => _ end) => destruct b
  | |- responds _ _ => solve [eauto with answers]
  | |- responds _ ?p => let h := head_of p in unfold h; cbv beta
  end.
Ltac responds := repeat responds_step_tac.

Section Handlers.
Context `{Env} `{UuidLib} `{JwtLib} `{UnicodeTables} `{BcryptLib} `{AeadLib} `{RedirectLib}.
Context `{PendingJson} `{NetLib} `{RedisLib} `{JsonLib} `{Rendering} `{MapOrder} `{SmtpServer}.
Context `{MimeLib} `{GinRouter}.
Context (s : Server).

(** Handlers, and middleware that answers when the rest of the chain does. *)
Definition answering (h : Handler) : Prop := forall c w, responds written (h c w).

Lemma answers_api_use h : answering h -> answering (api_use s h).
Proof. intros Hh c w. unfold api_use, answering in *. responds. Qed.
Lemma answers_authorize a resource action self h :
  answering h -> answering (authorize a resource action self h).
Proof. intros Hh c w. unfold answering in *. responds. Qed.
Lemma answers_requireSelf h : answering h -> answering (MFAHandler.requireSelf h).
Proof. intros Hh c w. unfold answering in *. responds. Qed.
Lemma answers_headers f h : answering h -> answering (headers f h).
Proof. intros Hh c w. unfold headers. apply Hh. Qed.
Lemma answers_router_use h : answering h -> answering (router_use s h).
Proof. intros Hh c w. unfold answering in *. responds. Qed.

Lemma any_router_use h :
  (forall c w, responds any (h c w)) -> forall c w, responds any (router_use s h c w).
Proof. intros Hh c w. responds. Qed.

Context `{JsonBind CreateRoleRequest} `{JsonBind UpdateRoleRequest} `{JsonBind AddPermissionRequest}.
Context `{JsonBind AssignRoleRequest} `{JsonBind CreatePermissionRequest}.
Context `{JsonBind UpdatePermissionRequest} `{JsonBind CreateTenantRequest}.
Context `{JsonBind UpdateTenantRequest} `{JsonBind CreateUserRequest} `{JsonBind UpdateUserRequest}.
Context `{JsonBind ChangePasswordRequest} `{JsonBind CreateClientRequest}.
Context `{JsonBind UpdateClientRequest} `{JsonBind MFACodeRequest} `{JsonBind ClientMetadata}.
Context `{JsonBind CreateInitialAccessTokenRequest}.

(** The one route that may answer with an empty 200 (RFC 7009, section 2.2). *)
Definition empty_answer : string * string := ("POST", "/oauth/revoke").
Definition route_answers (r : Route) : Prop :=
  answering (rt_Handler r) \/ ((rt_Method r, rt_Path r) = empty_answer /\
    forall c w, responds any (rt_Handler r c w)).

Ltac routes_answer :=
  repeat (apply List.Forall_cons;
    [left; cbn [rt_Handler]; unfold Require, RequireOrSelf, RequireSuperAdmin, plain;
     repeat first [apply answers_api_use | apply answers_authorize | apply answers_requireSelf
                  | apply answers_headers];
     intros ? ?; solve [responds]
    |]);
  apply List.Forall_nil.

Lemma answers_revoke c w : responds any (HandleRevoke (oauthHandler s) c w).
Proof. responds. Qed.

Lemma answers_oauth : Forall route_answers (oauth_routes s).
Proof.
  unfold oauth_routes, Group, GET, POST, plain. cbv zeta. cbn [map app rt_Method rt_Path rt_Handler].
  repeat (apply List.Forall_cons;
    [first [right; split; [reflexivity|exact answers_revoke]
           |left; cbn [rt_Handler]; try apply answers_headers; intros ? ?; solve [responds]]|]).
  apply List.Forall_nil.
Qed.
Lemma answers_account : Forall route_answers (account_routes s).
Proof.
  unfold account_routes, Group, GET, POST, plain. cbv zeta. cbn [map app rt_Method rt_Path rt_Handler].
  routes_answer.
Qed.
Lemma answers_registration : Forall route_answers (registration_routes s).
Proof.
  unfold registration_routes, Group, GET, POST, PUT, DELETE. cbv zeta.
  cbn [map app rt_Method rt_Path rt_Handler]. routes_answer.
Qed.
Lemma answers_api : Forall route_answers (api_routes s).
Proof.
  unfold api_routes, Group, tenant_routes, user_routes, mfa_routes, client_routes,
    registration_management_routes, rbac_routes, audit_routes.
  unfold Group, GET, POST, PUT, DELETE, plain. cbv zeta. cbn [map app rt_Method rt_Path rt_Handler].
  routes_answer.
Qed.
Lemma answers_health : answering (health s).
Proof. intros c w. unfold health. responds. Qed.
Lemma answers_routes : Forall route_answers (setupRoutes s).
Proof.
  unfold setupRoutes. rewrite !Forall_app. split_and!;
    auto using answers_oauth, answers_account, answers_registration, answers_api.
  apply Forall_singleton. left. apply answers_health.
Qed.

(** The route the router selects, if any. *)
Definition selected (c : Request) (r : Route) : Prop :=
  exists i params,
    gin_match (map (fun r => (rt_Method r, rt_Path r)) (setupRoutes s)) (q_Method c) (q_Path c)
      = Some (i, params) /\ setupRoutes s !! i = Some r.

Lemma select_answers c :
  answering (select (setupRoutes s) c).1 \/
  (exists r, selected c r /\ (rt_Method r, rt_Path r) = empty_answer) /\
  forall c' w, responds any ((select (setupRoutes s) c).1 c' w).
Proof.
  unfold select, selected. cbv zeta.
  destruct (gin_match _ _ _) as [[i params]|]; [|left; intros ? ?; apply responds_ret; by left].
  destruct (setupRoutes s !! i) as [r|] eqn:Hr; [|left; intros ? ?; apply responds_ret; by left].
  destruct (proj1 (Forall_lookup _ _) answers_routes i r Hr) as [Ha|[He Ha]]; [by left|].
  right. split; [|exact Ha]. exists r. split; [|done]. by exists i, params.
Qed.

(** C24: every request is answered: whatever the database, the clients, the
    mail server, the libraries and the router do, serving a request ends with
    a response that some handler or middleware wrote (one with a body, or with
    a status other than the 200 that is sent when nothing is written), or with
    a panic, which the server answers with a 500. The only route that may
    answer with an empty 200 is the revocation endpoint. *)
Theorem ServeHTTP_answers c w :
  match (run (ServeHTTP s c) w).2 with
  | Ok resp => written resp \/ exists r, selected c r /\ (rt_Method r, rt_Path r) = empty_answer
  | Err _ => False
  | Panic => True
  end.
Proof.
  unfold ServeHTTP. cbv zeta. generalize (select_answers (incoming c)).
  unfold selected. change (q_Method (incoming c)) with (q_Method c).
  change (q_Path (incoming c)) with (q_Path c).
  generalize (select (setupRoutes s) (incoming c)). intros [h params] Hsel. cbn [fst] in Hsel.
  destruct (run (router_use s h _ blank) w) as [w' o] eqn:E. cbn [snd].
  destruct Hsel as [Hh|[He Hh]].
  - pose proof (answers_router_use h Hh _ _ _ _ _ E). destruct o; eauto.
  - pose proof (any_router_use h Hh _ _ _ _ _ E). destruct o; eauto.
Qed.
End Handlers.
