(* ===== verification/TenantSpec.v ===== *)
(** What the resolution of a request's host to a tenant guarantees. *)
From S2P Require Import Prelude GoStd StringFacts Models Effects Store Repos Libraries TenantService.
From S2P Require Import Examples.
From stdpp Require Import gmap.

Open Scope Z_scope.

Section Resolver.
Context `{Env} `{UnicodeTables} (ttl : Z).
Implicit Types w : World.

Definition domain_owner (db : DB) (domain : string) : option Tenant :=
  first_where (fun t => tn_Domain t ==? domain) (db_tenants db).
Definition cache_bounded (w : World) : Prop := Z.of_nat (size (w_domains w)) <= maxCachedDomains.

Lemma cache_entry_size k e m :
  Z.of_nat (size m) <= maxCachedDomains -> Z.of_nat (size (cache_entry k e m)) <= maxCachedDomains.
Proof.
  unfold cache_entry. intros Hm. destruct (Z.leb_spec maxCachedDomains (Z.of_nat (size m))).
  - rewrite insert_empty, map_size_singleton. unfold maxCachedDomains. lia.
  - rewrite map_size_insert. destruct (m !! k); simpl; lia.
Qed.

(** The database's answer for a domain, as it is cached; [None]: the lookup
    failed. *)
Definition answer (w : World) (domain : string) : option (uuid * bool) :=
  if env_fault (w_step w) then None
  else match domain_owner (w_db w) domain with
       | Some t => Some (tn_ID t, tn_IsActive t)
       | None => Some (uuid_Nil, false)
       end.

Lemma run_lookup_domain domain w :
  exists w', run (lookup_domain ttl domain) w =
    (w', Ok (match answer w domain with Some (t, found) => entry_tenant t found | None => None end)) /\
    w_db w' = w_db w /\
    w_domains w' = match answer w domain with
      | Some (t, found) =>
        cache_entry domain (t, found, env_now (S (w_step w)) + ttl) (w_domains w)
      | None => w_domains w
      end.
Proof.
  unfold lookup_domain, TenantRepo.GetByDomain, answer. rewrite run_bind, run_attempt, run_get_by.
  cbn [rows table_Tenant]. fold (domain_owner (w_db w) domain).
  destruct (env_fault (w_step w)); [by eexists|].
  destruct (domain_owner (w_db w) domain) as [t|]; by eexists.
Qed.
(** The cached entry that still counts. *)
Definition cached_answer (w : World) (domain : string) : option (uuid * bool) :=
  match w_domains w !! domain with
  | Some (t, found, expires) =>
    if time_before (env_now (S (w_step w))) expires then Some (t, found) else None
  | None => None
  end.
(** The world when the database is asked: after the cache, and after the
    clock if there was an entry. *)
Definition asked (w : World) (domain : string) : World :=
  if w_domains w !! domain is Some _ then tick (tick w) else tick w.

(** What resolving [domain] by the database answers and leaves. *)
Definition resolved (w w0 w' : World) (domain : string) (o : option uuid) : Prop :=
  match answer w0 domain with
  | None => o = None /\ w_domains w' = w_domains w
  | Some (t, found) =>
    o = entry_tenant t found /\
    (forall x, o = Some x -> exists tn, tn ∈ db_tenants (w_db w) /\ tn_Domain tn = domain /\
       tn_ID tn = x /\ tn_IsActive tn = true /\ tn_DeletedAt tn = None) /\
    (exists n, w_domains w' !! domain = Some (t, found, env_now n + ttl)) /\
    (forall d e, d <> domain -> w_domains w' !! d = Some e -> w_domains w !! d = Some e)
  end.

Lemma lookup_resolved domain w w0 :
  w_db w0 = w_db w -> w_domains w0 = w_domains w ->
  exists w' o, run (lookup_domain ttl domain) w0 = (w', Ok o) /\ w_db w' = w_db w /\
    (cache_bounded w -> cache_bounded w') /\ resolved w w0 w' domain o.
Proof.
  intros Hdb Hdom. destruct (run_lookup_domain domain w0) as (w' & E & Hdb' & Hdom').
  exists w'. eexists. split; [exact E|]. split; [congruence|].
  unfold cache_bounded, resolved. rewrite Hdom'. unfold answer. destruct (env_fault (w_step w0)).
  { rewrite Hdom. by split_and!. }
  rewrite Hdom, Hdb. destruct (domain_owner (w_db w) domain) as [tn|] eqn:Eo.
  1: assert (Hact : forall x, entry_tenant (tn_ID tn) (tn_IsActive tn) = Some x ->
       exists tn, tn ∈ db_tenants (w_db w) /\ tn_Domain tn = domain /\
         tn_ID tn = x /\ tn_IsActive tn = true /\ tn_DeletedAt tn = None).
  { unfold entry_tenant. destruct (tn_IsActive tn) eqn:Ha; [|done]. intros x [= <-].
    apply first_where_Some in Eo as (Hin & Hk & Hl). bool_simp. exists tn. split_and!; try done.
    simpl in Hl. by destruct (tn_DeletedAt tn). }
  all: split; [apply cache_entry_size|]; split; [done|]; split; [done|]; unfold cache_entry; split;
    [rewrite lookup_insert_eq; by eexists|intros d e Hd; rewrite lookup_insert_ne by done;
      destruct (_ <=? _); [by rewrite lookup_empty|done]].
Qed.
End Resolver.

(** C33: a host names a tenant only through its normalized form: the cached
    answer counts until it expires, then the database is asked, for a stored
    tenant with exactly this domain, and an inactive tenant, an unknown domain
    and a failing database all give none. The answer (not a failure) is
    remembered for [ttl], under this domain only, in a cache that never
    exceeds ten thousand entries; the database is not changed. *)
Theorem Resolve_spec `{Env} `{UnicodeTables} ttl host w :
  let domain := normalizeHost host in
  exists w' o, run (Resolve ttl host) w = (w', Ok o) /\ w_db w' = w_db w /\
    (cache_bounded w -> cache_bounded w') /\
    if domain ==? "" then o = None /\ w_domains w' = w_domains w
    else match cached_answer w domain with
    | Some (t, found) => o = entry_tenant t found /\ w_domains w' = w_domains w
    | None => resolved ttl w (asked w domain) w' domain o
    end.
Proof.
  cbv zeta. unfold Resolve. destruct (normalizeHost host ==? "") eqn:Ed; [by eexists _, _|].
  set (domain := normalizeHost host). rewrite run_bind.
  change (run (WithDomains _) w) with (tick w, Ok (w_domains w !! domain)).
  cbv beta iota. unfold cached_answer, asked.
  destruct (w_domains w !! domain) as [[[t found] expires]|]; [|by apply lookup_resolved].
  rewrite run_bind, run_Now. cbv beta iota. change (w_step (tick w)) with (S (w_step w)).
  destruct (time_before _ expires); [by eexists _, _|]. by apply lookup_resolved.
Qed.

(** The host of a request, with its port and its trailing dot. *)
Definition tenant_world (active : bool) : World := example_world (empty_db
  <| db_tenants := [MkTenant 1 "Acme" "acme.example" active epoch epoch None] |>).
Example Resolve_active :
  result (Resolve hour "acme.example.:8443") (w_db (tenant_world true)) = Ok (Some 1%N) /\
  result (Resolve hour "acme.example") (w_db (tenant_world false)) = Ok None.
Proof. vm_compute. split; reflexivity. Qed.
