(* ===== verification/MailSpec.v ===== *)
(** What an outgoing email is made of: rendering a template is simultaneous
    substitution whatever order the variables come in, values add no markup
    to an HTML body, and no value adds a line to the message header. *)
From S2P Require Import Prelude GoStd StringFacts Models Effects Store Repos EmailRepos Libraries EmailService Examples.
From stdpp Require Import gmap.
From Stdlib Require Import Ascii String.

Open Scope Z_scope.

(** ** Bytes of a string *)

Fixpoint bytes_in (p : ascii -> bool) (s : string) : list ascii :=
  match s with
  | EmptyString => []
  | String c s' => if p c then c :: bytes_in p s' else bytes_in p s'
  end.

Lemma bytes_in_app p a b : bytes_in p (a +:+ b) = bytes_in p a ++ bytes_in p b.
Proof. induction a as [|c a IH]; simpl; [done|]. by destruct (p c); rewrite IH. Qed.

Lemma string_forall_app p a b : string_forall p (a +:+ b) = string_forall p a && string_forall p b.
Proof. induction a as [|c a IH]; simpl; [done|]. by rewrite IH, andb_assoc. Qed.

Lemma bytes_in_none p s : bytes_in p s = [] <-> string_forall (fun c => negb (p c)) s = true.
Proof. induction s as [|c s IH]; simpl; [done|]. destruct (p c); simpl; [done|apply IH]. Qed.

(** ** Replacement *)

Lemma has_prefix_app old s : has_prefix old (old +:+ s) = true.
Proof. induction old as [|c old IH]; simpl; [by destruct s|]. by destruct (Ascii.ascii_dec c c). Qed.

Lemma replace_from_skip old new (a s : string) :
  replace_from old new (String.length a) (a +:+ s) = replace_from old new 0 s.
Proof. induction a as [|c a IH]; simpl; [by destruct s|done]. Qed.

Lemma has_prefix_spec old s : has_prefix old s = true -> exists r, s = old +:+ r.
Proof.
  revert s. induction old as [|c old IH]; intros s; [by exists s|].
  destruct s as [|d s]; [done|]. simpl. destruct (Ascii.ascii_dec c d) as [->|]; [|done].
  intros [r ->]%IH. by exists r.
Qed.

(** A match at the front is replaced. *)
Lemma replace_match old new s :
  old <> EmptyString -> ReplaceAll (old +:+ s) old new = new +:+ ReplaceAll s old new.
Proof.
  intros Ho. unfold ReplaceAll. destruct old as [|c old]; [done|].
  change (String c old +:+ s) with (String c (old +:+ s)). cbn [replace_from].
  change (String c (old +:+ s)) with (String c old +:+ s). rewrite has_prefix_app.
  f_equal. simpl. rewrite Nat.sub_0_r. apply replace_from_skip.
Qed.

Lemma replace_nomatch old new c s :
  has_prefix old (String c s) = false ->
  ReplaceAll (String c s) old new = String c (ReplaceAll s old new).
Proof. intros E. unfold ReplaceAll. cbn [replace_from]. by rewrite E. Qed.

(** Induction along a replacement. *)
Lemma ReplaceAll_ind (old new : string) (P : string -> string -> Prop) :
  old <> EmptyString ->
  P EmptyString EmptyString ->
  (forall s r, P s r -> P (old +:+ s) (new +:+ r)) ->
  (forall c s r, P s r -> P (String c s) (String c r)) ->
  forall s, P s (ReplaceAll s old new).
Proof.
  intros Ho H0 Hm Hc s. remember (String.length s) as n eqn:En. revert s En.
  induction n as [n IH] using lt_wf_ind. intros s ->. destruct s as [|c s]; [done|].
  destruct (has_prefix old (String c s)) eqn:E.
  - apply has_prefix_spec in E as [r Er]. rewrite Er, replace_match by done.
    apply Hm. apply (IH (String.length r)); [|done].
    rewrite Er, string_length_app. destruct old; [done|]. simpl. lia.
  - rewrite replace_nomatch by done. apply Hc. apply (IH (String.length s)); [simpl; lia|done].
Qed.

(** Bytes that neither side of the replacement has are kept. *)
Lemma bytes_in_replace p old new s :
  old <> EmptyString -> bytes_in p old = [] -> bytes_in p new = [] ->
  bytes_in p (ReplaceAll s old new) = bytes_in p s.
Proof.
  intros Ho Hbo Hbn. apply (ReplaceAll_ind old new (fun s r => bytes_in p r = bytes_in p s)); [done..| |].
  - intros s' r E. by rewrite !bytes_in_app, Hbo, Hbn, E.
  - intros c s' r E. simpl. by rewrite E.
Qed.

(** ** HTML escaping *)

(** The bytes that delimit tags and attribute values. *)
Definition markup_byte (c : ascii) : bool := in_set ("<>'" +:+ dquote) c.
Definition markup (s : string) : list ascii := bytes_in markup_byte s.

Lemma markup_escape_byte c : markup (escape_html_byte c) = [].
Proof. by destruct c as [[] [] [] [] [] [] [] []]. Qed.

Lemma markup_EscapeString s : markup (EscapeString s) = [].
Proof.
  unfold EscapeString. induction s as [|c s IH]; [done|]. cbn [string_concat_map].
  unfold markup. by rewrite bytes_in_app, markup_escape_byte.
Qed.

Lemma markup_placeholder key : markup key = [] -> markup (placeholder key) = [].
Proof. unfold placeholder, markup. intros E. by rewrite !bytes_in_app, E. Qed.

Lemma placeholder_nonempty key : placeholder key <> EmptyString.
Proof. done. Qed.

Definition plain_keys (variables : list (string * string)) : bool :=
  forallb (fun kv => match markup kv.1 with [] => true | _ => false end) variables.

Lemma processTemplate_markup_keys template variables :
  plain_keys variables = true ->
  markup (processTemplate template variables (Some EscapeString)) = markup template.
Proof.
  unfold processTemplate, plain_keys. revert template.
  induction variables as [|[k v] vars IH]; intros template; [done|].
  cbn [forallb]. intros [Hk Hv]%andb_true_iff. cbn [foldl fst snd]. rewrite IH by done.
  apply bytes_in_replace; [done| |apply markup_EscapeString].
  apply markup_placeholder. cbn [fst] in Hk. by destruct (markup k).
Qed.

(** C31: values cannot add markup to an HTML body: whatever the template, the
    values and the order they are visited in, the rendered body has exactly
    the angle brackets and quotes of the template, in their order. *)
Theorem processTemplate_markup template variables :
  plain_keys variables = true ->
  markup (processTemplate template variables (Some EscapeString)) = markup template.
Proof. apply processTemplate_markup_keys. Qed.

Lemma processTemplate_markup_witness :
  markup (processTemplate "<p>Hi {{user_name}}</p>" [("user_name", "<script>"); ("x", "{{user_name}}")]
            (Some EscapeString)) = markup "<p>Hi {{user_name}}</p>".
Proof. apply (processTemplate_markup _ [("user_name", "<script>"); ("x", "{{user_name}}")]). reflexivity. Defined.

(** ** Rendering as simultaneous substitution *)

(** A template is text with holes. *)
Inductive segment : Set := Text (s : string) | Hole (key : string).

Definition print_segment (x : segment) : string :=
  match x with Text s => s | Hole k => placeholder k end.
Definition print_segments (l : list segment) : string :=
  foldr (fun x s => print_segment x +:+ s) "" l.

(** Reading a template; [hole] is the key read so far inside "{{". *)
Fixpoint read_template (hole : option string) (s : string) : list segment :=
  match s, hole with
  | EmptyString, None => []
  | EmptyString, Some k => [Text ("{{" +:+ k)]
  | String "{" (String "{" s'), None => read_template (Some "") s'
  | String "}" (String "}" s'), Some k => Hole k :: read_template None s'
  | String c s', None => Text (String c "") :: read_template None s'
  | String c s', Some k => read_template (Some (k +:+ String c "")) s'
  end.

Definition no_byte (p : ascii -> bool) (s : string) : bool := string_forall (fun c => negb (p c)) s.
Definition open_brace (c : ascii) : bool := byte_val c =? 123.
Definition brace (c : ascii) : bool := (byte_val c =? 123) || (byte_val c =? 125).

(** Text without an opening brace, keys without braces. *)
Definition clean_segment (x : segment) : bool :=
  match x with Text s => no_byte open_brace s | Hole k => no_byte brace k end.

(** Every hole whose key has a value is filled, all at once. *)
Definition fill (value : string -> option string) (l : list segment) : list segment :=
  map (fun x => match x with
                | Hole k => match value k with Some v => Text v | None => x end
                | Text _ => x
                end) l.

Lemma has_prefix_app_l a b s : has_prefix (a +:+ b) (a +:+ s) = has_prefix b s.
Proof. induction a as [|c a IH]; simpl; [done|]. by destruct (Ascii.ascii_dec c c). Qed.

Lemma string_app_cons c a b : String c a +:+ b = String c (a +:+ b).
Proof. done. Qed.
Lemma string_app_nil b : EmptyString +:+ b = b.
Proof. done. Qed.

Lemma has_prefix_cons c a d s :
  has_prefix (String c a) (String d s) = (c ==? d) && has_prefix a s.
Proof.
  unfold has_prefix. cbn [String.prefix]. destruct (Ascii.ascii_dec c d) as [->|Hne].
  - by rewrite bool_decide_eq_true_2.
  - by rewrite bool_decide_eq_false_2.
Qed.

Lemma no_byte_cons p c s : no_byte p (String c s) = true <-> p c = false /\ no_byte p s = true.
Proof. unfold no_byte. cbn [string_forall]. rewrite andb_true_iff, negb_true_iff. done. Qed.

Lemma brace_key k k' s :
  no_byte brace k = true -> no_byte brace k' = true ->
  has_prefix (k +:+ "}}") (k' +:+ "}}" +:+ s) = (k ==? k').
Proof.
  revert k'. induction k as [|c k IH]; intros [|d k'].
  - intros _ _. by rewrite bool_decide_eq_true_2; destruct s.
  - intros _ [Hd _]%no_byte_cons. rewrite (bool_decide_eq_false_2 (_ = _)) by done.
    rewrite ?string_app_cons, ?string_app_nil. rewrite has_prefix_cons. case_bool_decide; [by subst|done].
  - intros [Hc _]%no_byte_cons _. rewrite (bool_decide_eq_false_2 (_ = _)) by done.
    rewrite ?string_app_cons, ?string_app_nil. rewrite has_prefix_cons. case_bool_decide; [by subst|done].
  - intros [Hc Hk]%no_byte_cons [Hd Hk']%no_byte_cons.
    rewrite ?string_app_cons, ?string_app_nil. rewrite has_prefix_cons, IH by done.
    destruct (decide (c = d)) as [<-|Hne].
    + rewrite (bool_decide_eq_true_2 (c = c)) by done. apply bool_decide_ext.
      split; [by intros ->|by intros [=]].
    + rewrite (bool_decide_eq_false_2 (c = d)) by done. symmetry.
      apply bool_decide_eq_false. congruence.
Qed.

Lemma replace_in_text old new s rest :
  no_byte open_brace s = true ->
  ReplaceAll (s +:+ rest) (String "{" old) new = s +:+ ReplaceAll rest (String "{" old) new.
Proof.
  induction s as [|c s IH]; [done|]. intros [Hc Hs]%no_byte_cons.
  rewrite ?string_app_cons, ?string_app_nil. rewrite replace_nomatch, IH; [done..|].
  rewrite has_prefix_cons. case_bool_decide; [by subst|done].
Qed.

Lemma no_brace_open s t : no_byte brace s = true -> no_byte open_brace t = true ->
  no_byte open_brace (s +:+ t) = true.
Proof.
  intros Hs Ht. induction s as [|c s IH]; [done|]. apply no_byte_cons in Hs as [Hc Hs].
  rewrite ?string_app_cons, ?string_app_nil. apply no_byte_cons. split; [|by apply IH].
  unfold brace, open_brace in *. by apply orb_false_iff in Hc as [? ?].
Qed.

Lemma replace_other_hole k k' new rest :
  no_byte brace k = true -> no_byte brace k' = true -> k <> k' ->
  ReplaceAll (placeholder k' +:+ rest) (placeholder k) new =
  placeholder k' +:+ ReplaceAll rest (placeholder k) new.
Proof.
  intros Hk Hk' Hne. unfold placeholder. rewrite ?string_app_cons, ?string_app_nil.
  rewrite replace_nomatch.
  2: { rewrite string_app_assoc, !has_prefix_cons, brace_key by done.
       by rewrite (bool_decide_eq_false_2 (k = k')), !andb_false_r. }
  rewrite replace_nomatch.
  2: { destruct k' as [|d k']; rewrite ?string_app_cons, ?string_app_nil; rewrite !has_prefix_cons; [done|].
       apply no_byte_cons in Hk' as [Hd _].
       rewrite (bool_decide_eq_false_2 ("{"%char = d)); [by rewrite andb_false_r|by intros <-]. }
  do 2 f_equal. apply replace_in_text. by apply no_brace_open.
Qed.

(** One step of processTemplate fills the holes of one key. *)
Lemma replace_fills k v l :
  no_byte brace k = true -> forallb clean_segment l = true ->
  ReplaceAll (print_segments l) (placeholder k) v =
  print_segments (fill (fun k' => if k' ==? k then Some v else None) l).
Proof.
  intros Hk. induction l as [|x l IH]; [done|]. cbn [forallb]. intros [Hx Hl]%andb_true_iff.
  specialize (IH Hl). cbn [print_segments foldr fill map]. fold (print_segments l).
  destruct x as [s|k']; cbn [print_segment clean_segment] in *.
  - unfold placeholder at 1. rewrite ?string_app_cons, ?string_app_nil. rewrite replace_in_text by done.
    unfold placeholder in IH. rewrite !string_app_cons, !string_app_nil in IH. by rewrite IH.
  - destruct (decide (k' = k)) as [->|Hne].
    + rewrite replace_match, IH by done. by rewrite (bool_decide_eq_true_2 (k = k)).
    + rewrite replace_other_hole, IH by congruence. by rewrite (bool_decide_eq_false_2 (k' = k)).
Qed.

(** The value of a key in a map given by its entries. *)
Fixpoint value_of (variables : list (string * string)) (escape : option (string -> string))
    (k : string) : option string :=
  match variables with
  | [] => None
  | kv :: variables' =>
    if k ==? kv.1 then Some (match escape with Some f => f kv.2 | None => kv.2 end)
    else value_of variables' escape k
  end.

(** Keys without braces, and values that cannot start a placeholder. *)
Definition clean_variables (escape : option (string -> string)) (variables : list (string * string)) : bool :=
  forallb (fun kv => no_byte brace kv.1 &&
             no_byte open_brace (match escape with Some f => f kv.2 | None => kv.2 end)) variables.

Lemma fill_clean value l :
  (forall k v, value k = Some v -> no_byte open_brace v = true) ->
  forallb clean_segment l = true -> forallb clean_segment (fill value l) = true.
Proof.
  intros Hv. unfold fill. induction l as [|x l IH]; [done|]. cbn [forallb map].
  intros [Hx Hl]%andb_true_iff. rewrite IH, andb_true_r by done.
  destruct x as [s|k]; [done|]. destruct (value k) eqn:E; [by eapply Hv|done].
Qed.

Lemma processTemplate_fill variables escape l :
  clean_variables escape variables = true -> forallb clean_segment l = true ->
  processTemplate (print_segments l) variables escape =
  print_segments (fill (value_of variables escape) l).
Proof.
  unfold processTemplate, clean_variables. revert l.
  induction variables as [|[k v] vars IH]; intros l.
  - intros _ _. cbn [foldl]. f_equal. unfold fill.
    transitivity (map id l); [by rewrite map_id|]. apply map_ext. by intros [].
  - cbn [forallb foldl fst snd]. intros [[Hk Hv]%andb_true_iff Hvars]%andb_true_iff Hl.
    rewrite replace_fills by done. rewrite IH; [|done|].
    + f_equal. unfold fill. rewrite map_map. apply map_ext. intros [s|k']; [done|].
      cbn [value_of fst snd]. by destruct (k' ==? k).
    + apply fill_clean; [|done]. intros k' v'. case_bool_decide; [|done]. by intros [= <-].
Qed.

Lemma value_of_perm vars vars' escape k :
  vars ≡ₚ vars' -> NoDup (map fst vars) -> value_of vars escape k = value_of vars' escape k.
Proof.
  intros Hp. revert k. induction Hp as [|[k1 v1] l l' _ IH|[k1 v1] [k2 v2] l|l1 l2 l3 H1 IH1 H2 IH2];
    intros k; [done|..].
  - cbn. intros [_ Hnd]%NoDup_cons. by rewrite IH.
  - cbn. intros [Hn _]%NoDup_cons. repeat case_bool_decide; subst; try done.
    destruct Hn. by left.
  - intros Hnd. rewrite IH1, IH2; [done| |done]. by rewrite <-H1.
Qed.

Lemma forallb_perm {A} (p : A -> bool) (l l' : list A) : l ≡ₚ l' -> forallb p l = forallb p l'.
Proof. induction 1; simpl; try congruence. by rewrite !andb_assoc, (andb_comm (p y)). Qed.

Section Rendering.
Context `{MapOrderLaws}.

(** Rendering a template is simultaneous substitution: every hole whose
    key has a value is filled with that value (escaped), the others and the
    text stay, whatever order the map of variables is visited in. It holds
    for templates whose text has no opening brace and variables whose values
    have none; a value that has one can be taken for a placeholder. *)
Theorem render_substitutes l variables escape w :
  NoDup (map fst variables) -> clean_variables escape variables = true ->
  forallb clean_segment l = true ->
  run (render (print_segments l) variables escape) w =
  (tick w, Ok (print_segments (fill (value_of variables escape) l))).
Proof using Type*.
  intros Hnd Hv Hl. unfold render. rewrite run_bind. cbv [run mret prog_mret]. f_equal. f_equal. simpl.
  pose proof (map_range_perm (w_step w) variables) as Hp.
  rewrite processTemplate_fill; [|by unfold clean_variables; rewrite (forallb_perm _ _ _ Hp)|done].
  f_equal. unfold fill. apply map_ext. intros [s|k]; [done|].
  by rewrite (value_of_perm variables _ _ _ (symmetry Hp)).
Qed.
End Rendering.

(** A map visited backwards at odd steps. *)
Definition example_order : MapOrder := fun n m => if Nat.odd n then reverse m else m.
Lemma example_order_laws : @MapOrderLaws example_order.
Proof. intros n m. unfold map_range, example_order. destruct (Nat.odd n); [apply reverse_Permutation|done]. Qed.

(** The built-in templates consist of such text and holes. *)
Definition readable (t : string) : bool :=
  let l := read_template None t in (print_segments l ==? t) && forallb clean_segment l.
Example default_templates_readable :
  forallb (fun name => match defaultEmailTemplates name with
                       | Some t => readable (et_Subject t) && readable (et_BodyHTML t) && readable (et_BodyText t)
                       | None => false
                       end) ["email_verification"; "password_reset"; "password_changed"] = true.
Proof. vm_compute. reflexivity. Qed.

Lemma render_substitutes_witness :
  exists t, defaultEmailTemplates "password_reset" = Some t /\
  let l := read_template None (et_BodyHTML t) in
  let vars := [("user_name", "A<b>"); ("reset_link", "https://sg/r?t=1&u=2"); ("expires_minutes", "60")] in
  run (@render example_order (print_segments l) vars (Some EscapeString)) (MkWorld empty_db 1 [] ∅ ∅ []) =
  (tick (MkWorld empty_db 1 [] ∅ ∅ []),
   Ok (print_segments (fill (value_of vars (Some EscapeString)) l))).
Proof.
  eexists. split; [reflexivity|]. intros l vars.
  apply (@render_substitutes example_order example_order_laws).
  - by apply (bool_decide_unpack _); vm_compute.
  - vm_compute. reflexivity.
  - vm_compute. reflexivity.
Defined.

(** A value that contains a placeholder makes the result depend on the
    order: a name may be replaced by the link, or not. *)
Lemma processTemplate_order :
  processTemplate "Hi {{user_name}}" [("user_name", "{{reset_link}}"); ("reset_link", "L")] None <>
  processTemplate "Hi {{user_name}}" [("reset_link", "L"); ("user_name", "{{reset_link}}")] None.
Proof. vm_compute. discriminate. Qed.

(** ** The header of the message *)

(** The lines of a message up to the first empty one; [cur] is the line
    read so far. A line ends at CR LF. *)
Fixpoint header_lines (cur : string) (s : string) : list string :=
  match s with
  | EmptyString => []
  | String c s1 =>
    match s1 with
    | String d s2 =>
      if (byte_val c =? 13) && (byte_val d =? 10)
      then match cur with EmptyString => [] | _ => cur :: header_lines EmptyString s2 end
      else header_lines (cur +:+ String c EmptyString) s1
    | EmptyString => [cur +:+ s]
    end
  end.

Definition crlf_byte (c : ascii) : bool := (byte_val c =? 13) || (byte_val c =? 10).
Definition one_line (s : string) : bool := no_byte crlf_byte s.

(** A Q-encoded word is printable ASCII (RFC 2047). *)
Class MimeLaws `{MimeLib} := QEncode_one_line : forall s, one_line (QEncode s) = true.

Lemma one_line_app a b : one_line (a +:+ b) = one_line a && one_line b.
Proof. apply string_forall_app. Qed.

Lemma sanitizeHeader_one_line s : one_line (sanitizeHeader s) = true.
Proof.
  unfold sanitizeHeader. induction s as [|c s IH]; [done|]. cbn [string_map].
  apply no_byte_cons. split; [|done]. by destruct (_ || _) eqn:E.
Qed.

Lemma header_lines_line cur line s :
  one_line line = true -> cur +:+ line <> EmptyString ->
  header_lines cur (line +:+ CRLF +:+ s) = (cur +:+ line) :: header_lines EmptyString s.
Proof.
  revert cur. induction line as [|c line IH]; intros cur Hl Hne.
  - rewrite string_app_empty in *. cbn. by destruct cur.
  - apply no_byte_cons in Hl as [Hc Hl]. rewrite string_app_cons.
    assert (cur +:+ String c line = (cur +:+ String c EmptyString) +:+ line) as El
      by (by rewrite string_app_assoc).
    rewrite El in *.
    rewrite <-IH by done. unfold crlf_byte in Hc. apply orb_false_iff in Hc as [Hc _].
    destruct (line +:+ CRLF +:+ s) as [|d s'] eqn:Es; [by destruct line|].
    cbn [header_lines]. by rewrite Hc.
Qed.

Lemma header_lines_field name value s :
  one_line name = true -> name <> EmptyString -> one_line value = true ->
  header_lines EmptyString (header_line name value +:+ s) =
  (name +:+ ": " +:+ value) :: header_lines EmptyString s.
Proof.
  intros Hn Hne Hv. unfold header_line.
  assert (forall a b c d : string, (a +:+ b +:+ c +:+ CRLF) +:+ d = (a +:+ b +:+ c) +:+ CRLF +:+ d) as E.
  { intros. by rewrite !string_app_assoc. }
  rewrite E, (header_lines_line EmptyString); [done| |by destruct name].
  by rewrite !one_line_app, Hn, Hv.
Qed.

Lemma one_line_digits fuel z : one_line (digits fuel z) = true.
Proof.
  revert z. induction fuel as [|fuel IH]; intros z; [done|]. cbn [digits].
  rewrite one_line_app. apply andb_true_iff. split; [by destruct (z <? 10)|].
  apply no_byte_cons. split; [|done].
  assert (0 <= z mod 10 < 10) as Hz by (apply Z.mod_pos_bound; lia).
  revert Hz. generalize (z mod 10). intros d Hd.
  assert (d ∈ [0; 1; 2; 3; 4; 5; 6; 7; 8; 9]) as Hin by (rewrite !elem_of_cons; lia).
  repeat (apply elem_of_cons in Hin as [->|Hin]; [done|]). by apply elem_of_nil in Hin.
Qed.

Lemma one_line_format_int z : one_line (format_int z) = true.
Proof.
  unfold format_int. destruct (z <? 0); [apply no_byte_cons; split; [done|]|]; apply one_line_digits.
Qed.

Section Header.
Context `{Env} `{MimeLaws}.

(** C30: no header injection: whatever the names, addresses and subject of an
    email, the header of its message has exactly the five fields the code
    writes, each on one line, and ends before the body. *)
Theorem buildMIMEMessage_header from to subject bodyHTML bodyText w :
  exists msg boundary,
    run (buildMIMEMessage from to subject bodyHTML bodyText) w = (tick w, Ok msg) /\
    header_lines EmptyString msg =
    ["From: " +:+ sanitizeHeader from; "To: " +:+ sanitizeHeader to;
     "Subject: " +:+ QEncode (sanitizeHeader subject); "MIME-Version: 1.0";
     "Content-Type: multipart/alternative; boundary=" +:+ dquote +:+ boundary +:+ dquote].
Proof using Type*.
  eexists _, _. unfold buildMIMEMessage. rewrite run_bind, run_Now. split; [reflexivity|].
  unfold mime_message. rewrite !header_lines_field; try done;
    first [apply sanitizeHeader_one_line | apply QEncode_one_line
          | by rewrite !one_line_app, one_line_format_int].
Qed.
End Header.

(** An encoder that hides every byte. *)
Definition example_mime : MimeLib := string_map (fun _ => "?"%char).
Lemma example_mime_laws : @MimeLaws example_mime.
Proof.
  intros s. unfold QEncode, example_mime. induction s as [|c s IH]; [done|].
  cbn [string_map]. by apply no_byte_cons.
Qed.

Lemma buildMIMEMessage_header_witness :
  exists msg boundary,
    run (@buildMIMEMessage example_env example_mime "ShieldGate <no-reply@sg>"
           ("Eve" +:+ CRLF +:+ "Bcc: all@sg <eve@sg>") ("Hi" +:+ CRLF +:+ "Bcc: all@sg") "<p>Hi</p>" "Hi")
        (example_world empty_db) = (tick (example_world empty_db), Ok msg) /\
    header_lines EmptyString msg =
    ["From: ShieldGate <no-reply@sg>"; "To: Eve  Bcc: all@sg <eve@sg>"; "Subject: ???????????????"; "MIME-Version: 1.0";
     "Content-Type: multipart/alternative; boundary=" +:+ dquote +:+ boundary +:+ dquote].
Proof.
  exact (@buildMIMEMessage_header example_env example_mime example_mime_laws "ShieldGate <no-reply@sg>"
           ("Eve" +:+ CRLF +:+ "Bcc: all@sg <eve@sg>") ("Hi" +:+ CRLF +:+ "Bcc: all@sg") "<p>Hi</p>" "Hi"
           (example_world empty_db)).
Defined.
