(* ===== verification/QueueSpec.v ===== *)
(** The outgoing queue: what a claim takes, that workers never hold one
    email at once, what processing an email does to its row, that the queue
    is worked off after boundedly many rounds, and what reaches the server. *)
From S2P Require Import Prelude GoStd StringFacts Models Effects Store Repos EmailRepos Libraries Frame.
From S2P Require Import Sorting EmailService Examples AuthSpec Concurrency MailSpec.
From stdpp Require Import gmap sorting.

Open Scope Z_scope.

Import EmailQueueRepo.

(** ** Sorting rows *)

Lemma by_priority_total a b : by_priority a b = false -> by_priority b a = true.
Proof.
  unfold by_priority. rewrite orb_false_iff, orb_true_iff, andb_false_iff, andb_true_iff, !Z.ltb_ge,
    Z.ltb_lt, !Z.eqb_neq, Z.eqb_eq, Z.leb_gt, Z.leb_le. lia.
Qed.
Lemma by_priority_trans a b c :
  by_priority a b = true -> by_priority b c = true -> by_priority a c = true.
Proof.
  unfold by_priority. rewrite !orb_true_iff, !andb_true_iff, !Z.ltb_lt, !Z.eqb_eq, !Z.leb_le. lia.
Qed.

(** ** What a claim takes *)

Definition unique_ids (l : list EmailQueue) : Prop := NoDup (map eq_ID l).

Lemma unique_ids_eq l a b :
  unique_ids l -> a ∈ l -> b ∈ l -> eq_ID a = eq_ID b -> a = b.
Proof.
  unfold unique_ids. induction l as [|x l IH]; [by intros _ ?%elem_of_nil|].
  cbn. intros [Hn Hnd]%NoDup_cons [->|Ha]%elem_of_cons [->|Hb]%elem_of_cons E; [done| | |by apply IH].
  - destruct Hn. rewrite E. by apply list_elem_of_fmap_2.
  - destruct Hn. rewrite <-E. by apply list_elem_of_fmap_2.
Qed.

(** The rows a claim picks. *)
Definition picked (now limit : Z) (l : list EmailQueue) : list EmailQueue :=
  take (Z.to_nat limit) (sort_rows by_priority (select_where (due now) l)).
Definition is_picked (now limit : Z) (l : list EmailQueue) (e : EmailQueue) : bool :=
  existsb (fun id => id ==? eq_ID e) (selected now limit l).


Lemma picked_due now limit l e : e ∈ picked now limit l -> e ∈ l /\ due now e = true.
Proof.
  unfold picked. intros He. assert (e ∈ sort_rows by_priority (select_where (due now) l)) as Hs.
  { rewrite <-(take_drop (Z.to_nat limit) (sort_rows _ _)). apply elem_of_app. by left. }
  rewrite sort_rows_perm in Hs. apply elem_of_select_where in Hs. tauto.
Qed.

Lemma is_picked_spec now limit l e :
  unique_ids l -> e ∈ l -> (is_picked now limit l e = true <-> e ∈ picked now limit l).
Proof.
  intros Hu He. unfold is_picked, selected. rewrite existsb_exists. split.
  - intros (id & Hid & E). apply bool_decide_eq_true in E. subst id.
    rewrite <-list_elem_of_In in Hid. apply list_elem_of_fmap in Hid as (e' & E & He').
    assert (e' ∈ l) by (by eapply picked_due). by rewrite (unique_ids_eq l e e').
  - intros Hp. exists (eq_ID e). rewrite <-list_elem_of_In, bool_decide_eq_true. split; [|done].
    by apply list_elem_of_fmap_2.
Qed.

Lemma claim_due_table now limit l :
  (claim_due now limit l).1 = map (fun e => if is_picked now limit l e then claim now e else e) l.
Proof. unfold claim_due. apply update_where_hard. done. Qed.

Lemma claim_due_returned now limit l :
  (claim_due now limit l).2 = map (claim now) (filter (fun e => Is_true (is_picked now limit l e)) l).
Proof.
  unfold claim_due. simpl. f_equal. unfold select_where. apply list_filter_iff. intros e.
  by rewrite andb_true_r.
Qed.

Lemma unique_ids_sublist l l' : sublist l l' -> unique_ids l' -> unique_ids l.
Proof. intros Hs. unfold unique_ids. intros Hn. eapply sublist_NoDup; [exact Hn|]. by apply (fmap_sublist eq_ID). Qed.

Lemma picked_nodup now limit l : unique_ids l -> NoDup (picked now limit l).
Proof.
  intros Hu. unfold picked. eapply sublist_NoDup; [|apply sublist_take].
  rewrite sort_rows_perm. apply NoDup_filter. by eapply NoDup_fmap_1.
Qed.

(** The rows returned are those picked, claimed. *)
Lemma claim_due_picked now limit l :
  unique_ids l -> filter (fun e => Is_true (is_picked now limit l e)) l ≡ₚ picked now limit l.
Proof.
  intros Hu. apply NoDup_Permutation; [by apply NoDup_filter, (NoDup_fmap_1 eq_ID)|by apply picked_nodup|].
  intros e. rewrite list_elem_of_filter, Is_true_true. split.
  - intros [Hp He]. by apply is_picked_spec in Hp.
  - intros He. destruct (picked_due _ _ _ _ He). split; [by apply is_picked_spec|done].
Qed.

Lemma claim_due_returns now limit l x :
  unique_ids l -> x ∈ (claim_due now limit l).2 <->
  exists e, e ∈ picked now limit l /\ x = claim now e.
Proof.
  intros Hu. rewrite claim_due_returned, list_elem_of_fmap.
  setoid_rewrite (claim_due_picked now limit l Hu). naive_solver.
Qed.

(** A claim takes due emails, at most [limit] of them, each once, marks
    them as being sent and touches no other row; when it leaves a due email
    out, it has taken [limit] others that come before it by priority and
    schedule. *)
Theorem claim_due_spec now limit l :
  unique_ids l ->
  let r := claim_due now limit l in
  (length r.2 <= Z.to_nat limit)%nat /\ unique_ids r.2 /\
  (forall x, x ∈ r.2 -> exists e, e ∈ l /\ due now e = true /\ x = claim now e) /\
  (forall e, e ∈ l -> e ∈ r.1 \/ (claim now e ∈ r.2 /\ claim now e ∈ r.1)) /\
  (forall e, e ∈ l -> due now e = true -> claim now e ∉ r.2 ->
     length r.2 = Z.to_nat limit /\
     forall x, x ∈ l -> claim now x ∈ r.2 -> by_priority x e = true).
Proof.
  intros Hu r. unfold r. rewrite claim_due_returned, claim_due_table.
  pose proof (claim_due_picked now limit l Hu) as Hp.
  assert (forall e, e ∈ l -> claim now e ∈ map (claim now) (filter (fun e => Is_true (is_picked now limit l e)) l) ->
            e ∈ picked now limit l) as Hin.
  { intros e He (e' & E & He')%list_elem_of_fmap. rewrite Hp in He'.
    rewrite (unique_ids_eq l e e'); [done..|by eapply picked_due|].
    by apply (f_equal eq_ID) in E. }
  assert (forall e, e ∈ picked now limit l ->
            claim now e ∈ map (claim now) (filter (fun e => Is_true (is_picked now limit l e)) l)) as Hin'.
  { intros e He. apply list_elem_of_fmap_2. by rewrite Hp. }
  split; [|split; [|split; [|split]]].
  - rewrite length_map, Hp. unfold picked. rewrite length_take. lia.
  - unfold unique_ids. rewrite map_map. change (map (fun x => eq_ID (claim now x))) with (map eq_ID).
    eapply unique_ids_sublist; [|exact Hu]. apply sublist_filter.
  - intros x (e & -> & He)%list_elem_of_fmap. rewrite Hp in He. exists e.
    destruct (picked_due _ _ _ _ He). done.
  - intros e He. destruct (is_picked now limit l e) eqn:E.
    + right. apply is_picked_spec in E; [|done..]. split; [by apply Hin'|].
      apply list_elem_of_fmap. exists e. split; [|done]. by rewrite (proj2 (is_picked_spec _ _ _ _ Hu He)).
    + left. apply list_elem_of_fmap. exists e. by rewrite E.
  - intros e He Hd Hn.
    assert (e ∈ drop (Z.to_nat limit) (sort_rows by_priority (select_where (due now) l))) as Hdrop.
    { assert (e ∈ sort_rows by_priority (select_where (due now) l)) as Hs
        by (rewrite sort_rows_perm; by apply elem_of_select_where).
      rewrite <-(take_drop (Z.to_nat limit) (sort_rows _ _)) in Hs.
      apply elem_of_app in Hs as [Hs|Hs]; [|done]. destruct Hn. by apply Hin'. }
    split.
    + rewrite length_map, Hp. unfold picked. rewrite length_take.
      apply list_elem_of_lookup_1 in Hdrop as [i Hi]. apply lookup_lt_Some in Hi.
      rewrite length_drop in Hi. lia.
    + intros x Hx Hcl. specialize (Hin x Hx Hcl). unfold picked in Hin.
      pose proof (sort_rows_sorted by_priority (select_where (due now) l) by_priority_total by_priority_trans) as Hs.
      rewrite <-(take_drop (Z.to_nat limit) (sort_rows by_priority (select_where (due now) l))) in Hs.
      exact (StronglySorted_app_1_elem_of _ _ _ _ _ Hs Hin Hdrop).
Qed.

(** Three queued emails. *)
Definition example_email (id : uuid) (status : string) (priority attempts scheduledAt updatedAt : Z)
    : EmailQueue := {|
  eq_ID := id; eq_TenantID := 1; eq_UserID := None; eq_ToEmail := "a@b"; eq_ToName := "A";
  eq_FromEmail := "no-reply@sg"; eq_FromName := "ShieldGate"; eq_Subject := "Hi";
  eq_BodyHTML := "<p>Hi</p>"; eq_BodyText := "Hi"; eq_Status := status; eq_Priority := priority;
  eq_Attempts := attempts; eq_MaxAttempts := 3; eq_LastError := ""; eq_ScheduledAt := scheduledAt;
  eq_SentAt := None; eq_CreatedAt := epoch; eq_UpdatedAt := updatedAt |}.
Definition example_queue : list EmailQueue :=
  [example_email 90 "pending" 5 0 epoch epoch; example_email 91 "pending" 1 2 epoch epoch;
   example_email 92 "sending" 5 1 epoch (epoch - hour)].
Definition queue_world (l : list EmailQueue) : World := example_world (empty_db <| db_emailQueue := l |>).

Lemma example_queue_unique : unique_ids example_queue.
Proof. unfold unique_ids. apply (bool_decide_unpack _). vm_compute. exact I. Qed.

Lemma claim_due_spec_witness :
  let r := claim_due epoch 2 example_queue in
  map eq_ID r.2 = [90%N; 91%N] /\ (length r.2 <= 2)%nat.
Proof.
  intros r. split; [vm_compute; reflexivity|].
  apply (claim_due_spec epoch 2 example_queue example_queue_unique).
Defined.

(** ** Workers claim at the same time *)

Section Exclusive.
Context `{Env} (limit : Z) (t0 : Z) (N : nat).
(** The clock over the run: less than the reclaim time passes. *)
Hypothesis window : forall n, (n < N)%nat -> t0 <= env_now n <= t0 + staleSendingAfter.

(** A claim before and after it has read the clock. *)
Definition claim_stmt (now : Z) : prog (list EmailQueue) :=
  wrap "failed to claim pending emails"
    (Stmt (fun _ db => let r := claim_due now limit (rows db) in (set_rows r.1 db, r.2))).
Definition claim_stage (ok : Z -> Prop) (p : prog (list EmailQueue)) : Prop :=
  p = GetPendingEmails limit \/ (exists now, ok now /\ p = claim_stmt now) \/ exists o, p = Done o.
Definition in_window (now : Z) : Prop := t0 <= now <= t0 + staleSendingAfter.

(** The emails a worker holds. *)
Definition held (p : prog (list EmailQueue)) : list uuid :=
  match p with Done (Ok l) => map eq_ID l | _ => [] end.
Definition all_held (ps : list (prog (list EmailQueue))) : list uuid := concat (map held ps).

(** An email under way: being sent since [t0] at the earliest. *)
Definition under_way (e : EmailQueue) : Prop := eq_Status e = emailStatusSending /\ t0 <= eq_UpdatedAt e.

(** What the rest of the system may do meanwhile: anything but change a row
    under way or duplicate an ID. *)
Definition leaves_claims (w w' : World) : Prop :=
  (w_step w <= w_step w')%nat /\
  (unique_ids (db_emailQueue (w_db w)) -> unique_ids (db_emailQueue (w_db w'))) /\
  (forall e, e ∈ db_emailQueue (w_db w) -> under_way e -> e ∈ db_emailQueue (w_db w')).

Definition excl_inv (ps : list (prog (list EmailQueue))) (w : World) : Prop :=
  Forall (claim_stage (fun now => (w_step w <= N)%nat -> in_window now)) ps /\
  ((w_step w <= N)%nat ->
   unique_ids (db_emailQueue (w_db w)) /\ NoDup (all_held ps) /\
  (forall id, id ∈ all_held ps ->
     exists e, e ∈ db_emailQueue (w_db w) /\ eq_ID e = id /\ under_way e)).

Lemma under_way_not_due now e : now <= t0 + staleSendingAfter -> under_way e -> due now e = false.
Proof.
  intros Hn [Hs Hu]. unfold due. rewrite Hs. cbn [andb orb].
  rewrite (bool_decide_eq_false_2 (emailStatusSending = _)) by done. cbn [andb orb].
  apply andb_false_iff. right. apply Z.ltb_ge. lia.
Qed.

Lemma all_held_insert ps i p q :
  ps !! i = Some p -> held p = [] -> all_held (<[i:=q]> ps) ≡ₚ held q ++ all_held ps.
Proof.
  unfold all_held. revert i. induction ps as [|x ps IH]; intros [|i]; try done; simpl.
  - intros [= ->] ->. done.
  - intros Hi Hp. rewrite (IH i Hi Hp). by rewrite !(assoc_L (++)), (Permutation_app_comm (held x)).
Qed.

Lemma step_GetPendingEmails w :
  step_prog (GetPendingEmails limit) w = (claim_stmt (env_now (w_step w)), tick w).
Proof. done. Qed.

Lemma step_claim_stmt now w :
  step_prog (claim_stmt now) w =
  if env_fault (w_step w)
  then (Done (Err (EWrap "failed to claim pending emails" (EExternal "database"))), tick w)
  else (Done (Ok (claim_due now limit (db_emailQueue (w_db w))).2),
        wrote (claim_due now limit (db_emailQueue (w_db w))).1 w).
Proof. unfold step_prog, claim_stmt. simpl. by destruct (env_fault (w_step w)). Qed.

(** One claim keeps the invariant. *)
Lemma excl_claim i ps w now :
  unique_ids (db_emailQueue (w_db w)) -> NoDup (all_held ps) ->
  (forall id, id ∈ all_held ps ->
     exists e, e ∈ db_emailQueue (w_db w) /\ eq_ID e = id /\ under_way e) ->
  ps !! i = Some (claim_stmt now) -> t0 <= now <= t0 + staleSendingAfter ->
  let r := claim_due now limit (db_emailQueue (w_db w)) in
  unique_ids r.1 /\ NoDup (all_held (<[i := Done (Ok r.2)]> ps)) /\
  (forall id, id ∈ all_held (<[i := Done (Ok r.2)]> ps) ->
     exists e, e ∈ r.1 /\ eq_ID e = id /\ under_way e).
Proof.
  intros Hu Hnd Hh Hi Hnow r.
  assert (all_held (<[i := Done (Ok r.2)]> ps) ≡ₚ map eq_ID r.2 ++ all_held ps) as Hp
    by (by eapply all_held_insert).
  assert (forall x, x ∈ r.2 -> exists e, e ∈ picked now limit (db_emailQueue (w_db w)) /\ x = claim now e) as Hr
    by (intros x; by apply claim_due_returns).
  assert (forall e, e ∈ db_emailQueue (w_db w) -> under_way e -> e ∈ r.1) as Hkeep.
  { intros e He Hw. unfold r. rewrite claim_due_table. apply list_elem_of_fmap. exists e. split; [|done].
    destruct (is_picked now limit _ e) eqn:E; [|done]. apply is_picked_spec in E; [|done..].
    apply picked_due in E as [_ E]. rewrite under_way_not_due in E; [done|lia|done]. }
  split; [|split].
  - unfold r, unique_ids. rewrite claim_due_table, map_map.
    erewrite map_ext; [exact Hu|]. intros e. cbv beta.
    by destruct (is_picked now limit (db_emailQueue (w_db w)) e).
  - rewrite Hp. apply NoDup_app. split; [|split; [|done]].
    + apply claim_due_spec. done.
    + intros id (x & -> & Hx)%list_elem_of_fmap Hid. destruct (Hr x Hx) as (e & He & ->).
      destruct (Hh _ Hid) as (e' & He' & Heq & Hw'). destruct (picked_due _ _ _ _ He) as [Hl Hd].
      rewrite (unique_ids_eq _ e e') in Hd by done.
      rewrite under_way_not_due in Hd; [done|lia|done].
  - intros id. rewrite Hp. intros [(x & -> & Hx)%list_elem_of_fmap|Hid]%elem_of_app.
    + destruct (Hr x Hx) as (e & He & ->). exists (claim now e). split; [|split; [done|]].
      * unfold r. rewrite claim_due_table. apply list_elem_of_fmap. exists e.
        destruct (picked_due _ _ _ _ He). by rewrite (proj2 (is_picked_spec _ _ _ e Hu ltac:(done)) He).
      * split; [done|]. simpl. lia.
    + destruct (Hh _ Hid) as (e & He & Hid' & Hw). exists e. auto.
Qed.

Lemma claim_stage_later (w w' : World) ps :
  (w_step w <= w_step w')%nat ->
  Forall (claim_stage (fun now => (w_step w <= N)%nat -> in_window now)) ps ->
  Forall (claim_stage (fun now => (w_step w' <= N)%nat -> in_window now)) ps.
Proof using Type.
  intros Hle Hf. eapply Forall_impl; [exact Hf|]. intros p [->|[[now [Hn ->]]|[o ->]]].
  - by left.
  - right; left. exists now. split; [|done]. intros. apply Hn. lia.
  - right; right. by exists o.
Qed.

(** A step that takes nothing. *)
Lemma excl_idle i ps w p q :
  excl_inv ps w -> ps !! i = Some p -> held p = [] -> held q = [] ->
  claim_stage (fun now => (w_step (tick w) <= N)%nat -> in_window now) q ->
  excl_inv (<[i := q]> ps) (tick w).
Proof using Type.
  intros [Hs HI] Hi Hp Hq Hst. split.
  - apply Forall_insert; [|done]. eapply claim_stage_later; [|exact Hs]. simpl. lia.
  - intros Hle. destruct HI as (Hu & Hnd & Hh); [simpl in Hle; lia|].
    pose proof (all_held_insert ps i p q Hi Hp) as Hperm. rewrite Hq in Hperm. simpl in Hperm.
    split; [done|]. split; [by rewrite Hperm|]. intros id. rewrite Hperm. apply Hh.
Qed.

Lemma excl_step i ps w p :
  excl_inv ps w -> ps !! i = Some p -> excl_inv (<[i := (step_prog p w).1]> ps) (step_prog p w).2.
Proof using window.
  intros HI Hi. destruct (Forall_lookup_1 _ _ _ _ (proj1 HI) Hi) as [->|[[now [Hn ->]]|[o ->]]].
  - rewrite step_GetPendingEmails. eapply excl_idle; [done..|]. right; left. eexists. split; [|done].
    intros Hle. apply window. simpl in Hle. lia.
  - rewrite step_claim_stmt. destruct (env_fault (w_step w)).
    + eapply excl_idle; [done..|]. right; right. by eexists.
    + destruct HI as [Hs HI]. split.
      * apply Forall_insert; [|right; right; by eexists].
        eapply claim_stage_later; [|exact Hs]. simpl. lia.
      * intros Hle. assert (w_step w <= N)%nat as Hw by (simpl in Hle; lia).
        destruct (HI Hw) as (Hu & Hnd & Hh). exact (excl_claim i ps w now Hu Hnd Hh Hi (Hn Hw)).
  - simpl. by rewrite list_insert_id.
Qed.

(** C27: two workers never hold the same email: however many of them claim at
    once, interleaved with each other and with anything that leaves the
    emails under way alone, the batches they get are disjoint and repeat no
    email, as long as no claim is old enough to be taken over. *)
Theorem GetPendingEmails_exclusive n w ps w' :
  unique_ids (db_emailQueue (w_db w)) ->
  interleaving leaves_claims (repeat (GetPendingEmails limit) n, w) (ps, w') ->
  (w_step w' <= N)%nat ->
  NoDup (all_held ps).
Proof using window.
  intros Hu Hil Hle. apply (interleaving_inv leaves_claims excl_inv) in Hil as [_ HI]; [by apply HI|..].
  - intros. by apply excl_step.
  - intros ps0 w0 w1 [Hs HI] (Hw & Hun & Hk). split; [by eapply claim_stage_later|].
    intros Hle1. destruct HI as (Hu0 & Hnd & Hh); [lia|]. split; [by apply Hun|]. split; [done|].
    intros id Hid. destruct (Hh id Hid) as (e & He & Hid' & Huw). exists e. auto.
  - assert (all_held (repeat (GetPendingEmails limit) n) = []) as Hh
      by (clear; unfold all_held; induction n; [done|exact IHn]).
    split.
    + apply Forall_forall. intros p Hp. apply list_elem_of_In, repeat_spec in Hp. by left.
    + intros _. split; [done|]. simpl. rewrite Hh. split; [constructor|]. intros id Hid. by apply elem_of_nil in Hid.
Qed.
End Exclusive.

(** Two workers claim one email each, in turns. *)
Lemma GetPendingEmails_exclusive_witness :
  let s := Concurrency.interleave [0; 1; 1; 0]%nat
             (repeat (GetPendingEmails 2) 2, queue_world example_queue) in
  NoDup (all_held s.1) /\ all_held s.1 = [92%N; 90%N; 91%N].
Proof.
  intros s. split; [|vm_compute; reflexivity].
  apply (GetPendingEmails_exclusive 2 epoch 100) with (n := 2%nat) (w := queue_world example_queue) (w' := s.2).
  - intros n Hn. unfold env_now, example_env, staleSendingAfter, minute, second. lia.
  - apply example_queue_unique.
  - unfold s. rewrite <-surjective_pairing. apply interleave_interleaving.
  - vm_compute. lia.
Defined.

(** ** What processing does to a row *)

(** Delivery does not touch the database and does not panic. *)
Section Delivery.
Context `{Env} `{MapOrder} `{SmtpServer} `{MimeLib} (cfg : Config).

Lemma keeps_smtp {X : Type} (f : DB -> X) c : keeps f (smtp c).
Proof. apply keeps_step; [done|]. intros [e|]; apply keeps_done. Qed.
Lemma keeps_close_data {X : Type} (f : DB -> X) from to body written :
  keeps f (close_data from to body written).
Proof.
  apply keeps_step; [|intros [e|]; apply keeps_done].
  intros w. simpl. destruct (smtp_answer _ _); [done|]. by destruct written.
Qed.
Hint Resolve keeps_smtp keeps_close_data : keeps.

Lemma keeps_sendViaSMTP {X : Type} (f : DB -> X) e : keeps f (sendViaSMTP cfg e).
Proof.
  unfold sendViaSMTP, deferring, smtp_session, smtp_auth, write_body, buildMIMEMessage.
  assert (keeps f Extension_STARTTLS) by (by intros w w' o [= <- _]).
  keeps.
Qed.

Lemma safe_smtp c : safe (smtp c).
Proof. intros w. unfold smtp, run. simpl. by destruct (smtp_answer _ _). Qed.
Lemma safe_close_data from to body written : safe (close_data from to body written).
Proof. intros w. unfold close_data, run. simpl. by destruct (smtp_answer _ _). Qed.
Lemma safe_from_sum {A} (r : A + error) : safe (from_sum r).
Proof. by destruct r. Qed.
Hint Resolve safe_smtp safe_close_data safe_from_sum : safe.
Lemma safe_deferring {A} cleanup (p : prog A) : safe cleanup -> safe p -> safe (deferring cleanup p).
Proof. intros Hc Hp. apply safe_bind; [by auto with safe|]. intros r. apply safe_bind; auto with safe. Qed.
Ltac safe_steps :=
  repeat match goal with
  | |- safe (mbind _ _) => apply safe_bind; [|intros ?]
  | |- safe (deferring _ _) => apply safe_deferring
  | |- safe (wrap _ _) => apply safe_wrap
  | |- safe (if ?b then _ else _) => destruct b
  | |- safe _ => solve [auto with safe]
  end.
Lemma safe_session host to body : safe (smtp_session cfg host to body).
Proof. unfold smtp_session, smtp_auth, write_body. safe_steps. Qed.
Hint Resolve safe_session : safe.
Lemma safe_sendViaSMTP e : safe (sendViaSMTP cfg e).
Proof.
  unfold sendViaSMTP, buildMIMEMessage. assert (safe Extension_STARTTLS) by done. cbv zeta. safe_steps.
Qed.
End Delivery.

(** Save of a queued email: the row with its ID is replaced. *)
Lemma run_Save_email `{Env} (e : EmailQueue) w :
  stmt_ok w -> (exists r, r ∈ db_emailQueue (w_db w) /\ eq_ID r = eq_ID e) ->
  let e' := e <| eq_UpdatedAt := stmt_now w |> in
  run (EmailQueueRepo.Update e) w =
  (wrote (map (fun r => if eq_ID e' ==? eq_ID r then e' else r) (db_emailQueue (w_db w))) w, Ok e').
Proof.
  intros Hw (r & Hr & Hid) e'. unfold EmailQueueRepo.Update, wrap.
  rewrite run_map_err. unfold Save. rewrite run_write, Hw. unfold save_row.
  change (rows (w_db w)) with (db_emailQueue (w_db w)).
  replace (existsb (fun r' => _ && _) (db_emailQueue (w_db w))) with false.
  2: { symmetry. apply not_true_iff_false. intros (x & _ & Hx)%existsb_exists.
       by rewrite andb_false_r in Hx. }
  replace (existsb _ (db_emailQueue (w_db w))) with true; [done|].
  symmetry. apply existsb_exists. exists r. rewrite <-list_elem_of_In. split; [done|].
  apply bool_decide_eq_true. exact (eq_sym Hid).
Qed.

Section Processing.
Context `{Env} `{MapOrder} `{SmtpServer} `{MimeLib} (cfg : Config).
Hypothesis no_fault : forall n, env_fault n = false.

(** The row an attempt leaves, field by field: [o] is the outcome of the
    delivery and [n] the step at which it ended. *)
Definition attempt_row (e : EmailQueue) (n : nat) (o : outcome unit) : EmailQueue :=
  let counted := e <| eq_Attempts := eq_Attempts e + 1 |> in
  match o with
  | Ok _ =>
    counted <| eq_Status := "sent" |> <| eq_SentAt := Some (env_now n) |>
            <| eq_BodyHTML := "" |> <| eq_BodyText := "" |> <| eq_UpdatedAt := env_now (S n) |>
  | Err err =>
    let failed := counted <| eq_LastError := error_text err |> in
    if eq_Attempts e + 1 <? eq_MaxAttempts e
    then failed <| eq_Status := "pending" |>
                <| eq_ScheduledAt := env_now n + wrap64 (Z.shiftl minute (eq_Attempts e)) |>
                <| eq_UpdatedAt := env_now (S n) |>
    else failed <| eq_Status := "failed" |> <| eq_UpdatedAt := env_now n |>
  | Panic => e
  end.

Lemma attempt_row_same e n o :
  eq_ID (attempt_row e n o) = eq_ID e /\ eq_MaxAttempts (attempt_row e n o) = eq_MaxAttempts e.
Proof. destruct o; simpl; [done|destruct (_ <? _); done|done]. Qed.

(** The backoff doubles from one minute. *)
Lemma backoff_doubles n : 0 <= n <= 27 -> wrap64 (Z.shiftl minute n) = minute * 2 ^ n.
Proof.
  intros Hn. rewrite Z.shiftl_mul_pow2 by lia. unfold wrap64.
  assert (2 ^ n <= 2 ^ 27) by (apply Z.pow_le_mono_r; lia).
  assert (0 < 2 ^ n) by (apply Z.pow_pos_nonneg; lia).
  rewrite Z.mod_small; unfold two63, two64, minute, second in *; lia.
Qed.

Definition replace_row (e' : EmailQueue) (l : list EmailQueue) : list EmailQueue :=
  map (fun r => if eq_ID e' ==? eq_ID r then e' else r) l.

(** The delivery an attempt makes. *)
Definition attempt_of (e : EmailQueue) (w : World) : World * outcome unit :=
  run (sendViaSMTP cfg (e <| eq_Attempts := wrap64 (eq_Attempts e + 1) |>
                          <| eq_UpdatedAt := env_now (w_step w) |>)) (tick w).

Lemma wrap64_small z : - two63 <= z < two63 -> wrap64 z = z.
Proof. intros Hz. unfold wrap64. rewrite Z.mod_small; unfold two63, two64 in *; lia. Qed.

Lemma attempt_db e w : (attempt_of e w).2 <> Panic /\ w_db (attempt_of e w).1 = w_db w.
Proof using Type.
  unfold attempt_of. split; [apply safe_sendViaSMTP|].
  exact (keeps_sendViaSMTP cfg (fun db => db) _ _ _ _ (surjective_pairing _)).
Qed.

Lemma processEmail_run e w :
  0 <= eq_Attempts e < two63 - 1 ->
  (exists r, r ∈ db_emailQueue (w_db w) /\ eq_ID r = eq_ID e) ->
  let delivery := attempt_of e w in
  let e' := attempt_row e (w_step delivery.1) delivery.2 in
  exists w',
    run (processEmail cfg e) w =
      (w', match delivery.2 with Err err => Err (EWrap "SMTP send failed" err) | o => o end) /\
    w_db w' = (w_db w) <| db_emailQueue := replace_row e' (db_emailQueue (w_db w)) |> /\
    w_outbox w' = w_outbox delivery.1.
Proof using no_fault.
  intros Ha Hrow. cbv zeta. unfold processEmail. rewrite run_bind, run_Now. cbv beta iota zeta.
  rewrite run_bind, run_attempt. change (run (sendViaSMTP cfg _) (tick w)) with (attempt_of e w).
  destruct (attempt_db e w) as [Hs Hk].
  destruct (attempt_of e w) as [w1 [u|err|]]; [| |by destruct Hs]; cbn [fst snd] in *;
    unfold attempt_row.
  - rewrite run_bind, run_Now. cbv beta iota zeta. rewrite run_bind. unfold wrap. rewrite run_map_err.
    rewrite run_Save_email; [|apply no_fault|].
    2: { change (w_db (tick w1)) with (w_db w1). by rewrite Hk. }
    cbv beta iota zeta. destruct u. eexists. split; [reflexivity|].
    unfold wrote, replace_row. simpl. rewrite Hk, wrap64_small by (unfold two63 in *; lia). done.
  - rewrite run_bind. simpl eq_Attempts. simpl eq_MaxAttempts.
    rewrite wrap64_small by (unfold two63 in *; lia).
    destruct (eq_Attempts e + 1 <? eq_MaxAttempts e) eqn:Hlt.
    + rewrite run_bind, run_Now. cbv beta iota zeta. rewrite run_bind.
      unfold backoff. replace (eq_Attempts e + 1 - 1) with (eq_Attempts e) by lia.
      replace (eq_Attempts e <? 0) with false by (symmetry; apply Z.ltb_ge; lia).
      unfold or_panic. rewrite !run_ret. cbv beta iota. rewrite run_bind, run_ignore.
      rewrite run_Save_email; [|apply no_fault|].
      2: { change (w_db (tick w1)) with (w_db w1). by rewrite Hk. }
      cbv beta iota zeta. eexists. split; [reflexivity|].
      unfold wrote, replace_row. simpl. by rewrite Hk.
    + rewrite run_ret. cbv beta iota. rewrite run_bind, run_ignore.
      rewrite run_Save_email; [|apply no_fault|by rewrite Hk].
      cbv beta iota zeta. eexists. split; [reflexivity|].
      unfold wrote, replace_row. simpl. by rewrite Hk.
Qed.

(** C28: one attempt, outcome by outcome, as the exact row it leaves,
    [attempt_row]. The attempt is counted. When the delivery succeeds the
    row is marked sent, at the clock's reading after it, and its bodies are
    cleared. When it fails the row keeps the error and, while attempts
    remain, is pending again, scheduled at the clock's reading after the
    delivery plus one minute, doubled for every earlier attempt; otherwise
    it is marked failed. Every other field of the row is the one the worker
    was given, no other row changes, and no other table. *)
Theorem processEmail_spec e w :
  0 <= eq_Attempts e < two63 - 1 ->
  (exists r, r ∈ db_emailQueue (w_db w) /\ eq_ID r = eq_ID e) ->
  let delivery := attempt_of e w in
  let e' := attempt_row e (w_step delivery.1) delivery.2 in
  (exists w',
     run (processEmail cfg e) w =
       (w', match delivery.2 with Err err => Err (EWrap "SMTP send failed" err) | o => o end) /\
     w_db w' = (w_db w) <| db_emailQueue := replace_row e' (db_emailQueue (w_db w)) |> /\
     w_outbox w' = w_outbox delivery.1) /\
  delivery.2 <> Panic /\
  (forall err, delivery.2 = Err err -> eq_Attempts e + 1 < eq_MaxAttempts e -> eq_Attempts e <= 27 ->
     eq_ScheduledAt e' = env_now (w_step delivery.1) + minute * 2 ^ eq_Attempts e).
Proof using no_fault.
  intros Ha Hrow delivery e'. split; [by apply processEmail_run|]. split; [apply attempt_db|].
  intros err He Hlt Hle. subst e'. rewrite He. unfold attempt_row.
  rewrite (proj2 (Z.ltb_lt _ _) Hlt). simpl. by rewrite backoff_doubles by lia.
Qed.

(** ** The queue is worked off *)

(** Not yet sent or given up. *)
Definition live (e : EmailQueue) : bool :=
  (eq_Status e ==? "pending") || (eq_Status e ==? "sending").
Definition attempts_left (e : EmailQueue) : nat :=
  if live e then Z.to_nat (eq_MaxAttempts e - eq_Attempts e) else 0.
(** The attempts the queue can still take. *)
Definition backlog (l : list EmailQueue) : nat := sum_list_with attempts_left l.

(** What holds of rows the service writes. *)
Definition row_ok (e : EmailQueue) : Prop :=
  0 <= eq_Attempts e /\ eq_Attempts e <= eq_MaxAttempts e < two63 - 1 /\
  (live e = true -> eq_Attempts e < eq_MaxAttempts e).
Definition queue_ok (l : list EmailQueue) : Prop := unique_ids l /\ Forall row_ok l.

Lemma replace_row_ids e' l : map eq_ID (replace_row e' l) = map eq_ID l.
Proof.
  unfold replace_row. rewrite map_map. apply map_ext. intros r.
  destruct (eq_ID e' ==? eq_ID r) eqn:E; [|done]. by apply bool_decide_eq_true in E.
Qed.

Lemma elem_of_replace_row e' l x :
  x ∈ replace_row e' l -> x = e' \/ (x ∈ l /\ eq_ID x <> eq_ID e').
Proof.
  unfold replace_row. intros (r & -> & Hr)%list_elem_of_fmap.
  case_bool_decide; [by left|right]. split; [done|congruence].
Qed.
Lemma replace_row_other e' l x : x ∈ l -> eq_ID x <> eq_ID e' -> x ∈ replace_row e' l.
Proof.
  intros Hx Hne. apply list_elem_of_fmap. exists x. split; [|done].
  by rewrite bool_decide_eq_false_2.
Qed.

Lemma backlog_replace e e' l :
  unique_ids l -> e ∈ l -> eq_ID e' = eq_ID e ->
  (backlog (replace_row e' l) + attempts_left e = backlog l + attempts_left e')%nat.
Proof.
  unfold unique_ids, backlog, replace_row. intros Hu He Hid. rewrite Hid.
  induction l as [|x l IH]; [by apply elem_of_nil in He|].
  cbn in Hu. apply NoDup_cons in Hu as [Hn Hu]. apply elem_of_cons in He as [<-|He]; cbn.
  - rewrite bool_decide_eq_true_2 by done.
    assert (map (fun r => if eq_ID e ==? eq_ID r then e' else r) l = l) as ->; [|lia].
    transitivity (map id l); [|by rewrite map_id]. apply map_ext_in. intros r Hr.
    rewrite bool_decide_eq_false_2; [done|]. intros E. destruct Hn. rewrite E.
    by apply list_elem_of_fmap_2, list_elem_of_In.
  - rewrite bool_decide_eq_false_2; [specialize (IH Hu He); lia|].
    intros E. destruct Hn. rewrite <-E. by apply list_elem_of_fmap_2.
Qed.

(** An attempt on a live row keeps the invariant and uses one attempt up. *)
Lemma attempt_progress e n o l :
  queue_ok l -> e ∈ l -> live e = true -> o <> Panic ->
  let e' := attempt_row e n o in
  queue_ok (replace_row e' l) /\ (backlog (replace_row e' l) < backlog l)%nat.
Proof using Type.
  intros [Hu Hok] He Hl Ho e'. destruct (attempt_row_same e n o) as [Hid _]. fold e' in Hid.
  assert (row_ok e) as (Ha & Hm & Hlt) by (by rewrite Forall_forall in Hok; apply Hok).
  specialize (Hlt Hl).
  assert (row_ok e' /\ (attempts_left e' < attempts_left e)%nat) as [Hok' Hleft].
  { unfold row_ok, attempts_left. rewrite Hl. subst e'. destruct o as [u|err|]; [| |done].
    - simpl. repeat split; [lia..|done|lia].
    - unfold attempt_row. destruct (eq_Attempts e + 1 <? eq_MaxAttempts e) eqn:E; simpl.
      + apply Z.ltb_lt in E. repeat split; lia.
      + repeat split; [lia..|done|lia]. }
  pose proof (backlog_replace e e' l Hu He Hid). split; [|lia]. split.
  - unfold unique_ids. by rewrite replace_row_ids.
  - apply Forall_forall. intros x Hx. apply elem_of_replace_row in Hx as [->|[Hx _]]; [done|].
    by rewrite Forall_forall in Hok; apply Hok.
Qed.

Lemma process_all_progress batch w :
  queue_ok (db_emailQueue (w_db w)) -> NoDup (map eq_ID batch) ->
  (forall e, e ∈ batch -> e ∈ db_emailQueue (w_db w) /\ live e = true) ->
  exists w',
    run (process_all cfg batch) w = (w', Ok tt) /\
    queue_ok (db_emailQueue (w_db w')) /\
    map eq_ID (db_emailQueue (w_db w')) = map eq_ID (db_emailQueue (w_db w)) /\
    (backlog (db_emailQueue (w_db w')) + length batch <= backlog (db_emailQueue (w_db w)))%nat.
Proof using no_fault.
  revert w. induction batch as [|e batch IH]; intros w Hok Hnd Hb.
  - exists w. split; [done|]. simpl. split; [done|]. split; [done|lia].
  - destruct (Hb e ltac:(left)) as [He Hl].
    assert (row_ok e) as Hr by (destruct Hok as [_ Hok]; by rewrite Forall_forall in Hok; apply Hok).
    destruct (processEmail_run e w) as (w1 & Hrun & Hdb & _).
    { destruct Hr as (? & ? & ?). lia. }
    { by exists e. }
    destruct (attempt_db e w) as [Hnp _].
    destruct (attempt_progress e (w_step (attempt_of e w).1) _ _ Hok He Hl Hnp) as [Hok1 Hlt].
    destruct (attempt_row_same e (w_step (attempt_of e w).1) (attempt_of e w).2) as [Hid _].
    set (e' := attempt_row e _ _) in *.
    assert (db_emailQueue (w_db w1) = replace_row e' (db_emailQueue (w_db w))) as Hq by (by rewrite Hdb).
    cbn in Hnd. apply NoDup_cons in Hnd as [Hn Hnd].
    destruct (IH w1) as (w' & Hrun' & Hok' & Hids & Hle).
    { by rewrite Hq. }
    { done. }
    { intros x Hx. destruct (Hb x ltac:(by right)). split; [|done]. rewrite Hq.
      apply replace_row_other; [done|]. rewrite Hid. intros E. destruct Hn. rewrite <-E.
      by apply list_elem_of_fmap_2. }
    exists w'. cbn [process_all]. rewrite run_bind, run_ignore, Hrun.
    destruct (attempt_db e w) as [Hs _]. destruct (attempt_of e w).2; [| |done];
      (split; [exact Hrun'|]; split; [done|]; rewrite Hids, Hq, replace_row_ids; split; [done|];
       rewrite Hq in Hle; simpl; lia).
Qed.

Lemma due_live now e : due now e = true -> live e = true.
Proof. unfold due, live, emailStatusPending, emailStatusSending. by do 2 case_bool_decide. Qed.

(** A claim uses no attempt up. *)
Lemma claim_due_backlog now limit l :
  queue_ok l ->
  let r := claim_due now limit l in
  queue_ok r.1 /\ map eq_ID r.1 = map eq_ID l /\ backlog r.1 = backlog l /\
  NoDup (map eq_ID r.2) /\ (forall e, e ∈ r.2 -> e ∈ r.1 /\ live e = true).
Proof using Type.
  intros [Hu Hok] r.
  destruct (claim_due_spec now limit l Hu) as (_ & Hnd & Hfrom & Hkept & _). fold r in Hnd, Hfrom, Hkept.
  assert (map eq_ID r.1 = map eq_ID l) as Hids.
  { unfold r. rewrite claim_due_table, map_map. apply map_ext. intros e.
    by destruct (is_picked now limit l e). }
  assert (forall e, e ∈ l -> is_picked now limit l e = true -> live e = true) as Hlive.
  { intros e He Hp%is_picked_spec; [|done..]. eapply due_live. by eapply picked_due. }
  split; [split|split; [done|split; [|split; [done|]]]].
  - unfold unique_ids. by rewrite Hids.
  - apply Forall_forall. unfold r. rewrite claim_due_table.
    intros x (e & -> & He)%list_elem_of_fmap. rewrite Forall_forall in Hok.
    destruct (Hok e He) as (Ha & Hm & Hlt).
    destruct (is_picked now limit l e) eqn:E; [|done]. specialize (Hlt (Hlive e He E)). done.
  - unfold r, backlog. rewrite claim_due_table.
    assert (forall p : EmailQueue -> bool, (forall e, e ∈ l -> p e = true -> live e = true) ->
      sum_list_with attempts_left (map (fun e => if p e then claim now e else e) l)
      = sum_list_with attempts_left l) as Hsum; [|by apply Hsum].
    intros p. clear. induction l as [|e l IH]; intros Hp; [done|]. simpl.
    rewrite IH by (intros x Hx; apply Hp; by right). f_equal.
    destruct (p e) eqn:E; [|done]. unfold attempts_left. by rewrite (Hp e ltac:(left) E).
  - intros x Hx. destruct (Hfrom x Hx) as (e & He & Hd & ->). split; [|done].
    destruct (Hkept e He) as [Hin|[_ Hin]]; [|done].
    unfold r in Hx |- *. rewrite claim_due_returned in Hx. rewrite claim_due_table.
    apply list_elem_of_fmap in Hx as (e0 & E & [Hp He0]%list_elem_of_filter).
    apply list_elem_of_fmap. exists e0. split; [|done].
    by rewrite (proj1 (Is_true_true _) Hp).
Qed.

Lemma claim_due_nonempty now limit l e :
  unique_ids l -> 0 < limit -> e ∈ l -> due now e = true -> (0 < length (claim_due now limit l).2)%nat.
Proof using Type.
  intros Hu Hlim He Hd. destruct (claim_due_spec now limit l Hu) as (_ & _ & _ & _ & Hout).
  destruct (claim_due now limit l).2 as [|x r2] eqn:E; [|simpl; lia].
  destruct (Hout e He Hd) as [Hlen _]; [by intros ?%elem_of_nil|]. simpl in Hlen. lia.
Qed.

(** One run of the worker. *)
Lemma ProcessQueue_progress w :
  queue_ok (db_emailQueue (w_db w)) ->
  exists w',
    run (ProcessQueue cfg) w = (w', Ok tt) /\
    queue_ok (db_emailQueue (w_db w')) /\
    map eq_ID (db_emailQueue (w_db w')) = map eq_ID (db_emailQueue (w_db w)) /\
    (backlog (db_emailQueue (w_db w')) <= backlog (db_emailQueue (w_db w)))%nat /\
    ((exists e, e ∈ db_emailQueue (w_db w) /\ due (env_now (w_step w)) e = true) ->
     (backlog (db_emailQueue (w_db w')) < backlog (db_emailQueue (w_db w)))%nat).
Proof using no_fault.
  intros Hok. set (r := claim_due (env_now (w_step w)) 100 (db_emailQueue (w_db w))).
  destruct (claim_due_backlog (env_now (w_step w)) 100 _ Hok) as (Hok1 & Hids & Hbl & Hnd & Hb).
  fold r in Hok1, Hids, Hbl, Hnd, Hb.
  assert (run (GetPendingEmails 100) w = (wrote r.1 (tick w), Ok r.2)) as Hclaim.
  { unfold GetPendingEmails, wrap. rewrite run_bind, run_Now. cbv beta iota.
    rewrite run_map_err, run_Stmt, no_fault. reflexivity. }
  destruct (process_all_progress r.2 (wrote r.1 (tick w))) as (w' & Hrun & Hok' & Hids' & Hle); [done..|].
  exists w'. split.
  { unfold ProcessQueue, wrap. rewrite run_bind, run_map_err, Hclaim. exact Hrun. }
  change (db_emailQueue (w_db (wrote r.1 (tick w)))) with r.1 in *.
  split; [done|]. split; [congruence|]. split; [lia|].
  intros (e & He & Hd). destruct Hok as [Hu _].
  pose proof (claim_due_nonempty (env_now (w_step w)) 100 _ e Hu ltac:(lia) He Hd) as Hlen.
  fold r in Hlen. lia.
Qed.

(** Time passes between two runs. *)
Definition idle (w w' : World) : Prop := w_db w' = w_db w /\ (w_step w <= w_step w')%nat.

(** [k] runs of the worker, each of which finds an email to send. *)
Inductive rounds : nat -> World -> World -> Prop :=
| rounds_O w : rounds 0 w w
| rounds_S k w w1 w2 w3 :
    idle w w1 ->
    (exists e, e ∈ db_emailQueue (w_db w1) /\ due (env_now (w_step w1)) e = true) ->
    run (ProcessQueue cfg) w1 = (w2, Ok tt) -> rounds k w2 w3 -> rounds (S k) w w3.

Lemma rounds_backlog k w w' :
  rounds k w w' -> queue_ok (db_emailQueue (w_db w)) ->
  queue_ok (db_emailQueue (w_db w')) /\
  map eq_ID (db_emailQueue (w_db w')) = map eq_ID (db_emailQueue (w_db w)) /\
  (k + backlog (db_emailQueue (w_db w')) <= backlog (db_emailQueue (w_db w)))%nat.
Proof using no_fault.
  induction 1 as [w|k w w1 w2 w3 [Hdb _] Hdue Hrun _ IH]; intros Hok; [done|].
  rewrite <-Hdb in Hok.
  destruct (ProcessQueue_progress w1 Hok) as (w2' & Hrun' & Hok2 & Hids & _ & Hlt).
  rewrite Hrun in Hrun'. injection Hrun' as <-. specialize (Hlt Hdue).
  destruct (IH Hok2) as (? & Hids' & ?). rewrite Hdb in *. split; [done|]. split; [congruence|lia].
Qed.

Definition settled (w : World) : Prop :=
  Forall (fun e => live e = false /\ eq_Attempts e <= eq_MaxAttempts e) (db_emailQueue (w_db w)).

Lemma live_due_later e w :
  (forall t n, exists m, (n <= m)%nat /\ t <= env_now m) -> live e = true ->
  exists w', idle w w' /\ due (env_now (w_step w')) e = true.
Proof using Type.
  intros Hclock Hl.
  destruct (Hclock (Z.max (eq_ScheduledAt e) (eq_UpdatedAt e + staleSendingAfter + 1)) (w_step w)) as (m & Hm & Ht).
  exists (w <| w_step := m |>). split; [done|]. unfold due, live in *. simpl.
  apply orb_true_iff in Hl. unfold emailStatusPending, emailStatusSending.
  apply orb_true_iff. rewrite !andb_true_iff. destruct Hl as [->| ->]; [left|right]; split; try done.
  - apply Z.leb_le. lia.
  - apply Z.ltb_lt. lia.
Qed.

(** C26: the queue is worked off. When statements do not fail and the clock
    goes on, the worker, run again and again, comes to a state in which every
    email is sent or given up, none was tried more often than its limit and
    none was lost; and however the runs are spaced, at most as many of them
    find something to do as there were attempts left. *)
Theorem queue_drains w :
  (forall t n, exists m, (n <= m)%nat /\ t <= env_now m) ->
  queue_ok (db_emailQueue (w_db w)) ->
  (forall k w', rounds k w w' -> (k <= backlog (db_emailQueue (w_db w)))%nat) /\
  exists k w', rounds k w w' /\ settled w' /\
    map eq_ID (db_emailQueue (w_db w')) = map eq_ID (db_emailQueue (w_db w)).
Proof using no_fault.
  intros Hclock Hok. split.
  { intros k w' Hr. apply rounds_backlog in Hr; [|done]. lia. }
  remember (backlog (db_emailQueue (w_db w))) as n eqn:En. revert w Hok En.
  induction n as [n IH] using lt_wf_ind. intros w Hok En.
  destruct (decide (Forall (fun e => live e = false) (db_emailQueue (w_db w)))) as [Hd|Hd].
  - exists 0%nat, w. split; [constructor|]. split; [|done]. unfold settled.
    destruct Hok as [_ Hok]. rewrite !Forall_forall in *. intros e He. split; [by apply Hd|].
    destruct (Hok e He) as (_ & ? & _). lia.
  - apply not_Forall_Exists in Hd; [|intros e; solve_decision]. apply Exists_exists in Hd as (e & He & Hl).
    apply not_false_iff_true in Hl. destruct (live_due_later e w Hclock Hl) as (w1 & [Hdb Hst] & Hdue).
    rewrite <-Hdb in *.
    destruct (ProcessQueue_progress w1 Hok) as (w2 & Hrun & Hok2 & Hids & _ & Hlt).
    destruct (IH (backlog (db_emailQueue (w_db w2)))) with (w := w2) as (k & w3 & Hr & Hs & Hids3); [|done..|].
    { rewrite En. apply Hlt. by exists e. }
    exists (S k), w3. split; [|split; [done|congruence]].
    eapply rounds_S; [split; [exact Hdb|exact Hst]|by exists e|exact Hrun|exact Hr].
Qed.
End Processing.

(** A server that accepts everything, one that cannot be reached and one
    that takes the whole message and refuses it at its end. *)
Definition accepting_server : SmtpServer := {| smtp_answer _ _ := None; smtp_STARTTLS _ := true |}.
Definition dead_server : SmtpServer :=
  {| smtp_answer _ _ := Some (EExternal "connection refused"); smtp_STARTTLS _ := false |}.
Definition refusing_server : SmtpServer :=
  {| smtp_answer _ c := match c with CloseData => Some (EExternal "550 spam") | _ => None end;
     smtp_STARTTLS _ := true |}.
Definition mail_config : Config := example_config <| cfg_SMTPHost := "mx.sg" |>.

Lemma example_clock : forall t n, exists m, (n <= m)%nat /\ t <= @env_now example_env m.
Proof.
  intros t n. exists (n + Z.to_nat t)%nat. split; [lia|]. unfold env_now, example_env, epoch, second. lia.
Qed.

Lemma example_queue_ok : queue_ok example_queue.
Proof.
  split; [apply example_queue_unique|].
  repeat constructor; simpl; try lia; unfold two63; simpl; lia.
Qed.

(** The second attempt fails: the email is tried again two minutes later. *)
Lemma processEmail_spec_witness :
  let e := claim epoch (example_email 91 "pending" 1 1 epoch epoch) in
  exists w' e',
    run (@processEmail example_env dead_server example_mime mail_config e) (queue_world [e]) =
      (w', Err (EWrap "SMTP send failed" (EWrap "SMTP dial failed" (EExternal "connection refused")))) /\
    db_emailQueue (w_db w') = [e'] /\ eq_Status e' = "pending" /\ eq_Attempts e' = 2 /\
    eq_ScheduledAt e' = epoch + 3 * second + 2 * minute.
Proof.
  intros e.
  destruct (@processEmail_spec example_env dead_server example_mime mail_config (fun _ => eq_refl)
              e (queue_world [e])) as ((w' & Hrun & Hdb & _) & _).
  { vm_compute. split; [discriminate|reflexivity]. }
  { exists e. split; [left|done]. }
  set (p := attempt_of _ _ _) in *.
  assert (Hq : db_emailQueue (w_db w') = [attempt_row e 3 p.2])
    by (rewrite Hdb; vm_compute; reflexivity).
  clear Hdb. exists w', (attempt_row e 3 p.2). vm_compute in p. split; [exact Hrun|].
  split; [exact Hq|]. vm_compute. repeat split.
Defined.

Lemma queue_drains_witness :
  (forall k w', @rounds example_env dead_server example_mime mail_config k (queue_world example_queue) w' -> (k <= 6)%nat) /\
  exists k w', @rounds example_env dead_server example_mime mail_config k (queue_world example_queue) w' /\
    settled w' /\ map eq_ID (db_emailQueue (w_db w')) = [90%N; 91%N; 92%N].
Proof.
  exact (@queue_drains example_env dead_server example_mime mail_config (fun _ => eq_refl)
           (queue_world example_queue) example_clock example_queue_ok).
Defined.
