(* ===== verification/EmailSpec.v ===== *)
(** What the email service promises its callers: the row an email is queued
    as, what reaches the SMTP server and when, and retrying failed emails. *)
From S2P Require Import Prelude GoStd StringFacts Models Effects Store Repos EmailRepos Libraries Frame.
From S2P Require Import EmailService Examples AuthSpec MailSpec QueueSpec.
From stdpp Require Import gmap.

Open Scope Z_scope.

(** ** Queueing *)

Section Queueing.
Context `{Env} `{MapOrderLaws} (cfg : Config).

(** The template an email is rendered from: the tenant's own, or else the
    built-in one. *)
Definition template_of (tenantID : uuid) (name : string) (db : DB) (t : EmailTemplate) : Prop :=
  match first_where (EmailTemplateRepo.named tenantID name) (db_emailTemplates db) with
  | Some own => t = own
  | None => defaultEmailTemplates name = Some t
  end.

Lemma find_template_ok tenantID name w w' t :
  run (find_template tenantID name) w = (w', Ok t) ->
  w' = tick w /\ template_of tenantID name (w_db w) t.
Proof using Type.
  unfold find_template, template_of. rewrite run_bind, run_attempt. unfold EmailTemplateRepo.GetByName.
  rewrite run_get_by. change (rows (w_db w)) with (db_emailTemplates (w_db w)).
  destruct (env_fault (w_step w)); [done|].
  destruct (first_where (R := EmailTemplate) _ _) as [own|]; cbv beta iota.
  - by intros [-> ->]%ok_ret.
  - change (errors_Is ErrResourceNotFound ErrResourceNotFound) with true. cbv iota.
    destruct (defaultEmailTemplates name) as [d|]; [|done]. by intros [-> ->]%ok_ret.
Qed.

Lemma render_ok template vars escape w w' s :
  run (render template vars escape) w = (w', Ok s) ->
  w' = tick w /\ exists order, order ≡ₚ vars /\ s = processTemplate template order escape.
Proof using Type*.
  unfold render. rewrite run_bind. intros [= <- <-]. split; [done|].
  eexists. split; [apply map_range_perm|done].
Qed.

(** An email that SendEmail accepts is queued as one new row and nothing
    else changes: it comes from the tenant's template of that name, or the
    built-in one when the tenant has none, which is active; it is pending
    with no attempt made and three to come; its subject is one line; and its
    HTML body has no markup that is not in the template. *)
Theorem SendEmail_queues tenantID req w w' :
  plain_keys (se_Variables req) = true ->
  run (SendEmail cfg tenantID req) w = (w', Ok tt) ->
  exists e t,
    w_db w' = (w_db w) <| db_emailQueue := db_emailQueue (w_db w) ++ [e] |> /\
    template_of tenantID (se_Template req) (w_db w) t /\ et_IsActive t = true /\
    eq_TenantID e = tenantID /\ eq_ToEmail e = se_ToEmail req /\
    eq_Status e = "pending" /\ eq_Attempts e = 0 /\ eq_MaxAttempts e = 3 /\ 0 < eq_Priority e /\
    row_ok e /\ one_line (eq_Subject e) = true /\ markup (eq_BodyHTML e) = markup (et_BodyHTML t).
Proof using Type*.
  intros Hkeys E. unfold SendEmail in E.
  apply ok_bind in E as (t & w1 & (-> & Ht)%find_template_ok & E).
  destruct (et_IsActive t) eqn:Hact; [|done]. cbn [negb] in E.
  apply ok_bind in E as (subject & w2 & (-> & o1 & _ & Hsub)%render_ok & E).
  apply ok_bind in E as (html & w3 & (-> & o2 & Hp & Hhtml)%render_ok & E).
  apply ok_bind in E as (text & w4 & (-> & o3 & _ & Htext)%render_ok & E).
  apply ok_bind in E as (id & w5 & [-> ->]%ok_NewUUID & E).
  apply ok_bind in E as (t1 & w6 & [-> ->]%ok_Now & E).
  apply ok_bind in E as (t2 & w7 & [-> ->]%ok_Now & E).
  apply ok_bind in E as (t3 & w8 & [-> ->]%ok_Now & E).
  apply ok_bind in E as (e & w9 & Hins & [-> _]%ok_ret).
  unfold EmailQueueRepo.Create in Hins. rewrite !ok_wrap in Hins.
  apply ok_Insert in Hins as (_ & He & _ & ->). exists e, t.
  assert (0 < eq_Priority e) as Hprio.
  { rewrite He. simpl. destruct (se_Priority req <=? 0) eqn:E; [done|].
    apply Z.leb_gt in E. destruct (se_Priority req =? 0) eqn:E0; [done|lia]. }
  assert (row_ok e) as Hrow.
  { rewrite He. repeat split; simpl; try lia; unfold two63; simpl; lia. }
  assert (markup (eq_BodyHTML e) = markup (et_BodyHTML t)) as Hm.
  { rewrite He. simpl. rewrite Hhtml. apply processTemplate_markup_keys.
    unfold plain_keys. by rewrite (forallb_perm _ _ _ Hp). }
  assert (one_line (eq_Subject e) = true) as Hline.
  { rewrite He. simpl. apply sanitizeHeader_one_line. }
  clear Hhtml Hp. subst e. by repeat split.
Qed.
End Queueing.

Lemma SendEmail_queues_witness :
  let req := MkSendEmailRequest "eve@sg" "Eve" "password_changed" [("user_name", "<b>Eve</b>")] 1 in
  exists w' e t,
    run (@SendEmail example_env example_order mail_config 1 req) (queue_world []) = (w', Ok tt) /\
    defaultEmailTemplates "password_changed" = Some t /\
    db_emailQueue (w_db w') = [e] /\ markup (eq_BodyHTML e) = markup (et_BodyHTML t).
Proof.
  intros req. destruct (run (@SendEmail example_env example_order mail_config 1 req) (queue_world []))
    as [w' [u| |]] eqn:E; [|exfalso; vm_compute in E; discriminate E..].
  destruct (@SendEmail_queues example_env example_order example_order_laws mail_config 1 req (queue_world []) w')
    as (e & t & Hdb & Ht & _ & _ & _ & _ & _ & _ & _ & _ & _ & Hm); [reflexivity|by destruct u|].
  exists w', e, t. split; [by destruct u|]. split; [exact Ht|]. rewrite Hdb. split; [reflexivity|exact Hm].
Defined.

(** ** Delivery *)

Section Delivered.
Context `{Env} `{SmtpServer} `{MimeLib} (cfg : Config).

(** Steps that hand nothing to the server. *)
Definition quiet {A} (p : prog A) : Prop :=
  forall w w' o, run p w = (w', o) -> w_outbox w' = w_outbox w.

Lemma quiet_bind {A B} (p : prog A) (f : A -> prog B) :
  quiet p -> (forall a, quiet (f a)) -> quiet (p ≫= f).
Proof.
  intros Hp Hf w w' o. rewrite run_bind. destruct (run p w) as [w1 [a|e|]] eqn:E; apply Hp in E.
  - intros E'%Hf. congruence.
  - by intros [= <- <-].
  - by intros [= <- <-].
Qed.
Lemma quiet_wrap {A} msg (p : prog A) : quiet p -> quiet (wrap msg p).
Proof.
  intros Hp w w' o. unfold wrap. rewrite run_map_err.
  destruct (run p w) as [w1 [a|e|]] eqn:E; apply Hp in E; by intros [= <- <-].
Qed.
Definition answered (answer : option error) : outcome unit :=
  match answer with Some e => Err e | None => Ok tt end.
Lemma run_smtp c w : run (smtp c) w = (tick w, answered (smtp_answer (w_step w) c)).
Proof. unfold smtp, run. simpl. by destruct (smtp_answer (w_step w) c). Qed.
Lemma run_close_data from to msg written w :
  run (close_data from to msg written) w =
  (match smtp_answer (w_step w) CloseData with
   | None => if written : bool then tick w <| w_outbox := w_outbox w ++ [(from, to, msg)] |> else tick w
   | Some _ => tick w
   end, answered (smtp_answer (w_step w) CloseData)).
Proof. unfold close_data, run. simpl. by destruct (smtp_answer (w_step w) CloseData), written. Qed.

Lemma quiet_smtp c : quiet (smtp c).
Proof. intros w w' o. rewrite run_smtp. by intros [= <- <-]. Qed.
Lemma quiet_ret {A} (a : A) : quiet (mret a).
Proof. by intros w w' o [= <- _]. Qed.

(** What a delivery of [msg] did to the outbox. *)
Definition delivered_once (to msg : string) (w w' : World) (o : outcome unit) : Prop :=
  match o with
  | Ok _ => w_outbox w' = w_outbox w ++ [(cfg_SMTPFrom cfg, to, msg)] \/
            (w_outbox w' = w_outbox w /\ exists n err, smtp_answer n CloseData = Some err)
  | Err _ => w_outbox w' = w_outbox w
  | Panic => False
  end.

Lemma delivered_after {A} (p : prog A) (f : A -> prog unit) to msg :
  quiet p -> safe p ->
  (forall a w w' o, run (f a) w = (w', o) -> delivered_once to msg w w' o) ->
  forall w w' o, run (p ≫= f) w = (w', o) -> delivered_once to msg w w' o.
Proof.
  intros Hq Hs Hf w w' o. rewrite run_bind. specialize (Hs w).
  destruct (run p w) as [w1 [a|e|]] eqn:E; [| |by destruct Hs]; apply Hq in E.
  - intros E'%Hf. unfold delivered_once in *. by rewrite <-E.
  - by intros [= <- <-].
Qed.

Lemma write_body_delivers to msg w w' o :
  run (write_body (cfg_SMTPFrom cfg) to msg) w = (w', o) -> delivered_once to msg w w' o.
Proof.
  unfold write_body. rewrite run_bind, run_attempt, run_smtp.
  destruct (smtp_answer (w_step w) (Write msg)) as [err|]; cbn [answered]; cbv beta iota;
    rewrite run_bind, run_ignore, run_close_data;
    destruct (smtp_answer (w_step (tick w)) CloseData) as [err2|] eqn:E;
    cbn [answered from_sum]; intros [= <- <-]; simpl; eauto.
Qed.

Lemma session_delivers host to msg w w' o :
  run (smtp_session cfg host to msg) w = (w', o) -> delivered_once to msg w w' o.
Proof.
  unfold smtp_session, smtp_auth. revert w w' o.
  apply delivered_after; [by case_match; [apply quiet_wrap, quiet_smtp|apply quiet_ret]| |intros _].
  { case_match; [apply safe_wrap, safe_smtp|done]. }
  do 3 (apply delivered_after; [apply quiet_wrap, quiet_smtp|apply safe_wrap, safe_smtp|intros _]).
  apply write_body_delivers.
Qed.

Lemma deferring_delivers to msg (p : prog unit) :
  (forall w w' o, run p w = (w', o) -> delivered_once to msg w w' o) ->
  forall w w' o, run (deferring (smtp SmtpQuit) p) w = (w', o) -> delivered_once to msg w w' o.
Proof.
  intros Hp w w' o. unfold deferring. rewrite run_bind, run_attempt.
  destruct (run p w) as [w1 [a|e|]] eqn:E; apply Hp in E; [| |done]; cbv beta iota;
    rewrite run_bind, run_ignore, run_smtp;
    destruct (smtp_answer (w_step w1) SmtpQuit) as [err|]; cbn [answered from_sum];
    by intros [= <- <-].
Qed.

(** C29: an email is handed to the server at most once per attempt, as the
    message built for it, from the configured address to the address of the
    row, and never when the attempt reports an error. An attempt that reports
    success has handed it over, unless the server refused the message at its
    end: that answer is discarded. *)
Theorem sendViaSMTP_delivers e w w' o :
  cfg_SMTPHost cfg <> "" -> run (sendViaSMTP cfg e) w = (w', o) ->
  exists from to msg,
    run (buildMIMEMessage from to (eq_Subject e) (eq_BodyHTML e) (eq_BodyText e)) w = (tick w, Ok msg) /\
    delivered_once (eq_ToEmail e) msg w w' o.
Proof.
  intros Hhost. unfold sendViaSMTP. rewrite bool_decide_eq_false_2 by done. cbv zeta iota.
  set (from := address _ _). set (to := if eq_ToName e !=? "" then address (eq_ToName e) (eq_ToEmail e) else eq_ToEmail e).
  rewrite run_bind.
  destruct (run (buildMIMEMessage from to (eq_Subject e) (eq_BodyHTML e) (eq_BodyText e)) w)
    as [w1 o1] eqn:E1.
  unfold buildMIMEMessage in E1. rewrite run_bind, run_Now in E1. injection E1 as <- <-.
  cbv beta iota. intros E. exists from, to.
  eexists. split; [unfold buildMIMEMessage; rewrite run_bind, run_Now; reflexivity|].
  set (msg := mime_message _ _ _ _ _ _) in *.
  change (delivered_once (eq_ToEmail e) msg (tick w) w' o). revert E. generalize (tick w). intros w0.
  revert w0 w' o. destruct (cfg_SMTPUseTLS cfg).
  - do 2 (apply delivered_after; [apply quiet_wrap, quiet_smtp|apply safe_wrap, safe_smtp|intros _]).
    apply deferring_delivers. intros *. apply session_delivers.
  - apply delivered_after; [apply quiet_wrap, quiet_smtp|apply safe_wrap, safe_smtp|intros _].
    apply deferring_delivers.
    apply delivered_after; [by intros w0 w1 o [= <- _]|done|intros offered].
    apply delivered_after; [| |intros _; intros *; apply session_delivers];
      destruct offered; first [apply quiet_wrap, quiet_smtp | apply quiet_ret
                              | apply safe_wrap, safe_smtp | done].
Qed.
End Delivered.

Lemma sendViaSMTP_delivers_witness :
  exists w' msg,
    run (@sendViaSMTP example_env accepting_server example_mime mail_config
           (example_email 90 "sending" 5 1 epoch epoch)) (queue_world []) = (w', Ok tt) /\
    w_outbox w' = [("no-reply@sg", "a@b", msg)].
Proof.
  destruct (run (@sendViaSMTP example_env accepting_server example_mime mail_config
              (example_email 90 "sending" 5 1 epoch epoch)) (queue_world [])) as [w' o] eqn:E.
  destruct (@sendViaSMTP_delivers example_env accepting_server example_mime mail_config _ _ _ _
              ltac:(discriminate) E) as (from & to & msg & _ & Hd).
  destruct o as [u| |]; [|exfalso; vm_compute in E; discriminate E..].
  exists w', msg. split; [by destruct u|]. destruct Hd as [Hd|(_ & n & err & Hn)]; [exact Hd|discriminate Hn].
Defined.

(** A message the server refuses at its end is lost: the row is marked
    sent, its bodies are cleared, and nothing was delivered. *)
Theorem processEmail_lost :
  exists w' e',
    run (@processEmail example_env refusing_server example_mime mail_config
           (EmailQueueRepo.claim epoch (example_email 90 "pending" 5 0 epoch epoch)))
        (queue_world [EmailQueueRepo.claim epoch (example_email 90 "pending" 5 0 epoch epoch)]) = (w', Ok tt) /\
    db_emailQueue (w_db w') = [e'] /\ eq_Status e' = "sent" /\ eq_BodyText e' = "" /\ w_outbox w' = [].
Proof.
  eexists _, _. split; [vm_compute; reflexivity|]. split; [reflexivity|]. done.
Qed.

(** ** Retrying *)

(** RetryFailedEmails retries nothing when it is called with a limit
    within the one the emails were queued with: an email fails only when its
    attempts are used up, and the query asks for fewer attempts than the
    limit. *)
Theorem RetryFailedEmails_nothing `{Env} tenantID maxAttempts w :
  env_fault (w_step w) = false ->
  (forall e, e ∈ db_emailQueue (w_db w) -> eq_TenantID e = tenantID -> eq_Status e = "failed" ->
     maxAttempts <= eq_MaxAttempts e <= eq_Attempts e) ->
  run (RetryFailedEmails tenantID maxAttempts) w = (tick w, Ok tt).
Proof.
  intros Hf Hex. unfold RetryFailedEmails, EmailQueueRepo.GetFailedEmails, wrap.
  rewrite run_bind, !run_map_err. unfold Find. rewrite run_Stmt, Hf. cbv beta iota zeta.
  simpl snd. simpl fst. change (rows (w_db w)) with (db_emailQueue (w_db w)).
  replace (select_where _ (db_emailQueue (w_db w))) with (@nil EmailQueue); [by destruct w|].
  symmetry. destruct (select_where _ _) as [|e l] eqn:E; [done|].
  assert (e ∈ e :: l) as He by left. rewrite <-E in He.
  apply elem_of_select_where in He as (He & Hp & _).
  rewrite !andb_true_iff, !bool_decide_eq_true, Z.ltb_lt in Hp. destruct Hp as [[Ht Hs] Hlt].
  destruct (Hex e He Ht Hs). lia.
Qed.

(** The worker has used up the three attempts of an email. *)
Lemma RetryFailedEmails_nothing_witness :
  let w := queue_world [example_email 90 "failed" 5 3 epoch epoch] in
  run (@RetryFailedEmails example_env 1 3) w = (tick w, Ok tt).
Proof.
  intros w. apply (@RetryFailedEmails_nothing example_env 1 3 w eq_refl).
  intros e [->|Hn]%elem_of_cons _ _; [simpl; lia|by apply elem_of_nil in Hn].
Defined.
