(* ===== verification/RateLimitSpec.v ===== *)
(** What the rate limiter of Middleware.v promises where it is given a redis
    client. (The server never gives it one: [RoutesSpec.ServeHTTP_unlimited].) *)
From S2P Require Import Prelude GoStd StringFacts Models Effects Libraries Config Redis Http.
From S2P Require Import Middleware Examples.
From stdpp Require Import gmap.
From Stdlib Require Import Ascii.

Open Scope Z_scope.

(** ** Reading back what redis prints *)

Lemma digits_val_app a b acc :
  digits_val acc (a +:+ b) = match digits_val acc a with Some n => digits_val n b | None => None end.
Proof.
  revert acc. induction a as [|c a IH]; intros acc; [done|].
  change (String c a +:+ b) with (String c (a +:+ b)). cbn [digits_val]. by rewrite IH; destruct (is_digit c).
Qed.

Lemma digit_char d : 0 <= d < 10 -> is_digit (byte_chr (48 + d)) = true /\ byte_val (byte_chr (48 + d)) = 48 + d.
Proof.
  intros Hd. assert (d ∈ [0; 1; 2; 3; 4; 5; 6; 7; 8; 9]) as Hin.
  { rewrite !elem_of_cons. lia. }
  rewrite !elem_of_cons in Hin. repeat destruct Hin as [->|Hin]; try done. by apply elem_of_nil in Hin.
Qed.

Lemma digits_val_digits fuel z :
  0 <= z < 10 ^ Z.of_nat fuel -> (0 < fuel)%nat -> digits_val 0 (digits fuel z) = Some z.
Proof.
  revert z. induction fuel as [|fuel IH]; intros z Hz Hf; [lia|]. cbn [digits].
  rewrite digits_val_app.
  destruct (digit_char (z mod 10) (Z.mod_pos_bound z 10 ltac:(lia))) as [Hd Hv].
  rewrite Nat2Z.inj_succ, Z.pow_succ_r in Hz by lia.
  destruct (Z.ltb_spec z 10) as [Hlt|Hge].
  - cbn [digits_val]. rewrite Hd, Hv. f_equal. rewrite Z.mod_small by lia. lia.
  - assert (0 <= z / 10 < 10 ^ Z.of_nat fuel).
    { split; [apply Z.div_pos; lia|]. apply Z.div_lt_upper_bound; lia. }
    assert ((0 < fuel)%nat) by (destruct fuel; [simpl in *; lia|lia]).
    rewrite IH by done. cbn [digits_val]. rewrite Hd, Hv. f_equal.
    pose proof (Z.div_mod z 10 ltac:(lia)). lia.
Qed.

Lemma digits_head fuel z :
  0 <= z -> (0 < fuel)%nat -> exists c s, digits fuel z = String c s /\ is_digit c = true.
Proof.
  revert z. induction fuel as [|fuel IH]; intros z Hz Hf; [lia|]. cbn [digits].
  destruct (digit_char (z mod 10) (Z.mod_pos_bound z 10 ltac:(lia))) as [Hd _].
  destruct (z <? 10); [by eexists _, _|]. destruct fuel as [|fuel]; [by eexists _, _|].
  destruct (IH (z / 10)) as (c & s & -> & Hc); [apply Z.div_pos; lia|lia|]. by eexists c, _.
Qed.

(** strconv reads back a count that fits in 64 bits. *)
Lemma Atoi_format_int z : 0 <= z < two63 -> Atoi (format_int z) = Some z.
Proof.
  intros Hz. unfold format_int. rewrite (proj2 (Z.ltb_ge _ _)) by lia.
  destruct (digits_head 20 z) as (c & s & E & Hc); [lia..|].
  assert (Hv : digits_val 0 (digits 20 z) = Some z).
  { apply digits_val_digits; [|lia]. split; [lia|]. unfold two63 in Hz. lia. }
  rewrite E in *. unfold Atoi.
  assert (Hr : ((- two63 <=? z) && (z <? two63)) = true) by (unfold two63 in *; lia).
  destruct c as [[] [] [] [] [] [] [] []]; try discriminate Hc; cbv iota beta; rewrite Hv; by rewrite Hr.
Qed.

(** ** A redis server that counts *)

(** What redis documents of GET, INCR and EXPIRE, as long as it answers and
    drops no key: [counter w key] is the number stored at [key], 0 without
    one. A key with an EXPIRE of a minute that is renewed at every INCR is
    not dropped while its increments are less than a minute apart. *)
Class RedisCounters `{RedisLib} (counter : World -> string -> Z) : Prop := {
  counter_tick w key : counter (tick w) key = counter w key;
  counter_Get w key : exists w',
    run (redis_Get key) w =
      (w', Ok (if counter w key =? 0 then None else Some (format_int (counter w key)))) /\
    forall k, counter w' k = counter w k;
  counter_IncrExpire w key window : counter w key + 1 < two63 -> exists w',
    run (redis_IncrExpire key window) w = (w', Ok tt) /\
    forall k, counter w' k = counter w k + (if k ==? key then 1 else 0)
}.

Section Limiter.
Context `{Env} `{RedisLib} (counter : World -> string -> Z) `{!RedisCounters counter}.
Context (cfg : Config) (next : Handler).
#[local] Abbreviation limit := (cfg_RateLimitRequestsPerMinute cfg).

Definition key_of (c : Request) : string := RedisClient.rate_limit_key (getClientIP c).

(** The answer to a request over the limit. *)
Definition too_many (w : Response) : Response :=
  Abort (c_JSON w 429 (PRateLimit "rate_limit_exceeded"
                         "Too many requests. Please try again later." 60)).
(** The headers of a request within it, the [n]-th before it in the window. *)
Definition limit_headers (n now : Z) (w : Response) : Response :=
  Header (Header (Header w "X-RateLimit-Limit" (format_int limit))
            "X-RateLimit-Remaining" (format_int (limit - n - 1)))
    "X-RateLimit-Reset" (format_int (time_unix (now + minute))).

Lemma run_GetRateLimit ip w :
  0 <= counter w (RedisClient.rate_limit_key ip) < two63 ->
  exists w', run (RedisClient.GetRateLimit ip) w = (w', Ok (counter w (RedisClient.rate_limit_key ip))) /\
             forall k, counter w' k = counter w k.
Proof using RedisCounters0.
  intros Hr. unfold RedisClient.GetRateLimit. rewrite run_bind.
  destruct (counter_Get w (RedisClient.rate_limit_key ip)) as (w' & -> & Hk). cbv beta iota.
  exists w'. split; [|done]. destruct (Z.eqb_spec (counter w (RedisClient.rate_limit_key ip)) 0) as [->|];
    [done|]. cbv iota. by rewrite Atoi_format_int.
Qed.

(** One request: refused at the limit, counted and passed on below it. *)
Lemma run_RateLimit c w0 w :
  q_Redis c = Some true -> 0 <= counter w (key_of c) < two63 -> limit < two63 ->
  if limit <=? counter w (key_of c)
  then exists w', run (RateLimit cfg next c w0) w = (w', Ok (too_many w0)) /\
                  forall k, counter w' k = counter w k
  else exists w1 n,
         run (RateLimit cfg next c w0) w =
           run (next c (limit_headers (counter w (key_of c)) (env_now n) w0)) w1 /\
         forall k, counter w1 k = counter w k + (if k ==? key_of c then 1 else 0).
Proof using RedisCounters0.
  intros Hc Hpos Hlim. unfold RateLimit. cbv zeta. rewrite Hc, run_bind, run_attempt.
  destruct (run_GetRateLimit (getClientIP c) w) as (w1 & -> & Hk1); [done|]. cbv beta iota.
  fold (key_of c). destruct (Z.leb_spec limit (counter w (key_of c))) as [Hle|Hlt]; [by exists w1|].
  rewrite run_bind, run_ignore. unfold RedisClient.SetRateLimit. fold (key_of c).
  destruct (counter_IncrExpire w1 (key_of c) minute) as (w2 & -> & Hk2); [rewrite Hk1; lia|].
  cbv beta iota. rewrite run_bind, run_Now. cbv beta iota zeta.
  exists (tick w2), (w_step w2). split.
  - unfold wrap64. rewrite Z.mod_small by (unfold two63, two64 in *; lia).
    unfold limit_headers. by replace (limit - counter w (key_of c) - 1 + two63 - two63)
      with (limit - counter w (key_of c) - 1) by lia.
  - intros k. by rewrite counter_tick, Hk2, Hk1.
Qed.

(** The rest of the chain leaves the counters alone. *)
Hypothesis next_quiet : forall c w0 w k, counter (run (next c w0) w).1 k = counter w k.

Definition counters_ok (w : World) : Prop := forall c, 0 <= counter w (key_of c) < two63.

(** A request at the limiter, the response it was given and the outcome. *)
Definition visit : Type := Request * Response * outcome Response.

(** A history of requests to the limiter, one after another, while the
    window lasts: nothing else moves a counter. *)
Inductive visits : World -> list visit -> World -> Prop :=
| visits_none w : visits w [] w
| visits_next c w0 w w1 o h w' :
    q_Redis c = Some true -> run (RateLimit cfg next c w0) w = (w1, o) ->
    visits w1 h w' -> visits w ((c, w0, o) :: h) w'
| visits_other w w1 h w' :
    (forall k, counter w1 k = counter w k) -> visits w1 h w' -> visits w h w'.

(** The number of visits from the address of [c]. *)
Fixpoint from_ip (c : Request) (h : list visit) : Z :=
  match h with
  | [] => 0
  | (c', _, _) :: h => (if getClientIP c ==? getClientIP c' then 1 else 0) + from_ip c h
  end.

(** What becomes of a request before which [before] were counted. *)
Definition visit_ok (before : Z) (v : visit) : Prop :=
  let '(c, w0, o) := v in
  if limit <=? before then o = Ok (too_many w0)
  else exists w1 n, o = (run (next c (limit_headers before (env_now n) w0)) w1).2.

Lemma key_of_same c c' : (key_of c ==? key_of c') = (getClientIP c ==? getClientIP c').
Proof.
  apply bool_decide_ext. unfold key_of, RedisClient.rate_limit_key. split; [|by intros ->].
  apply (inj (String.append "rate_limit:")).
Qed.

Lemma from_ip_nonneg c h : 0 <= from_ip c h.
Proof. induction h as [|[[c' w0] o] h IH]; cbn; [lia|]. destruct (_ ==? _); lia. Qed.

(** What one visit does to the counters. *)
Lemma visit_step c w0 w w1 o :
  limit < two63 -> counters_ok w -> q_Redis c = Some true ->
  run (RateLimit cfg next c w0) w = (w1, o) ->
  visit_ok (counter w (key_of c)) (c, w0, o) /\
  forall c', counter w1 (key_of c') = counter w (key_of c') +
    (if (getClientIP c' ==? getClientIP c) && negb (limit <=? counter w (key_of c)) then 1 else 0).
Proof using RedisCounters0 next_quiet.
  intros Hlim Hw Hc Hrun. pose proof (run_RateLimit c w0 w Hc (Hw _) Hlim) as Hone. unfold visit_ok.
  destruct (limit <=? counter w (key_of c)).
  - destruct Hone as (w2 & E & Hk). rewrite E in Hrun. injection Hrun as <- <-. split; [done|].
    intros c'. rewrite andb_false_r, Hk. lia.
  - destruct Hone as (w2 & n & E & Hk). rewrite E in Hrun. split.
    + exists w2, n. by rewrite Hrun.
    + intros c'. pose proof (next_quiet c (limit_headers (counter w (key_of c)) (env_now n) w0) w2
        (key_of c')) as Hq. rewrite Hrun in Hq. cbn [fst] in Hq.
      by rewrite Hq, Hk, key_of_same, andb_true_r.
Qed.

Lemma visit_step_ok w w1 c :
  limit < two63 -> counters_ok w ->
  (forall c', counter w1 (key_of c') = counter w (key_of c') +
    (if (getClientIP c' ==? getClientIP c) && negb (limit <=? counter w (key_of c)) then 1 else 0)) ->
  counters_ok w1.
Proof using Type.
  intros Hlim Hw Hk c'. rewrite Hk. pose proof (Hw c') as Hr.
  destruct (getClientIP c' ==? getClientIP c) eqn:Hip; cbn [andb]; [|lia].
  rewrite <-key_of_same in Hip. apply bool_decide_eq_true in Hip. rewrite Hip in *.
  destruct (Z.leb_spec limit (counter w (key_of c))); cbn [negb]; lia.
Qed.

Lemma visit_ok_same a b v : (a = b \/ limit <= a /\ limit <= b) -> visit_ok a v -> visit_ok b v.
Proof using Type.
  intros [->|[Ha Hb]]; [done|]. destruct v as [[c w0] o]. unfold visit_ok.
  by rewrite (proj2 (Z.leb_le _ _) Ha), (proj2 (Z.leb_le _ _) Hb).
Qed.

Lemma visits_history w h w' :
  limit < two63 -> visits w h w' -> counters_ok w ->
  (forall i c w0 o, h !! i = Some (c, w0, o) ->
     visit_ok (counter w (key_of c) + from_ip c (take i h)) (c, w0, o)) /\
  (forall c, counter w' (key_of c) =
     Z.max (counter w (key_of c)) (Z.min limit (counter w (key_of c) + from_ip c h))).
Proof using RedisCounters0 next_quiet.
  intros Hlim Hh. induction Hh as [w|c w0 w w1 o h w' Hc Hrun _ IH|w w1 h w' Hk _ IH]; intros Hw.
  - split; [done|]. intros c. cbn. lia.
  - destruct (visit_step c w0 w w1 o Hlim Hw Hc Hrun) as [Hv Hk].
    destruct (IH (visit_step_ok w w1 c Hlim Hw Hk)) as [Hall Hend]. split.
    + intros [|i] c' w0' o' Hi; [injection Hi as <- <- <-; cbn; by rewrite Z.add_0_r|].
      specialize (Hall i c' w0' o' Hi). rewrite Hk in Hall. cbn [take firstn from_ip].
      eapply visit_ok_same; [|exact Hall]. pose proof (from_ip_nonneg c' (take i h)).
      destruct (getClientIP c' ==? getClientIP c) eqn:Hip; cbn [andb]; [|left; lia].
      rewrite <-key_of_same in Hip. apply bool_decide_eq_true in Hip. rewrite Hip.
      destruct (Z.leb_spec limit (counter w (key_of c))); cbn [negb]; [right|left]; lia.
    + intros c'. rewrite Hend, Hk. cbn [from_ip]. pose proof (from_ip_nonneg c' h).
      destruct (getClientIP c' ==? getClientIP c) eqn:Hip; cbn [andb]; [|lia].
      rewrite <-key_of_same in Hip. apply bool_decide_eq_true in Hip. rewrite Hip.
      destruct (Z.leb_spec limit (counter w (key_of c))); cbn [negb]; lia.
  - assert (Hw1 : counters_ok w1) by (intros c; rewrite Hk; apply Hw).
    destruct (IH Hw1) as [Hall Hend]. split; [intros i c w0 o Hi; rewrite <-Hk; by apply Hall|].
    intros c. by rewrite Hend, !Hk.
Qed.

End Limiter.

(** ** A witness *)

(** A redis server whose counters live in a map beside the tables. *)
Definition example_counter (w : World) (key : string) : Z :=
  match w_secrets w !! (0%N, key) with Some (_, n) => n | None => 0 end.
Definition counting_redis : RedisLib := {|
  redis_Get key := Step (fun w => (w, if example_counter w key =? 0 then None
                                      else Some (format_int (example_counter w key)))) mret;
  redis_Set _ _ _ := mret tt; redis_Del _ := mret tt;
  redis_IncrExpire key _ :=
    Step (fun w => (w <| w_secrets := <[(0%N, key) := ("", example_counter w key + 1)]> (w_secrets w) |>, tt))
      mret;
  redis_Ping := mret tt |}.

Lemma counting_redis_counts : @RedisCounters counting_redis example_counter.
Proof.
  constructor.
  - done.
  - intros w key. by eexists.
  - intros w key window _. eexists. split; [reflexivity|]. intros k. unfold example_counter. simpl.
    destruct (decide (k = key)) as [->|Hne].
    + by rewrite lookup_insert_eq, bool_decide_eq_true_2.
    + rewrite lookup_insert_ne by congruence. rewrite bool_decide_eq_false_2 by done. lia.
Qed.

Definition two_a_minute : Config := example_config <| cfg_RateLimitRequestsPerMinute := 2 |>.
Definition hello : Handler := fun c w => mret (c_JSON w 200 (PRateLimit "" "hello" 0)).
Definition from_address (ip : string) : Request :=
  example_request <| q_ClientIP := ip |> <| q_Redis := Some true |>.


