(* ===== verification/RoutesSpec.v ===== *)
(** Who may reach what: the router middleware, the access matrix of the
    management API and the limits that are not enforced. *)
From S2P Require Import Prelude GoStd StringFacts Hash Models Effects Store Repos AccountRepos Libraries.
From S2P Require Import JwtKeys AuditTrail Http Scope AuthService Rbac TenantService Mfa Registration.
From S2P Require Import EmailService HandlerSecurity Redis Middleware Idempotency Management.
From S2P Require Import RegistrationHandler AccountPages Routes Frame Onward AuthSpec TokenSpec RbacSpec.
From S2P Require Import IdempotencySpec.
From stdpp Require Import gmap.

Open Scope Z_scope.

(** Whatever token text parses, parses to the same claims. *)
Class JwtDecodes `{JwtLib} :=
  jwt_parse_claims : forall now ty o kf s t c now' o' kf' t' c',
    jwt_ParseWithClaims now ty o kf s = inl (t, c) ->
    jwt_ParseWithClaims now' ty o' kf' s = inl (t', c') -> c = c'.

(** The tables besides the idempotency keys. *)
Definition others (db : DB) : DB := set_rows ([] : list IdempotencyKey) db.
(** The chain was cut short with the response it had. *)
Definition cut (o : outcome Response) : Prop := forall resp, o = Ok resp -> rs_Aborted resp = true.

Lemma cut_abort c w0 status code msg : cut (Ok (Abort (RespondWithError c w0 status code msg))).
Proof. by intros resp [= <-]. Qed.

(** ** The middleware of /v1 *)

Section Middleware.
Context `{Env} `{UuidLib} `{JwtLib} `{UnicodeTables}.
Implicit Types v : World.

Lemma run_abort_api c w0 status code msg v v' o :
  run (abort_api c w0 status code msg) v = (v', o) -> v' = v /\ cut o.
Proof. intros [= <- <-]. split; [done|apply cut_abort]. Qed.

Lemma keeps_release id : keeps others (ignore (IdempotencyRepo.Delete id)).
Proof. unfold IdempotencyRepo.Delete. keeps. Qed.

(** Completing or releasing the key only touches its own table. *)
Lemma run_claimed_any `{Rendering} `{JsonLib} id (p : prog Response) v v' o :
  run (run_claimed id p) v = (v', o) ->
  others (w_db v') = others (w_db (run p v).1) /\
  forall resp, o = Ok resp -> (run p v).2 = Ok resp.
Proof.
  unfold run_claimed. rewrite run_bind, run_catch. cbv beta iota zeta.
  destruct (run p v) as [v1 o1]. cbn [fst snd].
  assert (Hrel : forall (o2 : outcome Response) v2, others (w_db v2) = others (w_db v1) ->
    run (ignore (IdempotencyRepo.Delete id) ;; Done o2) v2 = (v', o) ->
    others (w_db v') = others (w_db v1) /\ forall resp, o = Ok resp -> o2 = Ok resp).
  { intros o2 v2 <-. rewrite run_bind.
    destruct (run (ignore _) v2) as [v3 o3] eqn:E. apply keeps_release in E as Hk.
    rewrite run_ignore in E. destruct (run _ v2) as [v4 [? |? |]] in E; injection E as <- <-;
      by intros [= <- <-]. }
  destruct o1 as [r|e|]; [|by apply Hrel..].
  destruct (_ || _); [by apply (Hrel (Ok r))|].
  rewrite run_bind, run_attempt. destruct (run (IdempotencyRepo.Complete _ _ _ _) v1) as [v2 o2] eqn:E.
  assert (Hk : others (w_db v2) = others (w_db v1)).
  { refine ((_ : keeps others (IdempotencyRepo.Complete _ _ _ _)) _ _ _ E).
    unfold IdempotencyRepo.Complete. keeps. }
  destruct o2 as [x|e|]; cbv beta iota; [by intros [= <- <-]|by apply (Hrel (Ok r))|].
  by intros [= <- <-].
Qed.

Lemma run_Idempotency_any `{JsonLib} `{Rendering} ttl (next : Handler) c w0 v v' o :
  run (Idempotency ttl next c w0) v = (v', o) ->
  (others (w_db v') = others (w_db v) /\ cut o) \/
  exists v1, others (w_db v1) = others (w_db v) /\ (w_step v <= w_step v1)%nat /\
    others (w_db v') = others (w_db (run (next c w0) v1).1) /\
    (forall resp, o = Ok resp -> (run (next c w0) v1).2 = Ok resp).
Proof.
  unfold Idempotency. cbv zeta.
  destruct (_ || _).
  { intros E. right. exists v. rewrite E. auto. }
  destruct (negb _); [intros E%run_abort_api; left; destruct E as [-> ?]; auto|].
  destruct (GetTenantID c) as [t|]; [|intros E%run_abort_api; left; destruct E as [-> ?]; auto].
  destruct (q_Body c) as [body|]; [|intros E%run_abort_api; left; destruct E as [-> ?]; auto].
  destruct (_ <? _); [intros E%run_abort_api; left; destruct E as [-> ?]; auto|].
  rewrite run_bind, run_NewUUID. cbv beta iota. rewrite run_bind, run_Now. cbv beta iota.
  rewrite run_bind, run_Now. cbv beta iota. rewrite run_bind, run_attempt.
  match goal with |- context [run (IdempotencyRepo.Begin ?r ?stale) ?v0] =>
    destruct (run (IdempotencyRepo.Begin r stale) v0) as [v1 o1] eqn:EB;
    assert (Hk : keeps others (IdempotencyRepo.Begin r stale))
  end.
  { unfold IdempotencyRepo.Begin. keeps. intros w1 w2 o2. rewrite run_Stmt.
    destruct (env_fault _); [by intros [= <- _]|].
    destruct (IdempotencyRepo.begin_insert _ _ _ _) as [[l n]|]; by intros [= <- _]. }
  apply Hk in EB as Hdb. clear Hk.
  match type of EB with run ?p _ = _ => assert (Hup : onward p) by (unfold IdempotencyRepo.Begin; onward) end.
  apply Hup in EB as Hstep. clear Hup EB.
  change (others (w_db (tick (tick (tick v))))) with (others (w_db v)) in Hdb.
  assert (Hle : (w_step v <= w_step v1)%nat) by (simpl in Hstep; lia). clear Hstep.
  destruct o1 as [[[] existing]|e|]; cbv beta iota.
  - intros [Hc Ho]%run_claimed_any. right. by exists v1.
  - intros E. left. destruct existing as [k|]; [|by injection E as <- <-].
    unfold replayOrReject, respondInProgress in E.
    destruct (_ !=? _); [by apply run_abort_api in E as [-> ?]|].
    destruct (InProgress k); [by apply run_abort_api in E as [-> ?]|].
    injection E as <- <-. split; [done|]. by intros resp [= <-].
  - intros E. left. unfold respondInProgress in E.
    destruct (errors_Is e ErrResourceConflict); by apply run_abort_api in E as [-> ?].
  - intros [= <- <-]. by left.
Qed.

(** The token a request carries. *)
Definition bearer (c : Request) : string := TrimPrefix "Bearer " (GetHeader c "Authorization").

Lemma keeps_Parse {X} (f : DB -> X) ks ty opts token : keeps f (Parse ks ty opts token).
Proof. unfold Parse. keeps. Qed.
Lemma keeps_ValidateAccessToken {X} (f : DB -> X) s t token : keeps f (ValidateAccessToken s t token).
Proof. unfold ValidateAccessToken, Parse, AccessTokenRepo.GetByToken. keeps. Qed.

(** A request past RequireAuth carries a token the service validates, and
    what the middleware has stored of it is what the token says. *)
Lemma run_RequireAuth `{!JwtLaws} `{!JwtDecodes} s (next : Handler) c w0 v v' o :
  keyset_ok (as_keys s) -> (forall k, k ∈ ks_keys (as_keys s) -> made k) ->
  run (RequireAuth (as_keys s) (Some s) next c w0) v = (v', o) ->
  (w_db v' = w_db v /\ cut o) \/
  exists c' v1 t claims,
    later (tick v) v1 /\ run (next c' w0) v1 = (v', o) /\
    validated s t (bearer c) (env_now (S (w_step v))) claims (w_db v) /\
    q_Params c' = q_Params c /\ q_TenantID c' = Some t /\
    (q_UserID c = None -> q_UserID c' = uuid_Parse (jc_UserID claims)).
Proof.
  intros Hks Hmade. unfold RequireAuth. cbv zeta.
  destruct (_ ==? ""); [intros E%run_abort_api; left; destruct E as [-> ?]; auto|].
  destruct (negb _); [intros E%run_abort_api; left; destruct E as [-> ?]; auto|].
  fold (bearer c).
  destruct (bearer c ==? ""); [intros E%run_abort_api; left; destruct E as [-> ?]; auto|].
  unfold parse_access, Parse. rewrite !run_bind, run_Now. cbv beta iota. rewrite run_ret. cbv beta iota.
  rewrite run_ret. cbv beta iota.
  destruct (jwt_ParseWithClaims _ _ _ _ _) as [[tok [claims|claims]]|e] eqn:Ep; cbv beta iota;
    [|intros E%run_abort_api; left; destruct E as [-> ?]; auto..].
  destruct (tk_Valid tok); [|intros E%run_abort_api; left; destruct E as [-> ?]; auto].
  destruct (uuid_Parse (jc_TenantID claims)) as [t|];
    [|intros E%run_abort_api; left; destruct E as [-> ?]; auto].
  rewrite run_bind, run_attempt.
  destruct (run (ValidateAccessToken s t (bearer c)) (tick v)) as [v1 [claims'|e|]] eqn:Ev; cbv beta iota.
  - apply (ValidateAccessToken_ok _ _ _ _ _ _ Hks Hmade) in Ev as [Hval [Hdb Hstep]].
    intros E. right. eexists _, v1, t, claims'. split; [split; [exact Hdb|exact Hstep]|].
    split; [exact E|]. split; [exact Hval|].
    destruct Hval as [(opts & tok' & _ & Hp) _ _ _ _ _ _].
    pose proof (jwt_parse_claims _ _ _ _ _ _ _ _ _ _ _ _ Ep Hp) as [= <-].
    destruct (uuid_Parse (jc_UserID claims)), (jc_ClientID claims !=? ""); split_and!; try done; intros Hu; apply Hu.
  - intros E%run_abort_api. left. apply keeps_ValidateAccessToken with (f := id) in Ev.
    destruct E as [-> ?]. auto.
  - intros [= <- <-]. left. apply keeps_ValidateAccessToken with (f := id) in Ev. done.
Qed.
End Middleware.

(** ** The router middleware *)

Section Router.
Context `{Env} `{UuidLib} `{JwtLib} `{UnicodeTables}.
Implicit Types v : World.

Lemma keeps_Resolve {X} (f : DB -> X) ttl host : keeps f (Resolve ttl host).
Proof.
  unfold Resolve, lookup_domain, TenantRepo.GetByDomain.
  assert (Hd : forall (Y : Set) (g : _ -> _ * Y), keeps f (WithDomains g))
    by (by intros Y g w w' o [= <- _]).
  keeps; apply Hd.
Qed.
Lemma onward_Resolve ttl host : onward (Resolve ttl host).
Proof. unfold Resolve, lookup_domain, TenantRepo.GetByDomain. onward. Qed.

Lemma run_extractTenantID c keys ttl v v' o :
  run (extractTenantID c keys ttl) v = (v', o) -> later v v'.
Proof.
  unfold extractTenantID, extractTenantFromJWT, parse_access, Parse. cbv zeta. intros E. split.
  - revert E. refine ((_ : keeps id _) _ _ _). keeps; apply keeps_Resolve.
  - revert E. refine ((_ : onward _) _ _ _). onward; apply onward_Resolve.
Qed.

(** The part of a request the router middleware leaves alone. *)
Definition same_request (c c' : Request) : Prop :=
  q_Method c' = q_Method c /\ q_Header c' = q_Header c /\ q_Params c' = q_Params c /\
  q_Body c' = q_Body c /\ q_UserID c' = q_UserID c.

(** What a middleware does with a request: cut it short, or pass it on. *)
Definition passes (c : Request) (next : Handler) (v v' : World) (o : outcome Response) : Prop :=
  (w_db v' = w_db v /\ cut o) \/
  exists c' w1 v1, same_request c c' /\ later v v1 /\ run (next c' w1) v1 = (v', o).

Lemma run_TenantContext keys ttl (next : Handler) c w0 v v' o :
  run (TenantContext keys ttl next c w0) v = (v', o) -> passes c next v v' o.
Proof.
  unfold TenantContext, with_request_id. cbv zeta. rewrite run_bind, run_NewUUID. cbv beta iota.
  destruct (isOAuthEndpoint _).
  - rewrite run_bind. destruct (run (extractTenantID _ _ _) _) as [v1 o1] eqn:E.
    apply run_extractTenantID in E as Hl.
    assert (Hl' : later v v1) by (eapply later_trans; [apply later_tick|exact Hl]). clear E Hl.
    destruct o1 as [t|e|].
    + intros E. right. eexists _, _, v1. split; [|split; [exact Hl'|exact E]]. by destruct t.
    + intros [= <- <-]. left. by split; [apply Hl'|].
    + intros [= <- <-]. left. by split; [apply Hl'|].
  - destruct (isPublicEndpoint _).
    { intros E. right. eexists _, _, (tick v). split; [|split; [apply later_tick|exact E]]. done. }
    rewrite run_bind. destruct (run (extractTenantID _ _ _) _) as [v1 o1] eqn:E.
    apply run_extractTenantID in E as Hl.
    assert (Hl' : later v v1) by (eapply later_trans; [apply later_tick|exact Hl]). clear E Hl.
    destruct o1 as [[t|]|e|].
    + intros E. right. eexists _, _, v1. split; [|split; [exact Hl'|exact E]]. done.
    + intros [-> ?]%run_abort_api. left. by split; [apply Hl'|].
    + intros [= <- <-]. left. by split; [apply Hl'|].
    + intros [= <- <-]. left. by split; [apply Hl'|].
Qed.

(** Without a redis client in the gin context the limiter lets all pass. *)
Lemma RateLimit_off `{RedisLib} cfg (next : Handler) c w0 :
  q_Redis c = None -> RateLimit cfg next c w0 = next c w0.
Proof. unfold RateLimit. by intros ->. Qed.

Lemma CORS_passes cfg (next : Handler) c w0 :
  (exists w1, CORS cfg next c w0 = next c w1) \/
  (exists w1, CORS cfg next c w0 = mret (Abort w1)).
Proof. unfold CORS. cbv zeta. destruct (q_Method c ==? "OPTIONS"); eauto. Qed.

Context `{RedisLib}.
(** The router middleware without the rate limiter. *)
Definition unlimited_use (s : Server) (next : Handler) : Handler :=
  CORS (sv_cfg s) (TenantContext (sv_keys s) (Some minute) (RequestID (RequestContext next))).

Lemma router_use_unlimited s (h : Handler) c w0 :
  q_Redis c = None -> router_use s h c w0 = unlimited_use s h c w0.
Proof.
  intros Hr. unfold router_use, unlimited_use. set (next := TenantContext _ _ _).
  unfold CORS. cbv zeta. destruct (_ ==? "OPTIONS"); [reflexivity|]. by apply RateLimit_off.
Qed.

Lemma run_router_use s (h : Handler) c w0 v v' o :
  q_Redis c = None -> run (router_use s h c w0) v = (v', o) -> passes c h v v' o.
Proof.
  intros Hr. unfold router_use. destruct (CORS_passes (sv_cfg s) (RateLimit (sv_cfg s)
    (TenantContext (sv_keys s) (Some minute) (RequestID (RequestContext h)))) c w0) as [[w1 ->]|[w1 ->]].
  2: { intros [= <- <-]. left. split; [done|]. by intros resp [= <-]. }
  rewrite RateLimit_off by done. intros [E|(c1 & w2 & v1 & Hc & Hl & E)]%run_TenantContext; [by left|].
  unfold RequestID, with_request_id, RequestContext in E. rewrite run_bind, run_NewUUID in E.
  cbv beta iota zeta in E. right. eexists _, _, (tick v1).
  split; [|split; [eauto using later_trans, later_tick|exact E]]. exact Hc.
Qed.
End Router.

(** ** The access matrix of the management API *)

(** What a caller needs for a route. *)
Inductive requirement : Type :=
| NeedSuperAdmin
| NeedPermission (resource action : string)
| NeedPermissionOrSelf (resource action : string)
| NeedSelf.

Definition access_matrix : list (string * string * requirement) := [
  ("POST", "/v1/tenants/admin/tenants", NeedSuperAdmin);
  ("GET", "/v1/tenants/admin/tenants", NeedSuperAdmin);
  ("GET", "/v1/tenants/admin/tenants/:id", NeedSuperAdmin);
  ("PUT", "/v1/tenants/admin/tenants/:id", NeedSuperAdmin);
  ("DELETE", "/v1/tenants/admin/tenants/:id", NeedSuperAdmin);
  ("POST", "/v1/users", NeedPermission "user" "create");
  ("GET", "/v1/users/:user_id", NeedPermissionOrSelf "user" "read");
  ("PUT", "/v1/users/:user_id", NeedPermission "user" "update");
  ("DELETE", "/v1/users/:user_id", NeedPermission "user" "delete");
  ("GET", "/v1/users", NeedPermission "user" "read");
  ("POST", "/v1/users/:user_id/change-password", NeedPermissionOrSelf "user" "update");
  ("POST", "/v1/users/:user_id/verification-email", NeedPermissionOrSelf "user" "update");
  ("GET", "/v1/users/:user_id/mfa", NeedPermissionOrSelf "user" "read");
  ("POST", "/v1/users/:user_id/mfa/totp", NeedSelf);
  ("POST", "/v1/users/:user_id/mfa/totp/confirm", NeedSelf);
  ("POST", "/v1/users/:user_id/mfa/recovery-codes", NeedSelf);
  ("POST", "/v1/users/:user_id/mfa/disable", NeedSelf);
  ("DELETE", "/v1/users/:user_id/mfa", NeedPermission "user" "update");
  ("POST", "/v1/clients", NeedPermission "client" "create");
  ("GET", "/v1/clients/:client_id", NeedPermission "client" "read");
  ("PUT", "/v1/clients/:client_id", NeedPermission "client" "update");
  ("DELETE", "/v1/clients/:client_id", NeedPermission "client" "delete");
  ("GET", "/v1/clients", NeedPermission "client" "read");
  ("POST", "/v1/client-registration-tokens", NeedPermission "client" "create");
  ("GET", "/v1/client-registration-tokens", NeedPermission "client" "read");
  ("DELETE", "/v1/client-registration-tokens/:id", NeedPermission "client" "delete");
  ("POST", "/v1/roles", NeedPermission "role" "create");
  ("GET", "/v1/roles", NeedPermission "role" "read");
  ("GET", "/v1/roles/:role_id", NeedPermission "role" "read");
  ("PUT", "/v1/roles/:role_id", NeedPermission "role" "update");
  ("DELETE", "/v1/roles/:role_id", NeedPermission "role" "delete");
  ("POST", "/v1/roles/:role_id/permissions", NeedPermission "role" "update");
  ("DELETE", "/v1/roles/:role_id/permissions/:permission_id", NeedPermission "role" "update");
  ("GET", "/v1/roles/:role_id/permissions", NeedPermission "role" "read");
  ("POST", "/v1/roles/:role_id/users", NeedPermission "role" "assign");
  ("DELETE", "/v1/roles/:role_id/users/:user_id", NeedPermission "role" "assign");
  ("POST", "/v1/permissions", NeedSuperAdmin);
  ("GET", "/v1/permissions", NeedPermission "permission" "read");
  ("GET", "/v1/permissions/:permission_id", NeedPermission "permission" "read");
  ("PUT", "/v1/permissions/:permission_id", NeedSuperAdmin);
  ("DELETE", "/v1/permissions/:permission_id", NeedSuperAdmin);
  ("GET", "/v1/users/:user_id/roles", NeedPermissionOrSelf "role" "read");
  ("GET", "/v1/users/:user_id/permissions", NeedPermissionOrSelf "role" "read");
  ("GET", "/v1/audit/logs", NeedPermission "audit" "read");
  ("GET", "/v1/audit/logs/:audit_id", NeedPermission "audit" "read");
  ("GET", "/v1/audit/users/:user_id/activity", NeedPermission "audit" "read");
  ("GET", "/v1/audit/resources/:resource/:resource_id/activity", NeedPermission "audit" "read");
  ("GET", "/v1/audit/security-events", NeedPermission "audit" "read");
  ("GET", "/v1/audit/compliance-report", NeedPermission "audit" "read")].

Section Access.
Context `{Env} `{UuidLib}.

(** The user [u] of tenant [t] meets the requirement at time [now], for a
    request with the given path parameters. *)
Definition meets (supers : list uuid) (q : requirement) (params : list (string * string))
    (db : DB) (now : Z) (t u : uuid) : Prop :=
  let super := u ∈ supers in
  let self := uuid_Parse (get_field params "user_id") = Some u in
  match q with
  | NeedSuperAdmin => super
  | NeedPermission resource action => super \/ permitted db now t u resource action
  | NeedPermissionOrSelf resource action => super \/ self \/ permitted db now t u resource action
  | NeedSelf => uuid_String u = get_field params "user_id"
  end.

(** The middleware for a requirement. *)
Definition guard (a : Authorizer) (q : requirement) : Handler -> Handler :=
  match q with
  | NeedSuperAdmin => RequireSuperAdmin a
  | NeedPermission resource action => Require a resource action
  | NeedPermissionOrSelf resource action => RequireOrSelf a resource action "user_id"
  | NeedSelf => MFAHandler.requireSelf
  end.

(** A guard runs the handler only for a caller who meets the requirement. *)
Lemma run_guard a supers q (h : Handler) c w0 v v' o :
  az_superAdmins a = list_to_set supers -> keys_distinct (w_db v) -> clock_monotone ->
  run (guard a q h c w0) v = (v', o) ->
  (w_db v' = w_db v /\ cut o) \/
  exists u v1, later v v1 /\ run (h c w0) v1 = (v', o) /\ q_UserID c = Some u /\
    forall t, q_TenantID c = Some t ->
      meets supers q (q_Params c) (w_db v) (env_now (w_step v)) t u.
Proof.
  intros Hsup Hkeys Hclock E.
  assert (Hauth : forall resource action self,
    run (authorize a resource action self h c w0) v = (v', o) ->
    (w_db v' = w_db v /\ cut o) \/
    exists u v1, later v v1 /\ run (h c w0) v1 = (v', o) /\ q_UserID c = Some u /\
      forall t, q_TenantID c = Some t ->
        u ∈ supers \/ (self <> "" /\ uuid_Parse (get_field (q_Params c) self) = Some u) \/
        (resource <> "" /\ permitted (w_db v) (env_now (w_step v)) t u resource action)).
  { intros resource action self [(v1 & u & Hl & Er & Hu & _ & Hm)|([Hdb _] & resp & -> & Ha & _)]%run_authorize;
      [| |done..].
    - right. exists u, v1. split_and!; try done; try apply Hl. intros t Ht. rewrite Hsup in Hm.
      destruct Hm as [Hm|[Hm|(Hr & t' & Ht' & Hp)]]; [left; set_solver|auto|].
      right. right. split; [done|]. congruence.
    - left. split; [done|]. by intros resp' [= <-]. }
  destruct q as [|resource action|resource action|]; cbn [guard] in E; unfold meets.
  1: apply (Hauth "" "" "") in E. 2: apply (Hauth resource action "") in E.
  3: apply (Hauth resource action "user_id") in E.
  1-3: destruct E as [E|(u & v1 & Hl & E & Hu & Hm)]; [by left|right; exists u, v1];
    split_and!; try done; try apply Hl; intros t [?|[[? ?]|[? ?]]]%Hm; auto; done.
  unfold MFAHandler.requireSelf in E. cbv zeta in E. unfold GetUserID in E.
  destruct (q_UserID c) as [u|]; [|apply run_abort_api in E as [-> ?]; auto].
  destruct ((u ==? uuid_Nil) || _) eqn:Eu; [apply run_abort_api in E as [-> ?]; auto|].
  right. exists u, v. apply orb_false_iff in Eu as [_ Eu]. bool_simp.
  split_and!; try done.
Qed.
End Access.

Section Matrix.
Context `{Env} `{UuidLib} `{JwtLib} `{UnicodeTables} `{BcryptLib} `{AeadLib} `{RedirectLib}.
Context `{PendingJson} `{NetLib} `{RedisLib} `{JsonLib} `{Rendering} `{MapOrder} `{SmtpServer}.
Context `{MimeLib} `{GinRouter}.
Context `{JsonBind CreateRoleRequest} `{JsonBind UpdateRoleRequest} `{JsonBind AddPermissionRequest}.
Context `{JsonBind AssignRoleRequest} `{JsonBind CreatePermissionRequest}.
Context `{JsonBind UpdatePermissionRequest} `{JsonBind CreateTenantRequest}.
Context `{JsonBind UpdateTenantRequest} `{JsonBind CreateUserRequest} `{JsonBind UpdateUserRequest}.
Context `{JsonBind ChangePasswordRequest} `{JsonBind CreateClientRequest}.
Context `{JsonBind UpdateClientRequest} `{JsonBind MFACodeRequest} `{JsonBind ClientMetadata}.
Context `{JsonBind CreateInitialAccessTokenRequest}.
Context (s : Server).

(** Each route of /v1 is the entry of the matrix at its place: its handler is
    behind the guard of the requirement. *)
Definition entry_route (e : string * string * requirement) (r : Route) : Prop :=
  (rt_Method r, rt_Path r) = e.1 /\
  exists h, rt_Handler r = api_use s (guard (authz s) e.2 h).

Lemma api_routes_matrix : Forall2 entry_route access_matrix (api_routes s).
Proof.
  unfold api_routes, Group, tenant_routes, user_routes, mfa_routes, client_routes,
    registration_management_routes, rbac_routes, audit_routes.
  unfold Group, GET, POST, PUT, DELETE, plain, access_matrix.
  cbv zeta. cbn [map app rt_Method rt_Path rt_Handler].
  repeat (apply List.Forall2_cons;
          [split; [reflexivity|eexists; cbn [snd guard rt_Handler]; reflexivity]|]).
  apply List.Forall2_nil.
Qed.

Lemma api_route_entry r : r ∈ api_routes s -> exists e, e ∈ access_matrix /\ entry_route e r.
Proof.
  intros (i & Hi)%list_elem_of_lookup.
  destruct (Forall2_lookup_r _ _ _ _ _ api_routes_matrix Hi) as (e & He & Hx).
  exists e. split; [by eapply list_elem_of_lookup_2|done].
Qed.

(** The tables the checks read are not the one the middleware writes. *)
Lemma permitted_others db db' now t u resource action :
  others db' = others db -> permitted db' now t u resource action -> permitted db now t u resource action.
Proof.
  intros E. unfold permitted.
  change (db_userRoles db') with (db_userRoles (others db')).
  change (db_roles db') with (db_roles (others db')).
  change (db_permissions db') with (db_permissions (others db')).
  change (db_rolePermissions db') with (db_rolePermissions (others db')).
  by rewrite E.
Qed.
Lemma meets_others supers q params db db' now t u :
  others db' = others db -> meets supers q params db' now t u -> meets supers q params db now t u.
Proof. intros E. destruct q; simpl; intuition eauto using permitted_others. Qed.
Lemma keys_distinct_others db db' : others db' = others db -> keys_distinct db -> keys_distinct db'.
Proof.
  intros E. unfold keys_distinct. change (db_roles db') with (db_roles (others db')).
  change (db_permissions db') with (db_permissions (others db')). by rewrite E.
Qed.

(** The request the router middleware passes to a /v1 route. *)
Lemma run_api_use `{!JwtLaws} `{!JwtDecodes} q (h : Handler) c w0 v v' o :
  keyset_ok (sv_keys s) -> (forall k, k ∈ ks_keys (sv_keys s) -> made k) ->
  keys_distinct (w_db v) -> clock_monotone -> q_UserID c = None ->
  run (api_use s (guard (authz s) q h) c w0) v = (v', o) ->
  (others (w_db v') = others (w_db v) /\ cut o) \/
  exists t u claims n m, (w_step v <= n <= m)%nat /\
    validated (authService s) t (bearer c) (env_now n) claims (w_db v) /\
    uuid_Parse (jc_UserID claims) = Some u /\
    meets (sv_superAdmins s) q (q_Params c) (w_db v) (env_now m) t u.
Proof.
  intros Hks Hmade Hkeys Hclock Hu E. unfold api_use in E.
  destruct (run_RequireAuth (authService s) _ _ _ _ _ _ Hks Hmade E)
    as [[Hdb Hc]|(c1 & v1 & t & claims & [Hdb Hl] & E1 & Hval & Hp & Ht & Hu1)];
    [left; by rewrite Hdb|]. clear E. rename E1 into E.
  apply run_Idempotency_any in E as [[Hdb1 Hc]|(v2 & Hdb2 & Hstep2 & Hdb3 & Ho)].
  { left. split; [by rewrite Hdb1, Hdb|done]. }
  destruct (run (guard (authz s) q h c1 w0) v2) as [v3 o3] eqn:E. cbn [fst snd] in Hdb3, Ho.
  assert (Hoth : others (w_db v2) = others (w_db v)) by (by rewrite Hdb2, Hdb).
  apply (run_guard (authz s) (sv_superAdmins s)) in E
    as [[Hdb4 Hc]|(u & v4 & _ & _ & Hu4 & Hm)]; [| |done| |done].
  - left. split; [by rewrite Hdb3, Hdb4|]. intros resp Hr. by apply Hc, Ho.
  - right. exists t, u, claims, (S (w_step v)), (w_step v2). split; [simpl in Hl; lia|].
    split; [exact Hval|]. split; [by rewrite <-(Hu1 Hu)|].
    rewrite <-Hp. eapply meets_others; [exact Hoth|]. by apply Hm.
  - by eapply keys_distinct_others.
Qed.

(** C7: the management API refines its access matrix. When the router selects a
    /v1 route for a request, then either the chain is cut short (or panics)
    with no table changed but that of the idempotency keys, or the request
    carried an access token that the service validated at that time (signed by
    a key of the set, for this issuer, audience and tenant, unexpired and not
    revoked), and the token's user meets what the matrix requires for the
    route: is a super admin, is the user the path names, or holds the
    permission in the token's tenant. *)
Theorem ServeHTTP_access `{!JwtLaws} `{!JwtDecodes} c i params r w w' o :
  keyset_ok (sv_keys s) -> (forall k, k ∈ ks_keys (sv_keys s) -> made k) ->
  keys_distinct (w_db w) -> clock_monotone ->
  gin_match (map (fun r => (rt_Method r, rt_Path r)) (setupRoutes s)) (q_Method c) (q_Path c)
    = Some (i, params) ->
  setupRoutes s !! i = Some r -> r ∈ api_routes s ->
  run (ServeHTTP s c) w = (w', o) ->
  (others (w_db w') = others (w_db w) /\ cut o) \/
  exists q t u claims n m,
    (rt_Method r, rt_Path r, q) ∈ access_matrix /\ (w_step w <= n <= m)%nat /\
    validated (authService s) t (bearer c) (env_now n) claims (w_db w) /\
    uuid_Parse (jc_UserID claims) = Some u /\
    meets (sv_superAdmins s) q params (w_db w) (env_now m) t u.
Proof.
  intros Hks Hmade Hkeys Hclock Hmatch Hi Hr E. unfold ServeHTTP, select in E. cbv zeta in E.
  change (q_Method (incoming c)) with (q_Method c) in E. change (q_Path (incoming c)) with (q_Path c) in E.
  rewrite Hmatch, Hi in E.
  apply run_router_use in E as [[Hdb Hc]|(c' & w1 & v1 & (_ & Hh & Hp & _ & Hu) & [Hdb Hl] & E)];
    [left; by rewrite Hdb| |done].
  destruct (api_route_entry r Hr) as ([e q] & He & [Hpath (h & Hrt)]). rewrite Hrt in E.
  assert (Hb : bearer c' = bearer c) by (unfold bearer, GetHeader; by rewrite Hh).
  apply run_api_use in E as [[Ho Hc]|(t & u & claims & n & m & Hn & Hval & Hcl & Hm)];
    [| |done|done|by rewrite Hdb|done|done].
  - left. by rewrite Ho, Hdb.
  - right. exists q, t, u, claims, n, m. rewrite Hb, Hdb in Hval. rewrite Hp, Hdb in Hm.
    rewrite Hpath. split_and!; try done; lia.
Qed.

(** The server never limits the rate of requests: whatever the redis
    server holds or answers, whether one is configured or not, a request is
    served as if the limiter were not there, since nothing stores the client
    under the key the limiter looks it up with. *)
Theorem ServeHTTP_unlimited c :
  ServeHTTP s c =
  (let '(h, params) := select (setupRoutes s) (incoming c) in
   unlimited_use s h ((incoming c) <| q_Params := params |>) blank).
Proof.
  unfold ServeHTTP. cbv zeta. generalize (select (setupRoutes s) (incoming c)). intros [h params].
  exact (router_use_unlimited s h ((incoming c) <| q_Params := params |>) blank eq_refl).
Qed.
End Matrix.

(** ** A witness *)

From S2P Require Import Examples.

Section Witness.
#[local] Instance any_bind {T} : JsonBind T := fun _ => inr (EMessage "no body").
#[local] Instance some_bcrypt : BcryptLib := { bcrypt_Generate _ _ p := inl p; bcrypt_Compare h p := h ==? p }.
#[local] Instance some_redirect : RedirectLib := { url_SetQuery u _ := Some u }.
#[local] Instance some_pending : PendingJson := { pending_Marshal _ := ""; pending_Unmarshal _ := None }.
#[local] Instance some_net : NetLib := { url_Parse _ := None; ip_loopback _ := false }.
#[local] Instance some_redis : RedisLib := {
  redis_Get _ := mret None; redis_Set _ _ _ := mret tt; redis_Del _ := mret tt;
  redis_IncrExpire _ _ := mret tt; redis_Ping := mret tt }.
#[local] Instance some_json : JsonLib := { json_Unmarshal _ := None; json_Marshal _ := "" }.
#[local] Instance some_rendering : Rendering := { body_bytes _ := ""; body_type _ := "" }.
#[local] Instance some_order : MapOrder := fun _ m => m.
#[local] Instance some_smtp : SmtpServer := { smtp_answer _ _ := None; smtp_STARTTLS _ := false }.
#[local] Instance some_mime : MimeLib := fun s => s.
(** A router for routes without parameters. *)
#[local] Instance exact_router : GinRouter := fun routes method path =>
  option_map (fun p => (p.1, [])) (list_find (fun r => r = (method, path)) routes).

Lemma example_decodes : JwtDecodes.
Proof.
  intros now ty o kf s t c now' o' kf' t' c'. simpl. unfold example_parse.
  destruct (kf _), (kf' _), ty; try done.
  destruct ((s ==? "good") && _ && _), ((s ==? "good") && _ && _); try done. congruence.
Qed.

Definition example_server : Server :=
  MkServer example_config (as_keys example_service) Examples.example_keys None [9%N] true.
Definition logs_request : Request := example_request <| q_Path := "/v1/audit/logs" |>
  <| q_Header := [("Authorization", "Bearer good")] |>.

(** The routes after the 29 others are those of /v1. *)
Lemma api_route_at i r : (29 <= i)%nat ->
  setupRoutes example_server !! i = Some r -> r ∈ api_routes example_server.
Proof.
  intros Hi. unfold setupRoutes. rewrite !app_assoc.
  match goal with |- (?front ++ ?api) !! _ = _ -> _ => assert (Hn : length front = 29%nat) by reflexivity end.
  rewrite lookup_app_r by (rewrite Hn; exact Hi). apply list_elem_of_lookup_2.
Qed.

Lemma ServeHTTP_access_witness :
  exists resp, result (ServeHTTP example_server logs_request) example_db = Ok resp /\
    rs_Status resp = StatusOK /\
    exists q t u n, ("GET", "/v1/audit/logs", q) ∈ access_matrix /\
      meets [9%N] q [] example_db (env_now n) t u.
Proof.
  unfold result. set (w := example_world example_db).
  destruct (run (ServeHTTP example_server logs_request) w) as [w' o] eqn:E.
  assert (Ho : exists resp, o = Ok resp /\ rs_Status resp = StatusOK /\ rs_Aborted resp = false).
  { change o with (w', o).2. rewrite <-E. eexists. vm_compute. split_and!; reflexivity. }
  destruct Ho as (resp & -> & Hst & Hab). exists resp. split; [done|]. split; [done|].
  assert (Hlen : (72 < length (setupRoutes example_server))%nat) by (vm_compute; lia).
  destruct (lookup_lt_is_Some_2 _ _ Hlen) as [r Hr].
  assert (Hname : (rt_Method r, rt_Path r) = ("GET", "/v1/audit/logs")).
  { assert (Hmap : option_map (fun r => (rt_Method r, rt_Path r)) (setupRoutes example_server !! 72%nat)
      = Some ("GET", "/v1/audit/logs")) by (vm_compute; reflexivity).
    rewrite Hr in Hmap. by injection Hmap as -> ->. }
  pose proof example_decodes as Hdec.
  destruct (ServeHTTP_access example_server logs_request 72 [] r w w' (Ok resp))
    as [[_ Hc]|(q & t & u & claims & n & m & Hq & _ & _ & _ & Hm)].
  - exact TokenSpec.example_keys.
  - exact example_made.
  - split; apply (bool_decide_unpack _); vm_compute; exact I.
  - exact example_clock_monotone.
  - vm_compute. reflexivity.
  - exact Hr.
  - apply (api_route_at 72); [lia|exact Hr].
  - exact E.
  - specialize (Hc resp eq_refl). congruence.
  - exists q, t, u, m. rewrite Hname in Hq. split; [exact Hq|exact Hm].
Defined.
End Witness.
