(* ===== verification/KeyFilesSpec.v ===== *)
(** The keys of a server that starts (KeyFiles.v). *)
From S2P Require Import Prelude GoStd Models Effects Libraries JwtKeys Http TenantService Mfa.
From S2P Require Import ClientService Routes Frame KeyFiles.
From stdpp Require Import gmap.

Open Scope Z_scope.

Section Start.
Context `{Env} `{KeyFileLib} `{UnicodeTables}.

(** The keys of files and of Generate. *)
Definition key_pair (k : Key) : Prop := exists m, newKey m = Some (inl k).
Lemma key_pair_asymmetric k : key_pair k -> ky_Alg k <> AlgHS256.
Proof.
  intros [m Hm]. destruct m; [done|..]; apply newKey_ok in Hm as (_ & [-> _] & _); done.
Qed.

Lemma wrapKey_ok m w w' k : run (wrapKey m) w = (w', Ok k) -> w' = w /\ key_pair k.
Proof.
  unfold wrapKey, or_panic, key_pair. destruct (newKey m) as [[k'|e]|] eqn:E; [|done..].
  intros [= <- <-]. eauto.
Qed.

Lemma ParsePEM_ok data w w' k : run (ParsePEM data) w = (w', Ok k) -> w' = w /\ key_pair k.
Proof.
  unfold ParsePEM. destruct (pem_Decode data) as [[type bytes]|]; [|done]. cbv zeta.
  match goal with |- run match ?p with _ => _ end _ = _ -> _ => destruct p as [[m|e]|] end; [|done..].
  apply wrapKey_ok.
Qed.

Lemma LoadFile_ok path w w' k : run (LoadFile path) w = (w', Ok k) -> w_db w' = w_db w /\ key_pair k.
Proof.
  unfold LoadFile. intros (data & w1 & E1 & E2)%ok_bind. apply ok_wrap, ParsePEM_ok in E2 as [-> Hk].
  split; [|done]. apply ok_wrap in E1. apply ok_bind in E1 as (r & w2 & E & [-> _]%ok_from_sum).
  by injection E as <- _.
Qed.

Lemma Generate_ok alg w w' k : run (Generate alg) w = (w', Ok k) ->
  w_db w' = w_db w /\ key_pair k /\ ky_Alg k = alg.
Proof.
  assert (Hgen : forall X (f : option (nat -> Z) -> X + error) (g : X -> keyMaterial),
    run (r ← WithRandom (fun rnd => f rnd); x ← from_sum r; wrapKey (g x)) w = (w', Ok k) ->
    w_db w' = w_db w /\ exists x, newKey (g x) = Some (inl k)).
  { intros X f g (r & w1 & [-> ->]%ok_WithRandom & (x & w2 & [-> _]%ok_from_sum & E)%ok_bind)%ok_bind.
    unfold wrapKey in E. apply ok_bind in E as (r & w3 & [-> Hr]%ok_or_panic & [-> ->]%ok_from_sum).
    eauto. }
  unfold Generate. destruct (alg ==? AlgRS256) eqn:E1; [|destruct (alg ==? AlgES256) eqn:E2; [|done]];
    bool_simp; intros [Hdb ([[a b] D] & Hx)]%Hgen; (split; [done|]; split; [by eexists|]);
    apply newKey_ok in Hx as (_ & [Hf _] & _); congruence.
Qed.

Lemma load_files_ok paths w w' keys : run (load_files paths) w = (w', Ok keys) ->
  w_db w' = w_db w /\ Forall key_pair keys.
Proof.
  revert w w' keys. induction paths as [|path paths IH]; intros w w' keys; cbn [load_files].
  { by intros [= <- <-]. }
  cbv zeta. destruct (_ ==? _); [apply IH|].
  intros (k & w1 & E1 & (ks & w2 & E2 & [= <- <-])%ok_bind)%ok_bind.
  apply LoadFile_ok in E1 as [<- Hk]. apply IH in E2 as [-> Hks]. by split; [|constructor].
Qed.

Lemma active_key_ok opts alg w w' k ephemeral : run (active_key opts alg) w = (w', Ok (k, ephemeral)) ->
  w_db w' = w_db w /\ key_pair k /\ ky_Alg k = alg /\
  if op_SigningKeyFile opts ==? "" then op_AllowEphemeral opts = true /\ ephemeral = true
  else ephemeral = false /\ (run (LoadFile (op_SigningKeyFile opts)) w).2 = Ok k.
Proof.
  unfold active_key. cbv zeta. destruct (op_SigningKeyFile opts ==? "") eqn:Ef; cbn [negb].
  - destruct (op_AllowEphemeral opts); [|done].
    intros (k' & w1 & E%ok_wrap%Generate_ok & [-> [= <- <-]]%ok_ret)%ok_bind.
    destruct E as (Hdb & Hk & Ha). done.
  - intros (k' & w1 & E & [Hs [Ha [-> [= <- <-]]%ok_ret]%ok_guard]%ok_guard)%ok_bind. bool_simp.
    pose proof (LoadFile_ok _ _ _ _ E) as [Hdb Hk]. by rewrite E.
Qed.

(** The key set of an HMAC secret. *)
Definition hmac_key (secret : string) : Key := MkKey "" AlgHS256 (Some (Bytes secret)) (Bytes secret).

(** The keys Load may return for its options. *)
Definition loaded (opts : Options) (ks : KeySet) (ephemeral : bool) (w : World) : Prop :=
  keyset_ok ks /\ (forall k, k ∈ ks_keys ks -> made k) /\
  let alg := Algorithm ks in
  alg ∈ [AlgRS256; AlgES256; AlgHS256] /\
  (if alg ==? AlgHS256
   then op_HMACSecret opts <> "" /\ ks_keys ks = [hmac_key (op_HMACSecret opts)] /\ ephemeral = false
   else (forall k, k ∈ ks_keys ks -> ky_Alg k <> AlgHS256) /\
        if op_SigningKeyFile opts ==? "" then op_AllowEphemeral opts = true /\ ephemeral = true
        else ephemeral = false /\ (run (LoadFile (op_SigningKeyFile opts)) w).2 = Ok (ks_active ks)).

Lemma Load_ok opts w w' o ephemeral : run (Load opts) w = (w', Ok (o, ephemeral)) ->
  w_db w' = w_db w /\ exists ks, o = Some ks /\ Algorithm ks = ToUpper (TrimSpace (op_Alg opts)) /\
    loaded opts ks ephemeral w.
Proof.
  unfold Load. cbv zeta. set (alg := ToUpper _). destruct (alg ==? AlgHS256) eqn:Eh.
  - intros (_ & (Hs & [-> [= -> ->]]%ok_ret)%ok_guard)%ok_guard. split; [done|]. bool_simp.
    set (secret := op_HMACSecret opts) in *.
    destruct (NewKeySet (Some (hmac_key secret)) []) as [ks|e] eqn:E; [|vm_compute in E; discriminate].
    destruct (newkeyset_ok _ _ _ E) as (Hok & Ha & Hk). apply (inj Some) in Ha.
    exists ks. unfold NewHMAC. change (MkKey "" AlgHS256 _ _) with (hmac_key secret). rewrite E.
    unfold loaded, Algorithm. rewrite <-Ha in *. cbn [hmac_key ky_Alg] in *. rewrite Hk.
    split; [done|]. split; [by rewrite Eh|]. split; [done|]. split; [|split; [set_solver|done]].
    intros k ->%list_elem_of_singleton. left. by exists secret.
  - intros (Halg & E)%ok_guard.
    apply ok_bind in E as ([k eph] & w1 & E1 & E). apply ok_bind in E as (ver & w2 & E2 & E).
    apply ok_bind in E as (ks & w3 & [-> En]%ok_from_sum & [-> [= -> ->]]%ok_ret). cbn [fst snd] in *.
    apply active_key_ok in E1 as (Hdb1 & Hk & Ha & Hf). apply load_files_ok in E2 as [Hdb2 Hv].
    split; [congruence|]. exists ks. destruct (newkeyset_ok _ _ _ En) as (Hok & Hact & Hks).
    apply (inj Some) in Hact. subst k. split; [done|]. unfold Algorithm. split; [exact Ha|].
    assert (Hall : forall k, k ∈ ks_keys ks -> key_pair k).
    { rewrite Hks. intros k [->|Hin]%elem_of_cons; [done|]. apply list_elem_of_In in Hin.
      by apply (proj1 (List.Forall_forall _ _) Hv). }
    split; [exact Hok|]. split; [intros k Hin; right; by apply Hall|]. cbv zeta. unfold Algorithm.
    rewrite Ha, Eh. split; [|split; [|exact Hf]].
    + apply andb_false_iff in Halg as [Hr|Hr]; bool_simp; rewrite Hr; set_solver.
    + intros k Hin. by apply key_pair_asymmetric, Hall.
Qed.

Context `{UuidLib} `{AeadLib}.
Lemma newServer_ok cfg ks redis w w' s : run (newServer cfg ks redis) w = (w', Ok s) ->
  w_db w' = w_db w /\ sv_cfg s = cfg /\ sv_keys s = ks /\
  parseUserIDs (cfg_RBACSuperAdminUserIDs cfg) = inl (sv_superAdmins s).
Proof.
  unfold newServer. intros (c & w1 & E1 & E)%ok_bind. apply ok_bind in E as (m & w2 & [-> _]%ok_from_sum & E).
  apply ok_bind in E as (k & w3 & [-> _]%ok_from_sum & E).
  apply ok_bind in E as (ids & w4 & [-> Hids]%ok_from_sum & [-> ->]%ok_ret).
  split; [|by rewrite Hids]. revert E1.
  refine ((_ : keeps id (newClientSecretCache clientSecretCacheTTL)) _ _ _).
  unfold newClientSecretCache. keeps.
Qed.

(** C40: a server that starts has sound signing keys, whatever the key files
    hold. Its key set satisfies the invariant the token theorems ask for and
    has only keys the package makes; the algorithm is the configured one, in
    any case and with any space around it. With HS256 the only key is the
    configured secret, which is not empty. Otherwise no key is symmetric, and
    the active key is the one read from the configured file; only without a
    file, and never in release mode, is it a generated one. The key a token
    is verified with fits the algorithm the token claims (no public key is
    ever used as an HMAC secret, nor the reverse, and a weak RSA key never
    verifies) and is the one its kid names. Starting changes no table. *)
Theorem start_sound cfg redis w w' s :
  run (start cfg redis) w = (w', Ok s) ->
  w_db w' = w_db w /\ sv_cfg s = cfg /\
  parseUserIDs (cfg_RBACSuperAdminUserIDs cfg) = inl (sv_superAdmins s) /\
  keyset_ok (sv_keys s) /\ (forall k, k ∈ ks_keys (sv_keys s) -> made k) /\
  let alg := Algorithm (sv_keys s) in
  alg = ToUpper (TrimSpace (cfg_JWTSigningAlg cfg)) /\ alg ∈ [AlgRS256; AlgES256; AlgHS256] /\
  (if alg ==? AlgHS256
   then cfg_JWTSecret cfg <> "" /\ ks_keys (sv_keys s) = [hmac_key (cfg_JWTSecret cfg)]
   else (forall k, k ∈ ks_keys (sv_keys s) -> ky_Alg k <> AlgHS256) /\
        if cfg_JWTSigningKeyFile cfg ==? "" then cfg_GinMode cfg <> ReleaseMode
        else (run (LoadFile (cfg_JWTSigningKeyFile cfg)) w).2 = Ok (ks_active (sv_keys s))) /\
  (forall token m, keyfunc (sv_keys s) token = inl m ->
     fits (tk_Alg token) m /\
     exists k, k ∈ ks_keys (sv_keys s) /\ ky_verifyKey k = m /\ ky_Alg k = tk_Alg token /\
               (tk_kid token = "" -> k = ks_active (sv_keys s) /\ tk_Alg token = AlgHS256) /\
               (tk_kid token <> "" -> ky_ID k = tk_kid token)).
Proof.
  unfold start. intros ([o eph] & w1 & E1 & (ks & w2 & [-> Ho]%ok_or_panic & E)%ok_bind)%ok_bind.
  cbn [fst] in Ho. subst o. apply Load_ok in E1 as (Hdb & ks' & [= <-] & Halg & Hok & Hmade & Hin & Hk).
  apply newServer_ok in E as (Hdb' & Hcfg & -> & Hids). split; [congruence|].
  do 4 (split; [done|]). cbv zeta. split; [exact Halg|]. split; [exact Hin|].
  cbn [op_HMACSecret op_SigningKeyFile op_AllowEphemeral] in Hk.
  split.
  - destruct (Algorithm ks ==? AlgHS256); [tauto|]. destruct Hk as [Hk Hf]. split; [exact Hk|].
    destruct (_ ==? ""); [|tauto]. destruct Hf as [Hf _]. by bool_simp.
  - intros token m Hkf%keyfunc_ok; [|done]. split; [|done].
    destruct Hkf as (k & Hkin & <- & <- & _). by apply made_fits, Hmade.
Qed.
End Start.

(** ** A witness *)

From S2P Require Import Examples.

Section Witness.
(** A P-256 signing key, and another one that only verifies. *)
#[local] Instance some_files : KeyFileLib := {
  os_ReadFile _ path := if path ==? "key.pem" then inl "K" else if path ==? "old.pem" then inl "O"
                        else inr (EMessage "no such file");
  pem_Decode data := if data ==? "K" then Some ("EC PRIVATE KEY", "k")
                     else if data ==? "O" then Some ("PUBLIC KEY", "o") else None;
  x509_ParsePKCS1PrivateKey _ := inr (EMessage "asn1");
  x509_ParseECPrivateKey _ := inl ("P-256", 256, 2 ^ 255 + 11, 13, 5);
  x509_ParsePKCS8PrivateKey _ := inr (EMessage "asn1");
  x509_ParsePKCS1PublicKey _ := inr (EMessage "asn1");
  x509_ParsePKIXPublicKey _ := inl (ECPublic "P-256" 256 (2 ^ 255 + 7) 9);
  rsa_GenerateKey _ _ := inr (EMessage "entropy");
  ecdsa_GenerateKey_P256 _ := inr (EMessage "entropy")
}.
Definition es256_config : Config := example_config <| cfg_JWTSigningAlg := " es256" |>
  <| cfg_JWTSigningKeyFile := "key.pem" |> <| cfg_JWTVerificationKeyFiles := "old.pem, ," |>
  <| cfg_JWTSecret := "0123456789abcdef0123456789abcdef" |>.

Lemma start_sound_witness :
  exists s, (run (start es256_config false) (example_world empty_db)).2 = Ok s /\
    keyset_ok (sv_keys s) /\ map ky_Alg (ks_keys (sv_keys s)) = [AlgES256; AlgES256].
Proof.
  destruct (run (start es256_config false) (example_world empty_db)) as [w' o] eqn:E.
  assert (Ho : exists s, o = Ok s /\ map ky_Alg (ks_keys (sv_keys s)) = [AlgES256; AlgES256]).
  { change o with (w', o).2. rewrite <-E. eexists. vm_compute. split; reflexivity. }
  destruct Ho as (s & -> & Ha). exists s. split; [reflexivity|]. split; [|exact Ha].
  destruct (start_sound es256_config false (example_world empty_db) w' s E) as (_ & _ & _ & Hok & _).
  exact Hok.
Defined.
End Witness.
