(* ===== verification/IsolationSpec.v ===== *)
(** Tenant isolation: serving a request changes the rows of one tenant at
    most. *)
From S2P Require Import Prelude GoStd Models Effects Store Repos AccountRepos RbacRepos AuditRepo.
From S2P Require Import Libraries JwtKeys AuditTrail Http Scope AuthService Rbac TenantService Mfa.
From S2P Require Import Registration MfaService DeviceFlow Session ClientService UserService.
From S2P Require Import EmailRepos EmailService HandlerSecurity TokenEndpoint Authorize BrowserPages Redis.
From S2P Require Import Middleware Idempotency Management RegistrationHandler AccountPages Routes.
From S2P Require Import Frame Schema Isolation IsolationServices TokenSpec Answers RoutesSpec.

Open Scope Z_scope.

Section Handlers.
Context `{Env} `{UuidLib} `{JwtLib} `{UnicodeTables} `{BcryptLib} `{AeadLib} `{RedirectLib}.
Context `{PendingJson} `{NetLib} `{RedisLib} `{JsonLib} `{Rendering} `{MapOrder} `{SmtpServer}.
Context `{MimeLib} `{GinRouter}.
Context `{JsonBind CreateRoleRequest} `{JsonBind UpdateRoleRequest} `{JsonBind AddPermissionRequest}.
Context `{JsonBind AssignRoleRequest} `{JsonBind CreatePermissionRequest}.
Context `{JsonBind UpdatePermissionRequest} `{JsonBind CreateTenantRequest}.
Context `{JsonBind UpdateTenantRequest} `{JsonBind CreateUserRequest} `{JsonBind UpdateUserRequest}.
Context `{JsonBind ChangePasswordRequest} `{JsonBind CreateClientRequest}.
Context `{JsonBind UpdateClientRequest} `{JsonBind MFACodeRequest} `{JsonBind ClientMetadata}.
Context `{JsonBind CreateInitialAccessTokenRequest}.
Context (s : Server).

(** A handler writes rows of the tenant of the request only. *)
Definition confined (h : Handler) : Prop :=
  forall t F c w, (forall t', q_TenantID c = Some t' -> t' = t) -> iso t F anything (h c w).

(** The tenant a handler finds in the request is the one given. *)
Ltac tenant_step :=
  match goal with
  | Ht : forall t', q_TenantID ?c = Some t' -> t' = _ |- iso _ _ _ (match GetTenantID ?c with _ => _ end) =>
    let t' := fresh "t'" in let E := fresh "E" in
    unfold GetTenantID; destruct (q_TenantID c) as [t'|] eqn:E;
    [rewrite (Ht t' eq_refl); clear Ht E|]
  end.
Ltac confined := intros ? ? ? ? ?; repeat first [tenant_step | iso_step].

Lemma iso_send t F to name template vars priority send :
  emailService s = Some send -> iso t F anything (send t to name template vars priority).
Proof. intros [= <-]. apply iso_SendTemplateEmail. Qed.
#[local] Hint Resolve iso_send : iso.

Lemma iso_recordLoginFailure t F h c flow user err : iso t F anything (recordLoginFailure h c t flow user err).
Proof. unfold recordLoginFailure. by apply iso_Record. Qed.
Lemma iso_recordMFAFailure t F h c u flow res : iso t F anything (recordMFAFailure h c t u flow res).
Proof. by apply iso_Record. Qed.
Lemma iso_counted t F h c : iso t F anything (record h c counted).
Proof. by apply iso_ret. Qed.
#[local] Hint Resolve iso_recordLoginFailure iso_recordMFAFailure iso_counted : iso.


Lemma confined_headers f h : confined h -> confined (headers f h).
Proof. intros Hh t F c w Ht. by apply Hh. Qed.

Lemma confined_guard q h : confined h -> confined (guard (authz s) q h).
Proof.
  intros Hh t F c w Ht. specialize (fun w => Hh t F c w Ht).
  assert (Ha : forall resource action self, iso t F anything (authorize (authz s) resource action self h c w)).
  { intros. unfold authorize. repeat first [apply Hh|iso_step]. }
  destruct q; [apply Ha..|]. cbn [guard]. unfold MFAHandler.requireSelf. repeat first [apply Hh|iso_step].
Qed.

Lemma iso_run_claimed t F id p :
  id ∉ map ik_ID (db_idempotency F) -> iso t F anything p -> iso t F anything (run_claimed id p).
Proof.
  intros Hid Hp. unfold run_claimed. apply iso_bind with anything; [by apply iso_catch|].
  intros o _. cbv zeta. iso.
Qed.

Lemma confined_Idempotency ttl h : confined h -> confined (Idempotency ttl h).
Proof.
  intros Hh t F c w Ht. specialize (fun w => Hh t F c w Ht). unfold Idempotency. cbv zeta.
  destruct (_ || _); [apply Hh|]. destruct (negb _); [iso|].
  unfold GetTenantID. destruct (q_TenantID c) as [t'|]; [rewrite (Ht t' eq_refl)|iso].
  destruct (q_Body c) as [body|]; [|iso]. destruct (_ <? _); [iso|].
  apply iso_bind with anything; [iso|]. intros id _.
  do 2 (apply iso_bind with anything; [iso|]; intros ? _).
  eapply iso_bind; [apply iso_attempt, iso_Begin; reflexivity|]. cbv beta.
  intros [[[] existing]|e] Hr; cbn in Hr; [apply iso_run_claimed; auto|..].
  - destruct existing; iso.
  - iso.
Qed.

(** ** The routes *)

Lemma iso_keeps {A} t F (p : prog A) : keeps id p -> iso t F anything p.
Proof. intros Hk w w' o Hw E. apply Hk in E. unfold id in E. rewrite E. by destruct o. Qed.

Lemma confined_health `{!PingQuiet} : confined (health s).
Proof.
  intros t F c w _. unfold health. apply iso_bind with anything.
  { apply (iso_any t F (unless_error anything)), iso_attempt, iso_read. }
  intros db _. apply iso_bind with anything; [|intros redis _; iso].
  destruct (sv_redis s); [|iso]. apply iso_bind with anything; [|intros; iso].
  apply (iso_any t F (unless_error anything)), iso_attempt, iso_keeps.
  intros v v' o E. change v' with (v', o).1. rewrite <-E.
  exact (steady_run (fun db => id db = id (w_db v)) redis_Ping v (ping_quiet _) eq_refl).
Qed.

(** The routes outside of /v1. *)
Definition browser_routes : list Route :=
  [GET "/health" (health s)] ++ oauth_routes s ++ account_routes s ++ registration_routes s.

Lemma browser_routes_confined `{!PingQuiet} :
  Forall (fun r => confined (rt_Handler r)) browser_routes.
Proof.
  unfold browser_routes, oauth_routes, account_routes, registration_routes, Group, GET, POST, PUT, DELETE, plain.
  cbv zeta. cbn [map app rt_Method rt_Path rt_Handler].
  repeat (apply List.Forall_cons;
          [cbn [rt_Handler]; first [exact confined_health | solve [try apply confined_headers; confined]]|]).
  apply List.Forall_nil.
Qed.

(** The handlers of /v1 behind their guards; those of the super admins are
    not confined. *)
Definition tenant_entry (e : string * string * requirement) (r : Route) : Prop :=
  (rt_Method r, rt_Path r) = e.1 /\
  exists h, rt_Handler r = api_use s (guard (authz s) e.2 h) /\ (e.2 <> NeedSuperAdmin -> confined h).

Lemma api_routes_confined : Forall2 tenant_entry access_matrix (api_routes s).
Proof.
  unfold api_routes, Group, tenant_routes, user_routes, mfa_routes, client_routes,
    registration_management_routes, rbac_routes, audit_routes.
  unfold Group, GET, POST, PUT, DELETE, plain, access_matrix.
  cbv zeta. cbn [map app rt_Method rt_Path rt_Handler].
  repeat (apply List.Forall2_cons;
          [split; [reflexivity|eexists; cbn [snd guard rt_Handler]; split; [reflexivity|]];
           intros Hq; first [destruct Hq; reflexivity | clear Hq; confined]|]).
  apply List.Forall2_nil.
Qed.

(** ** A request *)

(** A confined program run on distinct primary keys keeps what is elsewhere. *)
Lemma iso_elsewhere {A} t (p : prog A) Q v v' o :
  (forall F, iso t F Q p) -> primary_keys (w_db v) -> run p v = (v', o) ->
  elsewhere t (w_db v') = elsewhere t (w_db v).
Proof.
  intros Hp Hk E. by apply isolated_elsewhere, (Hp _ _ _ _ (elsewhere_isolated t _ Hk) E).
Qed.

(** The tenant a request runs for; without one, any will do. *)
Definition tenant_of (c : Request) : uuid := default uuid_Nil (q_TenantID c).
Lemma confined_elsewhere h c w0 v v' o :
  confined h -> primary_keys (w_db v) -> run (h c w0) v = (v', o) ->
  elsewhere (tenant_of c) (w_db v') = elsewhere (tenant_of c) (w_db v).
Proof.
  intros Hh. apply iso_elsewhere with anything. intros F. apply Hh.
  unfold tenant_of. by intros t' ->.
Qed.

(** The caller's token is the tenant's. *)
Definition token_tenant (c : Request) (db : DB) (t : uuid) : Prop :=
  exists n claims, validated (authService s) t (bearer c) (env_now n) claims db.

Lemma api_use_elsewhere `{!JwtLaws} `{!JwtDecodes} h c w0 v v' o :
  keyset_ok (sv_keys s) -> (forall k, k ∈ ks_keys (sv_keys s) -> made k) ->
  confined h -> primary_keys (w_db v) -> run (api_use s h c w0) v = (v', o) ->
  w_db v' = w_db v \/
  exists t, elsewhere t (w_db v') = elsewhere t (w_db v) /\ token_tenant c (w_db v) t.
Proof.
  intros Hks Hmade Hh Hk E. unfold api_use in E.
  destruct (run_RequireAuth (authService s) _ _ _ _ _ _ Hks Hmade E)
    as [[Hdb _]|(c1 & v1 & t & claims & [Hdb _] & E1 & Hval & _ & Ht & _)]; [by left|]. right.
  exists t. split; [|eexists _, _; exact Hval].
  assert (Hdb1 : w_db v1 = w_db v) by exact Hdb.
  rewrite <-Hdb1 in Hk |- *. apply (confined_elsewhere _ _ _ _ _ _ (confined_Idempotency _ _ Hh) Hk) in E1.
  unfold tenant_of in E1. by rewrite Ht in E1.
Qed.

(** What the router may select for a request that needs no super admin. *)
Lemma select_confined `{!PingQuiet} c :
  (forall r, selected s c r -> (rt_Method r, rt_Path r, NeedSuperAdmin) ∉ access_matrix) ->
  (confined (select (setupRoutes s) c).1 /\ (forall r, selected s c r -> r ∈ browser_routes)) \/
  exists h, (select (setupRoutes s) c).1 = api_use s h /\ confined h.
Proof.
  unfold select, selected. cbv zeta. intros Hq.
  destruct (gin_match _ _ _) as [[i params]|];
    [|left; split; [intros ? ? ? ? _; by apply iso_ret|by intros r (? & ? & ? & ?)]].
  destruct (setupRoutes s !! i) as [r|] eqn:Hr;
    [|left; split; [intros ? ? ? ? _; by apply iso_ret|intros r (? & ? & [= <- <-] & ?); congruence]].
  specialize (Hq r (ex_intro _ i (ex_intro _ params (conj eq_refl Hr)))).
  assert (Hcase : setupRoutes s = browser_routes ++ api_routes s)
    by (unfold setupRoutes, browser_routes; by rewrite !app_assoc).
  rewrite Hcase in Hr. apply lookup_app_Some in Hr as [Hr|[_ Hr]]; cbn [fst].
  - left. split; [exact (proj1 (Forall_lookup _ _) browser_routes_confined i r Hr)|].
    intros r' (? & ? & [= <- <-] & Hr'). rewrite Hcase, (lookup_app_l_Some _ _ _ _ Hr) in Hr'.
    injection Hr' as <-. by eapply list_elem_of_lookup_2.
  - right. destruct (Forall2_lookup_r _ _ _ _ _ api_routes_confined Hr) as ([e q] & He & Hn & h & Hh & Hc).
    exists (guard (authz s) q h). split; [exact Hh|]. apply confined_guard, Hc. cbn [snd]. intros ->.
    apply Hq. rewrite Hn. by eapply list_elem_of_lookup_2.
Qed.

(** C8: tenants are isolated. Unless the route of a request is one of those
    the access matrix keeps for super admins, serving the request changes rows
    of one tenant only, in every table of the database: the rows of all other
    tenants are the same rows, in the same order, afterwards, and so are the
    tenants, the permissions and the grants of other tenants' roles. On the
    routes of /v1 that one tenant is the tenant of the access token in the
    request, which the service validated. *)
Theorem ServeHTTP_isolated `{!JwtLaws} `{!JwtDecodes} `{!PingQuiet} c w w' o :
  keyset_ok (sv_keys s) -> (forall k, k ∈ ks_keys (sv_keys s) -> made k) ->
  primary_keys (w_db w) ->
  (forall r, selected s c r -> (rt_Method r, rt_Path r, NeedSuperAdmin) ∉ access_matrix) ->
  run (ServeHTTP s c) w = (w', o) ->
  exists t, elsewhere t (w_db w') = elsewhere t (w_db w) /\
    ((forall r, selected s c r -> r ∈ browser_routes) \/ w_db w' = w_db w \/
     token_tenant c (w_db w) t).
Proof.
  intros Hks Hmade Hk Hq E. unfold ServeHTTP in E. cbv zeta in E.
  change (selected s c) with (selected s (incoming c)) in Hq |- *.
  destruct (select_confined (incoming c) Hq) as [[Hh Hr]|(h & Hsel & Hh)];
    destruct (select (setupRoutes s) (incoming c)) as [hd params]; cbn [fst] in *;
    (apply run_router_use in E as [[Hdb _]|(c' & w1 & v1 & (_ & Hhd & _) & [Hdb _] & E)]; [| |done]);
    try solve [exists uuid_Nil; rewrite Hdb; auto].
  - rewrite <-Hdb in Hk |- *. exists (tenant_of c'). split; [by eapply confined_elsewhere|by left].
  - subst hd. rewrite <-Hdb in Hk |- *.
    apply api_use_elsewhere in E as [Hsame|(t & He & n & claims & Hval)]; [| |done..].
    + exists uuid_Nil. rewrite Hsame. auto.
    + exists t. split; [done|]. right. right. exists n, claims.
      assert (Hb : bearer c' = bearer c) by (unfold bearer, GetHeader; by rewrite Hhd).
      by rewrite <-Hb.
Qed.
End Handlers.

(** ** A witness *)

From S2P Require Import Examples.

Section Witness.
#[local] Existing Instances any_bind some_bcrypt some_redirect some_pending some_net some_redis
  some_json some_rendering some_order some_smtp some_mime exact_router.

#[local] Instance some_ping : PingQuiet.
Proof. by intros I. Qed.

(** The client of tenant 1 revokes its refresh token; tenant 2 has one of the
    same family. *)
Definition revocation : Request := example_request <| q_Method := "POST" |>
  <| q_Path := "/oauth/revoke" |> <| q_Header := [("X-Tenant-ID", uuid_String 1)] |>
  <| q_PostForm := [("token", "refresh"); ("client_id", "client_app")] |>.
Definition two_tenants : DB := example_db
  <| db_refreshTokens := [example_refresh;
       example_refresh <| rt_ID := 62%N |> <| rt_TenantID := 2%N |> <| rt_Token := "theirs" |>] |>.

Lemma revocation_route r : selected example_server revocation r ->
  (rt_Method r, rt_Path r) = ("POST", "/oauth/revoke").
Proof.
  intros (i & params & Hm & Hi).
  assert (Hn : option_map (fun r => (rt_Method r, rt_Path r)) (setupRoutes example_server !! i)
    = Some ("POST", "/oauth/revoke")).
  { vm_compute in Hm. injection Hm as <- _. vm_compute. reflexivity. }
  rewrite Hi in Hn. cbn [option_map] in Hn. congruence.
Qed.

Lemma ServeHTTP_isolated_witness :
  let w' := after (ServeHTTP example_server revocation) (example_world two_tenants) in
  map rt_ID (db_refreshTokens (w_db w')) = [62%N] /\
  exists t, elsewhere t (w_db w') = elsewhere t two_tenants.
Proof.
  intros w'. split; [vm_compute; reflexivity|].
  destruct (run (ServeHTTP example_server revocation) (example_world two_tenants)) as [w1 o] eqn:E.
  assert (Hw : w' = w1) by (unfold w', after; by rewrite E). rewrite Hw. clear Hw w'.
  pose proof example_decodes as Hdec.
  destruct (ServeHTTP_isolated example_server revocation (example_world two_tenants) w1 o) as (t & He & _).
  - exact TokenSpec.example_keys.
  - exact example_made.
  - split; apply (bool_decide_unpack _); vm_compute; exact I.
  - intros r ->%revocation_route Hin. unfold access_matrix in Hin.
    repeat (apply elem_of_cons in Hin as [Hin|Hin]; [discriminate|]). by apply elem_of_nil in Hin.
  - exact E.
  - exists t. exact He.
Defined.
End Witness.
