(* ===== verification/SchemaSpec.v ===== *)
(** The schema's promises hold at every moment, however requests interleave. *)
From S2P Require Import Prelude GoStd Models Effects Store Repos AccountRepos RbacRepos AuditRepo.
From S2P Require Import Libraries JwtKeys AuditTrail Http Scope AuthService Rbac TenantService Mfa.
From S2P Require Import Registration MfaService DeviceFlow Session ClientService UserService.
From S2P Require Import EmailRepos EmailService HandlerSecurity TokenEndpoint Authorize BrowserPages Redis.
From S2P Require Import Middleware Idempotency Management RegistrationHandler AccountPages Routes.
From S2P Require Import Concurrency Schema Isolation RoutesSpec IsolationSpec.

Open Scope Z_scope.

(** ** The loops and steps of the services *)

Section Loops.
Context `{Env} `{UuidLib} `{UnicodeTables} `{BcryptLib} `{MapOrder} `{SmtpServer} `{MimeLib}.
Abbreviation steady := (steady consistent).

Lemma steady_WithRandom {X : Set} f : steady (WithRandom (A := X) f).
Proof. by apply steady_step. Qed.
Lemma steady_user_code_loop n : steady (user_code_loop n).
Proof. induction n; cbn [user_code_loop]; steady. Qed.
Lemma steady_recovery_codes n : steady (Mfa.new_codes n).
Proof. induction n; cbn [Mfa.new_codes]; steady. Qed.
Lemma steady_new_codes t u now hashes : steady (MFARepo.new_codes t u now hashes).
Proof. induction hashes; cbn [MFARepo.new_codes]; steady. Qed.
Lemma steady_add_permissions t r names : steady (RoleService.add_permissions t r names).
Proof. induction names; cbn [RoleService.add_permissions]; steady. Qed.
Lemma steady_remove_grants r grants : steady (RoleService.remove_grants r grants).
Proof. induction grants; cbn [RoleService.remove_grants]; steady. Qed.
Lemma steady_load_permissions grants : steady (RoleService.load_permissions grants).
Proof. induction grants; cbn [RoleService.load_permissions]; steady. Qed.
Lemma steady_load_roles t l : steady (RoleService.load_roles t l).
Proof. induction l; cbn [RoleService.load_roles]; steady. Qed.
Lemma steady_detach p grants : steady (PermissionService.detach p grants).
Proof. induction grants; cbn [PermissionService.detach]; steady. Qed.
Lemma steady_collect_grants seen acc grants : steady (PermissionService.collect_grants seen acc grants).
Proof. revert seen acc. induction grants; intros; cbn [PermissionService.collect_grants]; steady. Qed.
#[local] Hint Resolve steady_collect_grants : steady.
Lemma steady_collect_roles t seen acc l : steady (PermissionService.collect_roles t seen acc l).
Proof. revert seen acc. induction l; intros; cbn [PermissionService.collect_roles]; steady. Qed.
Lemma steady_render template vars escape : steady (render template vars escape).
Proof. unfold render. steady. apply steady_step; [done|]. intros. steady. Qed.

Lemma steady_smtp c : steady (smtp c).
Proof. apply steady_step; [done|]. by intros []. Qed.
Lemma steady_STARTTLS : steady Extension_STARTTLS.
Proof. by apply steady_step. Qed.
Lemma steady_close_data from to body written : steady (close_data from to body written).
Proof.
  apply steady_step; [|by intros []]. intros w. cbv zeta.
  destruct (smtp_answer _ _); [done|]. by destruct written.
Qed.
#[local] Hint Resolve steady_smtp steady_STARTTLS steady_close_data : steady.
Lemma steady_deferring {A} cleanup (p : prog A) : steady cleanup -> steady p -> steady (deferring cleanup p).
Proof. intros Hc Hp. unfold deferring. steady. Qed.
Lemma steady_sendViaSMTP cfg email : steady (sendViaSMTP cfg email).
Proof.
  unfold sendViaSMTP. steady. all: unfold smtp_session; repeat first [apply steady_deferring|steady_step].
Qed.
#[local] Hint Resolve steady_sendViaSMTP : steady.
Lemma steady_process_all cfg emails : steady (process_all cfg emails).
Proof. induction emails; cbn [process_all]; steady. Qed.
End Loops.
#[export] Hint Resolve steady_WithRandom steady_user_code_loop steady_recovery_codes steady_new_codes
  steady_add_permissions steady_remove_grants steady_load_permissions steady_load_roles steady_detach
  steady_collect_grants steady_collect_roles steady_render
  steady_process_all : steady.

Section Handlers.
Context `{Env} `{UuidLib} `{JwtLib} `{UnicodeTables} `{BcryptLib} `{AeadLib} `{RedirectLib}.
Context `{PendingJson} `{NetLib} `{RedisLib} `{JsonLib} `{Rendering} `{MapOrder} `{SmtpServer}.
Context `{MimeLib} `{GinRouter}.
Context `{JsonBind CreateRoleRequest} `{JsonBind UpdateRoleRequest} `{JsonBind AddPermissionRequest}.
Context `{JsonBind AssignRoleRequest} `{JsonBind CreatePermissionRequest}.
Context `{JsonBind UpdatePermissionRequest} `{JsonBind CreateTenantRequest}.
Context `{JsonBind UpdateTenantRequest} `{JsonBind CreateUserRequest} `{JsonBind UpdateUserRequest}.
Context `{JsonBind ChangePasswordRequest} `{JsonBind CreateClientRequest}.
Context `{JsonBind UpdateClientRequest} `{JsonBind MFACodeRequest} `{JsonBind ClientMetadata}.
Context `{JsonBind CreateInitialAccessTokenRequest}.
Context (s : Server).

#[local] Hint Extern 0 (steady _ redis_Ping) => apply ping_quiet : steady.

Lemma routes_steady `{!PingQuiet} : Forall (fun r => forall c w, steady consistent (rt_Handler r c w)) (setupRoutes s).
Proof.
  unfold setupRoutes, oauth_routes, account_routes, registration_routes, api_routes, tenant_routes,
    user_routes, mfa_routes, client_routes, registration_management_routes, rbac_routes, audit_routes.
  unfold Group, GET, POST, PUT, DELETE, plain.
  cbv zeta. cbn [map app rt_Method rt_Path rt_Handler]. unfold emailService.
  repeat (apply List.Forall_cons; [cbn [rt_Handler]; intros c w; solve [steady]|]).
  apply List.Forall_nil.
Qed.

Lemma steady_use (h : Handler) c w :
  (forall c w, steady consistent (h c w)) -> steady consistent (unlimited_use s h c w).
Proof.
  intros Hh. unfold unlimited_use, CORS, TenantContext, RequestID, RequestContext, with_request_id.
  repeat first [apply Hh|steady_step].
Qed.

Lemma select_steady `{!PingQuiet} c c' w : steady consistent ((select (setupRoutes s) c).1 c' w).
Proof.
  unfold select. cbv zeta. destruct (gin_match _ _ _) as [[i params]|]; [|apply steady_ret].
  destruct (setupRoutes s !! i) as [r|] eqn:E; [|apply steady_ret].
  exact (proj1 (Forall_lookup _ _) routes_steady i r E c' w).
Qed.
Lemma ServeHTTP_steady `{!PingQuiet} c : steady consistent (ServeHTTP s c).
Proof.
  unfold ServeHTTP. cbv zeta. generalize (select_steady (incoming c)).
  generalize (select (setupRoutes s) (incoming c)). intros [h params] Hh.
  rewrite router_use_unlimited by done. apply steady_use. exact Hh.
Qed.

Lemma email_round_steady : steady consistent (email_round s).
Proof. steady. Qed.
Lemma cleanup_round_steady : steady consistent cleanup_round.
Proof. steady. Qed.

(** What the server does at once: requests and rounds of its workers. *)
Definition activity (p : prog unit) : Prop :=
  (exists c, p = (ServeHTTP s c ≫= fun _ => mret tt)) \/ p = email_round s \/ p = cleanup_round.

Lemma activity_steady `{!PingQuiet} p : activity p -> steady consistent p.
Proof.
  intros [[c ->]|[->| ->]]; [|apply email_round_steady|apply cleanup_round_steady].
  apply steady_bind; [apply ServeHTTP_steady|intros; apply steady_ret].
Qed.
End Handlers.

(** Steady programs keep the invariant however their steps interleave. *)
Lemma steady_interleave {A} I (ps : list (prog A)) schedule w :
  Forall (steady I) ps -> I (w_db w) -> I (w_db (interleave schedule (ps, w)).2).
Proof.
  intros Hps Hw.
  refine (proj2 (interleaving_inv (fun _ _ => False) (fun ps w => Forall (steady I) ps /\ I (w_db w))
    (ps, w) _ _ _ (interleave_interleaving _ schedule _) (conj Hps Hw))); [|done].
  clear. intros i ps w p [Hps Hw] Hi. pose proof (proj1 (Forall_lookup _ _) Hps i p Hi) as Hp.
  destruct p as [o|X act k]; cbn [step_prog fst snd].
  - split; [by apply Forall_insert|done].
  - destruct (Hp w) as [Ha Hk]. split; [by apply Forall_insert|]. by apply Ha.
Qed.

(** ** What the schema promises *)

Lemma distinct_eq {R : Set} `{Row R} `{!Indexed R} (l : list R) r r' :
  distinct l -> r ∈ l -> r' ∈ l -> clashes r r' = true -> r = r'.
Proof.
  induction l as [|x l IH]; [set_solver|]. intros [Hx Hl] Hr Hr' Hc.
  apply elem_of_cons in Hr as [->|Hr], Hr' as [->|Hr']; [done|..|by apply IH].
  - rewrite (Hx r' Hr') in Hc. done.
  - rewrite clashes_sym, (Hx r Hr) in Hc. done.
Qed.

Lemma distinct_keys {R : Set} `{Row R} `{!Indexed R} (l : list R) : distinct l -> keys l.
Proof.
  unfold keys. induction l as [|x l IH]; [constructor|]. intros [Hx Hl]. simpl. constructor; [|by apply IH].
  intros (y & Hid & Hy)%list_elem_of_fmap. specialize (Hx y Hy). unfold clashes in Hx.
  by rewrite bool_decide_eq_true_2 in Hx.
Qed.
Lemma consistent_primary_keys db : consistent db -> primary_keys db.
Proof. intros []. by constructor; apply distinct_keys. Qed.

(** Rows of a table that agree on [key], of those that [live], are one row. *)
Definition identifies {R K : Type} (key : R -> K) (live : R -> bool) (l : list R) : Prop :=
  forall r r', r ∈ l -> r' ∈ l -> live r = true -> live r' = true -> key r = key r' -> r = r'.

Record promises (db : DB) : Prop := {
  one_domain : identifies tn_Domain row_live (db_tenants db);
  one_email : identifies (fun u => (us_TenantID u, us_Email u)) row_live (db_users db);
  one_username : identifies (fun u => (us_TenantID u, us_Username u)) row_live (db_users db);
  one_client : identifies (fun c => (cl_TenantID c, cl_ClientID c)) row_live (db_clients db);
  one_role : identifies (fun r => (ro_TenantID r, ro_Name r)) row_live (db_roles db);
  one_permission : identifies pm_Name row_live (db_permissions db);
  one_code : identifies ac_Code row_live (db_authCodes db);
  one_access : identifies at_Token row_live (db_accessTokens db);
  one_refresh : identifies rt_Token row_live (db_refreshTokens db);
  one_device : identifies dc_DeviceCode row_live (db_deviceCodes db);
  one_user_code : identifies dc_UserCode row_live (db_deviceCodes db);
  one_session : identifies ss_TokenHash row_live (db_sessions db);
  one_consent : identifies (fun c => (cs_TenantID c, cs_UserID c, cs_ClientID c)) row_live (db_consents db);
  one_factor : identifies mf_UserID row_live (db_mfa db);
  one_grant : identifies (fun r => (ur_TenantID r, ur_UserID r, ur_RoleID r)) row_live (db_userRoles db);
  one_idempotency : identifies (fun k => (ik_TenantID k, ik_Principal k, ik_Key k)) row_live (db_idempotency db)
}.

Lemma consistent_promises db : consistent db -> promises db.
Proof.
  intros []. constructor; intros r r' Hr Hr' Hl Hl' Hk;
    repeat match goal with E : (_, _) = (_, _) |- _ => apply pair_equal_spec in E as [? ?] end;
    (eapply distinct_eq; [eassumption|exact Hr|exact Hr'|]); unfold clashes; cbn in *;
    rewrite ?Hl, ?Hl';
    repeat match goal with |- context [bool_decide (?a = ?b)] =>
      rewrite (bool_decide_eq_true_2 (a = b)) by congruence end; by rewrite ?orb_true_r.
Qed.

Section Invariant.
Context `{Env} `{UuidLib} `{JwtLib} `{UnicodeTables} `{BcryptLib} `{AeadLib} `{RedirectLib}.
Context `{PendingJson} `{NetLib} `{RedisLib} `{JsonLib} `{Rendering} `{MapOrder} `{SmtpServer}.
Context `{MimeLib} `{GinRouter}.
Context `{JsonBind CreateRoleRequest} `{JsonBind UpdateRoleRequest} `{JsonBind AddPermissionRequest}.
Context `{JsonBind AssignRoleRequest} `{JsonBind CreatePermissionRequest}.
Context `{JsonBind UpdatePermissionRequest} `{JsonBind CreateTenantRequest}.
Context `{JsonBind UpdateTenantRequest} `{JsonBind CreateUserRequest} `{JsonBind UpdateUserRequest}.
Context `{JsonBind ChangePasswordRequest} `{JsonBind CreateClientRequest}.
Context `{JsonBind UpdateClientRequest} `{JsonBind MFACodeRequest} `{JsonBind ClientMetadata}.
Context `{JsonBind CreateInitialAccessTokenRequest}.
Context (s : Server).

(** C9: the database is well formed at every moment. However many requests and
    worker rounds run at once, and however their atomic steps interleave,
    finished or not, a database without clashes of primary keys and unique
    indexes stays one: in every table the primary key identifies a row, and
    so do a live tenant's domain, a live user's email and username within the
    tenant, a client ID, a role's name, codes, tokens, sessions, consents,
    second factors, assignments and idempotency keys. *)
Theorem schema_kept `{!PingQuiet} ps schedule w :
  Forall (activity s) ps -> consistent (w_db w) ->
  let db := w_db (interleave schedule (ps, w)).2 in
  consistent db /\ primary_keys db /\ promises db.
Proof.
  intros Hps Hw db. assert (Hdb : consistent db).
  { apply (steady_interleave consistent); [|exact Hw].
    exact (List.Forall_impl _ (activity_steady s) Hps). }
  split; [done|]. split; [by apply consistent_primary_keys|by apply consistent_promises].
Qed.
End Invariant.

(** ** A witness *)

From S2P Require Import Examples.

Section Witness.
#[local] Existing Instances any_bind some_bcrypt some_redirect some_pending some_net some_redis
  some_json some_rendering some_order some_smtp some_mime exact_router some_ping.

(** The client of tenant 1 revokes its token twice at once, while both
    workers run. *)
Definition at_once : list (prog unit) :=
  let request : prog unit := ServeHTTP example_server revocation ≫= fun _ => mret tt in
  [request; request; email_round example_server; cleanup_round].

Lemma schema_kept_witness :
  let db := w_db (interleave (concat (repeat [0; 1; 2; 3]%nat 20)) (at_once, example_world two_tenants)).2 in
  map rt_ID (db_refreshTokens db) = [62%N] /\ promises db.
Proof.
  intros db. split; [vm_compute; reflexivity|].
  refine (proj2 (proj2 (schema_kept example_server at_once _ (example_world two_tenants) _ _))).
  - unfold at_once. repeat apply List.Forall_cons; [left; by eexists|left; by eexists|by right; left|
      by right; right|apply List.Forall_nil].
  - constructor; cbn; repeat split; intros r Hr; try (apply elem_of_nil in Hr; done).
    apply list_elem_of_singleton in Hr as ->. vm_compute. reflexivity.
Defined.
End Witness.
