(* ===== verification/AccountPagesSpec.v ===== *)
(** What the password reset page tells about who has an account. *)
From S2P Require Import Prelude GoStd StringFacts Hash Models Effects Store Repos AccountRepos Libraries Config.
From S2P Require Import AuditTrail Http AuthService UserService EmailService SenderSpec HandlerSecurity.
From S2P Require Import Middleware Management AccountPages UserSpec RbacSpec.
From stdpp Require Import gmap.

Open Scope Z_scope.

(** The two pages the form is answered with. *)
Definition sent_page (w : Response) : Response :=
  c_HTML w StatusOK "account.html"
    [("view", HString "message"); ("title", HString "Check your email");
     ("message", HString "If an account exists for that address, we sent a link to reset the password. The link expires in one hour.")].
Definition failed_page (w : Response) : Response :=
  c_HTML w StatusInternalServerError "account.html"
    [("view", HString "message"); ("title", HString "Something went wrong");
     ("message", HString "We could not send the email. Please try again later.")].

(** The resets of the user since [since]. *)
Definition recent_resets (t id : uuid) (since : Z) (db : DB) : Z :=
  Z.of_nat (length (select_where (fun r => (pr_TenantID r ==? t) && (pr_UserID r ==? id)
                                           && time_after (pr_CreatedAt r) since) (db_passwordResets db))).
(** Whom a request for a reset at [now] is to be answered with an email:
    the account of the address, when it has one that is not suspended and
    had fewer than three in the last hour. *)
Definition to_mail (t : uuid) (email : string) (now : Z) (db : DB) : option User :=
  match first_where (email_key t email) (db_users db) with
  | Some u => if IsSuspended u then None
              else if MaxPasswordResetsPerHour <=? recent_resets t (us_ID u) (now - hour) db then None
              else Some u
  | None => None
  end.

Section Forgot.
Context `{Env} `{MapOrder} (cfg : Config).
Implicit Types v : World.

(** No reset stored so far has an identifier or a token that is yet to be
    drawn. *)
Definition resets_fresh v : Prop :=
  forall r n, r ∈ db_passwordResets (w_db v) -> (w_step v <= n)%nat ->
    pr_ID r <> env_uuid n /\
    forall f, env_rand n = Some f ->
      pr_TokenHash r <> hashToken (base64_raw_url (string_of (map f (seq 0 emailLinkTokenBytes)))).

Lemma run_RandRead n v f :
  env_rand (w_step v) = Some f -> run (RandRead n) v = (tick v, Ok (string_of (map f (seq 0 n)))).
Proof. intros E. unfold RandRead, run. cbn [fst snd]. by rewrite E. Qed.

Lemma run_RevokeUnused t u v :
  env_fault (S (w_step v)) = false ->
  exists v' l, run (PasswordResetRepo.RevokeUnusedByUserID t u) v = (v', Ok tt) /\
    w_step v' = S (S (w_step v)) /\ w_db v' = (w_db v) <| db_passwordResets := l |> /\
    forall r, r ∈ l -> exists r0, r0 ∈ db_passwordResets (w_db v) /\
      pr_ID r = pr_ID r0 /\ pr_TokenHash r = pr_TokenHash r0.
Proof.
  intros Hok. unfold PasswordResetRepo.RevokeUnusedByUserID. rewrite run_bind, run_Now. cbv beta iota.
  rewrite run_bind. unfold wrap. rewrite run_map_err. unfold UpdateWhere. rewrite run_Stmt. simpl w_step.
  rewrite Hok. cbv beta iota. rewrite run_ret. eexists _, _. split; [done|]. split; [done|].
  split; [reflexivity|]. intros r (r0 & -> & Hr0)%list_elem_of_fmap. exists r0.
  split; [done|]. by destruct (_ && _).
Qed.

(** A reset with an identifier and a token hash no stored one has is stored. *)
Lemma run_reset_new r v :
  env_fault (w_step v) = false ->
  (forall x, x ∈ db_passwordResets (w_db v) -> pr_ID x <> pr_ID r /\ pr_TokenHash x <> pr_TokenHash r) ->
  exists v' r' l, run (PasswordResetRepo.Create r) v = (v', Ok r') /\
    w_step v' = S (w_step v) /\ w_db v' = (w_db v) <| db_passwordResets := l |>.
Proof.
  intros Hok Hf. unfold PasswordResetRepo.Create, wrap, Store.Insert.
  rewrite run_map_err, run_write, Hok. unfold insert_row.
  replace (existsb _ _) with false; [by eexists _, _, _|].
  symmetry. apply Bool.not_true_iff_false. intros (x & Hx%list_elem_of_In & Hc)%existsb_exists.
  destruct (Hf x Hx) as [Hi Ht]. unfold clashes in Hc. simpl in Hc.
  apply orb_true_iff in Hc as [Hc|Hc]; bool_simp; congruence.
Qed.

Lemma run_Record_ events ctx ev v :
  exists v', run (Record_ events ctx ev) v = (v', Ok tt) /\ only_audited v v'.
Proof.
  assert (Hsame : only_audited v v) by (by apply only_audited_refl).
  unfold Record_, write. destruct (_ ==? ""); [by exists v|]. destruct (negb _); [by exists v|].
  cbv zeta. rewrite run_ignore. destruct (run (Log _ _) v) as [v' [x|e|]] eqn:E;
    apply run_Log in E as [? ?]; by exists v'.
Qed.

(** What asking for a reset answers and queues. *)
Definition request_outcome (who : option User) (active : bool) (o : outcome unit) : Prop :=
  if is_some who && negb active then exists e, o = Err e else o = Ok tt.
Definition request_queue (who : option User) (active : bool) (t : uuid) (q q' : list EmailQueue) : Prop :=
  match who with
  | Some u => if active then exists e, queued_for t (us_Email u) (GetFullName u) e /\ q' = q ++ [e]
              else q' = q
  | None => q' = q
  end.

(** From drawing the token to queueing the email, for an account that is to
    be mailed. *)
Lemma run_mail_reset baseURL t u v :
  (forall n, (w_step v <= n)%nat -> env_fault n = false) ->
  (forall n, (w_step v <= n)%nat -> env_rand n <> None) -> resets_fresh v -> queue_fresh v ->
  let active := template_active t "password_reset" (w_db v) in
  exists v' o,
    run (token ← wrap "failed to generate reset token" (randomToken emailLinkTokenBytes);
         PasswordResetRepo.RevokeUnusedByUserID t (us_ID u) ;;
         id ← NewUUID;
         now ← Now;
         PasswordResetRepo.Create {|
           pr_ID := id; pr_TenantID := t; pr_UserID := us_ID u;
           pr_TokenHash := hashToken token; pr_ExpiresAt := now + PasswordResetDuration;
           pr_UsedAt := None; pr_CreatedAt := time_zero |} ;;
         let link := baseURL +:+ "/account/reset-password?token=" +:+ QueryEscape token in
         wrap "failed to send password reset email"
           (EmailService.SendTemplateEmail cfg t (us_Email u) (GetFullName u) "password_reset"
              [("user_name", displayName u); ("reset_link", link); ("expires_minutes", "60")] 1)) v
      = (v', o) /\
    request_outcome (Some u) active o /\
    request_queue (Some u) active t (db_emailQueue (w_db v)) (db_emailQueue (w_db v')).
Proof.
  intros Hok Hrand Hf Hq active. rewrite run_bind. unfold wrap. rewrite run_map_err. unfold randomToken.
  rewrite run_bind. destruct (env_rand (w_step v)) as [f|] eqn:Ef; [|by apply Hrand in Ef].
  rewrite (run_RandRead _ _ _ Ef). cbv beta iota. rewrite run_ret. cbv beta iota. rewrite run_bind.
  destruct (run_RevokeUnused t (us_ID u) (tick v)) as (v1 & l & -> & Hs1 & Hdb1 & Hl);
    [apply Hok; simpl; lia|].
  cbv beta iota. rewrite run_bind, run_NewUUID. cbv beta iota. rewrite run_bind, run_Now.
  cbv beta iota. rewrite run_bind. simpl in Hs1.
  match goal with |- context [run (PasswordResetRepo.Create ?r) ?v2] =>
    destruct (run_reset_new r v2) as (v3 & r' & l' & E3 & Hs3 & Hdb3) end.
  { apply Hok. simpl. lia. }
  { intros x Hx. change (w_db (tick _)) with (w_db v1) in Hx. rewrite Hdb1 in Hx.
    apply Hl in Hx as (x0 & Hx0 & -> & ->). split; [|].
    - apply (Hf x0); [done|simpl; lia].
    - by apply (Hf x0 (w_step v)). }
  rewrite E3. cbv beta iota zeta. rewrite run_map_err. simpl in Hs3.
  assert (Hdb : w_db v3 = (w_db v) <| db_passwordResets := l' |>).
  { rewrite Hdb3. change (w_db (tick _)) with (w_db v1). by rewrite Hdb1. }
  match goal with |- context [run (EmailService.SendTemplateEmail ?c ?a ?b ?d ?e ?g ?h) v3] =>
    destruct (run_SendTemplateEmail c a b d e g h v3) as (v4 & o & E4 & Hcase) end.
  { intros n Hn. apply Hok. lia. }
  { intros e n He Hn. rewrite Hdb in He. apply (Hq e); [done|lia]. }
  { by eexists. }
  rewrite E4. replace (template_active t "password_reset" (w_db v3)) with active in Hcase
    by (by rewrite Hdb).
  unfold request_outcome, request_queue. destruct active.
  - destruct Hcase as [-> (e & He & Hdb4)]. eexists _, _. split; [done|]. split; [done|].
    exists e. split; [done|]. by rewrite Hdb4, Hdb.
  - destruct Hcase as [[e ->] Hdb4]. eexists _, _. split; [done|]. split; [by eexists|].
    by rewrite Hdb4, Hdb.
Qed.

(** A request is answered alike for every address, except when the email
    that an account is to get cannot be rendered. *)
Lemma run_RequestPasswordReset baseURL t email v :
  (forall n, (w_step v <= n)%nat -> env_fault n = false) ->
  (forall n, (w_step v <= n)%nat -> env_rand n <> None) -> resets_fresh v -> queue_fresh v ->
  let who := to_mail t email (env_now (S (w_step v))) (w_db v) in
  let active := template_active t "password_reset" (w_db v) in
  exists v' o,
    run (RequestPasswordReset (Some (EmailService.SendTemplateEmail cfg)) baseURL t email) v = (v', o) /\
    request_outcome who active o /\
    request_queue who active t (db_emailQueue (w_db v)) (db_emailQueue (w_db v')).
Proof.
  intros Hok Hrand Hf Hq who active. subst who. unfold RequestPasswordReset, to_mail.
  rewrite run_bind, run_attempt, run_GetByEmail, Hok by lia.
  destruct (first_where _ _) as [u|]; cbv beta iota; [|by eexists _, _].
  destruct (IsSuspended u); [by eexists _, _|].
  rewrite run_bind, run_Now. cbv beta iota. rewrite run_bind.
  unfold PasswordResetRepo.CountSince, wrap. rewrite run_map_err. unfold Count.
  rewrite run_Stmt, Hok by (simpl; lia). cbv beta iota.
  change (Z.of_nat (length (select_where _ (rows (w_db (tick (tick v)))))))
    with (recent_resets t (us_ID u) (env_now (S (w_step v)) - hour) (w_db v)).
  destruct (_ <=? _); [by eexists _, _|].
  match goal with |- exists _ _, run _ ?v3 = _ /\ _ =>
    destruct (run_mail_reset baseURL t u v3) as (v' & o & E & Ho & Hq') end.
  - intros n Hn. apply Hok. simpl in Hn. lia.
  - intros n Hn. apply Hrand. simpl in Hn. lia.
  - intros r n Hr Hn. apply Hf; [done|]. simpl in Hn. lia.
  - intros e n He Hn. apply Hq; [done|]. simpl in Hn. lia.
  - exists v', o. split; [exact E|]. split; [exact Ho|exact Hq'].
Qed.
(** C22: what the forgotten-password form tells about who has an account.
    With a valid form and an address, a database that answers and
    identifiers that are new, the answer is one page, the same whatever
    users, resets and limits the database holds, with one exception: when
    the tenant's own password_reset template is inactive, the addresses that
    are to be mailed get the page of a server error instead. An email is
    queued, one row for the account's address, exactly when the address
    belongs to an account that is not suspended and had fewer than three
    resets in the last hour, and the template is active. *)
Theorem ForgotPassword_uniform baseURL events c w0 t v :
  (forall n, (w_step v <= n)%nat -> env_fault n = false) ->
  (forall n, (w_step v <= n)%nat -> env_rand n <> None) -> resets_fresh v -> queue_fresh v ->
  GetTenantID c = Some t -> AccountHandler.validCSRF cfg c = true ->
  TrimSpace (PostForm c "email") <> "" ->
  let who := to_mail t (TrimSpace (PostForm c "email")) (env_now (S (w_step v))) (w_db v) in
  let active := template_active t "password_reset" (w_db v) in
  exists v',
    run (AccountHandler.ForgotPassword cfg (Some (EmailService.SendTemplateEmail cfg)) baseURL
           events c w0) v =
      (v', Ok (if is_some who && negb active then failed_page w0 else sent_page w0)) /\
    match who with
    | Some u => if active
                then exists e, queued_for t (us_Email u) (GetFullName u) e /\
                               db_emailQueue (w_db v') = db_emailQueue (w_db v) ++ [e]
                else db_emailQueue (w_db v') = db_emailQueue (w_db v)
    | None => db_emailQueue (w_db v') = db_emailQueue (w_db v)
    end.
Proof.
  intros Hok Hrand Hf Hq Ht Hcsrf Hemail who active.
  unfold AccountHandler.ForgotPassword, AccountHandler.tenant.
  rewrite Ht, Hcsrf. cbn [negb]. cbv zeta. rewrite (bool_decide_eq_false_2 _ Hemail).
  unfold result_of. rewrite run_bind, run_attempt.
  destruct (run_RequestPasswordReset baseURL t (TrimSpace (PostForm c "email")) v Hok Hrand Hf Hq)
    as (v1 & o & -> & Ho & Hqueue).
  change (request_queue who active t (db_emailQueue (w_db v)) (db_emailQueue (w_db v1))) in Hqueue.
  change (request_outcome who active o) in Ho. unfold request_outcome in Ho.
  destruct (is_some who && negb active).
  { destruct Ho as [e ->]. cbv beta iota. eexists. split; [reflexivity|exact Hqueue]. }
  subst o. cbv beta iota. rewrite run_bind. unfold AccountHandler.record.
  match goal with |- context [run (Record_ ?a ?b ?d) v1] =>
    destruct (run_Record_ a b d v1) as (v2 & -> & l & Hl) end.
  eexists. split; [reflexivity|]. rewrite Hl. exact Hqueue.
Qed.
End Forgot.

(** ** Witnesses *)

From S2P Require Import Examples.

(** A form with its token. *)
Definition forgot_token : string := "v." +:+ signCSRFValue (cfg_JWTSecret example_config) "v".
Definition forgot_request (email : string) : Request := example_request
  <| q_PostForm := [("csrf_token", forgot_token); ("email", email)] |>
  <| q_Cookies := [(csrfCookieName, forgot_token)] |>.
Definition forgot (email : string) : prog Response :=
  AccountHandler.ForgotPassword example_config
    (Some (@EmailService.SendTemplateEmail example_env in_order example_config))
    "https://sg" (MkRecorder true) (forgot_request email) blank.

(** The same accounts, and the tenant has switched its template off. *)
Definition silenced_world : World := example_world (empty_db <| db_users := [example_user 4] |>
  <| db_emailTemplates := [MkEmailTemplate 70 1 "password_reset" "Reset" "" "" [] false epoch epoch None] |>).

(** One address has an account and the other has not: the answers are the
    same page, and one email is queued. With the template switched off the
    first address gets an error instead. *)
Lemma ForgotPassword_uniform_witness :
  (exists v' e, run (forgot "ann@example.org") user_world = (v', Ok (sent_page blank)) /\
     db_emailQueue (w_db v') = [e] /\ eq_ToEmail e = "ann@example.org") /\
  (exists v', run (forgot "nobody@example.org") user_world = (v', Ok (sent_page blank)) /\
     db_emailQueue (w_db v') = []) /\
  (exists v', run (forgot "ann@example.org") silenced_world = (v', Ok (failed_page blank))) /\
  (exists v', run (forgot "nobody@example.org") silenced_world = (v', Ok (sent_page blank))).
Proof.
  assert (Huse : forall email v, w_step v = 0%nat -> db_passwordResets (w_db v) = [] ->
    db_emailQueue (w_db v) = [] -> TrimSpace email <> "" ->
    AccountHandler.validCSRF example_config (forgot_request email) = true ->
    let who := to_mail 1 (TrimSpace email) (env_now (S (w_step v))) (w_db v) in
    let active := template_active 1 "password_reset" (w_db v) in
    exists v', run (forgot email) v =
      (v', Ok (if is_some who && negb active then failed_page blank else sent_page blank)) /\
      request_queue who active 1 [] (db_emailQueue (w_db v'))).
  { intros email v Hv Hr Hq Hemail Hcsrf.
    destruct (@ForgotPassword_uniform example_env in_order example_config "https://sg" (MkRecorder true)
      (forgot_request email) blank 1%N v) as (v' & E & Hqueue).
    - intros n _. reflexivity.
    - intros n _. discriminate.
    - intros r n Hin _. exfalso. rewrite Hr in Hin. exact (not_elem_of_nil _ Hin).
    - intros e n Hin _. exfalso. rewrite Hq in Hin. exact (not_elem_of_nil _ Hin).
    - reflexivity.
    - exact Hcsrf.
    - exact Hemail.
    - rewrite Hq in Hqueue. exists v'. split; [exact E|exact Hqueue]. }
  assert (Ann : TrimSpace "ann@example.org" <> "") by (vm_compute; discriminate).
  assert (Nobody : TrimSpace "nobody@example.org" <> "") by (vm_compute; discriminate).
  split; [|split; [|split]].
  - destruct (Huse "ann@example.org" user_world) as (v' & E & e & He & Hq);
      [reflexivity..|exact Ann|vm_compute; reflexivity|].
    exists v', e. split; [exact E|]. split; [exact Hq|exact (proj1 (proj2 He))].
  - destruct (Huse "nobody@example.org" user_world) as (v' & E & Hq);
      [reflexivity..|exact Nobody|vm_compute; reflexivity|].
    exists v'. split; [exact E|exact Hq].
  - destruct (Huse "ann@example.org" silenced_world) as (v' & E & _);
      [reflexivity..|exact Ann|vm_compute; reflexivity|]. exists v'. exact E.
  - destruct (Huse "nobody@example.org" silenced_world) as (v' & E & _);
      [reflexivity..|exact Nobody|vm_compute; reflexivity|]. exists v'. exact E.
Defined.
