(* ===== verification/ManagementSpec.v ===== *)
(** What the endpoints of the audit log report. *)
From S2P Require Import Prelude GoStd GoTime Models Effects Store Repos AuditRepo Libraries Sorting.
From S2P Require Import AuditTrail Http Middleware Management.
From stdpp Require Import gmap.

Open Scope Z_scope.

Lemma select_where_ext {R : Set} `{Row R} (p q : R -> bool) l :
  (forall r, p r = q r) -> select_where p l = select_where q l.
Proof.
  intros E. unfold select_where. induction l as [|x l IH]; [done|]. by rewrite !filter_cons, IH, E.
Qed.

Section Audit.
Context `{Env} `{UuidLib}.
Implicit Types v : World.

(** The entries a query is about, and the newest of them. *)
Definition matching (q : AuditLogQuery) (db : DB) : list AuditLog :=
  select_where (AuditLogRepo.applyFilters q) (db_auditLogs db).
Definition newest_first (l : list AuditLog) : list AuditLog :=
  sort_rows (fun a b => al_CreatedAt b <=? al_CreatedAt a) l.

Lemma clamp_limit_bounds limit : 1 <= clamp_limit limit <= 100.
Proof.
  unfold clamp_limit. cbv zeta. destruct (Z.leb_spec limit 0); destruct (Z.ltb_spec 100 limit);
    try lia; destruct (Z.ltb_spec 100 20); lia.
Qed.

Lemma run_Query q v :
  (forall n, env_fault n = false) ->
  let limit := clamp_limit (aq_Limit q) in
  exists v', run (AuditTrail.Query q) v =
    (v', Ok (NewPaginatedResponse
               (take (Z.to_nat limit) (drop (Z.to_nat (aq_Offset q)) (newest_first (matching q (w_db v)))))
               limit (aq_Offset q) (Z.of_nat (length (matching q (w_db v)))))) /\
    w_db v' = w_db v.
Proof.
  intros Hok limit. unfold AuditTrail.Query, AuditLogRepo.Query, wrap. cbv zeta.
  rewrite run_bind, run_map_err, run_bind, run_map_err. unfold Count, FindPage.
  rewrite run_Stmt, Hok. cbv beta iota. rewrite run_bind, run_map_err, run_Stmt, Hok. cbv beta iota.
  rewrite run_ret. cbv beta iota. rewrite run_ret. fold limit. eexists (tick _ <| w_db := _ |>). split; cycle 1.
  { reflexivity. }
  cbn [aq_Limit aq_Offset]. pose proof (clamp_limit_bounds (aq_Limit q)) as Hb. fold limit in Hb.
  match goal with |- context [if ?b then _ else _] => replace b with false end.
  2: { symmetry. apply Z.ltb_ge. change (0 <= limit). lia. }
  reflexivity.
Qed.

(** What the counters of a report add up to, and what its failures are. *)
Lemma count_logs_spec l r :
  let r' := foldl count_log r l in
  rep_total_events r' = rep_total_events r /\
  rep_successful_events r' + rep_failed_events r'
    = rep_successful_events r + rep_failed_events r + Z.of_nat (length l) /\
  rep_user_actions r' + rep_client_actions r' + rep_system_actions r'
    = rep_user_actions r + rep_client_actions r + rep_system_actions r + Z.of_nat (length l) /\
  rep_failed_events r' = rep_failed_events r
    + Z.of_nat (length (List.filter (fun e => negb (al_Success e)) l)).
Proof.
  revert r. induction l as [|e l IH]; intros r; cbv zeta; [simpl; lia|].
  cbn [foldl]. specialize (IH (count_log r e)). cbv zeta in IH.
  destruct IH as (IH1 & IH2 & IH3 & IH4). rewrite IH1, IH2, IH3, IH4. clear IH1 IH2 IH3 IH4.
  cbn [List.filter length]. unfold count_log.
  destruct (al_Success e), (al_UserID e), (al_ClientID e); cbn [negb length];
    rewrite ?Nat2Z.inj_succ; simpl; lia.
Qed.

(** C34: a compliance report over a valid period names the number of all
    entries of the tenant in it as its total, but counts only the newest
    hundred: its successes and failures, and its user, client and system
    actions, add up to at most 100, and failures beyond these are missing. It
    changes nothing. *)
Theorem GetComplianceReport_covers c w0 t s e v :
  (forall n, env_fault n = false) ->
  GetTenantID c = Some t ->
  rfc3339_Parse (Query c "start_date") = Some s -> rfc3339_Parse (Query c "end_date") = Some e ->
  s.1 <= e.1 -> time_sub e.1 s.1 <= 90 * 24 * hour ->
  let entries := select_where (fun l => (al_TenantID l ==? t) && (s.1 <=? al_CreatedAt l)
                                        && (al_CreatedAt l <=? e.1)) (db_auditLogs (w_db v)) in
  let newest := take 100 (newest_first entries) in
  exists v' report,
    run (AuditHandler.GetComplianceReport c w0) v =
      (v', Ok (RespondWithSuccess c w0 StatusOK
                 (DComplianceReport (rfc3339_Format s, rfc3339_Format e) report))) /\
    w_db v' = w_db v /\
    rep_total_events report = Z.of_nat (length entries) /\
    rep_successful_events report + rep_failed_events report
      = Z.min 100 (Z.of_nat (length entries)) /\
    rep_user_actions report + rep_client_actions report + rep_system_actions report
      = Z.min 100 (Z.of_nat (length entries)) /\
    rep_failed_events report
      = Z.of_nat (length (List.filter (fun l => negb (al_Success l)) newest)).
Proof.
  intros Hok Ht Hs He Hle Hsub entries newest. unfold AuditHandler.GetComplianceReport, in_tenant.
  rewrite Ht. cbv zeta.
  destruct (bool_decide_reflect (Query c "start_date" = "")) as [E0|_]; [by rewrite E0 in Hs|].
  destruct (bool_decide_reflect (Query c "end_date" = "")) as [E0|_]; [by rewrite E0 in He|].
  cbn [orb]. rewrite Hs, He. unfold time_before. destruct (Z.ltb_spec e.1 s.1); [lia|].
  destruct (Z.ltb_spec (90 * 24 * hour) (time_sub e.1 s.1)); [lia|].
  unfold result_of. rewrite run_bind, run_attempt.
  match goal with |- context [run (AuditTrail.Query ?q) v] =>
    destruct (run_Query q v Hok) as (v' & Hrun & Hdb); rewrite Hrun;
    assert (Hm : matching q (w_db v) = entries) end.
  { apply select_where_ext. intros l.
    unfold AuditLogRepo.applyFilters, AuditLogRepo.given, AuditLogRepo.given_string. simpl.
    by rewrite !andb_true_r. }
  rewrite Hm. cbv beta iota. eexists v', _. split; [reflexivity|]. split; [exact Hdb|].
  unfold AuditHandler.generateComplianceReportSummary. cbn [pg_Items pg_Page pi_TotalCount NewPaginatedResponse].
  match goal with |- context [foldl count_log ?r ?l] =>
    pose proof (count_logs_spec l r) as Hc; assert (Hl : l = newest) by reflexivity; rewrite Hl in * end.
  cbv zeta in Hc. cbn [rep_total_events rep_successful_events rep_failed_events rep_user_actions
         rep_client_actions rep_system_actions] in Hc.
  destruct Hc as (-> & -> & -> & ->).
  assert (Hn : Z.of_nat (length newest) = Z.min 100 (Z.of_nat (length entries))).
  { unfold newest, newest_first. rewrite length_take, sort_rows_perm. lia. }
  lia.
Qed.
End Audit.

(** ** A witness *)

From S2P Require Import Examples.

(** A hundred and twenty failed logins of tenant 1. *)
Definition busy_db : DB := empty_db <| db_auditLogs :=
  map (fun i => audit_zero <| al_ID := N.of_nat i |> <| al_TenantID := 1%N |>
                  <| al_Action := AuditActionUserLoginFailed |> <| al_CreatedAt := epoch |>) (seq 1 120) |>.
Definition report_request : Request := example_request <| q_Query :=
  [("start_date", "2023-11-14T00:00:00Z"); ("end_date", "2023-11-15T00:00:00Z")] |>.

Lemma GetComplianceReport_covers_witness :
  exists v' report,
    run (AuditHandler.GetComplianceReport report_request blank) (example_world busy_db) =
      (v', Ok (RespondWithSuccess report_request blank StatusOK
                 (DComplianceReport ("2023-11-14T00:00:00Z", "2023-11-15T00:00:00Z") report))) /\
    rep_total_events report = 120 /\
    rep_successful_events report + rep_failed_events report = 100.
Proof.
  destruct (GetComplianceReport_covers report_request blank 1%N (1699920000 * second, 0)
              (1700006400 * second, 0) (example_world busy_db)) as (v' & report & E & _ & Ht & Hs & _).
  - done.
  - done.
  - vm_compute. reflexivity.
  - vm_compute. reflexivity.
  - vm_compute. discriminate.
  - vm_compute. discriminate.
  - exists v', report. split; [exact E|]. rewrite Ht, Hs. split; vm_compute; reflexivity.
Defined.
